(* ===== verification/_CoqProject ===== *)
-Q . S2P
Prelude.v
Bytes.v
CText.v
Servers.v
OverlayServers.v
Trace.v
Rle.v
IpAddr.v
PortPool.v
Ring.v
ProxySocket.v
SocketManager.v
GlobalHeap.v
BsdMitm.v
BsdSessions.v
BsdCommands.v
BsdWorld.v
SlpClient.v
Sha1.v
Tunnel.v
Runtime.v
ConfigService.v
Overlay.v
OverlayPages.v
LdnTypes.v
LdnControl.v
LdnSession.v
LdnJoin.v
LdnSilence.v
LdnServices.v
LdnIpc.v
Nifm.v
Console.v
ConsoleProps.v
ConsoleTraffic.v
ConsoleSession.v
Boot.v
