(* ===== verification/Prelude.v ===== *)
(** * sys-slp-client: verification development (root file)

    sys-slp-client is a Switch system module: it intercepts the local-wireless
    service [ldn:u] and the socket service [bsd:u] of a game and carries their
    traffic to the consoles of other players over one UDP socket to a relay.
    This library models the C and C++ code of src/sysmodule/source and proves
    what makes it correct.

    ** The parts of the program and how they interact

<<
      game (ldn:u)            game (bsd:u)
          |                       |
      LdnControl            BsdMitmService - ProxySocketManager --- ProxySocket
          |   ^                   |               |        ^
          |   |                   |        EphemeralPortPool |
          |   |                   |        pending ring      |
          +---|----- tun::Send ---+-------------+            |
              |          |                                   |
              |     slpClientSendIpv4 -> UDP -> relay -> UDP -> slpClientRecv
              |                                                  |
              +------------- tun::OnFrame / OnIpv4 / OnFrag -----+
>>

    Outgoing: a control frame of [LdnControl] or a datagram of a proxy socket is
    put in an IPv4/UDP packet by [tun::Send], cut in fragments of 1400 bytes by
    [slpClientSendIpv4] and sent to the relay, which hands every frame to the
    other consoles.  Incoming: [tun::OnFrame] checks and reassembles packets;
    UDP port 11452 is the control port and goes to [LdnControl::OnControlFrame],
    everything else to [ProxySocketManager::RouteIncomingData], which pushes it
    in the ring of each matching socket or keeps it for a later bind.
    [BsdMitmService] serves each command of a game's socket session by a proxy
    socket, when the descriptor or the address is one of the LAN, or by the real
    service.  The [Runtime] holds the virtual address and the chosen relay, opens
    the client, and runs the receive loop.

    ** Files

    - [Prelude] (this file): machine integers, tactics, list and arithmetic
      lemmas shared by all.  A [w]-bit integer is a [Z] and every truncation of
      the source is written [u8], [u16], [u32].
    - [Bytes]: [memcpy], big- and little-endian accesses; an access outside a
      buffer is [None], so a result [Some] is a statement of memory safety.
    - [CText]: the C library's text functions as the source uses them ([sscanf]
      fields, [strtol], [snprintf] of numbers).
    - [Servers]: slpcfg/servers.*; the server list, its parser and its table.
    - [OverlayServers]: src/overlay/source/servers.c, the overlay's own copy of
      that parser, against the sysmodule's.
    - [Trace]: slpcfg/slp_trace.cpp; the SD card is the class [SdCard].
    - [Rle]: [Compress] and [Decompress] of ldn/ldn_control.cpp; the coding as a
      relation, and the round trip.
    - [IpAddr]: bsd/ip_addr.hpp, bsd/bsd_types.hpp, bsd/lan_addr_map.*.
    - [PortPool]: bsd/ephemeral_port_pool.*; the bitsets are [gset]s of indices.
    - [Ring]: the circular buffers of proxy sockets and of the pending packets,
      with their abstraction to a list.
    - [ProxySocket]: bsd/proxy_socket.*; a record with one definition per method.
    - [SocketManager]: bsd/proxy_socket_manager.*; the registry is a [gmap] from
      descriptors, whose unspecified iteration order is a parameter.
    - [BsdMitm]: bsd/bsd_mitm_service.*; the tables all sessions share, the 34
      commands, [ShouldMitm], construction and destruction of a session, and the
      server that holds the sessions ([server_step]).  The real bsd:u session is
      the function [fwd] from requests to replies.
    - [BsdSessions]: the invariants over histories of sessions; [BsdCommands]:
      what the commands do.
    - [SlpClient]: slp/slp_client.*; DNS, frame codecs, fragmentation, the client.
    - [Sha1]: slp/sha1.*; the in-place rounds, the streaming context, and FIPS
      180-4 as the specification.
    - [Tunnel]: tunnel/slp_tunnel.*; packet building, parsing, reassembly.  The
      two consumers of a datagram are the class [TunnelSink].
    - [Runtime]: slpcfg/slp_runtime.*; the virtual address and its file, the
      selection of a server, start, stop and the receive loop round by round.
    - [ConfigService]: slpcfg/slp_cfg_service.* and its client, overlay/source/
      slpcfg.c; an IPC buffer is a list of its length, a write outside it [None].
    - [Overlay]: overlay/source/main.cpp; the overlay's globals next to the running
      system, what each button does and what a refresh reads.  [OverlayPages]: its
      two pages row by row, the click listeners, the frame counter and the stack of
      pages; [app_step] is one frame or one press.
    - [LdnTypes]: the wire structures of ldn/ldn_interfaces.hpp as codecs (a
      size, an encoder and a decoder with their laws, proved per combinator).
    - [LdnControl]: ldn/ldn_control.*; a state monad that emits control frames
      and nifm calls and fails on an access outside an array.
    - [LdnSession]: the properties of the LDN control plane; [LdnJoin]: the join of
      two control planes, frame by frame.
    - [LdnSilence]: what silence does to a session, over sequences of ticks.
    - [LdnServices]: ldn/ldn_icommunication.*, ldn/ldn_mitm_service.*; the commands
      and the destructor of the objects that share the control plane,
      [ldn_event] one event of the service.
    - [LdnIpc]: the structures of a game's requests, byte for byte, and the commands
      they make; what is traced of a request and of a network information, with the
      buffers it is composed in; the service's two objects without a state.
    - [Nifm]: nifm/nifm_mitm_service.*; written but not registered.
    - [Console]: main.cpp and the wiring: the state of all parts, the callbacks,
      the receive loop on them, and [console_step], one event of a history.
      [BsdWorld] and [ConsoleProps]: the invariant of the whole; [ConsoleTraffic]
      and [ConsoleSession]: what crosses it, datagrams and a join, and demonstration
      consoles for the witnesses.
    - [GlobalHeap]: the module's heap of main.cpp; [GetHeapHandle] as a machine of
      interleaved threads, and what the heap has room for.
    - [Boot]: main.cpp from [InitializeSystemModule] to the servers' loops, with the
      calls it makes and their failures; [served_step], one event of a booted
      module: a session accepted on a port, a command, the end of a session, a round.

    ** What the theorems show

    - The console: [console_lan_datagram] (from a game's SendTo on one console to
      the other's RecvFrom, through both services, tunnels and the receive loop),
      [boot_to_history] (from the boot calls, over every history of sessions and
      commands, all parts keep their invariants together), [gone_game_is_silent]
      (after a game's session nothing more leaves), [heap_created_once],
      [one_identity] and [two_identities] (when the parts agree on the address),
      [spoofed_scan_deadlocks], [tcp_connect_refused].
    - Sessions: [join_over_the_relay] runs scan, answer, connect, registration and
      synchronisation of two consoles through their tunnels and receive loops and
      shows both agree on the network;
      [hosted_network_correct] is the invariant of a host over every history;
      [HandleConnect_spec], [HandleSyncNetwork_spec],
      [Scan_spec], the [Tick] theorems and [silent_peers_are_dropped] give each
      handler's behaviour on each branch; [LdnControl_memory_safe] and
      [SyncNetwork_over_read] delimit exactly which frame makes the code read
      outside its arrays.
    - Datagrams: [tunnel_delivers] (what one console sends another receives once
      and unchanged, in one frame or two fragments in any order),
      [OnFrame_memory_safe] (whatever the relay sends),
      [SendTo_RouteIncomingData_RecvFrom] (from a game's SendTo to the other
      game's RecvFrom), [RouteIncomingData_spec], [DeliverPendingPackets_spec],
      [lan_datagram_crosses] (the same through the intercepted commands).
    - Interception: [mitm_transparent] (a command that is not for the LAN is the
      pass-through service), [mitm_sessions] (tables and sockets over every
      history of sessions), [ShouldMitm_bursts] (the process tables implement the
      machine that passes the first session of each burst), [Bind_spec].
    - Runtime: [runtime_invariant], [relay_loss_reconnects] (a bound on the
      rounds), [GetVirtualIp_stable], [Start_spec]; [slpServersParse_roundtrip]
      and [slpServersParse_typed] for the list; [SHA1_equivalence].
    - The overlay: [pick_connects] (the row picked is the server dialled),
      [overlay_truthful] (what its pages show and do over every history),
      [overlay_list_agrees] and [glued_login_shifts] (when its rows are the
      sysmodule's, and when they are not), [GetState_spec].
    - Services around the control plane: [ldn_services_invariant],
      [nifm_shows_the_lan]; [trace_log_grows].
    - Sockets: [ProxySocket_receive_refines] (the ring implements the bounded
      queue [spec_step], drop-oldest), [ProxySocket_invariant], the specifications
      of SendTo, Connect and Close, and the sockets' errno values per branch.
    - Ports: [no_double_allocation] over every history, [AllocatePort_spec].
    - Codecs: [control_frame_roundtrip], [Compress_correct],
      [SockAddrIn_roundtrip], [resolve_roundtrip].
    - Defects, each with the inputs that show it: [SyncNetwork_over_read],
      [foreign_sync_blocks_join], [EnterLocalNetworkMode_spec],
      [ProxySocket_nonblocking_connect_stuck], [dns_parse_response_overread],
      [Bind_failure_leaks], [login_never_answered], [long_line_wrong_login],
      [ninth_socket_exceeds_heap], [CreateNetwork_lines_over_read].

    ** Threads, time and the outside

    Ticks of the system clock, random numbers, results of operating system and
    nifm calls are arguments.  A call that sleeps or waits for an event takes
    what the other threads do meanwhile as a function ([wait], [env]) that is
    constrained only by what other threads can do; theorems quantify over it.
    Each method runs under the lock of its object, so histories are sequences of
    whole calls.  The digest of the credentials is a parameter of [SlpClient],
    proved to be SHA-1 in [Sha1].

    ** Fuel and bounds

    - [csum_fold]: fuel 4; the sum of at most 65535 words fits 32 bits and two
      foldings leave 16, proved where the checksum is shown valid.
    - [alloc_search]: fuel 16384, the size of the pool; the search visits every
      port once ([AllocatePort_spec] shows 0 is returned only when all are held).
    - [compress_loop]: fuel the input length, each round consumes at least one
      byte; [Compress_correct] holds for every input, so the fuel suffices.
    - The loops of [dns_parse_response]: fuel the packet length, each round moves
      the position forward or stops ([dns_parse_terminates]).
    - [pad_zeros]: fuel 64, one block; [update_blocks]: fuel the data length;
      both are shown to end in [SHA1_equivalence].  [parse_lines]: fuel the text
      length and one, each line takes a character.
    - [hex_digits]: fuel 8, the digits of a 32-bit result code.
    - [Scan] polls for 10 rounds and [Connect] for 300, as the source counts.

    ** What is not modelled, and why

    - The dispatch of the sf framework, the scheduler and the allocator: the
      system's.  Data races between threads that do not hold a common lock are
      outside the model, which interleaves whole calls ([GlobalHeap] apart).
    - libtesla: drawing, layout and focus; it is vendored.  A press names its row.
    - The texts handed to the trace, those of [LdnIpc] apart, and the logging
      macros.
    - The contents of the requests forwarded to the real bsd:u beyond the words and
      buffers of the commands: [fwd] answers for the service.
    - The host smoke test, a command line that calls the client by hand. *)
From stdpp Require Export base tactics option list gmap numbers.
From Stdlib Require Export ZArith Lia ZifyBool ZifyNat.
#[global] Open Scope Z_scope.

(** ** Machine integers

    A [w]-bit unsigned integer of the source is a [Z]; every place where the
    source truncates is written [u8], [u16] or [u32]. *)
Definition u8 (x : Z) : Z := x mod 2 ^ 8.
Definition u16 (x : Z) : Z := x mod 2 ^ 16.
Definition u32 (x : Z) : Z := x mod 2 ^ 32.

Definition is_u8 (x : Z) : Prop := 0 <= x < 256.
Definition is_u16 (x : Z) : Prop := 0 <= x < 65536.
Definition is_u32 (x : Z) : Prop := 0 <= x < 4294967296.

(** Two's-complement reading of the low 32 bits, a C [(int)] cast. *)
Definition s32 (x : Z) : Z :=
  let y := u32 x in if y <? 2 ^ 31 then y else y - 2 ^ 32.

(** Byte strings of the source ([uint8_t] arrays) are lists of integers in
    [0, 256). *)
Abbreviation bytes := (list Z).
Abbreviation is_bytes := (Forall is_u8).

Create HintDb slp.
Create Rewrite HintDb slp_rw.

(** ** Tactics *)

(** Splits every [if]/[match] on a boolean or decidable test of the goal. *)
Ltac split_ifs := repeat (case_match; try done).

(** Case analysis on a boolean, with the equation turned arithmetic. *)
Tactic Notation "case_if" constr(b) "as" ident(E) := destruct b eqn:E.

(** [word_lia]: linear arithmetic after unfolding the width predicates and
    turning [/] and [mod] by constants into linear equations. *)
Ltac wrap_unfold := unfold u8, u16, u32, is_u8, is_u16, is_u32 in *.
Ltac eval_pow :=
  change (2 ^ 8) with 256 in *; change (2 ^ 16) with 65536 in *;
  change (2 ^ 24) with 16777216 in *; change (2 ^ 32) with 4294967296 in *.
Ltac word_lia :=
  wrap_unfold; eval_pow;
  first [lia | Z.to_euclidean_division_equations; lia].

Lemma u8_id x : is_u8 x -> u8 x = x.
Proof. intros; wrap_unfold; apply Z.mod_small; lia. Qed.
Lemma u16_id x : is_u16 x -> u16 x = x.
Proof. intros; wrap_unfold; apply Z.mod_small; lia. Qed.
Lemma u32_id x : is_u32 x -> u32 x = x.
Proof. intros; wrap_unfold; apply Z.mod_small; lia. Qed.
Lemma u8_range x : is_u8 (u8 x).
Proof. wrap_unfold; apply Z.mod_pos_bound; lia. Qed.
Lemma u16_range x : is_u16 (u16 x).
Proof. wrap_unfold; apply Z.mod_pos_bound; lia. Qed.
Lemma u32_range x : is_u32 (u32 x).
Proof. wrap_unfold; apply Z.mod_pos_bound; lia. Qed.

#[export] Hint Resolve u8_range u16_range u32_range : slp.
#[export] Hint Rewrite u8_id u16_id u32_id using (auto with slp; fail) : slp_rw.
