(* ===== verification/Bytes.v ===== *)
(** Byte strings: slices, big- and little-endian reads and writes, and the
    array updates the C code performs with [memcpy].  Reads return [None] when
    they fall outside the buffer, so that a parser that returns [Some] has
    stayed in bounds. *)
From S2P Require Import Prelude.

(** [buf[i]]; [None] models an out-of-bounds access. *)
Definition byte_at (l : bytes) (i : nat) : option Z := l !! i.

(** The [n] bytes at [off] (the source operand of a [memcpy]). *)
Definition slice (off n : nat) (l : bytes) : option bytes :=
  if decide (off + n <= length l)%nat then Some (take n (drop off l)) else None.

(** [memcpy(dst + off, src, len)] into an array of fixed size: [None] when the
    copy would leave the array. *)
Definition blit (off : nat) (src dst : bytes) : option bytes :=
  if decide (off + length src <= length dst)%nat
  then Some (take off dst ++ src ++ drop (off + length src) dst)
  else None.

(** ** Big-endian fields, in the source's shift-and-or form *)
Definition be16 (a b : Z) : Z := u16 (Z.lor (Z.shiftl a 8) b).
Definition be32 (a b c d : Z) : Z :=
  Z.lor (Z.lor (Z.lor (Z.shiftl a 24) (Z.shiftl b 16)) (Z.shiftl c 8)) d.

Definition rd16be (l : bytes) (i : nat) : option Z :=
  a ← byte_at l i; b ← byte_at l (i + 1); Some (be16 a b).
Definition rd32be (l : bytes) (i : nat) : option Z :=
  a ← byte_at l i; b ← byte_at l (i + 1); c ← byte_at l (i + 2);
  d ← byte_at l (i + 3); Some (be32 a b c d).

(** The bytes written for a field: [(uint8_t)(v >> 8), (uint8_t)(v & 0xFF)]. *)
Definition wr16be (v : Z) : bytes := [u8 (Z.shiftr v 8); u8 (Z.land v 255)].
Definition wr32be (v : Z) : bytes :=
  [u8 (Z.shiftr v 24); u8 (Z.shiftr v 16); u8 (Z.shiftr v 8); u8 (Z.land v 255)].

(** ** Little-endian integers (structs copied in memory order) *)
Fixpoint le_enc (n : nat) (v : Z) : bytes :=
  match n with
  | O => []
  | S n' => v mod 256 :: le_enc n' (v / 256)
  end.
Fixpoint le_dec (l : bytes) : Z :=
  match l with
  | [] => 0
  | b :: l' => b + 256 * le_dec l'
  end.

(** ** Lemmas *)
Lemma land_shiftl_low a b n :
  0 <= n -> 0 <= b < 2 ^ n -> Z.land (Z.shiftl a n) b = 0.
Proof.
  intros Hn Hb. apply Z.bits_inj'. intros i Hi.
  rewrite Z.land_spec, Z.bits_0. destruct (decide (i < n)).
  - rewrite Z.shiftl_spec_low by lia. done.
  - rewrite <- (Z.mod_small b (2 ^ n)) by done.
    rewrite Z.mod_pow2_bits_high by lia. apply andb_false_r.
Qed.

Lemma lor_shiftl_add a b n :
  0 <= n -> 0 <= b < 2 ^ n -> Z.lor (Z.shiftl a n) b = a * 2 ^ n + b.
Proof.
  intros Hn Hb.
  pose proof (Z.add_lor_land (Z.shiftl a n) b) as H.
  rewrite land_shiftl_low in H by done. rewrite Z.shiftl_mul_pow2 in * by done. lia.
Qed.

Lemma land_255 v : Z.land v 255 = v mod 256.
Proof. change 255 with (Z.ones 8). by rewrite Z.land_ones. Qed.

Lemma be16_eq a b : is_u8 a -> is_u8 b -> be16 a b = 256 * a + b.
Proof.
  intros Ha Hb. unfold be16. rewrite lor_shiftl_add by word_lia.
  rewrite u16_id; word_lia.
Qed.

Lemma be32_eq a b c d :
  is_u8 a -> is_u8 b -> is_u8 c -> is_u8 d ->
  be32 a b c d = 16777216 * a + 65536 * b + 256 * c + d.
Proof.
  intros. unfold be32. rewrite <- !Z.lor_assoc.
  rewrite (lor_shiftl_add c d 8) by word_lia.
  rewrite (lor_shiftl_add b _ 16) by (change (2 ^ 8) with 256; word_lia).
  rewrite (lor_shiftl_add a _ 24)
    by (change (2 ^ 8) with 256; change (2 ^ 16) with 65536;
        change (2 ^ 24) with 16777216; unfold is_u8 in *; lia).
  change (2 ^ 24) with 16777216; change (2 ^ 16) with 65536; change (2 ^ 8) with 256. lia.
Qed.

Lemma be16_range a b : is_u16 (be16 a b).
Proof. apply u16_range. Qed.

Lemma be32_range a b c d :
  is_u8 a -> is_u8 b -> is_u8 c -> is_u8 d -> is_u32 (be32 a b c d).
Proof. intros. rewrite be32_eq by done. word_lia. Qed.

Lemma is_bytes_app l k : is_bytes (l ++ k) <-> is_bytes l /\ is_bytes k.
Proof. apply Forall_app. Qed.

Lemma wr16be_bytes v : is_bytes (wr16be v).
Proof. repeat constructor; apply u8_range. Qed.
Lemma wr32be_bytes v : is_bytes (wr32be v).
Proof. repeat constructor; apply u8_range. Qed.

(** Writing a 16-bit field and reading it back. *)
Lemma be16_wr v :
  is_u16 v -> be16 (u8 (Z.shiftr v 8)) (u8 (Z.land v 255)) = v.
Proof.
  intros Hv. rewrite be16_eq by apply u8_range.
  rewrite land_255, Z.shiftr_div_pow2 by lia. word_lia.
Qed.

Lemma be32_wr v :
  is_u32 v ->
  be32 (u8 (Z.shiftr v 24)) (u8 (Z.shiftr v 16)) (u8 (Z.shiftr v 8)) (u8 (Z.land v 255)) = v.
Proof.
  intros Hv. rewrite be32_eq by apply u8_range.
  rewrite land_255, !Z.shiftr_div_pow2 by lia. word_lia.
Qed.

Lemma byte_at_Some l i : (i < length l)%nat -> exists b, byte_at l i = Some b.
Proof. intros H. apply lookup_lt_is_Some in H. by destruct H; eauto. Qed.

Lemma byte_at_u8 l i b : is_bytes l -> byte_at l i = Some b -> is_u8 b.
Proof. intros Hl H. eapply Forall_lookup in Hl; eauto. Qed.

Lemma rd16be_Some l i :
  (i + 1 < length l)%nat -> exists v, rd16be l i = Some v /\ is_u16 v.
Proof.
  intros H. unfold rd16be.
  destruct (byte_at_Some l i) as [a ->]; [lia|].
  destruct (byte_at_Some l (i + 1)) as [b ->]; [lia|].
  simpl. eexists; split; [done|]. apply be16_range.
Qed.

Lemma rd32be_Some l i :
  is_bytes l -> (i + 3 < length l)%nat -> exists v, rd32be l i = Some v /\ is_u32 v.
Proof.
  intros Hb H. unfold rd32be.
  destruct (byte_at_Some l i) as [a Ha]; [lia|]. rewrite Ha.
  destruct (byte_at_Some l (i + 1)) as [b Hb']; [lia|]. rewrite Hb'.
  destruct (byte_at_Some l (i + 2)) as [c Hc]; [lia|]. rewrite Hc.
  destruct (byte_at_Some l (i + 3)) as [d Hd]; [lia|]. rewrite Hd.
  simpl. eexists; split; [done|]. apply be32_range; eauto using byte_at_u8.
Qed.

Lemma slice_Some off n l :
  (off + n <= length l)%nat -> slice off n l = Some (take n (drop off l)).
Proof. intros. unfold slice. by rewrite decide_True. Qed.

Lemma slice_length off n l s : slice off n l = Some s -> length s = n.
Proof.
  unfold slice. case_decide; [|done]. intros [= <-].
  rewrite length_take, length_drop. lia.
Qed.

Lemma slice_bytes off n l s : is_bytes l -> slice off n l = Some s -> is_bytes s.
Proof.
  unfold slice. intros Hl. case_decide; [|done]. intros [= <-].
  by apply Forall_take, Forall_drop.
Qed.

Lemma slice_app_mid (p s q : bytes) : slice (length p) (length s) (p ++ s ++ q) = Some s.
Proof.
  rewrite slice_Some by (rewrite !length_app; lia).
  by rewrite drop_app_length, take_app_length.
Qed.

Lemma blit_Some off src dst :
  (off + length src <= length dst)%nat ->
  blit off src dst = Some (take off dst ++ src ++ drop (off + length src) dst).
Proof. intros. unfold blit. by rewrite decide_True. Qed.

Lemma blit_length off src dst d : blit off src dst = Some d -> length d = length dst.
Proof.
  unfold blit. case_decide; [|done]. intros [= <-].
  rewrite !length_app, length_take, length_drop. lia.
Qed.

Lemma blit_bytes off src dst d :
  is_bytes src -> is_bytes dst -> blit off src dst = Some d -> is_bytes d.
Proof.
  unfold blit. intros Hs Hd. case_decide; [|done]. intros [= <-].
  apply Forall_app; split; [by apply Forall_take|].
  apply Forall_app; split; [done | by apply Forall_drop].
Qed.

Lemma le_enc_length n v : length (le_enc n v) = n.
Proof. revert v; induction n; intros; simpl; [done|]. by rewrite IHn. Qed.

Lemma le_enc_bytes n v : is_bytes (le_enc n v).
Proof.
  revert v; induction n; intros; simpl; [constructor|].
  constructor; [|apply IHn]. unfold is_u8. apply Z.mod_pos_bound. lia.
Qed.

Lemma le_dec_enc n v : 0 <= v < 256 ^ Z.of_nat n -> le_dec (le_enc n v) = v.
Proof.
  revert v; induction n as [|n IH]; intros v Hv; simpl; [lia|].
  rewrite Nat2Z.inj_succ, Z.pow_succ_r in Hv by lia.
  rewrite IH; [pose proof (Z.div_mod v 256); lia|].
  split; [apply Z.div_pos; lia | apply Z.div_lt_upper_bound; lia].
Qed.

Lemma le_dec_range l : is_bytes l -> 0 <= le_dec l < 256 ^ Z.of_nat (length l).
Proof.
  induction 1 as [|b l Hb _ IH]; simpl length; simpl le_dec; [lia|].
  rewrite Nat2Z.inj_succ, Z.pow_succ_r by lia. unfold is_u8 in Hb. lia.
Qed.

Lemma le_enc_dec l : is_bytes l -> le_enc (length l) (le_dec l) = l.
Proof.
  induction 1 as [|b l Hb _ IH]; simpl; [done|].
  unfold is_u8 in Hb. f_equal; [word_lia|].
  transitivity (le_enc (length l) (le_dec l)); [f_equal; word_lia | done].
Qed.

#[export] Hint Resolve wr16be_bytes wr32be_bytes be16_range be32_range le_enc_bytes : slp.
