(* ===== verification/CText.v ===== *)
(** Text as C's standard library reads and writes it: terminated strings, white
    space, decimal numbers ([snprintf "%u"], [strtol], [sscanf "%Ns"] and
    ["%u"]).  Characters are bytes; a string is the list of its characters. *)
From Stdlib Require Ascii String.
From S2P Require Import Prelude Bytes.

(** A C string: the characters before the terminator. *)
Fixpoint cstr (l : bytes) : bytes :=
  match l with [] => [] | c :: l => if c =? 0 then [] else c :: cstr l end.

(** [isspace] in the C locale, and the decimal digits. *)
Definition isspace (c : Z) : bool := (c =? 32) || ((9 <=? c) && (c <=? 13)).
Definition isdigit (c : Z) : bool := (48 <=? c) && (c <=? 57).

(** The longest prefix that satisfies a test, and what follows it. *)
Fixpoint span (p : Z -> bool) (l : bytes) : bytes * bytes :=
  match l with
  | [] => ([], [])
  | c :: l' => if p c then let '(a, b) := span p l' in (c :: a, b) else ([], l)
  end.
Definition skip_space (l : bytes) : bytes := snd (span isspace l).

(** One ["%Ns"] directive: at least one and at most [n] characters that are not
    white space, after any white space; [None] is an input failure. *)
Definition scan_s (n : nat) (l : bytes) : option (bytes * bytes) :=
  let l := skip_space l in
  let tok := take n (fst (span (fun c => negb (isspace c)) l)) in
  match tok with [] => None | _ => Some (tok, drop (length tok) l) end.

(** [sscanf] with a list of ["%Ns"] directives: the fields converted, whose
    number is the result ([EOF] and 0 are both the empty list). *)
Fixpoint scan_fields (widths : list nat) (l : bytes) : list bytes :=
  match widths with
  | [] => []
  | n :: ws =>
      match scan_s n l with
      | None => []
      | Some (tok, rest) => tok :: scan_fields ws rest
      end
  end.

(** The bytes of a string literal. *)
Definition str (s : String.string) : bytes :=
  (fun a => Z.of_N (Ascii.N_of_ascii a)) <$> String.list_ascii_of_string s.

(** ** Decimal numbers *)

(** [snprintf "%u"] of a value below 10^20. *)
Fixpoint dec_digits (fuel : nat) (v : Z) (acc : bytes) : bytes :=
  match fuel with
  | O => acc
  | S fuel' =>
      let acc := (48 + v mod 10) :: acc in
      if v / 10 =? 0 then acc else dec_digits fuel' (v / 10) acc
  end.
Definition dec (v : Z) : bytes := dec_digits 20 v [].

Definition dec_value (digits : bytes) : Z := foldl (fun a c => a * 10 + (c - 48)) 0 digits.

(** The sign and the digits of a number: [strtol] and [strtoul] without their
    saturation; no digits read as 0. *)
Definition scan_sign (l : bytes) : bool * bytes :=
  match l with
  | c :: l' => if c =? 45 then (true, l') else if c =? 43 then (false, l') else (false, l)
  | [] => (false, [])
  end.
Definition LONG_MAX : Z := 2 ^ 63 - 1.
Definition ULONG_MAX : Z := 2 ^ 64 - 1.
Definition strtol (l : bytes) : Z :=
  let '(neg, l) := scan_sign (skip_space l) in
  let v := dec_value (fst (span isdigit l)) in
  if (neg : bool) then Z.max (- v) (- LONG_MAX - 1) else Z.min v LONG_MAX.

(** One ["%u"] directive: the [unsigned long] value cut to 32 bits. *)
Definition scan_u (l : bytes) : option (Z * bytes) :=
  let '(neg, l) := scan_sign (skip_space l) in
  let '(ds, rest) := span isdigit l in
  match ds with
  | [] => None
  | _ =>
      let v := dec_value ds in
      Some (u32 (if ULONG_MAX <? v then ULONG_MAX else if (neg : bool) then - v else v), rest)
  end.

(** ** Lemmas *)
Definition no_space (l : bytes) : Prop := Forall (fun c => isspace c = false) l.
Definition digits (l : bytes) : Prop := Forall (fun c => isdigit c = true) l.

Lemma span_app p l r :
  Forall (fun c => p c = true) l -> (forall c r', r = c :: r' -> p c = false) ->
  span p (l ++ r) = (l, r).
Proof.
  intros Hl Hr. induction Hl as [|c l Hc _ IH]; cbn [app span].
  - destruct r as [|c r]; [done|]. cbn [span]. by rewrite (Hr c r eq_refl).
  - by rewrite Hc, IH.
Qed.

Lemma span_spec p l :
  let '(a, b) := span p l in
  l = a ++ b /\ Forall (fun c => p c = true) a /\ (forall c b', b = c :: b' -> p c = false).
Proof.
  induction l as [|c l IH]; cbn [span]; [done|]. destruct (p c) eqn:E.
  - destruct (span p l) as [a b]. destruct IH as (-> & Ha & Hb). repeat split; auto.
  - split; [done|]. split; [constructor|]. intros c0 b' ?. by simplify_eq.
Qed.

(** A token without white space, followed by a space or the end, is read whole
    when it fits the field. *)
Lemma scan_s_token n tok r :
  no_space tok -> tok <> [] -> (length tok <= n)%nat ->
  (forall c r', r = c :: r' -> isspace c = true) ->
  scan_s n (tok ++ r) = Some (tok, r).
Proof.
  intros Ht Hne Hl Hr. unfold scan_s.
  assert (skip_space (tok ++ r) = tok ++ r) as ->.
  { destruct tok as [|c tok]; [done|]. apply Forall_cons_1 in Ht as [Hc _].
    unfold skip_space. cbn [app span]. by rewrite Hc. }
  rewrite span_app; cbn [fst].
  - rewrite take_ge by done. destruct tok; [done|]. by rewrite drop_app_length.
  - eapply Forall_impl; [|exact Ht]. intros c Hc. cbn beta in *. by rewrite Hc.
  - intros c r' ->. by rewrite (Hr c r').
Qed.

Lemma scan_s_space n l : scan_s n (32 :: l) = scan_s n l.
Proof. unfold scan_s, skip_space. cbn [span]. by destruct (span isspace l). Qed.

(** What [scan_s] reads. *)
Lemma scan_s_spec n l tok r :
  scan_s n l = Some (tok, r) -> tok <> [] /\ (length tok <= n)%nat /\ no_space tok /\
  (forall P, Forall P l -> Forall P tok /\ Forall P r).
Proof.
  unfold scan_s. pose proof (span_spec isspace l) as H1. unfold skip_space.
  destruct (span isspace l) as [a b]. destruct H1 as (-> & _ & _). cbn [snd].
  pose proof (span_spec (fun c => negb (isspace c)) b) as H2.
  destruct (span _ b) as [t u]. destruct H2 as (-> & Ht & _). cbn [fst].
  destruct (take n t) as [|c tk] eqn:E; [done|]. rewrite <- E.
  intros [= <- <-]. rewrite E. split; [done|]. rewrite <- E.
  split; [rewrite length_take; lia|]. split.
  - apply Forall_take. eapply Forall_impl; [|exact Ht]. intros x Hx. cbn beta in *. by destruct (isspace x).
  - intros P HP. apply Forall_app in HP as [_ HP]. apply Forall_app in HP as [Hpt HP].
    split; [by apply Forall_take|]. apply Forall_drop, Forall_app; done.
Qed.

Lemma dec_value_snoc l c : dec_value (l ++ [c]) = dec_value l * 10 + (c - 48).
Proof. unfold dec_value. by rewrite foldl_app. Qed.

Lemma dec_digits_spec fuel v acc :
  0 <= v < 10 ^ Z.of_nat fuel -> (0 < fuel)%nat ->
  exists ds, dec_digits fuel v acc = ds ++ acc /\ digits ds /\ ds <> [] /\ dec_value ds = v /\
             (length ds <= fuel)%nat.
Proof.
  revert v acc; induction fuel as [|fuel IH]; intros v acc Hv Hf; [lia|]. cbn [dec_digits].
  assert (isdigit (48 + v mod 10) = true) as Hd by (unfold isdigit; pose proof (Z.mod_pos_bound v 10); lia).
  rewrite Nat2Z.inj_succ, Z.pow_succ_r in Hv by lia.
  destruct (v / 10 =? 0) eqn:E.
  - exists [48 + v mod 10]. repeat split; [by constructor|done| |cbn; lia].
    unfold dec_value. cbn [foldl]. pose proof (Z.div_mod v 10). lia.
  - assert (0 <= v / 10 < 10 ^ Z.of_nat fuel) as Hv'
      by (split; [apply Z.div_pos; lia|apply Z.div_lt_upper_bound; lia]).
    destruct fuel as [|fuel]; [change (10 ^ Z.of_nat 0) with 1 in *; lia|].
    destruct (IH (v / 10) ((48 + v mod 10) :: acc) Hv') as (ds & H1 & H2 & H3 & H4 & H5); [lia|].
    exists (ds ++ [48 + v mod 10]). rewrite H1, <- app_assoc. split; [done|].
    split; [by apply Forall_app; split; [|constructor]|]. split; [by destruct ds|].
    rewrite dec_value_snoc, H4. split; [pose proof (Z.div_mod v 10); lia|].
    rewrite length_app. cbn [length]. lia.
Qed.

Lemma digit_no_space c : isdigit c = true -> isspace c = false.
Proof. unfold isdigit, isspace. lia. Qed.

Lemma digits_no_space l : digits l -> no_space l.
Proof. intros H. eapply Forall_impl; [|exact H]. apply digit_no_space. Qed.

Lemma dec_spec v : 0 <= v < 10 ^ 20 -> digits (dec v) /\ dec v <> [] /\ dec_value (dec v) = v.
Proof.
  intros Hv. destruct (dec_digits_spec 20 v [] Hv) as (ds & H1 & H2 & H3 & H4 & _); [lia|].
  unfold dec. by rewrite H1, app_nil_r.
Qed.

Lemma dec_length k v : (0 < k <= 20)%nat -> 0 <= v < 10 ^ Z.of_nat k -> (length (dec v) <= k)%nat.
Proof.
  intros Hk Hv.
  assert (forall f f' v acc, (0 < f)%nat -> 0 <= v < 10 ^ Z.of_nat f ->
            dec_digits (f + f') v acc = dec_digits f v acc) as E.
  { clear. induction f as [|f IH]; intros f' v acc Hf Hv; [lia|]. cbn [Nat.add dec_digits].
    destruct (v / 10 =? 0) eqn:E; [done|].
    rewrite Nat2Z.inj_succ, Z.pow_succ_r in Hv by lia.
    assert (0 <= v / 10 < 10 ^ Z.of_nat f)
      by (split; [apply Z.div_pos; lia|apply Z.div_lt_upper_bound; lia]).
    apply IH; [|done]. destruct f; [change (10 ^ Z.of_nat 0) with 1 in *; lia|lia]. }
  unfold dec. replace 20%nat with (k + (20 - k))%nat by lia. rewrite E by lia.
  destruct (dec_digits_spec k v [] Hv) as (ds & -> & _ & _ & _ & ?); [lia|]. by rewrite app_nil_r.
Qed.

(** A number written in decimal is read back. *)
Lemma scan_sign_digit c l : isdigit c = true -> scan_sign (c :: l) = (false, c :: l).
Proof. unfold isdigit, scan_sign. intros H. by destruct (c =? 45) eqn:?, (c =? 43) eqn:?; try lia. Qed.

Lemma skip_space_digit c l : isdigit c = true -> skip_space (c :: l) = c :: l.
Proof. intros H. unfold skip_space. cbn [span]. by rewrite digit_no_space. Qed.

Lemma strtol_dec v : 0 <= v < 10 ^ 18 -> strtol (dec v) = v.
Proof.
  intros Hv. destruct (dec_spec v) as (Hd & Hn & He); [lia|]. unfold strtol.
  destruct (dec v) as [|c l] eqn:E; [done|]. pose proof Hd as Hd'. apply Forall_cons_1 in Hd as [Hc _].
  rewrite skip_space_digit, scan_sign_digit by done.
  rewrite <- (app_nil_r (c :: l)), span_app by done. cbn [fst]. rewrite He.
  change LONG_MAX with (10 ^ 18 + (2 ^ 63 - 1 - 10 ^ 18)). lia.
Qed.

Lemma scan_u_dec v r :
  0 <= v < 4294967296 -> (forall c r', r = c :: r' -> isdigit c = false) ->
  scan_u (dec v ++ r) = Some (v, r).
Proof.
  intros Hv Hr. destruct (dec_spec v) as (Hd & Hn & He); [lia|]. unfold scan_u.
  destruct (dec v) as [|c l] eqn:E; [done|]. pose proof Hd as Hd'. apply Forall_cons_1 in Hd as [Hc _].
  cbn [app]. rewrite skip_space_digit, scan_sign_digit by done.
  change (c :: l ++ r) with ((c :: l) ++ r). rewrite span_app, He by done.
  replace (ULONG_MAX <? v) with false by (unfold ULONG_MAX; lia). by rewrite u32_id.
Qed.

Lemma cstr_id l : Forall (fun c => c <> 0) l -> cstr l = l.
Proof. induction 1 as [|c l Hc _ IH]; [done|]. cbn [cstr]. replace (c =? 0) with false by lia. by f_equal. Qed.
Lemma cstr_nonzero l : Forall (fun c => c <> 0) (cstr l).
Proof. induction l as [|c l IH]; [constructor|]. cbn [cstr]. destruct (c =? 0) eqn:E; constructor; [lia|done]. Qed.
