(* ===== verification/Servers.v ===== *)
(** The server list (slpcfg/servers.h/.c): the parser of the lines of
    servers.conf and the table it fills.

    A character array is a byte list; the scratch arrays of [parse_line] are the
    strings they hold.  The entries of [g_servers] past [g_count] are never
    read: the table is the list of the first [g_count]. *)
From S2P Require Import Prelude Bytes CText.

(** ** The code *)
Definition SLPCFG_MAX_SERVERS : nat := 10.
Definition SLPCFG_NAME_MAX : nat := 32.
Definition SLPCFG_HOST_MAX : nat := 128.
Definition SLPCFG_USER_MAX : nat := 64.
Definition SLPCFG_PASS_MAX : nat := 64.

Record SlpServer : Set := mkServer {
  srv_name : bytes;
  srv_host : bytes;
  srv_port : Z;
  srv_username : bytes;
  srv_password : bytes;
}.

(** [strchr], then the terminator written there. *)
Definition cut_at (c : Z) (l : bytes) : bytes := fst (span (fun x => negb (x =? c)) l).

Definition is_trimmed (c : Z) : bool := (c =? 10) || (c =? 13) || (c =? 32) || (c =? 9).
Definition trim (s : bytes) : bytes := rev (snd (span is_trimmed (rev s))).

(** [strrchr]: the parts before and after the last occurrence. *)
Definition split_last (c : Z) (l : bytes) : option (bytes * bytes) :=
  match span (fun x => negb (x =? c)) (rev l) with
  | (_, []) => None
  | (after, _ :: before) => Some (rev before, rev after)
  end.

(** The port check and the copies into the entry. *)
Definition fill_server (name host : bytes) (port : Z) (user pass : bytes) : option SlpServer :=
  if (port <? 1) || (65535 <? port) then None
  else Some (mkServer (take (SLPCFG_NAME_MAX - 1) name) (take (SLPCFG_HOST_MAX - 1) host) (u16 port)
               (take (SLPCFG_USER_MAX - 1) user) (take (SLPCFG_PASS_MAX - 1) pass)).

(** The third form of a line: the port glued to the host, or absent. *)
Definition parse_glued (line : bytes) : option SlpServer :=
  match scan_fields [31; 127; 63; 63]%nat line with
  | name :: host :: rest =>
      let user := default [] (rest !! 0%nat) in
      let pass := default [] (rest !! 1%nat) in
      match split_last 58 host with
      | Some (h, p) => fill_server name h (strtol p) user pass
      | None => fill_server name host 11451 user pass
      end
  | _ => None
  end.

Definition parse_line (line : bytes) : option SlpServer :=
  let line := trim (cut_at 35 (cstr line)) in
  match line with
  | [] => None
  | _ =>
      match scan_fields [31; 127; 7; 63; 63]%nat line with
      | name :: host :: portstr :: rest =>
          if match portstr with c :: _ => isdigit c | [] => false end then
            fill_server name host (strtol portstr) (default [] (rest !! 0%nat))
              (default [] (rest !! 1%nat))
          else parse_glued line
      | _ => parse_glued line
      end
  end.

(** [sizeof(line) - 1] *)
Definition line_cap : nat := SLPCFG_NAME_MAX + SLPCFG_HOST_MAX + 8 - 1.

(** The loop of [slpServersParse] over the text left; [fuel] bounds the lines. *)
Fixpoint parse_lines (fuel : nat) (p : bytes) (servers : list SlpServer) : list SlpServer :=
  match fuel with
  | O => servers
  | S fuel' =>
      if (length servers <? SLPCFG_MAX_SERVERS)%nat && negb (length p =? 0)%nat then
        let '(line, nl) := span (fun c => negb (c =? 10)) p in
        let servers :=
          match parse_line (take line_cap line) with
          | Some srv => servers ++ [srv]
          | None => servers
          end in
        match nl with
        | [] => servers
        | _ :: p => parse_lines fuel' p servers
        end
      else servers
  end.
Definition slpServersParse (text : bytes) : list SlpServer :=
  parse_lines (S (length text)) text [].

(** [slpServersLoad]: the file's content ([None]: it does not open), cut to the
    buffer.  A file that does not open leaves the table as it was. *)
Definition slpServersLoad (file : option bytes) (g_servers : list SlpServer) : list SlpServer * Z :=
  match file with
  | None => (g_servers, 0)
  | Some f =>
      let l := slpServersParse (take (SLPCFG_MAX_SERVERS * (SLPCFG_NAME_MAX + SLPCFG_HOST_MAX + 8) - 1) f) in
      (l, Z.of_nat (length l))
  end.

Definition slpServersCount (g_servers : list SlpServer) : Z := Z.of_nat (length g_servers).
Definition slpServersGet (g_servers : list SlpServer) (index : Z) : option SlpServer :=
  if (index <? 0) || (slpServersCount g_servers <=? index) then None
  else g_servers !! Z.to_nat index.
Definition slpServersFindByName (g_servers : list SlpServer) (name : bytes) : Z :=
  match list_find (fun s => srv_name s = name) g_servers with
  | Some (i, _) => Z.of_nat i
  | None => -1
  end.

(** ** The lines the parser is meant for *)

(** A field of a line: no white space, no terminator, no comment sign. *)
Definition field_char (c : Z) : Prop := isspace c = false /\ c <> 0 /\ c <> 35.
Definition field_ok (n : nat) (l : bytes) : Prop := Forall field_char l /\ (length l <= n)%nat.

Record server_ok (s : SlpServer) : Prop := {
  ok_name : field_ok 31 (srv_name s) /\ srv_name s <> [];
  ok_host : field_ok 127 (srv_host s);
  ok_port : 1 <= srv_port s <= 65535;
  ok_user : field_ok 63 (srv_username s);
  ok_pass : field_ok 63 (srv_password s);
  ok_login : srv_username s = [] -> srv_password s = [];
}.

#[global] Instance field_ok_dec n l : Decision (field_ok n l).
Proof. unfold field_ok, field_char. apply _. Defined.
#[global] Instance server_ok_dec s : Decision (server_ok s).
Proof.
  refine (cast_if (decide ((field_ok 31 (srv_name s) /\ srv_name s <> []) /\
    field_ok 127 (srv_host s) /\ 1 <= srv_port s <= 65535 /\ field_ok 63 (srv_username s) /\
    field_ok 63 (srv_password s) /\ (srv_username s = [] -> srv_password s = []))));
    [match goal with H : _ /\ _ |- _ => destruct H as (? & ? & ? & ? & ? & ?) end; by constructor
    |intros []; match goal with H : ~ _ |- _ => apply H end; auto 10].
Defined.

Fixpoint join_sp (l : list bytes) : bytes :=
  match l with [] => [] | [t] => t | t :: l' => t ++ 32 :: join_sp l' end.

(** The line of a server: [name host port [user [pass]]]. *)
Definition login_fields (user pass : bytes) : list bytes :=
  match user, pass with [], _ => [] | _, [] => [user] | _, _ => [user; pass] end.
Definition format_server (s : SlpServer) : bytes :=
  join_sp ([srv_name s; srv_host s; dec (srv_port s)] ++ login_fields (srv_username s) (srv_password s)).
Definition format_servers (l : list SlpServer) : bytes :=
  concat ((fun s => format_server s ++ [10]) <$> l).

(** ** Lemmas: fields and lines *)
Lemma field_no_space n l : field_ok n l -> no_space l.
Proof. intros [H _]. eapply Forall_impl; [|exact H]. by intros c (? & _). Qed.

Lemma digits_field n l : digits l -> (length l <= n)%nat -> field_ok n l.
Proof.
  intros H Hl. split; [|done]. eapply Forall_impl; [|exact H].
  intros c Hc. cbn beta in *. unfold field_char, isspace, isdigit in *. lia.
Qed.

Lemma join_sp_cons t l : l <> [] -> join_sp (t :: l) = t ++ 32 :: join_sp l.
Proof. by destruct l. Qed.

Lemma join_sp_snoc l t : l <> [] -> join_sp (l ++ [t]) = join_sp l ++ 32 :: t.
Proof.
  induction l as [|a l IH]; [done|]. intros _. destruct l as [|b l]; [done|].
  cbn [app] in *. rewrite (join_sp_cons a (b :: l)), (join_sp_cons a (b :: l ++ [t])) by done.
  rewrite IH by done. by rewrite <- app_assoc.
Qed.

Lemma join_sp_forall (P : Z -> Prop) l : P 32 -> Forall (Forall P) l -> Forall P (join_sp l).
Proof.
  intros Hs. induction 1 as [|t l Ht Hl IH]; [constructor|].
  destruct l as [|b l]; [done|]. rewrite join_sp_cons by done. apply Forall_app; split; [done|].
  by constructor.
Qed.

(** Reading the fields of a line. *)
Lemma scan_fields_join ws toks :
  (length toks <= length ws)%nat ->
  Forall2 (fun n t => no_space t /\ t <> [] /\ (length t <= n)%nat) (take (length toks) ws) toks ->
  scan_fields ws (join_sp toks) = toks.
Proof.
  revert ws; induction toks as [|t toks IH]; intros [|n ws] Hl Hf; [done| |cbn in Hl; lia|].
  { cbn [join_sp scan_fields]. unfold scan_s. cbn. by rewrite take_nil. }
  cbn [length take] in Hl, Hf. apply Forall2_cons_1 in Hf as [(H1 & H2 & H3) Hf]. cbn [scan_fields].
  destruct toks as [|t2 toks].
  - cbn [join_sp]. rewrite <- (app_nil_r t). rewrite scan_s_token by done. rewrite app_nil_r. f_equal.
    destruct ws as [|m ws]; [done|]. cbn [scan_fields]. unfold scan_s. cbn. by rewrite take_nil.
  - rewrite join_sp_cons by done. rewrite scan_s_token; [|done|done|done|by intros ? ? [= <- <-]].
    f_equal. rewrite <- (IH ws) at 2; [|cbn in *; lia|done].
    destruct ws as [|n2 ws]; [cbn in Hl; lia|]. cbn [scan_fields]. by rewrite scan_s_space.
Qed.

Lemma cut_at_id c l : Forall (fun x => x <> c) l -> cut_at c l = l.
Proof.
  intros H. unfold cut_at. rewrite <- (app_nil_r l) at 1. rewrite span_app; [done| |done].
  eapply Forall_impl; [|exact H]. intros x Hx. cbn beta in *. lia.
Qed.

(** Trimming drops one trailing space and nothing from a line that ends in a field. *)
Lemma trim_id l c : is_trimmed c = false -> trim (l ++ [c]) = l ++ [c].
Proof.
  intros Hc. unfold trim. rewrite rev_app_distr. cbn [rev app span]. rewrite Hc. cbn [snd].
  cbn [rev]. by rewrite rev_involutive.
Qed.
Lemma trim_space l : trim (l ++ [32]) = trim l.
Proof. unfold trim. rewrite rev_app_distr. cbn [rev app span]. cbn. by destruct (span is_trimmed (rev l)). Qed.

Lemma is_trimmed_space c : isspace c = false -> is_trimmed c = false.
Proof. unfold isspace, is_trimmed. lia. Qed.

Lemma trim_join toks t :
  no_space t -> t <> [] -> trim (join_sp (toks ++ [t])) = join_sp (toks ++ [t]).
Proof.
  intros Ht Hne. destruct (exists_last Hne) as (t' & c & ->).
  apply Forall_app in Ht as [_ Hc]. apply Forall_cons_1 in Hc as [Hc _].
  destruct toks as [|a toks].
  - cbn [app join_sp]. by apply trim_id, is_trimmed_space.
  - rewrite join_sp_snoc by done. change (32 :: t' ++ [c]) with ((32 :: t') ++ [c]).
    rewrite app_assoc. by apply trim_id, is_trimmed_space.
Qed.

(** The text of a line without comment, terminator or trailing blanks is what
    is scanned. *)
Lemma clean_line toks :
  Forall (Forall field_char) toks -> cut_at 35 (cstr (join_sp toks)) = join_sp toks.
Proof.
  intros H. rewrite cstr_id, cut_at_id; [done| |].
  - apply join_sp_forall; [lia|]. eapply Forall_impl; [|exact H]. intros t Ht.
    eapply Forall_impl; [|exact Ht]. by intros c (_ & _ & ?).
  - apply join_sp_forall; [lia|]. eapply Forall_impl; [|exact H]. intros t Ht.
    eapply Forall_impl; [|exact Ht]. by intros c (_ & ? & _).
Qed.

Lemma fields_lookup (rest : list bytes) :
  (length rest <= 2)%nat ->
  rest = login_fields (default [] (rest !! 0%nat)) (default [] (rest !! 1%nat)) \/ Exists (eq []) rest.
Proof.
  intros H. destruct rest as [|a [|b [|]]]; cbn in H; try lia; [by left| |];
    (destruct a; [right; by constructor|]); [by left|].
  destruct b; [right; right; by constructor|by left].
Qed.

Lemma field_app n k (t : bytes) : field_ok n t -> field_ok n (take k t).
Proof. intros [H1 H2]. split; [by apply Forall_take|]. rewrite length_take. lia. Qed.

(** A line whose text is a name, a host, a port and at most two more fields. *)
Lemma parse_fields line name host port rest :
  field_ok 31 name -> name <> [] -> field_ok 127 host -> host <> [] -> 1 <= port <= 65535 ->
  Forall (fun t => field_ok 63 t /\ t <> []) rest -> (length rest <= 2)%nat ->
  trim (cut_at 35 (cstr line)) = join_sp ([name; host; dec port] ++ rest) ->
  parse_line line =
  Some (mkServer name host port (default [] (rest !! 0%nat)) (default [] (rest !! 1%nat))).
Proof.
  intros Hn Hn0 Hh Hh0 Hp Hr Hl Ht. unfold parse_line. rewrite Ht.
  destruct (dec_spec port) as (Hd & Hd0 & Hdv); [lia|].
  assert (length (dec port) <= 5)%nat as Hd5 by (apply dec_length; lia).
  assert (join_sp ([name; host; dec port] ++ rest) <> []) as Hj.
  { cbn [app]. rewrite join_sp_cons by done. by destruct name. }
  destruct (join_sp _) as [|c0 l0] eqn:E; [done|]. rewrite <- E. clear c0 l0 E Hj Ht.
  rewrite scan_fields_join; [|rewrite length_app; cbn; lia|].
  2: { assert (forall n t, field_ok n t -> t <> [] -> no_space t /\ t <> [] /\ (length t <= n)%nat) as Hfit
         by (intros n t H ?; split; [by eapply field_no_space|]; by destruct H).
       cbn [app length take]. repeat apply Forall2_cons_2; auto using digits_field.
       destruct rest as [|a [|b [|]]]; cbn in Hl; try lia; cbn [length take];
         repeat (apply Forall_cons_1 in Hr as [[] Hr]); repeat apply Forall2_cons_2; auto. }
  cbn [app]. destruct (dec port) as [|d ds] eqn:Ed; [done|].
  apply Forall_cons_1 in Hd as [-> _]. rewrite <- Ed, strtol_dec by lia.
  unfold fill_server. replace ((port <? 1) || (65535 <? port)) with false by lia.
  rewrite u16_id by (unfold is_u16; lia).
  unfold SLPCFG_NAME_MAX, SLPCFG_HOST_MAX, SLPCFG_USER_MAX, SLPCFG_PASS_MAX. cbn [Nat.sub].
  destruct Hn as [_ Hn], Hh as [_ Hh]. rewrite (take_ge name), (take_ge host) by lia.
  assert (forall i, (length (default [] (rest !! i)) <= 63)%nat) as H63.
  { intros i. destruct (rest !! i) as [t|] eqn:Ei; [|cbn; lia].
    eapply Forall_lookup in Hr; [|exact Ei]. by destruct Hr as [[_ ?] _]. }
  by rewrite !take_ge by apply H63.
Qed.

Lemma login_fields_ok s :
  server_ok s -> Forall (fun t => field_ok 63 t /\ t <> []) (login_fields (srv_username s) (srv_password s)) /\
  (length (login_fields (srv_username s) (srv_password s)) <= 2)%nat /\
  default [] (login_fields (srv_username s) (srv_password s) !! 0%nat) = srv_username s /\
  default [] (login_fields (srv_username s) (srv_password s) !! 1%nat) = srv_password s.
Proof.
  intros [_ _ _ Hu Hp Hl]. destruct (srv_username s) as [|u us]; [rewrite Hl by done; cbn; auto with lia|].
  destruct (srv_password s) as [|p ps]; cbn [login_fields]; (split; [by repeat (apply Forall_cons_2; [done|])|]); cbn; auto with lia.
Qed.

Lemma format_fields s :
  server_ok s ->
  Forall (Forall field_char) ([srv_name s; srv_host s; dec (srv_port s)] ++
                              login_fields (srv_username s) (srv_password s)).
Proof.
  intros Hs. destruct (login_fields_ok s Hs) as (Hf & _ & _ & _). destruct Hs as [[[Hn _] _] [Hh _] Hp _ _ _].
  do 2 (apply Forall_cons_2; [done|]). apply Forall_cons_2.
  - destruct (dec_spec (srv_port s)) as (Hd & _); [lia|].
    by apply (digits_field (length (dec (srv_port s)))).
  - eapply Forall_impl; [|exact Hf]. by intros t [[? _] _].
Qed.

(** A formatted line is read back. *)
Lemma parse_format s :
  server_ok s -> srv_host s <> [] -> parse_line (format_server s) = Some s.
Proof.
  intros Hs Hh0. destruct (login_fields_ok s Hs) as (Hf & Hl & Hu & Hp).
  pose proof (format_fields s Hs) as Hff.
  destruct Hs as [[Hn Hn0] Hh Hport _ _ _].
  unfold format_server.
  erewrite (parse_fields _ (srv_name s) (srv_host s) (srv_port s)); try done.
  - rewrite Hu, Hp. by destruct s.
  - rewrite clean_line by done.
    destruct (dec_spec (srv_port s)) as (Hd & Hd0 & _); [lia|].
    set (toks := login_fields _ _) in *. clearbody toks.
    destruct (decide (toks = [])) as [->|Hne].
    + apply (trim_join [srv_name s; srv_host s]); [by apply digits_no_space|done].
    + destruct (exists_last Hne) as (l & t & ->). rewrite app_assoc.
      apply Forall_app in Hf as [_ Hf]. apply Forall_cons_1 in Hf as [[Hf Ht0] _].
      apply trim_join; [by eapply field_no_space|done].
Qed.

(** ** Lemmas: what a parsed entry is *)
Definition text_char (c : Z) : Prop := c <> 0 /\ c <> 35.

Lemma span_forall (P : Z -> Prop) p l : Forall P l -> Forall P (fst (span p l)) /\ Forall P (snd (span p l)).
Proof.
  intros H. pose proof (span_spec p l) as Hs. destruct (span p l) as [a b]. destruct Hs as (-> & _).
  by apply Forall_app in H.
Qed.

Lemma text_line line : Forall text_char (trim (cut_at 35 (cstr line))).
Proof.
  unfold trim. apply Forall_rev, span_forall, Forall_rev. unfold cut_at.
  pose proof (cstr_nonzero line) as Hz. pose proof (span_spec (fun x => negb (x =? 35)) (cstr line)) as Hs.
  destruct (span _ _) as [a b]. cbn [fst]. destruct Hs as (E & Ha & _). rewrite E in Hz.
  apply Forall_app in Hz as [Hz _]. clear E.
  induction Hz as [|c a Hc _ IH]; [constructor|]. apply Forall_cons_1 in Ha as [Hc' Ha].
  constructor; [|by apply IH]. split; [done|lia].
Qed.

Lemma scan_fields_ok ws l i t n :
  Forall text_char l -> scan_fields ws l !! i = Some t -> ws !! i = Some n -> field_ok n t /\ t <> [].
Proof.
  revert l i; induction ws as [|m ws IH]; intros l i Hl Ht Hn; [done|]. cbn [scan_fields] in Ht.
  destruct (scan_s m l) as [[tok rest]|] eqn:E; [|done].
  destruct (scan_s_spec _ _ _ _ E) as (H1 & H2 & H3 & HP). destruct (HP _ Hl) as [Htok Hrest].
  destruct i as [|i]; cbn in Ht, Hn; [|by eapply IH].
  simplify_eq. split; [|done]. split; [|done].
  clear -H3 Htok. induction H3 as [|c l Hc _ IH]; [constructor|].
  apply Forall_cons_1 in Htok as [[] Htok]. constructor; [done|auto].
Qed.

Lemma split_last_prefix c l a b : split_last c l = Some (a, b) -> exists r, l = a ++ r.
Proof.
  unfold split_last. pose proof (span_spec (fun x => negb (x =? c)) (rev l)) as H.
  destruct (span _ (rev l)) as [u [|x v]]; [done|]. intros [= <- <-]. destruct H as (H & _).
  exists (rev (u ++ [x])). rewrite <- rev_app_distr. rewrite <- app_assoc. cbn [app].
  rewrite <- H. by rewrite rev_involutive.
Qed.

Lemma fill_ok name host port user pass s :
  fill_server name host port user pass = Some s ->
  field_ok 31 name -> name <> [] -> field_ok 127 host -> field_ok 63 user -> field_ok 63 pass ->
  (user = [] -> pass = []) -> server_ok s.
Proof.
  unfold fill_server. destruct (_ || _) eqn:E; [done|]. intros [= <-] Hn Hn0 Hh Hu Hp Hup.
  apply orb_false_iff in E. rewrite u16_id by (unfold is_u16; lia).
  constructor; cbn; try (apply field_app; done); [split; [by apply field_app|by destruct name]|lia|].
  intros Hu0. rewrite Hup; [done|]. by destruct user.
Qed.

Lemma scan_fields_length ws l : (length (scan_fields ws l) <= length ws)%nat.
Proof.
  revert l; induction ws as [|n ws IH]; intros l; [done|]. cbn [scan_fields].
  destruct (scan_s n l) as [[t r]|]; cbn [length]; [|lia]. specialize (IH r). lia.
Qed.

(** The login, the fields of a scan from [k] on. *)
Lemma rest_fields ws l (k : nat) :
  Forall text_char l -> Forall (eq 63%nat) (drop k ws) ->
  let rest := drop k (scan_fields ws l) in
  field_ok 63 (default [] (rest !! 0%nat)) /\ field_ok 63 (default [] (rest !! 1%nat)) /\
  (default [] (rest !! 0%nat) = [] -> default [] (rest !! 1%nat) = []).
Proof.
  intros Hl Hws rest. assert (forall i t, rest !! i = Some t -> field_ok 63 t /\ t <> []) as Hr.
  { intros i t Ht. unfold rest in Ht. rewrite lookup_drop in Ht.
    assert (k + i < length ws)%nat as Hi.
    { apply lookup_lt_Some in Ht. pose proof (scan_fields_length ws l). lia. }
    destruct (lookup_lt_is_Some_2 _ _ Hi) as [n Hn].
    assert (63%nat = n) as <- by (rewrite <- lookup_drop in Hn; eapply Forall_lookup in Hws; eauto).
    by eapply scan_fields_ok. }
  assert (field_ok 63 []) as H0 by (split; [constructor|cbn; lia]).
  destruct rest as [|a [|b l']]; cbn; [done| |].
  - by destruct (Hr 0%nat a eq_refl).
  - destruct (Hr 0%nat a eq_refl), (Hr 1%nat b eq_refl). done.
Qed.

Lemma parse_glued_ok line s : Forall text_char line -> parse_glued line = Some s -> server_ok s.
Proof.
  intros Hl. unfold parse_glued. pose proof (scan_fields_ok [31; 127; 63; 63]%nat line) as Hf.
  destruct (rest_fields [31; 127; 63; 63]%nat line 2 Hl) as (Hu & Hp & Hup); [by repeat constructor|].
  destruct (scan_fields _ line) as [|name [|host rest]]; try done. cbn [drop] in *.
  destruct (Hf 0%nat name 31%nat Hl eq_refl eq_refl) as [Hn Hn0].
  destruct (Hf 1%nat host 127%nat Hl eq_refl eq_refl) as [Hh _].
  destruct (split_last 58 host) as [[h p]|] eqn:E; intros Hs; (eapply fill_ok; [exact Hs|..]); try done.
  apply split_last_prefix in E as [r ->]. destruct Hh as [Hh1 Hh2].
  apply Forall_app in Hh1 as [Hh1 _]. rewrite length_app in Hh2. split; [done|lia].
Qed.

Lemma parse_line_ok line s : parse_line line = Some s -> server_ok s.
Proof.
  unfold parse_line. pose proof (text_line line) as Hl. set (l := trim _) in *. clearbody l.
  pose proof (parse_glued_ok l s Hl) as Hg.
  destruct (decide (l = [])) as [->|Hne]; [done|].
  assert (forall A (a b : A), match l with [] => a | _ => b end = b) as -> by (by destruct l).
  pose proof (scan_fields_ok [31; 127; 7; 63; 63]%nat l) as Hf.
  destruct (rest_fields [31; 127; 7; 63; 63]%nat l 3 Hl) as (Hu & Hp & Hup); [by repeat constructor|].
  destruct (scan_fields _ l) as [|name [|host [|portstr rest]]]; try exact Hg. cbn [drop] in *.
  destruct (match portstr with [] => _ | _ => _ end); [|exact Hg].
  destruct (Hf 0%nat name 31%nat Hl eq_refl eq_refl) as [Hn Hn0].
  destruct (Hf 1%nat host 127%nat Hl eq_refl eq_refl) as [Hh _].
  intros Hs. by eapply fill_ok.
Qed.

(** ** The table *)
Lemma parse_lines_ok fuel p acc :
  Forall server_ok acc -> (length acc <= SLPCFG_MAX_SERVERS)%nat ->
  Forall server_ok (parse_lines fuel p acc) /\
  (length (parse_lines fuel p acc) <= SLPCFG_MAX_SERVERS)%nat.
Proof.
  revert p acc; induction fuel as [|fuel IH]; intros p acc Ha Hl; [done|]. cbn [parse_lines].
  destruct (length acc <? SLPCFG_MAX_SERVERS)%nat eqn:E; [|done]. cbn [andb].
  destruct (negb (length p =? 0)%nat); [|done]. destruct (span _ p) as [line nl].
  set (acc' := match parse_line _ with Some _ => _ | None => _ end).
  assert (Forall server_ok acc' /\ (length acc' <= SLPCFG_MAX_SERVERS)%nat) as [H1 H2].
  { unfold acc'. destruct (parse_line _) as [srv|] eqn:Es; [|done]. apply parse_line_ok in Es.
    rewrite length_app. cbn [length]. split; [|lia]. apply Forall_app. by split; [|constructor]. }
  clearbody acc'. destruct nl; [done|]. by apply IH.
Qed.

(** More lines never need more rounds than there are characters. *)
Lemma parse_lines_fuel f1 f2 p acc :
  (length p < f1)%nat -> (length p < f2)%nat -> parse_lines f1 p acc = parse_lines f2 p acc.
Proof.
  revert f2 p acc; induction f1 as [|f1 IH]; intros [|f2] p acc H1 H2; try lia. cbn [parse_lines].
  destruct (_ && _); [|done].
  pose proof (span_spec (fun c => negb (c =? 10)) p) as Hs.
  destruct (span _ p) as [line [|x nl]]; [done|]. destruct Hs as (E & _).
  apply IH; rewrite E, length_app in H1, H2; cbn [length] in *; lia.
Qed.

Lemma parse_lines_format l acc fuel :
  Forall (fun s => server_ok s /\ srv_host s <> [] /\ (length (format_server s) <= line_cap)%nat) l ->
  (length acc + length l <= SLPCFG_MAX_SERVERS)%nat -> (length l < fuel)%nat ->
  parse_lines fuel (format_servers l) acc = acc ++ l.
Proof.
  revert acc fuel; induction l as [|s l IH]; intros acc [|fuel] Hl Hn Hf; try (cbn in Hf; lia).
  - cbn [format_servers fmap list_fmap concat parse_lines length]. rewrite app_nil_r. by destruct (_ && _).
  - apply Forall_cons_1 in Hl as [(Hs & Hh & Hc) Hl]. cbn [length] in Hn, Hf. cbn [parse_lines].
    unfold format_servers. cbn [fmap list_fmap concat]. fold (format_servers l).
    replace (_ <? _)%nat with true by lia.
    rewrite <- app_assoc. cbn [app].
    replace (length (format_server s ++ _) =? 0)%nat with false
      by (rewrite length_app; cbn [length]; lia).
    cbn [andb negb]. rewrite span_app.
    + rewrite take_ge, parse_format by done. rewrite IH; [by rewrite <- app_assoc|done| |lia].
      rewrite length_app. cbn [length]. lia.
    + apply join_sp_forall; [done|]. eapply Forall_impl; [|apply (format_fields s Hs)].
      intros t Ht. eapply Forall_impl; [|exact Ht]. intros c (Hc1 & _). unfold isspace in Hc1. lia.
    + intros c r' [= <- _]. done.
Qed.

Lemma format_servers_length l : (length l <= length (format_servers l))%nat.
Proof.
  induction l as [|s l IH]; [done|]. unfold format_servers in *. cbn [fmap list_fmap concat length].
  rewrite !length_app. cbn [length]. lia.
Qed.

(** ** Properties *)


(** C34: Whatever the text, the parser ends within one round per character and
    leaves at most ten entries, each well formed: a name, strings that fit
    their arrays with the terminator and hold no blank, terminator or comment
    sign, a port in 1 .. 65535, and no password without a user name. *)
Theorem slpServersParse_typed text fuel :
  let l := slpServersParse text in
  Forall server_ok l /\ (length l <= SLPCFG_MAX_SERVERS)%nat /\
  parse_lines (S (length text) + fuel) text [] = l.
Proof.
  intros l. destruct (parse_lines_ok (S (length text)) text []) as [H1 H2]; [done|cbn; lia|].
  split; [done|]. split; [done|]. apply parse_lines_fuel; lia.
Qed.

(** A server whose fields fill their arrays, up to the login. *)
Definition demo_server (user pass : nat) : SlpServer :=
  mkServer (replicate 31 110) (replicate 127 104) 11451 (replicate user 117) (replicate pass 112).


(** ** A login cut short *)
Lemma take_rest_fields (user pass : bytes) k :
  user <> [] -> (1 <= k)%nat -> (k < length (join_sp (login_fields user pass)))%nat ->
  (exists u t, take k (join_sp (login_fields user pass)) = u ++ t /\ (t = [] \/ t = [32]) /\
     u <> [] /\ u = take (length u) user /\ (pass = [] -> u <> user)) \/
  (exists w, take k (join_sp (login_fields user pass)) = join_sp [user; w] /\ w <> [] /\
     w = take (length w) pass /\ w <> pass).
Proof.
  intros Hu Hk Hl. destruct user as [|u0 us] eqn:Eu; [done|]. rewrite <- Eu in *.
  assert (forall k', (1 <= k')%nat -> take k' user <> []) as Hne by (intros [|k'] ?; [lia|by rewrite Eu]).
  assert (forall k', (k' <= length user)%nat -> take k' user = take (length (take k' user)) user) as Hpre
    by (intros k' ?; rewrite length_take; f_equal; lia).
  destruct pass as [|p0 ps] eqn:Ep.
  - left. assert (join_sp (login_fields user []) = user) as E by (by rewrite Eu). rewrite E in *.
    exists (take k user), []. rewrite app_nil_r. split; [done|]. split; [by left|].
    split; [by apply Hne|]. split; [apply Hpre; lia|]. intros _ Hx. apply (f_equal length) in Hx.
    rewrite length_take in Hx. lia.
  - rewrite <- Ep in *.
    assert (join_sp (login_fields user pass) = user ++ 32 :: pass) as E by (by rewrite Eu, Ep).
    rewrite E in *. rewrite length_app in Hl. cbn [length] in Hl.
    destruct (decide (k <= length user + 1)%nat).
    + left. exists (take k user), (take (k - length user) [32]).
      split. { rewrite take_app. f_equal. destruct (k - length user)%nat as [|[|]] eqn:Ek; [done|done|lia]. }
      split. { destruct (k - length user)%nat as [|[|]] eqn:Ek; [by left|by right|lia]. }
      split; [by apply Hne|]. split; [|by rewrite Ep].
      rewrite length_take. destruct (decide (k <= length user)%nat); [f_equal; lia|].
      rewrite !take_ge; [done|lia|lia].
    + right. exists (take (k - length user - 1) pass). split.
      { rewrite take_app, (take_ge user) by lia. cbn [join_sp]. f_equal.
        replace (k - length user)%nat with (S (k - length user - 1)) at 1 by lia. done. }
      split. { rewrite Ep. by destruct (k - length user - 1)%nat eqn:Ek; [lia|]. }
      split; [by rewrite length_take, Nat.min_l by lia|]. intros Hx.
      apply (f_equal length) in Hx. rewrite length_take in Hx. lia.
Qed.

Lemma format_text s : server_ok s -> Forall text_char (format_server s).
Proof.
  intros Hs. apply join_sp_forall; [done|]. eapply Forall_impl; [|apply (format_fields s Hs)].
  intros t Ht. eapply Forall_impl; [|exact Ht]. by intros c (_ & ?).
Qed.

Lemma clean_text l : Forall text_char l -> cut_at 35 (cstr l) = l.
Proof.
  intros H. rewrite cstr_id, cut_at_id; [done| |]; (eapply Forall_impl; [|exact H]); by intros c [].
Qed.

Lemma join_sp_app l1 l2 : l1 <> [] -> l2 <> [] -> join_sp (l1 ++ l2) = join_sp l1 ++ 32 :: join_sp l2.
Proof.
  intros H1 H2. induction l1 as [|a l1 IH]; [done|]. destruct l1 as [|b l1]; cbn [app].
  - by rewrite join_sp_cons.
  - cbn [app] in IH. rewrite (join_sp_cons a (b :: l1)), (join_sp_cons a (b :: l1 ++ l2)) by done.
    rewrite IH by done. by rewrite <- app_assoc.
Qed.

(** A line of more than 167 characters is cut without notice, and what is
    cut is the login: the server is still accepted, with its name, host and port,
    and with a user name or password that is not the one written. *)
Theorem long_line_wrong_login s :
  server_ok s -> srv_host s <> [] -> (line_cap < length (format_server s))%nat ->
  exists user pass,
    parse_line (take line_cap (format_server s)) =
    Some (mkServer (srv_name s) (srv_host s) (srv_port s) user pass) /\
    (user, pass) <> (srv_username s, srv_password s).
Proof.
  intros Hs Hh0 Hlong. pose proof (format_text s Hs) as Htext. pose proof Hs as [[Hn Hn0] Hh Hp Hu Hpw Hlog].
  assert (length (dec (srv_port s)) <= 5)%nat as Hd by (apply dec_length; lia).
  set (P := join_sp [srv_name s; srv_host s; dec (srv_port s)]).
  assert (length P <= 165)%nat as HP.
  { unfold P. cbn [join_sp]. rewrite !length_app. cbn [length]. rewrite length_app. cbn [length].
    destruct Hn as [_ ?], Hh as [_ ?]. lia. }
  change line_cap with 167%nat in *.
  assert (srv_username s <> []) as Hu0.
  { intros E. unfold format_server in Hlong. rewrite E in Hlong. cbn [login_fields] in Hlong.
    rewrite app_nil_r in Hlong. fold P in Hlong. lia. }
  assert (format_server s = P ++ 32 :: join_sp (login_fields (srv_username s) (srv_password s))) as Ef.
  { unfold format_server. rewrite join_sp_app; [done|done|]. by destruct (srv_username s), (srv_password s). }
  assert (take 167 (format_server s) =
          P ++ 32 :: take (166 - length P) (join_sp (login_fields (srv_username s) (srv_password s)))) as Et.
  { rewrite Ef, take_app, take_ge by lia. f_equal. by replace (167 - length P)%nat with (S (166 - length P)) by lia. }
  assert (cut_at 35 (cstr (take 167 (format_server s))) = take 167 (format_server s)) as Ec
    by (by apply clean_text, Forall_take).
  rewrite Ef, length_app in Hlong. cbn [length] in Hlong.
  destruct (take_rest_fields (srv_username s) (srv_password s) (166 - length P) Hu0)
    as [(u & t & E & Ht & Hu1 & Hu2 & Hne)|(w & E & Hw1 & Hw2 & Hne)]; [lia|lia|..].
  - exists u, []. split; [|intros [= E1 E2]; by apply Hne].
    apply (parse_fields _ _ _ _ [u]); try done; [|cbn; lia|].
    { apply Forall_cons_2; [|apply Forall_nil_2]. split; [|done]. rewrite Hu2. by apply field_app. }
    rewrite Ec, Et, E. assert (no_space u) as Hus by (rewrite Hu2; by eapply field_no_space, field_app).
    transitivity (trim (P ++ 32 :: u)).
    { destruct Ht as [->| ->]; [by rewrite app_nil_r|].
      change (32 :: u ++ [32]) with ((32 :: u) ++ [32]). by rewrite app_assoc, trim_space. }
    unfold P. rewrite <- join_sp_snoc by done. by apply trim_join.
  - exists (srv_username s), w. split; [|by intros [= E2]].
    apply (parse_fields _ _ _ _ [srv_username s; w]); try done.
    { repeat apply Forall_cons_2; [done| |apply Forall_nil_2]. split; [|done]. rewrite Hw2. by apply field_app. }
    rewrite Ec, Et, E. unfold P. rewrite <- join_sp_app by done.
    apply (trim_join [_; _; _; _]); [|done]. rewrite Hw2. by eapply field_no_space, field_app.
Qed.

Lemma long_line_wrong_login_witness :
  exists user pass,
    parse_line (take line_cap (format_server (demo_server 8 8))) =
    Some (mkServer (srv_name (demo_server 8 8)) (srv_host (demo_server 8 8)) 11451 user pass) /\
    (user, pass) <> (srv_username (demo_server 8 8), srv_password (demo_server 8 8)).
Proof.
  apply (long_line_wrong_login (demo_server 8 8)); [|done|vm_compute; lia].
  apply (bool_decide_unpack _); vm_compute; exact I.
Defined.

(** A user name that starts with a digit after a glued port is read as the port. *)
Example digit_user_read_as_port :
  parse_line [97; 32; 98; 58; 57; 57; 32; 55; 117; 32; 112] =
  Some (mkServer [97] [98; 58; 57; 57] 7 [112] []).
Proof. reflexivity. Qed.

Lemma slpServersGet_total l i :
  0 <= i < slpServersCount l -> exists s, slpServersGet l i = Some s /\ s ∈ l.
Proof.
  unfold slpServersGet, slpServersCount. intros Hi.
  replace ((i <? 0) || _) with false by lia.
  destruct (lookup_lt_is_Some_2 l (Z.to_nat i)) as [s Hs]; [lia|].
  exists s. split; [done|]. by eapply list_elem_of_lookup_2.
Qed.
