(* ===== verification/OverlayServers.v ===== *)
(** The overlay's own copy of the server list parser (overlay/source/servers.c),
    which knows no logins, and what it has in common with the sysmodule's
    (Servers.v).  Both read the same servers.conf, and the overlay sends the
    sysmodule the position of a row. *)
From S2P Require Import Prelude Bytes CText Servers.

(** ** The code *)
Record OvServer : Set := mkOv {
  ov_name : bytes;
  ov_host : bytes;
  ov_port : Z;
}.

(** The port check and the copies into the entry. *)
Definition ov_fill (name host : bytes) (port : Z) : option OvServer :=
  if (port <? 1) || (65535 <? port) then None
  else Some (mkOv (take (SLPCFG_NAME_MAX - 1) name) (take (SLPCFG_HOST_MAX - 1) host) (u16 port)).

Definition ov_parse_line (line : bytes) : option OvServer :=
  let line := trim (cut_at 35 (cstr line)) in
  match line with
  | [] => None
  | _ =>
      match scan_fields [31; 127; 7]%nat line with
      | [name; host; portstr] => ov_fill name host (strtol portstr)
      | _ =>
          match scan_fields [31; 127]%nat line with
          | [name; host] =>
              match split_last 58 host with
              | Some (h, p) => ov_fill name h (strtol p)
              | None => ov_fill name host 11451
              end
          | _ => None
          end
      end
  end.

(** The loop of [slpServersParse]; [fuel] bounds the lines. *)
Fixpoint ov_parse_lines (fuel : nat) (p : bytes) (servers : list OvServer) : list OvServer :=
  match fuel with
  | O => servers
  | S fuel' =>
      if (length servers <? SLPCFG_MAX_SERVERS)%nat && negb (length p =? 0)%nat then
        let '(line, nl) := span (fun c => negb (c =? 10)) p in
        let servers :=
          match ov_parse_line (take line_cap line) with
          | Some srv => servers ++ [srv]
          | None => servers
          end in
        match nl with
        | [] => servers
        | _ :: p => ov_parse_lines fuel' p servers
        end
      else servers
  end.
Definition ov_slpServersParse (text : bytes) : list OvServer :=
  ov_parse_lines (S (length text)) text [].

(** [sizeof(buf) - 1] *)
Definition ov_file_cap : nat := SLPCFG_MAX_SERVERS * (SLPCFG_NAME_MAX + SLPCFG_HOST_MAX + 8) - 1.
Definition ov_slpServersLoad (file : option bytes) (g_servers : list OvServer) : list OvServer * Z :=
  match file with
  | None => (g_servers, 0)
  | Some f =>
      let l := ov_slpServersParse (take ov_file_cap f) in
      (l, Z.of_nat (length l))
  end.
Definition ov_slpServersCount (g_servers : list OvServer) : Z := Z.of_nat (length g_servers).
Definition ov_slpServersGet (g_servers : list OvServer) (index : Z) : option OvServer :=
  if (index <? 0) || (ov_slpServersCount g_servers <=? index) then None
  else g_servers !! Z.to_nat index.
Definition ov_slpServersFindByName (g_servers : list OvServer) (name : bytes) : Z :=
  from_option (fun p => Z.of_nat p.1) (-1) (list_find (fun srv => ov_name srv = name) g_servers).

(** ** Where the two parsers agree *)

(** An entry without its login. *)
Definition forget (s : SlpServer) : OvServer := mkOv (srv_name s) (srv_host s) (srv_port s).

(** A line on which no user name stands where the overlay looks for the port:
    its third field, if there is one, starts with a digit. *)
Definition plain_line (line : bytes) : bool :=
  match scan_fields [31; 127; 7]%nat (trim (cut_at 35 (cstr line))) with
  | [_; _; c :: _] => isdigit c
  | _ => true
  end.
(** The lines of a text as both parsers cut them. *)
Fixpoint text_lines (fuel : nat) (p : bytes) : list bytes :=
  match fuel, p with
  | O, _ | _, [] => []
  | S fuel', _ =>
      let '(line, nl) := span (fun c => negb (c =? 10)) p in
      take line_cap line :: match nl with [] => [] | _ :: p => text_lines fuel' p end
  end.
Definition plain_text (text : bytes) : bool := forallb plain_line (text_lines (S (length text)) text).

Lemma scan_fields_app ws vs l :
  scan_fields ws l = take (length ws) (scan_fields (ws ++ vs) l).
Proof.
  revert l; induction ws as [|n ws IH]; intros l; [done|]. cbn [scan_fields app length].
  destruct (scan_s n l) as [[tok r]|]; [|done]. cbn [take]. by rewrite IH.
Qed.

Lemma fill_forget name host port user pass :
  forget <$> fill_server name host port user pass = ov_fill name host port.
Proof. unfold fill_server, ov_fill. by destruct (_ || _). Qed.

(** A field is missing whatever its width. *)
Lemma scan_s_none n m l : (0 < n)%nat -> (0 < m)%nat -> scan_s n l = None -> scan_s m l = None.
Proof.
  intros Hn Hm. unfold scan_s. destruct (fst (span _ (skip_space l))) as [|c t]; [by rewrite !take_nil|].
  destruct n; [lia|]. done.
Qed.

(** The first two fields do not depend on how the rest is read, and whether there
    is a third does not depend on its width. *)
Lemma scan_two line ws vs n m :
  (0 < n)%nat -> (0 < m)%nat ->
  let a := scan_fields (31 :: 127 :: n :: ws)%nat line in
  let b := scan_fields (31 :: 127 :: m :: vs)%nat line in
  take 2 a = take 2 b /\ (length a <= 2 <-> length b <= 2)%nat.
Proof.
  intros Hn Hm. cbv zeta. cbn [scan_fields]. destruct (scan_s 31 line) as [[t1 r1]|]; [|done].
  destruct (scan_s 127 r1) as [[t2 r2]|]; [|done]. cbn [take]. split; [done|].
  destruct (scan_s n r2) as [[t3 r3]|] eqn:E, (scan_s m r2) as [[t4 r4]|] eqn:E'; cbn [length]; try lia.
  - rewrite (scan_s_none m n) in E by done. done.
  - rewrite (scan_s_none n m) in E' by done. done.
Qed.

(** On a plain line the overlay reads the sysmodule's entry without its login. *)
Lemma ov_parse_line_plain line : plain_line line = true -> ov_parse_line line = forget <$> parse_line line.
Proof.
  unfold plain_line, ov_parse_line, parse_line. set (t := trim _). intros Hp.
  destruct t as [|c0 t0] eqn:Et; [done|]. rewrite <- Et in *. clear c0 t0 Et.
  rewrite (scan_fields_app [31; 127; 7]%nat [63; 63]%nat t) in *.
  assert (forall name host, scan_fields [31; 127; 63; 63]%nat t = [name; host] ->
    forget <$> parse_glued t = match split_last 58 host with
      | Some (h, p) => ov_fill name h (strtol p) | None => ov_fill name host 11451 end) as Hglue.
  { intros name host E. unfold parse_glued. rewrite E.
    destruct (split_last 58 host) as [[h p]|]; apply fill_forget. }
  destruct (scan_two t [63; 63]%nat [63]%nat 7 63) as [H2 Hlen]; [lia..|].
  rewrite (scan_fields_app [31; 127]%nat [7; 63; 63]%nat t). cbn [app length] in *.
  destruct (scan_fields [31; 127; 7; 63; 63]%nat t) as [|name [|host [|portstr rest]]] eqn:E.
  - unfold parse_glued. cbn [take] in *. destruct (scan_fields [31; 127; 63; 63]%nat t) as [|? [|]]; done.
  - unfold parse_glued. cbn [take] in *. destruct (scan_fields [31; 127; 63; 63]%nat t) as [|? [|]]; done.
  - cbn [take] in *. symmetry. apply Hglue.
    destruct (scan_fields [31; 127; 63; 63]%nat t) as [|? [|? [|]]] eqn:E3; try done.
    cbn [length] in Hlen. lia.
  - cbn [take firstn] in *. rewrite take_0 in *. destruct portstr as [|c p]; [|rewrite Hp; symmetry; apply fill_forget].
    exfalso. revert E. cbn [scan_fields]. destruct (scan_s 31 t) as [[t1 r1]|]; [|done].
    destruct (scan_s 127 r1) as [[t2 r2]|]; [|done]. destruct (scan_s 7 r2) as [[t3 r3]|] eqn:E7; [|done].
    intros [= _ _ -> _]. by apply scan_s_spec in E7 as [? _].
Qed.

Lemma ov_parse_lines_plain fuel : forall p servers,
  forallb plain_line (text_lines fuel p) = true ->
  ov_parse_lines fuel p (forget <$> servers) = forget <$> parse_lines fuel p servers.
Proof.
  induction fuel as [|fuel IH]; intros p servers Hp; [done|]. cbn [ov_parse_lines parse_lines].
  rewrite length_fmap. destruct (_ && _) eqn:Hc; [|done].
  destruct p as [|c0 p0] eqn:Ep; [by rewrite andb_false_r in Hc|]. rewrite <- Ep in *. clear Hc.
  cbn [text_lines] in Hp. rewrite Ep in Hp. rewrite <- Ep in Hp.
  destruct (span (fun c => negb (c =? 10)) p) as [line nl]. cbn [forallb] in Hp.
  apply andb_prop in Hp as [Hl Hp]. rewrite ov_parse_line_plain by done.
  assert (match forget <$> parse_line (take line_cap line) with
          | Some srv => (forget <$> servers) ++ [srv] | None => forget <$> servers end =
          forget <$> match parse_line (take line_cap line) with
          | Some srv => servers ++ [srv] | None => servers end) as ->.
  { destruct (parse_line _); cbn; [by rewrite fmap_app|done]. }
  destruct nl as [|x nl]; [done|]. by apply IH.
Qed.

Lemma ov_Get_forget l i : ov_slpServersGet (forget <$> l) i = forget <$> slpServersGet l i.
Proof.
  unfold ov_slpServersGet, slpServersGet, ov_slpServersCount, slpServersCount. rewrite length_fmap.
  destruct (_ || _); [done|]. by rewrite list_lookup_fmap.
Qed.

(** C21: The two lists agree.  On a text that fits the overlay's buffer and has no
    line with a user name where the port could stand, the overlay's table is the
    sysmodule's without the logins: the row at every position is the server
    that position selects. *)
Theorem overlay_list_agrees text old :
  plain_text text = true -> (length text <= ov_file_cap)%nat ->
  (ov_slpServersLoad (Some text) old).1 = forget <$> slpServersParse text /\
  forall i, ov_slpServersGet (ov_slpServersLoad (Some text) old).1 i =
            forget <$> slpServersGet (slpServersParse text) i.
Proof.
  intros Hp Hl. unfold ov_slpServersLoad. cbn [fst]. rewrite take_ge by done.
  assert (ov_slpServersParse text = forget <$> slpServersParse text) as ->
    by exact (ov_parse_lines_plain _ text [] Hp).
  split; [done|]. intros i. apply ov_Get_forget.
Qed.

(** ** Where they do not: a login after [host:port] *)

(** The line [name host:port user [pass]]. *)
Definition format_glued (s : SlpServer) : bytes :=
  join_sp ([srv_name s; srv_host s ++ 58 :: dec (srv_port s)] ++ login_fields (srv_username s) (srv_password s)).

(** A user name that is not read as a number. *)
Definition plain_user (u : bytes) : Prop :=
  match u with c :: _ => isdigit c = false /\ c <> 43 /\ c <> 45 | [] => False end.

Record glued_ok (s : SlpServer) : Prop := {
  gl_server : server_ok s;
  gl_user : plain_user (srv_username s);
  gl_host : Forall (fun c => c <> 58) (srv_host s);
  gl_fits : (length (srv_host s) + 1 + length (dec (srv_port s)) <= 127)%nat;
  gl_line : (length (format_glued s) <= line_cap)%nat;
}.

Lemma scan_s_long n tok r :
  (0 < n)%nat -> no_space tok -> tok <> [] -> (forall c r', r = c :: r' -> isspace c = true) ->
  exists r', scan_s n (tok ++ r) = Some (take n tok, r').
Proof.
  intros Hn Ht Hne Hr. unfold scan_s.
  assert (skip_space (tok ++ r) = tok ++ r) as ->.
  { destruct tok as [|c tok]; [done|]. apply Forall_cons_1 in Ht as [Hc _]. unfold skip_space. cbn [app span]. by rewrite Hc. }
  rewrite span_app; cbn [fst].
  - destruct (take n tok) eqn:E; [|by eexists]. exfalso. destruct n; [lia|]. by destruct tok.
  - eapply Forall_impl; [|exact Ht]. intros c Hc. cbn beta in *. by rewrite Hc.
  - intros c r' ->. by rewrite (Hr c r').
Qed.

(** A user name in the third field is not a port. *)
Lemma strtol_plain u k : (0 < k)%nat -> plain_user u -> no_space u -> strtol (take k u) = 0.
Proof.
  intros Hk Hu Hs. destruct u as [|c u]; [by destruct Hu|]. destruct k as [|k]; [lia|]. destruct Hu as (Hd & H1 & H2).
  apply Forall_cons_1 in Hs as [Hc _]. cbn [take]. unfold strtol, skip_space. cbn [span]. rewrite Hc. cbn [snd].
  unfold scan_sign. replace (c =? 45) with false by lia. replace (c =? 43) with false by lia.
  cbn [span]. by rewrite Hd.
Qed.

Lemma split_last_snoc c a b : Forall (fun x => x <> c) b -> split_last c (a ++ c :: b) = Some (a, b).
Proof.
  intros H. unfold split_last. rewrite rev_app_distr. cbn [rev]. rewrite <- app_assoc. cbn [app].
  rewrite span_app.
  - by rewrite !rev_involutive.
  - apply Forall_rev. eapply Forall_impl; [|exact H]. intros x Hx. cbn beta in *. lia.
  - intros x r' [= <- _]. by rewrite Z.eqb_refl.
Qed.

Section glued.
Variable s : SlpServer.
Hypothesis Hok : glued_ok s.
Let hp : bytes := srv_host s ++ 58 :: dec (srv_port s).
Let login : list bytes := login_fields (srv_username s) (srv_password s).

Lemma glued_host : field_ok 127 hp /\ hp <> [] /\ field_ok 31 (srv_name s) /\ srv_name s <> [].
Proof using Hok.
  destruct Hok as [[[Hn Hn0] [Hh _] Hp _ _ _] _ _ Hf _]. split_and!; [|by unfold hp; destruct (srv_host s)|done|done].
  destruct (dec_spec (srv_port s)) as (Hd & _); [lia|].
  split; [|unfold hp; rewrite length_app; cbn [length]; lia].
  apply Forall_app; split; [done|]. apply Forall_cons_2; [done|].
  by apply (digits_field (length (dec (srv_port s)))).
Qed.

Lemma glued_login :
  exists rest, login = srv_username s :: rest /\ Forall (fun t => field_ok 63 t /\ t <> []) login /\
    (length login <= 2)%nat /\ default [] (login !! 0%nat) = srv_username s /\
    default [] (login !! 1%nat) = srv_password s.
Proof using Hok.
  destruct (login_fields_ok s (gl_server s Hok)) as (H1 & H2 & H3 & H4). pose proof (gl_user s Hok) as Hu.
  unfold login in *. destruct (srv_username s) as [|c u]; [done|].
  destruct (srv_password s); cbn [login_fields] in *; eexists; split_and!; done.
Qed.

Lemma glued_text : trim (cut_at 35 (cstr (format_glued s))) = format_glued s.
Proof using Hok.
  destruct glued_host as ([Hh _] & Hh0 & [Hn _] & Hn0). destruct glued_login as (rest & El & Hl & _).
  unfold format_glued. fold hp. fold login. rewrite clean_line.
  - destruct (exists_last (l := login)) as (l & t & E); [by rewrite El|]. rewrite E in *.
    apply Forall_app in Hl as [_ Hl]. apply Forall_cons_1 in Hl as [[Ht Ht0] _].
    rewrite app_assoc. apply trim_join; [by eapply field_no_space|done].
  - apply Forall_cons_2; [done|]. apply Forall_cons_2; [done|]. eapply Forall_impl; [|exact Hl].
    by intros t [[? _] _].
Qed.

Lemma glued_scan :
  scan_fields [31; 127; 63; 63]%nat (format_glued s) = [srv_name s; hp] ++ login /\
  exists rest, scan_fields [31; 127; 7; 63; 63]%nat (format_glued s) =
               srv_name s :: hp :: take 7 (srv_username s) :: rest.
Proof using Hok.
  destruct glued_host as (Hh & Hh0 & Hn & Hn0). destruct glued_login as (rest & El & Hl & Hlen & _).
  assert (forall n t, field_ok n t -> t <> [] -> no_space t /\ t <> [] /\ (length t <= n)%nat) as Hfit
    by (intros n t H ?; split; [by eapply field_no_space|]; by destruct H).
  split.
  - unfold format_glued. fold hp. fold login. apply scan_fields_join; [cbn; lia|]. cbn [app length take].
    do 2 (apply Forall2_cons_2; [by apply Hfit|]).
    clear El. destruct login as [|a [|b [|]]]; cbn in Hlen; try lia; cbn [length take];
      repeat (apply Forall_cons_1 in Hl as [[] Hl]); repeat apply Forall2_cons_2; auto.
  - unfold format_glued. fold hp. fold login. rewrite El in *. cbn [app].
    apply Forall_cons_1 in Hl as [[Hu Hu0] _]. apply Hfit in Hu as (Hu1 & _ & _); [|done].
    destruct (Hfit _ _ Hn Hn0) as (N1 & _ & N3), (Hfit _ _ Hh Hh0) as (H1 & _ & H3).
    rewrite !join_sp_cons by done. cbn [scan_fields].
    rewrite scan_s_token; [|done|done|done|by intros ? ? [= <- <-]]. rewrite scan_s_space.
    rewrite scan_s_token; [|done|done|done|by intros ? ? [= <- <-]]. rewrite scan_s_space.
    assert (exists r, join_sp (srv_username s :: rest) = srv_username s ++ r /\
      forall c r', r = c :: r' -> isspace c = true) as (r & -> & Hr).
    { destruct rest as [|t rest]; [exists []; split; [by rewrite app_nil_r|done]|].
      exists (32 :: join_sp (t :: rest)). split; [by rewrite join_sp_cons|]. by intros c r' [= <- _]. }
    destruct (scan_s_long 7 (srv_username s) r) as [r' ->]; [lia|done|done|done|]. by eexists.
Qed.

(** The sysmodule reads the entry, the overlay skips the line. *)
Lemma glued_parse : parse_line (format_glued s) = Some s /\ ov_parse_line (format_glued s) = None.
Proof using Hok.
  destruct glued_scan as [S1 [rest S2]]. destruct glued_login as (lrest & El & Hl & Hlen & L0 & L1).
  destruct (gl_server s Hok) as [[[Hn0 Hnl] Hnn] [_ Hhl] Hport [_ Hul] [_ Hpl] _].
  pose proof (gl_user s Hok) as Hu. pose proof (gl_host s Hok) as H58.
  assert (no_space (srv_username s)) as Hus.
  { rewrite El in Hl. apply Forall_cons_1 in Hl as [[Hl _] _]. by eapply field_no_space. }
  assert (format_glued s <> []) as Hne.
  { unfold format_glued. cbn [app]. rewrite join_sp_cons by done. by destruct (srv_name s). }
  assert (forall A (a b : A), match format_glued s with [] => a | _ => b end = b) as Hm
    by (by destruct (format_glued s)).
  unfold parse_line, ov_parse_line. rewrite glued_text, !Hm. split.
  - rewrite S2. assert (match take 7 (srv_username s) with c :: _ => isdigit c | [] => false end = false) as ->.
    { destruct (srv_username s) as [|c u]; [done|]. by destruct Hu. }
    unfold parse_glued. rewrite S1. cbn [app]. fold login in L0, L1. rewrite L0, L1.
    destruct (dec_spec (srv_port s)) as (Hd & _); [lia|].
    unfold hp. rewrite split_last_snoc; [|eapply Forall_impl; [|exact Hd]; intros c Hc; unfold isdigit in Hc; lia].
    rewrite strtol_dec by lia. unfold fill_server. replace ((srv_port s <? 1) || (65535 <? srv_port s)) with false by lia.
    rewrite u16_id by (unfold is_u16; lia).
    unfold SLPCFG_NAME_MAX, SLPCFG_HOST_MAX, SLPCFG_USER_MAX, SLPCFG_PASS_MAX. cbn [Nat.sub].
    rewrite !take_ge by lia. by destruct s.
  - rewrite (scan_fields_app [31; 127; 7]%nat [63; 63]%nat). cbn [app length]. rewrite S2.
    change (take 3 (srv_name s :: hp :: take 7 (srv_username s) :: rest))
      with [srv_name s; hp; take 7 (srv_username s)].
    cbv beta iota. rewrite strtol_plain by (done || lia). reflexivity.
Qed.
End glued.

(** ** Texts line by line *)
Definition no_newline (l : bytes) : Prop := Forall (fun c => c <> 10) l.
Lemma span_line line rest :
  no_newline line -> span (fun c => negb (c =? 10)) (line ++ 10 :: rest) = (line, 10 :: rest).
Proof.
  intros H. apply span_app; [|by intros c r' [= <- _]].
  eapply Forall_impl; [|exact H]. intros c Hc. cbn beta in *. lia.
Qed.
Lemma parse_lines_step fuel line rest acc :
  no_newline line -> (length line <= line_cap)%nat -> (length acc < SLPCFG_MAX_SERVERS)%nat ->
  parse_lines (S fuel) (line ++ 10 :: rest) acc =
  parse_lines fuel rest (match parse_line line with Some srv => acc ++ [srv] | None => acc end).
Proof.
  intros Hn Hl Ha. cbn [parse_lines]. rewrite (proj2 (Nat.ltb_lt _ _)) by done.
  replace (length (line ++ 10%Z :: rest) =? 0)%nat with false by (rewrite length_app; cbn [length]; lia).
  cbn [andb negb]. by rewrite span_line, take_ge by done.
Qed.
Lemma ov_parse_lines_step fuel line rest acc :
  no_newline line -> (length line <= line_cap)%nat -> (length acc < SLPCFG_MAX_SERVERS)%nat ->
  ov_parse_lines (S fuel) (line ++ 10 :: rest) acc =
  ov_parse_lines fuel rest (match ov_parse_line line with Some srv => acc ++ [srv] | None => acc end).
Proof.
  intros Hn Hl Ha. cbn [ov_parse_lines]. rewrite (proj2 (Nat.ltb_lt _ _)) by done.
  replace (length (line ++ 10%Z :: rest) =? 0)%nat with false by (rewrite length_app; cbn [length]; lia).
  cbn [andb negb]. by rewrite span_line, take_ge by done.
Qed.

Lemma no_newline_join toks : Forall (Forall field_char) toks -> no_newline (join_sp toks).
Proof.
  intros H. apply join_sp_forall; [done|]. eapply Forall_impl; [|exact H].
  intros t Ht. eapply Forall_impl; [|exact Ht]. intros c (Hc & _). unfold isspace in Hc. lia.
Qed.

Lemma ov_parse_format s :
  server_ok s -> srv_host s <> [] -> ov_parse_line (format_server s) = Some (forget s).
Proof.
  intros Hs Hh0. rewrite ov_parse_line_plain; [by rewrite parse_format|]. unfold plain_line.
  pose proof (format_fields s Hs) as Hff. pose proof (login_fields_ok s Hs) as (Hf & Hl & _).
  destruct Hs as [[Hn Hn0] Hh Hp _ _ _]. destruct (dec_spec (srv_port s)) as (Hd & Hd0 & _); [lia|].
  assert (length (dec (srv_port s)) <= 5)%nat as Hd5 by (apply dec_length; lia).
  assert (forall n t, field_ok n t -> t <> [] -> no_space t /\ t <> [] /\ (length t <= n)%nat) as Hfit
    by (intros n t H ?; split; [by eapply field_no_space|]; by destruct H).
  assert (trim (cut_at 35 (cstr (format_server s))) = format_server s) as ->.
  { unfold format_server. rewrite clean_line by done. set (toks := login_fields _ _) in *. clearbody toks.
    destruct (decide (toks = [])) as [->|Hne].
    - apply (trim_join [srv_name s; srv_host s]); [by apply digits_no_space|done].
    - destruct (exists_last Hne) as (l & t & ->). rewrite app_assoc.
      apply Forall_app in Hf as [_ Hf]. apply Forall_cons_1 in Hf as [[Hf Ht0] _].
      apply trim_join; [by eapply field_no_space|done]. }
  rewrite (scan_fields_app [31; 127; 7]%nat [63; 63]%nat). cbn [app]. unfold format_server.
  rewrite scan_fields_join.
  - cbn [app length take]. destruct (dec (srv_port s)) as [|c l]; [done|].
    by apply Forall_cons_1 in Hd as [Hc _].
  - rewrite length_app. cbn [length]. lia.
  - cbn [app length take]. do 2 (apply Forall2_cons_2; [by apply Hfit|]).
    apply Forall2_cons_2; [apply Hfit; [apply digits_field; [done|lia]|done]|].
    destruct (login_fields _ _) as [|a [|b [|]]]; cbn in Hl; try lia; cbn [length take];
      repeat (apply Forall_cons_1 in Hf as [[] Hf]); repeat apply Forall2_cons_2; auto.
Qed.

(** A server whose line fits and is read back. *)
Definition listed (s : SlpServer) : Prop :=
  server_ok s /\ srv_host s <> [] /\ (length (format_server s) <= line_cap)%nat.

Lemma ov_parse_lines_format l : forall acc fuel,
  Forall listed l -> (length acc + length l <= SLPCFG_MAX_SERVERS)%nat -> (length l < fuel)%nat ->
  ov_parse_lines fuel (format_servers l) acc = acc ++ (forget <$> l).
Proof.
  induction l as [|s l IH]; intros acc [|fuel] Hl Hn Hf; try (cbn in Hf; lia).
  - cbn [format_servers fmap list_fmap concat ov_parse_lines length]. rewrite app_nil_r. by destruct (_ && _).
  - apply Forall_cons_1 in Hl as [(Hs & Hh & Hc) Hl]. cbn [length] in Hn, Hf.
    unfold format_servers. cbn [fmap list_fmap concat]. fold (format_servers l). rewrite <- app_assoc. cbn [app].
    rewrite ov_parse_lines_step; [|by apply no_newline_join, format_fields|done|lia].
    rewrite ov_parse_format by done. rewrite IH; [by rewrite <- app_assoc|done|rewrite length_app; cbn [length]; lia|lia].
Qed.

(** C22: The rows are shifted.  When the first line gives a login after
    [host:port], a form the sysmodule documents, the sysmodule's table starts with
    that server and the overlay's does not: every row of the overlay stands at
    the position of the server before it. *)
Theorem glued_login_shifts s l old :
  glued_ok s -> Forall listed l -> (length l < SLPCFG_MAX_SERVERS)%nat ->
  let text := format_glued s ++ 10 :: format_servers l in
  (length text <= ov_file_cap)%nat ->
  slpServersParse text = s :: l /\
  (ov_slpServersLoad (Some text) old).1 = forget <$> l /\
  forall i, 0 <= i ->
    ov_slpServersGet (ov_slpServersLoad (Some text) old).1 i = forget <$> slpServersGet (slpServersParse text) (i + 1).
Proof.
  intros Hs Hl Hn text Hfit. destruct (glued_parse s Hs) as [P1 P2].
  assert (no_newline (format_glued s)) as Hnl.
  { apply no_newline_join. destruct (glued_host s Hs) as ([Hh _] & _ & [Hname _] & _).
    destruct (glued_login s Hs) as (rest & _ & Hlog & _).
    do 2 (apply Forall_cons_2; [done|]). eapply Forall_impl; [|exact Hlog]. by intros t [[? _] _]. }
  assert (length l < length text)%nat as Hfuel.
  { unfold text. rewrite length_app. cbn [length]. pose proof (format_servers_length l). lia. }
  assert (slpServersParse text = s :: l) as E1.
  { unfold slpServersParse, text. rewrite parse_lines_step; [|done|apply (gl_line s Hs)|cbn; lia].
    rewrite P1. by apply (parse_lines_format l [s]). }
  assert ((ov_slpServersLoad (Some text) old).1 = forget <$> l) as E2.
  { unfold ov_slpServersLoad, ov_slpServersParse. cbn [fst]. rewrite take_ge by done. unfold text.
    rewrite ov_parse_lines_step; [|done|apply (gl_line s Hs)|cbn; lia].
    rewrite P2. apply (ov_parse_lines_format l []); [done|cbn; lia|done]. }
  split; [done|]. split; [done|]. intros i Hi. rewrite E1, E2, ov_Get_forget. f_equal.
  unfold slpServersGet, slpServersCount. cbn [length].
  replace (i + 1 <? 0) with false by lia. replace (i <? 0) with false by lia.
  replace (Z.of_nat (S (length l)) <=? i + 1) with (Z.of_nat (length l) <=? i) by lia.
  cbn [orb]. destruct (_ <=? _); [done|]. by replace (Z.to_nat (i + 1)) with (S (Z.to_nat i)) by lia.
Qed.

(** ** Concrete lists *)

(** The entries of the servers.conf that is shipped (config/servers.conf). *)
Definition shipped_conf : bytes :=
  [35; 32; 115; 108; 112; 45; 115; 101; 114; 118; 101; 114; 45; 114; 117; 115; 116; 32; 114; 101; 108; 97;
   121; 32; 111; 114; 32; 101; 113; 117; 105; 118; 97; 108; 101; 110; 116; 32; 111; 110; 32; 108; 111; 99;
   97; 108; 32; 110; 101; 116; 119; 111; 114; 107; 10; 108; 111; 99; 97; 108; 32; 32; 32; 32; 32; 49; 48;
   46; 50; 52; 50; 46; 50; 51; 51; 46; 49; 53; 51; 58; 49; 49; 52; 53; 49; 10; 10; 35; 32; 108; 97; 110;
   45; 112; 108; 97; 121; 32; 115; 101; 114; 118; 101; 114; 32; 117; 115; 97; 10; 116; 101; 107; 110; 48;
   32; 32; 32; 32; 32; 32; 116; 101; 107; 110; 48; 46; 110; 101; 116; 58; 49; 49; 52; 53; 49; 10].

Lemma overlay_list_agrees_witness :
  ov_slpServersGet (ov_slpServersLoad (Some shipped_conf) []).1 1 =
  Some (mkOv [116; 101; 107; 110; 48] [116; 101; 107; 110; 48; 46; 110; 101; 116] 11451).
Proof.
  rewrite (proj2 (overlay_list_agrees shipped_conf [] ltac:(vm_compute; reflexivity)
    ltac:(apply Nat.leb_le; vm_compute; reflexivity))).
  vm_compute. reflexivity.
Defined.

(** [home relay.net:11451 bob pw], then [tekn0 tekn0.net 11451]. *)
Definition demo_login : SlpServer :=
  mkServer [104; 111; 109; 101] [114; 101; 108; 97; 121; 46; 110; 101; 116] 11451 [98; 111; 98] [112; 119].
Definition demo_plain : SlpServer :=
  mkServer [116; 101; 107; 110; 48] [116; 101; 107; 110; 48; 46; 110; 101; 116] 11451 [] [].
Lemma demo_login_ok : glued_ok demo_login.
Proof.
  constructor; [apply (bool_decide_unpack _); vm_compute; exact I|done| | |].
  - repeat constructor; discriminate.
  - apply Nat.leb_le. vm_compute. reflexivity.
  - apply Nat.leb_le. vm_compute. reflexivity.
Qed.
Lemma demo_plain_listed : Forall listed [demo_plain].
Proof.
  apply Forall_cons_2; [|apply Forall_nil_2]. split; [apply (bool_decide_unpack _); vm_compute; exact I|].
  split; [done|]. apply Nat.leb_le. vm_compute. reflexivity.
Qed.

(** The only row shows tekn0 and selects home. *)
Lemma glued_login_shifts_witness :
  let text := format_glued demo_login ++ 10 :: format_servers [demo_plain] in
  slpServersParse text = [demo_login; demo_plain] /\
  (ov_slpServersLoad (Some text) []).1 = [forget demo_plain].
Proof.
  intros text. destruct (glued_login_shifts demo_login [demo_plain] [] demo_login_ok demo_plain_listed
    ltac:(vm_compute; lia) ltac:(apply Nat.leb_le; vm_compute; reflexivity)) as (H1 & H2 & _).
  split; [exact H1|exact H2].
Defined.
