(* ===== verification/Trace.v ===== *)
(** The trace log (slpcfg/slp_trace.cpp, built with SLPCFG_DEBUG_TRACE): one
    line a call, composed in a buffer of 256 bytes and appended to a file.

    The SD card is behind the interface [SdCard]; what [Trace] needs of it is
    [SdCardLaws]. *)
From S2P Require Import Prelude Bytes CText.

(** ** The SD card, with the trace file open or not *)
Class SdCard (S : Type) : Type := {
  sd_file : S -> option bytes;
  CreateFile : S -> S;
  OpenFile : S -> S * bool;
  CloseFile : S -> S;
  GetFileSize : S -> option nat;
  WriteFile : nat -> bytes -> S -> S * bool;
}.
Definition log_of {S} `{!SdCard S} (s : S) : bytes := default [] (sd_file s).

(** What is documented of it.  A write that fails may have written a part. *)
Class SdCardLaws (S : Type) `{!SdCard S} : Prop := {
  create_log s : log_of (CreateFile s) = log_of s;
  open_log s : log_of (OpenFile s).1 = log_of s;
  close_log s : log_of (CloseFile s) = log_of s;
  size_log s n : GetFileSize s = Some n -> n = length (log_of s);
  write_log s l : exists p, p `prefix_of` l /\
    log_of (WriteFile (length (log_of s)) l s).1 = log_of s ++ p /\
    ((WriteFile (length (log_of s)) l s).2 = true -> p = l);
}.
(** A card on which nothing fails. *)
Definition reliable (S : Type) `{!SdCard S} : Prop := forall s : S,
  (OpenFile s).2 = true /\ (exists n, GetFileSize s = Some n) /\ forall n l, (WriteFile n l s).2 = true.

(** ** The tracer *)
Definition trace_cap : nat := 256.

(** [snprintf] of [text] at [off] of the buffer, with the rest of it as the size:
    as much as fits and a zero.  The count is that of the whole text. *)
Definition snprintf_at (off : nat) (text buf : bytes) : option bytes :=
  match (trace_cap - off)%nat with
  | O => Some buf
  | S room => blit off (take room text ++ [0]) buf
  end.

Definition stamp (now : Z) : bytes := [91] ++ dec now ++ [93; 32].

Section tracer.
Context {S : Type} `{!SdCard S}.

Record Tracer : Type := mkTracer { g_opened : bool; g_card : S }.

Definition CloseIfOpen (t : Tracer) : Tracer :=
  if g_opened t then mkTracer false (CloseFile (g_card t)) else t.
Definition OpenIfNeeded (t : Tracer) : Tracer :=
  if g_opened t then t
  else
    let '(s, ok) := OpenFile (CreateFile (g_card t)) in
    mkTracer ok s.
Definition WriteLine (line : bytes) (t : Tracer) : Tracer :=
  if negb (g_opened t) then t
  else match GetFileSize (g_card t) with
       | None => t
       | Some size => CloseIfOpen (mkTracer true (WriteFile size line (g_card t)).1)
       end.
Definition TraceInit : Tracer -> Tracer := OpenIfNeeded.

(** [stack]: what the buffer holds before; [msg]: the message that the format
    and its arguments make, or [None] when it cannot be encoded.  [None]: an
    access outside the buffer. *)
Definition Trace (stack : bytes) (now : Z) (msg : option bytes) (t : Tracer) : option Tracer :=
  let t := if negb (g_opened t) then OpenIfNeeded t else t in
  if negb (g_opened t) then Some t
  else
    buf ← snprintf_at 0 (stamp now) stack;
    let hdr := length (stamp now) in
    if (trace_cap <=? hdr)%nat then Some t
    else match msg with
         | None => Some t
         | Some body =>
             buf ← snprintf_at hdr body buf;
             let total := (hdr + length body)%nat in
             let total := if (trace_cap - 1 <? total)%nat then (trace_cap - 1)%nat else total in
             buf ← blit total [10] buf;
             line ← slice 0 (total + 1) buf;
             Some (WriteLine line t)
         end.

(** A history of calls. *)
Fixpoint trace_run (calls : list (bytes * Z * option bytes)) (t : Tracer) : option Tracer :=
  match calls with
  | [] => Some t
  | (stack, now, msg) :: calls => t ← Trace stack now msg t; trace_run calls t
  end.

(** ** What a call is to write *)
Definition trace_line (now : Z) (msg : option bytes) : bytes :=
  match msg with
  | None => []
  | Some body => take (trace_cap - 1) (stamp now ++ body) ++ [10]
  end.
Definition call_fits (c : bytes * Z * option bytes) : Prop :=
  length c.1.1 = trace_cap /\ 0 <= c.1.2 < 2 ^ 64.

(** ** Lemmas *)
Lemma stamp_length now : 0 <= now < 2 ^ 64 -> (length (stamp now) <= 23)%nat.
Proof.
  intros H. unfold stamp. rewrite !length_app. cbn [length].
  pose proof (dec_length 20 now ltac:(lia) ltac:(lia)). lia.
Qed.

Lemma snprintf_at_spec pre text rest :
  (length pre + length rest = trace_cap)%nat -> (length pre < trace_cap)%nat ->
  exists rest', snprintf_at (length pre) text (pre ++ rest) =
    Some (pre ++ take (length rest - 1) text ++ [0] ++ rest') /\
    (length (take (length rest - 1) text) + 1 + length rest' = length rest)%nat.
Proof.
  intros Hl Hp. unfold snprintf_at. destruct (trace_cap - length pre)%nat as [|room] eqn:Er; [lia|].
  assert (length rest = Datatypes.S room) as Hr by lia. rewrite Hr, Nat.sub_succ, Nat.sub_0_r.
  assert (length (take room text ++ [0%Z]) <= length rest)%nat as Hw.
  { rewrite length_app, length_take. cbn [length]. lia. }
  exists (drop (length (take room text ++ [0])) rest). split.
  - rewrite blit_Some by (rewrite (length_app pre); lia). f_equal.
    rewrite take_app_length, drop_app_ge by lia. rewrite <- !app_assoc. cbn [app].
    do 4 f_equal. lia.
  - rewrite length_drop, !length_app in *. cbn [length] in *. lia.
Qed.

Lemma trace_line_length now msg : (length (trace_line now msg) <= 256)%nat.
Proof.
  destruct msg as [body|]; cbn [trace_line]; [|cbn; lia].
  rewrite length_app, length_take. unfold trace_cap. cbn [length]. lia.
Qed.

(** What reaches the card is the line, composed without leaving the buffer. *)
Lemma Trace_composes stack now body t :
  length stack = trace_cap -> 0 <= now < 2 ^ 64 ->
  Trace stack now (Some body) t =
    Some (let t := if negb (g_opened t) then OpenIfNeeded t else t in WriteLine (trace_line now (Some body)) t).
Proof.
  intros Hs Hn. pose proof (stamp_length now Hn) as Hh. unfold Trace.
  set (t1 := if negb (g_opened t) then OpenIfNeeded t else t). destruct (negb (g_opened t1)) eqn:Eo.
  { cbv zeta. unfold WriteLine. by rewrite Eo. }
  destruct (snprintf_at_spec [] (stamp now) stack) as (r1 & E1 & L1); [cbn; lia|cbn; unfold trace_cap; lia|].
  cbn [app length] in E1. rewrite E1. cbn [mbind option_bind]. unfold trace_cap in *.
  rewrite (proj2 (Nat.leb_gt _ _)) by lia. rewrite take_ge in * by lia.
  destruct (snprintf_at_spec (stamp now) body ([0] ++ r1)) as (r2 & E2 & L2);
    [unfold trace_cap; cbn [app length]; lia|unfold trace_cap; lia|].
  cbn [app] in E2. cbn [app]. rewrite E2. cbn [mbind option_bind].
  assert (length (0%Z :: r1) = 256 - length (stamp now))%nat as L0 by (cbn [length]; lia).
  cbn [app] in L2. rewrite L0 in *.
  set (text := take (256 - 1) (stamp now ++ body)).
  assert (text = stamp now ++ take (256 - length (stamp now) - 1) body) as Ht.
  { unfold text. rewrite take_app_ge by lia. do 2 f_equal. lia. }
  assert ((if (256 - 1 <? length (stamp now) + length body)%nat then (256 - 1)%nat
           else (length (stamp now) + length body)%nat) = length text) as ->.
  { unfold text. rewrite length_take, length_app. destruct (_ <? _)%nat eqn:E; [apply Nat.ltb_lt in E|apply Nat.ltb_ge in E]; lia. }
  rewrite app_assoc, <- Ht. rewrite blit_Some by (rewrite !length_app, Ht, length_app; cbn [length]; lia).
  rewrite take_app_length. cbn [mbind option_bind]. rewrite app_assoc.
  rewrite slice_Some by (rewrite !length_app; cbn [length]; lia).
  rewrite drop_0, take_app_le, take_ge by (rewrite length_app; cbn [length]; lia). reflexivity.
Qed.

(** What one call adds to the log. *)
Lemma Trace_adds `{!SdCardLaws S} stack now msg t :
  length stack = trace_cap -> 0 <= now < 2 ^ 64 ->
  exists t' p, Trace stack now msg t = Some t' /\ p `prefix_of` trace_line now msg /\
    log_of (g_card t') = log_of (g_card t) ++ p /\ (reliable S -> p = trace_line now msg).
Proof.
  intros Hs Hn.
  set (t1 := if negb (g_opened t) then OpenIfNeeded t else t).
  assert (log_of (g_card t1) = log_of (g_card t) /\ (reliable S -> g_opened t1 = true)) as [Hl Ho].
  { unfold t1, OpenIfNeeded. destruct (g_opened t) eqn:E; cbn [negb]; [done|].
    destruct (OpenFile (CreateFile (g_card t))) as [s ok] eqn:Eo. cbn [g_card g_opened]. split.
    - pose proof (open_log (CreateFile (g_card t))) as H. rewrite Eo in H. cbn in H. by rewrite H, create_log.
    - intros H. destruct (H (CreateFile (g_card t))) as [H' _]. by rewrite Eo in H'. }
  destruct msg as [body|].
  2:{ exists t1, []. split; [|split_and!; [apply prefix_nil|by rewrite app_nil_r|done]].
      unfold Trace. fold t1. destruct (negb (g_opened t1)); [done|].
      destruct (snprintf_at_spec [] (stamp now) stack) as (r1 & E1 & _); [cbn; lia|cbn; unfold trace_cap; lia|].
      cbn [app length] in E1. rewrite E1. cbn [mbind option_bind]. by destruct (_ <=? _)%nat. }
  rewrite Trace_composes by done. fold t1. cbv zeta. generalize (trace_line now (Some body)). intros line.
  unfold WriteLine. destruct (g_opened t1) eqn:E1; cbn [negb].
  2:{ exists t1, []. split_and!; [done|apply prefix_nil|by rewrite app_nil_r, Hl|].
      intros H. by specialize (Ho H). }
  destruct (GetFileSize (g_card t1)) as [n|] eqn:En.
  2:{ exists t1, []. split_and!; [done|apply prefix_nil|by rewrite app_nil_r, Hl|].
      intros H. destruct (H (g_card t1)) as (_ & [? ?] & _). congruence. }
  apply size_log in En as ->. destruct (write_log (g_card t1) line) as (p & Hp & Hw & Hok).
  eexists _, p. split; [reflexivity|]. split; [done|]. unfold CloseIfOpen. cbn [g_opened g_card].
  rewrite close_log, Hw, Hl. split; [done|]. intros H. apply Hok, H.
Qed.

(** C20: The log only grows, by bounded lines.  Over every history of calls, with
    any message, of any length, on a card that may refuse any operation, no byte
    outside the 256 of the line buffer is touched; the log is what it was and,
    for each call in order, a prefix of its line: the time, the message cut to
    what 255 bytes leave, and a newline that is never lost.  On a card that
    refuses nothing each line is written whole. *)
Theorem trace_log_grows `{!SdCardLaws S} calls t :
  Forall call_fits calls ->
  exists t' pieces, trace_run calls t = Some t' /\
    log_of (g_card t') = log_of (g_card t) ++ concat pieces /\
    Forall2 (fun c p => p `prefix_of` trace_line c.1.2 c.2 /\ (length p <= 256)%nat) calls pieces /\
    (reliable S -> pieces = (fun c => trace_line c.1.2 c.2) <$> calls).
Proof.
  revert t. induction calls as [|[[stack now] msg] calls IH]; intros t Hc.
  { exists t, []. split_and!; [done|by rewrite app_nil_r|constructor|done]. }
  apply Forall_cons_1 in Hc as [[Hs Hn] Hc]. cbn [fst snd] in Hs, Hn.
  destruct (Trace_adds stack now msg t Hs Hn) as (t1 & p & E & Hp & Hl & Hr).
  destruct (IH t1 Hc) as (t' & ps & E' & Hl' & Hps & Hr').
  exists t', (p :: ps). cbn [trace_run]. rewrite E. cbn [mbind option_bind]. split; [done|].
  split; [by rewrite Hl', Hl, <- app_assoc|]. split.
  - constructor; [|done]. cbn [fst snd]. split; [done|]. apply prefix_length in Hp.
    pose proof (trace_line_length now msg). lia.
  - intros H. cbn [fmap list_fmap fst snd]. f_equal; auto.
Qed.
End tracer.

(** ** A card *)
Record Card : Type := mkCard { cd_file : option bytes; cd_full : bool }.
#[global] Instance card_sd : SdCard Card := {
  sd_file := cd_file;
  CreateFile c := mkCard (Some (default [] (cd_file c))) (cd_full c);
  OpenFile c := (c, match cd_file c with Some _ => true | None => false end);
  CloseFile c := c;
  GetFileSize c := match cd_file c with Some l => Some (length l) | None => None end;
  WriteFile off l c :=
    if cd_full c then (c, false) else (mkCard (Some (take off (default [] (cd_file c)) ++ l)) false, true);
}.
#[global] Instance card_laws : SdCardLaws Card.
Proof.
  split.
  - intros [[l|] f]; reflexivity.
  - intros c. reflexivity.
  - intros c. reflexivity.
  - intros [[l|] f] n; cbn; [by intros [= <-]|done].
  - intros [file [|]] l; cbn.
    + exists []. split; [apply prefix_nil|]. split; [by rewrite app_nil_r|done].
    + exists l. split; [done|]. split; [|done]. unfold log_of. cbn. by rewrite firstn_all.
Qed.

(** A message longer than the buffer. *)
Lemma trace_log_grows_witness :
  exists t' pieces,
    trace_run [(replicate 256 7, 1234, Some (replicate 300 65)); (replicate 256 7, 1235, Some [66])]
      (mkTracer false (mkCard (Some [1]) false)) = Some t' /\
    log_of (g_card t') = [1] ++ concat pieces /\ (length (concat pieces) <= 512)%nat.
Proof.
  destruct (trace_log_grows [(replicate 256 7, 1234, Some (replicate 300 65)); (replicate 256 7, 1235, Some [66])]
    (mkTracer false (mkCard (Some [1]) false)) ltac:(repeat (constructor; [split; [reflexivity|cbn; lia]|]); constructor))
    as (t' & ps & E & Hl & Hp & _).
  exists t', ps. split; [exact E|]. split; [exact Hl|].
  inversion_clear Hp as [|? p ? ps' [_ H1] Hp']. inversion_clear Hp' as [|? q ? ps'' [_ H2] Hn].
  inversion_clear Hn. cbn [concat]. rewrite !length_app. cbn [length]. lia.
Defined.
