(* ===== verification/Rle.v ===== *)
(** The run-length coding of LDN control frames ([Compress] and [Decompress]
    of ldn/ldn_control.cpp): the two C loops, the coding they implement as a
    relation, and the round trip. *)
From S2P Require Import Prelude Bytes.

(** ** The code *)

(** The inner loop of [Compress]: counts the zeros that follow a zero, at most
    255 of them. *)
Fixpoint skip_zeros (count : Z) (inp : bytes) : Z * bytes :=
  match inp with
  | c :: inp' =>
      if (c =? 0) && (count <? 255) then skip_zeros (count + 1) inp' else (count, inp)
  | [] => (count, [])
  end.

(** The outer loop, with [out] the bytes written so far and [cap] the size of
    the output array.  [None] is the return value -1. *)
Fixpoint compress_loop (fuel : nat) (inp out : bytes) (cap : nat) : option bytes :=
  match inp with
  | [] => Some out
  | c :: inp' =>
      if (cap <=? length out)%nat then None
      else match fuel with
           | O => None
           | S fuel' =>
               if c =? 0 then
                 let '(count, rest) := skip_zeros 0 inp' in
                 let out1 := out ++ [0] in
                 if (length out1 =? cap)%nat then None
                 else compress_loop fuel' rest (out1 ++ [count]) cap
               else compress_loop fuel' inp' (out ++ [c]) cap
           end
  end.

Definition Compress (inp : bytes) (cap : nat) : option bytes :=
  compress_loop (length inp) inp [] cap.

(** [Decompress]; the [for] loop that repeats the zero stops at the end of the
    output array. *)
Fixpoint decompress_loop (inp out : bytes) (cap : nat) : option bytes :=
  match inp with
  | [] => Some out
  | c :: inp' =>
      if (cap <=? length out)%nat then None
      else if c =? 0 then
        match inp' with
        | [] => None
        | count :: inp'' =>
            let out1 := out ++ [0] in
            decompress_loop inp''
              (out1 ++ replicate (Nat.min (Z.to_nat count) (cap - length out1)) 0) cap
        end
      else decompress_loop inp' (out ++ [c]) cap
  end.

Definition Decompress (inp : bytes) (cap : nat) : option bytes :=
  decompress_loop inp [] cap.

(** ** The coding, as a relation between a plain and a coded string

    A maximal run of [n + 1 <= 256] zeros is the pair [0, n]; every other byte
    stands for itself. *)
Inductive rle_of : bytes -> bytes -> Prop :=
| rle_nil : rle_of [] []
| rle_lit c l e : c <> 0 -> rle_of l e -> rle_of (c :: l) (c :: e)
| rle_run n l e :
    (n <= 255)%nat -> (n = 255%nat \/ head l <> Some 0) -> rle_of l e ->
    rle_of (0 :: replicate n 0 ++ l) (0 :: Z.of_nat n :: e).

(** ** Lemmas *)
Lemma skip_zeros_spec count inp :
  0 <= count <= 255 ->
  exists n rest, skip_zeros count inp = (count + Z.of_nat n, rest) /\
    inp = replicate n 0 ++ rest /\ count + Z.of_nat n <= 255 /\
    (count + Z.of_nat n = 255 \/ head rest <> Some 0).
Proof.
  revert count; induction inp as [|c inp IH]; intros count Hc; simpl.
  - exists 0%nat, []. rewrite Z.add_0_r. repeat split; try lia. by right.
  - destruct ((c =? 0) && (count <? 255)) eqn:E.
    + destruct (IH (count + 1)) as (n & rest & -> & -> & Hn & Hm); [lia|].
      exists (S n), rest. replace c with 0 by lia.
      replace (count + Z.of_nat (S n)) with (count + 1 + Z.of_nat n) by lia.
      repeat split; [lia|done].
    + exists 0%nat, (c :: inp). rewrite Z.add_0_r. repeat split; [lia|].
      destruct (decide (count = 255)); [by left|right].
      simpl. intros [= ->]. lia.
Qed.

Lemma rle_of_length l e : rle_of l e -> (length e <= 2 * length l)%nat.
Proof. induction 1; simpl in *; rewrite ?length_app, ?length_replicate; lia. Qed.

Lemma rle_of_bytes l e : rle_of l e -> is_bytes l -> is_bytes e.
Proof.
  induction 1 as [|c l e Hc _ IH|n l e Hn _ _ IH]; intros Hl; [constructor| |].
  - inversion Hl; subst. constructor; auto.
  - inversion Hl as [|? ? _ Hl']; subst. apply Forall_app in Hl' as [_ Hl'].
    repeat constructor; try (unfold is_u8; lia). by apply IH.
Qed.

(** The loop appends the code of the remaining input, or fails when the
    output array is too small for it. *)
Lemma compress_loop_spec fuel inp out cap :
  (length inp <= fuel)%nat -> (length out <= cap)%nat ->
  exists e, rle_of inp e /\
    compress_loop fuel inp out cap =
      if (length out + length e <=? cap)%nat then Some (out ++ e) else None.
Proof.
  revert inp out; induction fuel as [|fuel IH]; intros [|c inp] out Hf Ho;
    simpl in Hf; try lia.
  1,2: exists []; split; [constructor|]; simpl; rewrite app_nil_r;
       destruct (_ <=? _)%nat eqn:?; [done|]; simpl in *; lia.
  simpl compress_loop. destruct (decide (c = 0)) as [->|Hc].
  - destruct (skip_zeros_spec 0 inp) as (n & rest & -> & -> & Hn & Hm); [lia|].
    rewrite length_app, length_replicate in Hf. rewrite Z.add_0_l. simpl.
    destruct (decide (length out + 2 <= cap)%nat).
    + destruct (IH rest ((out ++ [0]) ++ [Z.of_nat n])) as (e & He & Hr);
        rewrite ?length_app; simpl; [lia..|].
      exists (0 :: Z.of_nat n :: e). split; [constructor; [lia| |done]|].
      { destruct Hm; [left; lia | by right]. }
      rewrite Hr, !length_app. simpl.
      destruct (cap <=? length out)%nat eqn:?; [lia|].
      destruct (length out + 1 =? cap)%nat eqn:?; [lia|].
      replace (length out + 1 + 1 + length e)%nat
        with (length out + S (S (length e)))%nat by lia.
      rewrite <- !(assoc_L (++)). done.
    + destruct (IH rest (replicate cap 0)) as (e & He & _);
        rewrite ?length_replicate; [lia..|].
      exists (0 :: Z.of_nat n :: e). split; [constructor; [lia| |done]|].
      { destruct Hm; [left; lia | by right]. }
      rewrite length_app. simpl.
      destruct (length out + S (S (length e)) <=? cap)%nat eqn:?; [lia|].
      destruct (cap <=? length out)%nat eqn:?; [done|].
      destruct (length out + 1 =? cap)%nat eqn:?; [done|lia].
  - destruct (decide (length out + 1 <= cap)%nat).
    + destruct (IH inp (out ++ [c])) as (e & He & Hr); rewrite ?length_app; simpl; [lia..|].
      exists (c :: e). split; [by constructor|].
      rewrite Hr, length_app. simpl.
      destruct (cap <=? length out)%nat eqn:?; [lia|].
      destruct (c =? 0) eqn:?; [lia|].
      replace (length out + 1 + length e)%nat with (length out + S (length e))%nat by lia.
      by rewrite <- (assoc_L (++)).
    + destruct (IH inp (replicate cap 0)) as (e & He & _);
        rewrite ?length_replicate; [lia..|].
      exists (c :: e). split; [by constructor|]. simpl.
      destruct (length out + S (length e) <=? cap)%nat eqn:?; [lia|].
      destruct (cap <=? length out)%nat eqn:?; [done|lia].
Qed.

Lemma decompress_loop_spec e l out cap :
  rle_of l e -> (length out + length l <= cap)%nat ->
  decompress_loop e out cap = Some (out ++ l).
Proof.
  intros He. revert out.
  induction He as [|c l e Hc _ IH|n l e Hn _ _ IH]; intros out Hcap; simpl in *.
  - by rewrite app_nil_r.
  - destruct (cap <=? length out)%nat eqn:?; [lia|].
    destruct (c =? 0) eqn:?; [lia|].
    rewrite IH by (rewrite length_app; simpl; lia). by rewrite <- (assoc_L (++)).
  - rewrite length_app, length_replicate in Hcap.
    destruct (cap <=? length out)%nat eqn:?; [lia|].
    rewrite Nat2Z.id, length_app. simpl length.
    replace (Nat.min n (cap - (length out + 1))) with n by lia.
    rewrite IH by (rewrite !length_app, length_replicate; simpl; lia).
    by rewrite <- !(assoc_L (++)).
Qed.

Lemma decompress_loop_bound inp out cap r :
  (length out <= cap)%nat -> decompress_loop inp out cap = Some r -> (length r <= cap)%nat.
Proof.
  remember (length inp) as n eqn:Hn. assert (length inp <= n)%nat as Hl by lia. clear Hn.
  revert inp out Hl; induction n as [|n IH]; intros [|c inp] out Hl Ho; simpl in *;
    try lia; try (intros [= <-]; lia).
  destruct (cap <=? length out)%nat eqn:?; [done|].
  destruct (c =? 0).
  - destruct inp as [|count inp]; [done|]. simpl in Hl.
    apply IH; [lia|]. rewrite !length_app, length_replicate. simpl. lia.
  - apply IH; [lia|]. rewrite length_app. simpl. lia.
Qed.

Lemma decompress_loop_bytes inp out cap r :
  is_bytes inp -> is_bytes out -> decompress_loop inp out cap = Some r -> is_bytes r.
Proof.
  remember (length inp) as n eqn:Hn. assert (length inp <= n)%nat as Hl by lia. clear Hn.
  revert inp out Hl; induction n as [|n IH]; intros [|c inp] out Hl Hi Ho; simpl in *;
    try lia; try (intros [= <-]; done).
  destruct (cap <=? length out)%nat eqn:?; [done|].
  inversion Hi as [|? ? Hc Hi']; subst. destruct (c =? 0).
  - destruct inp as [|count inp]; [done|]. simpl in Hl. inversion Hi'; subst.
    apply IH; [lia|done|]. rewrite !Forall_app. repeat split; [done| |].
    + repeat constructor; unfold is_u8; lia.
    + apply Forall_replicate. unfold is_u8; lia.
  - apply IH; [lia|done|]. apply Forall_app; split; [done|]. by constructor.
Qed.

Lemma Decompress_length inp cap r : Decompress inp cap = Some r -> (length r <= cap)%nat.
Proof. apply decompress_loop_bound. simpl. lia. Qed.

Lemma Decompress_bytes inp cap r : is_bytes inp -> Decompress inp cap = Some r -> is_bytes r.
Proof. intros Hi. apply decompress_loop_bytes; [done | constructor]. Qed.

Lemma Compress_rle inp cap e : Compress inp cap = Some e -> rle_of inp e.
Proof.
  unfold Compress. intros H.
  destruct (compress_loop_spec (length inp) inp [] cap) as (e' & He' & Hr); [lia|simpl; lia|].
  rewrite Hr in H. destruct (_ <=? _)%nat; [|done]. simpl in H. by injection H as <-.
Qed.

Lemma Compress_Decompress inp cap cap' e :
  Compress inp cap = Some e -> (length inp <= cap')%nat -> Decompress e cap' = Some inp.
Proof.
  intros H%Compress_rle Hl. unfold Decompress.
  by rewrite (decompress_loop_spec e inp []) by done.
Qed.

Lemma Compress_length inp cap e : Compress inp cap = Some e -> (length e <= cap)%nat.
Proof.
  unfold Compress. intros H.
  destruct (compress_loop_spec (length inp) inp [] cap) as (e' & _ & Hr); [lia|simpl; lia|].
  rewrite Hr in H. destruct (_ <=? _)%nat eqn:?; [|done]. simpl in *.
  injection H as <-. lia.
Qed.

#[export] Hint Resolve Compress_rle Compress_length Decompress_length Decompress_bytes : slp.

(** C39: the coding never loses anything: every body has a coded form which
    [Compress] yields exactly when it fits the output array (else it fails and
    the body is sent as it is), and [Decompress] of the coded form gives the
    body back in any array that holds it, the coded form being at most
    twice as long. *)
Theorem Compress_correct inp cap extra :
  exists e, Compress inp cap = (if (length e <=? cap)%nat then Some e else None) /\
    Decompress e (length inp + extra) = Some inp /\ (length e <= 2 * length inp)%nat /\
    rle_of inp e.
Proof.
  destruct (compress_loop_spec (length inp) inp [] cap) as (e & He & Hr); [lia|simpl; lia|].
  exists e. split; [exact Hr|]. split; [|by split; [apply rle_of_length|]].
  unfold Decompress. by rewrite (decompress_loop_spec e inp []) by (done || simpl; lia).
Qed.
