(* ===== verification/IpAddr.v ===== *)
(** IPv4 addresses in their two encodings (bsd/ip_addr.hpp), the BSD socket
    address and the errno values (bsd/bsd_types.hpp), and the LAN-mode address
    translation, switched off at compile time (bsd/lan_addr_map.hpp/.cpp). *)
From S2P Require Import Prelude Bytes.

(** ** Byte order ([__builtin_bswap16], [__builtin_bswap32]) *)
Definition bswap16 (v : Z) : Z := le_dec (rev (le_enc 2 v)).
Definition bswap32 (v : Z) : Z := le_dec (rev (le_enc 4 v)).

(** ** class IpV4 *)
Record IpV4 : Set := mkIpV4 { m_numeric : Z }.

Definition IpV4_FromNumeric (v : Z) : IpV4 := mkIpV4 v.
Definition IpV4_FromNetwork (v : Z) : IpV4 := mkIpV4 (bswap32 v).
Definition IpV4_FromOctets (a b c d : Z) : IpV4 :=
  mkIpV4 (Z.lor (Z.lor (Z.lor (Z.shiftl a 24) (Z.shiftl b 16)) (Z.shiftl c 8)) d).
Definition IpV4_Numeric (ip : IpV4) : Z := m_numeric ip.
Definition IpV4_Network (ip : IpV4) : Z := bswap32 (m_numeric ip).
Definition IpV4_Octet (ip : IpV4) (i : Z) : Z :=
  u8 (Z.land (Z.shiftr (m_numeric ip) (24 - 8 * i)) 255).
Definition IpV4_IsAny (ip : IpV4) : bool := m_numeric ip =? 0.
Definition IpV4_IsBroadcast (ip : IpV4) : bool := Z.land (m_numeric ip) 255 =? 255.
Definition IpV4_InSubnet (ip net mask : IpV4) : bool :=
  Z.land (m_numeric ip) (m_numeric mask) =? Z.land (m_numeric net) (m_numeric mask).

#[global] Instance IpV4_eq_dec : EqDecision IpV4.
Proof. solve_decision. Defined.

(** ** bsd_types.hpp *)
Definition LAN_NETWORK_BASE : Z := 0x0A0D0000.
Definition LAN_NETWORK_MASK : Z := 0xFFFF0000.
Definition IsLanAddress (ip : Z) : bool := Z.land ip LAN_NETWORK_MASK =? LAN_NETWORK_BASE.

Definition AddressFamily_Inet : Z := 2.

Definition SocketType_Stream : Z := 1.
Definition SocketType_Dgram : Z := 2.

Definition ProtocolType_Unspecified : Z := 0.
Definition ProtocolType_Tcp : Z := 6.
Definition ProtocolType_Udp : Z := 17.

Definition SocketOptionLevel_Socket : Z := 0xFFFF.
Definition SocketOption_Broadcast : Z := 0x20.
Definition SocketOption_Error : Z := 0x1007.
Definition SocketOption_Type : Z := 0x1008.

Definition ShutdownHow_Read : Z := 0.
Definition ShutdownHow_Write : Z := 1.
Definition ShutdownHow_Both : Z := 2.

(** [enum class BsdErrno]: the values, which must be newlib's. *)
Inductive BsdErrno : Set :=
| E_Success | E_Perm | E_NoEnt | E_Intr | E_Io | E_BadF | E_Again | E_NoMem | E_Access
| E_Fault | E_Inval | E_NFile | E_MFile | E_NotSock | E_DestAddrReq | E_MsgSize
| E_ProtoType | E_NoProtoOpt | E_ProtoNoSupport | E_OpNotSupp | E_AfNoSupport
| E_AddrInUse | E_AddrNotAvail | E_NetDown | E_NetUnreach | E_ConnReset | E_NoBufs
| E_IsConn | E_NotConn | E_TimedOut | E_ConnRefused | E_InProgress | E_Already.

Definition errno (e : BsdErrno) : Z :=
  match e with
  | E_Success => 0 | E_Perm => 1 | E_NoEnt => 2 | E_Intr => 4 | E_Io => 5 | E_BadF => 9
  | E_Again => 11 | E_NoMem => 12 | E_Access => 13 | E_Fault => 14 | E_Inval => 22
  | E_NFile => 23 | E_MFile => 24 | E_NotSock => 108 | E_DestAddrReq => 121
  | E_MsgSize => 122 | E_ProtoType => 107 | E_NoProtoOpt => 109 | E_ProtoNoSupport => 123
  | E_OpNotSupp => 95 | E_AfNoSupport => 106 | E_AddrInUse => 112 | E_AddrNotAvail => 125
  | E_NetDown => 115 | E_NetUnreach => 114 | E_ConnReset => 104 | E_NoBufs => 105
  | E_IsConn => 127 | E_NotConn => 128 | E_TimedOut => 116 | E_ConnRefused => 111
  | E_InProgress => 119 | E_Already => 120
  end.

(** struct SockAddrIn: [sin_port] and [sin_addr] are the integers a
    little-endian machine reads from the network-order bytes. *)
Record SockAddrIn : Set := mkSockAddrIn {
  sin_len : Z;
  sin_family : Z;
  sin_port : Z;
  sin_addr : Z;
  sin_zero : bytes;
}.

#[global] Instance SockAddrIn_eq_dec : EqDecision SockAddrIn.
Proof. solve_decision. Defined.

Definition SockAddrIn_IsLanAddress (a : SockAddrIn) : bool := IsLanAddress (bswap32 (sin_addr a)).
Definition SockAddrIn_GetPort (a : SockAddrIn) : Z := bswap16 (sin_port a).
Definition SockAddrIn_GetAddr (a : SockAddrIn) : Z := bswap32 (sin_addr a).
Definition SockAddrIn_Addr (a : SockAddrIn) : IpV4 := IpV4_FromNetwork (sin_addr a).
Definition SockAddrIn_SetAddr (a : SockAddrIn) (ip : IpV4) : SockAddrIn :=
  mkSockAddrIn (sin_len a) (sin_family a) (sin_port a) (IpV4_Network ip) (sin_zero a).

(** The zero-initialised struct [SockAddrIn{}]. *)
Definition SockAddrIn_zero : SockAddrIn := mkSockAddrIn 0 0 0 0 (replicate 8 0).

(** The 16 bytes of the struct in memory, and the struct read back from them
    (the [__builtin_memcpy] between the IPC buffer and the local copy). *)
Definition SockAddrIn_enc (a : SockAddrIn) : bytes :=
  sin_len a :: sin_family a :: le_enc 2 (sin_port a) ++ le_enc 4 (sin_addr a) ++ sin_zero a.
Definition SockAddrIn_dec (l : bytes) : option SockAddrIn :=
  match l with
  | len :: fam :: p0 :: p1 :: a0 :: a1 :: a2 :: a3 :: rest =>
      if (8 <=? length rest)%nat then
        Some (mkSockAddrIn len fam (le_dec [p0; p1]) (le_dec [a0; a1; a2; a3]) (take 8 rest))
      else None
  | _ => None
  end.

(** A well-formed struct: every field within its width. *)
Definition SockAddrIn_wf (a : SockAddrIn) : Prop :=
  is_u8 (sin_len a) /\ is_u8 (sin_family a) /\ is_u16 (sin_port a) /\ is_u32 (sin_addr a) /\
  is_bytes (sin_zero a) /\ length (sin_zero a) = 8%nat.

(** ** lan_addr_map: the two file-scope variables, and the functions on them *)
Record NetMap : Set := mkNetMap { g_real_addr : Z; g_real_mask : Z }.

Definition NetMap_init : NetMap := mkNetMap 0 0.
Definition netmap_VirtualNet : Z := 0x0A0D0000.
Definition netmap_VirtualMask : Z := 0xFFFF0000.
Definition netmap_VirtualPeerNet : Z := 0x0A0D2500.
Definition netmap_VirtualBcast : Z := 0x0A0DFFFF.
Definition TranslationEnabled : bool := false.

(** [~m] on a [u32]. *)
Definition not32 (m : Z) : Z := u32 (Z.lnot m).

Definition RealNet (s : NetMap) : Z := Z.land (g_real_addr s) (g_real_mask s).
Definition RealBcast (s : NetMap) : Z := Z.lor (RealNet s) (not32 (g_real_mask s)).

Definition SetRealAddress (s : NetMap) (addr mask : Z) : NetMap :=
  if negb TranslationEnabled then mkNetMap 0 0
  else if negb (addr =? 0) && negb (mask =? 0) &&
          (Z.land addr netmap_VirtualMask =? netmap_VirtualNet) then mkNetMap 0 0
  else mkNetMap addr mask.

Definition HasRealAddress (s : NetMap) : bool :=
  negb (g_real_addr s =? 0) && negb (g_real_mask s =? 0).

Definition VirtualToGame (s : NetMap) (virt : Z) : Z :=
  if negb (HasRealAddress s) then virt
  else if (virt =? netmap_VirtualBcast) || (Z.land virt 255 =? 255) then RealBcast s
  else if Z.land virt netmap_VirtualMask =? netmap_VirtualNet then
    let mapped := Z.lor (RealNet s) (Z.land virt (not32 (g_real_mask s))) in
    if mapped =? g_real_addr s then virt else mapped
  else virt.

Definition GameToVirtual (s : NetMap) (game : Z) : Z :=
  if negb (HasRealAddress s) then game
  else if (game =? RealBcast s) || (Z.land game 255 =? 255) then game
  else if Z.land game (g_real_mask s) =? RealNet s then
    Z.lor netmap_VirtualPeerNet (Z.land (Z.land game (not32 (g_real_mask s))) 255)
  else game.

Definition IsLanModePort (port : Z) : bool :=
  (port =? 30000) || (port =? 40000) || (port =? 35000) ||
  ((49152 <=? port) && (port <=? 49155)).

(** ** Lemmas *)
Lemma bswap_range n v :
  0 <= le_dec (rev (le_enc n v)) < 256 ^ Z.of_nat n.
Proof.
  assert (is_bytes (rev (le_enc n v))) as H by (apply Forall_rev, le_enc_bytes).
  apply le_dec_range in H. by rewrite length_rev, le_enc_length in H.
Qed.

Lemma bswap_involutive n v :
  0 <= v < 256 ^ Z.of_nat n ->
  le_dec (rev (le_enc n (le_dec (rev (le_enc n v))))) = v.
Proof.
  intros Hv.
  assert (is_bytes (rev (le_enc n v))) as H by (apply Forall_rev, le_enc_bytes).
  apply le_enc_dec in H. rewrite length_rev, le_enc_length in H.
  by rewrite H, rev_involutive, le_dec_enc.
Qed.

Lemma bswap16_range v : is_u16 (bswap16 v).
Proof. apply (bswap_range 2). Qed.
Lemma bswap32_range v : is_u32 (bswap32 v).
Proof. apply (bswap_range 4). Qed.
Lemma bswap16_bswap16 v : is_u16 v -> bswap16 (bswap16 v) = v.
Proof. apply (bswap_involutive 2). Qed.
Lemma bswap32_bswap32 v : is_u32 v -> bswap32 (bswap32 v) = v.
Proof. apply (bswap_involutive 4). Qed.

#[export] Hint Resolve bswap16_range bswap32_range : slp.
#[export] Hint Rewrite bswap16_bswap16 bswap32_bswap32 using (auto with slp; fail) : slp_rw.

Lemma bswap16_inj v w : is_u16 v -> is_u16 w -> bswap16 v = bswap16 w -> v = w.
Proof.
  intros Hv Hw H. rewrite <- (bswap16_bswap16 v), <- (bswap16_bswap16 w) by done. by rewrite H.
Qed.

(** Storing an address through [SetAddr] and reading it with [GetAddr]. *)
Lemma GetAddr_SetAddr a v :
  is_u32 v -> SockAddrIn_GetAddr (SockAddrIn_SetAddr a (IpV4_FromNumeric v)) = v.
Proof. intros. unfold SockAddrIn_GetAddr; simpl. by apply bswap32_bswap32. Qed.

Lemma Addr_Numeric a : IpV4_Numeric (SockAddrIn_Addr a) = SockAddrIn_GetAddr a.
Proof. done. Qed.

Lemma SockAddrIn_enc_length a : SockAddrIn_wf a -> length (SockAddrIn_enc a) = 16%nat.
Proof.
  intros (_ & _ & _ & _ & _ & H). unfold SockAddrIn_enc. simpl. by rewrite H.
Qed.

Lemma SockAddrIn_dec_enc a : SockAddrIn_wf a -> SockAddrIn_dec (SockAddrIn_enc a) = Some a.
Proof.
  destruct a as [len fam port addr zero]. intros (_ & _ & Hp & Ha & _ & Hz). simpl in *.
  pose proof (le_dec_enc 2 port Hp) as P. pose proof (le_dec_enc 4 addr Ha) as A.
  unfold SockAddrIn_enc, SockAddrIn_dec.
  simpl in *. rewrite Hz, P, A. by rewrite take_ge by lia.
Qed.

(** ** Properties *)

(** The relation of the netmap state with itself over any history of calls. *)
Inductive NetMap_reachable : NetMap -> Prop :=
| NetMap_start : NetMap_reachable NetMap_init
| NetMap_set s addr mask : NetMap_reachable s -> NetMap_reachable (SetRealAddress s addr mask).

Lemma NetMap_off s : NetMap_reachable s -> HasRealAddress s = false.
Proof. by induction 1. Qed.

(** the address translation between the game's LAN and the virtual network
    is off: after any sequence of address settings both directions are the
    identity, so no address the games see or use is rewritten. *)
Theorem NetMap_identity s v (H : NetMap_reachable s) :
  VirtualToGame s v = v /\ GameToVirtual s v = v.
Proof. unfold VirtualToGame, GameToVirtual. by rewrite (NetMap_off s H). Qed.

Lemma NetMap_identity_witness :
  let s := SetRealAddress NetMap_init 0xC0A80102 0xFFFFFF00 in
  VirtualToGame s 0x0A0D2505 = 0x0A0D2505 /\ GameToVirtual s 0xC0A80107 = 0xC0A80107.
Proof.
  split.
  - apply (NetMap_identity (SetRealAddress NetMap_init 0xC0A80102 0xFFFFFF00) 0x0A0D2505).
    apply NetMap_set, NetMap_start.
  - apply (NetMap_identity (SetRealAddress NetMap_init 0xC0A80102 0xFFFFFF00) 0xC0A80107).
    apply NetMap_set, NetMap_start.
Defined.

(** a socket address survives the IPC buffer: the 16 bytes of a well-formed
    [SockAddrIn] read back to it; an address stored with [SetAddr] is the one
    [GetAddr] and [Addr] report, in host order, whatever the other fields, and
    both byte swaps are undone by themselves. *)
Theorem SockAddrIn_roundtrip a v p (Ha : SockAddrIn_wf a) (Hv : is_u32 v) (Hp : is_u16 p) :
  let b := SockAddrIn_SetAddr a (IpV4_FromNumeric v) in
  SockAddrIn_dec (SockAddrIn_enc b) = Some b /\ length (SockAddrIn_enc b) = 16%nat /\
  SockAddrIn_GetAddr b = v /\ IpV4_Numeric (SockAddrIn_Addr b) = v /\
  SockAddrIn_GetPort b = SockAddrIn_GetPort a /\
  SockAddrIn_GetPort (mkSockAddrIn 16 AddressFamily_Inet (bswap16 p) (sin_addr b) (sin_zero a)) = p.
Proof.
  cbv zeta. set (b := SockAddrIn_SetAddr a (IpV4_FromNumeric v)).
  assert (SockAddrIn_wf b) as Hb.
  { destruct Ha as (H1 & H2 & H3 & H4 & H5 & H6). split_and!; try done. apply bswap32_range. }
  split; [by apply SockAddrIn_dec_enc|]. split; [by apply SockAddrIn_enc_length|].
  rewrite Addr_Numeric. unfold b. rewrite GetAddr_SetAddr by done. split_and!; try done.
  unfold SockAddrIn_GetPort. cbn [sin_port]. by apply bswap16_bswap16.
Qed.

Lemma SockAddrIn_roundtrip_witness :
  SockAddrIn_GetAddr (SockAddrIn_SetAddr SockAddrIn_zero (IpV4_FromNumeric 0x0A0D2503)) = 0x0A0D2503.
Proof.
  assert (SockAddrIn_wf SockAddrIn_zero) as H
    by (unfold SockAddrIn_wf; cbn; split_and!; try lia; repeat constructor; word_lia).
  assert (is_u32 0x0A0D2503 /\ is_u16 30000) as [H1 H2] by done.
  apply (SockAddrIn_roundtrip SockAddrIn_zero 0x0A0D2503 30000 H H1 H2).
Defined.
