(* ===== verification/PortPool.v ===== *)
(** The ephemeral port pool (bsd/ephemeral_port_pool.hpp/.cpp): one bitset and
    one round-robin hint per protocol. *)
From S2P Require Import Prelude IpAddr.

(** ** The code *)
Definition EPHEMERAL_PORT_MIN : Z := 49152.
Definition EPHEMERAL_PORT_MAX : Z := 65535.
Definition EPHEMERAL_PORT_COUNT : Z := EPHEMERAL_PORT_MAX - EPHEMERAL_PORT_MIN + 1.

(** A [std::bitset<16384>] is the set of the indices whose bit is 1. *)
Record EphemeralPortPool : Type := mkPool {
  m_udp_ports : gset Z;
  m_tcp_ports : gset Z;
  m_udp_hint : Z;
  m_tcp_hint : Z;
}.

Definition EphemeralPortPool_init : EphemeralPortPool := mkPool ∅ ∅ 0 0.

(** [PortToIndex]: [EPHEMERAL_PORT_COUNT] stands for "not tracked". *)
Definition PortToIndex (port : Z) : Z :=
  if port <? EPHEMERAL_PORT_MIN then EPHEMERAL_PORT_COUNT else port - EPHEMERAL_PORT_MIN.
Definition IndexToPort (index : Z) : Z := u16 (EPHEMERAL_PORT_MIN + index).

(** [GetBitset]: every protocol but TCP uses the UDP bitset; likewise for the
    hint chosen by [AllocatePort]. *)
Definition is_tcp (protocol : Z) : bool := protocol =? ProtocolType_Tcp.
Definition GetBitset (p : EphemeralPortPool) (protocol : Z) : gset Z :=
  if is_tcp protocol then m_tcp_ports p else m_udp_ports p.
Definition pool_hint (p : EphemeralPortPool) (protocol : Z) : Z :=
  if is_tcp protocol then m_tcp_hint p else m_udp_hint p.

(** Writes through the references returned by [GetBitset] and to the hint. *)
Definition set_Bitset (p : EphemeralPortPool) (protocol : Z) (b : gset Z) : EphemeralPortPool :=
  if is_tcp protocol then mkPool (m_udp_ports p) b (m_udp_hint p) (m_tcp_hint p)
  else mkPool b (m_tcp_ports p) (m_udp_hint p) (m_tcp_hint p).
Definition set_hint (p : EphemeralPortPool) (protocol : Z) (h : Z) : EphemeralPortPool :=
  if is_tcp protocol then mkPool (m_udp_ports p) (m_tcp_ports p) (m_udp_hint p) h
  else mkPool (m_udp_ports p) (m_tcp_ports p) h (m_tcp_hint p).

(** The search loop of [AllocatePort]: [n] iterations left, [i] the counter. *)
Fixpoint alloc_search (n : nat) (i : Z) (bits : gset Z) (hint : Z) : option Z :=
  match n with
  | O => None
  | S n' =>
      let index := (hint + i) mod EPHEMERAL_PORT_COUNT in
      if decide (index ∈ bits) then alloc_search n' (i + 1) bits hint else Some index
  end.

(** Returns the port, 0 when none is free. *)
Definition Pool_AllocatePort (p : EphemeralPortPool) (protocol : Z) : EphemeralPortPool * Z :=
  match alloc_search (Z.to_nat EPHEMERAL_PORT_COUNT) 0 (GetBitset p protocol)
          (pool_hint p protocol) with
  | Some index =>
      let p1 := set_Bitset p protocol ({[index]} ∪ GetBitset p protocol) in
      (set_hint p1 protocol ((index + 1) mod EPHEMERAL_PORT_COUNT), IndexToPort index)
  | None => (p, 0)
  end.

Definition Pool_AllocateSpecificPort (p : EphemeralPortPool) (port protocol : Z)
    : EphemeralPortPool * bool :=
  let index := PortToIndex port in
  if EPHEMERAL_PORT_COUNT <=? index then (p, true)
  else if decide (index ∈ GetBitset p protocol) then (p, false)
  else (set_Bitset p protocol ({[index]} ∪ GetBitset p protocol), true).

Definition Pool_ReleasePort (p : EphemeralPortPool) (port protocol : Z) : EphemeralPortPool :=
  let index := PortToIndex port in
  if EPHEMERAL_PORT_COUNT <=? index then p
  else set_Bitset p protocol (GetBitset p protocol ∖ {[index]}).

Definition Pool_IsPortAllocated (p : EphemeralPortPool) (port protocol : Z) : bool :=
  let index := PortToIndex port in
  if EPHEMERAL_PORT_COUNT <=? index then false
  else bool_decide (index ∈ GetBitset p protocol).

Definition Pool_GetAvailableCount (p : EphemeralPortPool) (protocol : Z) : Z :=
  EPHEMERAL_PORT_COUNT - Z.of_nat (size (GetBitset p protocol)).

Definition Pool_ReleaseAll (p : EphemeralPortPool) : EphemeralPortPool := mkPool ∅ ∅ 0 0.

(** ** The type invariant *)
Definition indices (b : gset Z) : Prop := forall i, i ∈ b -> 0 <= i < EPHEMERAL_PORT_COUNT.
Definition pool_inv (p : EphemeralPortPool) : Prop :=
  indices (m_udp_ports p) /\ indices (m_tcp_ports p) /\
  0 <= m_udp_hint p < EPHEMERAL_PORT_COUNT /\ 0 <= m_tcp_hint p < EPHEMERAL_PORT_COUNT.

(** ** Lemmas *)
Ltac pool_unfold :=
  unfold PortToIndex, IndexToPort, EPHEMERAL_PORT_COUNT, EPHEMERAL_PORT_MIN,
    EPHEMERAL_PORT_MAX in *.

Lemma pool_inv_bits p protocol : pool_inv p -> indices (GetBitset p protocol).
Proof. unfold GetBitset. intros (? & ? & _). by destruct (is_tcp protocol). Qed.

Lemma pool_inv_hint p protocol :
  pool_inv p -> 0 <= pool_hint p protocol < EPHEMERAL_PORT_COUNT.
Proof. unfold pool_hint. intros (_ & _ & ? & ?). by destruct (is_tcp protocol). Qed.

Lemma GetBitset_set p pr pr' b :
  GetBitset (set_Bitset p pr b) pr' = if Bool.eqb (is_tcp pr) (is_tcp pr') then b else GetBitset p pr'.
Proof. unfold GetBitset, set_Bitset. by destruct (is_tcp pr), (is_tcp pr'). Qed.

Lemma GetBitset_set_hint p pr pr' h : GetBitset (set_hint p pr h) pr' = GetBitset p pr'.
Proof. unfold GetBitset, set_hint. by destruct (is_tcp pr), (is_tcp pr'). Qed.

Lemma pool_inv_set_Bitset p pr b : pool_inv p -> indices b -> pool_inv (set_Bitset p pr b).
Proof. unfold pool_inv, set_Bitset. intros (? & ? & ? & ?) ?. by destruct (is_tcp pr). Qed.

Lemma pool_inv_set_hint p pr h :
  pool_inv p -> 0 <= h < EPHEMERAL_PORT_COUNT -> pool_inv (set_hint p pr h).
Proof. unfold pool_inv, set_hint. intros (? & ? & ? & ?) ?. by destruct (is_tcp pr). Qed.

Lemma indices_add i b : 0 <= i < EPHEMERAL_PORT_COUNT -> indices b -> indices ({[i]} ∪ b).
Proof. intros Hi Hb j. rewrite elem_of_union, elem_of_singleton. intros [->|]; auto. Qed.

Lemma indices_del i b : indices b -> indices (b ∖ {[i]}).
Proof. intros Hb j. rewrite elem_of_difference. intros [Hj _]. by apply Hb. Qed.

#[export] Hint Resolve pool_inv_set_Bitset pool_inv_set_hint indices_add indices_del
  pool_inv_bits : slp.

(** The whole index range as a set, to count it. *)
Definition all_indices : gset Z :=
  list_to_set (Z.of_nat <$> seq 0 (Z.to_nat EPHEMERAL_PORT_COUNT)).

Lemma elem_of_all_indices i : i ∈ all_indices <-> 0 <= i < EPHEMERAL_PORT_COUNT.
Proof.
  unfold all_indices. rewrite elem_of_list_to_set, list_elem_of_fmap. split.
  - intros (n & -> & Hn%elem_of_seq). pool_unfold. lia.
  - intros Hi. exists (Z.to_nat i). rewrite elem_of_seq. pool_unfold. lia.
Qed.

Lemma size_all_indices : Z.of_nat (size all_indices) = EPHEMERAL_PORT_COUNT.
Proof.
  unfold all_indices. rewrite size_list_to_set.
  - rewrite length_fmap, length_seq. pool_unfold. lia.
  - apply NoDup_fmap; [apply _ | apply NoDup_seq].
Qed.

Lemma indices_subseteq b : indices b -> b ⊆ all_indices.
Proof. intros Hb i Hi. apply elem_of_all_indices; auto. Qed.

Lemma indices_size b : indices b -> Z.of_nat (size b) <= EPHEMERAL_PORT_COUNT.
Proof.
  intros Hb%indices_subseteq%subseteq_size. rewrite <- size_all_indices. lia.
Qed.

(** The search returns the first free index at or after the hint, cyclically. *)
Lemma alloc_search_Some n i bits hint r :
  alloc_search n i bits hint = Some r ->
  exists k, i <= k < i + Z.of_nat n /\ r = (hint + k) mod EPHEMERAL_PORT_COUNT /\
    (r ∉ bits) /\ forall j, i <= j < k -> ((hint + j) mod EPHEMERAL_PORT_COUNT) ∈ bits.
Proof.
  revert i; induction n as [|n IH]; intros i; simpl; [done|]. case_decide as Hd.
  - intros (k & Hk & Hr & Hf & Hj)%IH. exists k. repeat split; [lia..|done|].
    intros j ?. destruct (decide (j = i)) as [->|]; [done|]. apply Hj. lia.
  - intros [= <-]. exists i. repeat split; [lia..|done|lia].
Qed.

Lemma alloc_search_None n i bits hint :
  alloc_search n i bits hint = None ->
  forall j, i <= j < i + Z.of_nat n -> ((hint + j) mod EPHEMERAL_PORT_COUNT) ∈ bits.
Proof.
  revert i; induction n as [|n IH]; intros i; simpl; [lia|]. case_decide as Hd; [|done].
  intros H j Hj. destruct (decide (j = i)) as [->|]; [done|]. eapply IH; eauto. lia.
Qed.

Lemma mod_count_range k : 0 <= k mod EPHEMERAL_PORT_COUNT < EPHEMERAL_PORT_COUNT.
Proof. apply Z.mod_pos_bound. pool_unfold; lia. Qed.

(** When the search fails every index is taken. *)
Lemma alloc_search_full bits hint :
  indices bits -> 0 <= hint < EPHEMERAL_PORT_COUNT ->
  alloc_search (Z.to_nat EPHEMERAL_PORT_COUNT) 0 bits hint = None <-> bits = all_indices.
Proof.
  intros Hb Hh. split; intros H.
  - apply set_eq. intros i. split; [by apply (indices_subseteq bits)|].
    intros Hi%elem_of_all_indices.
    pose proof (alloc_search_None _ _ _ _ H ((i - hint) mod EPHEMERAL_PORT_COUNT)) as Hm.
    rewrite Zplus_mod_idemp_r in Hm. replace (hint + (i - hint)) with i in Hm by lia.
    rewrite (Z.mod_small i) in Hm by done. apply Hm.
    pose proof (mod_count_range (i - hint)). pool_unfold. lia.
  - destruct (alloc_search _ _ _ _) eqn:E; [|done].
    apply alloc_search_Some in E as (k & _ & -> & Hn & _). exfalso. apply Hn.
    rewrite H. apply elem_of_all_indices, mod_count_range.
Qed.

Lemma PortToIndex_IndexToPort i :
  0 <= i < EPHEMERAL_PORT_COUNT -> PortToIndex (IndexToPort i) = i.
Proof.
  intros Hi. unfold PortToIndex, IndexToPort.
  rewrite u16_id by (pool_unfold; word_lia). pool_unfold.
  destruct (_ <? _) eqn:?; lia.
Qed.

Lemma IndexToPort_range i :
  0 <= i < EPHEMERAL_PORT_COUNT -> EPHEMERAL_PORT_MIN <= IndexToPort i <= EPHEMERAL_PORT_MAX.
Proof. intros Hi. pool_unfold. rewrite u16_id; word_lia. Qed.

Lemma IsPortAllocated_index p i pr :
  0 <= i < EPHEMERAL_PORT_COUNT ->
  Pool_IsPortAllocated p (IndexToPort i) pr = bool_decide (i ∈ GetBitset p pr).
Proof.
  intros Hi. unfold Pool_IsPortAllocated. rewrite PortToIndex_IndexToPort by done.
  destruct (_ <=? _) eqn:?; [lia|done].
Qed.

(** Two ports of the tracked range with the same index are the same port. *)
Lemma PortToIndex_inj a b :
  is_u16 a -> is_u16 b -> PortToIndex a < EPHEMERAL_PORT_COUNT ->
  PortToIndex a = PortToIndex b -> a = b.
Proof.
  unfold is_u16. pool_unfold. intros ?? H1 H2.
  destruct (a <? 49152) eqn:?, (b <? 49152) eqn:?; lia.
Qed.

Lemma AllocatePort_inv p pr : pool_inv p -> pool_inv (Pool_AllocatePort p pr).1.
Proof.
  intros Hp. unfold Pool_AllocatePort.
  destruct (alloc_search _ _ _ _) eqn:E; [|done]. simpl.
  apply alloc_search_Some in E as (k & _ & -> & _).
  apply pool_inv_set_hint; [|apply mod_count_range].
  apply pool_inv_set_Bitset; [done|]. apply indices_add; [apply mod_count_range|].
  by apply pool_inv_bits.
Qed.

Lemma AllocateSpecificPort_inv p port pr :
  is_u16 port -> pool_inv p -> pool_inv (Pool_AllocateSpecificPort p port pr).1.
Proof.
  intros Ho Hp. unfold Pool_AllocateSpecificPort.
  destruct (_ <=? _) eqn:?; [done|]. case_decide; [done|]. simpl.
  apply pool_inv_set_Bitset; [done|]. apply indices_add; [|by apply pool_inv_bits].
  unfold is_u16 in Ho. pool_unfold. destruct (port <? 49152) eqn:?; lia.
Qed.

Lemma ReleasePort_inv p port pr : pool_inv p -> pool_inv (Pool_ReleasePort p port pr).
Proof.
  intros Hp. unfold Pool_ReleasePort. destruct (_ <=? _); [done|]. auto with slp.
Qed.

(** What releasing a port does to the allocation state. *)
Lemma IsPortAllocated_release_eq p port pr :
  Pool_IsPortAllocated (Pool_ReleasePort p port pr) port pr = false.
Proof.
  unfold Pool_IsPortAllocated, Pool_ReleasePort. destruct (_ <=? _) eqn:E; [done|].
  rewrite GetBitset_set. rewrite Bool.eqb_reflx. apply bool_decide_eq_false. set_solver.
Qed.

Lemma IsPortAllocated_release_ne p port pr q pr' :
  is_u16 q -> (q <> port \/ is_tcp pr' <> is_tcp pr) ->
  Pool_IsPortAllocated (Pool_ReleasePort p port pr) q pr' = Pool_IsPortAllocated p q pr'.
Proof.
  intros Hq Hne. unfold Pool_IsPortAllocated, Pool_ReleasePort.
  destruct (EPHEMERAL_PORT_COUNT <=? PortToIndex port) eqn:E; [done|].
  destruct (EPHEMERAL_PORT_COUNT <=? PortToIndex q) eqn:E'; [done|].
  rewrite GetBitset_set. destruct (Bool.eqb _ _) eqn:Eb; [|done].
  apply Bool.eqb_prop in Eb. destruct Hne as [Hne|]; [|congruence].
  apply bool_decide_ext. unfold GetBitset. rewrite Eb. rewrite elem_of_difference, elem_of_singleton.
  assert (PortToIndex q <> PortToIndex port); [|tauto].
  unfold is_u16 in Hq. pool_unfold. destruct (q <? 49152) eqn:?, (port <? 49152) eqn:?; lia.
Qed.

Lemma ReleaseAll_inv p : pool_inv (Pool_ReleaseAll p).
Proof. repeat split; simpl; try set_solver; pool_unfold; lia. Qed.

Lemma pool_init_inv : pool_inv EphemeralPortPool_init.
Proof. apply (ReleaseAll_inv EphemeralPortPool_init). Qed.

#[export] Hint Resolve AllocatePort_inv AllocateSpecificPort_inv ReleasePort_inv
  ReleaseAll_inv pool_init_inv : slp.

(** ** Allocation, branch by branch *)
Lemma AllocatePort_cases p pr :
  pool_inv p ->
  (Pool_AllocatePort p pr = (p, 0) /\ GetBitset p pr = all_indices) \/
  (exists i p', Pool_AllocatePort p pr = (p', IndexToPort i) /\
     0 <= i < EPHEMERAL_PORT_COUNT /\ (i ∉ GetBitset p pr) /\
     (forall pr', GetBitset p' pr' =
        if Bool.eqb (is_tcp pr) (is_tcp pr') then {[i]} ∪ GetBitset p pr else GetBitset p pr') /\
     exists k, 0 <= k /\ i = (pool_hint p pr + k) mod EPHEMERAL_PORT_COUNT /\
       forall j, 0 <= j < k -> ((pool_hint p pr + j) mod EPHEMERAL_PORT_COUNT) ∈ GetBitset p pr).
Proof.
  intros Hp. unfold Pool_AllocatePort. destruct (alloc_search _ _ _ _) eqn:E.
  - right. apply alloc_search_Some in E as (k & Hk & -> & Hn & Hj).
    eexists _, _. split; [done|]. split; [apply mod_count_range|]. split; [done|].
    split; [intros pr'; by rewrite GetBitset_set_hint, GetBitset_set|].
    exists k. repeat split; [lia|done].
  - left. split; [done|]. eapply alloc_search_full; eauto using pool_inv_bits, pool_inv_hint.
Qed.

Lemma AvailableCount_range p pr :
  pool_inv p -> 0 <= Pool_GetAvailableCount p pr <= EPHEMERAL_PORT_COUNT.
Proof.
  intros Hp. unfold Pool_GetAvailableCount.
  pose proof (indices_size _ (pool_inv_bits p pr Hp)). lia.
Qed.

(** The pool seen from outside: the ports of the tracked range it holds. *)
Definition held (p : EphemeralPortPool) (tcp : bool) (port : Z) : Prop :=
  EPHEMERAL_PORT_MIN <= port <= EPHEMERAL_PORT_MAX /\
  PortToIndex port ∈ GetBitset p (if tcp then ProtocolType_Tcp else ProtocolType_Udp).

Lemma GetBitset_is_tcp p pr :
  GetBitset p (if is_tcp pr then ProtocolType_Tcp else ProtocolType_Udp) = GetBitset p pr.
Proof. unfold GetBitset. by destruct (is_tcp pr). Qed.

Lemma IsPortAllocated_held p port pr :
  is_u16 port -> Pool_IsPortAllocated p port pr = true <-> held p (is_tcp pr) port.
Proof.
  intros Hu. unfold held, Pool_IsPortAllocated. rewrite GetBitset_is_tcp.
  unfold is_u16 in Hu. pool_unfold.
  destruct (port <? 49152) eqn:E1; simpl.
  - split; [done|lia].
  - destruct (_ <=? _) eqn:?; [lia|]. rewrite bool_decide_eq_true. split; [|tauto].
    intros; split; [lia|done].
Qed.

(** A history of pool calls, with the set of ports the callers hold: the ones
    returned by an allocation or granted by a reservation, and not released. *)
Inductive pool_trace : EphemeralPortPool -> gset (bool * Z) -> Prop :=
| pt_init : pool_trace EphemeralPortPool_init ∅
| pt_alloc p H pr p' port :
    pool_trace p H -> Pool_AllocatePort p pr = (p', port) -> port <> 0 ->
    pool_trace p' ({[(is_tcp pr, port)]} ∪ H)
| pt_alloc_full p H pr p' :
    pool_trace p H -> Pool_AllocatePort p pr = (p', 0) -> pool_trace p' H
| pt_reserve p H pr port p' :
    pool_trace p H -> EPHEMERAL_PORT_MIN <= port <= EPHEMERAL_PORT_MAX ->
    Pool_AllocateSpecificPort p port pr = (p', true) ->
    pool_trace p' ({[(is_tcp pr, port)]} ∪ H)
| pt_release p H pr port :
    pool_trace p H -> EPHEMERAL_PORT_MIN <= port <= EPHEMERAL_PORT_MAX ->
    pool_trace (Pool_ReleasePort p port pr) (H ∖ {[(is_tcp pr, port)]})
| pt_release_all p H : pool_trace p H -> pool_trace (Pool_ReleaseAll p) ∅.

Definition pool_agrees (p : EphemeralPortPool) (H : gset (bool * Z)) : Prop :=
  pool_inv p /\ forall t port, (t, port) ∈ H <-> held p t port.

(** Adding and removing one index, seen from outside. *)
Lemma held_set p pr b t port :
  held (set_Bitset p pr b) t port <->
  if Bool.eqb (is_tcp pr) t
  then EPHEMERAL_PORT_MIN <= port <= EPHEMERAL_PORT_MAX /\ PortToIndex port ∈ b
  else held p t port.
Proof.
  unfold held. rewrite GetBitset_set.
  assert (is_tcp (if t then ProtocolType_Tcp else ProtocolType_Udp) = t) as -> by by destruct t.
  by destruct (Bool.eqb _ _).
Qed.

Lemma held_hint p pr h t port : held (set_hint p pr h) t port <-> held p t port.
Proof. unfold held. by rewrite GetBitset_set_hint. Qed.

Lemma PortToIndex_range port :
  EPHEMERAL_PORT_MIN <= port <= EPHEMERAL_PORT_MAX ->
  PortToIndex port = port - EPHEMERAL_PORT_MIN /\ 0 <= PortToIndex port < EPHEMERAL_PORT_COUNT.
Proof. intros. pool_unfold. destruct (_ <? _) eqn:?; lia. Qed.

Lemma agrees_add p H pr port :
  pool_agrees p H -> EPHEMERAL_PORT_MIN <= port <= EPHEMERAL_PORT_MAX ->
  pool_agrees (set_Bitset p pr ({[PortToIndex port]} ∪ GetBitset p pr))
    ({[(is_tcp pr, port)]} ∪ H).
Proof.
  intros [Hi Ha] Hr. pose proof (PortToIndex_range _ Hr) as [Hp1 Hp2].
  split; [eauto with slp|]. intros t q. rewrite elem_of_union, elem_of_singleton, held_set, Ha.
  destruct (Bool.eqb (is_tcp pr) t) eqn:Et.
  - apply Bool.eqb_prop in Et as <-. rewrite elem_of_union, elem_of_singleton. unfold held.
    rewrite GetBitset_is_tcp. split.
    + intros [[= ->]|[? ?]]; [by split; [|left] | split; [done|by right]].
    + intros [Hq [He|?]]; [left|by right].
      pose proof (PortToIndex_range _ Hq). f_equal. lia.
  - split; [intros [[= -> ->]|?]; [by rewrite Bool.eqb_reflx in Et | done] | by right].
Qed.

Lemma agrees_del p H pr port :
  pool_agrees p H -> EPHEMERAL_PORT_MIN <= port <= EPHEMERAL_PORT_MAX ->
  pool_agrees (set_Bitset p pr (GetBitset p pr ∖ {[PortToIndex port]}))
    (H ∖ {[(is_tcp pr, port)]}).
Proof.
  intros [Hi Ha] Hr. pose proof (PortToIndex_range _ Hr) as [Hp1 Hp2].
  split; [eauto with slp|].
  intros t q. rewrite elem_of_difference, elem_of_singleton, held_set, Ha.
  destruct (Bool.eqb (is_tcp pr) t) eqn:Et.
  - apply Bool.eqb_prop in Et as <-. rewrite elem_of_difference, elem_of_singleton. unfold held.
    rewrite GetBitset_is_tcp. split.
    + intros [[Hq ?] Hne]. repeat split; [lia..|done|]. intros He. apply Hne.
      pose proof (PortToIndex_range _ Hq). f_equal. lia.
    + intros (Hq & ? & Hne). split; [done|]. by intros [= ->].
  - split; [tauto|]. intros ?. split; [done|]. intros [= -> ->].
    by rewrite Bool.eqb_reflx in Et.
Qed.

Lemma agrees_empty p : pool_inv p -> m_udp_ports p = ∅ -> m_tcp_ports p = ∅ ->
  pool_agrees p ∅.
Proof.
  intros Hi Hu Ht. split; [done|]. intros t q. unfold held, GetBitset. rewrite Hu, Ht.
  destruct (is_tcp _); set_solver.
Qed.

Lemma agrees_hint p H pr h :
  pool_agrees p H -> 0 <= h < EPHEMERAL_PORT_COUNT -> pool_agrees (set_hint p pr h) H.
Proof.
  intros [Hi Ha] Hh. split; [by apply pool_inv_set_hint|]. intros t q. by rewrite held_hint.
Qed.

Lemma AllocatePort_search p pr :
  (exists i, Pool_AllocatePort p pr =
      (set_hint (set_Bitset p pr ({[i]} ∪ GetBitset p pr)) pr ((i + 1) mod EPHEMERAL_PORT_COUNT),
       IndexToPort i) /\ 0 <= i < EPHEMERAL_PORT_COUNT) \/
  Pool_AllocatePort p pr = (p, 0).
Proof.
  unfold Pool_AllocatePort. destruct (alloc_search _ _ _ _) as [i|] eqn:E; [left|by right].
  exists i. split; [done|]. apply alloc_search_Some in E as (k & _ & -> & _).
  apply mod_count_range.
Qed.

Lemma AllocatePort_zero p pr p' :
  pool_inv p -> Pool_AllocatePort p pr = (p', 0) -> p' = p.
Proof.
  intros Hi Ha. destruct (AllocatePort_cases p pr Hi) as [[E _]|(i & p1 & E & Hr & _)].
  - rewrite E in Ha. by injection Ha.
  - rewrite E in Ha. injection Ha as _ H0. pose proof (IndexToPort_range _ Hr).
    pool_unfold. lia.
Qed.

Lemma agrees_alloc p H pr p' port :
  pool_agrees p H -> Pool_AllocatePort p pr = (p', port) -> port <> 0 ->
  pool_agrees p' ({[(is_tcp pr, port)]} ∪ H).
Proof.
  intros IH Ha Hne.
  destruct (AllocatePort_search p pr) as [(i & E & Hi)|E]; rewrite E in Ha;
    injection Ha as <- <-; [|done].
  apply agrees_hint; [|apply mod_count_range].
  rewrite <- (PortToIndex_IndexToPort i) at 1 by done.
  apply agrees_add; [done|by apply IndexToPort_range].
Qed.

Lemma agrees_reserve p H pr port p' :
  pool_agrees p H -> EPHEMERAL_PORT_MIN <= port <= EPHEMERAL_PORT_MAX ->
  Pool_AllocateSpecificPort p port pr = (p', true) ->
  pool_agrees p' ({[(is_tcp pr, port)]} ∪ H).
Proof.
  intros IH Hr. pose proof (PortToIndex_range _ Hr). unfold Pool_AllocateSpecificPort.
  destruct (_ <=? _) eqn:El; [lia|]. case_decide; [done|].
  intros [= <-]. by apply agrees_add.
Qed.

Lemma agrees_release p H pr port :
  pool_agrees p H -> EPHEMERAL_PORT_MIN <= port <= EPHEMERAL_PORT_MAX ->
  pool_agrees (Pool_ReleasePort p port pr) (H ∖ {[(is_tcp pr, port)]}).
Proof.
  intros IH Hr. pose proof (PortToIndex_range _ Hr). unfold Pool_ReleasePort.
  destruct (_ <=? _) eqn:El; [lia|]. by apply agrees_del.
Qed.

Lemma pool_trace_agrees p H : pool_trace p H -> pool_agrees p H.
Proof.
  induction 1 as [|p H pr p' port _ IH Ha Hne|p H pr p' _ IH Ha|p H pr port p' _ IH Hr Ha
    |p H pr port _ IH Hr|p H _ IH].
  - by apply agrees_empty; [apply pool_init_inv|..].
  - by eapply agrees_alloc.
  - apply AllocatePort_zero in Ha as ->; [done|apply IH].
  - by eapply agrees_reserve.
  - by apply agrees_release.
  - by apply agrees_empty; [apply ReleaseAll_inv|..].
Qed.

(** ** Properties *)

(** C17: [AllocatePort] on a well-formed pool either reports exhaustion (0,
    state unchanged) exactly when no port of that protocol is free, or returns
    a port of the ephemeral range that was free, marks it and only it, takes
    one off the available count, and picks the first free index at or after
    the round-robin hint. *)
Theorem AllocatePort_spec p pr p' port :
  pool_inv p -> Pool_AllocatePort p pr = (p', port) ->
  pool_inv p' /\
  ((port = 0 /\ p' = p /\ Pool_GetAvailableCount p pr = 0) \/
   (EPHEMERAL_PORT_MIN <= port <= EPHEMERAL_PORT_MAX /\
    Pool_IsPortAllocated p port pr = false /\ Pool_IsPortAllocated p' port pr = true /\
    (forall q pr', is_u16 q -> (q <> port \/ is_tcp pr' <> is_tcp pr) ->
       Pool_IsPortAllocated p' q pr' = Pool_IsPortAllocated p q pr') /\
    Pool_GetAvailableCount p' pr = Pool_GetAvailableCount p pr - 1 /\
    exists k, 0 <= k /\ PortToIndex port = (pool_hint p pr + k) mod EPHEMERAL_PORT_COUNT /\
      forall j, 0 <= j < k ->
        Pool_IsPortAllocated p (IndexToPort ((pool_hint p pr + j) mod EPHEMERAL_PORT_COUNT)) pr
        = true)).
Proof.
  intros Hp E. split; [rewrite <- (f_equal fst E : _ = p'); by apply AllocatePort_inv|].
  destruct (AllocatePort_cases p pr Hp) as [[E1 Hfull]|(i & p1 & E1 & Hi & Hn & Hg & k & Hk0 & Hk & Hj)];
    rewrite E1 in E; injection E as <- <-.
  - left. repeat split. unfold Pool_GetAvailableCount. rewrite Hfull, size_all_indices. lia.
  - right. split; [by apply IndexToPort_range|].
    rewrite !IsPortAllocated_index, Hg, Bool.eqb_reflx by done.
    split; [by apply bool_decide_eq_false|]. split; [apply bool_decide_eq_true; set_solver|].
    split.
    { intros q pr' Hq Hne. unfold Pool_IsPortAllocated.
      destruct (_ <=? _) eqn:El; [done|]. rewrite Hg.
      destruct (Bool.eqb (is_tcp pr) (is_tcp pr')) eqn:Et; [|done].
      apply Bool.eqb_prop in Et. assert (GetBitset p pr' = GetBitset p pr) as ->
        by (unfold GetBitset; by rewrite Et).
      apply bool_decide_ext. rewrite elem_of_union, elem_of_singleton. split; [|by right].
      intros [He|]; [|done]. exfalso. destruct Hne as [Hne|]; [|congruence]. apply Hne.
      apply PortToIndex_inj; [done| |lia|by rewrite PortToIndex_IndexToPort].
      pose proof (IndexToPort_range _ Hi). pool_unfold. unfold is_u16. lia. }
    split.
    { unfold Pool_GetAvailableCount. rewrite Hg, Bool.eqb_reflx, size_union, size_singleton; [lia|].
      set_solver. }
    exists k. rewrite PortToIndex_IndexToPort by done. repeat split; [done..|].
    intros j Hjk. rewrite IsPortAllocated_index by apply mod_count_range.
    apply bool_decide_eq_true. by apply Hj.
Qed.

Lemma AllocatePort_spec_witness :
  exists p' port, Pool_AllocatePort EphemeralPortPool_init ProtocolType_Udp = (p', port) /\
    port = 49152 /\ pool_inv p'.
Proof.
  eexists _, _. split; [reflexivity|]. split; [reflexivity|].
  exact (proj1 (AllocatePort_spec EphemeralPortPool_init ProtocolType_Udp _ _
                  pool_init_inv eq_refl)).
Defined.

(** C16: over any history of allocations, reservations and releases, a port
    returned by [AllocatePort] is held by nobody else, a reservation of a held
    port fails, and one of a free port succeeds. *)
Theorem no_double_allocation p H pr :
  pool_trace p H ->
  (forall p' port, Pool_AllocatePort p pr = (p', port) -> port <> 0 ->
     ((is_tcp pr, port) ∉ H)) /\
  (forall port, EPHEMERAL_PORT_MIN <= port <= EPHEMERAL_PORT_MAX ->
     (Pool_AllocateSpecificPort p port pr).2 = true <-> ((is_tcp pr, port) ∉ H)).
Proof.
  intros [Hi Ha]%pool_trace_agrees. split.
  - intros p' port E Hne. rewrite Ha. unfold held. rewrite GetBitset_is_tcp.
    destruct (AllocatePort_cases p pr Hi) as [[E1 _]|(i & p1 & E1 & Hr & Hn & _)];
      rewrite E1 in E; injection E as <- <-; [done|].
    rewrite PortToIndex_IndexToPort by done. tauto.
  - intros port Hr. rewrite Ha. unfold held, Pool_AllocateSpecificPort.
    rewrite GetBitset_is_tcp. pose proof (PortToIndex_range _ Hr).
    destruct (_ <=? _) eqn:?; [lia|]. case_decide; simpl; naive_solver.
Qed.

Lemma no_double_allocation_witness :
  pool_trace (Pool_AllocatePort EphemeralPortPool_init ProtocolType_Udp).1
    ({[(false, 49152)]} ∪ ∅) /\
  (Pool_AllocateSpecificPort (Pool_AllocatePort EphemeralPortPool_init ProtocolType_Udp).1
     49153 ProtocolType_Udp).2 = true.
Proof.
  assert (pool_trace (Pool_AllocatePort EphemeralPortPool_init ProtocolType_Udp).1
            ({[(is_tcp ProtocolType_Udp, 49152)]} ∪ ∅)) as T.
  { eapply pt_alloc; [apply pt_init|reflexivity|lia]. }
  split; [exact T|].
  apply (proj2 (no_double_allocation _ _ ProtocolType_Udp T) 49153).
  - pool_unfold. lia.
  - set_solver.
Defined.
