(* ===== verification/Ring.v ===== *)
(** Fixed-size ring buffers: an array with a read index, a write index and an
    element count, as ProxySocket (received packets) and ProxySocketManager
    (packets waiting for a bind) keep them.  The abstraction is the list of the
    stored elements, oldest first. *)
From S2P Require Import Prelude.

Record Ring (A : Type) : Type := mkRing {
  r_slots : list A;
  r_head : nat;
  r_tail : nat;
  r_count : nat;
}.
Arguments mkRing {A}. Arguments r_slots {A}. Arguments r_head {A}.
Arguments r_tail {A}. Arguments r_count {A}.

Section ring.
Context {A : Type} `{!Inhabited A} (cap : nat).

(** [head = (head + 1) % cap; count--] *)
Definition ring_drop (r : Ring A) : Ring A :=
  mkRing (r_slots r) ((r_head r + 1) mod cap) (r_tail r) (r_count r - 1).

(** Drop the oldest when full, then write into the tail slot in place. *)
Definition ring_push (f : A -> A) (r : Ring A) : Ring A :=
  let r1 := if (cap <=? r_count r)%nat then ring_drop r else r in
  mkRing (alter f (r_tail r1) (r_slots r1)) (r_head r1)
    ((r_tail r1 + 1) mod cap) (r_count r1 + 1).

(** The indices are reset, the slots keep their contents. *)
Definition ring_reset (r : Ring A) : Ring A := mkRing (r_slots r) 0 0 0.

Definition ring_nth (r : Ring A) (i : nat) : A := r_slots r !!! ((r_head r + i) mod cap)%nat.
Definition ring_contents (r : Ring A) : list A := ring_nth r <$> seq 0 (r_count r).

Definition ring_ok (r : Ring A) : Prop :=
  (0 < cap)%nat /\ length (r_slots r) = cap /\ (r_head r < cap)%nat /\
  (r_count r <= cap)%nat /\ r_tail r = ((r_head r + r_count r) mod cap)%nat.

Lemma ring_contents_length r : length (ring_contents r) = r_count r.
Proof. unfold ring_contents. by rewrite length_fmap, length_seq. Qed.

Lemma ring_contents_lookup r i :
  (i < r_count r)%nat -> ring_contents r !! i = Some (ring_nth r i).
Proof. intros Hi. unfold ring_contents. by rewrite list_lookup_fmap, lookup_seq_lt. Qed.

Lemma ring_contents_front r :
  (0 < r_count r)%nat -> ring_ok r ->
  ring_contents r = (r_slots r !!! r_head r) :: ring_contents (ring_drop r).
Proof.
  intros Hc (Hp & Hl & Hh & _ & _). unfold ring_contents, ring_drop; simpl.
  destruct (r_count r) as [|n]; [lia|]. simpl. f_equal.
  - unfold ring_nth. rewrite Nat.add_0_r. by rewrite Nat.mod_small.
  - replace (n - 0)%nat with n by lia. rewrite <- fmap_S_seq, <- list_fmap_compose.
    apply list_fmap_ext. intros i j _. unfold ring_nth, compose; simpl. f_equal.
    rewrite Nat.Div0.add_mod_idemp_l. f_equal. lia.
Qed.

Lemma ring_drop_ok r : (0 < r_count r)%nat -> ring_ok r -> ring_ok (ring_drop r).
Proof.
  intros Hc (Hp & Hl & Hh & Hn & Ht). unfold ring_ok, ring_drop; simpl.
  split_and!; [done|done|apply Nat.mod_upper_bound; lia|lia|].
  rewrite Ht, Nat.Div0.add_mod_idemp_l. f_equal. lia.
Qed.

Lemma ring_drop_count r : r_count (ring_drop r) = (r_count r - 1)%nat.
Proof. done. Qed.

Lemma ring_reset_ok r : ring_ok r -> ring_ok (ring_reset r).
Proof.
  intros (Hp & Hl & _). unfold ring_ok, ring_reset; simpl.
  split_and!; [done|done|lia|lia|]. by rewrite Nat.mod_small.
Qed.

Lemma ring_reset_contents r : ring_contents (ring_reset r) = [].
Proof. done. Qed.

(** Distinct offsets below [cap] designate distinct slots. *)
Lemma mod_offset_inj h i j :
  (i < cap)%nat -> (j < cap)%nat -> ((h + i) mod cap)%nat = ((h + j) mod cap)%nat -> i = j.
Proof.
  intros Hi Hj E.
  pose proof (Nat.div_mod (h + i) cap). pose proof (Nat.div_mod (h + j) cap).
  assert ((h + i) / cap = (h + j) / cap)%nat by nia. nia.
Qed.

(** Writing one more element while there is room. *)
Lemma ring_write_contents f r :
  ring_ok r -> (r_count r < cap)%nat ->
  ring_contents (mkRing (alter f (r_tail r) (r_slots r)) (r_head r)
                   ((r_tail r + 1) mod cap) (r_count r + 1))
  = ring_contents r ++ [f (r_slots r !!! r_tail r)].
Proof.
  intros (Hp & Hl & Hh & Hn & Ht) Hc. apply list_eq. intros i.
  assert (r_tail r < cap)%nat as Htl by (rewrite Ht; apply Nat.mod_upper_bound; lia).
  destruct (decide (i < r_count r)%nat).
  - rewrite lookup_app_l by (rewrite ring_contents_length; lia).
    rewrite !ring_contents_lookup by (simpl; lia). f_equal. unfold ring_nth; simpl.
    rewrite !list_lookup_total_alt, list_lookup_alter_ne; [done|].
    rewrite Ht. intros E. apply mod_offset_inj in E; lia.
  - destruct (decide (i = r_count r)) as [->|].
    + rewrite ring_contents_lookup by (simpl; lia).
      rewrite lookup_app_r by (rewrite ring_contents_length; lia).
      rewrite ring_contents_length, Nat.sub_diag. simpl. f_equal. unfold ring_nth; simpl.
      rewrite <- Ht. rewrite !list_lookup_total_alt, list_lookup_alter_eq.
      destruct (lookup_lt_is_Some_2 (r_slots r) (r_tail r)) as [x ->]; [lia|done].
    + rewrite !lookup_ge_None_2; [done|rewrite length_app|]; rewrite ring_contents_length; simpl; lia.
Qed.

(** What a push stores: the slot written in place, behind the kept ones. *)
Lemma ring_push_contents_slot f (P : A -> Prop) r :
  ring_ok r -> Forall P (r_slots r) ->
  exists old, P old /\ ring_contents (ring_push f r) =
    (if (cap <=? r_count r)%nat then tail (ring_contents r) else ring_contents r) ++ [f old].
Proof.
  intros Hr HP. unfold ring_push.
  assert (forall q, ring_ok q -> r_slots q = r_slots r -> P (r_slots q !!! r_tail q)) as HPq.
  { intros q (? & Hl & ? & ? & Ht) Hq. rewrite list_lookup_total_alt.
    destruct (lookup_lt_is_Some_2 (r_slots q) (r_tail q)) as [x Hx].
    - rewrite Hl, Ht. apply Nat.mod_upper_bound. lia.
    - rewrite Hx. simpl. rewrite Hq in Hx. eapply Forall_lookup_1; eauto. }
  destruct (cap <=? r_count r)%nat eqn:E.
  - assert (0 < r_count r)%nat by (destruct Hr; lia).
    eexists. split; [apply (HPq (ring_drop r)); [by apply ring_drop_ok|done]|].
    rewrite ring_write_contents; [| by apply ring_drop_ok |].
    + rewrite (ring_contents_front r) by done. simpl. done.
    + destruct Hr as (? & ? & ? & ? & ?). simpl. lia.
  - eexists. split; [by apply (HPq r)|]. rewrite ring_write_contents by (done || lia). done.
Qed.

Lemma ring_push_ok f r : ring_ok r -> ring_ok (ring_push f r).
Proof.
  intros Hr. assert (forall q, ring_ok q -> (r_count q < cap)%nat ->
    ring_ok (mkRing (alter f (r_tail q) (r_slots q)) (r_head q)
               ((r_tail q + 1) mod cap) (r_count q + 1))) as Hq.
  { intros q (? & ? & ? & ? & Ht) Hlt. unfold ring_ok; simpl. rewrite length_alter.
    split_and!; [done|done|done|lia|]. rewrite Ht, Nat.Div0.add_mod_idemp_l. f_equal. lia. }
  unfold ring_push. destruct (cap <=? r_count r)%nat eqn:E.
  - assert (0 < r_count r)%nat by (destruct Hr; lia).
    apply Hq; [by apply ring_drop_ok|]. destruct Hr as (? & ? & ? & ? & ?). simpl. lia.
  - apply Hq; [done|lia].
Qed.

(** A property of every slot that writing preserves holds of what is stored. *)
Lemma ring_push_slots (P : A -> Prop) f r :
  (forall a, P a -> P (f a)) -> Forall P (r_slots r) -> Forall P (r_slots (ring_push f r)).
Proof.
  intros Hf Hr. unfold ring_push. simpl.
  assert (r_slots (if (cap <=? r_count r)%nat then ring_drop r else r) = r_slots r) as ->
    by (by destruct (_ <=? _)%nat).
  apply Forall_alter; [done|]. intros x _ Hx. by apply Hf.
Qed.

Lemma ring_contents_slots (P : A -> Prop) r :
  ring_ok r -> Forall P (r_slots r) -> Forall P (ring_contents r).
Proof.
  intros (Hp & Hl & _) Hr. unfold ring_contents. apply Forall_fmap, Forall_forall.
  intros i _. unfold ring_nth, compose. rewrite list_lookup_total_alt.
  destruct (lookup_lt_is_Some_2 (r_slots r) ((r_head r + i) mod cap)) as [x Hx].
  { rewrite Hl. apply Nat.mod_upper_bound. lia. }
  rewrite Hx. simpl. eapply Forall_lookup_1; eauto.
Qed.
End ring.

#[export] Hint Resolve ring_drop_ok ring_reset_ok ring_push_ok : slp.
#[global] Arguments ring_push : simpl never.
#[global] Arguments ring_drop : simpl never.
#[global] Arguments ring_contents : simpl never.
