(* ===== verification/ProxySocket.v ===== *)
(** The proxy socket (bsd/proxy_socket.hpp/.cpp): socket state machine, receive
    ring, accept queue.

    Results are errno values, 0 for success; [Send], [Recv] and the like return
    a length or a negated errno, as the code does.  Events are booleans
    (manual clear).  A call that blocks takes what happens while it waits as an
    argument [wait]: the socket when the wait returns, and whether [TimedWait]
    saw the event.  Calls into the socket manager are arguments ([send]) or
    returned to the caller, which is the manager's file. *)
From S2P Require Import Prelude Bytes IpAddr Ring.

(** ** The data (proxy_socket.hpp, proxy_connect_shim.hpp) *)
Definition PROXY_SOCKET_MAX_QUEUE_SIZE : nat := 32.
Definition PROXY_SOCKET_MAX_PAYLOAD : nat := 2000.
#[global] Arguments PROXY_SOCKET_MAX_QUEUE_SIZE : simpl never.
#[global] Arguments PROXY_SOCKET_MAX_PAYLOAD : simpl never.

Inductive ProxySocketState : Set := Created | Bound | Connecting | Connected | Listening | Closed.
#[global] Instance ProxySocketState_eq_dec : EqDecision ProxySocketState.
Proof. solve_decision. Defined.

(** The info of ProxyConnectRequest and ProxyConnectResponse. *)
Record ProxyConnectInfo : Set := mkConnectInfo {
  ci_source_ipv4 : Z;
  ci_source_port : Z;
  ci_dest_ipv4 : Z;
  ci_dest_port : Z;
  ci_protocol : Z;
}.
Definition ProxyConnectInfo_zero : ProxyConnectInfo := mkConnectInfo 0 0 0 0 ProtocolType_Unspecified.

Record ReceivedPacket : Set := mkPacket {
  rp_from : SockAddrIn;
  rp_len : Z;
  rp_data : bytes;
}.
Definition ReceivedPacket_zero : ReceivedPacket :=
  mkPacket SockAddrIn_zero 0 (replicate PROXY_SOCKET_MAX_PAYLOAD 0).
#[global] Instance ReceivedPacket_inhabited : Inhabited ReceivedPacket := populate ReceivedPacket_zero.

#[warnings="-register-all"]
Inductive ProxySocket : Type := mkProxySocket {
  m_type : Z;
  m_protocol : Z;
  m_state : ProxySocketState;
  m_non_blocking : bool;
  m_shutdown_read : bool;
  m_shutdown_write : bool;
  m_local_addr : SockAddrIn;
  m_remote_addr : SockAddrIn;
  m_rx : Ring ReceivedPacket;
  m_receive_event : bool;
  m_accept_queue : list ProxySocket;
  m_accept_event : bool;
  m_connect_response_received : bool;
  m_connect_response : ProxyConnectInfo;
  m_connect_event : bool;
  m_broadcast : bool;
  m_broadcast_address : Z;
}.

Definition set_m_type (s : ProxySocket) (x : Z) : ProxySocket :=
  mkProxySocket x (m_protocol s) (m_state s) (m_non_blocking s) (m_shutdown_read s) (m_shutdown_write s)
    (m_local_addr s) (m_remote_addr s) (m_rx s) (m_receive_event s) (m_accept_queue s)
    (m_accept_event s) (m_connect_response_received s) (m_connect_response s)
    (m_connect_event s) (m_broadcast s) (m_broadcast_address s).
Definition set_m_protocol (s : ProxySocket) (x : Z) : ProxySocket :=
  mkProxySocket (m_type s) x (m_state s) (m_non_blocking s) (m_shutdown_read s) (m_shutdown_write s)
    (m_local_addr s) (m_remote_addr s) (m_rx s) (m_receive_event s) (m_accept_queue s)
    (m_accept_event s) (m_connect_response_received s) (m_connect_response s)
    (m_connect_event s) (m_broadcast s) (m_broadcast_address s).
Definition set_m_state (s : ProxySocket) (x : ProxySocketState) : ProxySocket :=
  mkProxySocket (m_type s) (m_protocol s) x (m_non_blocking s) (m_shutdown_read s) (m_shutdown_write s)
    (m_local_addr s) (m_remote_addr s) (m_rx s) (m_receive_event s) (m_accept_queue s)
    (m_accept_event s) (m_connect_response_received s) (m_connect_response s)
    (m_connect_event s) (m_broadcast s) (m_broadcast_address s).
Definition set_m_non_blocking (s : ProxySocket) (x : bool) : ProxySocket :=
  mkProxySocket (m_type s) (m_protocol s) (m_state s) x (m_shutdown_read s) (m_shutdown_write s)
    (m_local_addr s) (m_remote_addr s) (m_rx s) (m_receive_event s) (m_accept_queue s)
    (m_accept_event s) (m_connect_response_received s) (m_connect_response s)
    (m_connect_event s) (m_broadcast s) (m_broadcast_address s).
Definition set_m_shutdown_read (s : ProxySocket) (x : bool) : ProxySocket :=
  mkProxySocket (m_type s) (m_protocol s) (m_state s) (m_non_blocking s) x (m_shutdown_write s)
    (m_local_addr s) (m_remote_addr s) (m_rx s) (m_receive_event s) (m_accept_queue s)
    (m_accept_event s) (m_connect_response_received s) (m_connect_response s)
    (m_connect_event s) (m_broadcast s) (m_broadcast_address s).
Definition set_m_shutdown_write (s : ProxySocket) (x : bool) : ProxySocket :=
  mkProxySocket (m_type s) (m_protocol s) (m_state s) (m_non_blocking s) (m_shutdown_read s) x
    (m_local_addr s) (m_remote_addr s) (m_rx s) (m_receive_event s) (m_accept_queue s)
    (m_accept_event s) (m_connect_response_received s) (m_connect_response s)
    (m_connect_event s) (m_broadcast s) (m_broadcast_address s).
Definition set_m_local_addr (s : ProxySocket) (x : SockAddrIn) : ProxySocket :=
  mkProxySocket (m_type s) (m_protocol s) (m_state s) (m_non_blocking s) (m_shutdown_read s)
    (m_shutdown_write s) x (m_remote_addr s) (m_rx s) (m_receive_event s) (m_accept_queue s)
    (m_accept_event s) (m_connect_response_received s) (m_connect_response s)
    (m_connect_event s) (m_broadcast s) (m_broadcast_address s).
Definition set_m_remote_addr (s : ProxySocket) (x : SockAddrIn) : ProxySocket :=
  mkProxySocket (m_type s) (m_protocol s) (m_state s) (m_non_blocking s) (m_shutdown_read s)
    (m_shutdown_write s) (m_local_addr s) x (m_rx s) (m_receive_event s) (m_accept_queue s)
    (m_accept_event s) (m_connect_response_received s) (m_connect_response s)
    (m_connect_event s) (m_broadcast s) (m_broadcast_address s).
Definition set_m_rx (s : ProxySocket) (x : Ring ReceivedPacket) : ProxySocket :=
  mkProxySocket (m_type s) (m_protocol s) (m_state s) (m_non_blocking s) (m_shutdown_read s)
    (m_shutdown_write s) (m_local_addr s) (m_remote_addr s) x (m_receive_event s)
    (m_accept_queue s) (m_accept_event s) (m_connect_response_received s)
    (m_connect_response s) (m_connect_event s) (m_broadcast s) (m_broadcast_address s).
Definition set_m_receive_event (s : ProxySocket) (x : bool) : ProxySocket :=
  mkProxySocket (m_type s) (m_protocol s) (m_state s) (m_non_blocking s) (m_shutdown_read s)
    (m_shutdown_write s) (m_local_addr s) (m_remote_addr s) (m_rx s) x (m_accept_queue s)
    (m_accept_event s) (m_connect_response_received s) (m_connect_response s)
    (m_connect_event s) (m_broadcast s) (m_broadcast_address s).
Definition set_m_accept_queue (s : ProxySocket) (x : list ProxySocket) : ProxySocket :=
  mkProxySocket (m_type s) (m_protocol s) (m_state s) (m_non_blocking s) (m_shutdown_read s)
    (m_shutdown_write s) (m_local_addr s) (m_remote_addr s) (m_rx s) (m_receive_event s) x
    (m_accept_event s) (m_connect_response_received s) (m_connect_response s)
    (m_connect_event s) (m_broadcast s) (m_broadcast_address s).
Definition set_m_accept_event (s : ProxySocket) (x : bool) : ProxySocket :=
  mkProxySocket (m_type s) (m_protocol s) (m_state s) (m_non_blocking s) (m_shutdown_read s)
    (m_shutdown_write s) (m_local_addr s) (m_remote_addr s) (m_rx s) (m_receive_event s)
    (m_accept_queue s) x (m_connect_response_received s) (m_connect_response s)
    (m_connect_event s) (m_broadcast s) (m_broadcast_address s).
Definition set_m_connect_response_received (s : ProxySocket) (x : bool) : ProxySocket :=
  mkProxySocket (m_type s) (m_protocol s) (m_state s) (m_non_blocking s) (m_shutdown_read s)
    (m_shutdown_write s) (m_local_addr s) (m_remote_addr s) (m_rx s) (m_receive_event s)
    (m_accept_queue s) (m_accept_event s) x (m_connect_response s) (m_connect_event s)
    (m_broadcast s) (m_broadcast_address s).
Definition set_m_connect_response (s : ProxySocket) (x : ProxyConnectInfo) : ProxySocket :=
  mkProxySocket (m_type s) (m_protocol s) (m_state s) (m_non_blocking s) (m_shutdown_read s)
    (m_shutdown_write s) (m_local_addr s) (m_remote_addr s) (m_rx s) (m_receive_event s)
    (m_accept_queue s) (m_accept_event s) (m_connect_response_received s) x
    (m_connect_event s) (m_broadcast s) (m_broadcast_address s).
Definition set_m_connect_event (s : ProxySocket) (x : bool) : ProxySocket :=
  mkProxySocket (m_type s) (m_protocol s) (m_state s) (m_non_blocking s) (m_shutdown_read s)
    (m_shutdown_write s) (m_local_addr s) (m_remote_addr s) (m_rx s) (m_receive_event s)
    (m_accept_queue s) (m_accept_event s) (m_connect_response_received s)
    (m_connect_response s) x (m_broadcast s) (m_broadcast_address s).
Definition set_m_broadcast (s : ProxySocket) (x : bool) : ProxySocket :=
  mkProxySocket (m_type s) (m_protocol s) (m_state s) (m_non_blocking s) (m_shutdown_read s)
    (m_shutdown_write s) (m_local_addr s) (m_remote_addr s) (m_rx s) (m_receive_event s)
    (m_accept_queue s) (m_accept_event s) (m_connect_response_received s)
    (m_connect_response s) (m_connect_event s) x (m_broadcast_address s).
Definition set_m_broadcast_address (s : ProxySocket) (x : Z) : ProxySocket :=
  mkProxySocket (m_type s) (m_protocol s) (m_state s) (m_non_blocking s) (m_shutdown_read s)
    (m_shutdown_write s) (m_local_addr s) (m_remote_addr s) (m_rx s) (m_receive_event s)
    (m_accept_queue s) (m_accept_event s) (m_connect_response_received s)
    (m_connect_response s) (m_connect_event s) (m_broadcast s) x.

(** Reduces the projections of updated sockets, nothing else. *)
Ltac ps_cbn := cbn [m_type m_protocol m_state m_non_blocking m_shutdown_read m_shutdown_write m_local_addr
  m_remote_addr m_rx m_receive_event m_accept_queue m_accept_event
  m_connect_response_received m_connect_response m_connect_event m_broadcast
  m_broadcast_address set_m_type set_m_protocol set_m_state set_m_non_blocking
  set_m_shutdown_read set_m_shutdown_write set_m_local_addr set_m_remote_addr set_m_rx
  set_m_receive_event set_m_accept_queue set_m_accept_event set_m_connect_response_received
  set_m_connect_response set_m_connect_event set_m_broadcast set_m_broadcast_address] in *.


(** The addresses and protocol a socket hands to a manager callback. *)
Record ProxyArgs : Set := mkArgs {
  pa_source_ip : Z;
  pa_source_port : Z;
  pa_dest_ip : Z;
  pa_dest_port : Z;
  pa_protocol : Z;
}.

(** Construction: family and length set, everything else zero. *)
Definition inet_any : SockAddrIn := mkSockAddrIn 16 AddressFamily_Inet 0 0 (replicate 8 0).
Definition ProxySocket_new (type protocol : Z) : ProxySocket :=
  mkProxySocket type protocol Created false false false inet_any inet_any
    (mkRing (replicate PROXY_SOCKET_MAX_QUEUE_SIZE ReceivedPacket_zero) 0 0 0)
    false [] false false ProxyConnectInfo_zero false false 0.

(** What other threads do while a call waits on an event. *)
Definition Wait : Type := ProxySocket -> ProxySocket * bool.
(** [TimedWait] on an event already signalled returns at once. *)
Definition TimedWait (event : ProxySocket -> bool) (wait : Wait) (s : ProxySocket)
    : ProxySocket * bool :=
  if event s then (s, true) else wait s.

(** ** Address management *)
Definition ProxySocket_Bind (s : ProxySocket) (addr : SockAddrIn) : ProxySocket * Z :=
  if negb (bool_decide (m_state s = Created)) then (s, errno E_Inval)
  else if negb (sin_family addr =? AddressFamily_Inet) then (s, errno E_AfNoSupport)
  else (set_m_state (set_m_local_addr s addr) Bound, 0).

(** [send] is [SendProxyConnect] over a world [W]: its callback may call back
    into this socket. *)
Definition ProxySocket_Connect {W}
    (send : ProxyArgs -> ProxySocket -> W -> ProxySocket * W * bool) (wait : Wait)
    (s : ProxySocket) (addr : SockAddrIn) (w : W) : ProxySocket * W * Z :=
  if bool_decide (m_state s = Closed) then (s, w, errno E_BadF)
  else if negb (sin_family addr =? AddressFamily_Inet) then (s, w, errno E_AfNoSupport)
  else
    let s := set_m_remote_addr s addr in
    if m_type s =? SocketType_Stream then
      let s := set_m_state s Connecting in
      let s := set_m_connect_response_received s false in
      let s := set_m_connect_event s false in
      let local := m_local_addr s in
      let '(s, w, sent) := send (mkArgs (SockAddrIn_GetAddr local) (SockAddrIn_GetPort local)
                                (SockAddrIn_GetAddr addr) (SockAddrIn_GetPort addr)
                                (m_protocol s)) s w in
      if negb sent then (set_m_state s Bound, w, errno E_NetUnreach)
      else if negb (m_non_blocking s) then
        let '(s, got_response) := TimedWait m_connect_event wait s in
        if negb got_response || negb (m_connect_response_received s)
        then (set_m_state s Bound, w, errno E_TimedOut)
        else if negb (ci_protocol (m_connect_response s) =? ProtocolType_Unspecified)
        then (set_m_state s Bound, w, errno E_ConnRefused)
        else (set_m_state s Connected, w, 0)
      else (s, w, errno E_InProgress)
    else (set_m_state s Connected, w, 0).

(** [out] is whether the out pointer is not null; the address written. *)
Definition ProxySocket_GetSockName (s : ProxySocket) (out : bool) : Z * option SockAddrIn :=
  if negb out then (errno E_Fault, None)
  else if bool_decide (m_state s = Created) then (0, Some inet_any)
  else (0, Some (m_local_addr s)).

Definition ProxySocket_GetPeerName (s : ProxySocket) (out : bool) : Z * option SockAddrIn :=
  if negb out then (errno E_Fault, None)
  else if negb (bool_decide (m_state s = Connected)) then (errno E_NotConn, None)
  else (0, Some (m_remote_addr s)).

(** ** Data transfer *)

(** [SendTo]: [send] is [SendProxyData] over a world [W]; [data] is [None] for
    a null pointer, otherwise the [len] bytes it points to. *)
Definition ProxySocket_SendTo {W} (send : ProxyArgs -> bytes -> W -> W * bool) (nm : NetMap)
    (s : ProxySocket) (data : option bytes) (len : nat) (dest : SockAddrIn) (w : W) : W * Z :=
  if m_shutdown_write s then (w, - errno E_Inval)
  else if bool_decide (m_state s = Closed) then (w, - errno E_BadF)
  else if bool_decide (m_state s = Created) then (w, - errno E_DestAddrReq)
  else if bool_decide (data = None) && (0 <? len)%nat then (w, - errno E_Fault)
  else if (PROXY_SOCKET_MAX_PAYLOAD <? len)%nat then (w, - errno E_MsgSize)
  else
    let source_ip := IpV4_Numeric (SockAddrIn_Addr (m_local_addr s)) in
    let source_port := SockAddrIn_GetPort (m_local_addr s) in
    let dest_port := SockAddrIn_GetPort dest in
    let dest_ip :=
      if IsLanModePort source_port || IsLanModePort dest_port
      then GameToVirtual nm (SockAddrIn_GetAddr dest) else SockAddrIn_GetAddr dest in
    let '(w, sent) := send (mkArgs source_ip source_port dest_ip dest_port (m_protocol s))
                        (default [] data) w in
    if negb sent then (w, - errno E_NetUnreach) else (w, Z.of_nat len).

Definition ProxySocket_Send {W} (send : ProxyArgs -> bytes -> W -> W * bool) (nm : NetMap)
    (s : ProxySocket) (data : option bytes) (len : nat) (w : W) : W * Z :=
  if negb (bool_decide (m_state s = Connected)) then (w, - errno E_NotConn)
  else ProxySocket_SendTo send nm s data len (m_remote_addr s) w.

(** The result of a receive: the return value, the bytes stored in the caller's
    buffer and the source address stored through [from]. *)
Record RecvResult : Set := mkRecv { rr_ret : Z; rr_out : bytes; rr_from : option SockAddrIn }.
Definition recv_fail (e : BsdErrno) : RecvResult := mkRecv (- errno e) [] None.

(** The lambda [consume_front]; [from] is whether the pointer is not null. *)
Definition consume_front (s : ProxySocket) (out_len : nat) (peek from : bool)
    : ProxySocket * RecvResult :=
  let slot := r_slots (m_rx s) !!! r_head (m_rx s) in
  let copy_len := Nat.min out_len (Z.to_nat (rp_len slot)) in
  let s := if negb peek then set_m_rx s (ring_drop PROXY_SOCKET_MAX_QUEUE_SIZE (m_rx s)) else s in
  let s := if (r_count (m_rx s) =? 0)%nat then set_m_receive_event s false else s in
  (s, mkRecv (Z.of_nat copy_len) (take copy_len (rp_data slot))
        (if from then Some (rp_from slot) else None)).

Definition MSG_PEEK : Z := 0x2.
Definition MSG_DONTWAIT : Z := 0x80.

(** [buffer] is whether the pointer is not null. *)
Definition ProxySocket_RecvFrom (wait : Wait) (s : ProxySocket) (buffer : bool) (len : nat)
    (flags : Z) (from : bool) : ProxySocket * RecvResult :=
  if m_shutdown_read s then (s, mkRecv 0 [] None)
  else if bool_decide (m_state s = Closed) then (s, recv_fail E_BadF)
  else if negb buffer && (0 <? len)%nat then (s, recv_fail E_Fault)
  else
    let peek := negb (Z.land flags MSG_PEEK =? 0) in
    let dontwait := negb (Z.land flags MSG_DONTWAIT =? 0) || m_non_blocking s in
    if (r_count (m_rx s) =? 0)%nat then
      if dontwait then (s, recv_fail E_Again)
      else
        let '(s, signalled) := TimedWait m_receive_event wait s in
        if signalled && (0 <? r_count (m_rx s))%nat then consume_front s len peek from
        else (s, recv_fail E_Again)
    else consume_front s len peek from.

Definition ProxySocket_Recv (wait : Wait) (s : ProxySocket) (buffer : bool) (len : nat)
    (flags : Z) : ProxySocket * RecvResult :=
  if bool_decide (m_state s = Connected) then ProxySocket_RecvFrom wait s buffer len flags false
  else (s, recv_fail E_NotConn).

(** [memcpy] to the start of a fixed array. *)
Definition overwrite (src dst : bytes) : bytes := src ++ drop (length src) dst.

(** The in-place write of a ring slot; [data] is [None] for a null pointer. *)
Definition packet_write (data : option bytes) (copy_len : nat) (from : SockAddrIn)
    (slot : ReceivedPacket) : ReceivedPacket :=
  mkPacket from (u16 (Z.of_nat copy_len))
    (match data with
     | Some d => if (0 <? copy_len)%nat then overwrite (take copy_len d) (rp_data slot)
                 else rp_data slot
     | None => rp_data slot
     end).

Definition ProxySocket_IncomingData (s : ProxySocket) (data : option bytes) (len : nat)
    (from : SockAddrIn) : ProxySocket :=
  let copy_len := Nat.min len PROXY_SOCKET_MAX_PAYLOAD in
  let s := set_m_rx s (ring_push PROXY_SOCKET_MAX_QUEUE_SIZE (packet_write data copy_len from)
                         (m_rx s)) in
  set_m_receive_event s true.

Definition ProxySocket_PopFrontPacket (s : ProxySocket) (peek : bool)
    : ProxySocket * ReceivedPacket :=
  if (r_count (m_rx s) =? 0)%nat then (s, ReceivedPacket_zero)
  else
    let packet := r_slots (m_rx s) !!! r_head (m_rx s) in
    (if negb peek then set_m_rx s (ring_drop PROXY_SOCKET_MAX_QUEUE_SIZE (m_rx s)) else s, packet).

(** ** Socket options: [optval] is the option's bytes, [None] for a null pointer *)
Definition ProxySocket_SetSockOpt (s : ProxySocket) (level optname : Z) (optval : option bytes)
    (optlen : Z) : ProxySocket * Z :=
  if level =? SocketOptionLevel_Socket then
    if optname =? SocketOption_Broadcast then
      match optval with
      | Some v => if 4 <=? optlen then (set_m_broadcast s (negb (s32 (le_dec (take 4 v)) =? 0)), 0)
                  else (s, errno E_Inval)
      | None => (s, errno E_Inval)
      end
    else (s, 0)
  else (s, 0).

(** The result and, when the option is written, its value ([*optlen] is then 4). *)
Definition ProxySocket_GetSockOpt (s : ProxySocket) (level optname : Z) (optval : bool)
    (optlen : option Z) : Z * option Z :=
  match optlen with
  | None => (errno E_Fault, None)
  | Some n =>
      if negb optval then (errno E_Fault, None)
      else if (level =? SocketOptionLevel_Socket) && (4 <=? n) then
        if optname =? SocketOption_Type then (0, Some (m_type s))
        else if optname =? SocketOption_Error then (0, Some 0)
        else if optname =? SocketOption_Broadcast then (0, Some (if m_broadcast s then 1 else 0))
        else (errno E_NoProtoOpt, None)
      else (errno E_NoProtoOpt, None)
  end.

(** ** TCP *)
Definition ProxySocket_Listen (s : ProxySocket) : ProxySocket * Z :=
  if negb (m_type s =? SocketType_Stream) then (s, errno E_OpNotSupp)
  else if bool_decide (m_state s = Created) then (s, errno E_Inval)
  else (set_m_state s Listening, 0).

(** Taking the front of the accept queue; [None] when it is empty. *)
Definition accept_front (s : ProxySocket) : option (ProxySocket * ProxySocket) :=
  match m_accept_queue s with
  | [] => None
  | accepted :: rest =>
      let s := set_m_accept_queue s rest in
      let s := if bool_decide (rest = []) then set_m_accept_event s false else s in
      Some (s, accepted)
  end.

(** The accepted socket; its remote address is what [out_addr] receives. *)
Definition ProxySocket_Accept (wait : Wait) (s : ProxySocket)
    : ProxySocket * option ProxySocket :=
  if negb (bool_decide (m_state s = Listening)) then (s, None)
  else match accept_front s with
       | Some (s, a) => (s, Some a)
       | None =>
           if m_non_blocking s then (s, None)
           else
             let '(s, _) := TimedWait m_accept_event wait s in
             match accept_front s with
             | Some (s, a) => (s, Some a)
             | None => (s, None)
             end
       end.

(** The accepted socket is queued; the reply to send through the manager. *)
Definition ProxySocket_IncomingConnection (s : ProxySocket) (req : ProxyConnectInfo)
    : ProxySocket * option ProxyArgs :=
  if negb (bool_decide (m_state s = Listening)) then (s, None)
  else
    let accepted := ProxySocket_new (m_type s) (m_protocol s) in
    let accepted := set_m_state (set_m_local_addr accepted (m_local_addr s)) Bound in
    let remote := m_remote_addr accepted in
    let remote := mkSockAddrIn 16 AddressFamily_Inet (sin_port remote) (sin_addr remote)
                    (sin_zero remote) in
    let remote := SockAddrIn_SetAddr remote (IpV4_FromNumeric (ci_source_ipv4 req)) in
    let remote := mkSockAddrIn (sin_len remote) (sin_family remote)
                    (bswap16 (ci_source_port req)) (sin_addr remote) (sin_zero remote) in
    let accepted := set_m_state (set_m_remote_addr accepted remote) Connected in
    let s := set_m_accept_queue s (m_accept_queue s ++ [accepted]) in
    let s := set_m_accept_event s true in
    (s, Some (mkArgs (IpV4_Numeric (SockAddrIn_Addr (m_local_addr s)))
                (SockAddrIn_GetPort (m_local_addr s))
                (ci_source_ipv4 req) (ci_source_port req) ProtocolType_Tcp)).

Definition ProxySocket_HandleConnectResponse (s : ProxySocket) (response : ProxyConnectInfo)
    : ProxySocket :=
  let s := set_m_connect_response s response in
  let s := set_m_connect_response_received s true in
  set_m_connect_event s true.

Definition ProxySocket_HasPendingConnections (s : ProxySocket) : bool :=
  negb (bool_decide (m_accept_queue s = [])).

(** ** Shutdown, close, polling *)
Definition ProxySocket_Shutdown (s : ProxySocket) (how : Z) : ProxySocket * Z :=
  if how =? ShutdownHow_Read then
    (set_m_receive_event (set_m_shutdown_read s true) true, 0)
  else if how =? ShutdownHow_Write then
    (set_m_receive_event (set_m_shutdown_write s true) true, 0)
  else if how =? ShutdownHow_Both then
    (set_m_receive_event (set_m_shutdown_write (set_m_shutdown_read s true) true) true, 0)
  else (s, errno E_Inval).

(** The closed socket, and the disconnect to send through the manager. *)
Definition ProxySocket_Close (s : ProxySocket) : ProxySocket * option ProxyArgs :=
  let local := m_local_addr s in
  let remote := m_remote_addr s in
  let s := set_m_state s Closed in
  let s := set_m_shutdown_read s true in
  let s := set_m_shutdown_write s true in
  let s := set_m_receive_event s true in
  let s := set_m_rx s (ring_reset (m_rx s)) in
  (s, if (m_protocol s =? ProtocolType_Tcp) && negb (SockAddrIn_GetPort remote =? 0)
      then Some (mkArgs (SockAddrIn_GetAddr local) (SockAddrIn_GetPort local)
                   (SockAddrIn_GetAddr remote) (SockAddrIn_GetPort remote) ProtocolType_Tcp)
      else None).

Definition ProxySocket_HasPendingData (s : ProxySocket) : bool := (0 <? r_count (m_rx s))%nat.

(** The loop of [GetPendingDataSize]: [n] slots left, [idx] the next one. *)
Fixpoint pending_sum (slots : list ReceivedPacket) (n idx : nat) (total : Z) : Z :=
  match n with
  | O => total
  | S n' => pending_sum slots n' ((idx + 1) mod PROXY_SOCKET_MAX_QUEUE_SIZE)
              (total + rp_len (slots !!! idx))
  end.
Definition ProxySocket_GetPendingDataSize (s : ProxySocket) : Z :=
  pending_sum (r_slots (m_rx s)) (r_count (m_rx s)) (r_head (m_rx s)) 0.

Definition ProxySocket_WaitForData (wait : Wait) (s : ProxySocket) (timeout_ms : Z)
    : ProxySocket * bool :=
  if ProxySocket_HasPendingData s then (s, true)
  else
    let '(s, signalled) := TimedWait m_receive_event wait s in
    if timeout_ms =? 0 then (s, true) else (s, signalled).

(** ** The receive queue against its specification *)

(** A slot's fields are within bounds: the payload fits the 2000-byte array. *)
Definition packet_ok (p : ReceivedPacket) : Prop :=
  length (rp_data p) = PROXY_SOCKET_MAX_PAYLOAD /\ 0 <= rp_len p <= 2000.

(** What a queued packet is to a reader. *)
Definition packet_view (p : ReceivedPacket) : SockAddrIn * bytes :=
  (rp_from p, take (Z.to_nat (rp_len p)) (rp_data p)).

Definition rx_queue (s : ProxySocket) : list (SockAddrIn * bytes) :=
  packet_view <$> ring_contents PROXY_SOCKET_MAX_QUEUE_SIZE (m_rx s).

(** The ring is sound, the slots are in bounds, queued data has its event
    signalled, and a closed socket is shut down both ways. *)
Definition rx_ok (s : ProxySocket) : Prop :=
  ring_ok PROXY_SOCKET_MAX_QUEUE_SIZE (m_rx s) /\ Forall packet_ok (r_slots (m_rx s)) /\
  ((0 < r_count (m_rx s))%nat -> m_receive_event s = true) /\
  (m_state s = Closed -> m_shutdown_read s = true /\ m_shutdown_write s = true).

Lemma overwrite_length src dst :
  (length src <= length dst)%nat -> length (overwrite src dst) = length dst.
Proof. intros. unfold overwrite. rewrite length_app, length_drop. lia. Qed.

Lemma packet_write_ok data n from p :
  (n <= PROXY_SOCKET_MAX_PAYLOAD)%nat -> packet_ok p -> packet_ok (packet_write data n from p).
Proof.
  intros Hn [Hl Hr]. unfold packet_ok, packet_write, PROXY_SOCKET_MAX_PAYLOAD in *; simpl. split.
  - destruct data as [d|]; [|done]. case_match; [|done].
    rewrite overwrite_length; [done|]. rewrite length_take. lia.
  - rewrite u16_id; word_lia.
Qed.

Lemma packet_write_view d from p :
  packet_ok p ->
  packet_view (packet_write (Some d) (Nat.min (length d) PROXY_SOCKET_MAX_PAYLOAD) from p)
  = (from, take PROXY_SOCKET_MAX_PAYLOAD d).
Proof.
  intros [Hl Hr]. unfold packet_view, packet_write, PROXY_SOCKET_MAX_PAYLOAD in *; simpl. f_equal.
  rewrite u16_id by word_lia. rewrite Nat2Z.id.
  destruct (0 <? _)%nat eqn:E.
  - unfold overwrite. rewrite take_app_le by (rewrite length_take; lia).
    rewrite take_ge by (rewrite length_take; lia).
    destruct (decide (length d <= 2000)%nat).
    + rewrite Nat.min_l by lia. by rewrite !take_ge by lia.
    + by rewrite Nat.min_r by lia.
  - assert (length d = 0%nat) as Hd by lia. apply length_zero_iff_nil in Hd as ->. done.
Qed.

Lemma rx_queue_length s : length (rx_queue s) = r_count (m_rx s).
Proof. unfold rx_queue. by rewrite length_fmap, ring_contents_length. Qed.

Lemma rx_queue_front s :
  rx_ok s -> (0 < r_count (m_rx s))%nat ->
  rx_queue s = packet_view (r_slots (m_rx s) !!! r_head (m_rx s)) ::
    (packet_view <$> ring_contents PROXY_SOCKET_MAX_QUEUE_SIZE
                       (ring_drop PROXY_SOCKET_MAX_QUEUE_SIZE (m_rx s))).
Proof. intros (Hr & _) Hc. unfold rx_queue. by rewrite (ring_contents_front _ _ Hc Hr). Qed.

Lemma rx_front_ok s :
  rx_ok s -> packet_ok (r_slots (m_rx s) !!! r_head (m_rx s)).
Proof.
  intros ((Hp & Hl & Hh & _) & Hs & _). rewrite list_lookup_total_alt.
  destruct (lookup_lt_is_Some_2 (r_slots (m_rx s)) (r_head (m_rx s))) as [x Hx]; [lia|].
  rewrite Hx. simpl. eapply Forall_lookup_1; eauto.
Qed.

Lemma rx_ok_new ty pr : rx_ok (ProxySocket_new ty pr).
Proof.
  split; [|split; [|split]].
  - repeat split; simpl; unfold PROXY_SOCKET_MAX_QUEUE_SIZE; lia.
  - apply Forall_replicate. split; [apply length_replicate | simpl; lia].
  - simpl; lia.
  - discriminate.
Qed.

Lemma rx_ok_incoming s data n from : rx_ok s -> rx_ok (ProxySocket_IncomingData s data n from).
Proof.
  intros (Hr & Hs & He & Hc). unfold ProxySocket_IncomingData, rx_ok. ps_cbn. split; [|split; [|split]].
  - by apply ring_push_ok.
  - apply ring_push_slots; [|done]. intros. apply packet_write_ok; [lia|done].
  - done.
  - done.
Qed.

Lemma rx_queue_incoming s d from :
  rx_ok s ->
  rx_queue (ProxySocket_IncomingData s (Some d) (length d) from) =
  (if (PROXY_SOCKET_MAX_QUEUE_SIZE <=? length (rx_queue s))%nat
   then tail (rx_queue s) else rx_queue s) ++ [(from, take PROXY_SOCKET_MAX_PAYLOAD d)].
Proof.
  intros Hok. pose proof Hok as (Hr & Hs & _).
  pose (r := m_rx s). unfold rx_queue at 1, ProxySocket_IncomingData. ps_cbn.
  destruct (ring_push_contents_slot PROXY_SOCKET_MAX_QUEUE_SIZE
              (packet_write (Some d) (Nat.min (length d) PROXY_SOCKET_MAX_PAYLOAD) from)
              packet_ok _ Hr Hs) as (old & Ho & ->).
  rewrite fmap_app, rx_queue_length, list_fmap_singleton, packet_write_view by done.
  f_equal. unfold rx_queue. case_match; [|done]. by destruct (ring_contents _ _).
Qed.

Lemma consume_front_ok s n peek from :
  rx_ok s -> (0 < r_count (m_rx s))%nat -> rx_ok (consume_front s n peek from).1.
Proof.
  intros (Hr & Hs & He & Hc) Hp. unfold consume_front. destruct peek; cbn [negb fst snd]; ps_cbn.
  - destruct (_ =? _)%nat eqn:E; [lia|]. done.
  - destruct (_ =? _)%nat eqn:E; unfold rx_ok; ps_cbn;
      (split; [by apply ring_drop_ok|]; split; [done|]; split; [|done]);
      rewrite ring_drop_count in *; intros; [lia|]. apply He. lia.
Qed.

Lemma consume_front_spec s n peek from f d q :
  rx_ok s -> rx_queue s = (f, d) :: q ->
  (consume_front s n peek from).2 =
    mkRecv (Z.of_nat (Nat.min n (length d))) (take n d) (if from then Some f else None) /\
  rx_queue (consume_front s n peek from).1 = if peek then (f, d) :: q else q.
Proof.
  intros Hok Hq.
  assert (0 < r_count (m_rx s))%nat as Hp by (rewrite <- rx_queue_length, Hq; simpl; lia).
  pose proof (rx_front_ok s Hok) as [Hl Hr]. pose proof (rx_queue_front s Hok Hp) as Hf.
  rewrite Hq in Hf. injection Hf as Hf Hd Ht. unfold consume_front. split.
  - cbn [snd]. unfold PROXY_SOCKET_MAX_PAYLOAD in Hl. subst f d. rewrite length_take, take_take, Hl.
    f_equal. lia.
  - destruct peek; cbn [negb fst snd]; ps_cbn; [destruct (_ =? _)%nat; exact Hq|].
    destruct (_ =? _)%nat; by rewrite Ht.
Qed.

(** The operations a reader and the network perform on a socket's queue. *)
Inductive RxOp : Set :=
| RxIncoming (d : bytes) (from : SockAddrIn)
| RxRecvFrom (len : nat) (flags : Z)
| RxHasPending
| RxPendingSize
| RxShutdown (how : Z)
| RxClose.

Inductive RxOut : Set :=
| OutNone | OutRecv (r : RecvResult) | OutBool (b : bool) | OutZ (n : Z).

(** Nothing arrives while a call waits. *)
Definition no_wait : Wait := fun s => (s, false).

Definition rx_step (s : ProxySocket) (op : RxOp) : ProxySocket * RxOut :=
  match op with
  | RxIncoming d from => (ProxySocket_IncomingData s (Some d) (length d) from, OutNone)
  | RxRecvFrom len flags =>
      let '(s, r) := ProxySocket_RecvFrom no_wait s true len flags true in (s, OutRecv r)
  | RxHasPending => (s, OutBool (ProxySocket_HasPendingData s))
  | RxPendingSize => (s, OutZ (ProxySocket_GetPendingDataSize s))
  | RxShutdown how => let '(s, r) := ProxySocket_Shutdown s how in (s, OutZ r)
  | RxClose => ((ProxySocket_Close s).1, OutNone)
  end.

(** The specification: a list of datagrams of at most 2000 bytes, the oldest
    dropped beyond 32, and an end-of-file flag. *)
Record RxSpec : Type := mkRxSpec { sp_eof : bool; sp_queue : list (SockAddrIn * bytes) }.

Definition spec_step (q : RxSpec) (op : RxOp) : RxSpec * RxOut :=
  match op with
  | RxIncoming d from =>
      let kept := if (32 <=? length (sp_queue q))%nat then tail (sp_queue q) else sp_queue q in
      (mkRxSpec (sp_eof q) (kept ++ [(from, take 2000 d)]), OutNone)
  | RxRecvFrom len flags =>
      if sp_eof q then (q, OutRecv (mkRecv 0 [] None))
      else match sp_queue q with
           | [] => (q, OutRecv (mkRecv (- errno E_Again) [] None))
           | (f, d) :: rest =>
               (mkRxSpec false (if Z.land flags 2 =? 0 then rest else sp_queue q),
                OutRecv (mkRecv (Z.of_nat (Nat.min len (length d))) (take len d) (Some f)))
           end
  | RxHasPending => (q, OutBool (negb (bool_decide (sp_queue q = []))))
  | RxPendingSize => (q, OutZ (foldr (fun p n => Z.of_nat (length p.2) + n) 0 (sp_queue q)))
  | RxShutdown how =>
      if decide (how = 0 \/ how = 2) then (mkRxSpec true (sp_queue q), OutZ 0)
      else (q, OutZ (if how =? 1 then 0 else errno E_Inval))
  | RxClose => (mkRxSpec true [], OutNone)
  end.

Fixpoint run_ops {S} (step : S -> RxOp -> S * RxOut) (s : S) (ops : list RxOp) : list RxOut :=
  match ops with
  | [] => []
  | op :: ops => let '(s, o) := step s op in o :: run_ops step s ops
  end.

Definition rx_rel (s : ProxySocket) (q : RxSpec) : Prop :=
  rx_ok s /\ sp_eof q = m_shutdown_read s /\ sp_queue q = rx_queue s.

(** [s'] has the ring of [s], at least its signals, and is not newly closed. *)
Lemma rx_ok_flags s s' :
  m_rx s' = m_rx s -> rx_ok s ->
  (m_receive_event s = true -> m_receive_event s' = true) ->
  (m_shutdown_read s = true -> m_shutdown_read s' = true) ->
  (m_shutdown_write s = true -> m_shutdown_write s' = true) ->
  (m_state s' = Closed -> m_state s = Closed) -> rx_ok s'.
Proof.
  intros E (Hr & Hs & He & Hc) Hev Hsr Hsw Hst. unfold rx_ok. rewrite E.
  split_and!; [done|done|auto|]. intros Hs'. destruct (Hc (Hst Hs')). auto.
Qed.

Lemma rx_ok_close s : rx_ok s -> rx_ok (ProxySocket_Close s).1.
Proof.
  intros (Hr & Hs & He & Hc). unfold ProxySocket_Close, rx_ok. cbn [fst]. ps_cbn.
  split; [by apply ring_reset_ok|]. by split.
Qed.

Lemma rx_ok_shutdown s how : rx_ok s -> rx_ok (ProxySocket_Shutdown s how).1.
Proof.
  intros Hok. unfold ProxySocket_Shutdown. repeat case_match; cbn [fst]; by apply (rx_ok_flags s).
Qed.

(** The loop that adds up the queued lengths. *)
Lemma pending_sum_eq slots n idx tot :
  (idx < PROXY_SOCKET_MAX_QUEUE_SIZE)%nat ->
  pending_sum slots n idx tot =
  tot + foldr Z.add 0 (rp_len <$> ring_contents PROXY_SOCKET_MAX_QUEUE_SIZE (mkRing slots idx 0 n)).
Proof.
  revert idx tot; induction n as [|n IH]; intros idx tot Hi; [simpl; cbn; lia|].
  assert (0 < PROXY_SOCKET_MAX_QUEUE_SIZE)%nat by (unfold PROXY_SOCKET_MAX_QUEUE_SIZE; lia).
  cbn [pending_sum]. rewrite IH by (apply Nat.mod_upper_bound; lia).
  rewrite <- Z.add_assoc. f_equal.
  unfold ring_contents at 2. cbn [r_count seq fmap list_fmap foldr]. f_equal.
  { unfold ring_nth. cbn [r_head r_slots]. by rewrite Nat.add_0_r, Nat.mod_small by lia. }
  f_equal. unfold ring_contents. cbn [r_count]. rewrite <- !list_fmap_compose, <- fmap_S_seq.
  rewrite <- list_fmap_compose. apply list_fmap_ext. intros i j _. unfold compose, ring_nth.
  cbn [r_head r_slots]. f_equal. f_equal. rewrite Nat.Div0.add_mod_idemp_l. f_equal. lia.
Qed.

Lemma GetPendingDataSize_eq s :
  rx_ok s ->
  ProxySocket_GetPendingDataSize s =
  foldr (fun p n => Z.of_nat (length p.2) + n) 0 (rx_queue s).
Proof.
  intros (Hr & Hs & _). unfold ProxySocket_GetPendingDataSize.
  rewrite pending_sum_eq by apply Hr. rewrite Z.add_0_l. unfold rx_queue.
  pose proof (ring_contents_slots _ _ _ Hr Hs) as Hc.
  change (ring_contents _ (mkRing _ _ _ _)) with (ring_contents PROXY_SOCKET_MAX_QUEUE_SIZE (m_rx s)).
  induction Hc as [|p l [Hl Hp] _ IH]; [done|]. cbn [fmap list_fmap foldr]. rewrite IH. f_equal.
  unfold packet_view; cbn [snd]. rewrite length_take. unfold PROXY_SOCKET_MAX_PAYLOAD in Hl. lia.
Qed.

Lemma rx_recv_sim s q len flags :
  rx_rel s q ->
  (rx_step s (RxRecvFrom len flags)).2 = (spec_step q (RxRecvFrom len flags)).2 /\
  rx_rel (rx_step s (RxRecvFrom len flags)).1 (spec_step q (RxRecvFrom len flags)).1.
Proof.
  intros Hrel. pose proof Hrel as (Hok & He & Hq).
  cbn [rx_step spec_step]. unfold ProxySocket_RecvFrom. rewrite He.
  destruct (m_shutdown_read s) eqn:Hsr; [done|].
  destruct (bool_decide (m_state s = Closed)) eqn:Hst.
  { apply bool_decide_eq_true in Hst. apply Hok in Hst as [? _]. congruence. }
  cbn [negb andb]. rewrite Hq. destruct (rx_queue s) as [|[f d] rest] eqn:Hrx.
  - assert (r_count (m_rx s) = 0%nat) as E by (by rewrite <- rx_queue_length, Hrx).
    rewrite E. cbn [Nat.eqb]. destruct (_ || _); [done|].
    unfold TimedWait, no_wait. destruct (m_receive_event s); rewrite ?E; done.
  - assert (r_count (m_rx s) <> 0%nat) as E by (rewrite <- rx_queue_length, Hrx; simpl; lia).
    destruct (r_count (m_rx s) =? 0)%nat eqn:E'; [lia|].
    destruct (consume_front_spec s len (negb (Z.land flags MSG_PEEK =? 0)) true f d rest Hok Hrx)
      as [Ho Hn].
    pose proof (consume_front_ok s len (negb (Z.land flags MSG_PEEK =? 0)) true Hok) as Hk.
    assert (m_shutdown_read (consume_front s len (negb (Z.land flags MSG_PEEK =? 0)) true).1
            = m_shutdown_read s) as Hs'.
    { unfold consume_front. cbn [fst]. by repeat case_match. }
    destruct (consume_front _ _ _ _) as [s' r]. cbn [fst snd] in *. subst r.
    split; [done|]. split; [apply Hk; lia|]. cbn [sp_eof sp_queue]. split; [congruence|].
    rewrite Hn. unfold MSG_PEEK. by destruct (Z.land flags 2 =? 0).
Qed.

Lemma rx_step_sim s q op :
  rx_rel s q ->
  (rx_step s op).2 = (spec_step q op).2 /\ rx_rel (rx_step s op).1 (spec_step q op).1.
Proof.
  intros Hrel. destruct op as [d from|len flags| | |how|]; [|by apply rx_recv_sim|..];
    pose proof Hrel as (Hok & He & Hq); cbn [rx_step spec_step fst snd].
  - split; [done|]. split; [by apply rx_ok_incoming|]. split; [done|].
    cbn [sp_queue]. by rewrite rx_queue_incoming, Hq.
  - split; [|done]. unfold ProxySocket_HasPendingData. rewrite Hq, <- rx_queue_length.
    by destruct (rx_queue s).
  - split; [|done]. by rewrite GetPendingDataSize_eq, Hq.
  - pose proof (rx_ok_shutdown s how Hok) as Hk. unfold ProxySocket_Shutdown in *.
    unfold ShutdownHow_Read, ShutdownHow_Write, ShutdownHow_Both in *.
    case_decide as Hd.
    + destruct Hd as [->| ->]; done.
    + assert (how <> 0 /\ how <> 2) as [] by tauto.
      rewrite (proj2 (Z.eqb_neq how 0)), (proj2 (Z.eqb_neq how 2)) in * by done.
      by destruct (how =? 1).
  - split; [done|]. split; [by apply rx_ok_close|]. done.
Qed.

(** C7: the receive side of a socket is its specification.  Over any sequence
    of incoming datagrams, receives with any length and flags (peeks included),
    polls, shutdowns and a close, a freshly constructed socket answers exactly
    as a queue of at most 32 datagrams of at most 2000 bytes that drops the
    oldest, returns each datagram once, in order, cut to the caller's length,
    with its source address, and reports end of file after a shutdown. *)
Theorem ProxySocket_receive_refines type protocol ops :
  run_ops rx_step (ProxySocket_new type protocol) ops = run_ops spec_step (mkRxSpec false []) ops.
Proof.
  assert (rx_rel (ProxySocket_new type protocol) (mkRxSpec false [])) as Hrel
    by (split; [apply rx_ok_new|done]).
  revert Hrel. generalize (ProxySocket_new type protocol) (mkRxSpec false []).
  induction ops as [|op ops IH]; intros s q Hrel; [done|]. cbn [run_ops].
  pose proof (rx_step_sim s q op Hrel) as [Ho Hr].
  destruct (rx_step s op), (spec_step q op). cbn [fst snd] in *. subst. by rewrite (IH _ _ Hr).
Qed.

(** ** Every operation of the class, and what holds after any history *)

(** What the other threads (tunnel run loop, another IPC session) do to a
    socket while a call waits. *)
Inductive EnvOp : Set :=
| EnvData (data : option bytes) (len : nat) (from : SockAddrIn)
| EnvConnection (req : ProxyConnectInfo)
| EnvResponse (r : ProxyConnectInfo)
| EnvShutdown (how : Z)
| EnvClose.

Definition env_step (s : ProxySocket) (op : EnvOp) : ProxySocket :=
  match op with
  | EnvData data len from => ProxySocket_IncomingData s data len from
  | EnvConnection req => (ProxySocket_IncomingConnection s req).1
  | EnvResponse r => ProxySocket_HandleConnectResponse s r
  | EnvShutdown how => (ProxySocket_Shutdown s how).1
  | EnvClose => (ProxySocket_Close s).1
  end.
Definition env_run (s : ProxySocket) (ops : list EnvOp) : ProxySocket := foldl env_step s ops.
Definition env_wait (env : list EnvOp) (signalled : bool) : Wait :=
  fun s => (env_run s env, signalled).

Inductive PsOp : Set :=
| PsEnv (op : EnvOp)
| PsSetNonBlocking (b : bool)
| PsBind (addr : SockAddrIn)
| PsConnect (during_send : list EnvOp) (sent : bool) (env : list EnvOp) (sig : bool) (addr : SockAddrIn)
| PsRecvFrom (env : list EnvOp) (sig buffer : bool) (len : nat) (flags : Z) (from : bool)
| PsRecv (env : list EnvOp) (sig buffer : bool) (len : nat) (flags : Z)
| PsSetSockOpt (level optname : Z) (optval : option bytes) (optlen : Z)
| PsListen
| PsAccept (env : list EnvOp) (sig : bool)
| PsWaitForData (env : list EnvOp) (sig : bool) (timeout_ms : Z).

Definition ps_step (s : ProxySocket) (op : PsOp) : ProxySocket :=
  match op with
  | PsEnv op => env_step s op
  | PsSetNonBlocking b => set_m_non_blocking s b
  | PsBind addr => (ProxySocket_Bind s addr).1
  | PsConnect during sent env sig addr =>
      (ProxySocket_Connect (fun _ s w => (env_run s during, w, sent)) (env_wait env sig) s addr tt).1.1
  | PsRecvFrom env sig buffer len flags from =>
      (ProxySocket_RecvFrom (env_wait env sig) s buffer len flags from).1
  | PsRecv env sig buffer len flags => (ProxySocket_Recv (env_wait env sig) s buffer len flags).1
  | PsSetSockOpt level optname optval optlen =>
      (ProxySocket_SetSockOpt s level optname optval optlen).1
  | PsListen => (ProxySocket_Listen s).1
  | PsAccept env sig => (ProxySocket_Accept (env_wait env sig) s).1
  | PsWaitForData env sig t => (ProxySocket_WaitForData (env_wait env sig) s t).1
  end.
Definition ps_run (s : ProxySocket) (ops : list PsOp) : ProxySocket := foldl ps_step s ops.

(** A socket waiting in the accept queue of [s]. *)
Definition accepted_ok (s a : ProxySocket) : Prop :=
  m_state a = Connected /\ m_type a = m_type s /\ m_protocol a = m_protocol s /\
  m_local_addr a = m_local_addr s /\ sin_family (m_remote_addr a) = AddressFamily_Inet /\
  rx_ok a.

Definition accept_ok (s : ProxySocket) : Prop :=
  (m_state s = Created -> m_accept_queue s = []) /\
  (m_accept_queue s <> [] -> m_accept_event s = true) /\
  Forall (accepted_ok s) (m_accept_queue s).

(** The type invariant of the class. *)
Definition ps_inv (s : ProxySocket) : Prop :=
  rx_ok s /\ accept_ok s /\ sin_family (m_local_addr s) = AddressFamily_Inet /\
  sin_family (m_remote_addr s) = AddressFamily_Inet.

(** [s'] differs from [s] only in fields the accept queue does not depend on. *)
Lemma accept_ok_same s s' :
  accept_ok s -> m_accept_queue s' = m_accept_queue s -> m_accept_event s' = m_accept_event s ->
  m_type s' = m_type s -> m_protocol s' = m_protocol s -> m_local_addr s' = m_local_addr s ->
  (m_state s' = Created -> m_state s = Created) -> accept_ok s'.
Proof.
  intros (H1 & H2 & H3) Eq Ee Et Ep El Hs. unfold accept_ok. rewrite Eq, Ee.
  split; [auto|]. split; [done|]. eapply Forall_impl; [|exact H3].
  intros a. unfold accepted_ok. by rewrite Et, Ep, El.
Qed.

(** Discharges preservation for an operation that leaves the ring alone. *)
Ltac ps_frame s :=
  split; [apply (rx_ok_flags s); ps_cbn; done|];
  split; [apply (accept_ok_same s); ps_cbn; done|done].

Lemma ps_inv_new ty pr : ps_inv (ProxySocket_new ty pr).
Proof. split; [apply rx_ok_new|]. split; [|done]. split; [done|]. split; [done|constructor]. Qed.

Lemma ps_inv_connection s req : ps_inv s -> ps_inv (ProxySocket_IncomingConnection s req).1.
Proof.
  intros (Hr & (H1 & H2 & H3) & Hl & Hm). unfold ProxySocket_IncomingConnection.
  destruct (bool_decide (m_state s = Listening)) eqn:E; [|done].
  apply bool_decide_eq_true in E. cbn [negb fst].
  split; [apply (rx_ok_flags s); ps_cbn; done || congruence|].
  split; [|done]. unfold accept_ok. ps_cbn. split; [congruence|]. split; [done|].
  apply Forall_app; split; [done|]. constructor; [|constructor].
  split_and!; try done.
  apply (rx_ok_flags (ProxySocket_new (m_type s) (m_protocol s))); try done. apply rx_ok_new.
Qed.

Lemma ps_inv_env_step s op : ps_inv s -> ps_inv (env_step s op).
Proof.
  intros Hs. pose proof Hs as (Hr & Ha & Hl & Hm). destruct op; simpl.
  - split; [by apply rx_ok_incoming|]. by split; [apply (accept_ok_same s)|].
  - by apply ps_inv_connection.
  - ps_frame s.
  - split; [by apply rx_ok_shutdown|]. unfold ProxySocket_Shutdown.
    repeat case_match; (split; [apply (accept_ok_same s)|]; done).
  - split; [by apply rx_ok_close|]. by split; [apply (accept_ok_same s)|].
Qed.

Lemma ps_inv_env_run s ops : ps_inv s -> ps_inv (env_run s ops).
Proof. revert s; induction ops; intros s Hs; simpl; auto using ps_inv_env_step. Qed.

Lemma ps_inv_wait ev env sig s : ps_inv s -> ps_inv (TimedWait ev (env_wait env sig) s).1.
Proof. intros. unfold TimedWait, env_wait. destruct (ev s); [done|]. by apply ps_inv_env_run. Qed.

#[export] Hint Resolve ps_inv_env_step ps_inv_env_run ps_inv_wait : slp.

Lemma ps_inv_state s st :
  st <> Created -> st <> Closed -> ps_inv s -> ps_inv (set_m_state s st).
Proof. intros ?? (Hr & Ha & Hl & Hm). ps_frame s. Qed.

Lemma ps_inv_connect {W} (send : ProxyArgs -> ProxySocket -> W -> ProxySocket * W * bool) wait s addr w :
  (forall a s w, ps_inv s -> ps_inv (send a s w).1.1) -> (forall s, ps_inv s -> ps_inv (wait s).1) ->
  ps_inv s -> ps_inv (ProxySocket_Connect send wait s addr w).1.1.
Proof.
  intros Hsend Hwait Hs. unfold ProxySocket_Connect.
  destruct (bool_decide _); [done|]. destruct (sin_family addr =? _) eqn:Ef; [|done].
  cbn [negb]. assert (ps_inv (set_m_remote_addr s addr)) as H1.
  { destruct Hs as (Hr & Ha & Hl & Hm). split; [by apply (rx_ok_flags s)|].
    split; [by apply (accept_ok_same s)|]. split; [done|]. ps_cbn. by apply Z.eqb_eq in Ef. }
  case_match; [|by apply ps_inv_state].
  match goal with |- context [send ?a ?s1 w] => assert (ps_inv s1) as H2 end.
  { apply (ps_inv_state _ Connecting) in H1 as (Hr & Ha & Hl & Hm); [|done..].
    match goal with H : rx_ok ?s0 |- _ => ps_frame s0 end. }
  match goal with |- context [send ?a ?s1 w] =>
    pose proof (Hsend a s1 w H2) as H3; destruct (send a s1 w) as [[s2 w2] sent] end.
  cbn [fst] in H3. destruct sent; [|by apply ps_inv_state]. cbn [negb].
  destruct (m_non_blocking s2); [done|]. cbn [negb].
  assert (ps_inv (TimedWait m_connect_event wait s2).1) as H4
    by (unfold TimedWait; destruct (m_connect_event s2); auto).
  destruct (TimedWait m_connect_event wait s2) as [s3 got]. cbn [fst] in H4.
  repeat case_match; by apply ps_inv_state.
Qed.

Lemma ps_inv_consume s n peek from :
  ps_inv s -> (0 < r_count (m_rx s))%nat -> ps_inv (consume_front s n peek from).1.
Proof.
  intros (Hr & Ha & Hl & Hm) Hc. split; [by apply consume_front_ok|].
  unfold consume_front; cbn [fst]. repeat case_match; (split; [apply (accept_ok_same s)|]; done).
Qed.

Lemma ps_inv_recv env sig s buffer len flags from :
  ps_inv s -> ps_inv (ProxySocket_RecvFrom (env_wait env sig) s buffer len flags from).1.
Proof.
  intros Hs. unfold ProxySocket_RecvFrom. do 3 (case_match; [done|]).
  destruct (r_count (m_rx s) =? 0)%nat eqn:E; [|apply ps_inv_consume; [done|lia]].
  case_match; [done|]. pose proof (ps_inv_wait m_receive_event env sig s Hs) as Hw.
  destruct (TimedWait _ _ _) as [s' g]. cbn [fst] in Hw.
  destruct (g && (0 <? r_count (m_rx s'))%nat) eqn:E'; [|done]. apply ps_inv_consume; [done|lia].
Qed.

Lemma ps_inv_accept_front s s' a : ps_inv s -> accept_front s = Some (s', a) -> ps_inv s'.
Proof.
  intros (Hr & (H1 & H2 & H3) & Hl & Hm) Ha. unfold accept_front in Ha.
  destruct (m_accept_queue s) as [|x rest] eqn:Eq; [done|].
  apply Forall_cons_1 in H3 as [Hx Hrest]. injection Ha as <- <-.
  destruct (bool_decide (rest = [])) eqn:Er;
    (split; [by apply (rx_ok_flags s)|]; split; [|done]; unfold accept_ok; ps_cbn;
     split; [intros Hc; specialize (H1 Hc); congruence|]; split; [|done]).
  - apply bool_decide_eq_true in Er. done.
  - intros _. by apply H2.
Qed.

Lemma ps_inv_accept env sig s : ps_inv s -> ps_inv (ProxySocket_Accept (env_wait env sig) s).1.
Proof.
  intros Hs. unfold ProxySocket_Accept. case_match; [done|].
  destruct (accept_front s) as [[s' a]|] eqn:E; [by eapply ps_inv_accept_front|].
  destruct (m_non_blocking s); [done|]. pose proof (ps_inv_wait m_accept_event env sig s Hs) as Hw.
  destruct (TimedWait _ _ _) as [s2 g]. cbn [fst] in Hw.
  destruct (accept_front s2) as [[s3 a]|] eqn:E'; [by eapply ps_inv_accept_front|done].
Qed.

Lemma ps_inv_step s op : ps_inv s -> ps_inv (ps_step s op).
Proof.
  intros Hs. pose proof Hs as (Hr & Ha & Hl & Hm). destruct op; cbn [ps_step].
  - by apply ps_inv_env_step.
  - ps_frame s.
  - unfold ProxySocket_Bind. destruct (bool_decide (m_state s = Created)) eqn:E; [|done].
    apply bool_decide_eq_true in E. destruct (sin_family addr =? _) eqn:Ef; [|done].
    apply Z.eqb_eq in Ef. cbn [negb fst]. split; [by apply (rx_ok_flags s)|]. split; [|done].
    unfold accept_ok. ps_cbn. destruct Ha as (H1 & H2 & H3). rewrite (H1 E) in *.
    split; [done|]. split; [done|constructor].
  - apply ps_inv_connect; [|intros; by apply ps_inv_env_run|done].
    intros; by apply ps_inv_env_run.
  - by apply ps_inv_recv.
  - unfold ProxySocket_Recv. case_match; [by apply ps_inv_recv|done].
  - unfold ProxySocket_SetSockOpt. repeat case_match; try done; cbn [fst];
      (split; [by apply (rx_ok_flags s)|]; split; [apply (accept_ok_same s); done|done]).
  - unfold ProxySocket_Listen. do 2 (case_match; [done|]). by apply ps_inv_state.
  - by apply ps_inv_accept.
  - unfold ProxySocket_WaitForData. case_match; [done|].
    pose proof (ps_inv_wait m_receive_event env sig s Hs) as Hw.
    destruct (TimedWait _ _ _) as [s' g]. by case_match.
Qed.

Lemma ps_inv_run s ops : ps_inv s -> ps_inv (ps_run s ops).
Proof. revert s; induction ops; intros s Hs; simpl; auto using ps_inv_step. Qed.

(** the class invariant holds after any history of calls, whatever the
    other threads do while a call waits.  The ring indices stay inside the
    array and agree with the count, no slot holds more than the 2000 bytes of
    its buffer, data in the queue and connections in the accept queue always
    have their event signalled (no lost wake-up), every queued connection is
    connected, of the listener's type, and carries the listener's local
    address, and both addresses stay AF_INET. *)
Theorem ProxySocket_invariant type protocol ops :
  ps_inv (ps_run (ProxySocket_new type protocol) ops).
Proof. apply ps_inv_run, ps_inv_new. Qed.

(** ** Shutdown is final *)
Definition shut (s : ProxySocket) : Prop := m_shutdown_read s = true /\ m_shutdown_write s = true.

Lemma shut_env_run s env : shut s -> shut (env_run s env).
Proof.
  revert s; induction env as [|op env IH]; intros s Hs; [done|]. cbn [env_run foldl]. apply IH.
  destruct op; simpl; [done| |done| |done].
  - unfold ProxySocket_IncomingConnection. by case_match.
  - unfold ProxySocket_Shutdown. destruct Hs. repeat case_match; split; done.
Qed.

Lemma shut_wait ev env sig s : shut s -> shut (TimedWait ev (env_wait env sig) s).1.
Proof. intros. unfold TimedWait, env_wait. destruct (ev s); [done|]. by apply shut_env_run. Qed.

Lemma shut_accept_front s s' a : shut s -> accept_front s = Some (s', a) -> shut s'.
Proof.
  unfold accept_front. intros Hs. destruct (m_accept_queue s); [done|]. intros [= <- _].
  by case_match.
Qed.

Lemma shut_step s op : shut s -> shut (ps_step s op).
Proof.
  intros Hs. destruct op; cbn [ps_step].
  - by apply (shut_env_run s [op]).
  - done.
  - unfold ProxySocket_Bind. by repeat case_match.
  - unfold ProxySocket_Connect. destruct (bool_decide _); [done|]. destruct (negb _); [done|].
    destruct (m_type _ =? _); [|done].
    match goal with |- context [env_run ?s1 during_send] =>
      assert (shut (env_run s1 during_send)) as H2 by (by apply shut_env_run);
      generalize dependent (env_run s1 during_send); intros s2 H2 end.
    destruct sent; [|done]. cbn [negb]. destruct (negb _); [|done].
    match goal with |- context [TimedWait ?ev ?w ?s2] =>
      pose proof (shut_wait ev env sig s2 H2) as H3; destruct (TimedWait ev w s2) end.
    by repeat case_match.
  - unfold ProxySocket_RecvFrom. by rewrite (proj1 Hs).
  - unfold ProxySocket_Recv. case_match; [|done]. unfold ProxySocket_RecvFrom. by rewrite (proj1 Hs).
  - unfold ProxySocket_SetSockOpt. by repeat case_match.
  - unfold ProxySocket_Listen. by repeat case_match.
  - unfold ProxySocket_Accept. case_match; [done|].
    destruct (accept_front s) as [[s' a]|] eqn:E; [by eapply shut_accept_front|].
    case_match; [done|]. pose proof (shut_wait m_accept_event env sig s Hs) as Hw.
    destruct (TimedWait _ _ _) as [s2 g]. cbn [fst] in Hw.
    destruct (accept_front s2) as [[s3 a]|] eqn:E'; [by eapply shut_accept_front|done].
  - unfold ProxySocket_WaitForData. case_match; [done|].
    pose proof (shut_wait m_receive_event env sig s Hs) as Hw.
    destruct (TimedWait _ _ _). by case_match.
Qed.

(** a closed socket never carries data again.  Whatever is called on it
    after [Close] (and [Listen] or [Connect] may well change its state), a send
    fails with EINVAL without reaching the network, and a receive reports end
    of file at once, without waiting and without consuming anything. *)
Theorem ProxySocket_closed_is_final s ops :
  let s' := ps_run (ProxySocket_Close s).1 ops in
  (forall W (send : ProxyArgs -> bytes -> W -> W * bool) nm data len dest w,
     ProxySocket_SendTo send nm s' data len dest w = (w, - errno E_Inval)) /\
  (forall wait buffer len flags from,
     ProxySocket_RecvFrom wait s' buffer len flags from = (s', mkRecv 0 [] None)).
Proof.
  assert (shut (ps_run (ProxySocket_Close s).1 ops)) as [Hr Hw].
  { generalize (ProxySocket_Close s).1 (conj eq_refl eq_refl : shut (ProxySocket_Close s).1).
    induction ops as [|op ops IH]; intros s1 H1; [done|]. apply IH. by apply shut_step. }
  split; intros.
  - unfold ProxySocket_SendTo. by rewrite Hw.
  - unfold ProxySocket_RecvFrom. by rewrite Hr.
Qed.

(** ** Sending *)

(** When [SendTo] hands the datagram to the network. *)
Definition sendable (s : ProxySocket) (data : option bytes) (len : nat) : bool :=
  negb (m_shutdown_write s) &&
  bool_decide (m_state s <> Closed /\ m_state s <> Created) &&
  (bool_decide (data <> None) || (len =? 0)%nat) && (len <=? 2000)%nat.

(** The first failing check decides the error. *)
Definition send_error (s : ProxySocket) (data : option bytes) (len : nat) : BsdErrno :=
  if m_shutdown_write s then E_Inval
  else match m_state s with
       | Closed => E_BadF
       | Created => E_DestAddrReq
       | _ => match data, len with
              | None, S _ => E_Fault
              | _, _ => if (2000 <? len)%nat then E_MsgSize else E_NetUnreach
              end
       end.

Lemma SendTo_eq W (send : ProxyArgs -> bytes -> W -> W * bool) nm s data len dest w :
  NetMap_reachable nm ->
  ProxySocket_SendTo send nm s data len dest w =
  if sendable s data len then
    let '(w', ok) := send (mkArgs (SockAddrIn_GetAddr (m_local_addr s))
                             (SockAddrIn_GetPort (m_local_addr s))
                             (SockAddrIn_GetAddr dest) (SockAddrIn_GetPort dest) (m_protocol s))
                       (default [] data) w in
    (w', if ok then Z.of_nat len else - errno E_NetUnreach)
  else (w, - errno (send_error s data len)).
Proof.
  intros Hnm. unfold ProxySocket_SendTo, sendable, send_error, PROXY_SOCKET_MAX_PAYLOAD.
  unfold GameToVirtual. rewrite (NetMap_off nm Hnm).
  destruct (m_shutdown_write s); [done|].
  destruct (m_state s) eqn:Es; cbn -[Nat.ltb Nat.leb]; try done;
    destruct data as [d|]; cbn -[Nat.ltb Nat.leb];
    (destruct (Nat.ltb_spec 2000 len); [rewrite (proj2 (Nat.leb_gt len 2000)) by lia
                                       |rewrite (proj2 (Nat.leb_le len 2000)) by lia]);
    destruct len as [|len]; cbn -[Nat.ltb Nat.leb]; try lia; try done;
    destruct (IsLanModePort _ || IsLanModePort _);
    match goal with |- context [send ?a ?d ?w] => by destruct (send a d w) as [? []] end.
Qed.

(** [SendTo] on every branch, in every reachable state of the address
    translation.  An unsendable datagram is refused with the errno of the first
    failing check and the network is not called; otherwise the network is
    called once, with the payload unchanged, the socket's own address and port
    as source and the given destination unchanged (host order), and the result
    is the length, or ENETUNREACH when the network refuses. *)
Theorem ProxySocket_SendTo_spec W (send : ProxyArgs -> bytes -> W -> W * bool) nm s data len dest w :
  NetMap_reachable nm ->
  ProxySocket_SendTo send nm s data len dest w =
  if sendable s data len then
    let '(w', ok) := send (mkArgs (SockAddrIn_GetAddr (m_local_addr s))
                             (SockAddrIn_GetPort (m_local_addr s))
                             (SockAddrIn_GetAddr dest) (SockAddrIn_GetPort dest) (m_protocol s))
                       (default [] data) w in
    (w', if ok then Z.of_nat len else - errno E_NetUnreach)
  else (w, - errno (send_error s data len)).
Proof. apply SendTo_eq. Qed.

Lemma ProxySocket_SendTo_spec_witness :
  NetMap_reachable (SetRealAddress NetMap_init 0xC0A8000F 0xFFFFFF00) /\
  ProxySocket_SendTo (fun a d w => (w ++ [(pa_dest_ip a, pa_dest_port a, d)], true))
    (SetRealAddress NetMap_init 0xC0A8000F 0xFFFFFF00)
    (ProxySocket_Bind (ProxySocket_new 2 17)
       (mkSockAddrIn 16 2 (bswap16 30000) (bswap32 0x0A0D2505) (replicate 8 0))).1
    (Some [1; 2; 3]) 3 (mkSockAddrIn 16 2 (bswap16 30000) (bswap32 0x0A0D25FF) (replicate 8 0)) []
  = ([(0x0A0D25FF, 30000, [1; 2; 3])], 3).
Proof.
  assert (NetMap_reachable (SetRealAddress NetMap_init 0xC0A8000F 0xFFFFFF00)) as H
    by (apply NetMap_set, NetMap_start).
  split; [exact H|]. rewrite ProxySocket_SendTo_spec by exact H. vm_compute. reflexivity.
Defined.

(** ** Connecting *)

(** a blocking TCP connect ends in exactly one of four ways: the network
    refused the request (ENETUNREACH), no answer was seen in time (ETIMEDOUT),
    the peer answered with a protocol other than Unspecified (ECONNREFUSED), or
    it accepted; the socket is Connected in the last case only, Bound in the
    others, and its remote address is the one asked for. *)
Theorem ProxySocket_Connect_blocking send_env sent env sig s addr :
  m_type s = SocketType_Stream -> m_state s <> Closed -> m_non_blocking s = false ->
  sin_family addr = AddressFamily_Inet ->
  let '(s', _, r) := ProxySocket_Connect (fun _ s w => (env_run s send_env, w, sent)) (env_wait env sig) s addr tt in
  m_remote_addr s' = addr /\
  ((r = 0 /\ m_state s' = Connected /\ sent = true /\ m_connect_response_received s' = true /\
      ci_protocol (m_connect_response s') = ProtocolType_Unspecified) \/
   (m_state s' = Bound /\
      (r = errno E_NetUnreach /\ sent = false \/
       r = errno E_TimedOut /\ sent = true /\
         (sig = false \/ m_connect_response_received s' = false) \/
       r = errno E_ConnRefused /\ sent = true /\
         ci_protocol (m_connect_response s') <> ProtocolType_Unspecified))).
Proof.
  intros Ht Hst Hnb Hf. unfold ProxySocket_Connect.
  rewrite bool_decide_false by done.
  change (m_type (set_m_remote_addr s addr)) with (m_type s). rewrite Hf, Ht.
  cbn [negb Z.eqb AddressFamily_Inet SocketType_Stream Pos.eqb].
  match goal with |- context [env_run ?s1 send_env] => set (s1' := s1) end.
  assert (forall s0 env, m_remote_addr (env_run s0 env) = m_remote_addr s0 /\
            m_non_blocking (env_run s0 env) = m_non_blocking s0) as Hrem.
  { intros s0 env0. revert s0. induction env0 as [|op e IH]; intros s0; [done|].
    cbn [env_run foldl]. destruct (IH (env_step s0 op)) as [E1 E2].
    unfold env_run in *. rewrite E1, E2. destruct op; simpl; try done.
    - unfold ProxySocket_IncomingConnection. by case_match.
    - unfold ProxySocket_Shutdown. by repeat case_match. }
  destruct (Hrem s1' send_env) as [R1 N1]. set (s2 := env_run s1' send_env) in *.
  assert (m_remote_addr s2 = addr) as R2 by (by rewrite R1).
  assert (m_non_blocking s2 = false) as N2 by (by rewrite N1).
  destruct sent; cbn [negb]; [|by split; [|right; split; [|left]]].
  rewrite N2. cbn [negb]. unfold TimedWait, env_wait.
  destruct (Hrem s2 env) as [R3 _]. rewrite R2 in R3.
  destruct (m_connect_event s2) eqn:Ev; [set (s3 := s2)|set (s3 := env_run s2 env) in *];
    (assert (m_remote_addr s3 = addr) as R by done; clearbody s3);
    (destruct (m_connect_response_received s3) eqn:Er;
     [destruct (ci_protocol (m_connect_response s3) =? _) eqn:Ep|]);
    rewrite ?orb_true_r, ?orb_false_r; try destruct sig; cbn [negb orb];
    (split; [by ps_cbn|]); ps_cbn; rewrite ?Z.eqb_eq, ?Z.eqb_neq in *; naive_solver.
Qed.

Lemma ProxySocket_Connect_blocking_witness :
  let s := ProxySocket_new SocketType_Stream ProtocolType_Tcp in
  let addr := mkSockAddrIn 16 2 (bswap16 80) (bswap32 0x0A0D2507) (replicate 8 0) in
  let r := ProxySocket_Connect (fun _ s w => (env_run s [], w, true))
             (env_wait [EnvResponse ProxyConnectInfo_zero] true) s addr tt in
  r.2 = 0 /\ m_remote_addr r.1.1 = addr.
Proof.
  intros s addr r.
  pose proof (ProxySocket_Connect_blocking [] true [EnvResponse ProxyConnectInfo_zero] true s addr
    eq_refl ltac:(discriminate) eq_refl eq_refl) as H.
  fold r in H. destruct r as [[s' []] r'] eqn:E. destruct H as [Ha _]. split; [|exact Ha].
  change (s', tt, r').2 with r'. vm_compute in E. injection E as _ <-. reflexivity.
Defined.

(** a non-blocking TCP connect never completes.  [Connect] returns
    EINPROGRESS for "will complete asynchronously", but whatever arrives
    afterwards (the accepting answer included), short of a close or another
    call of the API, leaves the socket Connecting, and sending and receiving on
    it keep failing with ENOTCONN. *)
Theorem ProxySocket_nonblocking_connect_stuck W (send : ProxyArgs -> bytes -> W -> W * bool) nm w
    wait s addr env data len buffer flags :
  m_type s = SocketType_Stream -> m_state s <> Closed -> m_non_blocking s = true ->
  sin_family addr = AddressFamily_Inet -> Forall (fun op => op <> EnvClose) env ->
  let '(s', _, r) := ProxySocket_Connect (fun _ s w => (s, w, true)) wait s addr w in
  r = errno E_InProgress /\
  let s'' := env_run s' env in
  m_state s'' = Connecting /\
  ProxySocket_Send send nm s'' data len w = (w, - errno E_NotConn) /\
  ProxySocket_Recv wait s'' buffer len flags = (s'', recv_fail E_NotConn).
Proof.
  intros Ht Hst Hnb Hf Henv. unfold ProxySocket_Connect. rewrite bool_decide_false by done.
  change (m_type (set_m_remote_addr s addr)) with (m_type s). rewrite Hf, Ht.
  cbn [negb Z.eqb AddressFamily_Inet SocketType_Stream Pos.eqb].
  match goal with |- context [m_non_blocking ?s1] =>
    change (m_non_blocking s1) with (m_non_blocking s); set (s' := s1) end.
  rewrite Hnb. cbn [negb]. split; [done|].
  assert (m_state (env_run s' env) = Connecting) as Hc.
  { assert (m_state s' = Connecting) as H' by done. clearbody s'. revert s' H'.
    induction Henv as [|op env Hop _ IH]; intros s' H'; [done|]. cbn [env_run foldl]. apply IH.
    destruct op; simpl; try done.
    - unfold ProxySocket_IncomingConnection. by rewrite H'.
    - unfold ProxySocket_Shutdown. by repeat case_match. }
  split; [done|]. unfold ProxySocket_Send, ProxySocket_Recv. by rewrite Hc.
Qed.

Lemma ProxySocket_nonblocking_connect_stuck_witness :
  let s := set_m_non_blocking (ProxySocket_new SocketType_Stream ProtocolType_Tcp) true in
  let addr := mkSockAddrIn 16 2 (bswap16 80) (bswap32 0x0A0D2507) (replicate 8 0) in
  let s' := (ProxySocket_Connect (fun _ s w => (s, w, true)) no_wait s addr tt).1.1 in
  m_state (env_run s' [EnvResponse ProxyConnectInfo_zero]) = Connecting.
Proof.
  intros s addr s'.
  pose proof (ProxySocket_nonblocking_connect_stuck unit (fun _ _ w => (w, true)) NetMap_init tt
    no_wait s addr [EnvResponse ProxyConnectInfo_zero] None 0 true 0 eq_refl
    ltac:(discriminate) eq_refl eq_refl ltac:(repeat constructor; discriminate)) as H.
  unfold s'. destruct (ProxySocket_Connect _ no_wait s addr tt) as [[s1 []] r].
  destruct H as [_ [H _]]. exact H.
Defined.

(** A receive on a socket with queued data returns the front of the queue. *)
Lemma RecvFrom_queued wait s n flags want f d q :
  rx_ok s -> m_shutdown_read s = false -> rx_queue s = (f, d) :: q ->
  (ProxySocket_RecvFrom wait s true n flags want).2 =
    mkRecv (Z.of_nat (Nat.min n (length d))) (take n d) (if want then Some f else None).
Proof.
  intros Hok Hsr Hq. unfold ProxySocket_RecvFrom. rewrite Hsr.
  destruct (bool_decide (m_state s = Closed)) eqn:Hst.
  { apply bool_decide_eq_true in Hst. apply Hok in Hst as [? _]. congruence. }
  cbn [negb andb].
  assert (r_count (m_rx s) <> 0%nat) as E by (rewrite <- rx_queue_length, Hq; simpl; lia).
  destruct (r_count (m_rx s) =? 0)%nat eqn:E'; [lia|].
  by destruct (consume_front_spec s n (negb (Z.land flags MSG_PEEK =? 0)) want f d q Hok Hq).
Qed.
