(* ===== verification/SocketManager.v ===== *)
(** The proxy socket manager (bsd/proxy_socket_manager.hpp/.cpp): the registry
    of proxy sockets, the routing of incoming datagrams and connections to
    them, the packets kept for a later bind, the port pool and the callbacks
    that lead out of the bsd subsystem.

    The registry is a finite map from descriptors to sockets; a socket pointer
    is its descriptor.  The iteration order of [std::unordered_map] is not
    specified: it is a parameter, with the only law that it visits every entry
    once.  A callback is a code pointer, called through a parameter. *)
From S2P Require Import Prelude Bytes IpAddr PortPool Ring ProxySocket.

Definition MAX_PROXY_SOCKETS : nat := 64.
Definition MaxPendingPackets : nat := 16.
Definition PendingPayloadMax : nat := 1400.
#[global] Arguments MaxPendingPackets : simpl never.
#[global] Arguments PendingPayloadMax : simpl never.

(** The order in which a range-for loop visits the registry. *)
Class RegistryOrder := {
  registry_iter : gmap Z ProxySocket -> list (Z * ProxySocket);
  registry_iter_perm m : registry_iter m ≡ₚ map_to_list m;
}.

(** One such order, to run the definitions. *)
#[export, refine] Instance key_order : RegistryOrder | 100 := {| registry_iter := map_to_list |}.
Proof. done. Defined.

(** A function pointer. *)
Definition Callback : Set := Z.

Record PendingPacket : Set := mkPending {
  pp_source_ip : Z;
  pp_source_port : Z;
  pp_dest_ip : Z;
  pp_dest_port : Z;
  pp_len : Z;
  pp_protocol : Z;
  pp_data : bytes;
}.
Definition PendingPacket_zero : PendingPacket :=
  mkPending 0 0 0 0 0 0 (replicate PendingPayloadMax 0).
#[global] Instance PendingPacket_inhabited : Inhabited PendingPacket := populate PendingPacket_zero.

Record ProxySocketManager : Type := mkManager {
  m_sockets : gmap Z ProxySocket;
  m_port_pool : EphemeralPortPool;
  m_local_ip : Z;
  m_send_callback : option Callback;
  m_proxy_connect_callback : option Callback;
  m_proxy_connect_reply_callback : option Callback;
  m_proxy_disconnect_callback : option Callback;
  m_pending : Ring PendingPacket;
}.

Definition set_m_sockets (s : ProxySocketManager) (x : gmap Z ProxySocket) : ProxySocketManager :=
  mkManager x (m_port_pool s) (m_local_ip s) (m_send_callback s) (m_proxy_connect_callback s)
    (m_proxy_connect_reply_callback s) (m_proxy_disconnect_callback s) (m_pending s).
Definition set_m_port_pool (s : ProxySocketManager) (x : EphemeralPortPool) : ProxySocketManager :=
  mkManager (m_sockets s) x (m_local_ip s) (m_send_callback s) (m_proxy_connect_callback s)
    (m_proxy_connect_reply_callback s) (m_proxy_disconnect_callback s) (m_pending s).
Definition set_m_local_ip (s : ProxySocketManager) (x : Z) : ProxySocketManager :=
  mkManager (m_sockets s) (m_port_pool s) x (m_send_callback s) (m_proxy_connect_callback s)
    (m_proxy_connect_reply_callback s) (m_proxy_disconnect_callback s) (m_pending s).
Definition set_m_send_callback (s : ProxySocketManager) (x : option Callback) : ProxySocketManager :=
  mkManager (m_sockets s) (m_port_pool s) (m_local_ip s) x (m_proxy_connect_callback s)
    (m_proxy_connect_reply_callback s) (m_proxy_disconnect_callback s) (m_pending s).
Definition set_m_proxy_connect_callback (s : ProxySocketManager) (x : option Callback) : ProxySocketManager :=
  mkManager (m_sockets s) (m_port_pool s) (m_local_ip s) (m_send_callback s) x
    (m_proxy_connect_reply_callback s) (m_proxy_disconnect_callback s) (m_pending s).
Definition set_m_proxy_connect_reply_callback (s : ProxySocketManager) (x : option Callback) : ProxySocketManager :=
  mkManager (m_sockets s) (m_port_pool s) (m_local_ip s) (m_send_callback s)
    (m_proxy_connect_callback s) x (m_proxy_disconnect_callback s) (m_pending s).
Definition set_m_proxy_disconnect_callback (s : ProxySocketManager) (x : option Callback) : ProxySocketManager :=
  mkManager (m_sockets s) (m_port_pool s) (m_local_ip s) (m_send_callback s)
    (m_proxy_connect_callback s) (m_proxy_connect_reply_callback s) x (m_pending s).
Definition set_m_pending (s : ProxySocketManager) (x : Ring PendingPacket) : ProxySocketManager :=
  mkManager (m_sockets s) (m_port_pool s) (m_local_ip s) (m_send_callback s)
    (m_proxy_connect_callback s) (m_proxy_connect_reply_callback s)
    (m_proxy_disconnect_callback s) x.

(** Reduces the projections of updated managers, nothing else. *)
Ltac sm_cbn := cbn [m_sockets m_port_pool m_local_ip m_send_callback m_proxy_connect_callback
  m_proxy_connect_reply_callback m_proxy_disconnect_callback m_pending set_m_sockets
  set_m_port_pool set_m_local_ip set_m_send_callback set_m_proxy_connect_callback
  set_m_proxy_connect_reply_callback set_m_proxy_disconnect_callback set_m_pending] in *.

Definition ProxySocketManager_init : ProxySocketManager :=
  mkManager ∅ EphemeralPortPool_init 0 None None None None
    (mkRing (replicate MaxPendingPackets PendingPacket_zero) 0 0 0).

(** ** Socket management *)

(** The descriptor of the socket returned, [None] for a null pointer. *)
Definition CreateProxySocket (m : ProxySocketManager) (fd type protocol : Z)
    : ProxySocketManager * option Z :=
  match m_sockets m !! fd with
  | Some _ => (m, Some fd)
  | None =>
      if (MAX_PROXY_SOCKETS <=? size (m_sockets m))%nat then (m, None)
      else (set_m_sockets m (<[fd := ProxySocket_new type protocol]> (m_sockets m)), Some fd)
  end.

Definition GetProxySocket (m : ProxySocketManager) (fd : Z) : option ProxySocket := m_sockets m !! fd.
Definition IsProxySocket (m : ProxySocketManager) (fd : Z) : bool :=
  bool_decide (is_Some (m_sockets m !! fd)).

(** ** Ports *)
Definition Mgr_AllocatePort (m : ProxySocketManager) (protocol : Z) : ProxySocketManager * Z :=
  let '(p, port) := Pool_AllocatePort (m_port_pool m) protocol in (set_m_port_pool m p, port).
Definition Mgr_ReservePort (m : ProxySocketManager) (port protocol : Z) : ProxySocketManager * bool :=
  let '(p, ok) := Pool_AllocateSpecificPort (m_port_pool m) port protocol in (set_m_port_pool m p, ok).
Definition Mgr_ReleasePort (m : ProxySocketManager) (port protocol : Z) : ProxySocketManager :=
  set_m_port_pool m (Pool_ReleasePort (m_port_pool m) port protocol).

(** ** Callbacks and configuration *)
Definition SetSendCallback (m : ProxySocketManager) (c : option Callback) := set_m_send_callback m c.
Definition SetProxyConnectCallback (m : ProxySocketManager) (c : option Callback) :=
  set_m_proxy_connect_callback m c.
Definition SetProxyConnectReplyCallback (m : ProxySocketManager) (c : option Callback) :=
  set_m_proxy_connect_reply_callback m c.
Definition SetProxyDisconnectCallback (m : ProxySocketManager) (c : option Callback) :=
  set_m_proxy_disconnect_callback m c.
Definition Mgr_SetLocalIp (m : ProxySocketManager) (ip : Z) : ProxySocketManager := set_m_local_ip m ip.
Definition Mgr_GetLocalIp (m : ProxySocketManager) : Z := m_local_ip m.
Definition GetActiveSocketCount (m : ProxySocketManager) : nat := size (m_sockets m).
Definition GetAvailablePortCount (m : ProxySocketManager) (protocol : Z) : Z :=
  Pool_GetAvailableCount (m_port_pool m) protocol.

Section callbacks.
(** The code behind the pointers, over the state [W] of what they touch. *)
Context {W : Type}.
Variable call_data : Callback -> ProxyArgs -> bytes -> W -> W * bool.
Variable call_ctl : Callback -> ProxyArgs -> W -> W * bool.

Definition SendProxyData (m : ProxySocketManager) (a : ProxyArgs) (data : bytes) (w : W) : W * bool :=
  match m_send_callback m with
  | None => (w, false)
  | Some cb => call_data cb a data w
  end.

Definition SendProxyConnect (m : ProxySocketManager) (a : ProxyArgs) (w : W) : W * bool :=
  match m_proxy_connect_callback m with None => (w, false) | Some cb => call_ctl cb a w end.
Definition SendProxyConnectReply (m : ProxySocketManager) (a : ProxyArgs) (w : W) : W * bool :=
  match m_proxy_connect_reply_callback m with None => (w, false) | Some cb => call_ctl cb a w end.
Definition SendProxyDisconnect (m : ProxySocketManager) (a : ProxyArgs) (w : W) : W * bool :=
  match m_proxy_disconnect_callback m with None => (w, false) | Some cb => call_ctl cb a w end.

(** [socket->Close()] outside the registry, its disconnect sent through it. *)
Definition close_socket (m : ProxySocketManager) (s : ProxySocket) (w : W) : W :=
  match (ProxySocket_Close s).2 with
  | Some a => (SendProxyDisconnect m a w).1
  | None => w
  end.

Definition CloseProxySocket (m : ProxySocketManager) (fd : Z) (w : W)
    : ProxySocketManager * W * bool :=
  match m_sockets m !! fd with
  | None => (m, w, false)
  | Some s =>
      let port := SockAddrIn_GetPort (m_local_addr s) in
      let m := if negb (port =? 0)
               then set_m_port_pool m (Pool_ReleasePort (m_port_pool m) port (m_protocol s)) else m in
      let m := set_m_sockets m (delete fd (m_sockets m)) in
      (m, close_socket m s w, true)
  end.

Context {RO : RegistryOrder}.

Definition close_all (m : ProxySocketManager) (w : W) : ProxySocketManager * W :=
  let sockets := snd <$> registry_iter (m_sockets m) in
  let m := set_m_sockets m ∅ in
  (m, foldl (fun w s => close_socket m s w) w sockets).

Definition CloseAllProxySockets (m : ProxySocketManager) (w : W) : ProxySocketManager * W :=
  let '(m, w) := close_all m w in
  (set_m_port_pool m (Pool_ReleaseAll (m_port_pool m)), w).

Definition Mgr_Reset (m : ProxySocketManager) (w : W) : ProxySocketManager * W :=
  let '(m, w) := close_all m w in
  let m := set_m_port_pool m (Pool_ReleaseAll (m_port_pool m)) in
  let m := set_m_pending m (ring_reset (m_pending m)) in
  let m := set_m_local_ip m 0 in
  let m := set_m_send_callback m None in
  let m := set_m_proxy_connect_callback m None in
  let m := set_m_proxy_connect_reply_callback m None in
  (set_m_proxy_disconnect_callback m None, w).
End callbacks.

(** ** Routing *)
Section routing.
Context {RO : RegistryOrder}.

Definition update_socket (m : ProxySocketManager) (fd : Z) (f : ProxySocket -> ProxySocket)
    : ProxySocketManager := set_m_sockets m (alter f fd (m_sockets m)).

(** The test of the loop in [RouteConnectResponse]. *)
Definition connect_response_match (r : ProxyConnectInfo) (s : ProxySocket) : bool :=
  bool_decide (m_state s = Connecting) &&
  (SockAddrIn_GetAddr (m_local_addr s) =? ci_source_ipv4 r) &&
  (SockAddrIn_GetPort (m_local_addr s) =? ci_source_port r).

Definition RouteConnectResponse (m : ProxySocketManager) (r : ProxyConnectInfo)
    : ProxySocketManager * bool :=
  match filter (fun p => connect_response_match r p.2) (registry_iter (m_sockets m)) with
  | (fd, _) :: _ => (update_socket m fd (fun s => ProxySocket_HandleConnectResponse s r), true)
  | [] => (m, false)
  end.

Definition connect_request_match (r : ProxyConnectInfo) (s : ProxySocket) : bool :=
  bool_decide (m_state s = Listening) &&
  (m_protocol s =? ProtocolType_Tcp) &&
  (SockAddrIn_GetPort (m_local_addr s) =? ci_dest_port r) &&
  ((SockAddrIn_GetAddr (m_local_addr s) =? 0) ||
   (SockAddrIn_GetAddr (m_local_addr s) =? ci_dest_ipv4 r)).

(** The reply of [IncomingConnection] is sent through the manager. *)
Definition RouteConnectRequest {W} (call_ctl : Callback -> ProxyArgs -> W -> W * bool)
    (m : ProxySocketManager) (r : ProxyConnectInfo) (w : W) : ProxySocketManager * W * bool :=
  match filter (fun p => connect_request_match r p.2) (registry_iter (m_sockets m)) with
  | (fd, s) :: _ =>
      let '(s, reply) := ProxySocket_IncomingConnection s r in
      let m := update_socket m fd (fun _ => s) in
      match reply with
      | Some a => (m, (SendProxyConnectReply call_ctl m a w).1, true)
      | None => (m, w, true)
      end
  | [] => (m, w, false)
  end.

Definition is_broadcast (dest_ip : Z) : bool :=
  (Z.land dest_ip 0xFF =? 0xFF) || (Z.land dest_ip 0xFFFF =? 0xFFFF).

(** The test both socket searches make. *)
Definition dest_match (dest_ip dest_port protocol : Z) (s : ProxySocket) : bool :=
  (m_protocol s =? protocol) &&
  (SockAddrIn_GetPort (m_local_addr s) =? dest_port) &&
  (let local_ip := IpV4_Numeric (SockAddrIn_Addr (m_local_addr s)) in
   (local_ip =? 0) || (local_ip =? dest_ip) || is_broadcast dest_ip).

Definition FindSocketByDestination (m : ProxySocketManager) (dest_ip dest_port protocol : Z)
    : option Z :=
  fst <$> head (filter (fun p => dest_match dest_ip dest_port protocol p.2)
                  (registry_iter (m_sockets m))).

Definition FindAllSocketsByDestination (m : ProxySocketManager) (dest_ip dest_port protocol : Z)
    (max_sockets : nat) : list Z :=
  take max_sockets
    (fst <$> filter (fun p => dest_match dest_ip dest_port protocol p.2)
               (registry_iter (m_sockets m))).

(** The source address handed to a socket (in both delivery paths). *)
Definition make_from_addr (nm : NetMap) (source_ip source_port : Z) : SockAddrIn :=
  let vis := if IsLanModePort source_port then VirtualToGame nm source_ip else source_ip in
  SockAddrIn_SetAddr
    (mkSockAddrIn 16 AddressFamily_Inet (bswap16 source_port) 0 (replicate 8 0))
    (IpV4_FromNumeric vis).

(** The in-place write of a pending slot. *)
Definition pending_write (a : ProxyArgs) (data : option bytes) (data_len : nat)
    (slot : PendingPacket) : PendingPacket :=
  let copy_len := Nat.min data_len PendingPayloadMax in
  mkPending (pa_source_ip a) (pa_source_port a) (pa_dest_ip a) (pa_dest_port a)
    (u16 (Z.of_nat copy_len)) (pa_protocol a)
    (match data with
     | Some d => if (0 <? copy_len)%nat then overwrite (take copy_len d) (pp_data slot)
                 else pp_data slot
     | None => pp_data slot
     end).

Definition kMaxSockets : nat := 8.

(** [known_peer] is [LdnControl::IsKnownSessionPeerPublic]. *)
Definition RouteIncomingData (known_peer : Z -> bool) (nm : NetMap) (m : ProxySocketManager)
    (a : ProxyArgs) (data : option bytes) (data_len : nat) : ProxySocketManager * bool :=
  if negb (IsLanModePort (pa_dest_port a)) && negb (known_peer (pa_source_ip a)) then (m, false)
  else
    let targets := FindAllSocketsByDestination m (pa_dest_ip a) (pa_dest_port a)
                     (pa_protocol a) kMaxSockets in
    match targets with
    | [] => (set_m_pending m (ring_push MaxPendingPackets (pending_write a data data_len)
                                (m_pending m)), false)
    | _ =>
        let from := make_from_addr nm (pa_source_ip a) (pa_source_port a) in
        (foldl (fun m fd => update_socket m fd
                              (fun s => ProxySocket_IncomingData s data data_len from)) m targets,
         true)
    end.

(** The loop of [DeliverPendingPackets]: the ring's slots, the read and write
    indices, the number kept, and the socket delivered to. *)
Fixpoint deliver_loop (remaining : nat) (nm : NetMap) (port protocol : Z)
    (slots : list PendingPacket) (read_idx write_idx kept : nat) (s : ProxySocket)
    : list PendingPacket * nat * nat * ProxySocket :=
  match remaining with
  | O => (slots, write_idx, kept, s)
  | S remaining' =>
      let pkt := slots !!! read_idx in
      let next := ((read_idx + 1) mod MaxPendingPackets)%nat in
      if (pp_protocol pkt =? protocol) && (pp_dest_port pkt =? port) then
        let from := make_from_addr nm (pp_source_ip pkt) (pp_source_port pkt) in
        let s := ProxySocket_IncomingData s (Some (take (Z.to_nat (pp_len pkt)) (pp_data pkt)))
                   (Z.to_nat (pp_len pkt)) from in
        deliver_loop remaining' nm port protocol slots next write_idx kept s
      else
        let slots := if negb (write_idx =? read_idx)%nat then <[write_idx := pkt]> slots
                     else slots in
        deliver_loop remaining' nm port protocol slots next
          ((write_idx + 1) mod MaxPendingPackets)%nat (kept + 1)%nat s
  end.

(** [socket] is the descriptor of the socket just bound. *)
Definition DeliverPendingPackets (nm : NetMap) (m : ProxySocketManager) (socket : option Z)
    (port protocol : Z) : ProxySocketManager :=
  match fd ← socket; s ← m_sockets m !! fd; Some (fd, s) with
  | None => m
  | Some (fd, s) =>
      if (r_count (m_pending m) =? 0)%nat then m
      else
        let r := m_pending m in
        let '(slots, write_idx, kept, s) :=
          deliver_loop (r_count r) nm port protocol (r_slots r) (r_head r) (r_head r) 0 s in
        let m := set_m_pending m (mkRing slots (r_head r) write_idx kept) in
        update_socket m fd (fun _ => s)
  end.
End routing.

(** ** Lemmas: delivery to the matching sockets *)
Section routing_lemmas.
Context {RO : RegistryOrder}.

Lemma registry_iter_lookup m fd s :
  (fd, s) ∈ registry_iter m <-> m !! fd = Some s.
Proof. by rewrite registry_iter_perm, elem_of_map_to_list. Qed.

Lemma registry_iter_NoDup m : NoDup (fst <$> registry_iter m).
Proof. rewrite registry_iter_perm. apply NoDup_fst_map_to_list. Qed.

Lemma update_sockets_lookup f fds m fd :
  NoDup fds ->
  m_sockets (foldl (fun m fd => update_socket m fd f) m fds) !! fd =
  if bool_decide (fd ∈ fds) then f <$> (m_sockets m !! fd) else m_sockets m !! fd.
Proof.
  revert m; induction fds as [|x fds IH]; intros m Hnd; [done|].
  pose proof (NoDup_cons_1_1 _ _ Hnd) as Hx. apply NoDup_cons_1_2 in Hnd. cbn [foldl]. rewrite IH by done.
  unfold update_socket at 1 2. sm_cbn. destruct (decide (fd = x)) as [->|Hne].
  - rewrite bool_decide_false by done. rewrite lookup_alter_eq.
    by rewrite bool_decide_true by left.
  - rewrite lookup_alter_ne by done.
    rewrite (bool_decide_ext (fd ∈ x :: fds) (fd ∈ fds)); [done|].
    rewrite elem_of_cons. tauto.
Qed.

(** Updating sockets changes nothing but the registry. *)
Lemma update_sockets_other f fds m :
  foldl (fun m fd => update_socket m fd f) m fds =
  set_m_sockets m (m_sockets (foldl (fun m fd => update_socket m fd f) m fds)).
Proof.
  revert m; induction fds as [|x fds IH]; intros m; [by destruct m|].
  cbn [foldl]. rewrite IH. by destruct m.
Qed.

Definition deliver_if (dest_ip dest_port protocol : Z) (f : ProxySocket -> ProxySocket)
    (s : ProxySocket) : ProxySocket := if dest_match dest_ip dest_port protocol s then f s else s.

Definition matching (m : gmap Z ProxySocket) (dest_ip dest_port protocol : Z) : gmap Z ProxySocket :=
  filter (fun p => dest_match dest_ip dest_port protocol p.2 = true) m.

Lemma FindAll_elem m ip port pr fd :
  (size (matching (m_sockets m) ip port pr) <= kMaxSockets)%nat ->
  fd ∈ FindAllSocketsByDestination m ip port pr kMaxSockets <->
  exists s, m_sockets m !! fd = Some s /\ dest_match ip port pr s = true.
Proof.
  intros Hsz. unfold FindAllSocketsByDestination. rewrite take_ge.
  - rewrite list_elem_of_fmap. split.
    + intros ([fd' s] & -> & [Hp Hin]%list_elem_of_filter). exists s.
      split; [by apply registry_iter_lookup|]. by apply Is_true_true in Hp.
    + intros (s & Hs & Hp). exists (fd, s). split; [done|]. apply list_elem_of_filter.
      split; [by apply Is_true_true|]. by apply registry_iter_lookup.
  - rewrite length_fmap. etransitivity; [|exact Hsz].
    rewrite registry_iter_perm. unfold matching. rewrite map_filter_alt, map_size_list_to_map.
    + apply Nat.eq_le_incl. f_equal. apply list_filter_iff. intros [? ?]. apply Is_true_true.
    + apply (sublist_NoDup _ (map_to_list (m_sockets m)).*1); [apply NoDup_fst_map_to_list|]. apply fmap_sublist, sublist_filter.
Qed.

Lemma FindAll_NoDup m ip port pr n : NoDup (FindAllSocketsByDestination m ip port pr n).
Proof.
  unfold FindAllSocketsByDestination. eapply sublist_NoDup; [|apply sublist_take].
  eapply sublist_NoDup; [apply registry_iter_NoDup|]. apply fmap_sublist, sublist_filter.
Qed.

Lemma targets_empty m ip port pr :
  (size (matching (m_sockets m) ip port pr) <= kMaxSockets)%nat ->
  bool_decide (FindAllSocketsByDestination m ip port pr kMaxSockets = []) =
  bool_decide (matching (m_sockets m) ip port pr = ∅).
Proof.
  intros Hsz. apply bool_decide_ext. unfold matching. rewrite map_empty.
  pose proof (fun fd => FindAll_elem m ip port pr fd Hsz) as Hel. split.
  - intros E fd. apply map_lookup_filter_None. right. intros s Hs Hm.
    rewrite E in Hel. apply (not_elem_of_nil fd), Hel. eauto.
  - intros E. destruct (FindAllSocketsByDestination _ _ _ _ _) as [|t ts]; [done|].
    destruct (proj1 (Hel t) ltac:(by left)) as (s & Hs & Hm).
    specialize (E t). apply map_lookup_filter_None in E as [E|E]; [congruence|].
    by destruct (E s Hs).
Qed.
End routing_lemmas.

(** ** Properties of routing *)

Lemma RouteIncomingData_eq (RO : RegistryOrder) known_peer nm m a data n :
  (size (matching (m_sockets m) (pa_dest_ip a) (pa_dest_port a) (pa_protocol a)) <= 8)%nat ->
  RouteIncomingData known_peer nm m a data n =
  if IsLanModePort (pa_dest_port a) || known_peer (pa_source_ip a) then
    if bool_decide (matching (m_sockets m) (pa_dest_ip a) (pa_dest_port a) (pa_protocol a) = ∅)
    then (set_m_pending m (ring_push MaxPendingPackets (pending_write a data n) (m_pending m)), false)
    else (set_m_sockets m
            (deliver_if (pa_dest_ip a) (pa_dest_port a) (pa_protocol a)
               (fun s => ProxySocket_IncomingData s data n
                           (make_from_addr nm (pa_source_ip a) (pa_source_port a)))
             <$> m_sockets m), true)
  else (m, false).
Proof.
  intros Hsz. unfold RouteIncomingData.
  destruct (negb (IsLanModePort _) && _) eqn:Eg.
  { apply andb_true_iff in Eg as [->%negb_true_iff ->%negb_true_iff]. done. }
  assert (IsLanModePort (pa_dest_port a) || known_peer (pa_source_ip a) = true) as ->
    by (by destruct (IsLanModePort _), (known_peer _)).
  pose proof (fun fd => FindAll_elem m _ _ _ fd Hsz) as Hel.
  pose proof (FindAll_NoDup m (pa_dest_ip a) (pa_dest_port a) (pa_protocol a) kMaxSockets) as Hnd.
  rewrite <- (targets_empty m) by done.
  destruct (FindAllSocketsByDestination _ _ _ _ _) as [|t ts] eqn:Et; [done|].
  rewrite bool_decide_false by done. f_equal. rewrite update_sockets_other. f_equal.
  apply map_eq. intros fd. rewrite update_sockets_lookup by done. rewrite lookup_fmap.
  destruct (m_sockets m !! fd) as [s|] eqn:Es; simpl; [|by case_bool_decide].
  unfold deliver_if. destruct (dest_match _ _ _ s) eqn:Em.
  - rewrite bool_decide_true; [done|]. apply Hel. eauto.
  - rewrite bool_decide_false; [done|]. rewrite Hel. intros (? & ? & ?). congruence.
Qed.


(** Two consoles: 10.13.37.5 broadcasts from port 30000; two sockets of the
    receiver listen on it. *)
Definition two_listeners : ProxySocketManager :=
  set_m_sockets ProxySocketManager_init
    {[ 3 := (ProxySocket_Bind (ProxySocket_new 2 17)
              (mkSockAddrIn 16 2 (bswap16 30000) (bswap32 0x0A0D2507) (replicate 8 0))).1;
       4 := (ProxySocket_Bind (ProxySocket_new 2 17)
              (mkSockAddrIn 16 2 (bswap16 30000) 0 (replicate 8 0))).1;
       5 := (ProxySocket_Bind (ProxySocket_new 2 17)
              (mkSockAddrIn 16 2 (bswap16 30001) 0 (replicate 8 0))).1 ]}.


(** ** The pending ring *)
Definition pending_ok (p : PendingPacket) : Prop :=
  length (pp_data p) = PendingPayloadMax /\ 0 <= pp_len p <= 1400.

(** The packets waiting for a bind, oldest first. *)
Definition pending_queue (m : ProxySocketManager) : list PendingPacket :=
  ring_contents MaxPendingPackets (m_pending m).

Lemma pending_write_ok a data n p : pending_ok p -> pending_ok (pending_write a data n p).
Proof.
  intros [Hl Hr]. unfold pending_ok, pending_write, PendingPayloadMax in *; cbn [pp_data pp_len]. split.
  - destruct data as [d|]; [|done]. case_match; [|done].
    rewrite overwrite_length; [done|]. rewrite length_take. lia.
  - rewrite u16_id; word_lia.
Qed.

Definition for_port (port protocol : Z) (p : PendingPacket) : bool :=
  (pp_protocol p =? protocol) && (pp_dest_port p =? port).

(** The delivery of one pending packet to the socket just bound. *)
Definition deliver_one (nm : NetMap) (s : ProxySocket) (p : PendingPacket) : ProxySocket :=
  ProxySocket_IncomingData s (Some (take (Z.to_nat (pp_len p)) (pp_data p))) (Z.to_nat (pp_len p))
    (make_from_addr nm (pp_source_ip p) (pp_source_port p)).

(** [n] consecutive ring positions from offset [i]. *)
Definition segment (slots : list PendingPacket) (h i n : nat) : list PendingPacket :=
  (fun j => slots !!! ((h + j) mod MaxPendingPackets)%nat) <$> seq i n.

Lemma segment_contents slots h t n :
  ring_contents MaxPendingPackets (mkRing slots h t n) = segment slots h 0 n.
Proof. done. Qed.

Lemma segment_cons slots h i n :
  segment slots h i (S n) = slots !!! ((h + i) mod MaxPendingPackets)%nat :: segment slots h (S i) n.
Proof. done. Qed.

Lemma segment_snoc slots h i n :
  segment slots h i (n + 1) =
  segment slots h i n ++ [slots !!! ((h + (i + n)) mod MaxPendingPackets)%nat].
Proof. unfold segment. by rewrite seq_app, fmap_app. Qed.

(** A write outside a segment does not change it. *)
Lemma segment_insert slots h i n k x :
  (k < i \/ i + n <= k)%nat -> (k < MaxPendingPackets)%nat -> (i + n <= MaxPendingPackets)%nat ->
  segment (<[((h + k) mod MaxPendingPackets)%nat := x]> slots) h i n = segment slots h i n.
Proof.
  intros Hk Hkc Hin. unfold segment. apply list_fmap_ext. intros p j Hj.
  apply lookup_seq in Hj as [-> Hj]. rewrite !list_lookup_total_alt. f_equal.
  apply list_lookup_insert_ne. intros E. apply (mod_offset_inj MaxPendingPackets) in E; lia.
Qed.

Lemma insert_total_id (slots : list PendingPacket) i : <[i := slots !!! i]> slots = slots.
Proof.
  destruct (decide (i < length slots)%nat).
  - apply list_insert_id. by apply list_lookup_lookup_total_lt.
  - by apply list_insert_ge; lia.
Qed.

(** The loop keeps the packets of other ports, in order, and delivers the
    others, in order: [i] slots read, [k] of them kept, [rem] left. *)
Lemma deliver_loop_spec nm port pr rem : forall slots h i k s,
  length slots = MaxPendingPackets -> (k <= i)%nat -> (i + rem <= MaxPendingPackets)%nat ->
  exists slots' k',
    deliver_loop rem nm port pr slots ((h + i) mod MaxPendingPackets)
      ((h + k) mod MaxPendingPackets) k s
    = (slots', ((h + k') mod MaxPendingPackets)%nat, k',
       foldl (deliver_one nm) s (filter (for_port port pr) (segment slots h i rem))) /\
    length slots' = MaxPendingPackets /\ (k' <= i + rem)%nat /\
    segment slots' h 0 k' =
      segment slots h 0 k ++ filter (fun p => negb (for_port port pr p)) (segment slots h i rem) /\
    (Forall pending_ok slots -> Forall pending_ok slots').
Proof.
  assert (0 < MaxPendingPackets)%nat as Hpos by (unfold MaxPendingPackets; lia).
  induction rem as [|rem IH]; intros slots h i k s Hl Hk Hi.
  - exists slots, k. cbn. rewrite app_nil_r. split_and!; [done|done|lia|done|done].
  - cbn [deliver_loop]. rewrite segment_cons, Nat.Div0.add_mod_idemp_l, <- Nat.add_assoc, Nat.add_1_r.
    set (pkt := slots !!! ((h + i) mod MaxPendingPackets)%nat).
    fold (for_port port pr pkt). rewrite !filter_cons. destruct (for_port port pr pkt) eqn:Ep.
    + rewrite decide_True by done. rewrite decide_False by auto. cbn [foldl].
      destruct (IH slots h (S i) k (deliver_one nm s pkt)) as (sl' & k' & E & L & K & S' & F); [done|lia|lia|].
      exists sl', k'. split; [exact E|]. split_and!; [done|lia|done|done].
    + rewrite decide_False by auto. rewrite decide_True by done.
      rewrite Nat.Div0.add_mod_idemp_l, <- Nat.add_assoc, Nat.add_1_r.
      set (slots1 := <[((h + k) mod MaxPendingPackets)%nat := pkt]> slots).
      assert ((if negb (((h + k) mod MaxPendingPackets) =? ((h + i) mod MaxPendingPackets))%nat
               then slots1 else slots) = slots1) as ->.
      { destruct (_ =? _)%nat eqn:E; [|done]. apply Nat.eqb_eq in E. cbn [negb].
        unfold slots1, pkt. by rewrite E, insert_total_id. }
      assert (length slots1 = MaxPendingPackets) as Hl1 by (unfold slots1; by rewrite length_insert).
      destruct (IH slots1 h (S i) (S k) s) as (sl' & k' & E & L & K & S' & F); [done|lia|lia|].
      assert (segment slots1 h (S i) rem = segment slots h (S i) rem) as Eseg
        by (apply segment_insert; lia).
      exists sl', k'. rewrite Eseg in *. split; [exact E|]. split_and!; [done|lia| |].
      * rewrite S', <- Nat.add_1_r, segment_snoc, Nat.add_0_l. unfold slots1 at 2.
        rewrite list_lookup_total_insert_eq by (rewrite Hl; apply Nat.mod_upper_bound; lia).
        unfold slots1. rewrite segment_insert by lia. by rewrite <- app_assoc.
      * intros HF. apply F. unfold slots1. apply Forall_insert; [done|].
        unfold pkt. rewrite list_lookup_total_alt.
        destruct (lookup_lt_is_Some_2 slots ((h + i) mod MaxPendingPackets)) as [x Hx];
          [rewrite Hl; apply Nat.mod_upper_bound; lia|].
        rewrite Hx. eapply Forall_lookup_1; eauto.
Qed.

Lemma DeliverPendingPackets_eq nm m fd s port protocol :
  m_sockets m !! fd = Some s -> ring_ok MaxPendingPackets (m_pending m) ->
  let m' := DeliverPendingPackets nm m (Some fd) port protocol in
  pending_queue m' = filter (fun p => negb (for_port port protocol p)) (pending_queue m) /\
  m_sockets m' = <[fd := foldl (deliver_one nm) s (filter (for_port port protocol) (pending_queue m))]>
                   (m_sockets m) /\
  ring_ok MaxPendingPackets (m_pending m') /\
  m' = set_m_pending (set_m_sockets m (m_sockets m')) (m_pending m').
Proof.
  intros Hs Hr m'. unfold m', DeliverPendingPackets. simpl. rewrite Hs. simpl.
  destruct (r_count (m_pending m) =? 0)%nat eqn:Ec.
  { apply Nat.eqb_eq in Ec. unfold pending_queue, ring_contents. rewrite Ec. simpl.
    rewrite insert_id by done. by destruct m. }
  pose proof Hr as (Hp & Hl & Hh & Hn & Ht). set (r := m_pending m) in *.
  destruct (deliver_loop_spec nm port protocol (r_count r) (r_slots r) (r_head r) 0 0 s)
    as (slots' & k' & E & L & K & S' & _); [done|lia|lia|].
  rewrite Nat.add_0_r, Nat.mod_small in E by done. rewrite E. clear E.
  assert (pending_queue m = segment (r_slots r) (r_head r) 0 (r_count r)) as -> by done.
  split; [|split; [|split]].
  - unfold pending_queue, update_socket. sm_cbn. rewrite segment_contents, S'. done.
  - unfold update_socket. sm_cbn. apply map_eq. intros j.
    destruct (decide (j = fd)) as [->|]; [|by rewrite lookup_alter_ne, lookup_insert_ne].
    by rewrite lookup_alter_eq, lookup_insert_eq, Hs.
  - unfold update_socket. sm_cbn. split_and!; [done|done|done| |done].
    cbn [r_count]. lia.
  - unfold update_socket. by destruct m.
Qed.

(** delivery after a bind.  The packets kept for the bound port and
    protocol are given to the socket in their order of arrival and leave the
    ring; the packets of other ports stay, in order: the compaction in place of
    the circular buffer is a partition of the queue.  Nothing else changes, and
    the ring stays sound. *)
Theorem DeliverPendingPackets_spec nm m fd s port protocol :
  m_sockets m !! fd = Some s -> ring_ok MaxPendingPackets (m_pending m) ->
  let m' := DeliverPendingPackets nm m (Some fd) port protocol in
  pending_queue m' = filter (fun p => negb (for_port port protocol p)) (pending_queue m) /\
  m_sockets m' = <[fd := foldl (deliver_one nm) s (filter (for_port port protocol) (pending_queue m))]>
                   (m_sockets m) /\
  ring_ok MaxPendingPackets (m_pending m') /\
  m' = set_m_pending (set_m_sockets m (m_sockets m')) (m_pending m').
Proof. apply DeliverPendingPackets_eq. Qed.

Lemma DeliverPendingPackets_spec_witness :
  let a p := mkArgs 0x0A0D2505 7000 0x0A0D2507 p 17 in
  let route m p d := (RouteIncomingData (fun _ => true) NetMap_init m (a p) (Some d) (length d)).1 in
  let m := route (route (route two_listeners 5000 [1]) 6000 [2]) 5000 [3] in
  let m := (CreateProxySocket m 9 2 17).1 in
  let m' := DeliverPendingPackets NetMap_init m (Some 9) 5000 17 in
  (fun s => (rx_queue s).*2) <$> m_sockets m' !! 9 = Some [[1]; [3]] /\
  pp_dest_port <$> pending_queue m' = [6000].
Proof.
  intros a route m1 m m'.
  destruct (DeliverPendingPackets_spec NetMap_init m 9 (ProxySocket_new 2 17) 5000 17)
    as (H1 & H2 & _ & _); [vm_compute; reflexivity| |].
  { repeat split; vm_compute; lia. }
  unfold m'. rewrite H1, H2. split; vm_compute; reflexivity.
Defined.

(** ** The invariant of the manager *)
Definition mgr_inv (m : ProxySocketManager) : Prop :=
  (size (m_sockets m) <= MAX_PROXY_SOCKETS)%nat /\ map_Forall (fun _ s => ps_inv s) (m_sockets m) /\
  pool_inv (m_port_pool m) /\
  ring_ok MaxPendingPackets (m_pending m) /\ Forall pending_ok (r_slots (m_pending m)).

Inductive MgrOp : Set :=
| MCreate (fd type protocol : Z)
| MSocket (fd : Z) (op : PsOp)
| MClose (fd : Z)
| MCloseAll
| MReset
| MAllocate (protocol : Z)
| MReserve (port protocol : Z)
| MRelease (port protocol : Z)
| MSetCallbacks (s c r d : option Callback)
| MSetLocalIp (ip : Z)
| MData (known_peer : bool) (a : ProxyArgs) (data : option bytes) (n : nat)
| MConnectRequest (r : ProxyConnectInfo)
| MConnectResponse (r : ProxyConnectInfo)
| MDeliverPending (fd : option Z) (port protocol : Z).

(** ** The parts of the manager's operations keep the invariant *)
Lemma mgr_inv_sockets m f :
  mgr_inv m -> (size f <= MAX_PROXY_SOCKETS)%nat -> map_Forall (fun _ s => ps_inv s) f ->
  mgr_inv (set_m_sockets m f).
Proof. intros (_ & _ & ? & ? & ?) ??. by split_and!. Qed.

Lemma mgr_inv_update m fd f :
  mgr_inv m -> (forall s, ps_inv s -> ps_inv (f s)) -> mgr_inv (update_socket m fd f).
Proof.
  intros Hm Hf. pose proof Hm as (Hsz & Hs & _). apply mgr_inv_sockets; [done| |].
  - by rewrite <- size_dom, dom_alter_L, size_dom.
  - intros j s. destruct (decide (j = fd)) as [->|Hne].
    + rewrite lookup_alter_eq. intros (s0 & E & ->)%fmap_Some. symmetry in E. eauto.
    + rewrite lookup_alter_ne by done. apply Hs.
Qed.

Lemma mgr_inv_pool m p : mgr_inv m -> pool_inv p -> mgr_inv (set_m_port_pool m p).
Proof. intros (? & ? & _ & ? & ?) ?. by split_and!. Qed.

Lemma mgr_inv_targets f fds m :
  (forall s, ps_inv s -> ps_inv (f s)) -> mgr_inv m ->
  mgr_inv (foldl (fun m fd => update_socket m fd f) m fds).
Proof. intros Hf. revert m. induction fds; intros m Hm; [done|]. simpl. auto using mgr_inv_update. Qed.

Lemma mgr_inv_create m fd type protocol :
  mgr_inv m -> mgr_inv (CreateProxySocket m fd type protocol).1.
Proof.
  intros Hm. pose proof Hm as (Hsz & Hs & _). unfold CreateProxySocket.
  destruct (m_sockets m !! fd) eqn:E; [done|]. destruct (_ <=? _)%nat eqn:El; [done|].
  apply mgr_inv_sockets; [done| |].
  - rewrite map_size_insert_None by done. lia.
  - apply map_Forall_insert_2; [apply ps_inv_new|done].
Qed.

Lemma mgr_inv_allocate m protocol : mgr_inv m -> mgr_inv (Mgr_AllocatePort m protocol).1.
Proof.
  intros Hm. pose proof Hm as (_ & _ & Hp & _). unfold Mgr_AllocatePort.
  pose proof (AllocatePort_inv (m_port_pool m) protocol Hp).
  destruct (Pool_AllocatePort _ _). by apply mgr_inv_pool.
Qed.

Lemma mgr_inv_reserve m port protocol :
  is_u16 port -> mgr_inv m -> mgr_inv (Mgr_ReservePort m port protocol).1.
Proof.
  intros Hu Hm. pose proof Hm as (_ & _ & Hp & _). unfold Mgr_ReservePort.
  pose proof (AllocateSpecificPort_inv (m_port_pool m) port protocol Hu Hp).
  destruct (Pool_AllocateSpecificPort _ _ _). by apply mgr_inv_pool.
Qed.

Lemma mgr_inv_release m port protocol : mgr_inv m -> mgr_inv (Mgr_ReleasePort m port protocol).
Proof. intros Hm. pose proof Hm as (_ & _ & Hp & _). apply mgr_inv_pool; [done|]. by apply ReleasePort_inv. Qed.

Section manager_routing.
Context {RO : RegistryOrder}.
Variable nm : NetMap.
Lemma mgr_inv_data known m a data n :
  mgr_inv m -> mgr_inv (RouteIncomingData known nm m a data n).1.
Proof.
  intros Hm. unfold RouteIncomingData. destruct (_ && _); [done|].
  destruct (FindAllSocketsByDestination _ _ _ _ _) as [|t ts]; cbn [fst].
  - destruct Hm as (? & ? & ? & Hr & Hp). split_and!; try done; sm_cbn; [by apply ring_push_ok|].
    apply ring_push_slots; [|done]. intros. by apply pending_write_ok.
  - apply mgr_inv_targets; [|done]. intros s. apply (ps_inv_env_step s (EnvData data n _)).
Qed.

Lemma ps_inv_deliver l s : ps_inv s -> ps_inv (foldl (deliver_one nm) s l).
Proof.
  revert s; induction l as [|p l IH]; intros s Hs; [done|]. apply IH.
  apply (ps_inv_env_step s (EnvData _ _ _)). done.
Qed.

Lemma mgr_inv_deliver m fd port pr :
  mgr_inv m -> mgr_inv (DeliverPendingPackets nm m fd port pr).
Proof.
  intros Hm. pose proof Hm as (Hsz & Hs & Hp & Hr & Hsl). unfold DeliverPendingPackets.
  destruct fd as [fd|]; [|done]. simpl. destruct (m_sockets m !! fd) as [s|] eqn:Es; [|done]. simpl.
  destruct (r_count (m_pending m) =? 0)%nat; [done|]. destruct Hr as (? & Hl & Hh & Hn & _).
  destruct (deliver_loop_spec nm port pr (r_count (m_pending m)) (r_slots (m_pending m))
              (r_head (m_pending m)) 0 0 s)
    as (slots' & k' & E & L & K & _ & F); [done|lia|lia|].
  rewrite Nat.add_0_r, Nat.mod_small in E by done. rewrite E.
  apply mgr_inv_update.
  - split_and!; try done; sm_cbn; [|by apply F]. split_and!; try done. cbn [r_count]. lia.
  - intros _ _. apply ps_inv_deliver. eauto.
Qed.

End manager_routing.

Section manager_invariant.
Context {RO : RegistryOrder} {W : Type}.
Variable call_ctl : Callback -> ProxyArgs -> W -> W * bool.
Variable nm : NetMap.

Definition mgr_step (st : ProxySocketManager * W) (op : MgrOp) : ProxySocketManager * W :=
  let '(m, w) := st in
  match op with
  | MCreate fd type protocol => ((CreateProxySocket m fd type protocol).1, w)
  | MSocket fd op => (update_socket m fd (fun s => ps_step s op), w)
  | MClose fd => (CloseProxySocket call_ctl m fd w).1
  | MCloseAll => CloseAllProxySockets call_ctl m w
  | MReset => Mgr_Reset call_ctl m w
  | MAllocate protocol => ((Mgr_AllocatePort m protocol).1, w)
  | MReserve port protocol => ((Mgr_ReservePort m (u16 port) protocol).1, w)
  | MRelease port protocol => (Mgr_ReleasePort m port protocol, w)
  | MSetCallbacks s c r d =>
      (SetProxyDisconnectCallback (SetProxyConnectReplyCallback
         (SetProxyConnectCallback (SetSendCallback m s) c) r) d, w)
  | MSetLocalIp ip => (Mgr_SetLocalIp m ip, w)
  | MData known a data n => ((RouteIncomingData (fun _ => known) nm m a data n).1, w)
  | MConnectRequest r => (RouteConnectRequest call_ctl m r w).1
  | MConnectResponse r => ((RouteConnectResponse m r).1, w)
  | MDeliverPending fd port protocol => (DeliverPendingPackets nm m fd port protocol, w)
  end.

Lemma mgr_inv_close m fd w : mgr_inv m -> mgr_inv (CloseProxySocket call_ctl m fd w).1.1.
Proof.
  intros Hm. pose proof Hm as (Hsz & Hs & Hp & _). unfold CloseProxySocket.
  destruct (m_sockets m !! fd) as [s|] eqn:E; [|done]. cbn [fst]. apply mgr_inv_sockets.
  - case_match; [|done]. apply mgr_inv_pool; [done|]. by apply ReleasePort_inv.
  - assert (m_sockets (if negb (SockAddrIn_GetPort (m_local_addr s) =? 0)
            then set_m_port_pool m (Pool_ReleasePort (m_port_pool m)
                   (SockAddrIn_GetPort (m_local_addr s)) (m_protocol s)) else m)
          = m_sockets m) as -> by (by case_match).
    rewrite map_size_delete_Some by (by eexists). lia.
  - apply map_Forall_delete. by case_match.
Qed.

Lemma mgr_inv_step st op : mgr_inv st.1 -> mgr_inv (mgr_step st op).1.
Proof.
  destruct st as [m w]. cbn [fst]. intros Hm. pose proof Hm as (Hsz & Hs & Hp & Hr & Hsl).
  destruct op; cbn [mgr_step].
  - cbn [fst]. by apply mgr_inv_create.
  - cbn [fst]. apply mgr_inv_update; [done|]. intros. by apply ps_inv_step.
  - by apply mgr_inv_close.
  - unfold CloseAllProxySockets, close_all. cbn [fst].
    apply mgr_inv_pool; [|apply pool_init_inv]. apply mgr_inv_sockets; [done| |].
    + rewrite map_size_empty. lia.
    + apply map_Forall_empty.
  - unfold Mgr_Reset, close_all. cbn [fst]. split_and!; sm_cbn.
    + rewrite map_size_empty. lia.
    + apply map_Forall_empty.
    + apply pool_init_inv.
    + by apply ring_reset_ok.
    + done.
  - pose proof (mgr_inv_allocate m protocol Hm) as H. destruct (Mgr_AllocatePort m protocol). exact H.
  - cbn [fst]. apply mgr_inv_reserve; [apply u16_range|done].
  - cbn [fst]. by apply mgr_inv_release.
  - done.
  - done.
  - by apply mgr_inv_data.
  - unfold RouteConnectRequest. destruct (filter _ _) as [|[fd s] l] eqn:E; [done|].
    assert (ps_inv s) as Hps.
    { assert ((fd, s) ∈ filter (fun p => connect_request_match r p.2)
                (registry_iter (m_sockets m))) as Hin by (rewrite E; left).
      apply list_elem_of_filter in Hin as [_ Hin]. apply registry_iter_lookup in Hin. eauto. }
    pose proof (ps_inv_connection s r Hps) as Hc.
    destruct (ProxySocket_IncomingConnection s r) as [s' [a|]]; by apply mgr_inv_update.
  - unfold RouteConnectResponse. destruct (filter _ _) as [|[fd s] l]; [done|]. cbn [fst].
    apply mgr_inv_update; [done|]. intros s'. apply (ps_inv_env_step s' (EnvResponse r)).
  - by apply mgr_inv_deliver.
Qed.

Lemma mgr_inv_run ops : forall st, mgr_inv st.1 -> mgr_inv (foldl mgr_step st ops).1.
Proof. induction ops; intros st Hst; simpl; auto using mgr_inv_step. Qed.
End manager_invariant.

(** What [CreateProxySocket] leaves: the socket, or the manager as it was. *)
Lemma create_lookup m fd type protocol :
  let '(m', p) := CreateProxySocket m fd type protocol in
  match p with
  | Some fd' => fd' = fd /\ is_Some (m_sockets m' !! fd)
  | None => m' = m
  end.
Proof.
  unfold CreateProxySocket. destruct (m_sockets m !! fd) eqn:E; [split; [done|by eexists]|].
  destruct (_ <=? _)%nat; [done|]. split; [done|]. sm_cbn. rewrite lookup_insert_eq. by eexists.
Qed.

Lemma mgr_inv_init : mgr_inv ProxySocketManager_init.
Proof.
  split_and!; [vm_compute; lia|apply map_Forall_empty|apply pool_init_inv| |].
  - repeat split; vm_compute; lia.
  - apply Forall_replicate. split; [apply length_replicate|simpl; lia].
Qed.

(** the invariant of the socket registry.  After any history of calls on
    the manager and on its sockets, from any thread, there are at most 64
    sockets, each satisfies the class invariant, the port pool's bitsets and
    hints are in range, and the pending ring is sound with no slot above its
    1400-byte buffer. *)
Theorem ProxySocketManager_invariant (RO : RegistryOrder) W
    (call_ctl : Callback -> ProxyArgs -> W -> W * bool) nm w ops :
  mgr_inv (foldl (mgr_step call_ctl nm) (ProxySocketManager_init, w) ops).1.
Proof. apply mgr_inv_run, mgr_inv_init. Qed.

(** ** One datagram from console to console *)

(** The source address a receiver sees is the sender's own. *)
Lemma make_from_addr_spec nm addr :
  NetMap_reachable nm -> SockAddrIn_wf addr ->
  make_from_addr nm (SockAddrIn_GetAddr addr) (SockAddrIn_GetPort addr) =
  mkSockAddrIn 16 AddressFamily_Inet (sin_port addr) (sin_addr addr) (replicate 8 0).
Proof.
  intros Hnm (_ & _ & Hp & Ha & _). unfold make_from_addr, VirtualToGame.
  rewrite (NetMap_off nm Hnm). cbn [negb]. unfold SockAddrIn_SetAddr, SockAddrIn_GetAddr,
    SockAddrIn_GetPort, IpV4_Network, IpV4_FromNumeric; cbn [m_numeric].
  destruct (IsLanModePort _); by autorewrite with slp_rw.
Qed.

(** a datagram crosses.  What a socket of console A sends to the address a
    socket of console B is bound to, routed by B's manager with the arguments
    A's socket produced, is what B's next receive returns: the payload, cut to
    the buffer, and as source exactly the address and port A's socket is bound
    to, in network byte order, so that a reply to it goes back to A. *)
Theorem SendTo_RouteIncomingData_RecvFrom (RO : RegistryOrder) nmA nmB known_peer
    (sA : ProxySocket) (m : ProxySocketManager) fd (sB : ProxySocket) d dest n flags wait args :
  NetMap_reachable nmA -> NetMap_reachable nmB -> SockAddrIn_wf (m_local_addr sA) ->
  (ProxySocket_SendTo (fun a b _ => (Some (a, b), true)) nmA sA (Some d) (length d) dest None).1
    = Some (args, d) ->
  known_peer (SockAddrIn_GetAddr (m_local_addr sA)) = true ->
  m_sockets m !! fd = Some sB -> ps_inv sB -> rx_queue sB = [] ->
  m_shutdown_read sB = false ->
  dest_match (SockAddrIn_GetAddr dest) (SockAddrIn_GetPort dest) (m_protocol sA) sB = true ->
  (size (matching (m_sockets m) (SockAddrIn_GetAddr dest) (SockAddrIn_GetPort dest)
           (m_protocol sA)) <= 8)%nat ->
  exists s', m_sockets (RouteIncomingData known_peer nmB m args (Some d) (length d)).1 !! fd = Some s' /\
  (ProxySocket_RecvFrom wait s' true n flags true).2 =
    mkRecv (Z.of_nat (Nat.min n (length d))) (take n d)
      (Some (mkSockAddrIn 16 AddressFamily_Inet (sin_port (m_local_addr sA))
               (sin_addr (m_local_addr sA)) (replicate 8 0))).
Proof.
  intros HnA HnB Hwf Hsend Hkp HfdB HB Hq Hsr Hmatch Hsz.
  rewrite SendTo_eq in Hsend by done.
  destruct (sendable sA (Some d) (length d)) eqn:Esend; [|done].
  injection Hsend as <-.
  assert (length d <= 2000)%nat as Hlen.
  { unfold sendable in Esend. apply andb_true_iff in Esend as [_ H]. lia. }
  set (from := make_from_addr nmB (SockAddrIn_GetAddr (m_local_addr sA))
                 (SockAddrIn_GetPort (m_local_addr sA))).
  exists (ProxySocket_IncomingData sB (Some d) (length d) from). split.
  - rewrite RouteIncomingData_eq by done. cbn [pa_source_ip pa_dest_port pa_dest_ip pa_protocol].
    rewrite Hkp, orb_true_r. rewrite bool_decide_false.
    + cbn [fst]. sm_cbn. rewrite lookup_fmap, HfdB. simpl. unfold deliver_if. by rewrite Hmatch.
    + unfold matching. rewrite map_empty. intros E. specialize (E fd).
      apply map_lookup_filter_None in E as [E|E]; [congruence|]. by destruct (E sB HfdB).
  - destruct HB as (Hrx & _). pose proof (rx_queue_incoming sB d from Hrx) as Hqueue.
    rewrite Hq in Hqueue. cbn -[take] in Hqueue. rewrite take_ge in Hqueue
      by (unfold PROXY_SOCKET_MAX_PAYLOAD; lia).
    pose proof (rx_ok_incoming sB (Some d) (length d) from Hrx) as Hok.
    rewrite (RecvFrom_queued wait _ n flags true from d []) by done. cbn [snd].
    unfold from. by rewrite make_from_addr_spec.
Qed.

Definition witness_addr (ip port : Z) : SockAddrIn :=
  mkSockAddrIn 16 2 (bswap16 port) (bswap32 ip) (replicate 8 0).

Lemma SendTo_RouteIncomingData_RecvFrom_witness :
  let sA := (ProxySocket_Bind (ProxySocket_new 2 17) (witness_addr 0x0A0D2505 7000)).1 in
  let sB := (ProxySocket_Bind (ProxySocket_new 2 17) (witness_addr 0x0A0D2507 9000)).1 in
  let m := set_m_sockets ProxySocketManager_init {[ 3 := sB ]} in
  exists s', m_sockets (RouteIncomingData (fun _ => true) NetMap_init m
               (mkArgs 0x0A0D2505 7000 0x0A0D2507 9000 17) (Some [7; 8; 9]) 3).1 !! 3 = Some s' /\
  (ProxySocket_RecvFrom no_wait s' true 2 0 true).2
    = mkRecv 2 [7; 8] (Some (witness_addr 0x0A0D2505 7000)).
Proof.
  intros sA sB m.
  apply (SendTo_RouteIncomingData_RecvFrom key_order NetMap_init NetMap_init (fun _ => true) sA m 3 sB
           [7; 8; 9] (witness_addr 0x0A0D2507 9000) 2 0 no_wait).
  - apply NetMap_start.
  - apply NetMap_start.
  - repeat split; try (vm_compute; lia); try (vm_compute; discriminate).
    repeat constructor; vm_compute; discriminate.
  - vm_compute. reflexivity.
  - reflexivity.
  - reflexivity.
  - apply (ps_inv_run (ProxySocket_new 2 17) [PsBind (witness_addr 0x0A0D2507 9000)]), ps_inv_new.
  - reflexivity.
  - reflexivity.
  - vm_compute. reflexivity.
  - vm_compute. lia.
Defined.

(** closing a socket.  The descriptor leaves the registry and no other
    entry changes; its local port, if it is an ephemeral one, is free again in
    its protocol and no other port's state changes; a disconnect reaches the
    network only for a TCP socket with a peer; and closing it again fails. *)
Theorem CloseProxySocket_spec W (call_ctl : Callback -> ProxyArgs -> W -> W * bool) m fd s w :
  m_sockets m !! fd = Some s -> SockAddrIn_wf (m_local_addr s) ->
  let port := SockAddrIn_GetPort (m_local_addr s) in
  let '(m', w', r) := CloseProxySocket call_ctl m fd w in
  r = true /\ m_sockets m' = delete fd (m_sockets m) /\
  Pool_IsPortAllocated (m_port_pool m') port (m_protocol s) = false /\
  (forall q pr, is_u16 q -> (q <> port \/ is_tcp pr <> is_tcp (m_protocol s)) ->
     Pool_IsPortAllocated (m_port_pool m') q pr = Pool_IsPortAllocated (m_port_pool m) q pr) /\
  (m_protocol s <> ProtocolType_Tcp \/ sin_port (m_remote_addr s) = 0 -> w' = w) /\
  CloseProxySocket call_ctl m' fd w' = (m', w', false).
Proof.
  intros Hs Hwf port. unfold CloseProxySocket at 1. rewrite Hs. fold port.
  set (m1 := if negb (port =? 0) then _ else m).
  assert (m_sockets m1 = m_sockets m) as E1 by (unfold m1; by case_match).
  split; [done|]. split; [by sm_cbn; rewrite E1|].
  assert (m_port_pool (set_m_sockets m1 (delete fd (m_sockets m1))) =
          Pool_ReleasePort (m_port_pool m) port (m_protocol s)) as E2.
  { sm_cbn. unfold m1. destruct (Z.eqb_spec port 0) as [E0|]; [|done]. by rewrite E0. }
  rewrite E2. split; [apply IsPortAllocated_release_eq|].
  split; [intros; by apply IsPortAllocated_release_ne|]. split.
  - intros Hno. unfold close_socket, ProxySocket_Close. cbn [snd]. ps_cbn.
    destruct Hno as [Hne|Hne].
    + by rewrite (proj2 (Z.eqb_neq _ _) Hne).
    + unfold SockAddrIn_GetPort. rewrite Hne. by rewrite andb_false_r.
  - unfold CloseProxySocket. sm_cbn. by rewrite lookup_delete_eq.
Qed.

Lemma CloseProxySocket_spec_witness :
  let s := (ProxySocket_Bind (ProxySocket_new 2 17) (witness_addr 0x0A0D2507 50000)).1 in
  let m := set_m_port_pool (set_m_sockets ProxySocketManager_init {[ 3 := s ]})
             (Pool_AllocateSpecificPort EphemeralPortPool_init 50000 17).1 in
  Pool_IsPortAllocated (m_port_pool m) 50000 17 = true /\
  Pool_IsPortAllocated (m_port_pool (CloseProxySocket (fun _ _ w => (w, true)) m 3 tt).1.1) 50000 17
  = false.
Proof.
  intros s m. split; [vm_compute; reflexivity|].
  assert (SockAddrIn_wf (m_local_addr s)) as Hwf.
  { repeat split; try (vm_compute; lia); try (vm_compute; discriminate).
    repeat constructor; vm_compute; discriminate. }
  pose proof (CloseProxySocket_spec unit (fun _ _ w => (w, true)) m 3 s tt eq_refl Hwf) as H.
  destruct (CloseProxySocket _ m 3 tt) as [[m' w'] r]. destruct H as (_ & _ & H & _). exact H.
Defined.
