(* ===== verification/GlobalHeap.v ===== *)
(** The heap of the module (namespace heap of main.cpp): its creation on first
    use under double-checked locking, as an interleaving of the threads that
    allocate, and its size against the proxy sockets it has to hold. *)
From S2P Require Import Prelude Ring ProxySocket SocketManager.

(** ** The creation of the heap *)

(** Where a thread is in [GetHeapHandle]: the test without the lock, the lock,
    the test under it, the stores of the handle and of the flag, the unlock and
    the final read.  A handle is the number of the [CreateExpHeap] call that
    made it, [None] the null handle. *)
Inductive HeapPc : Set :=
| PcCheck | PcLock | PcRecheck | PcCreate | PcSetFlag | PcUnlock | PcRead
| PcReturned (handle : option nat).

Record HeapGlobals : Set := mkHeapGlobals {
  g_heap_handle : option nat;
  g_heap_initialized : bool;
  g_heap_init_mutex : option nat;
  heaps_created : nat;
}.
Definition heap_constinit : HeapGlobals := mkHeapGlobals None false None 0.

(** One step of thread [tid]; [None] when it waits for the lock or has returned.
    [ordered]: the other threads see the stores of the handle and of the flag in
    the order of the source. *)
Definition GetHeapHandle_step (ordered : bool) (tid : nat) (pc : HeapPc) (g : HeapGlobals)
    : option (HeapPc * HeapGlobals) :=
  let '(mkHeapGlobals handle flag mutex created) := g in
  match pc with
  | PcCheck => Some (if flag then PcRead else PcLock, g)
  | PcLock =>
      match mutex with
      | None => Some (PcRecheck, mkHeapGlobals handle flag (Some tid) created)
      | Some _ => None
      end
  | PcRecheck => Some (if flag then PcUnlock else PcCreate, g)
  | PcCreate =>
      Some (PcSetFlag, if ordered then mkHeapGlobals (Some created) flag mutex (S created)
                       else mkHeapGlobals handle true mutex (S created))
  | PcSetFlag =>
      Some (PcUnlock, if ordered then mkHeapGlobals handle true mutex created
                      else mkHeapGlobals (Some (pred created)) flag mutex created)
  | PcUnlock => Some (PcRead, mkHeapGlobals handle flag None created)
  | PcRead => Some (PcReturned handle, g)
  | PcReturned _ => None
  end.

(** The threads under a schedule: a thread that cannot move stays. *)
Definition heap_move (ordered : bool) (s : list HeapPc * HeapGlobals) (tid : nat)
    : list HeapPc * HeapGlobals :=
  match s.1 !! tid with
  | None => s
  | Some pc =>
      match GetHeapHandle_step ordered tid pc s.2 with
      | None => s
      | Some (pc', g) => (<[tid := pc']> s.1, g)
      end
  end.
Definition heap_run (ordered : bool) : list nat -> list HeapPc * HeapGlobals -> list HeapPc * HeapGlobals :=
  flip (foldl (heap_move ordered)).
Definition heap_start (n : nat) : list HeapPc * HeapGlobals := (replicate n PcCheck, heap_constinit).

(** The threads that hold the lock. *)
Definition holds (pc : HeapPc) : bool :=
  match pc with PcRecheck | PcCreate | PcSetFlag | PcUnlock => true | _ => false end.

(** What a place says of the handle and the flag. *)
Definition heap_place (h : option nat) (flag : bool) (pc : HeapPc) : Prop :=
  match pc with
  | PcCheck | PcLock => True
  | PcRecheck => flag = false -> h = None
  | PcCreate => h = None /\ flag = false
  | PcSetFlag => h = Some 0%nat
  | PcUnlock | PcRead => flag = true
  | PcReturned r => flag = true /\ r = Some 0%nat
  end.
Record heap_inv (s : list HeapPc * HeapGlobals) : Prop := {
  hi_lock : forall i pc, s.1 !! i = Some pc -> holds pc = true <-> g_heap_init_mutex s.2 = Some i;
  hi_range : forall i, g_heap_init_mutex s.2 = Some i -> (i < length s.1)%nat;
  hi_place : forall i pc, s.1 !! i = Some pc -> heap_place (g_heap_handle s.2) (g_heap_initialized s.2) pc;
  hi_flag : g_heap_initialized s.2 = true -> g_heap_handle s.2 = Some 0%nat;
  hi_free : g_heap_init_mutex s.2 = None -> g_heap_initialized s.2 = false -> g_heap_handle s.2 = None;
  hi_made : heaps_created s.2 = match g_heap_handle s.2 with Some _ => 1%nat | None => 0%nat end;
}.

Lemma heap_start_inv n : heap_inv (heap_start n).
Proof.
  assert (forall i pc, replicate n PcCheck !! i = Some pc -> pc = PcCheck) as H
    by (intros i pc Hi; by apply lookup_replicate in Hi as [-> _]).
  constructor; cbn; try done; by intros i pc ->%H.
Qed.

(** A thread that does not hold the lock sees the flag set once and for all. *)
Lemma heap_place_mono h flag h' flag' pc :
  holds pc = false -> (flag = true -> flag' = true) -> heap_place h flag pc -> heap_place h' flag' pc.
Proof. destruct pc; cbn; try done; naive_solver. Qed.

(** A step of thread [tid] keeps the invariant if it keeps it for that thread,
    and changes the globals only when it holds the lock. *)
Lemma heap_inv_step pcs g tid pc pc' g' :
  heap_inv (pcs, g) -> pcs !! tid = Some pc ->
  (holds pc' = true <-> g_heap_init_mutex g' = Some tid) ->
  (g_heap_init_mutex g' = g_heap_init_mutex g \/
   (g_heap_init_mutex g = None \/ g_heap_init_mutex g = Some tid) /\
   (g_heap_init_mutex g' = None \/ g_heap_init_mutex g' = Some tid)) ->
  (g_heap_handle g' = g_heap_handle g /\ g_heap_initialized g' = g_heap_initialized g \/
   holds pc = true /\ (g_heap_initialized g = true -> g_heap_initialized g' = true)) ->
  heap_place (g_heap_handle g') (g_heap_initialized g') pc' ->
  (g_heap_initialized g' = true -> g_heap_handle g' = Some 0%nat) ->
  (g_heap_init_mutex g' = None -> g_heap_initialized g' = false -> g_heap_handle g' = None) ->
  heaps_created g' = match g_heap_handle g' with Some _ => 1%nat | None => 0%nat end ->
  heap_inv (<[tid := pc']> pcs, g').
Proof.
  intros [L R P F Fr M] Ht Hl Hm Hg Hp HF HFr HM. cbn [fst snd] in *.
  pose proof (lookup_lt_Some _ _ _ Ht) as Hlt.
  constructor; cbn [fst snd]; try done.
  - intros i q Hi. destruct (decide (i = tid)) as [->|Hne].
    + rewrite list_lookup_insert_eq in Hi by done. by injection Hi as <-.
    + rewrite list_lookup_insert_ne in Hi by done. rewrite (L i q Hi). naive_solver congruence.
  - intros i Hi. rewrite length_insert. destruct Hm as [E|[_ [E|E]]]; rewrite E in Hi; [by apply R|done|].
    by injection Hi as <-.
  - intros i q Hi. destruct (decide (i = tid)) as [->|Hne].
    + rewrite list_lookup_insert_eq in Hi by done. by injection Hi as <-.
    + rewrite list_lookup_insert_ne in Hi by done. destruct Hg as [[-> ->]|[Ho Hf]]; [by eapply P|].
      apply (heap_place_mono (g_heap_handle g) (g_heap_initialized g)); [|done|by eapply P].
      destruct (holds q) eqn:Eq; [|done]. apply (L i q Hi) in Eq. apply (L tid pc Ht) in Ho. congruence.
Qed.

Lemma heap_move_inv s tid : heap_inv s -> heap_inv (heap_move true s tid).
Proof.
  intros H. unfold heap_move. destruct (s.1 !! tid) as [pc|] eqn:Ht; [|done].
  destruct (GetHeapHandle_step true tid pc s.2) as [[pc' g']|] eqn:E; [|done].
  pose proof (hi_lock s H tid pc Ht) as Hl. pose proof (hi_place s H tid pc Ht) as Hp.
  pose proof (hi_flag s H) as HF. pose proof (hi_free s H) as HFr. pose proof (hi_made s H) as HM.
  destruct s as [pcs g]. cbn [fst snd] in *. apply (heap_inv_step pcs g tid pc pc' g' H Ht);
    clear H Ht; destruct g as [h fl mu cr], pc; cbn in *; try destruct fl; try destruct mu; try done;
    injection E as <- <-; cbn; naive_solver.
Qed.

Lemma heap_run_inv sched : forall s, heap_inv s -> heap_inv (heap_run true sched s).
Proof. induction sched as [|t l IH]; intros s H; [done|]. by apply IH, heap_move_inv. Qed.

(** *** Every thread gets through *)
Definition steps_left (pc : HeapPc) : nat :=
  match pc with
  | PcCheck => 7 | PcLock => 6 | PcRecheck => 5 | PcCreate => 4 | PcSetFlag => 3 | PcUnlock => 2
  | PcRead => 1 | PcReturned _ => 0
  end.
Definition heap_work (s : list HeapPc * HeapGlobals) : nat := sum_list_with steps_left s.1.

Lemma sum_list_insert {A} (f : A -> nat) l i x y :
  l !! i = Some x -> (sum_list_with f (<[i:=y]> l) + f x = sum_list_with f l + f y)%nat.
Proof.
  revert i. induction l as [|z l IH]; intros [|i] H; [done..| |]; cbn in *.
  - injection H as ->. lia.
  - rewrite <- !Nat.add_assoc. f_equal. exact (IH i H).
Qed.

Lemma heap_step_work o tid pc pc' g g' :
  GetHeapHandle_step o tid pc g = Some (pc', g') -> (steps_left pc' < steps_left pc)%nat.
Proof. destruct g as [h fl mu cr], pc; cbn; try (destruct mu); try destruct fl; intros [= <- _]; cbn; lia. Qed.

Lemma heap_move_work o s tid :
  heap_move o s tid = s \/ (heap_work (heap_move o s tid) < heap_work s)%nat.
Proof.
  unfold heap_move. destruct (s.1 !! tid) as [pc|] eqn:Ht; [|by left].
  destruct (GetHeapHandle_step o tid pc s.2) as [[pc' g]|] eqn:E; [right|by left].
  apply heap_step_work in E. unfold heap_work. cbn [fst].
  pose proof (sum_list_insert steps_left s.1 tid pc pc' Ht). lia.
Qed.

Lemma heap_run_work o sched : forall s,
  (heap_work (heap_run o sched s) < heap_work s)%nat \/
  heap_run o sched s = s /\ forall tid, tid ∈ sched -> heap_move o s tid = s.
Proof.
  induction sched as [|t sched IH]; intros s; [right; split; [done|]; by intros t ?%elem_of_nil|].
  change (heap_run o (t :: sched) s) with (heap_run o sched (heap_move o s t)).
  destruct (heap_move_work o s t) as [E|Hw].
  - rewrite E. destruct (IH s) as [?|[-> Hq]]; [by left|right]. split; [done|].
    intros tid [->|Hin]%elem_of_cons; auto.
  - left. destruct (IH (heap_move o s t)) as [?|[-> _]]; lia.
Qed.

Definition all_returned (s : list HeapPc * HeapGlobals) : Prop :=
  forall i pc, s.1 !! i = Some pc -> pc = PcReturned (Some 0%nat).

(** Nobody waits for a lock that nobody gives back. *)
Lemma heap_no_deadlock s :
  heap_inv s -> all_returned s \/ exists tid, (tid < length s.1)%nat /\ heap_move true s tid <> s.
Proof.
  intros H. destruct (decide (Forall (fun pc => steps_left pc = 0%nat) s.1)) as [Hf|Hf].
  { left. intros i pc Hi. pose proof (Forall_lookup_1 _ _ _ _ Hf Hi) as Hz.
    pose proof (hi_place s H i pc Hi) as Hp. destruct pc; try done. by destruct Hp as [_ ->]. }
  right. assert (exists tid pc, s.1 !! tid = Some pc /\ steps_left pc <> 0%nat /\
    (holds pc = true \/ g_heap_init_mutex s.2 = None)) as (tid & pc & Ht & Hn & Hm).
  { destruct (g_heap_init_mutex s.2) as [o|] eqn:Em.
    - pose proof (hi_range s H o Em) as Hr. apply lookup_lt_is_Some in Hr as [pc Ho].
      pose proof (proj2 (hi_lock s H o pc Ho) Em) as Hh. exists o, pc.
      split; [done|]. split; [|by left]. by destruct pc.
    - apply not_Forall_Exists in Hf; [|intros x; apply _]. apply Exists_exists in Hf as (pc & Hin & Hn).
      apply list_elem_of_In, list_elem_of_lookup in Hin as [i Hi]. exists i, pc. split; [done|]. split; [done|by right]. }
  exists tid. split; [by eapply lookup_lt_Some|]. unfold heap_move. rewrite Ht.
  destruct (GetHeapHandle_step true tid pc s.2) as [[pc' g]|] eqn:E.
  - intros Heq. apply heap_step_work in E. apply (f_equal (fun s => s.1 !! tid)) in Heq. cbn [fst] in Heq.
    rewrite list_lookup_insert_eq, Ht in Heq by (by eapply lookup_lt_Some). injection Heq as ->. lia.
  - destruct s as [pcs [h fl mu cr]], pc; cbn in *; try done; destruct Hm as [?|Hm]; try done; by rewrite Hm in E.
Qed.

Lemma heap_run_length o sched : forall s, length (heap_run o sched s).1 = length s.1.
Proof.
  induction sched as [|t l IH]; intros s; [done|].
  change (heap_run o (t :: l) s) with (heap_run o l (heap_move o s t)). rewrite IH. unfold heap_move.
  destruct (s.1 !! t); [|done]. destruct (GetHeapHandle_step _ _ _ _) as [[pc' g]|]; [|done].
  apply length_insert.
Qed.

Lemma heap_rounds rounds : forall s,
  heap_inv s -> Forall (fun r => forall tid, (tid < length s.1)%nat -> tid ∈ r) rounds ->
  (heap_work s <= length rounds)%nat -> all_returned (heap_run true (concat rounds) s).
Proof.
  induction rounds as [|r rounds IH]; intros s H Hr Hw.
  - destruct (heap_no_deadlock s H) as [Hd|(tid & _ & Hm)]; [exact Hd|].
    destruct (heap_move_work true s tid) as [?|?]; [done|]. cbn in Hw. lia.
  - apply Forall_cons_1 in Hr as [Hr Hrs]. cbn [concat length] in *. unfold heap_run, flip. rewrite foldl_app.
    change (foldl (heap_move true) s r) with (heap_run true r s).
    apply IH; [by apply heap_run_inv|by rewrite heap_run_length|].
    destruct (heap_run_work true r s) as [?|[-> Hq]]; [lia|].
    destruct (heap_no_deadlock s H) as [Hd|(tid & Ht & Hm)]; [|by rewrite (Hq tid (Hr tid Ht)) in Hm].
    assert (heap_work s = 0%nat) as ->; [|lia].
    assert (Forall (fun pc => pc = PcReturned (Some 0%nat)) s.1) as Hf by (by apply Forall_lookup_2).
    unfold heap_work. clear -Hf. induction Hf as [|? ? -> _ IHf]; [done|exact IHf].
Qed.


(** The two stores have to be seen in their order: otherwise a thread that
    skips the lock between them takes the null handle. *)
Lemma heap_reordered_null :
  (heap_run false [0; 0; 0; 0; 1; 1]%nat (heap_start 2)).1 !! 1%nat = Some (PcReturned None).
Proof. reflexivity. Qed.


(** ** Its size *)

Definition heap_bytes : Z := 512 * 1024.
(** [from], [len], [_pad], [data]. *)
Definition sizeof_ReceivedPacket : Z := 16 + 2 + 2 + Z.of_nat PROXY_SOCKET_MAX_PAYLOAD.
(** What the receive rings of the sockets take, which live in the sockets. *)
Definition rings_bytes (m : ProxySocketManager) : Z :=
  Z.of_nat (size (m_sockets m)) * (Z.of_nat PROXY_SOCKET_MAX_QUEUE_SIZE * sizeof_ReceivedPacket).

(** The manager stops at 64 sockets, but the heap holds eight: the ninth is
    still created, by an allocation that cannot succeed and is not checked. *)
Lemma ninth_socket_exceeds_heap m fd type protocol :
  size (m_sockets m) = 8%nat -> m_sockets m !! fd = None ->
  let '(m', r) := CreateProxySocket m fd type protocol in
  r = Some fd /\ rings_bytes m <= heap_bytes /\ heap_bytes < rings_bytes m'.
Proof.
  intros Hs Hf. unfold CreateProxySocket. rewrite Hf, Hs. cbn. unfold rings_bytes. cbn [m_sockets set_m_sockets].
  rewrite map_size_insert_None, Hs by done.
  assert (Z.of_nat PROXY_SOCKET_MAX_QUEUE_SIZE * sizeof_ReceivedPacket = 64640) as -> by reflexivity.
  assert (heap_bytes = 524288) as -> by reflexivity. split; [done|lia].
Qed.
