(* ===== verification/BsdMitm.v ===== *)
(** The bsd:u interception service (bsd/bsd_mitm_service.hpp/.cpp): which
    sessions of a game are intercepted, what is remembered of its sockets, and
    every command, served by a proxy socket or forwarded to the real service.

    The real bsd:u session is the parameter [fwd]: a request is answered by a
    result code, the raw reply words and the contents of the out buffers.  A
    reply of ours is of the same form: word 0 is the first out parameter of the
    command, word 1 the second.  A blocking receive or connect takes what other
    threads do to its socket meanwhile ([wait]). *)
From stdpp Require Import list.
From S2P Require Import Prelude Bytes IpAddr PortPool Ring ProxySocket SocketManager.

(** ** Data *)
Record SocketInfo : Set := mkInfo {
  si_type : Z;
  si_protocol : Z;
  si_is_proxy : bool;
  si_broadcast : bool;
  si_session_id : Z;
}.
Definition set_is_proxy (i : SocketInfo) : SocketInfo :=
  mkInfo (si_type i) (si_protocol i) true (si_broadcast i) (si_session_id i).
Definition set_broadcast (b : bool) (i : SocketInfo) : SocketInfo :=
  mkInfo (si_type i) (si_protocol i) (si_is_proxy i) b (si_session_id i).

(** An intercepted session; [m_forward_service] is the handle of the real one. *)
Record BsdMitmService : Set := mkService {
  m_forward_service : Z;
  m_client_pid : Z;
  m_command_count : Z;
  m_session_id : Z;
  m_registered : bool;
  m_mode : Z;
  m_entered_local_network_mode : bool;
}.
Definition count_command (v : BsdMitmService) : BsdMitmService :=
  mkService (m_forward_service v) (m_client_pid v) (u32 (m_command_count v + 1)) (m_session_id v)
    (m_registered v) (m_mode v) (m_entered_local_network_mode v).
Definition set_registered (v : BsdMitmService) : BsdMitmService :=
  mkService (m_forward_service v) (m_client_pid v) (m_command_count v) (m_session_id v)
    true (m_mode v) (m_entered_local_network_mode v).
Definition set_mode (v : BsdMitmService) (mode : Z) : BsdMitmService :=
  mkService (m_forward_service v) (m_client_pid v) (m_command_count v) (m_session_id v)
    (m_registered v) mode (m_entered_local_network_mode v).
Definition set_entered (v : BsdMitmService) : BsdMitmService :=
  mkService (m_forward_service v) (m_client_pid v) (m_command_count v) (m_session_id v)
    (m_registered v) (m_mode v) true.

(** What all sessions share: the file-level variables, the socket manager, the
    address translation, and the world [W] of everything else. *)
Record Shared (W : Type) : Type := mkShared {
  g_socket_info : gmap Z SocketInfo;
  g_mitm_pid_live : gmap Z Z;
  g_mitm_pid_skipped : gmap Z bool;
  g_abandoned_forward_services : list Z;
  s_next_session_id : Z;
  g_manager : ProxySocketManager;
  g_netmap : NetMap;
  g_world : W;
}.
Arguments mkShared {W}. Arguments g_socket_info {W}. Arguments g_mitm_pid_live {W}.
Arguments g_mitm_pid_skipped {W}. Arguments g_abandoned_forward_services {W}.
Arguments s_next_session_id {W}. Arguments g_manager {W}. Arguments g_netmap {W}.
Arguments g_world {W}.

Definition Shared_init {W} (w : W) : Shared W :=
  mkShared ∅ ∅ ∅ [] 0 ProxySocketManager_init NetMap_init w.

Section setters.
Context {W : Type}.
Definition set_info (x : Shared W) (i : gmap Z SocketInfo) : Shared W :=
  mkShared i (g_mitm_pid_live x) (g_mitm_pid_skipped x) (g_abandoned_forward_services x)
    (s_next_session_id x) (g_manager x) (g_netmap x) (g_world x).
Definition set_pids (x : Shared W) (live : gmap Z Z) (skipped : gmap Z bool) : Shared W :=
  mkShared (g_socket_info x) live skipped (g_abandoned_forward_services x)
    (s_next_session_id x) (g_manager x) (g_netmap x) (g_world x).
Definition set_abandoned (x : Shared W) (l : list Z) : Shared W :=
  mkShared (g_socket_info x) (g_mitm_pid_live x) (g_mitm_pid_skipped x) l
    (s_next_session_id x) (g_manager x) (g_netmap x) (g_world x).
Definition set_next (x : Shared W) (n : Z) : Shared W :=
  mkShared (g_socket_info x) (g_mitm_pid_live x) (g_mitm_pid_skipped x)
    (g_abandoned_forward_services x) n (g_manager x) (g_netmap x) (g_world x).
Definition set_manager (x : Shared W) (m : ProxySocketManager) : Shared W :=
  mkShared (g_socket_info x) (g_mitm_pid_live x) (g_mitm_pid_skipped x)
    (g_abandoned_forward_services x) (s_next_session_id x) m (g_netmap x) (g_world x).
Definition set_netmap (x : Shared W) (nm : NetMap) : Shared W :=
  mkShared (g_socket_info x) (g_mitm_pid_live x) (g_mitm_pid_skipped x)
    (g_abandoned_forward_services x) (s_next_session_id x) (g_manager x) nm (g_world x).
Definition set_gworld (x : Shared W) (w : W) : Shared W :=
  mkShared (g_socket_info x) (g_mitm_pid_live x) (g_mitm_pid_skipped x)
    (g_abandoned_forward_services x) (s_next_session_id x) (g_manager x) (g_netmap x) w.
End setters.

(** Reduces the projections of updated states, nothing else. *)
Ltac mitm_cbn := cbn [g_socket_info g_mitm_pid_live g_mitm_pid_skipped g_abandoned_forward_services
  s_next_session_id g_manager g_netmap g_world set_info set_pids set_abandoned set_next set_manager
  set_netmap set_gworld] in *.

(** ** Messages *)

(** An IPC buffer, [None] for a null pointer (whose size is zero). *)
Definition Buffer : Set := option bytes.
Definition buf_data (b : Buffer) : bytes := default [] b.
Definition buf_size (b : Buffer) : nat := length (buf_data b).

(** Of an out buffer only the size is sent. *)
Record FwdReq : Set := mkReq {
  fq_service : Z;
  fq_cmd : Z;
  fq_words : list Z;
  fq_in : list Buffer;
  fq_out : list nat;
  fq_pid : option Z;
  fq_handles : list Z;
}.
Record Reply : Set := mkReply { re_rc : Z; re_words : list Z; re_bufs : list Buffer }.

(** A reply of our own. *)
Definition ok (words : list Z) (bufs : list Buffer) : Reply := mkReply 0 words bufs.
Definition fail_errno (e : BsdErrno) : Reply := ok [errno e] [].

(** The address argument of a command, when the buffer holds one. *)
Definition read_addr (b : Buffer) : option SockAddrIn :=
  d ← b; if (16 <=? length d)%nat then SockAddrIn_dec (take 16 d) else None.
(** [memcpy] of an address to an out buffer that is large enough. *)
Definition write_addr (b : Buffer) (a : SockAddrIn) : Buffer :=
  if (16 <=? buf_size b)%nat then Some (overwrite (SockAddrIn_enc a) (buf_data b)) else b.

Definition POLLIN : Z := 0x1.
Definition POLLOUT : Z := 0x4.
Definition POLLHUP : Z := 0x10.
Definition FIONREAD : Z := 0x4004667F.
Definition F_DUPFD : Z := 0.
Definition F_GETFL : Z := 3.
Definition F_SETFL : Z := 4.
Definition F_DUPFD_CLOEXEC : Z := 6.
Definition O_NONBLOCK : Z := 0x0004.

Record PollFd : Set := mkPollFd { pf_fd : Z; pf_events : Z; pf_revents : Z }.
(** The array of [nfds] entries at the start of a buffer. *)
Fixpoint read_pollfds (n : nat) (b : bytes) : list PollFd :=
  match n with
  | O => []
  | S n' =>
      mkPollFd (s32 (le_dec (take 4 b))) (le_dec (take 2 (drop 4 b))) (le_dec (take 2 (drop 6 b))) ::
      read_pollfds n' (drop 8 b)
  end.
Definition write_pollfds (l : list PollFd) (b : bytes) : bytes :=
  let a := flat_map (fun p => le_enc 4 (u32 (pf_fd p)) ++ le_enc 2 (pf_events p) ++
                              le_enc 2 (pf_revents p)) l in
  overwrite a b.

(** The three descriptor sets of [Select]. *)
Record FdSets : Set := mkFdSets { fs_read : Buffer; fs_write : Buffer; fs_error : Buffer }.
Definition fd_isset (fd : Z) (fds : Buffer) : bool :=
  if fd <? 0 then false
  else match buf_data fds !! Z.to_nat (fd / 8) with
       | Some b => negb (Z.land b (Z.shiftl 1 (fd mod 8)) =? 0)
       | None => false
       end.
Definition fd_set_bit (fd : Z) (fds : Buffer) : Buffer :=
  if fd <? 0 then fds
  else alter (fun b => Z.lor b (Z.shiftl 1 (fd mod 8))) (Z.to_nat (fd / 8)) <$> fds.

(** The order in which the destructor visits [g_socket_info]. *)
Class InfoOrder := {
  info_iter : gmap Z SocketInfo -> list (Z * SocketInfo);
  info_iter_perm m : info_iter m ≡ₚ map_to_list m;
}.
#[export, refine] Instance info_key_order : InfoOrder | 100 := {| info_iter := map_to_list |}.
Proof. done. Defined.

(** ** The commands *)
Section commands.
Context {W : Type}.
(** The real service, the callbacks of the manager, nifm's current address and
    mask, and [LdnControl::EnterLocalNetworkModePublic]/[ExitLocalNetworkModePublic]. *)
Variable fwd : FwdReq -> W -> W * Reply.
Variable call_data : Callback -> ProxyArgs -> bytes -> W -> W * bool.
Variable call_ctl : Callback -> ProxyArgs -> W -> W * bool.
Variable nifm_ip : W -> option (Z * Z).
Variable EnterLocalNetworkMode ExitLocalNetworkMode : W -> W * Z.

Abbreviation Outcome := (BsdMitmService * Shared W * Reply)%type.

(** [serviceMitmDispatch..]: the raw reply words are only written on success. *)
Definition mitm_dispatch (v : BsdMitmService) (x : Shared W) (cmd : Z) (words : list Z) (nout : nat)
    (ins outs : list Buffer) (pid : option Z) (handles : list Z) : Shared W * Reply :=
  let '(w, r) := fwd (mkReq (m_forward_service v) cmd words ins (buf_size <$> outs) pid handles)
                   (g_world x) in
  (set_gworld x w,
   mkReply (re_rc r)
     (if re_rc r =? 0 then take nout (re_words r ++ replicate nout 0) else replicate nout 0)
     (re_bufs r)).
Definition word (r : Reply) (i : nat) : Z := default 0 (re_words r !! i).

(** A command that only forwards. *)
Definition forward (v : BsdMitmService) (x : Shared W) (cmd : Z) (words : list Z) (nout : nat)
    (ins outs : list Buffer) : Outcome :=
  let '(x, r) := mitm_dispatch v x cmd words nout ins outs None [] in (count_command v, x, r).

Definition is_proxy_fd (x : Shared W) (fd : Z) : bool :=
  match g_socket_info x !! fd with Some i => si_is_proxy i | None => false end.
Definition mark_proxy (x : Shared W) (fd : Z) : Shared W :=
  set_info x (alter set_is_proxy fd (g_socket_info x)).
(** [g_socket_info[new_fd] = it->second] *)
Definition copy_info (x : Shared W) (fd new_fd : Z) : Shared W :=
  match g_socket_info x !! fd with
  | Some i => set_info x (<[new_fd := i]> (g_socket_info x))
  | None => x
  end.
Definition set_proxy (x : Shared W) (fd : Z) (s : ProxySocket) : Shared W :=
  set_manager x (update_socket (g_manager x) fd (fun _ => s)).
Definition get_proxy (x : Shared W) (fd : Z) : option ProxySocket := GetProxySocket (g_manager x) fd.

(** ** Registration and socket creation *)

(** [config] is the eight words of the library configuration; closing the
    handle of the transfer memory is not modelled. *)
Definition RegisterClient (config : list Z) (tmem_size tmem_handle : Z) (v : BsdMitmService)
    (x : Shared W) : Outcome :=
  let v := count_command v in
  let '(x, r) := mitm_dispatch v x 0 (config ++ [0; tmem_size]) 1 [] [] (Some (m_client_pid v))
                   [tmem_handle] in
  (if re_rc r =? 0 then set_registered v else v, x, r).

Definition RegisterClientShared (config : list Z) (tmem_size : Z) (v : BsdMitmService)
    (x : Shared W) : Outcome :=
  let v := count_command v in
  let '(x, r) := mitm_dispatch v x 33 (config ++ [0; tmem_size]) 1 [] [] (Some (m_client_pid v)) [] in
  (if re_rc r =? 0 then set_registered v else v, x, r).

Definition StartMonitoring (pid : Z) (v : BsdMitmService) (x : Shared W) : Outcome :=
  forward v x 1 [pid] 1 [] [].

Definition socket_protocol (type protocol : Z) : Z :=
  if protocol =? 0 then
    if type =? SocketType_Stream then ProtocolType_Tcp
    else if type =? SocketType_Dgram then ProtocolType_Udp else protocol
  else protocol.

(** The socket of a successful reply is tracked. *)
Definition track_socket (v : BsdMitmService) (type protocol : Z) (r : Reply) (x : Shared W)
    : Shared W :=
  if (re_rc r =? 0) && (0 <=? word r 0)
  then set_info x (<[word r 0 := mkInfo type (socket_protocol type protocol) false false
                                   (m_session_id v)]> (g_socket_info x))
  else x.

Definition Socket (domain type protocol : Z) (v : BsdMitmService) (x : Shared W) : Outcome :=
  let v := count_command v in
  let '(x, r) := mitm_dispatch v x 2 [domain; type; protocol] 2 [] [] None [] in
  (v, track_socket v type protocol r x, mkReply (re_rc r) [word r 0; word r 1] (re_bufs r)).

Definition SocketExempt (domain type protocol : Z) (v : BsdMitmService) (x : Shared W) : Outcome :=
  let v := count_command v in
  let '(x, r) := mitm_dispatch v x 3 [domain; type; protocol] 2 [] [] None [] in
  (v, track_socket v type protocol r x, mkReply (re_rc r) [word r 0; word r 1] (re_bufs r)).

Definition Open (path : Buffer) (v : BsdMitmService) (x : Shared W) : Outcome :=
  forward v x 4 [] 2 [path] [].

Definition Close (fd : Z) (v : BsdMitmService) (x : Shared W) : Outcome :=
  let v := count_command v in
  let x :=
    match g_socket_info x !! fd with
    | Some i =>
        let x := if si_is_proxy i then
                   let '(m, w, _) := CloseProxySocket call_ctl (g_manager x) fd (g_world x) in
                   set_gworld (set_manager x m) w
                 else x in
        set_info x (delete fd (g_socket_info x))
    | None => x
    end in
  let '(x, r) := mitm_dispatch v x 26 [fd] 1 [] [] None [] in (v, x, r).

(** The reply of a command whose two words are exchanged on the way back, the
    new descriptor inheriting what is known of the old one. *)
Definition inherit_fd (fd : Z) (r : Reply) (x : Shared W) : Shared W :=
  if (re_rc r =? 0) && (word r 1 =? 0) && (0 <=? word r 0) then copy_info x fd (word r 0) else x.

Definition DuplicateSocket (fd target_pid : Z) (v : BsdMitmService) (x : Shared W) : Outcome :=
  let v := count_command v in
  let '(x, r) := mitm_dispatch v x 27 [fd; 0; target_pid] 2 [] [] None [] in
  (v, inherit_fd fd r x, mkReply (re_rc r) [word r 1; word r 0] (re_bufs r)).

Definition Accept (fd : Z) (addr_out : Buffer) (v : BsdMitmService) (x : Shared W) : Outcome :=
  let v := count_command v in
  let '(x, r) := mitm_dispatch v x 12 [fd] 2 [] [addr_out] None [] in
  (v, inherit_fd fd r x, mkReply (re_rc r) [word r 1; word r 0] (re_bufs r)).

Definition GetResourceStatistics (out_stats : Buffer) (pid : Z) (v : BsdMitmService) (x : Shared W)
    : Outcome := forward v x 28 [pid] 1 [] [out_stats].
Definition EventFd (initval flags : Z) (v : BsdMitmService) (x : Shared W) : Outcome :=
  forward v x 31 [initval; flags; 0] 2 [] [].
Definition RegisterResourceStatisticsName (pid : Z) (name : Buffer) (v : BsdMitmService)
    (x : Shared W) : Outcome := forward v x 32 [pid] 1 [name] [].
Definition Sysctl (name old_val_in old_val_out new_val : Buffer) (v : BsdMitmService)
    (x : Shared W) : Outcome := forward v x 7 [] 1 [name; old_val_in; new_val] [old_val_out].
Definition Listen (fd backlog : Z) (v : BsdMitmService) (x : Shared W) : Outcome :=
  forward v x 18 [fd; backlog] 1 [] [].
Definition Shutdown (fd how : Z) (v : BsdMitmService) (x : Shared W) : Outcome :=
  forward v x 22 [fd; how] 1 [] [].
Definition ShutdownAllSockets (pid how : Z) (v : BsdMitmService) (x : Shared W) : Outcome :=
  forward v x 23 [pid; how] 1 [] [].

Definition RecvMMsg (fd vlen flags timeout : Z) (out_data : Buffer) (v : BsdMitmService)
    (x : Shared W) : Outcome :=
  if is_proxy_fd x fd then (count_command v, x, ok [errno E_OpNotSupp; -1] [out_data])
  else forward v x 29 [fd; vlen; flags; timeout] 2 [] [out_data].
Definition SendMMsg (fd vlen flags : Z) (in_data : Buffer) (v : BsdMitmService)
    (x : Shared W) : Outcome :=
  if is_proxy_fd x fd then (count_command v, x, ok [errno E_OpNotSupp; -1] [])
  else forward v x 30 [fd; vlen; flags] 2 [in_data] [].

(** ** Bind and connect *)

(** The ports of LAN play and of a session, for a bind to 0.0.0.0. *)
Definition lan_signature_port (port : Z) : bool :=
  (port =? 30000) || (port =? 35000) || (port =? 11452) || ((49152 <=? port) && (port <=? 49155)).

(** What [Bind] decides to serve itself: the address and what is known of the socket. *)
Definition bind_target (x : Shared W) (fd : Z) (addr : Buffer) : option (SockAddrIn * SocketInfo) :=
  sa ← read_addr addr;
  if negb (sin_family sa =? AddressFamily_Inet) then None
  else
    let is_ldn := SockAddrIn_IsLanAddress sa in
    let is_inaddr_any := IpV4_IsAny (SockAddrIn_Addr sa) in
    i ← g_socket_info x !! fd;
    if is_ldn || (is_inaddr_any &&
                  (si_broadcast i || lan_signature_port (SockAddrIn_GetPort sa)))
    then Some (sa, i) else None.

(** The port of the bind: allocated when it is 0, reserved otherwise. *)
Definition bind_port (m : ProxySocketManager) (addr : SockAddrIn) (protocol : Z)
    : ProxySocketManager * option SockAddrIn :=
  if SockAddrIn_GetPort addr =? 0 then
    let '(m, ephemeral) := Mgr_AllocatePort m protocol in
    if ephemeral =? 0 then (m, None)
    else (m, Some (mkSockAddrIn (sin_len addr) (sin_family addr) (bswap16 ephemeral) (sin_addr addr)
                     (sin_zero addr)))
  else
    let '(m, reserved) := Mgr_ReservePort m (SockAddrIn_GetPort addr) protocol in
    (m, if reserved then Some addr else None).

(** What follows a successful bind to port 30000. *)
Definition lan_port_bound (v : BsdMitmService) (x : Shared W) : BsdMitmService * Shared W :=
  let x :=
    if TranslationEnabled && negb (HasRealAddress (g_netmap x)) then
      match nifm_ip (g_world x) with
      | Some (ra, rm) => set_netmap x (SetRealAddress (g_netmap x) (bswap32 ra) (bswap32 rm))
      | None => x
      end
    else x in
  if negb (m_entered_local_network_mode v) then
    let '(w, rc) := EnterLocalNetworkMode (g_world x) in
    (if rc =? 0 then set_entered v else v, set_gworld x w)
  else (v, x).

(** The bind of a proxy socket. *)
Definition Bind_proxy (fd : Z) (sa : SockAddrIn) (i : SocketInfo) (v : BsdMitmService)
    (x : Shared W) : Outcome :=
  let '(m, proxy) := CreateProxySocket (g_manager x) fd (si_type i) (si_protocol i) in
  match proxy with
  | None => (v, set_manager x m, fail_errno E_NoMem)
  | Some _ =>
      let m := if si_broadcast i then update_socket m fd (fun s => set_m_broadcast s true) else m in
      let bind_addr :=
        if IpV4_IsAny (SockAddrIn_Addr sa) && SockAddrIn_IsLanAddress sa then
          if Mgr_GetLocalIp m =? 0 then sa
          else SockAddrIn_SetAddr sa (IpV4_FromNumeric (Mgr_GetLocalIp m))
        else sa in
      let '(m, bound) := bind_port m bind_addr (si_protocol i) in
      match bound, GetProxySocket m fd with
      | Some bind_addr, Some s =>
          let '(s, bind_result) := ProxySocket_Bind s bind_addr in
          let x := set_proxy (set_manager x m) fd s in
          if negb (bind_result =? 0) then (v, x, ok [bind_result] [])
          else
            let x := mark_proxy x fd in
            let bp := SockAddrIn_GetPort bind_addr in
            let v := if m_mode v =? 0 then
                       if bp =? 12345 then set_mode v 1 else if bp =? 30000 then set_mode v 2 else v
                     else v in
            let '(v, x) := if bp =? 30000 then lan_port_bound v x else (v, x) in
            let x := set_manager x (DeliverPendingPackets (g_netmap x) (g_manager x) (Some fd) bp
                                      (si_protocol i)) in
            (v, x, ok [0] [])
      | _, _ => (v, set_manager x m, fail_errno E_AddrInUse)
      end
  end.

Definition Bind (fd : Z) (addr : Buffer) (v : BsdMitmService) (x : Shared W) : Outcome :=
  match bind_target x fd addr with
  | Some (sa, i) => Bind_proxy fd sa i (count_command v) x
  | None => forward v x 13 [fd] 1 [addr] []
  end.

(** The address a proxy socket is bound to when the game did not bind it. *)
Definition ephemeral_addr (local_ip port : Z) : SockAddrIn :=
  SockAddrIn_SetAddr (mkSockAddrIn 16 AddressFamily_Inet (bswap16 port) 0 (replicate 8 0))
    (IpV4_FromNumeric local_ip).

(** A LAN address in the buffer. *)
Definition lan_addr (addr : Buffer) : option SockAddrIn :=
  sa ← read_addr addr;
  if (sin_family sa =? AddressFamily_Inet) && SockAddrIn_IsLanAddress sa then Some sa else None.

(** The proxy socket [BsdMitmService_Connect] uses, created and bound if there is none; the
    errno of a failure. *)
Definition connect_proxy (fd : Z) (i : SocketInfo) (m : ProxySocketManager)
    : ProxySocketManager * (Z + ProxySocket) :=
  match GetProxySocket m fd with
  | Some s => (m, inr s)
  | None =>
      let '(m, proxy) := CreateProxySocket m fd (si_type i) (si_protocol i) in
      match proxy with
      | None => (m, inl (errno E_NoMem))
      | Some _ =>
          let '(m, ephemeral) := Mgr_AllocatePort m (si_protocol i) in
          if ephemeral =? 0 then (m, inl (errno E_AddrInUse))
          else
            match GetProxySocket m fd with
            | Some s =>
                let '(s, bind_result) := ProxySocket_Bind s (ephemeral_addr (Mgr_GetLocalIp m) ephemeral) in
                let m := update_socket m fd (fun _ => s) in
                if negb (bind_result =? 0)
                then (Mgr_ReleasePort m ephemeral (si_protocol i), inl bind_result)
                else (m, inr s)
            | None => (m, inl (errno E_NoMem))
            end
      end
  end.

Definition BsdMitmService_Connect (wait : Wait) (fd : Z) (addr : Buffer) (v : BsdMitmService) (x : Shared W)
    : Outcome :=
  let v := count_command v in
  match lan_addr addr, g_socket_info x !! fd with
  | Some sa, Some i =>
      let '(m, proxy) := connect_proxy fd i (g_manager x) in
      match proxy with
      | inl e => (v, set_manager x m, ok [e] [])
      | inr s =>
          let '(s, w, connect_result) :=
            ProxySocket_Connect
              (fun a s w => let '(w, sent) := SendProxyConnect call_ctl m a w in (s, w, sent))
              wait s sa (g_world x) in
          let x := set_proxy (set_gworld (set_manager x m) w) fd s in
          if negb (connect_result =? 0) then (v, x, ok [connect_result] [])
          else (v, mark_proxy x fd, ok [0] [])
      end
  | _, _ => (v, x, fail_errno E_NetUnreach)
  end.

(** ** Names *)
Definition GetPeerName (fd : Z) (addr_out : Buffer) (v : BsdMitmService) (x : Shared W) : Outcome :=
  match get_proxy x fd with
  | Some s =>
      if negb (bool_decide (m_state s = Connected))
      then (count_command v, x, ok [errno E_NotConn] [addr_out])
      else (count_command v, x, ok [0] [write_addr addr_out (m_remote_addr s)])
  | None => forward v x 15 [fd] 1 [] [addr_out]
  end.

Definition GetSockName (fd : Z) (addr_out : Buffer) (v : BsdMitmService) (x : Shared W) : Outcome :=
  match get_proxy x fd with
  | Some s => (count_command v, x, ok [0] [write_addr addr_out (m_local_addr s)])
  | None => forward v x 16 [fd] 1 [] [addr_out]
  end.

(** ** Sending and receiving *)

(** The socket a data command is served by: marked, and in the registry. *)
Definition data_proxy (x : Shared W) (fd : Z) : option ProxySocket :=
  if is_proxy_fd x fd then get_proxy x fd else None.

(** The two words {ret, errno} of a result. *)
Definition ret_errno (result : Z) : list Z :=
  if result <? 0 then [-1; - result] else [result; 0].

Definition Send (fd flags : Z) (buffer : Buffer) (v : BsdMitmService) (x : Shared W) : Outcome :=
  match data_proxy x fd with
  | Some s =>
      let '(w, result) := ProxySocket_Send (SendProxyData call_data (g_manager x)) (g_netmap x) s
                            buffer (buf_size buffer) (g_world x) in
      (count_command v, set_gworld x w, ok (ret_errno result) [])
  | None => forward v x 10 [fd; flags] 2 [buffer] []
  end.

Definition Write (fd : Z) (buffer : Buffer) (v : BsdMitmService) (x : Shared W) : Outcome :=
  match data_proxy x fd with
  | Some s =>
      let '(w, result) := ProxySocket_Send (SendProxyData call_data (g_manager x)) (g_netmap x) s
                            buffer (buf_size buffer) (g_world x) in
      (count_command v, set_gworld x w, ok (if result <? 0 then [- result; 0] else [0; result]) [])
  | None => forward v x 24 [fd] 2 [buffer] []
  end.

(** The socket [SendTo] makes for a LAN destination: [inl] is the error of the
    bind, which ends the command. *)
Definition sendto_proxy (fd : Z) (i : SocketInfo) (m : ProxySocketManager)
    : ProxySocketManager * Z :=
  match GetProxySocket m fd with
  | Some _ => (m, 0)
  | None =>
      let '(m, proxy) := CreateProxySocket m fd (si_type i) (si_protocol i) in
      match proxy with
      | None => (m, 0)
      | Some _ =>
          let '(m, ephemeral) := Mgr_AllocatePort m (si_protocol i) in
          if ephemeral =? 0 then (m, 0)
          else
            match GetProxySocket m fd with
            | Some s =>
                let '(s, bind_result) := ProxySocket_Bind s (ephemeral_addr (Mgr_GetLocalIp m) ephemeral) in
                (update_socket m fd (fun _ => s), bind_result)
            | None => (m, 0)
            end
      end
  end.

(** The promotion of a socket by a datagram to a LAN destination. *)
Definition sendto_promote (fd : Z) (x : Shared W) : Shared W * Z :=
  match g_socket_info x !! fd with
  | Some i =>
      if si_is_proxy i then (x, 0)
      else
        let '(m, rc) := sendto_proxy fd i (g_manager x) in
        if negb (rc =? 0) then (set_manager x m, rc) else (mark_proxy (set_manager x m) fd, 0)
  | None => (x, 0)
  end.

Definition SendTo (fd flags : Z) (buffer addr : Buffer) (v : BsdMitmService) (x : Shared W)
    : Outcome :=
  let to_lan := bool_decide (is_Some (lan_addr addr)) in
  let is_proxy := is_proxy_fd x fd || to_lan in
  let '(x, rc) := if to_lan then sendto_promote fd x else (x, 0) in
  if negb (rc =? 0) then (count_command v, x, mkReply rc [0; 0] [])
  else if is_proxy then
    match get_proxy x fd, read_addr addr with
    | Some s, Some dest =>
        let '(w, result) := ProxySocket_SendTo (SendProxyData call_data (g_manager x)) (g_netmap x)
                              s buffer (buf_size buffer) dest (g_world x) in
        (count_command v, set_gworld x w, ok (ret_errno result) [])
    | _, _ => (count_command v, x, ok [errno E_NetUnreach; 0] [])
    end
  else forward v x 11 [fd; flags] 2 [buffer; addr] [].

(** The caller's buffer after a receive. *)
Definition recv_into (buffer : Buffer) (r : RecvResult) : Buffer := overwrite (rr_out r) <$> buffer.

Definition Recv (wait : Wait) (fd flags : Z) (buffer : Buffer) (v : BsdMitmService) (x : Shared W)
    : Outcome :=
  match data_proxy x fd with
  | Some s =>
      let '(s, r) := ProxySocket_Recv wait s (bool_decide (is_Some buffer)) (buf_size buffer) flags in
      (count_command v, set_proxy x fd s, ok (ret_errno (rr_ret r)) [recv_into buffer r])
  | None => forward v x 8 [fd; flags] 2 [] [buffer]
  end.

Definition Read (wait : Wait) (fd : Z) (buffer : Buffer) (v : BsdMitmService) (x : Shared W)
    : Outcome :=
  match data_proxy x fd with
  | Some s =>
      let '(s, r) := ProxySocket_Recv wait s (bool_decide (is_Some buffer)) (buf_size buffer) 0 in
      (count_command v, set_proxy x fd s, ok (ret_errno (rr_ret r)) [recv_into buffer r])
  | None => forward v x 25 [fd] 2 [] [buffer]
  end.

Definition RecvFrom (wait : Wait) (fd flags : Z) (buffer addr_out : Buffer) (v : BsdMitmService)
    (x : Shared W) : Outcome :=
  match data_proxy x fd with
  | Some s =>
      let '(s, r) := ProxySocket_RecvFrom wait s (bool_decide (is_Some buffer)) (buf_size buffer)
                       flags true in
      let x := set_proxy x fd s in
      if rr_ret r <? 0
      then (count_command v, x, ok [-1; - rr_ret r; 0] [recv_into buffer r; addr_out])
      else
        let from := default SockAddrIn_zero (rr_from r) in
        (count_command v, x,
         ok [rr_ret r; 0; if (16 <=? buf_size addr_out)%nat then 16 else 0]
            [recv_into buffer r; write_addr addr_out from])
  | None => forward v x 9 [fd; flags] 3 [] [buffer; addr_out]
  end.

(** ** Readiness *)

(** One proxy socket of [Select]: the bits set and the count (both loops). *)
Definition select_ready (s : ProxySocket) (ins : FdSets) (fd : Z) (acc : FdSets * Z) : FdSets * Z :=
  let '(o, n) := acc in
  let '(o, n) := if fd_isset fd (fs_read ins) && ProxySocket_HasPendingData s
                 then (mkFdSets (fd_set_bit fd (fs_read o)) (fs_write o) (fs_error o), n + 1)
                 else (o, n) in
  let '(o, n) := if fd_isset fd (fs_write ins)
                 then (mkFdSets (fs_read o) (fd_set_bit fd (fs_write o)) (fs_error o), n + 1)
                 else (o, n) in
  if fd_isset fd (fs_error ins) && bool_decide (m_state s = Closed)
  then (mkFdSets (fs_read o) (fs_write o) (fd_set_bit fd (fs_error o)), n + 1)
  else (o, n).

(** The first loop: the sets, the count, and whether a proxy and a real socket were met. *)
Definition select_step (x : Shared W) (ins : FdSets) (acc : FdSets * Z * bool * bool) (fd : Z)
    : FdSets * Z * bool * bool :=
  let '(o, n, has_proxy, has_real) := acc in
  if negb (fd_isset fd (fs_read ins)) && negb (fd_isset fd (fs_write ins)) &&
     negb (fd_isset fd (fs_error ins)) then acc
  else match get_proxy x fd with
       | Some s => let '(o, n) := select_ready s ins fd (o, n) in (o, n, true, has_real)
       | None => (o, n, has_proxy, true)
       end.
(** The second loop, over the answer of the real service. *)
Definition select_merge (x : Shared W) (ins : FdSets) (acc : FdSets * Z) (fd : Z) : FdSets * Z :=
  match get_proxy x fd with Some s => select_ready s ins fd acc | None => acc end.

(** [memset] to zero. *)
Definition clear_buf (b : Buffer) : Buffer := (fun d => replicate (length d) 0) <$> b.
Definition fd_range (nfds : Z) : list Z := seqZ 0 nfds.
Definition buf (l : list Buffer) (i : nat) : Buffer := default None (l !! i).

Definition Select (nfds : Z) (ins : FdSets) (timeout : Buffer) (outs : FdSets) (v : BsdMitmService)
    (x : Shared W) : Outcome :=
  let v := count_command v in
  let o := mkFdSets (clear_buf (fs_read outs)) (clear_buf (fs_write outs))
             (clear_buf (fs_error outs)) in
  let '(o, ready_count, has_proxy, has_real) :=
    foldl (select_step x ins) (o, 0, false, false) (fd_range nfds) in
  let bufs o := [fs_read o; fs_write o; fs_error o] in
  if has_proxy && negb has_real then (v, x, ok [0; ready_count] (bufs o))
  else if has_proxy && (0 <? ready_count) then (v, x, ok [0; ready_count] (bufs o))
  else
    let '(x, r) := mitm_dispatch v x 5 [nfds] 2 (bufs ins ++ [timeout]) (bufs o) None [] in
    if has_proxy && (re_rc r =? 0) then
      let o := mkFdSets (buf (re_bufs r) 0) (buf (re_bufs r) 1) (buf (re_bufs r) 2) in
      let '(o, count) := foldl (select_merge x ins) (o, word r 1) (fd_range nfds) in
      (v, x, ok [word r 0; count] (bufs o))
    else (v, x, r).

(** The events of a proxy socket. *)
Definition poll_revents (s : ProxySocket) (events : Z) : Z :=
  Z.lor (if negb (Z.land events POLLIN =? 0) && ProxySocket_HasPendingData s then POLLIN else 0)
    (Z.lor (if negb (Z.land events POLLOUT =? 0) then POLLOUT else 0)
           (if bool_decide (m_state s = Closed) then POLLHUP else 0)).
Definition set_revents (p : PollFd) (r : Z) : PollFd := mkPollFd (pf_fd p) (pf_events p) r.

Definition poll_entry (x : Shared W) (p : PollFd) : PollFd :=
  set_revents p (match get_proxy x (pf_fd p) with
                 | Some s => poll_revents s (pf_events p)
                 | None => 0
                 end).
Definition is_proxy_entry (x : Shared W) (p : PollFd) : bool :=
  bool_decide (is_Some (get_proxy x (pf_fd p))).

(** The last loop, over the answer of the real service: every bit counts. *)
Definition poll_merge (x : Shared W) (acc : list PollFd * Z) (p : PollFd) : list PollFd * Z :=
  let '(l, n) := acc in
  match get_proxy x (pf_fd p) with
  | Some s =>
      let r := poll_revents s (pf_events p) in
      let bit b := if Z.land r b =? 0 then 0 else 1 in
      (l ++ [set_revents p r], n + bit POLLIN + bit POLLOUT + bit POLLHUP)
  | None => (l ++ [p], n)
  end.

(** [std::min(static_cast<size_t>(nfds), size / sizeof(PollFd))] *)
Definition poll_count (nfds : Z) (size : nat) : nat :=
  let cap := (size / 8)%nat in if nfds <? 0 then cap else Nat.min (Z.to_nat nfds) cap.

(** The copy of the descriptors to the out buffer, when they fit. *)
Definition poll_copy (fds_in fds_out : Buffer) : Buffer :=
  if (buf_size fds_in <=? buf_size fds_out)%nat
  then overwrite (buf_data fds_in) <$> fds_out else fds_out.

Definition Poll (fds_in fds_out : Buffer) (nfds timeout : Z) (v : BsdMitmService) (x : Shared W)
    : Outcome :=
  let v := count_command v in
  let fds_out := poll_copy fds_in fds_out in
  let num_fds := poll_count nfds (buf_size fds_out) in
  let poll_fds := poll_entry x <$> read_pollfds num_fds (buf_data fds_out) in
  let fds_out := write_pollfds poll_fds <$> fds_out in
  let has_proxy := existsb (is_proxy_entry x) poll_fds in
  let has_real := existsb (fun p => negb (is_proxy_entry x p)) poll_fds in
  let ready_count := Z.of_nat (length (filter (fun p => pf_revents p <> 0) poll_fds)) in
  if has_proxy && negb has_real then (v, x, ok [0; ready_count] [fds_out])
  else if has_proxy && (0 <? ready_count) then (v, x, ok [0; ready_count] [fds_out])
  else
    let '(x, r) := mitm_dispatch v x 6 [nfds; timeout] 2 [fds_in] [fds_out] None [] in
    if has_proxy && (re_rc r =? 0) then
      let '(l, count) := foldl (poll_merge x) ([], word r 1)
                           (read_pollfds num_fds (buf_data (buf (re_bufs r) 0))) in
      (v, x, ok [word r 0; count] [write_pollfds l <$> buf (re_bufs r) 0])
    else (v, x, r).

(** ** Control *)
Definition Ioctl (fd request bufcount : Z) (buf_in buf_out : Buffer) (v : BsdMitmService)
    (x : Shared W) : Outcome :=
  match get_proxy x fd with
  | Some s =>
      if request =? FIONREAD then
        let out := if (4 <=? buf_size buf_out)%nat
                   then overwrite (le_enc 4 (u32 (ProxySocket_GetPendingDataSize s))) <$> buf_out
                   else buf_out in
        (count_command v, x, ok [0; 0] [out])
      else (count_command v, x, ok [errno E_Inval; -1] [buf_out])
  | None => forward v x 19 [fd; request; bufcount] 2 [buf_in] [buf_out]
  end.

(** The forwarded duplication of [Fcntl]: here word 0 is read as the errno. *)
Definition is_dup (cmd : Z) : bool := (cmd =? F_DUPFD) || (cmd =? F_DUPFD_CLOEXEC).
Definition fcntl_forward (fd cmd arg : Z) (v : BsdMitmService) (x : Shared W) : Outcome :=
  let v := count_command v in
  let '(x, r) := mitm_dispatch v x 20 [fd; cmd; arg] 2 [] [] None [] in
  (v, (if (re_rc r =? 0) && (word r 0 =? 0) && (0 <=? word r 1) && is_dup cmd
       then copy_info x fd (word r 1) else x), r).

Definition Fcntl (fd cmd arg : Z) (v : BsdMitmService) (x : Shared W) : Outcome :=
  match get_proxy x fd with
  | Some s =>
      if cmd =? F_GETFL
      then (count_command v, x, ok [0; if m_non_blocking s then O_NONBLOCK else 0] [])
      else if cmd =? F_SETFL
      then (count_command v,
            set_proxy x fd (set_m_non_blocking s (negb (Z.land arg O_NONBLOCK =? 0))), ok [0; 0] [])
      else if is_dup cmd then fcntl_forward fd cmd arg v x
      else (count_command v, x, ok [errno E_Inval; -1] [])
  | None => fcntl_forward fd cmd arg v x
  end.

Definition GetSockOpt (fd level optname : Z) (optval : Buffer) (v : BsdMitmService) (x : Shared W)
    : Outcome :=
  match get_proxy x fd with
  | Some s =>
      let '(rc, value) := ProxySocket_GetSockOpt s level optname (bool_decide (is_Some optval))
                            (Some (Z.of_nat (buf_size optval))) in
      (count_command v, x,
       ok [rc] [match value with
                | Some n => overwrite (le_enc 4 (u32 n)) <$> optval
                | None => optval
                end])
  | None => forward v x 17 [fd; level; optname] 1 [] [optval]
  end.

Definition SetSockOpt (fd level optname : Z) (optval : Buffer) (v : BsdMitmService) (x : Shared W)
    : Outcome :=
  match get_proxy x fd with
  | Some s =>
      let '(s, rc) := ProxySocket_SetSockOpt s level optname optval (Z.of_nat (buf_size optval)) in
      (count_command v, set_proxy x fd s, ok [rc] [])
  | None =>
      let x := if (level =? SocketOptionLevel_Socket) && (optname =? SocketOption_Broadcast) &&
                  (4 <=? buf_size optval)%nat
               then set_info x (alter (set_broadcast
                      (negb (s32 (le_dec (take 4 (buf_data optval))) =? 0))) fd (g_socket_info x))
               else x in
      forward v x 21 [fd; level; optname] 1 [optval] []
  end.

(** ** Sessions *)

(** The command of a request, by its number. *)
Inductive Cmd : Type :=
| CRegisterClient (config : list Z) (tmem_size tmem_handle : Z)
| CStartMonitoring (pid : Z)
| CSocket (domain type protocol : Z)
| CSocketExempt (domain type protocol : Z)
| COpen (path : Buffer)
| CSelect (nfds : Z) (ins : FdSets) (timeout : Buffer) (outs : FdSets)
| CPoll (fds_in fds_out : Buffer) (nfds timeout : Z)
| CSysctl (name old_val_in old_val_out new_val : Buffer)
| CRecv (wait : Wait) (fd flags : Z) (buffer : Buffer)
| CRecvFrom (wait : Wait) (fd flags : Z) (buffer addr_out : Buffer)
| CSend (fd flags : Z) (buffer : Buffer)
| CSendTo (fd flags : Z) (buffer addr : Buffer)
| CAccept (fd : Z) (addr_out : Buffer)
| CBind (fd : Z) (addr : Buffer)
| CConnect (wait : Wait) (fd : Z) (addr : Buffer)
| CGetPeerName (fd : Z) (addr_out : Buffer)
| CGetSockName (fd : Z) (addr_out : Buffer)
| CGetSockOpt (fd level optname : Z) (optval : Buffer)
| CListen (fd backlog : Z)
| CIoctl (fd request bufcount : Z) (buf_in buf_out : Buffer)
| CFcntl (fd cmd arg : Z)
| CSetSockOpt (fd level optname : Z) (optval : Buffer)
| CShutdown (fd how : Z)
| CShutdownAllSockets (pid how : Z)
| CWrite (fd : Z) (buffer : Buffer)
| CRead (wait : Wait) (fd : Z) (buffer : Buffer)
| CClose (fd : Z)
| CDuplicateSocket (fd target_pid : Z)
| CGetResourceStatistics (out_stats : Buffer) (pid : Z)
| CRecvMMsg (fd vlen flags timeout : Z) (out_data : Buffer)
| CSendMMsg (fd vlen flags : Z) (in_data : Buffer)
| CEventFd (initval flags : Z)
| CRegisterResourceStatisticsName (pid : Z) (name : Buffer)
| CRegisterClientShared (config : list Z) (tmem_size : Z).

Definition run_cmd (c : Cmd) : BsdMitmService -> Shared W -> Outcome :=
  match c with
  | CRegisterClient config size handle => RegisterClient config size handle
  | CStartMonitoring pid => StartMonitoring pid
  | CSocket d t p => Socket d t p
  | CSocketExempt d t p => SocketExempt d t p
  | COpen path => Open path
  | CSelect n ins timeout outs => Select n ins timeout outs
  | CPoll i o n timeout => Poll i o n timeout
  | CSysctl name oi oo nv => Sysctl name oi oo nv
  | CRecv wait fd flags b => Recv wait fd flags b
  | CRecvFrom wait fd flags b a => RecvFrom wait fd flags b a
  | CSend fd flags b => Send fd flags b
  | CSendTo fd flags b a => SendTo fd flags b a
  | CAccept fd a => Accept fd a
  | CBind fd a => Bind fd a
  | CConnect wait fd a => BsdMitmService_Connect wait fd a
  | CGetPeerName fd a => GetPeerName fd a
  | CGetSockName fd a => GetSockName fd a
  | CGetSockOpt fd l o v => GetSockOpt fd l o v
  | CListen fd b => Listen fd b
  | CIoctl fd r n i o => Ioctl fd r n i o
  | CFcntl fd c a => Fcntl fd c a
  | CSetSockOpt fd l o v => SetSockOpt fd l o v
  | CShutdown fd h => Shutdown fd h
  | CShutdownAllSockets pid h => ShutdownAllSockets pid h
  | CWrite fd b => Write fd b
  | CRead wait fd b => Read wait fd b
  | CClose fd => Close fd
  | CDuplicateSocket fd pid => DuplicateSocket fd pid
  | CGetResourceStatistics o pid => GetResourceStatistics o pid
  | CRecvMMsg fd n flags t o => RecvMMsg fd n flags t o
  | CSendMMsg fd n flags i => SendMMsg fd n flags i
  | CEventFd i flags => EventFd i flags
  | CRegisterResourceStatisticsName pid n => RegisterResourceStatisticsName pid n
  | CRegisterClientShared config size => RegisterClientShared config size
  end.

(** [ShouldMitm]: [running] is the runtime's state; [IsApplicationId] is the
    framework's test of a program id. *)
Variable IsApplicationId : Z -> bool.
Definition OUR_PROGRAM_ID : Z := 0x4200000000000011.
Definition ShouldMitm (running : bool) (program_id pid : Z) (x : Shared W) : Shared W * bool :=
  if negb running then (x, false)
  else if program_id =? OUR_PROGRAM_ID then (x, false)
  else if negb (IsApplicationId program_id) then (x, false)
  else
    let skipped := default false (g_mitm_pid_skipped x !! pid) in
    if negb skipped
    then (set_pids x (g_mitm_pid_live x) (<[pid := true]> (g_mitm_pid_skipped x)), false)
    else
      let live := u32 (default 0 (g_mitm_pid_live x !! pid) + 1) in
      (set_pids x (<[pid := live]> (g_mitm_pid_live x)) (g_mitm_pid_skipped x), true).

(** The constructor. *)
Definition BsdMitmService_new (forward_service pid : Z) (x : Shared W) : Shared W * BsdMitmService :=
  let id := u32 (s_next_session_id x + 1) in
  (set_next x id, mkService forward_service pid 0 id false 0 false).

Context {IO : InfoOrder}.

(** The end of a service's entry in the process table. *)
Definition release_pid (pid : Z) (x : Shared W) : Shared W :=
  if pid =? 0 then x
  else
    match g_mitm_pid_live x !! pid with
    | None => x
    | Some live =>
        if live <=? 1
        then set_pids x (delete pid (g_mitm_pid_live x)) (delete pid (g_mitm_pid_skipped x))
        else set_pids x (<[pid := live - 1]> (g_mitm_pid_live x)) (g_mitm_pid_skipped x)
    end.

Definition close_proxy (x : Shared W) (fd : Z) : Shared W :=
  let '(m, w, _) := CloseProxySocket call_ctl (g_manager x) fd (g_world x) in
  set_gworld (set_manager x m) w.

(** The destructor. *)
Definition BsdMitmService_delete (v : BsdMitmService) (x : Shared W) : Shared W :=
  let mine p := si_session_id (snd p) =? m_session_id v in
  let proxy_fds_to_close :=
    fst <$> filter (fun p => mine p && si_is_proxy (snd p)) (info_iter (g_socket_info x)) in
  let x := set_info x (filter (fun p => negb (mine p)) (g_socket_info x)) in
  let x := foldl close_proxy x proxy_fds_to_close in
  let x := if m_entered_local_network_mode v
           then set_gworld x (fst (ExitLocalNetworkMode (g_world x))) else x in
  let x := if negb (m_registered v)
           then set_abandoned x (g_abandoned_forward_services x ++ [m_forward_service v]) else x in
  release_pid (m_client_pid v) x.

Definition CleanupAbandonedServices (x : Shared W) : Shared W := set_abandoned x [].

(** ** The service's sessions

    The framework asks [ShouldMitm] and, if it agrees, constructs the service at
    once; [live] is the set of services it holds. *)
Record Server : Type := mkServer {
  sv_shared : Shared W;
  sv_live : list BsdMitmService;
}.

Inductive Event : Type :=
| EvOpen (running : bool) (program_id pid forward_service : Z)
| EvCmd (i : nat) (c : Cmd)
| EvClose (i : nat)
| EvCleanup
| EvOther (f : ProxySocketManager -> W -> ProxySocketManager * W).

(** [EvOther] is what the rest of the program does to the manager and the world. *)
Definition server_step (s : Server) (e : Event) : Server :=
  match e with
  | EvOpen running program_id pid h =>
      let '(x, mitm) := ShouldMitm running program_id pid (sv_shared s) in
      if (mitm : bool)
      then let '(x, v) := BsdMitmService_new h pid x in mkServer x (sv_live s ++ [v])
      else mkServer x (sv_live s)
  | EvCmd i c =>
      match sv_live s !! i with
      | None => s
      | Some v => let '(v, x, _) := run_cmd c v (sv_shared s) in mkServer x (<[i := v]> (sv_live s))
      end
  | EvClose i =>
      match sv_live s !! i with
      | None => s
      | Some v => mkServer (BsdMitmService_delete v (sv_shared s)) (delete i (sv_live s))
      end
  | EvCleanup => mkServer (CleanupAbandonedServices (sv_shared s)) (sv_live s)
  | EvOther f =>
      let '(m, w) := f (g_manager (sv_shared s)) (g_world (sv_shared s)) in
      mkServer (set_gworld (set_manager (sv_shared s) m) w) (sv_live s)
  end.
End commands.
Arguments mkServer {W}. Arguments sv_shared {W}. Arguments sv_live {W}.
Arguments EvOpen {W}. Arguments EvCmd {W}. Arguments EvClose {W}. Arguments EvCleanup {W}.
Arguments EvOther {W}.
