(* ===== verification/BsdSessions.v ===== *)
(** The sessions of the bsd:u interception (BsdMitm.v): what a command may
    change, the invariant of the service over every history of sessions and
    commands, and the dummy session of a burst against its abstract machine. *)
From S2P Require Import Prelude Bytes IpAddr PortPool Ring ProxySocket SocketManager BsdMitm.

(** ** The frame of a command *)

(** The waits of a command are what other threads can do to its socket. *)
Definition cmd_ok (c : Cmd) : Prop :=
  match c with
  | CRecv wait _ _ _ | CRecvFrom wait _ _ _ _ | CConnect wait _ _ | CRead wait _ _ =>
      exists env sig, wait = env_wait env sig
  | _ => True
  end.

Section frame.
Context {W : Type}.

Definition same_session (v v' : BsdMitmService) : Prop :=
  m_session_id v' = m_session_id v /\ m_client_pid v' = m_client_pid v /\
  m_forward_service v' = m_forward_service v.

(** What a command may change: the manager within its invariant, the world, and
    the table of sockets, where a new entry is the session's own or a copy. *)
Record effect (id : Z) (x x' : Shared W) : Prop := {
  eff_manager : mgr_inv (g_manager x) -> mgr_inv (g_manager x');
  eff_info : forall fd i, g_socket_info x' !! fd = Some i ->
    si_session_id i = id \/
    exists fd0 i0, g_socket_info x !! fd0 = Some i0 /\ si_session_id i0 = si_session_id i;
  eff_pids : g_mitm_pid_live x' = g_mitm_pid_live x /\ g_mitm_pid_skipped x' = g_mitm_pid_skipped x;
  eff_next : s_next_session_id x' = s_next_session_id x;
}.

Lemma effect_refl id x : effect id x x.
Proof. constructor; [done| |done|done]. right. eauto. Qed.

Lemma effect_trans id x y z : effect id x y -> effect id y z -> effect id x z.
Proof.
  intros [A1 A2 [A3 A4] A5] [B1 B2 [B3 B4] B5]. constructor; [auto| |split; congruence|congruence].
  intros fd i H. apply B2 in H as [H|(fd0 & i0 & H & E)]; [by left|].
  apply A2 in H as [H|(fd1 & i1 & H1 & E1)]; [left; congruence|]. right. exists fd1, i1. by rewrite E1.
Qed.

Lemma effect_manager id x m :
  (mgr_inv (g_manager x) -> mgr_inv m) -> effect id x (set_manager x m).
Proof. intros H. constructor; [done| |done|done]. right. eauto. Qed.

Lemma effect_world id x w : effect id x (set_gworld x w).
Proof. constructor; [done| |done|done]. right. eauto. Qed.

Lemma effect_netmap id x nm : effect id x (set_netmap x nm).
Proof. constructor; [done| |done|done]. right. eauto. Qed.

Lemma effect_alter id x f fd :
  (forall i, si_session_id (f i) = si_session_id i) ->
  effect id x (set_info x (alter f fd (g_socket_info x))).
Proof.
  intros Hf. constructor; [done| |done|done]. mitm_cbn. intros fd' i H. right.
  apply lookup_alter_Some in H as [(-> & i0 & H & ->)|[_ H]]; eauto.
Qed.

Lemma effect_delete id x fd : effect id x (set_info x (delete fd (g_socket_info x))).
Proof.
  constructor; [done| |done|done]. mitm_cbn. intros fd' i H. right.
  apply lookup_delete_Some in H as [_ H]. eauto.
Qed.

Lemma effect_insert id x fd i :
  si_session_id i = id -> effect id x (set_info x (<[fd := i]> (g_socket_info x))).
Proof.
  intros Hi. constructor; [done| |done|done]. mitm_cbn. intros fd' i' H.
  apply lookup_insert_Some in H as [[_ <-]|[_ H]]; [by left|right; eauto].
Qed.

Lemma effect_copy id x fd new_fd : effect id x (copy_info x fd new_fd).
Proof.
  unfold copy_info. destruct (g_socket_info x !! fd) as [i|] eqn:E; [|apply effect_refl].
  constructor; [done| |done|done]. mitm_cbn. intros fd' i' H. right.
  apply lookup_insert_Some in H as [[_ <-]|[_ H]]; eauto.
Qed.

Lemma effect_proxy id x fd f :
  (forall s, ps_inv s -> ps_inv (f s)) ->
  effect id x (set_manager x (update_socket (g_manager x) fd f)).
Proof. intros Hf. apply effect_manager. intros H. by apply mgr_inv_update. Qed.
End frame.
#[export] Hint Resolve effect_refl effect_world effect_netmap effect_copy effect_delete : slp.

(** ** The operations of the manager a command uses *)
Section manager_ops.
Context {W : Type} {RO : RegistryOrder}.

(** A socket found is as good as the registry. *)
Lemma ps_inv_lookup m fd s : mgr_inv m -> m_sockets m !! fd = Some s -> ps_inv s.
Proof. intros (_ & H & _). eauto. Qed.
Lemma mgr_inv_set_socket m fd s : mgr_inv m -> ps_inv s -> mgr_inv (update_socket m fd (fun _ => s)).
Proof. intros. by apply mgr_inv_update. Qed.
Lemma ps_inv_bind s a : ps_inv s -> ps_inv (ProxySocket_Bind s a).1.
Proof. intros H. apply (ps_inv_step s (PsBind a)) in H. cbn [ps_step] in H. exact H. Qed.
End manager_ops.
#[export] Hint Resolve mgr_inv_create mgr_inv_allocate mgr_inv_reserve mgr_inv_release
  mgr_inv_set_socket ps_inv_bind : slp.

(** The command's own socket, replaced by a good one. *)
Lemma effect_set_proxy {W} id (x : Shared W) fd s :
  (mgr_inv (g_manager x) -> ps_inv s) -> effect id x (set_proxy x fd s).
Proof. intros Hs. apply effect_manager. intros H. apply mgr_inv_update; auto. Qed.

Lemma effect_finish {W} id (x : Shared W) m w fd s :
  (mgr_inv (g_manager x) -> mgr_inv m /\ ps_inv s) ->
  effect id x (set_proxy (set_gworld (set_manager x m) w) fd s).
Proof.
  intros H. constructor; [|intros fd' i E; right; eauto|done|done].
  unfold set_proxy. mitm_cbn. intros [Hm Hs]%H. by apply mgr_inv_set_socket.
Qed.

Section command_effects.
Context {W : Type} {RO : RegistryOrder}.
Variable fwd : FwdReq -> W -> W * Reply.
Variable call_data : Callback -> ProxyArgs -> bytes -> W -> W * bool.
Variable call_ctl : Callback -> ProxyArgs -> W -> W * bool.
Variable nifm_ip : W -> option (Z * Z).
Variable EnterLocalNetworkMode : W -> W * Z.
Implicit Types (x : Shared W) (v : BsdMitmService).

Lemma effect_dispatch id v x cmd words nout ins outs pid handles :
  effect id x (mitm_dispatch fwd v x cmd words nout ins outs pid handles).1.
Proof. unfold mitm_dispatch. destruct (fwd _ _). cbn [fst]. auto with slp. Qed.
#[local] Hint Resolve effect_dispatch : slp.

(** An outcome with a good effect on its own session. *)
Definition good (v : BsdMitmService) (x : Shared W) (o : BsdMitmService * Shared W * Reply) : Prop :=
  same_session v o.1.1 /\ effect (m_session_id v) x o.1.2.

Lemma same_count v : same_session v (count_command v).
Proof. done. Qed.
#[local] Hint Resolve same_count : slp.

Lemma good_count v x x' r : effect (m_session_id v) x x' -> good v x (count_command v, x', r).
Proof. done. Qed.
Lemma good_forward v x x' cmd words nout ins outs :
  effect (m_session_id v) x x' -> good v x (forward fwd v x' cmd words nout ins outs).
Proof.
  intros H. unfold forward. pose proof (effect_dispatch (m_session_id v) v x' cmd words nout ins outs None []) as Hd.
  destruct (mitm_dispatch _ _ _ _ _ _ _ _ _ _) as [x2 r]. split; [done|]. by eapply effect_trans.
Qed.
#[local] Hint Resolve good_count good_forward : slp.

(** A command that forwards, then works on the reply. *)
Lemma good_dispatch v v1 x x1 cmd words nout ins outs pid handles
    (k : Shared W -> Reply -> BsdMitmService * Shared W * Reply) :
  effect (m_session_id v) x x1 ->
  (forall x2 r, effect (m_session_id v) x x2 -> good v x (k x2 r)) ->
  good v x (let '(x2, r) := mitm_dispatch fwd v1 x1 cmd words nout ins outs pid handles in k x2 r).
Proof.
  intros H Hk. pose proof (effect_dispatch (m_session_id v) v1 x1 cmd words nout ins outs pid handles) as Hd.
  destruct (mitm_dispatch _ _ _ _ _ _ _ _ _ _) as [x2 r]. apply Hk. by eapply effect_trans.
Qed.

Lemma effect_track id v type protocol r x x2 :
  m_session_id v = id -> effect id x x2 -> effect id x (track_socket v type protocol r x2).
Proof.
  intros Hv H. unfold track_socket. case_match; [|done].
  eapply effect_trans; [exact H|]. by apply effect_insert.
Qed.

Lemma effect_inherit id fd r x x2 : effect id x x2 -> effect id x (inherit_fd fd r x2).
Proof.
  intros H. unfold inherit_fd. case_match; [|done]. eapply effect_trans; [exact H|]. auto with slp.
Qed.

Lemma effect_mark id x x2 fd : effect id x x2 -> effect id x (mark_proxy x2 fd).
Proof. intros H. eapply effect_trans; [exact H|]. by apply effect_alter. Qed.

(** Closing through the manager. *)
Lemma effect_close_proxy id x fd : effect id x (close_proxy call_ctl x fd).
Proof.
  unfold close_proxy. pose proof (mgr_inv_close call_ctl (g_manager x) fd (g_world x)) as H.
  destruct (CloseProxySocket _ _ _ _) as [[m w] b]. cbn [fst] in H.
  eapply effect_trans; [by apply effect_manager|auto with slp].
Qed.

Lemma good_Close fd v x : good v x (Close fwd call_ctl fd v x).
Proof.
  unfold Close. apply good_dispatch; [|done]. destruct (g_socket_info x !! fd) as [i|]; [|auto with slp].
  eapply effect_trans; [|auto with slp]. destruct (si_is_proxy i); [|auto with slp].
  apply (effect_close_proxy _ x fd).
Qed.

Lemma good_fcntl fd cmd arg v x : good v x (fcntl_forward fwd fd cmd arg v x).
Proof.
  unfold fcntl_forward. apply good_dispatch; [auto with slp|]. intros x2 r H. split; [done|]. cbn [fst snd].
  case_match; [|done]. eapply effect_trans; [exact H|auto with slp].
Qed.

(** Receives keep the socket sound, whatever other threads do meanwhile. *)
Lemma get_proxy_inv x fd s : mgr_inv (g_manager x) -> get_proxy x fd = Some s -> ps_inv s.
Proof. apply ps_inv_lookup. Qed.
Lemma data_proxy_get x fd s : data_proxy x fd = Some s -> get_proxy x fd = Some s.
Proof. unfold data_proxy. by case_match. Qed.

Lemma ps_inv_Recv env sig s b n flags :
  ps_inv s -> ps_inv (ProxySocket_Recv (env_wait env sig) s b n flags).1.
Proof. unfold ProxySocket_Recv. intros H. case_match; [|done]. by apply ps_inv_recv. Qed.

Lemma ps_inv_setsockopt s l o b n : ps_inv s -> ps_inv (ProxySocket_SetSockOpt s l o b n).1.
Proof. intros H. apply (ps_inv_step s (PsSetSockOpt l o b n)) in H. exact H. Qed.

Lemma ps_inv_broadcast s b : ps_inv s -> ps_inv (set_m_broadcast s b).
Proof. intros (Hr & Ha & Hl & Hm). ps_frame s. Qed.
Lemma ps_inv_nonblocking s b : ps_inv s -> ps_inv (set_m_non_blocking s b).
Proof. intros H. apply (ps_inv_step s (PsSetNonBlocking b)) in H. exact H. Qed.

(** ** Bind and connect *)

Lemma mgr_inv_bind_port m a protocol : mgr_inv m -> mgr_inv (bind_port m a protocol).1.
Proof.
  intros Hm. unfold bind_port. destruct (SockAddrIn_GetPort a =? 0).
  - pose proof (mgr_inv_allocate m protocol Hm) as H. destruct (Mgr_AllocatePort m protocol). cbn [fst] in H.
    by destruct (_ =? 0).
  - pose proof (mgr_inv_reserve m (SockAddrIn_GetPort a) protocol (bswap16_range _) Hm) as H.
    by destruct (Mgr_ReservePort m _ protocol).
Qed.

Lemma effect_lan_port_bound v x :
  let '(v', x') := lan_port_bound nifm_ip EnterLocalNetworkMode v x in
  same_session v v' /\ effect (m_session_id v) x x'.
Proof.
  unfold lan_port_bound. unfold TranslationEnabled. cbn [andb].
  destruct (negb _); [|split; [done|auto with slp]].
  destruct (EnterLocalNetworkMode (g_world x)) as [w rc]. split; [by case_match|auto with slp].
Qed.

Lemma good_Bind_proxy fd sa i v0 v x :
  same_session v0 v -> good v0 x (Bind_proxy nifm_ip EnterLocalNetworkMode fd sa i v x).
Proof.
  intros Hv. assert (m_session_id v = m_session_id v0) as Hid by apply Hv. unfold Bind_proxy.
  pose proof (mgr_inv_create (g_manager x) fd (si_type i) (si_protocol i)) as Hc.
  destruct (CreateProxySocket _ _ _ _) as [m p]. cbn [fst] in Hc.
  destruct p as [fd'|]; [|split; [done|by apply effect_manager]].
  set (m1 := if si_broadcast i then _ else m).
  assert (mgr_inv (g_manager x) -> mgr_inv m1) as H1.
  { intros H. apply Hc in H. unfold m1. destruct (si_broadcast i); [|done].
    apply mgr_inv_update; [done|]. intros s Hs. by apply ps_inv_broadcast. }
  set (sa' := if IpV4_IsAny _ && _ then _ else sa).
  pose proof (mgr_inv_bind_port m1 sa' (si_protocol i)) as Hb.
  destruct (bind_port m1 sa' (si_protocol i)) as [m2 bound]. cbn [fst] in Hb.
  destruct bound as [ba|]; [|split; [done|apply effect_manager; auto]].
  destruct (GetProxySocket m2 fd) as [s|] eqn:Es; [|split; [done|apply effect_manager; auto]].
  pose proof (ps_inv_bind s ba) as Hs. destruct (ProxySocket_Bind s ba) as [s' br]. cbn [fst] in Hs.
  set (x1 := set_proxy (set_manager x m2) fd s').
  assert (effect (m_session_id v0) x x1) as E1.
  { apply (effect_manager _ x). intros H. apply mgr_inv_set_socket; [auto|]. apply Hs.
    eapply ps_inv_lookup; [|exact Es]. auto. }
  destruct (negb _); [by split|]. set (x2 := mark_proxy x1 fd).
  assert (effect (m_session_id v0) x x2) as E2 by (by apply effect_mark).
  set (v1 := if m_mode v =? 0 then _ else v).
  assert (same_session v0 v1) as Hv1 by (unfold v1; repeat case_match; done).
  assert (m_session_id v1 = m_session_id v0) as Hid1 by apply Hv1.
  assert (forall v2 x3, same_session v0 v2 -> effect (m_session_id v0) x x3 ->
    good v0 x (v2, set_manager x3 (DeliverPendingPackets (g_netmap x3) (g_manager x3) (Some fd)
                (SockAddrIn_GetPort ba) (si_protocol i)), ok [0] [])) as Hend.
  { intros v2 x3 A B. split; [done|]. eapply effect_trans; [exact B|]. apply effect_manager.
    intros H. by apply mgr_inv_deliver. }
  destruct (SockAddrIn_GetPort ba =? 30000); [|by apply Hend].
  pose proof (effect_lan_port_bound v1 x2) as Hl. destruct (lan_port_bound _ _ _ _) as [v2 x3].
  destruct Hl as [A B]. apply Hend.
  - destruct Hv1 as (?&?&?), A as (?&?&?). unfold same_session. by split_and!; etransitivity.
  - rewrite Hid1 in B. by eapply effect_trans.
Qed.

(** The socket of a connect or of a first datagram. *)
Lemma mgr_inv_connect_proxy fd i m :
  mgr_inv m -> let '(m', p) := connect_proxy fd i m in
  mgr_inv m' /\ forall s, p = inr s -> ps_inv s.
Proof.
  intros Hm. unfold connect_proxy. destruct (GetProxySocket m fd) as [s|] eqn:Es.
  { split; [done|]. intros ? [= <-]. by eapply ps_inv_lookup. }
  pose proof (mgr_inv_create m fd (si_type i) (si_protocol i) Hm) as Hc.
  destruct (CreateProxySocket _ _ _ _) as [m1 p]. cbn [fst] in Hc. destruct p; [|done].
  pose proof (mgr_inv_allocate m1 (si_protocol i) Hc) as Ha.
  destruct (Mgr_AllocatePort m1 _) as [m2 port]. cbn [fst] in Ha. destruct (port =? 0); [done|].
  destruct (GetProxySocket m2 fd) as [s|] eqn:E2; [|done].
  pose proof (ps_inv_bind s (ephemeral_addr (Mgr_GetLocalIp m2) port)) as Hs.
  destruct (ProxySocket_Bind _ _) as [s' br]. cbn [fst] in Hs.
  assert (ps_inv s') as Hs' by (apply Hs; by eapply ps_inv_lookup).
  destruct (negb _); (split; [auto with slp|]); [done|]. by intros ? [= <-].
Qed.

Lemma mgr_inv_sendto_proxy fd i m : mgr_inv m -> mgr_inv (sendto_proxy fd i m).1.
Proof.
  intros Hm. unfold sendto_proxy. destruct (GetProxySocket m fd) as [s|] eqn:Es; [done|].
  pose proof (mgr_inv_create m fd (si_type i) (si_protocol i) Hm) as Hc.
  destruct (CreateProxySocket _ _ _ _) as [m1 p]. cbn [fst] in Hc. destruct p; [|done].
  pose proof (mgr_inv_allocate m1 (si_protocol i) Hc) as Ha.
  destruct (Mgr_AllocatePort m1 _) as [m2 port]. cbn [fst] in Ha. destruct (port =? 0); [done|].
  destruct (GetProxySocket m2 fd) as [s|] eqn:E2; [|done].
  pose proof (ps_inv_bind s (ephemeral_addr (Mgr_GetLocalIp m2) port)) as Hs.
  destruct (ProxySocket_Bind _ _) as [s' br]. cbn [fst] in *.
  apply mgr_inv_set_socket; [done|]. apply Hs. by eapply ps_inv_lookup.
Qed.

Lemma good_Connect env sig fd addr v x :
  good v x (BsdMitmService_Connect call_ctl (env_wait env sig) fd addr v x).
Proof.
  unfold BsdMitmService_Connect. destruct (lan_addr addr) as [sa|]; [|split; [done|auto with slp]].
  destruct (g_socket_info x !! fd) as [i|]; [|split; [done|auto with slp]].
  pose proof (mgr_inv_connect_proxy fd i (g_manager x)) as Hc.
  destruct (connect_proxy fd i (g_manager x)) as [m p].
  destruct p as [e|s]; [split; [done|by apply effect_manager; intros [Hm _]%Hc]|].
  match goal with |- context [ProxySocket_Connect ?f ?wt s sa ?w0] =>
    pose proof (ps_inv_connect f wt s sa w0) as Hk; destruct (ProxySocket_Connect f wt s sa w0) as [[s' w'] r] end.
  cbn [fst] in Hk.
  assert (effect (m_session_id v) x (set_proxy (set_gworld (set_manager x m) w') fd s')) as E.
  { apply effect_finish. intros [Hm Hs]%Hc. split; [done|].
    apply Hk; [|by intros; apply ps_inv_env_run|by apply Hs].
    intros a s0 w0 Hs0. by destruct (SendProxyConnect _ _ _ _). }
  destruct (negb _); (split; [done|]); [done|]. by apply effect_mark.
Qed.

Lemma good_set_proxy v x fd s r :
  (mgr_inv (g_manager x) -> ps_inv s) -> good v x (count_command v, set_proxy x fd s, r).
Proof. intros H. split; [done|]. by apply effect_set_proxy. Qed.

Lemma good_world v x w r : good v x (count_command v, set_gworld x w, r).
Proof. split; [done|]. apply effect_world. Qed.
#[local] Hint Resolve good_world good_Close good_fcntl good_Connect : slp.

Lemma effect_sendto_promote id fd x :
  let '(x', rc) := sendto_promote fd x in effect id x x'.
Proof.
  unfold sendto_promote. destruct (g_socket_info x !! fd) as [i|]; [|auto with slp].
  destruct (si_is_proxy i); [auto with slp|].
  pose proof (mgr_inv_sendto_proxy fd i (g_manager x)) as H.
  destruct (sendto_proxy fd i (g_manager x)) as [m rc]. cbn [fst] in H.
  destruct (negb _); [by apply effect_manager|]. apply effect_mark. by apply effect_manager.
Qed.

Lemma good_SendTo fd flags buffer addr v x :
  good v x (SendTo fwd call_data fd flags buffer addr v x).
Proof.
  unfold SendTo. set (lan := bool_decide _).
  assert (let '(x', rc) := if lan then sendto_promote fd x else (x, 0) in
          effect (m_session_id v) x x') as H.
  { destruct lan; [apply effect_sendto_promote|auto with slp]. }
  destruct (if lan then sendto_promote fd x else (x, 0)) as [x' rc]. cbv beta iota in H.
  destruct (negb _); [auto with slp|]. destruct (_ || lan); [|auto with slp].
  destruct (get_proxy x' fd) as [s|]; [|auto with slp]. destruct (read_addr addr); [|auto with slp].
  destruct (ProxySocket_SendTo _ _ _ _ _ _ _) as [w r]. apply good_count.
  eapply effect_trans; [exact H|auto with slp].
Qed.

Lemma good_Poll fds_in fds_out nfds timeout v x :
  good v x (Poll fwd fds_in fds_out nfds timeout v x).
Proof.
  unfold Poll. repeat (match goal with |- good _ _ (if ?b then _ else _) => destruct b end;
    [auto with slp|]).
  apply good_dispatch; [auto with slp|]. intros x2 r H. destruct (_ && _); [|done].
  by destruct (foldl _ _ _).
Qed.

Lemma good_Select nfds ins timeout outs v x :
  good v x (Select fwd nfds ins timeout outs v x).
Proof.
  unfold Select. destruct (foldl (select_step _ _) _ _) as [[[o n] hp] hr].
  repeat (match goal with |- good _ _ (if ?b then _ else _) => destruct b end; [auto with slp|]).
  apply good_dispatch; [auto with slp|]. intros x2 r H. destruct (_ && _); [|done].
  by destruct (foldl _ _ _).
Qed.

Ltac command :=
  match goal with
  | |- good _ _ (match data_proxy ?x ?fd with _ => _ end) =>
      destruct (data_proxy x fd) as [s|] eqn:Es; [apply data_proxy_get in Es|auto with slp]
  | |- good _ _ (match get_proxy ?x ?fd with _ => _ end) =>
      destruct (get_proxy x fd) as [s|] eqn:Es; [|auto with slp]
  | |- good _ _ (match mitm_dispatch _ _ _ _ _ _ _ _ _ _ with _ => _ end) =>
      apply good_dispatch; [auto with slp|intros ? ? ?; split; [try done|cbn [fst snd]]]
  | |- good _ _ (if ?b then _ else _) => destruct b; try solve [auto with slp]
  end.

(** Every command acts on its own session and within the frame. *)
Lemma run_cmd_good c v x :
  cmd_ok c ->
  good v x (run_cmd fwd call_data call_ctl nifm_ip EnterLocalNetworkMode c v x).
Proof.
  intros Hc. destruct c; cbn [run_cmd cmd_ok] in *;
    try (destruct Hc as (env & sig & ->)); auto with slp;
    try (apply good_forward; by auto with slp).
  - unfold RegisterClient. command; [by case_match|done].
  - unfold Socket. command. by apply effect_track.
  - unfold SocketExempt. command. by apply effect_track.
  - apply good_Select.
  - apply good_Poll.
  - unfold Recv. command.
    pose proof (ps_inv_Recv env sig s (bool_decide (is_Some buffer)) (buf_size buffer) flags) as H.
    destruct (ProxySocket_Recv _ _ _ _ _). apply good_set_proxy. intros Hm. by eapply H, get_proxy_inv.
  - unfold RecvFrom. command.
    pose proof (ps_inv_recv env sig s (bool_decide (is_Some buffer)) (buf_size buffer) flags true) as H.
    destruct (ProxySocket_RecvFrom _ _ _ _ _ _) as [s' r].
    destruct (rr_ret r <? 0); apply good_set_proxy; intros Hm; by eapply H, get_proxy_inv.
  - unfold Send. command. destruct (ProxySocket_Send _ _ _ _ _ _). auto with slp.
  - apply good_SendTo.
  - unfold Accept. command. by apply effect_inherit.
  - unfold Bind. destruct (bind_target x fd addr) as [[sa i]|]; [by apply good_Bind_proxy|auto with slp].
  - unfold GetPeerName. command. by destruct (negb _); auto with slp.
  - unfold GetSockName. command. auto with slp.
  - unfold GetSockOpt. command. destruct (ProxySocket_GetSockOpt _ _ _ _ _). auto with slp.
  - unfold Ioctl. command. destruct (request =? FIONREAD); auto with slp.
  - unfold Fcntl. command. destruct (cmd =? F_GETFL); [auto with slp|].
    destruct (cmd =? F_SETFL); [|destruct (is_dup cmd); auto with slp].
    apply good_set_proxy. intros Hm. by eapply ps_inv_nonblocking, get_proxy_inv.
  - unfold SetSockOpt. command.
    + pose proof (ps_inv_setsockopt s level optname optval (Z.of_nat (buf_size optval))) as H.
      destruct (ProxySocket_SetSockOpt _ _ _ _ _). apply good_set_proxy. intros Hm.
      by eapply H, get_proxy_inv.
    + apply good_forward. destruct (_ && _); [by apply effect_alter|auto with slp].
  - unfold Write. command. destruct (ProxySocket_Send _ _ _ _ _ _). auto with slp.
  - unfold Read. command.
    pose proof (ps_inv_Recv env sig s (bool_decide (is_Some buffer)) (buf_size buffer) 0) as H.
    destruct (ProxySocket_Recv _ _ _ _ _). apply good_set_proxy. intros Hm. by eapply H, get_proxy_inv.
  - unfold DuplicateSocket. command. by apply effect_inherit.
  - unfold RecvMMsg. destruct (is_proxy_fd x fd); auto with slp.
  - unfold SendMMsg. destruct (is_proxy_fd x fd); auto with slp.
  - unfold RegisterClientShared. command; [by case_match|done].
Qed.
End command_effects.

(** ** The sessions of the service *)
Section sessions.
Context {W : Type} {RO : RegistryOrder} {IO : InfoOrder}.
Variable fwd : FwdReq -> W -> W * Reply.
Variable call_data : Callback -> ProxyArgs -> bytes -> W -> W * bool.
Variable call_ctl : Callback -> ProxyArgs -> W -> W * bool.
Variable nifm_ip : W -> option (Z * Z).
Variable EnterLocalNetworkMode ExitLocalNetworkMode : W -> W * Z.
Variable IsApplicationId : Z -> bool.
Implicit Types (x : Shared W) (v : BsdMitmService) (s : Server (W := W)) (e : Event (W := W)).

Let step := server_step fwd call_data call_ctl nifm_ip EnterLocalNetworkMode ExitLocalNetworkMode
  IsApplicationId.
Let delete_service := BsdMitmService_delete call_ctl ExitLocalNetworkMode.
Definition server_run (s : Server) (evs : list Event) : Server := foldl step s evs.
Definition server_init (w : W) : Server := mkServer (Shared_init w) [].

(** What other threads do keeps the manager's invariant. *)
Definition event_ok e : Prop :=
  match e with
  | EvCmd _ c => cmd_ok c
  | EvOther f => forall m w, mgr_inv m -> mgr_inv (f m w).1
  | _ => True
  end.

(** ** The destructor *)
Lemma close_proxies_effect id fds x : effect id x (foldl (close_proxy call_ctl) x fds).
Proof.
  revert x; induction fds as [|fd fds IH]; intros x; cbn [foldl]; [apply effect_refl|].
  eapply effect_trans; [apply effect_close_proxy|apply IH].
Qed.
Lemma close_proxies_info fds x :
  g_socket_info (foldl (close_proxy call_ctl) x fds) = g_socket_info x.
Proof.
  revert x; induction fds as [|fd fds IH]; intros x; cbn [foldl]; [done|]. rewrite IH.
  unfold close_proxy. by destruct (CloseProxySocket _ _ _ _) as [[m w] b].
Qed.

Lemma release_pid_frame pid x :
  let x' := release_pid pid x in
  g_socket_info x' = g_socket_info x /\ g_manager x' = g_manager x /\
  s_next_session_id x' = s_next_session_id x.
Proof. unfold release_pid. repeat case_match; done. Qed.

Lemma delete_frame v x :
  let x' := delete_service v x in
  (forall fd, g_socket_info x' !! fd =
     i ← g_socket_info x !! fd;
     if si_session_id i =? m_session_id v then None else Some i) /\
  (mgr_inv (g_manager x) -> mgr_inv (g_manager x')) /\
  s_next_session_id x' = s_next_session_id x /\
  exists x1, x' = release_pid (m_client_pid v) x1 /\
    g_mitm_pid_live x1 = g_mitm_pid_live x /\ g_mitm_pid_skipped x1 = g_mitm_pid_skipped x.
Proof.
  unfold delete_service, BsdMitmService_delete.
  set (fds := fst <$> _). set (x1 := set_info x _).
  pose proof (close_proxies_effect (m_session_id v) fds x1) as [E1 _ [E2 E3] E4].
  pose proof (close_proxies_info fds x1) as E5. set (x2 := foldl _ x1 fds) in *.
  set (x3 := if m_entered_local_network_mode v then _ else x2).
  set (x4 := if negb (m_registered v) then _ else x3).
  assert (g_socket_info x4 = g_socket_info x1 /\ g_manager x4 = g_manager x2 /\
          s_next_session_id x4 = s_next_session_id x2 /\ g_mitm_pid_live x4 = g_mitm_pid_live x2 /\
          g_mitm_pid_skipped x4 = g_mitm_pid_skipped x2) as (F1 & F2 & F3 & F4 & F5).
  { rewrite <- E5. unfold x4, x3. repeat case_match; done. }
  destruct (release_pid_frame (m_client_pid v) x4) as (R1 & R2 & R3).
  split; [|split; [|split]].
  - intros fd. rewrite R1, F1. unfold x1. mitm_cbn. rewrite map_lookup_filter.
    destruct (g_socket_info x !! fd) as [i|]; [|done]. cbn [mbind option_bind].
    destruct (si_session_id i =? m_session_id v) eqn:E.
    + case_guard as Hg; [|done]. exfalso. cbn [snd] in Hg. by rewrite E in Hg.
    + case_guard as Hg; [done|]. exfalso. cbn [snd] in Hg. by rewrite E in Hg.
  - intros H. rewrite R2, F2. by apply E1.
  - by rewrite R3, F3, E4.
  - exists x4. split; [done|]. by rewrite F4, F5, E2, E3.
Qed.

(** ** The table of sockets *)

Record srv_inv (n : Z) s : Prop := {
  srv_manager : mgr_inv (g_manager (sv_shared s));
  srv_owned : forall fd i, g_socket_info (sv_shared s) !! fd = Some i ->
    si_session_id i ∈ m_session_id <$> sv_live s;
  srv_ids : NoDup (m_session_id <$> sv_live s);
  srv_next : 0 <= s_next_session_id (sv_shared s) <= n /\
    Forall (fun v => 0 < m_session_id v <= s_next_session_id (sv_shared s)) (sv_live s);
}.

Lemma ShouldMitm_frame running program_id pid x :
  let x' := (ShouldMitm IsApplicationId running program_id pid x).1 in
  g_socket_info x' = g_socket_info x /\ g_manager x' = g_manager x /\
  s_next_session_id x' = s_next_session_id x /\ g_world x' = g_world x.
Proof. unfold ShouldMitm. repeat case_match; done. Qed.

Lemma srv_inv_open n running program_id pid h s :
  n + 1 < 2 ^ 32 -> srv_inv n s -> srv_inv (n + 1) (step s (EvOpen running program_id pid h)).
Proof.
  intros Hn [H1 H2 H3 [H4 H5]]. unfold step. cbn [server_step].
  pose proof (ShouldMitm_frame running program_id pid (sv_shared s)) as (F1 & F2 & F3 & _).
  destruct (ShouldMitm _ _ _ _ _) as [x mitm]. cbn [fst] in *. destruct mitm.
  - unfold BsdMitmService_new. rewrite F3.
    assert (u32 (s_next_session_id (sv_shared s) + 1) = s_next_session_id (sv_shared s) + 1) as ->
      by (apply u32_id; unfold is_u32; eval_pow; lia).
    constructor; cbn [sv_shared sv_live]; mitm_cbn; rewrite ?fmap_app; cbn [fmap list_fmap m_session_id].
    + by rewrite F2.
    + intros fd i H. rewrite F1 in H. apply elem_of_app. left. eauto.
    + apply list.NoDup_app. split; [done|]. split; [|apply NoDup_singleton].
      intros id Hid ->%list_elem_of_singleton. apply list_elem_of_fmap in Hid as (v & E & Hv).
      eapply Forall_forall in H5; [|by apply list_elem_of_In]. lia.
    + split; [lia|]. apply Forall_app. split; [eapply Forall_impl; [|exact H5]; cbn; lia|].
      apply Forall_cons_2; [cbn; lia|apply Forall_nil_2].
  - constructor; cbn [sv_shared sv_live].
    + by rewrite F2.
    + intros fd i H. rewrite F1 in H. eauto.
    + done.
    + rewrite F3. split; [lia|done].
Qed.

Lemma srv_inv_cmd n i c s :
  cmd_ok c -> srv_inv n s -> srv_inv (n + 1) (step s (EvCmd i c)).
Proof.
  intros Hc Hs. pose proof Hs as [H1 H2 H3 [H4 H5]]. unfold step. cbn [server_step].
  destruct (sv_live s !! i) as [v|] eqn:Ev; [|by constructor; auto with lia].
  destruct (run_cmd_good fwd call_data call_ctl nifm_ip EnterLocalNetworkMode c v (sv_shared s) Hc)
    as [(S1 & _) [E1 E2 _ E4]].
  destruct (run_cmd _ _ _ _ _ _ _ _) as [[v' x'] r]. cbn [fst snd] in *.
  assert (m_session_id <$> <[i := v']> (sv_live s) = m_session_id <$> sv_live s) as Hids.
  { rewrite list_fmap_insert, S1. apply list_insert_id. by rewrite list_lookup_fmap, Ev. }
  constructor; cbn [sv_shared sv_live]; rewrite ?Hids.
  - auto.
  - intros fd k H. apply E2 in H as [->|(fd0 & i0 & H & <-)]; [|eauto].
    apply list_elem_of_fmap. exists v. split; [done|]. by eapply list_elem_of_lookup_2.
  - done.
  - rewrite E4. split; [lia|]. apply Forall_insert; [done|]. rewrite S1.
    exact (Forall_lookup_1 _ _ _ _ H5 Ev).
Qed.

Lemma srv_inv_close n i s : srv_inv n s -> srv_inv (n + 1) (step s (EvClose i)).
Proof.
  intros Hs. pose proof Hs as [H1 H2 H3 [H4 H5]]. unfold step. cbn [server_step].
  destruct (sv_live s !! i) as [v|] eqn:Ev; [|by constructor; auto with lia].
  destruct (delete_frame v (sv_shared s)) as (D1 & D2 & D3 & _). fold (delete_service).
  constructor; cbn [sv_shared sv_live].
  - auto.
  - intros fd k H. rewrite D1 in H. destruct (g_socket_info (sv_shared s) !! fd) as [k'|] eqn:Ek; [|done].
    cbn [mbind option_bind] in H. destruct (si_session_id k' =? m_session_id v) eqn:E; [done|].
    injection H as <-. apply H2 in Ek. apply list_elem_of_fmap in Ek as (u & E2 & Hu).
    apply list_elem_of_fmap. exists u. split; [done|].
    apply list_elem_of_lookup_1 in Hu as [j Hj]. destruct (decide (i = j)) as [->|Hne].
    + rewrite Ev in Hj. injection Hj as ->. lia.
    + apply list_elem_of_lookup. destruct (decide (j < i)%nat).
      * exists j. by rewrite list_lookup_delete_lt.
      * exists (j - 1)%nat. rewrite list_lookup_delete_ge by lia. by replace (S (j - 1)) with j by lia.
  - rewrite list_fmap_delete. eapply sublist_NoDup; [exact H3|apply sublist_delete].
  - rewrite D3. split; [lia|]. by apply Forall_delete.
Qed.

Lemma srv_inv_step n e s :
  event_ok e -> n + 1 < 2 ^ 32 -> srv_inv n s -> srv_inv (n + 1) (step s e).
Proof.
  intros He Hn Hs. destruct e as [running program_id pid h|i c|i| |f].
  - by apply srv_inv_open.
  - by apply srv_inv_cmd.
  - by apply srv_inv_close.
  - destruct Hs as [H1 H2 H3 [H4 H5]]. constructor; try done. split; [|done]. cbn -[Z.add]. mitm_cbn. lia.
  - destruct Hs as [H1 H2 H3 [H4 H5]]. unfold step. cbn [server_step event_ok] in *.
    pose proof (He (g_manager (sv_shared s)) (g_world (sv_shared s)) H1) as Hf.
    destruct (f _ _) as [m w]. constructor; cbn [sv_shared sv_live]; mitm_cbn; try done.
    split; [lia|done].
Qed.

Lemma srv_inv_run evs : forall n s,
  Forall event_ok evs -> n + Z.of_nat (length evs) < 2 ^ 32 -> srv_inv n s ->
  srv_inv (n + Z.of_nat (length evs)) (server_run s evs).
Proof.
  unfold server_run. induction evs as [|e evs IH]; intros n s He Hn Hs; cbn [foldl length] in *.
  { by rewrite Z.add_0_r. }
  apply Forall_cons_1 in He as [He Hevs]. replace (n + _) with (n + 1 + Z.of_nat (length evs)) by lia.
  apply IH; [done|lia|]. apply srv_inv_step; [done|lia|done].
Qed.

Lemma srv_inv_init w : srv_inv 0 (server_init w).
Proof.
  constructor; cbn [server_init sv_shared sv_live Shared_init g_manager g_socket_info s_next_session_id fmap list_fmap].
  - apply mgr_inv_init.
  - done.
  - apply NoDup_nil_2.
  - split; [lia|apply Forall_nil_2].
Qed.

(** ** The dummy session of a burst

    The abstract machine of the interception: the process of every live service,
    and the processes whose dummy session has been seen. *)
Record Bursts : Type := mkBursts { bu_live : list Z; bu_seen : gset Z }.
Definition eligible (running : bool) (program_id : Z) : bool :=
  running && negb (program_id =? OUR_PROGRAM_ID) && IsApplicationId program_id.
Definition burst_step (b : Bursts) (e : Event (W := W)) : Bursts :=
  match e with
  | EvOpen running program_id pid _ =>
      if eligible running program_id then
        if decide (pid ∈ bu_seen b) then mkBursts (bu_live b ++ [pid]) (bu_seen b)
        else mkBursts (bu_live b) ({[pid]} ∪ bu_seen b)
      else b
  | EvClose i =>
      match bu_live b !! i with
      | None => b
      | Some pid =>
          let live := delete i (bu_live b) in
          mkBursts live (if decide (pid <> 0 /\ pid ∉ live) then bu_seen b ∖ {[pid]} else bu_seen b)
      end
  | _ => b
  end.

(** How often a process occurs among the live services. *)
Definition services_of (pid : Z) (l : list Z) : Z := Z.of_nat (length (filter (fun p => p = pid) l)).

Record burst_rel (b : Bursts) s : Prop := {
  br_live : m_client_pid <$> sv_live s = bu_live b;
  br_seen : forall pid, g_mitm_pid_skipped (sv_shared s) !! pid =
    if decide (pid ∈ bu_seen b) then Some true else None;
  br_count : forall pid, pid <> 0 -> g_mitm_pid_live (sv_shared s) !! pid =
    if services_of pid (bu_live b) =? 0 then None else Some (services_of pid (bu_live b));
}.

Lemma services_of_app pid l k : services_of pid (l ++ k) = services_of pid l + services_of pid k.
Proof. unfold services_of. rewrite list.filter_app, length_app. lia. Qed.
Lemma services_of_one pid p : services_of pid [p] = if decide (p = pid) then 1 else 0.
Proof. unfold services_of. rewrite filter_cons. by case_decide. Qed.
Lemma services_of_delete pid i p l :
  l !! i = Some p -> services_of pid (delete i l) = services_of pid l - services_of pid [p].
Proof.
  intros H. rewrite <- (take_drop_middle l i p H) at 2. rewrite delete_take_drop.
  change (p :: drop (S i) l) with ([p] ++ drop (S i) l). rewrite !services_of_app. lia.
Qed.
Lemma services_of_zero pid l : services_of pid l = 0 <-> pid ∉ l.
Proof.
  unfold services_of. induction l as [|p l IH].
  { split; [intros _; apply not_elem_of_nil|done]. }
  rewrite filter_cons, not_elem_of_cons.
  destruct (decide (p = pid)) as [->|Hne]; cbn [length]; [split; [lia|tauto]|].
  rewrite IH. split; [|tauto]. intros H. split; [congruence|done].
Qed.
Lemma services_of_range pid l : 0 <= services_of pid l <= Z.of_nat (length l).
Proof. unfold services_of. pose proof (length_filter (fun p => p = pid) l). lia. Qed.

Lemma burst_open running program_id pid h b s :
  Z.of_nat (length (sv_live s)) + 1 < 2 ^ 32 -> burst_rel b s ->
  let e := EvOpen running program_id pid h in
  (ShouldMitm IsApplicationId running program_id pid (sv_shared s)).2 =
    eligible running program_id && bool_decide (pid ∈ bu_seen b) /\
  burst_rel (burst_step b e) (step s e).
Proof.
  intros Hn [H1 H2 H3]. unfold step. cbn [server_step burst_step]. unfold eligible, ShouldMitm.
  destruct running; [|by split; [|constructor]]. cbn [negb andb].
  destruct (program_id =? OUR_PROGRAM_ID); [by split; [|constructor]|]. cbn [negb andb].
  destruct (IsApplicationId program_id); [|by split; [|constructor]]. cbn [negb].
  rewrite H2. destruct (decide (pid ∈ bu_seen b)) as [Hin|Hin]; cbn [default from_option id negb].
  - rewrite bool_decide_true by done. split; [done|]. unfold BsdMitmService_new. mitm_cbn.
    constructor; cbn [sv_shared sv_live bu_live bu_seen]; mitm_cbn; [|done|].
    { rewrite fmap_app, H1. done. }
    intros q Hq. rewrite services_of_app, services_of_one.
    assert (length (bu_live b) = length (sv_live s)) as Hl by (by rewrite <- H1, length_fmap).
    pose proof (services_of_range pid (bu_live b)).
    destruct (decide (pid = q)) as [->|Hne].
    + rewrite lookup_insert_eq, H3 by done.
      replace (services_of q (bu_live b) + 1 =? 0) with false by lia. f_equal.
      destruct (services_of q (bu_live b) =? 0) eqn:E; cbn [default from_option id].
      * replace (services_of q (bu_live b)) with 0 by lia. done.
      * apply u32_id. unfold is_u32. eval_pow. lia.
    + rewrite lookup_insert_ne by done. rewrite Z.add_0_r. by apply H3.
  - rewrite bool_decide_false by done. split; [done|].
    constructor; cbn [sv_shared sv_live bu_live bu_seen]; mitm_cbn; try done.
    intros q. destruct (decide (q = pid)) as [->|Hne].
    + rewrite lookup_insert_eq. rewrite decide_True by set_solver. done.
    + rewrite lookup_insert_ne by done. rewrite H2. apply decide_ext. set_solver.
Qed.

Lemma burst_close i b s : burst_rel b s -> burst_rel (burst_step b (EvClose i)) (step s (EvClose i)).
Proof.
  intros [H1 H2 H3]. unfold step. cbn [server_step burst_step]. rewrite <- H1, list_lookup_fmap.
  destruct (sv_live s !! i) as [v|] eqn:Ev; cbn [fmap option_fmap option_map]; [|by constructor].
  destruct (delete_frame v (sv_shared s)) as (_ & _ & _ & x1 & E & L1 & L2).
  set (pid := m_client_pid v) in *. set (live := delete i _) in *.
  assert (bu_live b !! i = Some pid) as Hi by (by rewrite <- H1, list_lookup_fmap, Ev).
  assert (live = delete i (bu_live b)) as Hlive by (unfold live; by rewrite H1).
  assert (forall q, services_of q live = services_of q (bu_live b) - services_of q [pid]) as Hs.
  { intros q. rewrite Hlive. by apply services_of_delete. }
  assert (m_client_pid <$> delete i (sv_live s) = live) as Hl by (by rewrite list_fmap_delete).
  change (BsdMitmService_delete _ _ v (sv_shared s)) with (delete_service v (sv_shared s)).
  rewrite E. unfold release_pid. destruct (Z.eqb_spec pid 0) as [E0|E0].
  - constructor; cbn [sv_shared sv_live bu_live bu_seen]; [done| |].
    + intros q. rewrite L2. rewrite (decide_False (P := _ /\ _)) by tauto. apply H2.
    + intros q Hq. rewrite L1, Hs, services_of_one, decide_False by congruence. rewrite Z.sub_0_r. by apply H3.
  - assert (g_mitm_pid_live x1 !! pid = Some (services_of pid (bu_live b)) /\
            0 < services_of pid (bu_live b)) as [Hc Hpos].
    { pose proof (services_of_range pid (bu_live b)). pose proof (services_of_zero pid (bu_live b)) as Hz.
      apply list_elem_of_lookup_2 in Hi. rewrite L1, H3 by done.
      destruct (Z.eqb_spec (services_of pid (bu_live b)) 0); [tauto|]. split; [done|lia]. }
    rewrite Hc. pose proof (Hs pid) as Hp. rewrite services_of_one, decide_True in Hp by done.
    pose proof (services_of_zero pid live) as Hz.
    destruct (services_of pid (bu_live b) <=? 1) eqn:E1.
    + constructor; cbn [sv_shared sv_live bu_live bu_seen]; mitm_cbn; [done| |].
      * intros q. rewrite (decide_True (P := _ /\ _)) by (split; [done|apply Hz; lia]). rewrite L2.
        destruct (decide (q = pid)) as [->|Hne].
        -- rewrite lookup_delete_eq. rewrite decide_False by set_solver. done.
        -- rewrite lookup_delete_ne by done. rewrite H2. apply decide_ext. set_solver.
      * intros q Hq. rewrite L1. destruct (decide (q = pid)) as [->|Hne].
        -- rewrite lookup_delete_eq. replace (services_of pid live =? 0) with true by lia. done.
        -- rewrite lookup_delete_ne by done. rewrite Hs, services_of_one, decide_False by done.
           rewrite Z.sub_0_r. by apply H3.
    + constructor; cbn [sv_shared sv_live bu_live bu_seen]; mitm_cbn; [done| |].
      * intros q. rewrite (decide_False (P := _ /\ _)) by (intros [_ Hx]; apply Hz in Hx; lia).
        rewrite L2. apply H2.
      * intros q Hq. rewrite L1. destruct (decide (q = pid)) as [->|Hne].
        -- rewrite lookup_insert_eq. replace (services_of pid live =? 0) with false by lia. f_equal. lia.
        -- rewrite lookup_insert_ne by done. rewrite Hs, services_of_one, decide_False by done.
           rewrite Z.sub_0_r. by apply H3.
Qed.

Lemma burst_cmd i c b s :
  cmd_ok c -> burst_rel b s -> burst_rel b (step s (EvCmd i c)).
Proof.
  intros Hc [H1 H2 H3]. unfold step. cbn [server_step].
  destruct (sv_live s !! i) as [v|] eqn:Ev; [|by constructor].
  destruct (run_cmd_good fwd call_data call_ctl nifm_ip EnterLocalNetworkMode c v (sv_shared s) Hc)
    as [(_ & S2 & _) [_ _ [E1 E2] _]].
  destruct (run_cmd _ _ _ _ _ _ _ _) as [[v' x'] r]. cbn [fst snd] in *.
  constructor; cbn [sv_shared sv_live]; rewrite ?E1, ?E2; [|done|done].
  rewrite list_fmap_insert, S2, <- H1. apply list_insert_id. by rewrite list_lookup_fmap, Ev.
Qed.

Lemma step_live_length e s :
  (length (sv_live (step s e)) <= S (length (sv_live s)))%nat.
Proof.
  unfold step. destruct e as [running program_id pid h|i c|i| |f]; cbn [server_step].
  - destruct (ShouldMitm _ _ _ _ _) as [x []]; [|cbn [sv_live]; lia].
    destruct (BsdMitmService_new _ _ _). cbn [sv_live]. rewrite length_app. cbn [length]. lia.
  - destruct (sv_live s !! i); [|lia]. destruct (run_cmd _ _ _ _ _ _ _ _) as [[v' x'] r].
    cbn [sv_live]. rewrite length_insert. lia.
  - destruct (sv_live s !! i) eqn:E; [|lia]. cbn [sv_live]. rewrite length_delete by (by eexists). lia.
  - cbn [sv_live]. lia.
  - destruct (f _ _). cbn [sv_live]. lia.
Qed.

Lemma burst_run evs : forall b s,
  Forall event_ok evs -> Z.of_nat (length (sv_live s)) + Z.of_nat (length evs) < 2 ^ 32 ->
  burst_rel b s -> burst_rel (foldl burst_step b evs) (server_run s evs) /\
    (length (sv_live (server_run s evs)) <= length (sv_live s) + length evs)%nat.
Proof.
  unfold server_run. induction evs as [|e evs IH]; intros b s He Hn Hb; cbn [foldl length] in *.
  { split; [done|lia]. }
  apply Forall_cons_1 in He as [He Hevs]. pose proof (step_live_length e s) as Hl.
  destruct (IH (burst_step b e) (step s e)) as [A B]; [done|lia| |split; [done|lia]].
  destruct e as [running program_id pid h|i c|i| |f].
  - apply burst_open; [lia|done].
  - by apply burst_cmd.
  - by apply burst_close.
  - by destruct Hb.
  - destruct Hb. unfold step. cbn [server_step burst_step]. destruct (f _ _). by constructor.
Qed.

Lemma burst_init w : burst_rel (mkBursts [] ∅) (server_init w).
Proof.
  constructor; cbn [server_init sv_shared sv_live Shared_init g_mitm_pid_live g_mitm_pid_skipped bu_live bu_seen].
  - done.
  - intros pid. rewrite decide_False by set_solver. done.
  - done.
Qed.

(** ** Properties of the sessions *)

(** Over every history of sessions opened and closed and commands of any
    kind, whatever other threads do to the sockets meanwhile, the socket manager
    keeps its invariant (at most 64 well-formed sockets, ports and rings in
    order); session numbers are distinct; every tracked descriptor belongs to a
    live session; and the end of a session forgets exactly its own descriptors. *)
Theorem mitm_sessions evs w :
  Forall event_ok evs -> Z.of_nat (length evs) < 2 ^ 32 ->
  let s := server_run (server_init w) evs in
  mgr_inv (g_manager (sv_shared s)) /\ NoDup (m_session_id <$> sv_live s) /\
  (forall fd i, g_socket_info (sv_shared s) !! fd = Some i ->
     exists v, v ∈ sv_live s /\ m_session_id v = si_session_id i) /\
  forall k v, sv_live s !! k = Some v ->
    forall fd, g_socket_info (sv_shared (server_run s [EvClose k])) !! fd =
      i ← g_socket_info (sv_shared s) !! fd;
      if si_session_id i =? m_session_id v then None else Some i.
Proof.
  intros He Hn s. pose proof (srv_inv_run evs 0 (server_init w) He ltac:(lia) (srv_inv_init w)) as [H1 H2 H3 _].
  split; [done|]. split; [done|]. split.
  - intros fd i Hi. apply H2 in Hi. apply list_elem_of_fmap in Hi as (v & E & Hv). by exists v.
  - intros k v Hk fd. unfold server_run, step. cbn [foldl server_step]. rewrite Hk. cbn [sv_shared].
    apply delete_frame.
Qed.

(** C10: The dummy session.  The two process tables implement the abstract
    machine [burst_step]: of every burst of sessions of a game, from its first
    until none is left, exactly the first is passed through and all later ones
    are intercepted, and the next burst starts afresh; other programs are never
    intercepted.  The live counts are the numbers of live services. *)
Theorem ShouldMitm_bursts evs w running program_id pid :
  Forall event_ok evs -> Z.of_nat (length evs) < 2 ^ 32 - 1 ->
  let s := server_run (server_init w) evs in
  let b := foldl burst_step (mkBursts [] ∅) evs in
  burst_rel b s /\
  (ShouldMitm IsApplicationId running program_id pid (sv_shared s)).2 =
    eligible running program_id && bool_decide (pid ∈ bu_seen b).
Proof.
  intros He Hn s b. pose proof (eq_refl : length (sv_live (server_init w)) = 0%nat) as H0.
  destruct (burst_run evs (mkBursts [] ∅) (server_init w) He ltac:(lia) (burst_init w)) as [Hb Hl].
  split; [exact Hb|]. apply (burst_open running program_id pid 0); [unfold s; lia|exact Hb].
Qed.
End sessions.

(** ** Witnesses *)

(** A real service that answers every request with a fixed result. *)
Definition demo_fwd (words : list Z) : FwdReq -> unit -> unit * Reply :=
  fun _ w => (w, mkReply 0 words []).
Definition demo_data : Callback -> ProxyArgs -> bytes -> unit -> unit * bool := fun _ _ _ w => (w, true).
Definition demo_ctl : Callback -> ProxyArgs -> unit -> unit * bool := fun _ _ w => (w, false).
Definition demo_local_mode : unit -> unit * Z := fun w => (w, 0).
Definition demo_app (program_id : Z) : bool := program_id =? 0x0100152000022000.

(** A game opens two sessions, makes a UDP socket in the second, closes it, and
    opens two more. *)
Definition demo_events : list (Event (W := unit)) :=
  [EvOpen true 0x0100152000022000 80 1000; EvOpen true 0x0100152000022000 80 1001;
   EvCmd 0 (CSocket 2 SocketType_Dgram 0); EvOpen true 0x0100152000022000 80 1002].

Lemma mitm_sessions_witness :
  let s := server_run (demo_fwd [5; 0]) demo_data demo_ctl (fun _ => None) demo_local_mode
             demo_local_mode demo_app (server_init tt) demo_events in
  m_session_id <$> sv_live s = [1; 2] /\
  g_socket_info (sv_shared s) !! 5 = Some (mkInfo 2 17 false false 1) /\
  exists v, v ∈ sv_live s /\ m_session_id v = 1.
Proof.
  intros s. split; [reflexivity|]. split; [reflexivity|].
  apply (mitm_sessions (demo_fwd [5; 0]) demo_data demo_ctl (fun _ => None) demo_local_mode
           demo_local_mode demo_app demo_events tt) with (fd := 5) (i := mkInfo 2 17 false false 1).
  - repeat (apply Forall_cons_2; [exact I|]). apply Forall_nil_2.
  - cbn. lia.
  - reflexivity.
Defined.

(** After the two sessions end, the next one is passed through again. *)
Lemma ShouldMitm_bursts_witness :
  let run := server_run (demo_fwd [5; 0]) demo_data demo_ctl (fun _ => None) demo_local_mode
               demo_local_mode demo_app (server_init tt) in
  let answer evs := (ShouldMitm demo_app true 0x0100152000022000 80 (sv_shared (run evs))).2 in
  answer demo_events = true /\ answer (demo_events ++ [EvClose 1]) = true /\
  answer (demo_events ++ [EvClose 1; EvClose 0]) = false.
Proof.
  intros run answer.
  assert (forall evs, Forall event_ok evs -> Z.of_nat (length evs) < 2 ^ 32 - 1 ->
    answer evs = bool_decide (80 ∈ bu_seen (foldl (burst_step demo_app) (mkBursts [] ∅) evs))) as H.
  { intros evs He Hn.
    destruct (ShouldMitm_bursts (demo_fwd [5; 0]) demo_data demo_ctl (fun _ => None) demo_local_mode
                demo_local_mode demo_app evs tt true 0x0100152000022000 80 He Hn) as [_ H]. exact H. }
  split; [|split]; (rewrite H; [vm_compute; reflexivity| |cbn; lia]);
    unfold demo_events; cbn [app]; repeat (apply Forall_cons_2; [exact I|]); apply Forall_nil_2.
Defined.
