(* ===== verification/BsdCommands.v ===== *)
(** The commands of the bsd:u interception (BsdMitm.v): transparency for sockets
    that are not proxied, the promotion of a socket by [Bind], and a
    datagram from one game to another through both services. *)
From S2P Require Import Prelude Bytes IpAddr PortPool Ring ProxySocket SocketManager BsdMitm.

(** ** Transparency

    The pass-through service: the request each command makes of the real one,
    and what becomes of its answer. *)

(** Command number, words, number of reply words, in and out buffers. *)
Definition passthrough (c : Cmd) : Z * list Z * nat * list Buffer * list Buffer :=
  match c with
  | CRegisterClient config size _ => (0, config ++ [0; size], 1%nat, [], [])
  | CStartMonitoring pid => (1, [pid], 1%nat, [], [])
  | CSocket d t p => (2, [d; t; p], 2%nat, [], [])
  | CSocketExempt d t p => (3, [d; t; p], 2%nat, [], [])
  | COpen path => (4, [], 2%nat, [path], [])
  | CSelect n ins timeout outs =>
      (5, [n], 2%nat, [fs_read ins; fs_write ins; fs_error ins; timeout],
       [fs_read outs; fs_write outs; fs_error outs])
  | CPoll i o n timeout => (6, [n; timeout], 2%nat, [i], [o])
  | CSysctl name oi oo nv => (7, [], 1%nat, [name; oi; nv], [oo])
  | CRecv _ fd flags b => (8, [fd; flags], 2%nat, [], [b])
  | CRecvFrom _ fd flags b a => (9, [fd; flags], 3%nat, [], [b; a])
  | CSend fd flags b => (10, [fd; flags], 2%nat, [b], [])
  | CSendTo fd flags b a => (11, [fd; flags], 2%nat, [b; a], [])
  | CAccept fd a => (12, [fd], 2%nat, [], [a])
  | CBind fd a => (13, [fd], 1%nat, [a], [])
  | CConnect _ fd a => (14, [fd], 1%nat, [a], [])
  | CGetPeerName fd a => (15, [fd], 1%nat, [], [a])
  | CGetSockName fd a => (16, [fd], 1%nat, [], [a])
  | CGetSockOpt fd l o v => (17, [fd; l; o], 1%nat, [], [v])
  | CListen fd b => (18, [fd; b], 1%nat, [], [])
  | CIoctl fd r n i o => (19, [fd; r; n], 2%nat, [i], [o])
  | CFcntl fd c a => (20, [fd; c; a], 2%nat, [], [])
  | CSetSockOpt fd l o v => (21, [fd; l; o], 1%nat, [v], [])
  | CShutdown fd h => (22, [fd; h], 1%nat, [], [])
  | CShutdownAllSockets pid h => (23, [pid; h], 1%nat, [], [])
  | CWrite fd b => (24, [fd], 2%nat, [b], [])
  | CRead _ fd b => (25, [fd], 2%nat, [], [b])
  | CClose fd => (26, [fd], 1%nat, [], [])
  | CDuplicateSocket fd pid => (27, [fd; 0; pid], 2%nat, [], [])
  | CGetResourceStatistics o pid => (28, [pid], 1%nat, [], [o])
  | CRecvMMsg fd n flags t o => (29, [fd; n; flags; t], 2%nat, [], [o])
  | CSendMMsg fd n flags i => (30, [fd; n; flags], 2%nat, [i], [])
  | CEventFd i flags => (31, [i; flags; 0], 2%nat, [], [])
  | CRegisterResourceStatisticsName pid n => (32, [pid], 1%nat, [n], [])
  | CRegisterClientShared config size => (33, config ++ [0; size], 1%nat, [], [])
  end.

(** Registration speaks for the game's process and passes its memory on. *)
Definition passthrough_pid (v : BsdMitmService) (c : Cmd) : option Z :=
  match c with CRegisterClient _ _ _ | CRegisterClientShared _ _ => Some (m_client_pid v) | _ => None end.
Definition passthrough_handles (c : Cmd) : list Z :=
  match c with CRegisterClient _ _ h => [h] | _ => [] end.

Definition real_request (v : BsdMitmService) (c : Cmd) : FwdReq :=
  let '(cmd, words, _, ins, outs) := passthrough c in
  mkReq (m_forward_service v) cmd words ins (buf_size <$> outs) (passthrough_pid v c)
    (passthrough_handles c).

(** The words of a successful reply, of a fixed number; none on failure. *)
Definition reply_words (n : nat) (r : Reply) : list Z :=
  if re_rc r =? 0 then take n (re_words r ++ replicate n 0) else replicate n 0.

(** [Accept] and [DuplicateSocket] exchange the two words. *)
Definition swaps (c : Cmd) : bool :=
  match c with CAccept _ _ | CDuplicateSocket _ _ => true | _ => false end.
Definition real_answer (c : Cmd) (r : Reply) : Reply :=
  let '(_, _, n, _, _) := passthrough c in
  let w := reply_words n r in
  mkReply (re_rc r) (if swaps c then rev w else w) (re_bufs r).

(** The command meets no proxy socket and no LAN address. *)
Definition not_proxied {W} (c : Cmd) (x : Shared W) : Prop :=
  match c with
  | CSelect nfds ins _ _ => forall fd, 0 <= fd < nfds ->
      fd_isset fd (fs_read ins) || fd_isset fd (fs_write ins) || fd_isset fd (fs_error ins) = true ->
      get_proxy x fd = None
  | CPoll i o n _ => Forall (fun p => get_proxy x (pf_fd p) = None)
      (read_pollfds (poll_count n (buf_size (poll_copy i o))) (buf_data (poll_copy i o)))
  | CRecv _ fd _ _ | CRecvFrom _ fd _ _ _ | CSend fd _ _ | CWrite fd _ | CRead _ fd _ =>
      data_proxy x fd = None
  | CSendTo fd _ _ a => is_proxy_fd x fd = false /\ lan_addr a = None
  | CBind fd a => bind_target x fd a = None
  | CConnect _ _ _ => False
  | CGetPeerName fd _ | CGetSockName fd _ | CGetSockOpt fd _ _ _ | CSetSockOpt fd _ _ _
  | CIoctl fd _ _ _ _ | CFcntl fd _ _ => get_proxy x fd = None
  | CClose fd | CRecvMMsg fd _ _ _ _ | CSendMMsg fd _ _ _ => is_proxy_fd x fd = false
  | _ => True
  end.

Section transparency.
Context {W : Type}.
Variable fwd : FwdReq -> W -> W * Reply.
Variable call_data : Callback -> ProxyArgs -> bytes -> W -> W * bool.
Variable call_ctl : Callback -> ProxyArgs -> W -> W * bool.
Variable nifm_ip : W -> option (Z * Z).
Variable EnterLocalNetworkMode : W -> W * Z.
Context {RO : RegistryOrder}.
Implicit Types (x : Shared W) (v : BsdMitmService).

Let run := run_cmd fwd call_data call_ctl nifm_ip EnterLocalNetworkMode.

(** The outcome of a command served by the real session alone. *)
Definition served_by_real v x (c : Cmd) (o : BsdMitmService * Shared W * Reply) : Prop :=
  let '(w, r) := fwd (real_request v c) (g_world x) in
  o.2 = real_answer c r /\ g_world o.1.2 = w /\ g_manager o.1.2 = g_manager x /\
  g_netmap o.1.2 = g_netmap x.

Lemma reply_words_length n r : length (reply_words n r) = n.
Proof.
  unfold reply_words. case_match; [|apply length_replicate].
  rewrite length_take, length_app, length_replicate. lia.
Qed.
Lemma two_words r : let w := reply_words 2 r in w = [default 0 (w !! 0%nat); default 0 (w !! 1%nat)].
Proof.
  pose proof (reply_words_length 2 r) as H. cbv zeta.
  destruct (reply_words 2 r) as [|a [|b [|c l]]]; done.
Qed.

Lemma served_forward v x x' cmd words n ins outs c :
  passthrough c = (cmd, words, n, ins, outs) -> passthrough_pid v c = None ->
  passthrough_handles c = [] -> swaps c = false ->
  g_world x' = g_world x -> g_manager x' = g_manager x -> g_netmap x' = g_netmap x ->
  served_by_real v x c (forward fwd v x' cmd words n ins outs).
Proof.
  intros H1 H2 H3 H4 E1 E2 E3. unfold served_by_real, real_request, real_answer.
  rewrite H1, H2, H3, H4. unfold forward, mitm_dispatch. rewrite E1. by destruct (fwd _ _).
Qed.

(** A command that forwards, then works on two words of the reply. *)
Lemma served_dispatch v v' x cmd words n ins outs pid handles c
    (k : Shared W -> Reply -> BsdMitmService * Shared W * Reply) :
  m_forward_service v' = m_forward_service v -> passthrough c = (cmd, words, n, ins, outs) -> passthrough_pid v c = pid ->
  passthrough_handles c = handles ->
  (forall w r, let o := k (set_gworld x w) (mkReply (re_rc r) (reply_words n r) (re_bufs r)) in
     o.2 = real_answer c r /\ g_world o.1.2 = w /\ g_manager o.1.2 = g_manager x /\
     g_netmap o.1.2 = g_netmap x) ->
  served_by_real v x c
    (let '(x2, r) := mitm_dispatch fwd v' x cmd words n ins outs pid handles in k x2 r).
Proof.
  intros H0 H1 H2 H3 Hk. unfold served_by_real, real_request, mitm_dispatch. rewrite H0, H1, H2, H3.
  destruct (fwd _ _) as [w r]. apply (Hk w r).
Qed.

Lemma track_same v type protocol r x :
  let x' := track_socket v type protocol r x in
  g_world x' = g_world x /\ g_manager x' = g_manager x /\ g_netmap x' = g_netmap x.
Proof. unfold track_socket. by case_match. Qed.
Lemma inherit_same fd r x :
  let x' := inherit_fd fd r x in
  g_world x' = g_world x /\ g_manager x' = g_manager x /\ g_netmap x' = g_netmap x.
Proof. unfold inherit_fd, copy_info. by repeat case_match. Qed.

Lemma clear_buf_size b : buf_size (clear_buf b) = buf_size b.
Proof. destruct b; [apply length_replicate|done]. Qed.

(** Without proxy sockets [Select] only finds real ones. *)
Lemma select_none x ins o fds :
  (forall fd, fd ∈ fds ->
     fd_isset fd (fs_read ins) || fd_isset fd (fs_write ins) || fd_isset fd (fs_error ins) = true ->
     get_proxy x fd = None) ->
  forall hr, exists hr', foldl (select_step x ins) (o, 0, false, hr) fds = (o, 0, false, hr').
Proof.
  induction fds as [|fd fds IH]; intros H hr; cbn [foldl]; [by exists hr|].
  assert (exists hr', select_step x ins (o, 0, false, hr) fd = (o, 0, false, hr')) as [hr' ->].
  { cbn [select_step]. destruct (_ && _) eqn:E; [by eexists|]. rewrite H; [by eexists|by left|].
    destruct (fd_isset fd (fs_read ins)), (fd_isset fd (fs_write ins)), (fd_isset fd (fs_error ins)); done. }
  apply IH. intros fd' Hin. apply H. by right.
Qed.

Lemma served_Select v x nfds ins timeout outs :
  not_proxied (CSelect nfds ins timeout outs) x ->
  served_by_real v x (CSelect nfds ins timeout outs) (Select fwd nfds ins timeout outs v x).
Proof.
  intros H. unfold Select. destruct (select_none x ins (mkFdSets (clear_buf (fs_read outs))
    (clear_buf (fs_write outs)) (clear_buf (fs_error outs))) (fd_range nfds)) with (hr := false) as [hr ->].
  { intros fd Hin. apply H. unfold fd_range in Hin. apply elem_of_seqZ in Hin. lia. }
  cbn [andb]. unfold served_by_real, real_request, mitm_dispatch.
  cbn [passthrough passthrough_pid passthrough_handles fs_read fs_write fs_error fmap list_fmap app].
  rewrite !clear_buf_size. by destruct (fwd _ _).
Qed.

Lemma write_pollfds_length l b :
  (length l * 8 <= length b)%nat -> length (write_pollfds l b) = length b.
Proof.
  intros H. unfold write_pollfds. apply overwrite_length. etransitivity; [|exact H].
  clear H. induction l as [|p l IH]; [done|]. cbn [flat_map length].
  rewrite !length_app, !le_enc_length. lia.
Qed.

Lemma read_pollfds_length n b : length (read_pollfds n b) = n.
Proof. revert b; induction n as [|n IH]; intros b; [done|]. cbn [read_pollfds length]. by rewrite IH. Qed.

Lemma poll_count_cap nfds size : (poll_count nfds size * 8 <= size)%nat.
Proof.
  unfold poll_count. pose proof (Nat.div_mod_eq size 8).
  case_match; lia.
Qed.

Lemma poll_copy_size i o : buf_size (poll_copy i o) = buf_size o.
Proof.
  unfold poll_copy. case_match; [|done]. destruct o; [|done]. cbn [fmap option_fmap option_map].
  unfold buf_size in *. cbn [buf_data default from_option id] in *. apply overwrite_length. lia.
Qed.

Lemma served_Poll v x i o n timeout :
  not_proxied (CPoll i o n timeout) x ->
  served_by_real v x (CPoll i o n timeout) (Poll fwd i o n timeout v x).
Proof.
  intros H. unfold Poll. cbn [not_proxied] in H. set (l := read_pollfds _ _) in *.
  assert (existsb (is_proxy_entry x) (poll_entry x <$> l) = false) as ->.
  { clearbody l. induction H as [|p l Hp _ IH]; [done|]. cbn [fmap list_fmap existsb].
    unfold is_proxy_entry at 1. cbn [poll_entry set_revents pf_fd]. rewrite Hp. exact IH. }
  cbn [andb]. unfold served_by_real, real_request, mitm_dispatch.
  cbn [passthrough passthrough_pid passthrough_handles fmap list_fmap].
  assert (buf_size (write_pollfds (poll_entry x <$> l) <$> poll_copy i o) = buf_size o) as ->.
  { rewrite <- (poll_copy_size i o). unfold buf_size.
    destruct (poll_copy i o) as [d|] eqn:E; [|done]. cbn [fmap option_fmap option_map buf_data default from_option id].
    apply write_pollfds_length. unfold l. rewrite length_fmap, read_pollfds_length.
    apply poll_count_cap. }
  by destruct (fwd _ _).
Qed.

Ltac served_plain := apply served_forward; done.

(** A reply of two words whose descriptor is then tracked. *)
Ltac served_tracked same x :=
  apply served_dispatch; [done..|]; intros w r;
  destruct (same (mkReply (re_rc r) (reply_words 2 r) (re_bufs r)) (set_gworld x w)) as (E1 & E2 & E3);
  split; [|done]; unfold real_answer; cbn; by rewrite (two_words r).

Lemma served_Close v x fd : is_proxy_fd x fd = false -> served_by_real v x (CClose fd) (run (CClose fd) v x).
Proof.
  intros H. unfold run. cbn [run_cmd]. unfold Close. unfold is_proxy_fd in H.
  set (x1 := match g_socket_info x !! fd with Some _ => _ | None => x end).
  assert (g_world x1 = g_world x /\ g_manager x1 = g_manager x /\ g_netmap x1 = g_netmap x) as (E1 & E2 & E3).
  { unfold x1. destruct (g_socket_info x !! fd) as [i|]; [|done]. by rewrite H. }
  clearbody x1. unfold served_by_real, mitm_dispatch. rewrite E1. cbn. by destruct (fwd _ _).
Qed.

End transparency.


(** ** Bind *)

(** The proxy socket a game's socket becomes. *)
Definition bound_socket (i : SocketInfo) (sa : SockAddrIn) : ProxySocket :=
  set_m_state (set_m_local_addr (set_m_broadcast (ProxySocket_new (si_type i) (si_protocol i))
    (si_broadcast i)) sa) Bound.

Lemma any_not_lan sa : IpV4_IsAny (SockAddrIn_Addr sa) && SockAddrIn_IsLanAddress sa = false.
Proof.
  unfold IpV4_IsAny, SockAddrIn_Addr, SockAddrIn_IsLanAddress, IpV4_FromNetwork. cbn [m_numeric].
  destruct (Z.eqb_spec (bswap32 (sin_addr sa)) 0) as [->|]; [reflexivity|done].
Qed.

Lemma bind_target_inet {W} (x : Shared W) fd addr sa i :
  bind_target x fd addr = Some (sa, i) ->
  sin_family sa = AddressFamily_Inet /\ g_socket_info x !! fd = Some i.
Proof.
  unfold bind_target. intros H. apply bind_Some in H as (sa' & _ & H).
  destruct (sin_family sa' =? AddressFamily_Inet) eqn:E; [|done]. cbn [negb] in H.
  apply bind_Some in H as (i' & Hi & H). destruct (_ || _); [|done]. injection H as -> ->.
  split; [lia|done].
Qed.

Section bind.
Context {W : Type} {RO : RegistryOrder}.
Variable fwd : FwdReq -> W -> W * Reply.
Variable nifm_ip : W -> option (Z * Z).
Variable EnterLocalNetworkMode : W -> W * Z.
Implicit Types (x : Shared W) (v : BsdMitmService).

Let Bind := Bind fwd nifm_ip EnterLocalNetworkMode.

(** A socket that is not proxied yet, and room for it. *)
Definition bindable x fd addr sa i : Prop :=
  mgr_inv (g_manager x) /\ bind_target x fd addr = Some (sa, i) /\
  get_proxy x fd = None /\ (size (m_sockets (g_manager x)) < MAX_PROXY_SOCKETS)%nat /\
  SockAddrIn_GetPort sa <> 0.

(** The world after the bind: port 30000 enters local network mode, once. *)
Definition bind_world v sa (w : W) : W :=
  if (SockAddrIn_GetPort sa =? 30000) && negb (m_entered_local_network_mode v)
  then (EnterLocalNetworkMode w).1 else w.

Lemma lan_port_bound_eq v x :
  exists v', lan_port_bound nifm_ip EnterLocalNetworkMode v x =
    (v', set_gworld x (if negb (m_entered_local_network_mode v)
                       then (EnterLocalNetworkMode (g_world x)).1 else g_world x)).
Proof.
  unfold lan_port_bound, TranslationEnabled. cbn [andb]. destruct (negb _).
  - destruct (EnterLocalNetworkMode (g_world x)) as [w rc]. by eexists.
  - exists v. by destruct x.
Qed.

Lemma Bind_taken fd addr v x sa i :
  bindable x fd addr sa i ->
  (Mgr_ReservePort (g_manager x) (SockAddrIn_GetPort sa) (si_protocol i)).2 = false ->
  Bind fd addr v x =
    (count_command v,
     set_manager x (set_m_sockets (g_manager x)
       (<[fd := set_m_broadcast (ProxySocket_new (si_type i) (si_protocol i)) (si_broadcast i)]>
          (m_sockets (g_manager x)))),
     fail_errno E_AddrInUse).
Proof.
  intros (Hm & Ht & Hnone & Hsz & Hp) Hr. unfold Bind, BsdMitm.Bind. rewrite Ht. unfold Bind_proxy, CreateProxySocket.
  unfold get_proxy, GetProxySocket in Hnone. rewrite Hnone.
  destruct (_ <=? _)%nat eqn:El; [lia|]. clear El. rewrite any_not_lan.
  set (m1 := if si_broadcast i then _ else _).
  assert (m1 = set_m_sockets (g_manager x)
       (<[fd := set_m_broadcast (ProxySocket_new (si_type i) (si_protocol i)) (si_broadcast i)]>
          (m_sockets (g_manager x)))) as E1.
  { unfold m1. destruct (si_broadcast i); [|done]. unfold update_socket. sm_cbn.
    by rewrite alter_insert_eq. }
  rewrite E1. clear m1 E1. unfold bind_port. rewrite (proj2 (Z.eqb_neq _ _) Hp).
  unfold Mgr_ReservePort in *. sm_cbn.
  destruct (Pool_AllocateSpecificPort _ _ _) as [pool ok] eqn:E. cbn [snd] in Hr. subst ok.
  unfold Pool_AllocateSpecificPort in E. destruct (_ <=? _); [done|]. case_decide; [|done].
  injection E as <-. by destruct (g_manager x).
Qed.

(** The successful bind: the registry, the pending packets, the world. *)
Lemma Bind_free fd addr v x sa i :
  bindable x fd addr sa i ->
  (Mgr_ReservePort (g_manager x) (SockAddrIn_GetPort sa) (si_protocol i)).2 = true ->
  let m := g_manager x in
  let mine := for_port (SockAddrIn_GetPort sa) (si_protocol i) in
  let '(v', x', r) := Bind fd addr v x in
  r = ok [0] [] /\ g_world x' = bind_world v sa (g_world x) /\ g_netmap x' = g_netmap x /\
  g_socket_info x' = alter set_is_proxy fd (g_socket_info x) /\
  m_sockets (g_manager x') =
    <[fd := foldl (deliver_one (g_netmap x)) (bound_socket i sa) (filter mine (pending_queue m))]>
      (m_sockets m) /\
  pending_queue (g_manager x') = filter (fun p => negb (mine p)) (pending_queue m) /\
  m_port_pool (g_manager x') = m_port_pool (Mgr_ReservePort m (SockAddrIn_GetPort sa) (si_protocol i)).1 /\
  m_send_callback (g_manager x') = m_send_callback m /\ m_local_ip (g_manager x') = m_local_ip m.
Proof.
  intros (Hm & Ht & Hnone & Hsz & Hp) Hr m mine. unfold Bind, BsdMitm.Bind. rewrite Ht.
  destruct (bind_target_inet _ _ _ _ _ Ht) as [Hf _].
  unfold Bind_proxy, CreateProxySocket. unfold get_proxy, GetProxySocket in Hnone. rewrite Hnone.
  destruct (_ <=? _)%nat eqn:El; [lia|]. clear El. rewrite any_not_lan. fold m.
  set (s0 := set_m_broadcast (ProxySocket_new (si_type i) (si_protocol i)) (si_broadcast i)).
  set (m1 := if si_broadcast i then _ else _).
  assert (m1 = set_m_sockets m (<[fd := s0]> (m_sockets m))) as E1.
  { unfold m1, s0. destruct (si_broadcast i); [|done]. unfold update_socket. sm_cbn.
    by rewrite alter_insert_eq. }
  rewrite E1. clear m1 E1. unfold bind_port. rewrite (proj2 (Z.eqb_neq _ _) Hp).
  unfold Mgr_ReservePort in *. sm_cbn. fold m in Hr.
  destruct (Pool_AllocateSpecificPort (m_port_pool m) _ _) as [pool ok] eqn:E. cbn [snd fst] in *. subst ok.
  unfold GetProxySocket. sm_cbn. rewrite lookup_insert_eq.
  assert (ProxySocket_Bind s0 sa = (bound_socket i sa, 0)) as ->.
  { unfold ProxySocket_Bind, s0. rewrite Hf. done. }
  cbn [negb Z.eqb].
  set (x1 := mark_proxy _ fd).
  assert (g_manager x1 = set_m_port_pool (set_m_sockets m (<[fd := bound_socket i sa]> (m_sockets m))) pool /\
          g_world x1 = g_world x /\ g_netmap x1 = g_netmap x /\
          g_socket_info x1 = alter set_is_proxy fd (g_socket_info x)) as (X1 & X2 & X3 & X4).
  { unfold x1, mark_proxy, set_proxy, update_socket. mitm_cbn. sm_cbn. rewrite alter_insert_eq. done. }
  set (v1 := if m_mode (count_command v) =? 0 then _ else _).
  assert (m_entered_local_network_mode v1 = m_entered_local_network_mode v) as Hv
    by (unfold v1; by repeat case_match).
  clearbody v1.
  assert (exists v2 x2, (if SockAddrIn_GetPort sa =? 30000
            then lan_port_bound nifm_ip EnterLocalNetworkMode v1 x1 else (v1, x1)) = (v2, x2) /\
          x2 = set_gworld x1 (bind_world v sa (g_world x))) as (v2 & x2 & E2 & ->).
  { unfold bind_world. destruct (SockAddrIn_GetPort sa =? 30000); cbn [andb].
    - destruct (lan_port_bound_eq v1 x1) as [v2 ->]. exists v2. eexists. split; [done|]. by rewrite Hv, X2.
    - exists v1, x1. split; [done|]. rewrite <- X2. by destruct x1. }
  rewrite E2. mitm_cbn. rewrite X1, X3, X4. clear E2 X1 X2 X3 X4 x1.
  set (m2 := set_m_port_pool _ pool).
  destruct (DeliverPendingPackets_eq (g_netmap x) m2 fd (bound_socket i sa) (SockAddrIn_GetPort sa)
              (si_protocol i)) as (D1 & D2 & _ & D4).
  { unfold m2. sm_cbn. apply lookup_insert_eq. }
  { unfold m2. sm_cbn. apply Hm. }
  split; [done|]. split; [done|]. split; [done|]. split; [done|]. rewrite D2, D1, D4.
  unfold m2. sm_cbn. rewrite insert_insert_eq. done.
Qed.


(** A failed [Bind] poisons the descriptor.  The proxy socket left behind by
    a refused port is not removed by [Close], since the descriptor was never
    marked: after it, whatever socket the real service gives the same number,
    the leftover answers for it, e.g. [GetSockName] says 0.0.0.0:0 without
    asking the real service. *)
Theorem Bind_failure_leaks call_ctl fd addr v x sa i :
  bindable x fd addr sa i -> si_is_proxy i = false ->
  (Mgr_ReservePort (g_manager x) (SockAddrIn_GetPort sa) (si_protocol i)).2 = false ->
  let '(v1, x1, r1) := Bind fd addr v x in
  let '(v2, x2, _) := Close fwd call_ctl fd v1 x1 in
  r1 = fail_errno E_AddrInUse /\ g_socket_info x2 !! fd = None /\
  forall out v', GetSockName fwd fd out v' x2 =
    (count_command v', x2, ok [0] [write_addr out inet_any]).
Proof.
  intros H Hi Hr. rewrite (Bind_taken fd addr v x sa i H Hr). pose proof H as (_ & Ht & _).
  destruct (bind_target_inet _ _ _ _ _ Ht) as [_ Hinfo].
  unfold Close. mitm_cbn. rewrite Hinfo, Hi. unfold mitm_dispatch. destruct (fwd _ _) as [w r].
  split; [done|]. mitm_cbn. split; [apply lookup_delete_eq|].
  intros out v'. unfold GetSockName, get_proxy, GetProxySocket. mitm_cbn. sm_cbn.
  rewrite lookup_insert_eq. done.
Qed.
End bind.

(** ** A connect the callback refuses *)
Lemma connect_proxy_found fd i m m' s :
  connect_proxy fd i m = (m', inr s) -> is_Some (m_sockets m' !! fd).
Proof.
  unfold connect_proxy, GetProxySocket. destruct (m_sockets m !! fd) as [s0|] eqn:E; [by intros [= <- _]; rewrite E|].
  pose proof (create_lookup m fd (si_type i) (si_protocol i)) as Hc.
  destruct (CreateProxySocket _ _ _ _) as [m1 [fd'|]]; [|done]. unfold Mgr_AllocatePort.
  destruct (Pool_AllocatePort _ _) as [pl port]. destruct (port =? 0); [done|].
  change (m_sockets (set_m_port_pool m1 pl)) with (m_sockets m1). destruct Hc as [_ [s1 Hs1]]. rewrite Hs1.
  destruct (ProxySocket_Bind _ _) as [s2 br]. destruct (negb _); [done|]. intros [= <- _].
  unfold update_socket. sm_cbn. rewrite lookup_alter_eq, Hs1. by eexists.
Qed.

(** The connect fails at once, transmits nothing, and leaves the proxy socket it
    needed behind unmarked, so that [Close] keeps it and its port. *)
Lemma Connect_refused {W} (fwd : FwdReq -> W -> W * Reply) call_ctl
    (refuses : forall (cb : Callback) (a : ProxyArgs) (w : W), call_ctl cb a w = (w, false))
    wait fd addr v (x : Shared W) sa i m s :
  lan_addr addr = Some sa -> g_socket_info x !! fd = Some i -> si_is_proxy i = false ->
  connect_proxy fd i (g_manager x) = (m, inr s) ->
  m_type s = SocketType_Stream -> m_state s <> Closed ->
  let '(v1, x1, r1) := BsdMitmService_Connect call_ctl wait fd addr v x in
  let '(v2, x2, _) := Close fwd call_ctl fd v1 x1 in
  r1 = ok [errno E_NetUnreach] [] /\ g_world x1 = g_world x /\
  g_socket_info x2 !! fd = None /\ is_Some (m_sockets (g_manager x2) !! fd) /\
  m_port_pool (g_manager x2) = m_port_pool m.
Proof.
  intros Ha Hi Hp Hc Ht Hs. pose proof (connect_proxy_found _ _ _ _ _ Hc) as [s0 Hs0].
  assert (sin_family sa = AddressFamily_Inet) as Hf.
  { unfold lan_addr in Ha. apply bind_Some in Ha as (a & _ & Ha).
    destruct (sin_family a =? AddressFamily_Inet) eqn:E; [|done]. cbn [andb] in Ha.
    destruct (SockAddrIn_IsLanAddress a); [|done]. injection Ha as ->. by apply Z.eqb_eq. }
  assert (exists s', ProxySocket_Connect (fun a s w => let '(w, sent) := SendProxyConnect call_ctl m a w in (s, w, sent))
    wait s sa (g_world x) = (s', g_world x, errno E_NetUnreach)) as [s' Hcn].
  { unfold ProxySocket_Connect. rewrite bool_decide_false, Hf, Z.eqb_refl by done. cbn [negb].
    change (m_type (set_m_remote_addr s sa)) with (m_type s). rewrite Ht, Z.eqb_refl. cbv zeta.
    assert (forall a, SendProxyConnect call_ctl m a (g_world x) = (g_world x, false)) as Hr
      by (intros a; unfold SendProxyConnect; case_match; [apply refuses|done]).
    rewrite Hr. by eexists. }
  unfold BsdMitmService_Connect. rewrite Ha, Hi, Hc, Hcn. cbn [negb Z.eqb errno].
  unfold Close, set_proxy. mitm_cbn. rewrite Hi, Hp. unfold mitm_dispatch. destruct (fwd _ _) as [w r]. mitm_cbn.
  split; [done|]. split; [done|]. split; [apply lookup_delete_eq|]. split; [|done].
  unfold update_socket. sm_cbn. rewrite lookup_alter_eq, Hs0. by eexists.
Qed.

(** ** A datagram between two games *)
Lemma deliver_fields nm l s :
  let s' := foldl (deliver_one nm) s l in
  m_state s' = m_state s /\ m_local_addr s' = m_local_addr s /\ m_protocol s' = m_protocol s /\
  m_shutdown_write s' = m_shutdown_write s.
Proof. revert s; induction l as [|p l IH]; intros s; [done|]. apply (IH (deliver_one nm s p)). Qed.

Lemma bound_socket_eq i sa :
  sin_family sa = AddressFamily_Inet ->
  ProxySocket_Bind (set_m_broadcast (ProxySocket_new (si_type i) (si_protocol i)) (si_broadcast i)) sa =
  (bound_socket i sa, 0).
Proof. intros Hf. unfold ProxySocket_Bind. rewrite Hf. reflexivity. Qed.
Lemma bound_socket_inv i sa : sin_family sa = AddressFamily_Inet -> ps_inv (bound_socket i sa).
Proof.
  intros Hf. pose proof (bound_socket_eq i sa Hf) as H.
  rewrite <- (f_equal fst H : _ = bound_socket i sa). apply (ps_inv_step _ (PsBind sa)).
  destruct (ps_inv_new (si_type i) (si_protocol i)) as (Hr & Ha & Hl & Hm).
  ps_frame (ProxySocket_new (si_type i) (si_protocol i)).
Qed.

Lemma lan_addr_read addr dest : lan_addr addr = Some dest -> read_addr addr = Some dest.
Proof.
  unfold lan_addr. intros H. apply bind_Some in H as (a & Ha & H). destruct (_ && _); [|done].
  by injection H as ->.
Qed.

Lemma deliver_nil nm s : foldl (deliver_one nm) s [] = s.
Proof. done. Qed.

(** [SendTo] on a proxied descriptor whose socket may send: the tunnel takes
    the datagram. *)
Lemma SendTo_proxied {W} (fwd : FwdReq -> W -> W * Reply) call_data fd flags d addr dest v (x : Shared W) s cb :
  is_proxy_fd x fd = true -> m_sockets (g_manager x) !! fd = Some s -> NetMap_reachable (g_netmap x) ->
  lan_addr addr = Some dest -> sendable s (Some d) (length d) = true ->
  m_send_callback (g_manager x) = Some cb ->
  let args := mkArgs (SockAddrIn_GetAddr (m_local_addr s)) (SockAddrIn_GetPort (m_local_addr s))
                (SockAddrIn_GetAddr dest) (SockAddrIn_GetPort dest) (m_protocol s) in
  (call_data cb args d (g_world x)).2 = true ->
  SendTo fwd call_data fd flags (Some d) addr v x =
  (count_command v, set_gworld x (call_data cb args d (g_world x)).1, ok [Z.of_nat (length d); 0] []).
Proof.
  intros Hp Hs Hn Hdest Hcan Hcb args Hcall. unfold SendTo.
  rewrite Hdest, bool_decide_true by (by eexists).
  assert (sendto_promote fd x = (x, 0)) as ->.
  { unfold sendto_promote, is_proxy_fd in *. destruct (g_socket_info x !! fd) as [i|]; [|done].
    cbn in Hp. by rewrite Hp. }
  rewrite Hp. cbn [negb Z.eqb orb]. unfold get_proxy, GetProxySocket.
  rewrite Hs, (lan_addr_read _ _ Hdest), SendTo_eq by done.
  change (buf_size (Some d)) with (length d). rewrite Hcan.
  unfold SendProxyData. rewrite Hcb. cbn [default from_option id]. fold args.
  destruct (call_data cb args d (g_world x)) as [w []]; [|done].
  unfold ret_errno. destruct (Z.ltb_spec (Z.of_nat (length d)) 0); [lia|]. done.
Qed.

(** What the manager routes to a proxied descriptor, the next [RecvFrom] returns. *)
Lemma RecvFrom_routed {W} {RO : RegistryOrder} (fwd : FwdReq -> W -> W * Reply) wait known_peer fd flags d out from v (x : Shared W) s a :
  is_proxy_fd x fd = true -> m_sockets (g_manager x) !! fd = Some s -> NetMap_reachable (g_netmap x) ->
  ps_inv s -> rx_queue s = [] -> m_shutdown_read s = false ->
  (length d <= 2000)%nat -> known_peer (pa_source_ip a) = true ->
  dest_match (pa_dest_ip a) (pa_dest_port a) (pa_protocol a) s = true ->
  (size (matching (m_sockets (g_manager x)) (pa_dest_ip a) (pa_dest_port a) (pa_protocol a)) <= 8)%nat ->
  let x2 := set_manager x
              (RouteIncomingData known_peer (g_netmap x) (g_manager x) a (Some d) (length d)).1 in
  (RecvFrom fwd wait fd flags (Some out) (Some from) v x2).2 =
  ok [Z.of_nat (Nat.min (length out) (length d)); 0; if (16 <=? length from)%nat then 16 else 0]
     [Some (overwrite (take (length out) d) out);
      write_addr (Some from) (make_from_addr (g_netmap x) (pa_source_ip a) (pa_source_port a))].
Proof.
  intros Hp Hs Hn Hinv Hq Hsr Hlen Hknown Hmatch Hsz x2.
  set (from0 := make_from_addr (g_netmap x) (pa_source_ip a) (pa_source_port a)).
  set (s' := ProxySocket_IncomingData s (Some d) (length d) from0).
  assert (m_sockets (g_manager x2) !! fd = Some s') as Hroute.
  { unfold x2. rewrite RouteIncomingData_eq by done. rewrite Hknown, orb_true_r. rewrite bool_decide_false.
    - cbn [fst]. mitm_cbn. sm_cbn. rewrite lookup_fmap, Hs. cbn [fmap option_fmap option_map].
      unfold deliver_if. by rewrite Hmatch.
    - unfold matching. rewrite map_empty. intros E. specialize (E fd).
      apply map_lookup_filter_None in E as [E|E]; [congruence|]. by apply (E s). }
  unfold RecvFrom, data_proxy, get_proxy, GetProxySocket.
  assert (is_proxy_fd x2 fd = true) as -> by exact Hp. rewrite Hroute.
  rewrite (bool_decide_true (is_Some (Some out))) by (by eexists).
  change (buf_size (Some out)) with (length out). change (buf_size (Some from)) with (length from).
  pose proof Hinv as (Hrx & _). pose proof (rx_queue_incoming s d from0 Hrx) as Hqueue. rewrite Hq in Hqueue.
  cbn -[take] in Hqueue. rewrite take_ge in Hqueue by (unfold PROXY_SOCKET_MAX_PAYLOAD; lia).
  pose proof (rx_ok_incoming s (Some d) (length d) from0 Hrx) as Hok.
  pose proof (RecvFrom_queued wait s' (length out) flags true from0 d [] Hok Hsr Hqueue) as Hr.
  destruct (ProxySocket_RecvFrom wait s' true (length out) flags true) as [s'' r]. cbn [snd] in Hr.
  subst r. cbn [rr_ret rr_from rr_out default from_option id].
  destruct (Z.ltb_spec (Z.of_nat (Nat.min (length out) (length d))) 0); [lia|]. done.
Qed.

Section crossing.
Context {WA WB : Type} {RO : RegistryOrder}.
Variable fwdA : FwdReq -> WA -> WA * Reply.
Variable fwdB : FwdReq -> WB -> WB * Reply.
Variable call_data : Callback -> ProxyArgs -> bytes -> WA -> WA * bool.
Variable nifm_ipA : WA -> option (Z * Z).
Variable nifm_ipB : WB -> option (Z * Z).
Variable EnterA : WA -> WA * Z.
Variable EnterB : WB -> WB * Z.

(** From one game to another.  Console A's game binds a UDP socket to its LAN
    address and sends to the address console B's game has bound; the tunnel
    takes the datagram.  The sender is told all bytes were sent, the tunnel is
    called once, with the bound address as source; and what B's manager routes
    from exactly that call is what B's next [RecvFrom] returns: the length, no
    error, the bytes cut to its buffer, and A's address. *)
Theorem lan_datagram_crosses vA (xA : Shared WA) vB (xB : Shared WB) fdA fdB addrA addrB saA saB iA iB
    cb d addr dest flagsA flagsB known_peer wait out from :
  bindable xA fdA addrA saA iA -> bindable xB fdB addrB saB iB ->
  (Mgr_ReservePort (g_manager xA) (SockAddrIn_GetPort saA) (si_protocol iA)).2 = true ->
  (Mgr_ReservePort (g_manager xB) (SockAddrIn_GetPort saB) (si_protocol iB)).2 = true ->
  SockAddrIn_wf saA -> si_protocol iA = ProtocolType_Udp -> si_protocol iB = ProtocolType_Udp ->
  NetMap_reachable (g_netmap xA) -> NetMap_reachable (g_netmap xB) ->
  (length d <= 2000)%nat -> lan_addr addr = Some dest ->
  m_send_callback (g_manager xA) = Some cb ->
  (forall a w, (call_data cb a d w).2 = true) ->
  pending_queue (g_manager xB) = [] ->
  known_peer (SockAddrIn_GetAddr saA) = true ->
  dest_match (SockAddrIn_GetAddr dest) (SockAddrIn_GetPort dest) ProtocolType_Udp (bound_socket iB saB) = true ->
  (size (matching (<[fdB := bound_socket iB saB]> (m_sockets (g_manager xB)))
           (SockAddrIn_GetAddr dest) (SockAddrIn_GetPort dest) ProtocolType_Udp) <= 8)%nat ->
  let args := mkArgs (SockAddrIn_GetAddr saA) (SockAddrIn_GetPort saA)
                (SockAddrIn_GetAddr dest) (SockAddrIn_GetPort dest) ProtocolType_Udp in
  let '(vA1, xA1, rA1) := Bind fwdA nifm_ipA EnterA fdA addrA vA xA in
  let '(_, xA2, rA2) := SendTo fwdA call_data fdA flagsA (Some d) addr vA1 xA1 in
  let '(vB1, xB1, rB1) := Bind fwdB nifm_ipB EnterB fdB addrB vB xB in
  let xB2 := set_manager xB1
               (RouteIncomingData known_peer (g_netmap xB1) (g_manager xB1) args (Some d) (length d)).1 in
  let '(_, _, rB2) := RecvFrom fwdB wait fdB flagsB (Some out) (Some from) vB1 xB2 in
  rA1 = ok [0] [] /\ rA2 = ok [Z.of_nat (length d); 0] [] /\
  g_world xA2 = (call_data cb args d (g_world xA1)).1 /\
  rB1 = ok [0] [] /\
  rB2 = ok [Z.of_nat (Nat.min (length out) (length d)); 0; if (16 <=? length from)%nat then 16 else 0]
           [Some (overwrite (take (length out) d) out);
            write_addr (Some from)
              (mkSockAddrIn 16 AddressFamily_Inet (sin_port saA) (sin_addr saA) (replicate 8 0))].
Proof.
  intros HA HB RA RB Hwf PA PB NA NB Hlen Hdest Hcb Hcall Hpend Hknown Hmatch Hsz args.
  pose proof (Bind_free fwdA nifm_ipA EnterA fdA addrA vA xA saA iA HA RA) as FA.
  destruct (Bind fwdA nifm_ipA EnterA fdA addrA vA xA) as [[vA1 xA1] rA1].
  destruct FA as (A1 & A2 & A3 & A4 & A5 & _ & _ & A6 & _).
  pose proof (Bind_free fwdB nifm_ipB EnterB fdB addrB vB xB saB iB HB RB) as FB.
  pose proof HA as (_ & TA & _). destruct (bind_target_inet _ _ _ _ _ TA) as [_ IA].
  assert (is_proxy_fd xA1 fdA = true) as PxA.
  { unfold is_proxy_fd. rewrite A4, lookup_alter_eq, (proj2 (bind_target_inet _ _ _ _ _ (proj1 (proj2 HA)))). done. }
  destruct (deliver_fields (g_netmap xA) (filter
    (fun p => for_port (SockAddrIn_GetPort saA) (si_protocol iA) p) (pending_queue (g_manager xA)))
    (bound_socket iA saA)) as (S1 & S2 & S3 & S4).
  set (sA := foldl _ _ _) in *.
  assert (sendable sA (Some d) (length d) = true) as Hcan.
  { unfold sendable. rewrite S1, S4, (proj2 (Nat.leb_le _ _) Hlen). by rewrite !bool_decide_true. }
  rewrite (SendTo_proxied fwdA call_data fdA flagsA d addr dest vA1 xA1 sA cb PxA
    ltac:(rewrite A5; apply lookup_insert_eq) ltac:(by rewrite A3) Hdest Hcan ltac:(by rewrite A6) (Hcall _ _)).
  rewrite S2, S3. change (m_local_addr (bound_socket iA saA)) with saA.
  change (m_protocol (bound_socket iA saA)) with (si_protocol iA). rewrite PA. fold args.
  destruct (Bind fwdB nifm_ipB EnterB fdB addrB vB xB) as [[vB1 xB1] rB1].
  destruct FB as (B1 & B2 & B3 & B4 & B5 & _ & _ & _). rewrite Hpend, deliver_nil in B5.
  destruct (bind_target_inet _ _ _ _ _ (proj1 (proj2 HB))) as [FB IB].
  assert (is_proxy_fd xB1 fdB = true) as PxB by (unfold is_proxy_fd; by rewrite B4, lookup_alter_eq, IB).
  pose proof (RecvFrom_routed fwdB wait known_peer fdB flagsB d out from vB1 xB1 (bound_socket iB saB) args PxB
    ltac:(rewrite B5; apply lookup_insert_eq) ltac:(by rewrite B3) (bound_socket_inv iB saB FB) eq_refl eq_refl
    Hlen Hknown Hmatch ltac:(by rewrite B5)) as Hr.
  cbv zeta in Hr; cbv beta iota zeta; cbn [pa_source_ip pa_source_port] in Hr. 
  destruct (RecvFrom _ _ _ _ _ _ _ _) as [[vB2 xB3] rB2]. cbn [snd] in Hr.
  do 4 (split; [done|]). rewrite Hr. unfold args; cbn [pa_source_ip pa_source_port]. rewrite make_from_addr_spec; [reflexivity|by rewrite B3|exact Hwf].
Qed.
End crossing.

(** ** Witnesses *)

(** A console whose game holds the UDP socket 5; port 50000 is taken when
    [taken]. *)
Definition demo_mgr (taken : bool) : ProxySocketManager :=
  set_m_send_callback
    (if taken then (Mgr_ReservePort ProxySocketManager_init 50000 17).1 else ProxySocketManager_init)
    (Some 1).
Definition demo_console {W} (taken : bool) (w : W) : Shared W :=
  set_manager (set_info (Shared_init w) {[ 5 := mkInfo 2 17 false false 1 ]}) (demo_mgr taken).
Definition demo_service : BsdMitmService := mkService 1000 80 0 1 true 0 false.
Definition demo_addr (ip port : Z) : Buffer := Some (SockAddrIn_enc (witness_addr ip port)).

Lemma demo_bindable {W} taken (w : W) port :
  port = 50000 \/ port = 30000 -> let a := witness_addr 0x0A0D2505 port in
  bindable (demo_console taken w) 5 (demo_addr 0x0A0D2505 port) a (mkInfo 2 17 false false 1).
Proof.
  intros Hp a. split.
  - unfold demo_console, demo_mgr. mitm_cbn.
    assert (mgr_inv (if taken then (Mgr_ReservePort ProxySocketManager_init 50000 17).1
                     else ProxySocketManager_init)) as (H1 & H2 & H3 & H4 & H5).
    { destruct taken; [|apply mgr_inv_init]. apply mgr_inv_reserve; [unfold is_u16; lia|apply mgr_inv_init]. }
    by split_and!.
  - split; [by destruct Hp as [-> | ->]|]. split; [by destruct taken|].
    split; [destruct taken; vm_compute; lia|]. by destruct Hp as [-> | ->].
Qed.

Lemma demo_addr_wf : SockAddrIn_wf (witness_addr 0x0A0D2505 50000).
Proof.
  repeat split; try (vm_compute; lia); try (vm_compute; discriminate).
  repeat constructor; vm_compute; discriminate.
Qed.

Lemma demo_len : (length [7; 8; 9] <= PROXY_SOCKET_MAX_PAYLOAD)%nat.
Proof. vm_compute. lia. Qed.


Lemma Bind_failure_leaks_witness :
  let fwd : FwdReq -> unit -> unit * Reply := fun _ w => (w, mkReply 0 [0] []) in
  let x := demo_console true tt in
  let '(v1, x1, r1) := Bind fwd (fun _ => None) (fun w => (w, 0)) 5 (demo_addr 0x0A0D2505 50000) demo_service x in
  let '(v2, x2, _) := Close fwd (fun _ _ w => (w, false)) 5 v1 x1 in
  g_socket_info x2 !! 5 = None /\
  (GetSockName fwd 5 None demo_service x2).2 = ok [0] [None].
Proof.
  intros fwd x.
  pose proof (Bind_failure_leaks fwd (fun _ => None) (fun w => (w, 0)) (fun _ _ w => (w, false)) 5
    (demo_addr 0x0A0D2505 50000) demo_service x _ _ (demo_bindable true tt 50000 (or_introl eq_refl))
    eq_refl ltac:(vm_compute; reflexivity)) as H.
  destruct (Bind _ _ _ _ _ _ x) as [[v1 x1] r1]. destruct (Close _ _ _ v1 x1) as [[v2 x2] r2].
  destruct H as (_ & H1 & H2). split; [exact H1|]. rewrite H2. reflexivity.
Defined.

Lemma lan_datagram_crosses_witness :
  let fwd : FwdReq -> list (ProxyArgs * bytes) -> list (ProxyArgs * bytes) * Reply :=
    fun _ w => (w, mkReply 0 [0] []) in
  let send (_ : Callback) a d w := (w ++ [(a, d)], true) in
  let none (w : list (ProxyArgs * bytes)) : option (Z * Z) := None in
  let enter (w : list (ProxyArgs * bytes)) := (w, 0) in
  let x := demo_console false [] in
  let a := demo_addr 0x0A0D2505 50000 in
  let args := mkArgs 0x0A0D2505 50000 0x0A0D2505 50000 17 in
  let '(vA1, xA1, _) := Bind fwd none enter 5 a demo_service x in
  let '(_, xA2, rA2) := SendTo fwd send 5 0 (Some [7; 8; 9]) a vA1 xA1 in
  let xB2 := set_manager xA1
    (RouteIncomingData (fun _ => true) (g_netmap xA1) (g_manager xA1) args (Some [7; 8; 9]) 3).1 in
  let '(_, _, rB2) := RecvFrom fwd no_wait 5 0 (Some [0; 0]) (Some []) vA1 xB2 in
  rA2 = ok [3; 0] [] /\ rB2 = ok [2; 0; 0] [Some [7; 8]; Some []].
Proof.
  intros fwd send none enter x a args.
  pose proof (lan_datagram_crosses (RO := key_order) fwd fwd send none none enter enter demo_service x demo_service x 5 5
    a a _ _ _ _ 1 [7; 8; 9] a (witness_addr 0x0A0D2505 50000) 0 0 (fun _ => true) no_wait [0; 0] []
    (demo_bindable false [] 50000 (or_introl eq_refl)) (demo_bindable false [] 50000 (or_introl eq_refl))) as H.
  specialize (H ltac:(vm_compute; reflexivity) ltac:(vm_compute; reflexivity)).
  specialize (H demo_addr_wf eq_refl eq_refl NetMap_start NetMap_start demo_len).
  specialize (H ltac:(vm_compute; reflexivity)).
  specialize (H ltac:(vm_compute; reflexivity)).
  specialize (H (fun _ _ => eq_refl)).
  specialize (H ltac:(vm_compute; reflexivity)).
  specialize (H eq_refl).
  specialize (H ltac:(vm_compute; reflexivity)).
  specialize (H ltac:(vm_compute; lia)).
  fold args in H.
  destruct (Bind _ _ _ _ _ _ x) as [[vA1 xA1] rA1].
  change (mkArgs _ _ _ _ _) with args in H.
  destruct (SendTo _ _ _ _ _ _ vA1 xA1) as [[vA2 xA2] rA2].
  cbv zeta in H |- *. change (length [7; 8; 9]) with 3%nat in H.
  match goal with |- match ?d with _ => _ end => destruct d as [[vB2 xB3] rB2] end.
  destruct H as (_ & H1 & _ & _ & H2). split; [exact H1|exact H2].
Defined.
