(* ===== verification/BsdWorld.v ===== *)
(** What surrounds the bsd:u interception (BsdMitm.v): the manager's callbacks and
    local address and the address translation are left alone by every command and
    by the life of a session, and an invariant of the world that the real service,
    the callbacks and the local network mode keep is kept. *)
From S2P Require Import Prelude Bytes IpAddr PortPool Ring ProxySocket SocketManager BsdMitm.

(** What [Main] and the runtime set in the manager. *)
Definition wiring (m : ProxySocketManager) :=
  (m_local_ip m, m_send_callback m, m_proxy_connect_callback m, m_proxy_connect_reply_callback m,
   m_proxy_disconnect_callback m).

Section wiring.
Context {RO : RegistryOrder}.
Implicit Type m : ProxySocketManager.
Lemma wiring_create m fd type protocol : wiring (CreateProxySocket m fd type protocol).1 = wiring m.
Proof. unfold CreateProxySocket. by repeat case_match. Qed.
Lemma wiring_allocate m protocol : wiring (Mgr_AllocatePort m protocol).1 = wiring m.
Proof. unfold Mgr_AllocatePort. by destruct (Pool_AllocatePort _ _). Qed.
Lemma wiring_reserve m port protocol : wiring (Mgr_ReservePort m port protocol).1 = wiring m.
Proof. unfold Mgr_ReservePort. by destruct (Pool_AllocateSpecificPort _ _ _). Qed.
Lemma wiring_close {W} (ctl : Callback -> ProxyArgs -> W -> W * bool) m fd w :
  wiring (CloseProxySocket ctl m fd w).1.1 = wiring m.
Proof. unfold CloseProxySocket. destruct (m_sockets m !! fd); [|done]. by destruct (negb _). Qed.
Lemma wiring_deliver nm m fd port protocol : wiring (DeliverPendingPackets nm m fd port protocol) = wiring m.
Proof.
  unfold DeliverPendingPackets. case_match; [|done]. destruct p as [fd' s]. destruct (_ =? _)%nat; [done|].
  by destruct (deliver_loop _ _ _ _ _ _ _ _ _) as [[[slots wr] kept] s'].
Qed.
Lemma wiring_targets f fds m : wiring (foldl (fun m fd => update_socket m fd f) m fds) = wiring m.
Proof. revert m; induction fds as [|fd fds IH]; intros m; [done|]. cbn [foldl]. by rewrite IH. Qed.
Lemma wiring_route known nm m a data n : wiring (RouteIncomingData known nm m a data n).1 = wiring m.
Proof.
  unfold RouteIncomingData. destruct (_ && _); [done|]. cbv zeta.
  destruct (FindAllSocketsByDestination _ _ _ _ _) as [|fd fds]; [done|]. apply wiring_targets.
Qed.
End wiring.

Section world.
Context {W : Type} {RO : RegistryOrder} {IO : InfoOrder}.
Variable fwd : FwdReq -> W -> W * Reply.
Variable call_data : Callback -> ProxyArgs -> bytes -> W -> W * bool.
Variable call_ctl : Callback -> ProxyArgs -> W -> W * bool.
Variable nifm_ip : W -> option (Z * Z).
Variable EnterLocalNetworkMode ExitLocalNetworkMode : W -> W * Z.
Variable IsApplicationId : Z -> bool.
Variable Q : W -> Prop.
Hypothesis fwd_Q : forall q w, Q w -> Q (fwd q w).1.
Hypothesis data_Q : forall cb a d w, Q w -> Q (call_data cb a d w).1.
Hypothesis ctl_Q : forall cb a w, Q w -> Q (call_ctl cb a w).1.
Hypothesis enter_Q : forall w, Q w -> Q (EnterLocalNetworkMode w).1.
Hypothesis exit_Q : forall w, Q w -> Q (ExitLocalNetworkMode w).1.
Implicit Types (x : Shared W) (v : BsdMitmService).

(** The surroundings of a state, from [x]. *)
Record around x x' : Prop := {
  ar_world : Q (g_world x) -> Q (g_world x');
  ar_wiring : wiring (g_manager x') = wiring (g_manager x);
  ar_netmap : g_netmap x' = g_netmap x;
}.
Lemma around_refl x : around x x.
Proof. done. Qed.
Lemma around_trans x y z : around x y -> around y z -> around x z.
Proof. intros [A1 A2 A3] [B1 B2 B3]. constructor; [auto|congruence|congruence]. Qed.
Lemma around_eq x y y' :
  around x y -> g_world y' = g_world y -> wiring (g_manager y') = wiring (g_manager y) ->
  g_netmap y' = g_netmap y -> around x y'.
Proof. intros [A1 A2 A3] E1 E2 E3. constructor; [rewrite E1; auto|congruence|congruence]. Qed.
Lemma around_manager x y m : around x y -> wiring m = wiring (g_manager y) -> around x (set_manager y m).
Proof. intros H E. by apply (around_eq x y). Qed.
Lemma around_world x y w : around x y -> (Q (g_world y) -> Q w) -> around x (set_gworld y w).
Proof. intros [A1 A2 A3] H. constructor; [auto|done|done]. Qed.
Lemma around_proxy x y fd s : around x y -> around x (set_proxy y fd s).
Proof. intros H. by apply around_manager. Qed.

(** An outcome within the surroundings. *)
Definition keepsQ x (o : BsdMitmService * Shared W * Reply) : Prop := around x o.1.2.
Lemma keeps_same x v r : keepsQ x (v, x, r).
Proof. apply around_refl. Qed.
#[local] Hint Resolve keeps_same around_refl : slp.

Lemma SendProxyData_Q m a d w : Q w -> Q (SendProxyData call_data m a d w).1.
Proof. intros H. unfold SendProxyData. destruct (m_send_callback m); [by apply data_Q|done]. Qed.
Lemma SendTo_Q m nm s b n dest w :
  Q w -> Q (ProxySocket_SendTo (SendProxyData call_data m) nm s b n dest w).1.
Proof.
  intros H. unfold ProxySocket_SendTo.
  do 5 (match goal with |- Q (fst (if ?b then _ else _)) => destruct b end; [done|]).
  match goal with |- Q (fst (let '(_, _) := SendProxyData _ _ ?a ?d _ in _)) =>
    pose proof (SendProxyData_Q m a d w H) as Hs; destruct (SendProxyData call_data m a d w) as [w' []] end;
  exact Hs.
Qed.
Lemma Send_Q m nm s b n w : Q w -> Q (ProxySocket_Send (SendProxyData call_data m) nm s b n w).1.
Proof. intros H. unfold ProxySocket_Send. destruct (negb _); [done|]. by apply SendTo_Q. Qed.

Lemma Connect_Q m wait s sa w :
  Q w -> Q (ProxySocket_Connect
    (fun a s w => let '(w, sent) := SendProxyConnect call_ctl m a w in (s, w, sent)) wait s sa w).1.2.
Proof.
  intros H. unfold ProxySocket_Connect.
  destruct (bool_decide _); [done|]. destruct (negb _); [done|]. destruct (_ =? SocketType_Stream); [|done].
  cbv zeta. match goal with |- context [SendProxyConnect call_ctl m ?a w] =>
    assert (Q (SendProxyConnect call_ctl m a w).1) as Hs;
    [unfold SendProxyConnect; destruct (m_proxy_connect_callback m); [by apply ctl_Q|done]|];
    destruct (SendProxyConnect call_ctl m a w) as [w' sent] end.
  destruct (negb sent); [done|]. destruct (negb _); [|done].
  destruct (TimedWait _ _ _) as [s' got]. destruct (_ || _); [done|]. by destruct (negb _).
Qed.

Lemma around_close_proxy fd x y : around x y -> around x (close_proxy call_ctl y fd).
Proof.
  intros H. eapply around_trans; [exact H|]. unfold close_proxy.
  pose proof (wiring_close call_ctl (g_manager y) fd (g_world y)) as Hw.
  assert (Q (g_world y) -> Q (CloseProxySocket call_ctl (g_manager y) fd (g_world y)).1.2) as HQ.
  { intros HQ. unfold CloseProxySocket. destruct (m_sockets _ !! fd) as [s|]; [|done]. cbn [fst snd].
    unfold close_socket. destruct (ProxySocket_Close s).2 as [a|]; [|done].
    unfold SendProxyDisconnect. destruct (m_proxy_disconnect_callback _); [by apply ctl_Q|done]. }
  destruct (CloseProxySocket _ _ _ _) as [[m w] b]. cbn [fst snd] in *.
  apply around_world; [by apply around_manager|exact HQ].
Qed.

Lemma around_dispatch x y v cmd words n ins outs pid handles :
  around x y -> around x (mitm_dispatch fwd v y cmd words n ins outs pid handles).1.
Proof.
  intros H. unfold mitm_dispatch.
  pose proof (fwd_Q (mkReq (m_forward_service v) cmd words ins (buf_size <$> outs) pid handles)) as Hf.
  specialize (Hf (g_world y)). destruct (fwd _ _) as [w r]. by apply around_world.
Qed.
Lemma keeps_forward x y v cmd words n ins outs :
  around x y -> keepsQ x (forward fwd v y cmd words n ins outs).
Proof.
  intros H. unfold forward. apply (around_dispatch x y v cmd words n ins outs None []) in H.
  by destruct (mitm_dispatch _ _ _ _ _ _ _ _ _ _).
Qed.
(** A command that forwards, then rearranges the reply and the tables. *)
Lemma keeps_dispatch x y v cmd words n ins outs pid handles
    (k : Shared W -> Reply -> BsdMitmService * Shared W * Reply) :
  around x y -> (forall x2 r, around x x2 -> keepsQ x (k x2 r)) ->
  keepsQ x (let '(x2, r) := mitm_dispatch fwd v y cmd words n ins outs pid handles in k x2 r).
Proof.
  intros H Hk. apply (around_dispatch x y v cmd words n ins outs pid handles) in H.
  destruct (mitm_dispatch _ _ _ _ _ _ _ _ _ _) as [x2 r]. by apply Hk.
Qed.

Lemma around_track v t p r x y : around x y -> around x (track_socket v t p r y).
Proof. intros H. unfold track_socket. by case_match; [apply (around_eq x y)|]. Qed.
Lemma around_copy fd n x y : around x y -> around x (copy_info y fd n).
Proof. intros H. unfold copy_info. by case_match; [apply (around_eq x y)|]. Qed.
Lemma around_inherit fd r x y : around x y -> around x (inherit_fd fd r y).
Proof. intros H. unfold inherit_fd. case_match; [by apply around_copy|done]. Qed.

Lemma around_lan_port_bound v x y :
  around x y -> around x (lan_port_bound nifm_ip EnterLocalNetworkMode v y).2.
Proof.
  intros H. unfold lan_port_bound, TranslationEnabled. cbn [andb]. destruct (negb _); [|done].
  pose proof (enter_Q (g_world y)) as He. destruct (EnterLocalNetworkMode _). by apply around_world.
Qed.

Lemma wiring_bind_port m a protocol : wiring (bind_port m a protocol).1 = wiring m.
Proof.
  unfold bind_port. destruct (_ =? 0).
  - pose proof (wiring_allocate m protocol) as H. destruct (Mgr_AllocatePort _ _). by destruct (_ =? 0).
  - pose proof (wiring_reserve m (SockAddrIn_GetPort a) protocol) as H. by destruct (Mgr_ReservePort _ _ _).
Qed.

Lemma keeps_Bind fd addr v x : keepsQ x (Bind fwd nifm_ip EnterLocalNetworkMode fd addr v x).
Proof.
  unfold Bind. destruct (bind_target x fd addr) as [[sa i]|]; [|apply keeps_forward; auto with slp].
  unfold Bind_proxy. pose proof (wiring_create (g_manager x) fd (si_type i) (si_protocol i)) as Hc.
  destruct (CreateProxySocket _ _ _ _) as [m p]. cbn [fst] in Hc.
  destruct p as [fd'|]; [|by apply around_manager]. cbv zeta.
  set (m1 := if si_broadcast i then _ else m).
  assert (wiring m1 = wiring (g_manager x)) as H1 by (unfold m1; by destruct (si_broadcast i)).
  match goal with |- context [bind_port m1 ?a ?pr] => pose proof (wiring_bind_port m1 a pr) as Hb;
    destruct (bind_port m1 a pr) as [m2 bound] end. cbn [fst] in Hb. rewrite H1 in Hb.
  destruct bound as [ba|]; [|by apply around_manager].
  destruct (GetProxySocket m2 fd) as [s|]; [|by apply around_manager]. destruct (ProxySocket_Bind s ba) as [s' br].
  set (x1 := set_proxy (set_manager x m2) fd s').
  assert (around x x1) as A1 by (apply around_proxy; by apply around_manager).
  destruct (negb _); [exact A1|]. assert (around x (mark_proxy x1 fd)) as A2 by (by apply (around_eq x x1)).
  assert (forall v y r, around x y -> keepsQ x (v, set_manager y (DeliverPendingPackets (g_netmap y)
    (g_manager y) (Some fd) (SockAddrIn_GetPort ba) (si_protocol i)), r)) as Hend.
  { intros ? y ? A. apply (around_manager x y); [done|]. apply wiring_deliver. }
  destruct (_ =? 30000); [|by apply Hend].
  match goal with |- context [lan_port_bound _ _ ?v1 ?y] =>
    pose proof (around_lan_port_bound v1 x y A2) as Hl; destruct (lan_port_bound _ _ v1 y) as [v2 x2] end.
  by apply Hend.
Qed.

Lemma wiring_connect_proxy fd i m : wiring (connect_proxy fd i m).1 = wiring m.
Proof.
  unfold connect_proxy. destruct (GetProxySocket m fd); [done|].
  pose proof (wiring_create m fd (si_type i) (si_protocol i)) as Hc. destruct (CreateProxySocket _ _ _ _) as [m1 p].
  cbn [fst] in Hc. destruct p; [|done]. pose proof (wiring_allocate m1 (si_protocol i)) as Ha.
  destruct (Mgr_AllocatePort _ _) as [m2 port]. cbn [fst] in Ha. rewrite Hc in Ha. destruct (port =? 0); [done|].
  destruct (GetProxySocket m2 fd); [|done]. destruct (ProxySocket_Bind _ _). by destruct (negb _).
Qed.
Lemma wiring_sendto_proxy fd i m : wiring (sendto_proxy fd i m).1 = wiring m.
Proof.
  unfold sendto_proxy. destruct (GetProxySocket m fd); [done|].
  pose proof (wiring_create m fd (si_type i) (si_protocol i)) as Hc. destruct (CreateProxySocket _ _ _ _) as [m1 p].
  cbn [fst] in Hc. destruct p; [|done]. pose proof (wiring_allocate m1 (si_protocol i)) as Ha.
  destruct (Mgr_AllocatePort _ _) as [m2 port]. cbn [fst] in Ha. rewrite Hc in Ha. destruct (port =? 0); [done|].
  destruct (GetProxySocket m2 fd); [|done]. by destruct (ProxySocket_Bind _ _).
Qed.

Lemma keeps_Connect wait fd addr v x : keepsQ x (BsdMitmService_Connect call_ctl wait fd addr v x).
Proof.
  unfold BsdMitmService_Connect. destruct (lan_addr addr) as [sa|]; [|auto with slp].
  destruct (g_socket_info x !! fd) as [i|]; [|auto with slp].
  pose proof (wiring_connect_proxy fd i (g_manager x)) as Hw.
  destruct (connect_proxy _ _ _) as [m [e|s]]; cbn [fst] in Hw; [by apply around_manager|].
  pose proof (Connect_Q m wait s sa (g_world x)) as Hc. destruct (ProxySocket_Connect _ _ _ _ _) as [[s' w] r].
  assert (around x (set_proxy (set_gworld (set_manager x m) w) fd s')) as A.
  { apply around_proxy. apply around_world; [by apply around_manager|exact Hc]. }
  destruct (negb _); [exact A|]. by eapply around_eq; [exact A|..].
Qed.

Lemma around_promote fd x : around x (sendto_promote fd x).1.
Proof.
  unfold sendto_promote. destruct (g_socket_info x !! fd) as [i|]; [|apply around_refl].
  destruct (si_is_proxy i); [apply around_refl|]. pose proof (wiring_sendto_proxy fd i (g_manager x)) as Hw.
  destruct (sendto_proxy _ _ _) as [m rc]. cbn [fst] in Hw.
  assert (around x (set_manager x m)) as A by (by apply around_manager).
  destruct (negb _); [exact A|]. by eapply around_eq; [exact A|..].
Qed.

Lemma keeps_SendTo fd flags b addr v x : keepsQ x (SendTo fwd call_data fd flags b addr v x).
Proof.
  unfold SendTo. set (lan := bool_decide _). set (p := if lan then _ else _).
  assert (around x p.1) as Hp by (unfold p; destruct lan; [apply around_promote|apply around_refl]).
  destruct p as [y rc]. cbn [fst] in Hp. destruct (negb _); [exact Hp|].
  destruct (_ || _); [|by apply keeps_forward]. destruct (get_proxy y fd) as [s|]; [|exact Hp].
  destruct (read_addr addr) as [dest|]; [|exact Hp].
  pose proof (SendTo_Q (g_manager y) (g_netmap y) s b (buf_size b) dest (g_world y)) as Hs.
  destruct (ProxySocket_SendTo _ _ _ _ _ _ _). by apply around_world.
Qed.

Lemma keeps_Send fd flags b v x : keepsQ x (Send fwd call_data fd flags b v x).
Proof.
  unfold Send. destruct (data_proxy x fd) as [s|]; [|apply keeps_forward; auto with slp].
  pose proof (Send_Q (g_manager x) (g_netmap x) s b (buf_size b) (g_world x)) as Hs.
  destruct (ProxySocket_Send _ _ _ _ _ _). by apply around_world.
Qed.
Lemma keeps_Write fd b v x : keepsQ x (Write fwd call_data fd b v x).
Proof.
  unfold Write. destruct (data_proxy x fd) as [s|]; [|apply keeps_forward; auto with slp].
  pose proof (Send_Q (g_manager x) (g_netmap x) s b (buf_size b) (g_world x)) as Hs.
  destruct (ProxySocket_Send _ _ _ _ _ _). by apply around_world.
Qed.
Lemma keeps_Close fd v x : keepsQ x (Close fwd call_ctl fd v x).
Proof.
  unfold Close. apply keeps_dispatch; [|done]. destruct (g_socket_info x !! fd) as [i|]; [|auto with slp].
  assert (forall y, around x y -> around x (set_info y (delete fd (g_socket_info y)))) as Hi
    by (intros y A; by apply (around_eq x y)).
  apply Hi. destruct (si_is_proxy i); [|auto with slp]. apply (around_close_proxy fd x x). auto with slp.
Qed.
Lemma keeps_fcntl fd cmd arg v x : keepsQ x (fcntl_forward fwd fd cmd arg v x).
Proof.
  unfold fcntl_forward. apply keeps_dispatch; [auto with slp|]. intros x2 r A. unfold keepsQ.
  case_match; [by apply around_copy|done].
Qed.
Lemma keeps_Select nfds ins timeout outs v x : keepsQ x (Select fwd nfds ins timeout outs v x).
Proof.
  unfold Select. destruct (foldl _ _ _) as [[[o n] hp] hr]. do 2 (destruct (_ && _); [auto with slp|]).
  apply keeps_dispatch; [auto with slp|]. intros x2 r A. case_match; [|done]. by destruct (foldl _ _ _).
Qed.
Lemma keeps_Poll i o n timeout v x : keepsQ x (Poll fwd i o n timeout v x).
Proof.
  unfold Poll. do 2 (destruct (_ && _); [auto with slp|]).
  apply keeps_dispatch; [auto with slp|]. intros x2 r A. case_match; [|done]. by destruct (foldl _ _ _).
Qed.
#[local] Hint Resolve keeps_Bind keeps_Connect keeps_SendTo keeps_Send keeps_Write keeps_Close
  keeps_fcntl keeps_Select keeps_Poll : slp.

Ltac step_cmd :=
  match goal with
  | |- keepsQ _ (forward _ _ _ _ _ _ _ _) => apply keeps_forward; auto with slp
  | |- keepsQ _ (let '(_, _) := mitm_dispatch _ _ _ _ _ _ _ _ _ _ in _) =>
      apply keeps_dispatch; [auto with slp|intros ? ? ?]
  | |- keepsQ _ (if ?b then _ else _) => destruct b
  | |- keepsQ _ (match data_proxy ?x ?fd with _ => _ end) => destruct (data_proxy x fd)
  | |- keepsQ _ (match get_proxy ?x ?fd with _ => _ end) => destruct (get_proxy x fd)
  | |- keepsQ _ (match ?e with _ => _ end) => destruct e
  | |- keepsQ ?x (_, set_proxy ?x _ _, _) => apply (around_proxy x x), around_refl
  | |- keepsQ _ (_, track_socket _ _ _ _ _, _) => apply around_track; done
  | |- keepsQ _ (_, inherit_fd _ _ _, _) => apply around_inherit; done
  end.

(** Every command leaves its surroundings alone. *)
Lemma run_cmd_around c v x :
  keepsQ x (run_cmd fwd call_data call_ctl nifm_ip EnterLocalNetworkMode c v x).
Proof.
  destruct c; cbn [run_cmd]; auto with slp; try (by apply keeps_forward; auto with slp);
    [unfold RegisterClient|unfold Socket|unfold SocketExempt|unfold Recv|unfold RecvFrom
    |unfold Accept|unfold GetPeerName|unfold GetSockName|unfold GetSockOpt|unfold Ioctl|unfold Fcntl
    |unfold SetSockOpt|unfold Read|unfold DuplicateSocket|unfold RecvMMsg|unfold SendMMsg
    |unfold RegisterClientShared]; cbv zeta; repeat step_cmd; auto with slp; try done.
  case_match; [by apply (around_eq x x)|auto with slp].
Qed.

(** So does the end of a session, and every event of the service's history. *)
Lemma delete_around v x : around x (BsdMitmService_delete call_ctl ExitLocalNetworkMode v x).
Proof.
  unfold BsdMitmService_delete. cbv zeta. set (x0 := set_info x _). set (l := fst <$> _).
  assert (around x (foldl (close_proxy call_ctl) x0 l)) as Hx.
  { assert (around x x0) as H0 by (by apply (around_eq x x)). clearbody x0 l. revert x0 H0.
    induction l as [|fd l IH]; intros y Hy; cbn [foldl]; [done|]. apply IH. by apply around_close_proxy. }
  clearbody x0 l. set (x1 := foldl _ _ _) in *. clearbody x1.
  set (x2 := if m_entered_local_network_mode v then _ else x1).
  assert (around x x2) as H2 by (unfold x2; case_match; [apply around_world; [done|by apply exit_Q]|done]).
  clearbody x2. unfold release_pid. repeat case_match; by apply (around_eq x x2).
Qed.

Definition own_event (e : Event (W := W)) : Prop := match e with EvOther _ => False | _ => True end.

Lemma server_step_around s e :
  own_event e -> around (sv_shared s) (sv_shared (server_step fwd call_data call_ctl nifm_ip
    EnterLocalNetworkMode ExitLocalNetworkMode IsApplicationId s e)).
Proof.
  intros He. destruct e as [running pg pid h|i c|i| |f]; cbn [server_step]; [| | | |done].
  - unfold ShouldMitm. repeat (match goal with |- context [if ?b then _ else _] => destruct b end); done.
  - destruct (sv_live s !! i) as [v|]; [|done].
    pose proof (run_cmd_around c v (sv_shared s)) as Hc. by destruct (run_cmd _ _ _ _ _ _ _ _) as [[v' x'] r].
  - destruct (sv_live s !! i) as [v|]; [|done]. apply delete_around.
  - done.
Qed.
End world.
