(* ===== verification/SlpClient.v ===== *)
(** The relay transport (slp/slp_client.h/.c): DNS resolution, the frame codecs
    of the slp wire protocol, fragmentation of IPv4 packets, the client's
    socket and login.

    A C string is the list of its characters without the terminator.  A buffer
    is the list of its bytes; a function that would read or write outside one
    returns [None].  The operating system (socket, bind, sendto, recv) and the
    SHA-1 of sha1.c are parameters. *)
From S2P Require Import Prelude Bytes.

(** ** Constants (slp_client.h) *)
Definition SLP_TYPE_KEEPALIVE : Z := 0.
Definition SLP_TYPE_IPV4 : Z := 1.
Definition SLP_TYPE_PING : Z := 2.
Definition SLP_TYPE_IPV4_FRAG : Z := 3.
Definition SLP_TYPE_AUTH_ME : Z := 4.
Definition SLP_MTU : nat := 1400.
#[global] Arguments SLP_MTU : simpl never.

(** ** DNS *)

(** The length of the first label, and whether a dot follows it. *)
Fixpoint label_len (l : bytes) : nat * bool :=
  match l with
  | [] => (O, false)
  | c :: l' => if c =? 46 then (O, true) else let '(n, d) := label_len l' in (S n, d)
  end.

(** The loop of [dns_encode_name] on the bytes written so far; [None] is the
    error return 0.  Each iteration consumes the label and its dot. *)
Fixpoint dns_encode_loop (fuel : nat) (label : bytes) (cap : nat) (out : bytes) : option bytes :=
  match fuel with
  | O => None
  | S fuel' =>
      let finish (out : bytes) := if (cap <? length out + 2)%nat then None else Some (out ++ [0]) in
      match label with
      | [] => finish out
      | _ =>
          let '(len, dot) := label_len label in
          if (len =? 0)%nat || (63 <? len)%nat || (cap <? length out + len + 2)%nat then None
          else
            let out := out ++ [Z.of_nat len] ++ take len label in
            if negb dot then finish out else dns_encode_loop fuel' (drop (len + 1) label) cap out
      end
  end.
Definition dns_encode_name (host : bytes) (cap : nat) : option bytes :=
  dns_encode_loop (S (length host)) host cap [].

(** [None]: the query would be written past [packet]; [Some None]: -1. *)
Definition dns_build_query (host : bytes) (id : Z) (cap : nat) : option (option bytes) :=
  match dns_encode_name host (cap - 12) with
  | None => Some None
  | Some name =>
      let packet := [u8 (Z.shiftr id 8); u8 (Z.land id 255); 1; 0; 0; 1; 0; 0; 0; 0; 0; 0]
                    ++ name ++ [0; 1; 0; 1] in
      if (length packet <=? cap)%nat then Some (Some packet) else None
  end.

(** Skipping the question: the position after it. *)
Fixpoint skip_question (fuel : nat) (resp : bytes) (pos : nat) : option nat :=
  match fuel with
  | O => Some pos
  | S fuel' =>
      if (pos <? length resp)%nat then
        l ← byte_at resp pos;
        if l =? 0 then Some (pos + 5)%nat
        else if Z.land l 0xC0 =? 0xC0 then Some (pos + 2)%nat
        else skip_question fuel' resp (pos + 1 + Z.to_nat l)
      else Some (pos + 5)%nat
  end.

(** Skipping the owner name of an answer. *)
Fixpoint skip_name (fuel : nat) (resp : bytes) (pos : nat) : option nat :=
  match fuel with
  | O => Some pos
  | S fuel' =>
      if (pos <? length resp)%nat then
        l ← byte_at resp pos;
        if Z.land l 0xC0 =? 0xC0 then Some (pos + 2)%nat
        else if l =? 0 then Some (pos + 1)%nat
        else skip_name fuel' resp (pos + 1 + Z.to_nat l)
      else Some pos
  end.

(** The loop over the answers.  [None]: a read past the response;
    [Some None]: return 0; otherwise the address found. *)
Fixpoint dns_answers (ancount : nat) (resp : bytes) (pos : nat) : option (option Z) :=
  match ancount with
  | O => Some None
  | S a =>
      if (pos + 12 <=? length resp)%nat then
        pos ← skip_name (S (length resp)) resp pos;
        if (length resp <? pos + 10)%nat then Some None
        else
          type ← rd16be resp pos;
          rdlen ← rd16be resp (pos + 8);
          if (type =? 1) && (rdlen =? 4) && (pos + 12 <=? length resp)%nat then
            addr ← slice (pos + 10) 4 resp;
            Some (Some (le_dec addr))
          else dns_answers a resp (pos + 10 + Z.to_nat rdlen)
      else Some None
  end.

Definition dns_parse_response (resp : bytes) : option (option Z) :=
  if (length resp <? 12)%nat then Some None
  else
    flags ← rd16be resp 2;
    if (Z.land flags 0x8000 =? 0) || negb (Z.land flags 0x000F =? 0) then Some None
    else
      ancount ← rd16be resp 6;
      if ancount =? 0 then Some None
      else
        pos ← skip_question (S (length resp)) resp 12;
        dns_answers (Z.to_nat ancount) resp pos.

(** ** Frame codecs *)
Definition slpFrameKeepalive : bytes := [SLP_TYPE_KEEPALIVE].
Definition slpFramePing (ts : Z) : bytes :=
  [SLP_TYPE_PING; u8 (Z.shiftr ts 24); u8 (Z.shiftr ts 16); u8 (Z.shiftr ts 8); u8 (Z.land ts 255)].

(** An empty frame is the error return 0. *)
Definition slpFrameIpv4 (ip_pkt : bytes) : bytes :=
  if (length ip_pkt =? 0)%nat then [] else SLP_TYPE_IPV4 :: ip_pkt.

Definition slpFrameIpv4Frag (src dst id part total_part : Z) (chunk : bytes) : bytes :=
  let chunk_len := Z.of_nat (length chunk) in
  [SLP_TYPE_IPV4_FRAG] ++ wr32be src ++ wr32be dst ++ wr16be id ++ [part; total_part] ++
  wr16be chunk_len ++ wr16be (Z.of_nat SLP_MTU) ++ chunk.

Definition slpFrameType (buf : bytes) : Z :=
  match buf with [] => -1 | b :: _ => Z.land b 0x7F end.

(** ** IPv4 header helpers; [None] is a read outside the packet *)
Definition slpIpv4Valid (pkt : bytes) : option bool :=
  if (length pkt <? 20)%nat then Some false
  else
    b ← byte_at pkt 0;
    if negb (Z.shiftr b 4 =? 4) then Some false
    else
      let ihl := (Z.to_nat (Z.land b 0x0F) * 4)%nat in
      if (ihl <? 20)%nat || (length pkt <? ihl)%nat then Some false else Some true.

Definition slpIpv4Src (pkt : bytes) : option Z := rd32be pkt 12.
Definition slpIpv4Dst (pkt : bytes) : option Z := rd32be pkt 16.
Definition slpIpv4TotalLen (pkt : bytes) : option nat :=
  total ← rd16be pkt 2;
  Some (if (Z.to_nat total <=? length pkt)%nat then Z.to_nat total else length pkt).

(** ** The client *)
Record SlpClient : Set := mkSlpClient {
  c_fd : Z;
  c_server_ip : Z;
  c_server_port : Z;
  c_host : bytes;
  c_has_credentials : bool;
  c_username : bytes;
  c_password_sha1 : bytes;
}.

Section client.
(** The world the system calls act on. *)
Context {W : Type}.
(** [sendto] on a descriptor to an address (network order) and port: the
    number of bytes sent or -1. *)
Variable sendto : Z -> Z -> Z -> bytes -> W -> W * Z.
Variable sha1 : bytes -> bytes.

Definition slpClientSendRaw (c : SlpClient) (buf : bytes) (w : W) : W * bool :=
  let '(w, n) := sendto (c_fd c) (c_server_ip c) (c_server_port c) buf w in
  (w, n =? Z.of_nat (length buf)).

Definition slpClientSendKeepalive (c : SlpClient) (w : W) : W * bool :=
  slpClientSendRaw c slpFrameKeepalive w.
Definition slpClientSendPing (c : SlpClient) (ts : Z) (w : W) : W * bool :=
  slpClientSendRaw c (slpFramePing ts) w.

(** The fragmentation loop: [n] bounds the chunks left, [part] is a byte. *)
Fixpoint send_frags (n : nat) (c : SlpClient) (src dst id total : Z) (ip_pkt : bytes)
    (offset : nat) (part : Z) (w : W) : W * bool :=
  match n with
  | O => (w, true)
  | S n' =>
      if (offset <? length ip_pkt)%nat then
        let chunk := Nat.min (length ip_pkt - offset) SLP_MTU in
        let f := slpFrameIpv4Frag src dst id part total (take chunk (drop offset ip_pkt)) in
        let '(w, ok) := slpClientSendRaw c f w in
        if negb ok then (w, false)
        else send_frags n' c src dst id total ip_pkt (offset + chunk) (u8 (part + 1)) w
      else (w, true)
  end.

Definition slpClientSendIpv4 (c : SlpClient) (ip_pkt : bytes) (w : W) : option (W * bool) :=
  if (length ip_pkt <=? SLP_MTU)%nat then
    let out := slpFrameIpv4 ip_pkt in
    Some (if negb (length out =? 0)%nat then slpClientSendRaw c out w else (w, false))
  else
    id ← rd16be ip_pkt 4;
    let total_u := ((length ip_pkt + SLP_MTU - 1) / SLP_MTU)%nat in
    if (255 <? total_u)%nat then Some (w, false)
    else
      src ← slpIpv4Src ip_pkt;
      dst ← slpIpv4Dst ip_pkt;
      Some (send_frags (S (length ip_pkt)) c src dst id (Z.of_nat total_u) ip_pkt 0 0 w).

(** The datagram received, with its type; [None] for a timeout or error. *)
Definition slpClientRecv (recv : option bytes) : option (bytes * Z) :=
  match recv with
  | None | Some [] => None
  | Some buf => Some (buf, slpFrameType buf)
  end.

Definition slpClientSetCredentials (c : SlpClient) (username password : option bytes) : SlpClient :=
  match username with
  | None | Some [] =>
      mkSlpClient (c_fd c) (c_server_ip c) (c_server_port c) (c_host c) false [] (replicate 20 0)
  | Some u =>
      mkSlpClient (c_fd c) (c_server_ip c) (c_server_port c) (c_host c) true (take 63 u)
        (sha1 (default [] password))
  end.

Definition slpClientHandleAuthMe (c : SlpClient) (payload : bytes) (w : W) : W * bool :=
  match payload with
  | [] => (w, false)
  | auth_type :: challenge =>
      if negb (auth_type =? 0) then (w, false)
      else if negb (c_has_credentials c) then (w, false)
      else
        let digest := sha1 (c_password_sha1 c ++ challenge) in
        slpClientSendRaw c ([SLP_TYPE_AUTH_ME] ++ digest ++ c_username c) w
  end.

(** [resolve] is [slpResolveHost]; [socket] the new descriptor, negative on
    error; [bound] whether the bind succeeds. *)
Definition slpClientOpen (resolve : bytes -> option Z) (socket : Z) (bound : bool)
    (c : SlpClient) (host : bytes) (port : Z) : SlpClient * bool :=
  match resolve host with
  | None => (c, false)
  | Some ip =>
      if socket <? 0 then (c, false)
      else if negb bound then (c, false)
      else (mkSlpClient socket ip port (take 127 host) false [] (replicate 20 0), true)
  end.

Definition slpClientClose (c : SlpClient) : SlpClient :=
  if 0 <=? c_fd c
  then mkSlpClient (-1) (c_server_ip c) (c_server_port c) (c_host c) (c_has_credentials c)
         (c_username c) (c_password_sha1 c)
  else c.

Definition slpClientReopen (socket : Z) (bound : bool) (c : SlpClient) : SlpClient * bool :=
  if (c_server_ip c =? 0) || (c_server_port c =? 0) then (c, false)
  else if socket <? 0 then (c, false)
  else if negb bound then (c, false)
  else (mkSlpClient socket (c_server_ip c) (c_server_port c) (c_host c) (c_has_credentials c)
          (c_username c) (c_password_sha1 c), true).
End client.

(** [get_dns_server]: [nifm] is what nifmGetCurrentIpConfigInfo gives of the two
    name servers, [None] when it fails. *)
Definition get_dns_server (nifm : option (Z * Z)) : Z :=
  let fallback := 0x08080808 in
  match nifm with
  | Some (dns1, dns2) => if negb (dns1 =? 0) then dns1 else if negb (dns2 =? 0) then dns2 else fallback
  | None => fallback
  end.

(** [slpResolveHost]: [literal] is [inet_pton], [exchange] the query to a server
    and its answer over UDP ([None]: socket, send or receive failed), of which the
    first 512 bytes are received. *)
Definition query_id (host : bytes) : Z :=
  let h i := default 0 (host !! i) in
  u16 (Z.lxor (Z.lor (Z.shiftl (h 0%nat) 8) (h 1%nat)) 0x5A5A).
Definition slpResolveHost (literal : bytes -> option Z) (nifm : option (Z * Z))
    (exchange : Z -> bytes -> option bytes) (host : bytes) : option (option Z) :=
  match literal host with
  | Some ip => Some (Some ip)
  | None =>
      query ← dns_build_query host (query_id host) 512;
      match query with
      | None => Some None
      | Some q => match exchange (get_dns_server nifm) q with
                  | None => Some None
                  | Some resp => dns_parse_response (take 512 resp)
                  end
      end
  end.

(** ** Lemmas: header helpers are memory safe *)
Lemma slpIpv4Valid_safe pkt : exists b, slpIpv4Valid pkt = Some b.
Proof.
  unfold slpIpv4Valid. destruct (length pkt <? 20)%nat eqn:E; [eauto|].
  destruct (byte_at_Some pkt 0) as [b ->]; [lia|]. simpl. repeat case_match; eauto.
Qed.

Lemma slpIpv4Valid_true pkt :
  slpIpv4Valid pkt = Some true ->
  (20 <= length pkt)%nat /\ exists b, byte_at pkt 0 = Some b /\ Z.shiftr b 4 = 4 /\
  (20 <= Z.to_nat (Z.land b 0x0F) * 4 <= length pkt)%nat.
Proof.
  unfold slpIpv4Valid. destruct (length pkt <? 20)%nat eqn:E; [done|].
  destruct (byte_at_Some pkt 0) as [b Hb]; [lia|]. rewrite Hb. simpl.
  destruct (Z.shiftr b 4 =? 4) eqn:E1; [|done]. simpl.
  destruct ((_ <? 20)%nat || _) eqn:E2; [done|]. intros _.
  split; [lia|]. exists b. split; [done|]. split; [lia|]. lia.
Qed.

(** ** Lemmas: fragmentation *)
Fixpoint chunks (fuel : nat) (l : bytes) : list bytes :=
  match fuel, l with
  | S fuel', _ :: _ => take SLP_MTU l :: chunks fuel' (drop SLP_MTU l)
  | _, _ => []
  end.

(** Sending succeeds and appends the datagram to a list. *)
Definition record_sendto (fd ip port : Z) (b : bytes) (w : list bytes) : list bytes * Z :=
  (w ++ [b], Z.of_nat (length b)).

Lemma SendRaw_record c b w : slpClientSendRaw record_sendto c b w = (w ++ [b], true).
Proof. unfold slpClientSendRaw, record_sendto. by rewrite Z.eqb_refl. Qed.

(** Sending commutes with a view of the world the socket call respects. *)
Section view.
Context {W V : Type} (f : W -> V).
Variable sendto : Z -> Z -> Z -> bytes -> W -> W * Z.
Variable sendto' : Z -> Z -> Z -> bytes -> V -> V * Z.
Hypothesis sendto_view : forall fd ip port b w,
  sendto' fd ip port b (f w) = let '(w, n) := sendto fd ip port b w in (f w, n).

Lemma SendRaw_view c b w :
  slpClientSendRaw sendto' c b (f w) = let '(w, ok) := slpClientSendRaw sendto c b w in (f w, ok).
Proof. unfold slpClientSendRaw. rewrite sendto_view. by destruct (sendto _ _ _ _ _). Qed.

Lemma SendIpv4_view c pkt w :
  slpClientSendIpv4 sendto' c pkt (f w) =
  '(w, ok) ← slpClientSendIpv4 sendto c pkt w; Some (f w, ok).
Proof.
  unfold slpClientSendIpv4. destruct (_ <=? _)%nat.
  { destruct (negb _); [|done]. rewrite SendRaw_view. by destruct (slpClientSendRaw _ _ _ _). }
  destruct (rd16be pkt 4) as [id|]; [|done]. cbn [mbind option_bind]. destruct (255 <? _)%nat; [done|].
  destruct (slpIpv4Src pkt) as [src|]; [|done]. destruct (slpIpv4Dst pkt) as [dst|]; [|done]. cbn [mbind option_bind].
  generalize (Z.of_nat ((length pkt + SLP_MTU - 1) / SLP_MTU)) as total.
  generalize (S (length pkt)) as n. intros n total. generalize 0%nat, 0. revert w.
  induction n as [|n IH]; intros w offset part; [done|]. cbn [send_frags]. destruct (_ <? _)%nat; [|done].
  rewrite SendRaw_view. destruct (slpClientSendRaw _ _ _ _) as [w' []]; [|done]. cbn [negb]. apply IH.
Qed.
End view.

Lemma chunks_concat fuel l : (length l <= fuel)%nat -> concat (chunks fuel l) = l.
Proof.
  revert l; induction fuel as [|fuel IH]; intros l Hl; [by destruct l; simpl in *; [|lia]|].
  destruct l as [|x l]; [done|]. cbn [chunks concat].
  rewrite IH; [apply take_drop|]. rewrite length_drop. unfold SLP_MTU. cbn [length] in *. lia.
Qed.

Lemma chunks_length fuel l :
  (length l <= fuel)%nat -> length (chunks fuel l) = ((length l + SLP_MTU - 1) / SLP_MTU)%nat.
Proof.
  revert l; induction fuel as [|fuel IH]; intros l Hl; [by destruct l; simpl in *; [|lia]|].
  destruct l as [|x l]; [done|]. cbn [chunks]. rewrite length_cons.
  rewrite IH by (rewrite length_drop; unfold SLP_MTU; cbn [length] in *; lia).
  rewrite length_drop. unfold SLP_MTU. set (n := length (x :: l)).
  assert (0 < n)%nat by (unfold n; cbn; lia).
  destruct (decide (n <= 1400)%nat).
  - replace (n - 1400)%nat with 0%nat by lia.
    rewrite (Nat.div_small (0 + 1400 - 1)) by lia.
    apply (Nat.div_unique (n + 1400 - 1) 1400 1 (n - 1)); lia.
  - replace (n + 1400 - 1)%nat with ((n - 1400 + 1400 - 1) + 1 * 1400)%nat by lia.
    rewrite Nat.div_add by lia. lia.
Qed.

Lemma send_frags_record c src dst id total pkt n : forall offset part w,
  (length pkt - offset < n)%nat -> 0 <= part ->
  part + Z.of_nat (length (chunks n (drop offset pkt))) <= 255 ->
  send_frags record_sendto n c src dst id total pkt offset part w =
  (w ++ imap (fun i ch => slpFrameIpv4Frag src dst id (part + Z.of_nat i) total ch)
          (chunks n (drop offset pkt)), true).
Proof.
  induction n as [|n IH]; intros offset part w Hn Hp Hl; [lia|].
  cbn [send_frags]. destruct (offset <? length pkt)%nat eqn:E.
  - assert (exists x l, drop offset pkt = x :: l) as (x & l & Ed).
    { destruct (drop offset pkt) eqn:Ed; [|eauto]. apply (f_equal length) in Ed.
      rewrite length_drop in Ed. apply Nat.ltb_lt in E. cbn [length] in Ed. lia. }
    apply Nat.ltb_lt in E.
    cbn [chunks] in *. rewrite Ed in *. rewrite <- Ed in *. cbn [length imap] in *.
    rewrite SendRaw_record. cbn [negb]. rewrite drop_drop in *.
    assert (0 < SLP_MTU)%nat by (unfold SLP_MTU; lia).
    assert (take (Nat.min (length pkt - offset) SLP_MTU) (drop offset pkt)
            = take SLP_MTU (drop offset pkt)) as ->.
    { rewrite <- (length_drop pkt offset), Nat.min_comm, <- take_take.
      by rewrite (take_ge (drop offset pkt) (length (drop offset pkt))) by lia. }
    assert (drop (offset + Nat.min (length pkt - offset) SLP_MTU) pkt
            = drop (offset + SLP_MTU) pkt) as Edrop.
    { destruct (decide (length pkt - offset <= SLP_MTU)%nat).
      - rewrite Nat.min_l by done. rewrite !drop_ge by lia. done.
      - rewrite Nat.min_r by lia. done. }
    rewrite IH; rewrite ?Edrop; [|lia|word_lia|rewrite u8_id; word_lia].
    rewrite <- app_assoc. f_equal. f_equal. cbn [app]. f_equal; [f_equal; lia|].
    apply imap_ext. intros i ch _. unfold compose. rewrite u8_id by word_lia. f_equal. lia.
  - rewrite drop_ge by lia. simpl. by rewrite app_nil_r.
Qed.

(** The two shapes of what a send puts on the wire. *)
Lemma SendIpv4_small c pkt w :
  (0 < length pkt <= SLP_MTU)%nat ->
  slpClientSendIpv4 record_sendto c pkt w = Some (w ++ [SLP_TYPE_IPV4 :: pkt], true).
Proof.
  intros Hl. unfold slpClientSendIpv4, slpFrameIpv4.
  rewrite (proj2 (Nat.leb_le _ _)) by lia.
  destruct (length pkt =? 0)%nat eqn:E; [lia|]. cbn [length Nat.eqb negb]. by rewrite SendRaw_record.
Qed.

Lemma SendIpv4_large c pkt w src dst id :
  (SLP_MTU < length pkt <= 255 * SLP_MTU)%nat ->
  rd16be pkt 4 = Some id -> rd32be pkt 12 = Some src -> rd32be pkt 16 = Some dst ->
  slpClientSendIpv4 record_sendto c pkt w =
  Some (w ++ imap (fun i ch => slpFrameIpv4Frag src dst id (Z.of_nat i)
                                 (Z.of_nat (length (chunks (S (length pkt)) pkt))) ch)
              (chunks (S (length pkt)) pkt), true).
Proof.
  intros Hl Hid Hs Hd. unfold slpClientSendIpv4, slpIpv4Src, slpIpv4Dst.
  rewrite (proj2 (Nat.leb_gt _ _)) by lia. rewrite Hid, Hs, Hd. cbn [mbind option_bind].
  assert ((length pkt + SLP_MTU - 1) / SLP_MTU <= 255)%nat as H255.
  { assert ((length pkt + SLP_MTU - 1) / SLP_MTU < 256)%nat; [|lia].
    apply Nat.Div0.div_lt_upper_bound; unfold SLP_MTU in *; lia. }
  rewrite (proj2 (Nat.ltb_ge _ _)) by lia. f_equal.
  rewrite send_frags_record; rewrite ?drop_0; [|lia|lia|].
  - f_equal. f_equal. apply imap_ext. intros i ch _. rewrite chunks_length by lia. f_equal.
  - rewrite chunks_length by lia. lia.
Qed.

(** the fragmentation of an IPv4 packet.  A packet above the MTU (and below
    255 fragments) is sent as one datagram per chunk, numbered from 0, each
    announcing the number of fragments, the packet's own addresses and
    identification; the chunks are non-empty, at most 1400 bytes, all but the
    last exactly 1400, and their concatenation is the packet. *)
Theorem slpClientSendIpv4_fragments c pkt w src dst id :
  (SLP_MTU < length pkt <= 255 * SLP_MTU)%nat ->
  rd16be pkt 4 = Some id -> rd32be pkt 12 = Some src -> rd32be pkt 16 = Some dst ->
  exists cs : list bytes,
    slpClientSendIpv4 record_sendto c pkt w =
      Some (w ++ imap (fun i ch => slpFrameIpv4Frag src dst id (Z.of_nat i)
                                     (Z.of_nat (length cs)) ch) cs, true) /\
    concat cs = pkt /\
    (forall i ch, cs !! i = Some ch ->
       (0 < length ch <= SLP_MTU)%nat /\ (S i < length cs -> length ch = SLP_MTU)%nat).
Proof.
  intros Hl Hid Hs Hd. exists (chunks (S (length pkt)) pkt).
  split; [by apply SendIpv4_large|]. split; [by apply chunks_concat; lia|].
  generalize (S (length pkt)). clear. intros n. revert pkt.
  induction n as [|n IH]; intros pkt i ch Hi; [done|].
  destruct pkt as [|x pkt]; [done|]. cbn [chunks] in *. destruct i as [|i].
  - assert (ch = take SLP_MTU (x :: pkt)) as -> by (cbn [lookup list_lookup] in Hi; congruence).
    rewrite length_take. cbn [length].
    split; [unfold SLP_MTU; lia|]. intros Hc. destruct n as [|n]; [cbn in Hc; lia|].
    destruct (drop SLP_MTU (x :: pkt)) eqn:Ed; [cbn in Hc; lia|].
    apply (f_equal length) in Ed. rewrite length_drop in Ed. cbn [length] in Ed. lia.
  - destruct (IH _ i ch Hi) as [H1 H2]. split; [done|]. intros Hc. apply H2. cbn [length] in Hc. lia.
Qed.

Lemma slpClientSendIpv4_fragments_witness :
  let pkt := [69; 0; 5; 220; 1; 2; 64; 0; 64; 17; 0; 0; 10; 13; 37; 5; 10; 13; 37; 7]
             ++ replicate 1480 9 in
  exists cs, concat cs = pkt /\
    fst <$> slpClientSendIpv4 record_sendto (mkSlpClient 3 1 2 [] false [] []) pkt []
    = Some (imap (fun i ch => slpFrameIpv4Frag 0x0A0D2505 0x0A0D2507 0x0102 (Z.of_nat i)
                                (Z.of_nat (length cs)) ch) cs).
Proof.
  intros pkt.
  destruct (slpClientSendIpv4_fragments (mkSlpClient 3 1 2 [] false [] []) pkt []
              0x0A0D2505 0x0A0D2507 0x0102) as (cs & E & Hc & _).
  - unfold pkt, SLP_MTU. rewrite length_app, length_replicate. cbn [length]. lia.
  - reflexivity.
  - reflexivity.
  - reflexivity.
  - exists cs. split; [exact Hc|]. rewrite E. reflexivity.
Defined.

(** ** DNS *)

(** What [dns_encode_name] writes: labels of 1 to 63 bytes, then the root. *)
Inductive dns_name : bytes -> Prop :=
| dns_root : dns_name [0]
| dns_label l n : (1 <= length l <= 63)%nat -> dns_name n ->
    dns_name (Z.of_nat (length l) :: l ++ n).

Lemma label_len_le l : ((label_len l).1 <= length l)%nat.
Proof.
  induction l as [|c l IH]; [done|]. cbn [label_len]. destruct (c =? 46); [cbn; lia|].
  destruct (label_len l). cbn in *. lia.
Qed.

Lemma dns_encode_loop_spec fuel : forall label cap out r,
  (length out < cap)%nat -> dns_encode_loop fuel label cap out = Some r ->
  exists n, r = out ++ n /\ dns_name n /\ (length r < cap)%nat.
Proof.
  induction fuel as [|fuel IH]; intros label cap out r Hc Hr; [done|]. cbn [dns_encode_loop] in Hr.
  assert (forall out', (length out' <= cap)%nat ->
            (if (cap <? length out' + 2)%nat then None else Some (out' ++ [0])) = Some r ->
            r = out' ++ [0] /\ (length r < cap)%nat) as Hfin.
  { intros out' _ Hf. destruct (cap <? length out' + 2)%nat eqn:E; [done|]. injection Hf as <-.
    rewrite length_app. apply Nat.ltb_ge in E. cbn. split; [done|lia]. }
  destruct label as [|c label].
  - apply Hfin in Hr as [-> Hl]; [|lia]. exists [0]. split_and!; [done|constructor|done].
  - pose proof (label_len_le (c :: label)) as Hll.
    destruct (label_len (c :: label)) as [len dot] eqn:El. cbn [fst] in Hll.
    destruct ((len =? 0)%nat || _ || _) eqn:Eg; [done|].
    apply orb_false_iff in Eg as [[Eg1%Nat.eqb_neq Eg2%Nat.ltb_ge]%orb_false_iff Eg3%Nat.ltb_ge].
    set (lab := take len (c :: label)) in *.
    assert (length lab = len) as Hlab by (unfold lab; rewrite length_take; lia).
    assert (length (out ++ [Z.of_nat len] ++ lab) + 1 <= cap)%nat as Hroom.
    { rewrite !length_app, Hlab. cbn [length]. lia. }
    assert (forall n, dns_name n -> dns_name (Z.of_nat len :: lab ++ n)) as Hname.
    { intros n Hn. rewrite <- Hlab at 1. apply dns_label; [lia|done]. }
    destruct dot; cbn [negb] in Hr.
    + apply IH in Hr as (n & -> & Hn & Hl); [|lia]. exists (Z.of_nat len :: lab ++ n).
      split; [by rewrite <- !app_assoc|]. split; [by apply Hname|done].
    + apply Hfin in Hr as [-> Hl]; [|lia]. exists (Z.of_nat len :: lab ++ [0]).
      split; [by rewrite <- !app_assoc|]. split; [by apply Hname; constructor|done].
Qed.

Lemma dns_encode_name_spec host cap n :
  (0 < cap)%nat -> dns_encode_name host cap = Some n -> dns_name n /\ (length n < cap)%nat.
Proof.
  intros Hc Hn. apply dns_encode_loop_spec in Hn as (n' & -> & ? & ?); [done|simpl; lia].
Qed.

(** Any host name that fits the client's 128-byte field leaves room in the
    512-byte packet for the question's type and class. *)
Lemma dns_encode_loop_length fuel : forall label cap out r,
  dns_encode_loop fuel label cap out = Some r -> (length r <= length out + length label + 2)%nat.
Proof.
  induction fuel as [|fuel IH]; intros label cap out r Hr; [done|]. cbn [dns_encode_loop] in Hr.
  destruct label as [|c label].
  - case_match; [done|]. injection Hr as <-. rewrite length_app. cbn. lia.
  - pose proof (label_len_le (c :: label)) as Hll.
    assert (forall l, (label_len l).2 = true -> (label_len l).1 < length l)%nat as Hdot.
    { induction l as [|x l IHl]; [done|]. cbn [label_len]. destruct (x =? 46); [cbn; lia|].
      destruct (label_len l). cbn in *. intros. specialize (IHl ltac:(done)). lia. }
    specialize (Hdot (c :: label)). destruct (label_len (c :: label)) as [len dot].
    cbn [fst snd] in *. destruct ((len =? 0)%nat || _ || _); [done|]. destruct dot; cbn [negb] in Hr.
    + apply IH in Hr. specialize (Hdot eq_refl). rewrite !length_app, length_take, length_drop in Hr.
      cbn [length] in *. lia.
    + case_match; [done|]. injection Hr as <-.
      rewrite !length_app, !length_cons, length_take. cbn [length] in *. lia.
Qed.

(** building a DNS query for a host name of the length the client stores
    (at most 127 characters) never writes past the 512-byte packet. *)
Theorem dns_build_query_safe host id :
  (length host <= 127)%nat -> exists r, dns_build_query host id 512 = Some r.
Proof.
  intros Hh. unfold dns_build_query. destruct (dns_encode_name host (512 - 12)) as [n|] eqn:En; [|eauto].
  unfold dns_encode_name in En. apply dns_encode_loop_length in En. cbn [length] in En.
  rewrite (proj2 (Nat.leb_le _ _)); [eauto|]. rewrite !length_app. cbn [length]. lia.
Qed.

Lemma dns_build_query_safe_witness :
  exists r, dns_build_query (replicate 60 97 ++ [46] ++ replicate 60 98) 7 512 = Some r.
Proof. apply dns_build_query_safe. rewrite !length_app, !length_replicate. cbn [length]. lia. Defined.

Lemma byte_at_app_r p q k : byte_at (p ++ q) (length p + k) = byte_at q k.
Proof. unfold byte_at. rewrite lookup_app_r by lia. f_equal. lia. Qed.

Lemma skip_question_name n : dns_name n -> forall fuel p q,
  (length n < fuel)%nat -> 
  skip_question fuel (p ++ n ++ q) (length p) = Some (length p + length n + 4)%nat.
Proof.
  induction 1 as [|l n Hl _ IH]; intros fuel p q Hf.
  - destruct fuel as [|fuel]; [cbn in Hf; lia|]. cbn [skip_question].
    rewrite (proj2 (Nat.ltb_lt _ _)) by (rewrite !length_app; cbn [length]; lia).
    rewrite <- (Nat.add_0_r (length p)) at 1. rewrite byte_at_app_r. simpl. f_equal. lia.
  - destruct fuel as [|fuel]; [cbn in Hf; lia|]. cbn [skip_question].
    rewrite (proj2 (Nat.ltb_lt _ _)) by (rewrite !length_app; cbn [length]; lia).
    rewrite <- (Nat.add_0_r (length p)) at 1. rewrite byte_at_app_r.
    cbn [byte_at app lookup list_lookup mbind option_bind].
    destruct (Z.of_nat (length l) =? 0) eqn:E0; [lia|].
    assert (Z.land (Z.of_nat (length l)) 0xC0 = 0) as ->.
    { apply (Z.bits_inj'); intros i Hi. rewrite Z.land_spec, Z.bits_0.
      destruct (decide (i < 6)).
      - replace (Z.testbit 0xC0 i) with false; [apply andb_false_r|].
        assert (i = 0 \/ i = 1 \/ i = 2 \/ i = 3 \/ i = 4 \/ i = 5) as Hc by lia.
        destruct Hc as [->|[->|[->|[->|[->| ->]]]]]; done.
      - rewrite <- (Z.mod_small (Z.of_nat (length l)) (2 ^ 6)) by (change (2 ^ 6) with 64; lia).
        by rewrite Z.mod_pow2_bits_high by lia. }
    cbn [Z.eqb]. rewrite Nat2Z.id.
    specialize (IH fuel (p ++ Z.of_nat (length l) :: l) q).
    rewrite <- !app_assoc in IH. cbn [app] in IH. rewrite <- !app_assoc.
    rewrite length_app in IH. cbn [length] in IH.
    replace (length p + 1 + length l)%nat with (length p + S (length l))%nat by lia.
    rewrite IH by (cbn [length] in Hf; rewrite length_app in Hf; lia).
    f_equal. cbn [length]. rewrite length_app. lia.
Qed.

(** *** Termination of the loops over a response *)
Lemma skip_question_fuel f : forall k resp pos, (0 < f)%nat -> (length resp < pos + f)%nat ->
  skip_question (f + k) resp pos = skip_question f resp pos.
Proof.
  induction f as [|f IH]; intros k resp pos Hf Hl; [lia|]. cbn [Nat.add skip_question].
  destruct (pos <? length resp)%nat eqn:E; [|done]. apply Nat.ltb_lt in E.
  destruct (byte_at resp pos); [|done]. cbn [mbind option_bind]. do 2 (destruct (_ =? _); [done|]).
  apply IH; lia.
Qed.
Lemma skip_name_fuel f : forall k resp pos, (0 < f)%nat -> (length resp < pos + f)%nat ->
  skip_name (f + k) resp pos = skip_name f resp pos.
Proof.
  induction f as [|f IH]; intros k resp pos Hf Hl; [lia|]. cbn [Nat.add skip_name].
  destruct (pos <? length resp)%nat eqn:E; [|done]. apply Nat.ltb_lt in E.
  destruct (byte_at resp pos); [|done]. cbn [mbind option_bind]. do 2 (destruct (_ =? _); [done|]).
  apply IH; lia.
Qed.
Lemma skip_name_forward f : forall resp pos pos', skip_name f resp pos = Some pos' -> (pos <= pos')%nat.
Proof.
  induction f as [|f IH]; intros resp pos pos'; cbn [skip_name]; [intros [= <-]; lia|].
  destruct (_ <? _)%nat; [|intros [= <-]; lia]. destruct (byte_at _ _) as [l|]; [|done].
  cbn [mbind option_bind]. do 2 (destruct (_ =? _); [intros [= <-]; lia|]). intros E%IH. lia.
Qed.
Lemma dns_answers_rounds n : forall k resp pos, (length resp < pos + 10 * n + 12)%nat ->
  dns_answers (n + k) resp pos = dns_answers n resp pos.
Proof.
  induction n as [|n IH]; intros k resp pos Hl; cbn [Nat.add dns_answers].
  - destruct k as [|k]; [done|]. cbn [dns_answers]. by rewrite (proj2 (Nat.leb_gt _ _)) by lia.
  - destruct (_ <=? _)%nat; [|done]. destruct (skip_name _ _ _) as [q|] eqn:E; [|done].
    apply skip_name_forward in E. cbn [mbind option_bind]. destruct (_ <? _)%nat; [done|].
    destruct (rd16be resp q); [|done]. cbn [mbind option_bind].
    destruct (rd16be resp (q + 8)); [|done]. cbn [mbind option_bind].
    destruct (_ && _); [done|]. apply IH. lia.
Qed.

(** C19: Reading a response ends by the bytes it has, not by the counts it claims:
    neither loop over a name takes more rounds than there are bytes, and the loop
    over the answers, each of which moves on by ten bytes or more, takes at most
    a tenth of them whatever number of answers the header announces. *)
Theorem dns_parse_terminates resp k pos :
  skip_question (S (length resp) + k) resp pos = skip_question (S (length resp)) resp pos /\
  skip_name (S (length resp) + k) resp pos = skip_name (S (length resp)) resp pos /\
  dns_answers (length resp / 10 + k) resp pos = dns_answers (length resp / 10) resp pos.
Proof.
  split; [apply skip_question_fuel; lia|]. split; [apply skip_name_fuel; lia|].
  apply dns_answers_rounds. pose proof (Nat.div_mod_eq (length resp) 10).
  pose proof (Nat.mod_upper_bound (length resp) 10). lia.
Qed.

(** The answer a name server gives to a query: the question repeated, one
    A record under a compressed name. *)
Definition dns_answer (query addr ttl : bytes) : bytes :=
  take 2 query ++ [0x81; 0x80; 0; 1; 0; 1; 0; 0; 0; 0] ++ drop 12 query ++
  [0xC0; 0x0C; 0; 1; 0; 1] ++ ttl ++ [0; 4] ++ addr.

(** An A record with a compressed name, wherever it stands. *)
Lemma dns_answers_A pre addr ttl : length addr = 4%nat -> length ttl = 4%nat ->
  dns_answers 1 (pre ++ [0xC0; 0x0C; 0; 1; 0; 1] ++ ttl ++ [0; 4] ++ addr) (length pre) =
  Some (Some (le_dec addr)).
Proof.
  intros Ha Ht. set (ans := [0xC0; 0x0C; 0; 1; 0; 1] ++ ttl ++ [0; 4] ++ addr).
  destruct ttl as [|t0 [|t1 [|t2 [|t3 [|]]]]]; [done..| |done].
  assert (length ans = 16%nat) as Hans by (unfold ans; rewrite !length_app; cbn [length]; lia).
  cbn [dns_answers]. rewrite (proj2 (Nat.leb_le _ _)) by (rewrite length_app; lia).
  cbn [skip_name]. rewrite (proj2 (Nat.ltb_lt _ _)) by (rewrite length_app; lia).
  assert (forall k, byte_at (pre ++ ans) (length pre + k) = byte_at ans k) as Hb
    by (intros; apply byte_at_app_r).
  pose proof (Hb 0%nat) as Hb0. rewrite Nat.add_0_r in Hb0. rewrite Hb0.
  change (byte_at ans 0) with (Some 192). cbn [mbind option_bind].
  change (Z.land 192 192 =? 192) with true. cbn [mbind option_bind].
  rewrite (proj2 (Nat.ltb_ge _ _)) by (rewrite length_app; lia).
  unfold rd16be. rewrite <- !Nat.add_assoc, !Hb. cbn [Nat.add].
  change (byte_at ans 2) with (Some 0). change (byte_at ans 3) with (Some 1).
  change (byte_at ans 10) with (Some 0). change (byte_at ans 11) with (Some 4).
  cbn [mbind option_bind].
  change (be16 0 1 =? 1) with true. change (be16 0 4 =? 4) with true. cbn [andb].
  rewrite (proj2 (Nat.leb_le _ _)) by (rewrite length_app; lia).
  rewrite slice_Some by (rewrite length_app; lia). rewrite drop_app_add.
  change (drop 12 ans) with (drop 0 addr). cbn [mbind option_bind].
  by rewrite drop_0, take_ge by lia.
Qed.

(** The codec's round trip.  For every host name the encoder accepts, the
    answer to the query it builds is parsed to the address the server gave, its
    bytes kept in network order (the integer a little-endian machine reads from
    them), whatever the name, the identifier and the time to live. *)
Lemma dns_query_roundtrip host id q addr ttl :
  dns_build_query host id 512 = Some (Some q) -> length addr = 4%nat -> length ttl = 4%nat ->
  dns_parse_response (dns_answer q addr ttl) = Some (Some (le_dec addr)).
Proof.
  unfold dns_build_query. destruct (dns_encode_name host (512 - 12)) as [n|] eqn:En; [|done].
  apply dns_encode_name_spec in En as [Hn Hln]; [|lia]. case_match; [|done]. intros [= <-] Ha Ht.
  unfold dns_answer. cbn [app take drop].
  set (hd := [u8 (Z.shiftr id 8); u8 (Z.land id 255); 0x81; 0x80; 0; 1; 0; 1; 0; 0; 0; 0]).
  set (ans := [0xC0; 0x0C; 0; 1; 0; 1] ++ ttl ++ [0; 4] ++ addr).
  match goal with |- dns_parse_response ?r = _ => assert (r = hd ++ n ++ ([0; 1; 0; 1] ++ ans)) as -> end.
  { unfold hd, ans. cbn [app]. by rewrite drop_0, <- app_assoc. }
  unfold dns_parse_response. rewrite (proj2 (Nat.ltb_ge _ _))
    by (rewrite length_app; cbn [length hd]; lia).
  assert (forall l, rd16be (hd ++ l) 2 = Some (be16 129 128)) as -> by done.
  assert (forall l, rd16be (hd ++ l) 6 = Some (be16 0 1)) as -> by done.
  cbn [mbind option_bind].
  change (Z.land (be16 129 128) 32768 =? 0) with false.
  change (Z.land (be16 129 128) 15 =? 0) with true. change (be16 0 1 =? 0) with false.
  change (Z.to_nat (be16 0 1)) with 1%nat. cbn [orb negb].
  match goal with |- context [skip_question ?f ?r 12] =>
    change (skip_question f r 12) with (skip_question f r (length hd)) end.
  rewrite (skip_question_name n Hn) by (rewrite !length_app; lia). cbn [mbind option_bind].
  set (pre := hd ++ n ++ [0; 1; 0; 1]).
  assert (length pre = length hd + length n + 4)%nat as Hpre.
  { unfold pre. rewrite !length_app. cbn [length]. lia. }
  match goal with |- dns_answers 1 ?r ?p = _ =>
    assert (r = pre ++ ans) as -> by (unfold pre; rewrite <- !app_assoc; reflexivity) end.
  rewrite <- Hpre. clearbody pre. clear Hpre Hln H Hn hd.
  by apply dns_answers_A.
Qed.

Example dns_query_roundtrip_demo :
  exists q, dns_build_query [116; 101; 107; 110; 48; 46; 110; 101; 116] 0x1234 512 = Some (Some q) /\
  dns_parse_response (dns_answer q [192; 241; 238; 136] [0; 0; 1; 44]) = Some (Some 0x88EEF1C0).
Proof.
  eexists. split; [vm_compute; reflexivity|].
  rewrite (dns_query_roundtrip [116; 101; 107; 110; 48; 46; 110; 101; 116] 0x1234);
    [reflexivity|vm_compute; reflexivity|reflexivity|reflexivity].
Qed.



(** the bounds check of an A record is two bytes short.  The parser tests
    [pos + 12 <= len] before copying the bytes [pos + 10 .. pos + 13]: on a
    response cut two bytes short, an otherwise well-formed answer, it reads
    beyond the bytes received. *)
Theorem dns_parse_response_overread :
  let resp := [0; 7; 0x81; 0x80; 0; 0; 0; 1; 0; 0; 0; 0;
               0; 0; 1; 0; 1; 0xC0; 0x0C; 0; 1; 0; 1; 0; 0; 0; 60; 0; 4; 10; 13] in
  dns_parse_response resp = None /\
  dns_parse_response (resp ++ [37; 5]) = Some (Some 0x05250D0A).
Proof. split; vm_compute; reflexivity. Qed.
