(* ===== verification/Sha1.v ===== *)
(** SHA-1 (slp/sha1.h/.c), the hash of the relay login: the code with its
    unrolled rounds on an in-place circular schedule and its streaming context,
    the algorithm of FIPS 180-4 as the specification, and their equivalence. *)
From S2P Require Import Prelude Bytes SlpClient.

(** ** The code *)

(** [rol(value, bits)] on 32-bit words. *)
Definition rol (value bits : Z) : Z :=
  u32 (Z.lor (Z.shiftl value bits) (Z.shiftr value (32 - bits))).

(** [blk0(i)] and [blk(i)]: the block after the assignment, and its value. *)
Definition blk0 (l : list Z) (i : nat) : list Z * Z :=
  let v := Z.lor (Z.land (rol (l !!! i) 24) 0xFF00FF00) (Z.land (rol (l !!! i) 8) 0x00FF00FF) in
  (<[i := v]> l, v).
Definition blk (l : list Z) (i : nat) : list Z * Z :=
  let at_ k := l !!! Nat.land k 15 in
  let v := rol (Z.lxor (Z.lxor (Z.lxor (at_ (i + 13)) (at_ (i + 8))) (at_ (i + 2))) (at_ i))%nat 1 in
  (<[Nat.land i 15 := v]> l, v).

(** The working variables [a] .. [e] of [SHA1Transform] and its block. *)
Inductive Reg : Set := ra | rb | rc | rd | re.
Record Work : Set := mkWork { w_a : Z; w_b : Z; w_c : Z; w_d : Z; w_e : Z; w_block : list Z }.
Definition get (r : Reg) (s : Work) : Z :=
  match r with ra => w_a s | rb => w_b s | rc => w_c s | rd => w_d s | re => w_e s end.
Definition set (r : Reg) (v : Z) (s : Work) : Work :=
  let '(mkWork a b c d e l) := s in
  match r with
  | ra => mkWork v b c d e l | rb => mkWork a v c d e l | rc => mkWork a b v d e l
  | rd => mkWork a b c v e l | re => mkWork a b c d v l
  end.
Definition set_block (l : list Z) (s : Work) : Work :=
  mkWork (w_a s) (w_b s) (w_c s) (w_d s) (w_e s) l.

(** [z += f(w,x,y) + blk(i) + k + rol(v,5); w = rol(w,30);] *)
Definition R (f : Z -> Z -> Z -> Z) (k : Z) (b : list Z -> nat -> list Z * Z)
    (v w x y z : Reg) (i : nat) (s : Work) : Work :=
  let '(l, m) := b (w_block s) i in
  let s := set_block l s in
  let s := set z (u32 (get z s + (f (get w s) (get x s) (get y s) + m + k + rol (get v s) 5))) s in
  set w (rol (get w s) 30) s.
Definition R0 := R (fun w x y => Z.lxor (Z.land w (Z.lxor x y)) y) 0x5A827999 blk0.
Definition R1 := R (fun w x y => Z.lxor (Z.land w (Z.lxor x y)) y) 0x5A827999 blk.
Definition R2 := R (fun w x y => Z.lxor (Z.lxor w x) y) 0x6ED9EBA1 blk.
Definition R3 := R (fun w x y => Z.lor (Z.land (Z.lor w x) y) (Z.land w x)) 0x8F1BBCDC blk.
Definition R4 := R (fun w x y => Z.lxor (Z.lxor w x) y) 0xCA62C1D6 blk.

Definition rounds : list (Work -> Work) :=
  [
   R0 ra rb rc rd re 0; R0 re ra rb rc rd 1; R0 rd re ra rb rc 2; R0 rc rd re ra rb 3;
   R0 rb rc rd re ra 4; R0 ra rb rc rd re 5; R0 re ra rb rc rd 6; R0 rd re ra rb rc 7;
   R0 rc rd re ra rb 8; R0 rb rc rd re ra 9; R0 ra rb rc rd re 10; R0 re ra rb rc rd 11;
   R0 rd re ra rb rc 12; R0 rc rd re ra rb 13; R0 rb rc rd re ra 14; R0 ra rb rc rd re 15;
   R1 re ra rb rc rd 16; R1 rd re ra rb rc 17; R1 rc rd re ra rb 18; R1 rb rc rd re ra 19;
   R2 ra rb rc rd re 20; R2 re ra rb rc rd 21; R2 rd re ra rb rc 22; R2 rc rd re ra rb 23;
   R2 rb rc rd re ra 24; R2 ra rb rc rd re 25; R2 re ra rb rc rd 26; R2 rd re ra rb rc 27;
   R2 rc rd re ra rb 28; R2 rb rc rd re ra 29; R2 ra rb rc rd re 30; R2 re ra rb rc rd 31;
   R2 rd re ra rb rc 32; R2 rc rd re ra rb 33; R2 rb rc rd re ra 34; R2 ra rb rc rd re 35;
   R2 re ra rb rc rd 36; R2 rd re ra rb rc 37; R2 rc rd re ra rb 38; R2 rb rc rd re ra 39;
   R3 ra rb rc rd re 40; R3 re ra rb rc rd 41; R3 rd re ra rb rc 42; R3 rc rd re ra rb 43;
   R3 rb rc rd re ra 44; R3 ra rb rc rd re 45; R3 re ra rb rc rd 46; R3 rd re ra rb rc 47;
   R3 rc rd re ra rb 48; R3 rb rc rd re ra 49; R3 ra rb rc rd re 50; R3 re ra rb rc rd 51;
   R3 rd re ra rb rc 52; R3 rc rd re ra rb 53; R3 rb rc rd re ra 54; R3 ra rb rc rd re 55;
   R3 re ra rb rc rd 56; R3 rd re ra rb rc 57; R3 rc rd re ra rb 58; R3 rb rc rd re ra 59;
   R4 ra rb rc rd re 60; R4 re ra rb rc rd 61; R4 rd re ra rb rc 62; R4 rc rd re ra rb 63;
   R4 rb rc rd re ra 64; R4 ra rb rc rd re 65; R4 re ra rb rc rd 66; R4 rd re ra rb rc 67;
   R4 rc rd re ra rb 68; R4 rb rc rd re ra 69; R4 ra rb rc rd re 70; R4 re ra rb rc rd 71;
   R4 rd re ra rb rc 72; R4 rc rd re ra rb 73; R4 rb rc rd re ra 74; R4 ra rb rc rd re 75;
   R4 re ra rb rc rd 76; R4 rd re ra rb rc 77; R4 rc rd re ra rb 78; R4 rb rc rd re ra 79].

Definition SHA1Transform (state : list Z) (buffer : bytes) : list Z :=
  let block := (fun i => le_dec (take 4 (drop (4 * i) buffer))) <$> seq 0 16 in
  let s := mkWork (state !!! 0%nat) (state !!! 1%nat) (state !!! 2%nat) (state !!! 3%nat)
                  (state !!! 4%nat) block in
  let s := foldl (fun s r => r s) s rounds in
  [u32 (state !!! 0%nat + w_a s); u32 (state !!! 1%nat + w_b s); u32 (state !!! 2%nat + w_c s);
   u32 (state !!! 3%nat + w_d s); u32 (state !!! 4%nat + w_e s)].

Record SHA1_CTX : Set := mkCtx {
  ctx_state : list Z;
  ctx_count0 : Z;
  ctx_count1 : Z;
  ctx_buffer : bytes;
}.

(** The buffer keeps whatever the stack holds. *)
Definition SHA1Init (buffer : bytes) : SHA1_CTX :=
  mkCtx [0x67452301; 0xEFCDAB89; 0x98BADCFE; 0x10325476; 0xC3D2E1F0] 0 0 buffer.

(** [for ( ; i + 63 < len; i += 64)]: the state, and [i] at the end.  [None] is
    a read outside the data. *)
Fixpoint update_blocks (fuel : nat) (state : list Z) (data : bytes) (i : nat) : option (list Z * nat) :=
  match fuel with
  | O => Some (state, i)
  | S fuel' =>
      if (i + 63 <? length data)%nat then
        block ← slice i 64 data;
        update_blocks fuel' (SHA1Transform state block) data (i + 64)
      else Some (state, i)
  end.

Definition SHA1Update (ctx : SHA1_CTX) (data : bytes) : option SHA1_CTX :=
  let len := Z.of_nat (length data) in
  let j := ctx_count0 ctx in
  let count0 := u32 (j + u32 (Z.shiftl len 3)) in
  let count1 := if count0 <? j then u32 (ctx_count1 ctx + 1) else ctx_count1 ctx in
  let count1 := u32 (count1 + Z.shiftr len 29) in
  let j := Z.land (Z.shiftr j 3) 63 in
  if 63 <? u32 (j + len) then
    let i := Z.to_nat (64 - j) in
    head ← slice 0 i data;
    buffer ← blit (Z.to_nat j) head (ctx_buffer ctx);
    si ← update_blocks (length data) (SHA1Transform (ctx_state ctx) buffer) data i;
    rest ← slice (snd si) (length data - snd si) data;
    buffer ← blit 0 rest buffer;
    Some (mkCtx (fst si) count0 count1 buffer)
  else
    buffer ← blit (Z.to_nat j) data (ctx_buffer ctx);
    Some (mkCtx (ctx_state ctx) count0 count1 buffer).

(** [while ((context->count[0] & 504) != 448)] with the zero byte. *)
Fixpoint pad_zeros (fuel : nat) (ctx : SHA1_CTX) : option SHA1_CTX :=
  match fuel with
  | O => Some ctx
  | S fuel' =>
      if Z.land (ctx_count0 ctx) 504 =? 448 then Some ctx
      else ctx ← SHA1Update ctx [0]; pad_zeros fuel' ctx
  end.

Definition SHA1Final (ctx : SHA1_CTX) : option bytes :=
  let finalcount := (fun i : nat =>
    Z.land (Z.shiftr (if (4 <=? i)%nat then ctx_count0 ctx else ctx_count1 ctx)
                     ((3 - Z.land (Z.of_nat i) 3) * 8)) 255) <$> seq 0 8 in
  ctx ← SHA1Update ctx [128];
  ctx ← pad_zeros 64 ctx;
  ctx ← SHA1Update ctx finalcount;
  Some ((fun i : nat =>
    Z.land (Z.shiftr (ctx_state ctx !!! (i / 4)%nat) ((3 - Z.land (Z.of_nat i) 3) * 8)) 255)
    <$> seq 0 20).

(** A sequence of updates between [SHA1Init] and [SHA1Final]. *)
Fixpoint SHA1Updates (ctx : SHA1_CTX) (parts : list bytes) : option SHA1_CTX :=
  match parts with
  | [] => Some ctx
  | p :: parts' => ctx ← SHA1Update ctx p; SHA1Updates ctx parts'
  end.
Definition SHA1 (buffer : bytes) (parts : list bytes) : option bytes :=
  ctx ← SHA1Updates (SHA1Init buffer) parts; SHA1Final ctx.

(** ** The specification (FIPS 180-4, 4.1.1, 4.2.1, 5.1.1, 5.3.1, 6.1.2) *)
Definition Ch (x y z : Z) : Z := Z.lxor (Z.land x y) (Z.land (Z.lnot x) z).
Definition Parity (x y z : Z) : Z := Z.lxor (Z.lxor x y) z.
Definition Maj (x y z : Z) : Z := Z.lxor (Z.lxor (Z.land x y) (Z.land x z)) (Z.land y z).
Definition fips_f (t : nat) : Z -> Z -> Z -> Z :=
  if (t <? 20)%nat then Ch else if (t <? 40)%nat then Parity
  else if (t <? 60)%nat then Maj else Parity.
Definition fips_K (t : nat) : Z :=
  if (t <? 20)%nat then 0x5A827999 else if (t <? 40)%nat then 0x6ED9EBA1
  else if (t <? 60)%nat then 0x8F1BBCDC else 0xCA62C1D6.

(** The sixteen big-endian words of a block, and the message schedule. *)
Definition fips_words (block : bytes) : list Z :=
  (fun i : nat => be32 (block !!! (4 * i)%nat) (block !!! (4 * i + 1)%nat)
                       (block !!! (4 * i + 2)%nat) (block !!! (4 * i + 3)%nat)) <$> seq 0 16.
Fixpoint fips_schedule (n : nat) (m : list Z) : list Z :=
  match n with
  | O => m
  | S n' =>
      let W := fips_schedule n' m in
      let t := length W in
      W ++ [rol (Z.lxor (Z.lxor (Z.lxor (W !!! (t - 3)%nat) (W !!! (t - 8)%nat))
                                (W !!! (t - 14)%nat)) (W !!! (t - 16)%nat)) 1]
  end.

Abbreviation vars := (Z * Z * Z * Z * Z)%type.
Definition fips_round (W : list Z) (t : nat) (s : vars) : vars :=
  let '(a, b, c, d, e) := s in
  let T := u32 (rol a 5 + fips_f t b c d + e + fips_K t + W !!! t) in
  (T, a, rol b 30, c, d).
Definition fips_compress (H : list Z) (block : bytes) : list Z :=
  let W := fips_schedule 64 (fips_words block) in
  let '(a, b, c, d, e) :=
    foldl (fun s t => fips_round W t s)
      (H !!! 0%nat, H !!! 1%nat, H !!! 2%nat, H !!! 3%nat, H !!! 4%nat) (seq 0 80) in
  [u32 (H !!! 0%nat + a); u32 (H !!! 1%nat + b); u32 (H !!! 2%nat + c);
   u32 (H !!! 3%nat + d); u32 (H !!! 4%nat + e)].

(** Padding to a multiple of 64 bytes: a one bit, zeros, the bit length. *)
Definition fips_pad (m : bytes) : bytes :=
  let len := Z.of_nat (length m) in
  m ++ [128] ++ replicate (Z.to_nat ((55 - len) mod 64)) 0 ++ rev (le_enc 8 (8 * len)).
Fixpoint fips_hash_blocks (n : nat) (H : list Z) (m : bytes) : list Z :=
  match n with
  | O => H
  | S n' => fips_hash_blocks n' (fips_compress H (take 64 m)) (drop 64 m)
  end.
Definition fips_H0 : list Z := [0x67452301; 0xEFCDAB89; 0x98BADCFE; 0x10325476; 0xC3D2E1F0].
Definition fips_sha1 (m : bytes) : bytes :=
  let p := fips_pad m in
  mjoin ((fun w => rev (le_enc 4 w)) <$> fips_hash_blocks (length p / 64) fips_H0 p).

(** ** The rounds *)

(** The argument rotation of the unrolled calls. *)
Definition rot (k : nat) : Reg * Reg * Reg * Reg * Reg :=
  match k with
  | 0 => (ra, rb, rc, rd, re) | 1 => (re, ra, rb, rc, rd) | 2 => (rd, re, ra, rb, rc)
  | 3 => (rc, rd, re, ra, rb) | _ => (rb, rc, rd, re, ra)
  end%nat.
Definition round_macro (t : nat) :=
  if (t <? 16)%nat then R0 else if (t <? 20)%nat then R1 else if (t <? 40)%nat then R2
  else if (t <? 60)%nat then R3 else R4.
Definition call (t : nat) : Work -> Work :=
  let '(v, w, x, y, z) := rot (t mod 5) in round_macro t v w x y z t.
Definition view (k : nat) (s : Work) : vars :=
  let '(v, w, x, y, z) := rot k in (get v s, get w s, get x s, get y s, get z s).

Lemma rounds_eq : rounds = call <$> seq 0 80.
Proof. reflexivity. Qed.

Lemma R_view f K b k i s l m :
  (k < 5)%nat -> b (w_block s) i = (l, m) ->
  let '(v, w, x, y, z) := rot k in
  let s' := R f K b v w x y z i s in
  (view (S k mod 5) s' =
   let '(A, B, C, D, E) := view k s in (u32 (E + (f B C D + m + K + rol A 5)), A, rol B 30, C, D)) /\
  w_block s' = l.
Proof.
  intros Hk Hb. destruct s as [a b' c d e l0].
  destruct k as [|[|[|[|[|k]]]]]; [..|lia]; unfold R; cbn in *; rewrite Hb; done.
Qed.

Lemma Ch_eq x y z : Z.lxor (Z.land x (Z.lxor y z)) z = Ch x y z.
Proof.
  apply Z.bits_inj'. intros n Hn. unfold Ch.
  rewrite !Z.lxor_spec, !Z.land_spec, !Z.lxor_spec, Z.lnot_spec by done.
  by destruct (Z.testbit x n), (Z.testbit y n), (Z.testbit z n).
Qed.
Lemma Maj_eq x y z : Z.lor (Z.land (Z.lor x y) z) (Z.land x y) = Maj x y z.
Proof.
  apply Z.bits_inj'. intros n Hn. unfold Maj.
  rewrite !Z.lxor_spec, !Z.lor_spec, !Z.land_spec, !Z.lor_spec.
  by destruct (Z.testbit x n), (Z.testbit y n), (Z.testbit z n).
Qed.

(** ** The schedule *)
Lemma schedule_length n m : length (fips_schedule n m) = (length m + n)%nat.
Proof. induction n; simpl; rewrite ?length_app; simpl; lia. Qed.

Lemma schedule_prefix n m i d :
  (i < length m + n)%nat -> fips_schedule (d + n) m !!! i = fips_schedule n m !!! i.
Proof.
  intros Hi. induction d as [|d IH]; [done|]. cbn [Nat.add fips_schedule].
  rewrite lookup_total_app_l; [done|]. rewrite schedule_length. lia.
Qed.

Lemma schedule_rec N m t :
  length m = 16%nat -> (16 <= t < 16 + N)%nat ->
  let W := fips_schedule N m in
  W !!! t = rol (Z.lxor (Z.lxor (Z.lxor (W !!! (t - 3)%nat) (W !!! (t - 8)%nat))
                                (W !!! (t - 14)%nat)) (W !!! (t - 16)%nat)) 1.
Proof.
  intros Hm Ht W. subst W.
  replace N with ((N - S (t - 16)) + S (t - 16))%nat by lia.
  rewrite !(schedule_prefix (S (t - 16))) by lia.
  change (S (t - 16)) with (1 + (t - 16))%nat.
  rewrite (schedule_prefix (t - 16) m (t - 3) 1), (schedule_prefix (t - 16) m (t - 8) 1),
    (schedule_prefix (t - 16) m (t - 14) 1), (schedule_prefix (t - 16) m (t - 16) 1) by lia.
  cbn [Nat.add fips_schedule]. rewrite lookup_total_app_r; rewrite schedule_length, Hm; [|lia].
  replace (t - (16 + (t - 16)))%nat with 0%nat by lia. cbn [lookup_total list_lookup_total].
  replace (16 + (t - 16))%nat with t by lia. done.
Qed.

Lemma schedule_words N m i : (i < length m)%nat -> fips_schedule N m !!! i = m !!! i.
Proof. intros. rewrite <- (Nat.add_0_r N), (schedule_prefix 0) by lia. done. Qed.

(** The circular block after [t] rounds holds the last sixteen words, and the
    words not yet swapped. *)
Definition block_inv (W raw l : list Z) (t : nat) : Prop :=
  length l = 16%nat /\
  (forall i, (i < t)%nat -> (t <= i + 16)%nat -> l !!! (i mod 16)%nat = W !!! i) /\
  (forall i, (t <= i < 16)%nat -> l !!! i = raw !!! i).

Lemma land_15 k : Nat.land k 15 = (k mod 16)%nat.
Proof. change 15%nat with (Nat.ones 4). by rewrite Nat.land_ones. Qed.

Lemma insert_total_eq (l : list Z) i j v :
  (i < length l)%nat -> <[i := v]> l !!! j = if decide (i = j) then v else l !!! j.
Proof.
  intros. case_decide as E; [subst; by apply list_lookup_total_insert_eq|].
  by apply list_lookup_total_insert_ne.
Qed.

Lemma block_inv_insert W raw l t :
  (t < 80)%nat -> block_inv W raw l t -> block_inv W raw (<[(t mod 16)%nat := W !!! t]> l) (S t).
Proof.
  intros Ht (Hl & H1 & H2). pose proof (Nat.mod_upper_bound t 16).
  split; [by rewrite length_insert|]. split.
  - intros i Hi Hi'. rewrite insert_total_eq by lia. case_decide as E.
    + assert (i = t) as ->; [|done].
      pose proof (Nat.div_mod_eq i 16). pose proof (Nat.div_mod_eq t 16). lia.
    + apply H1; [|lia]. destruct (decide (i = t)); [subst; done | lia].
  - intros i Hi. rewrite insert_total_eq by lia. case_decide as E; [|apply H2; lia].
    rewrite Nat.mod_small in E by lia. lia.
Qed.

Lemma blk_ok W raw l t :
  (16 <= t < 80)%nat -> block_inv W raw l t ->
  W !!! t = rol (Z.lxor (Z.lxor (Z.lxor (W !!! (t - 3)%nat) (W !!! (t - 8)%nat))
                                (W !!! (t - 14)%nat)) (W !!! (t - 16)%nat)) 1 ->
  blk l t = (<[(t mod 16)%nat := W !!! t]> l, W !!! t).
Proof.
  intros Ht (Hl & H1 & _) HW. unfold blk. rewrite !land_15.
  assert (forall k, (1 <= k <= 16)%nat -> l !!! ((t + (16 - k)) mod 16)%nat = W !!! (t - k)%nat) as E.
  { intros k Hk. rewrite <- (H1 (t - k)%nat) by lia. f_equal.
    replace (t + (16 - k))%nat with (t - k + 1 * 16)%nat by lia. apply Nat.Div0.mod_add. }
  pose proof (E 3%nat) as E3. pose proof (E 8%nat) as E8. pose proof (E 14%nat) as E14.
  pose proof (E 16%nat) as E16. rewrite Nat.add_0_r in E16. cbn [Nat.sub] in *.
  rewrite E3, E8, E14, E16 by lia. by rewrite <- HW.
Qed.

(** The byte swap of [blk0] reads the word big-endian. *)
Lemma testbit_byte_add b r n :
  is_u8 b -> 0 <= n -> Z.testbit (b + 256 * r) n = if n <? 8 then Z.testbit b n else Z.testbit r (n - 8).
Proof.
  intros Hb Hn. change 256 with (2 ^ 8). destruct (n <? 8) eqn:E.
  - rewrite <- (Z.mod_pow2_bits_low (b + 2 ^ 8 * r) 8 n) by lia.
    rewrite Z.mul_comm, Z_mod_plus_full, Z.mod_small by (unfold is_u8 in Hb; lia). done.
  - replace n with (n - 8 + 8) at 1 by lia. rewrite <- Z.div_pow2_bits by lia.
    rewrite Z.mul_comm, Z.div_add, Z.div_small by (unfold is_u8 in Hb; lia). done.
Qed.
Lemma testbit_u8 b n : is_u8 b -> 8 <= n -> Z.testbit b n = false.
Proof. intros Hb Hn. rewrite <- (u8_id b Hb). apply Z.mod_pow2_bits_high; lia. Qed.
Lemma testbit_u32 x n : 0 <= n -> Z.testbit (u32 x) n = if n <? 32 then Z.testbit x n else false.
Proof.
  intros Hn. unfold u32. destruct (n <? 32) eqn:E;
    [apply Z.mod_pow2_bits_low | apply Z.mod_pow2_bits_high]; lia.
Qed.
Definition bits32 : list Z := Eval vm_compute in seqZ 0 32.

Lemma bits32_inj x y :
  (forall n, 32 <= n -> Z.testbit x n = Z.testbit y n) ->
  Forall (fun n => Z.testbit x n = Z.testbit y n) bits32 -> x = y.
Proof.
  intros H1 H2. apply Z.bits_inj'. intros n Hn. destruct (decide (32 <= n)); [by apply H1|].
  apply (proj1 (Forall_forall _ _) H2). change bits32 with (seqZ 0 32).
  apply list_elem_of_In, elem_of_seqZ. lia.
Qed.

(** Evaluates the closed arithmetic of bit positions and mask bits. *)
Ltac eval_closed t := let v := eval vm_compute in t in change t with v.
Ltac eval_bits :=
  repeat match goal with
  | |- context [Z.testbit (Zpos ?p) ?n] => eval_closed (Z.testbit (Zpos p) n)
  | |- context [?a + ?b] => eval_closed (a + b)
  | |- context [?a - ?b] => eval_closed (a - b)
  | |- context [?a <? ?b] => eval_closed (a <? b)
  end.

Lemma bswap_word b0 b1 b2 b3 :
  is_u8 b0 -> is_u8 b1 -> is_u8 b2 -> is_u8 b3 ->
  let l := le_dec [b0; b1; b2; b3] in
  Z.lor (Z.land (rol l 24) 0xFF00FF00) (Z.land (rol l 8) 0x00FF00FF) = be32 b0 b1 b2 b3.
Proof.
  intros H0 H1 H2 H3 l.
  assert (Hl : forall n, 0 <= n -> Z.testbit l n =
    if n <? 8 then Z.testbit b0 n else if n <? 16 then Z.testbit b1 (n - 8)
    else if n <? 24 then Z.testbit b2 (n - 16) else Z.testbit b3 (n - 24)).
  { intros n Hn. unfold l. cbn [le_dec]. rewrite testbit_byte_add by done.
    destruct (n <? 8) eqn:E1; [done|]. rewrite testbit_byte_add by (done || lia).
    replace (n - 8 <? 8) with (n <? 16) by lia. destruct (n <? 16) eqn:E2; [done|].
    rewrite testbit_byte_add by (done || lia).
    replace (n - 8 - 8 <? 8) with (n <? 24) by lia. replace (n - 8 - 8) with (n - 16) by lia.
    destruct (n <? 24) eqn:E3; [done|]. rewrite testbit_byte_add by (done || lia).
    rewrite Z.testbit_0_l. replace (n - 16 - 8) with (n - 24) by lia.
    case_match; [done|]. symmetry. apply testbit_u8; [done|lia]. }
  clearbody l. apply bits32_inj.
  - intros n Hn. unfold rol, be32. rewrite !Z.lor_spec, !Z.land_spec, !testbit_u32, !Z.shiftl_spec by lia.
    replace (n <? 32) with false by lia. simpl.
    rewrite !testbit_u8 by (done || lia). done.
  - unfold rol, be32, bits32.
    repeat apply Forall_cons_2; try apply Forall_nil;
      rewrite !Z.lor_spec, !Z.land_spec, !testbit_u32, !Z.lor_spec, !Z.shiftl_spec, !Z.shiftr_spec by done;
      eval_bits; cbn [andb orb];
      rewrite ?andb_true_r, ?andb_false_r, ?orb_false_r, ?orb_false_l, ?Z.testbit_neg_r by done;
      rewrite ?Hl by done; eval_bits; cbn [andb orb];
      rewrite ?(testbit_u8 b0), ?(testbit_u8 b1), ?(testbit_u8 b2), ?(testbit_u8 b3) by done;
      rewrite ?orb_false_r, ?orb_false_l; done.
Qed.
(** ** One block *)
Section transform.
Context (buffer : bytes) (Hlen : length buffer = 64%nat) (Hbytes : is_bytes buffer).
Let raw := (fun i => le_dec (take 4 (drop (4 * i) buffer))) <$> seq 0 16.
Let W := fips_schedule 64 (fips_words buffer).

Lemma fmap_seq_lookup (f : nat -> Z) n i : (i < n)%nat -> (f <$> seq 0 n) !!! i = f i.
Proof.
  intros Hi. apply list_lookup_total_correct. rewrite list_lookup_fmap, lookup_seq_lt by done. done.
Qed.

Lemma take4 k :
  (k + 4 <= length buffer)%nat ->
  take 4 (drop k buffer) =
  [buffer !!! k; buffer !!! (k + 1)%nat; buffer !!! (k + 2)%nat; buffer !!! (k + 3)%nat].
Proof.
  intros Hk. rewrite !list_lookup_total_alt.
  replace k with (k + 0)%nat at 2 by lia. rewrite <- !lookup_drop.
  assert (4 <= length (drop k buffer))%nat as Hd by (rewrite length_drop; lia).
  destruct (drop k buffer) as [|a [|b [|c [|d l]]]]; cbn in Hd; try lia. done.
Qed.

Lemma buffer_u8 i : (i < 64)%nat -> is_u8 (buffer !!! i).
Proof.
  intros Hi. destruct (byte_at_Some buffer i) as [b Hb]; [lia|].
  rewrite (list_lookup_total_correct _ _ _ Hb). by eapply byte_at_u8.
Qed.

Lemma fips_words_length : length (fips_words buffer) = 16%nat.
Proof. done. Qed.

Lemma blk0_ok l t :
  (t < 16)%nat -> block_inv W raw l t -> blk0 l t = (<[(t mod 16)%nat := W !!! t]> l, W !!! t).
Proof.
  intros Ht (_ & _ & H2). unfold blk0. rewrite (H2 t) by lia.
  assert (raw !!! t = le_dec (take 4 (drop (4 * t) buffer))) as ->
    by (unfold raw; by rewrite fmap_seq_lookup by lia).
  rewrite take4 by lia. rewrite bswap_word by (apply buffer_u8; lia). rewrite Nat.mod_small by lia.
  unfold W. rewrite schedule_words by (rewrite fips_words_length; lia).
  unfold fips_words. by rewrite fmap_seq_lookup by lia.
Qed.

Lemma block_step l t :
  (t < 80)%nat -> block_inv W raw l t ->
  (if (t <? 16)%nat then blk0 else blk) l t = (<[(t mod 16)%nat := W !!! t]> l, W !!! t).
Proof.
  intros Ht Hl. destruct (t <? 16)%nat eqn:E; [apply blk0_ok; [lia|done]|].
  apply (blk_ok W raw); [lia|done|]. apply schedule_rec; [done|lia].
Qed.

(** Each macro is the round function of its phase. *)
Lemma round_macro_R t :
  exists f, round_macro t = R f (fips_K t) (if (t <? 16)%nat then blk0 else blk) /\
            forall x y z, f x y z = fips_f t x y z.
Proof.
  unfold round_macro, fips_f, fips_K, R0, R1, R2, R3, R4.
  destruct (t <? 16)%nat eqn:E1, (t <? 20)%nat eqn:E2, (t <? 40)%nat eqn:E3, (t <? 60)%nat eqn:E4;
    try lia; eexists; (split; [reflexivity|]); intros; cbn beta; by rewrite ?Ch_eq, ?Maj_eq.
Qed.

Lemma call_step t s :
  (t < 80)%nat -> block_inv W raw (w_block s) t ->
  view (S t mod 5) (call t s) = fips_round W t (view (t mod 5) s) /\
  block_inv W raw (w_block (call t s)) (S t).
Proof.
  intros Ht Hinv. destruct (round_macro_R t) as (f & Hm & Hf).
  pose proof (R_view f (fips_K t) _ (t mod 5) t s _ _ (Nat.mod_upper_bound t 5 ltac:(lia))
                (block_step _ t Ht Hinv)) as HR.
  unfold call. rewrite Hm.
  assert (S (t mod 5) mod 5 = S t mod 5)%nat as E
    by exact (Nat.Div0.add_mod_idemp_r 1 t 5).
  rewrite E in HR. destruct (rot (t mod 5)) as [[[[v w] x] y] z]. destruct HR as [HR1 HR2].
  split; [|rewrite HR2; by apply block_inv_insert].
  rewrite HR1. destruct (view (t mod 5) s) as [[[[A B] C] D] F]. unfold fips_round.
  rewrite Hf. replace (F + _) with (rol A 5 + fips_f t B C D + F + fips_K t + W !!! t) by lia. done.
Qed.

Lemma rounds_ok n s :
  (n <= 80)%nat -> block_inv W raw (w_block s) 0 ->
  let s' := foldl (fun s r => r s) s (call <$> seq 0 n) in
  view (n mod 5) s' = foldl (fun v t => fips_round W t v) (view 0 s) (seq 0 n) /\
  block_inv W raw (w_block s') n.
Proof.
  intros Hn Hs. induction n as [|n IH]; [done|].
  rewrite seq_S, fmap_app, !foldl_app. destruct IH as [IH1 IH2]; [lia|].
  cbn [fmap list_fmap foldl Nat.add]. rewrite <- IH1. apply call_step; [lia|done].
Qed.

Lemma finish_view (H : list Z) s1 :
  [u32 (H !!! 0%nat + w_a s1); u32 (H !!! 1%nat + w_b s1); u32 (H !!! 2%nat + w_c s1);
   u32 (H !!! 3%nat + w_d s1); u32 (H !!! 4%nat + w_e s1)] =
  let '(a, b, c, d, e) := view 0 s1 in
  [u32 (H !!! 0%nat + a); u32 (H !!! 1%nat + b); u32 (H !!! 2%nat + c);
   u32 (H !!! 3%nat + d); u32 (H !!! 4%nat + e)].
Proof. reflexivity. Qed.

Lemma SHA1Transform_eq H : SHA1Transform H buffer = fips_compress H buffer.
Proof.
  unfold SHA1Transform, fips_compress. cbv zeta. rewrite finish_view, rounds_eq.
  pose proof (rounds_ok 80) as Hv. change (80 mod 5)%nat with 0%nat in Hv.
  set (s0 := mkWork _ _ _ _ _ _).
  assert (block_inv W raw (w_block s0) 0) as H0
    by (split; [done|]; split; [intros; lia | intros; done]).
  rewrite (proj1 (Hv s0 ltac:(lia) H0)). reflexivity.
Qed.
End transform.
(** ** The streaming context *)
Lemma hash_blocks_snoc n H B blk :
  length B = (64 * n)%nat -> length blk = 64%nat ->
  fips_hash_blocks (n + 1) H (B ++ blk) = fips_compress (fips_hash_blocks n H B) blk.
Proof.
  revert H B; induction n as [|n IH]; intros H B HB Hb; cbn [Nat.add fips_hash_blocks].
  - apply nil_length_inv in HB as ->. by rewrite app_nil_l, take_ge by lia.
  - rewrite take_app_le, drop_app_le by lia. apply IH; [rewrite length_drop; lia|done].
Qed.

Lemma hash_blocks_app n1 n2 H B C :
  length B = (64 * n1)%nat ->
  fips_hash_blocks (n1 + n2) H (B ++ C) = fips_hash_blocks n2 (fips_hash_blocks n1 H B) C.
Proof.
  revert H B; induction n1 as [|n IH]; intros H B HB; cbn [Nat.add fips_hash_blocks].
  - by apply nil_length_inv in HB as ->.
  - rewrite take_app_le, drop_app_le by lia. apply IH. rewrite length_drop. lia.
Qed.

Lemma hash_blocks_take n H m :
  (64 * n <= length m)%nat -> fips_hash_blocks n H (take (64 * n) m) = fips_hash_blocks n H m.
Proof.
  intros Hn. rewrite <- (take_drop (64 * n) m) at 2.
  rewrite <- (Nat.add_0_r n) at 3. rewrite hash_blocks_app; [done|]. rewrite length_take. lia.
Qed.

(** The loop over the whole blocks of the data. *)
Lemma update_blocks_ok fuel st data i :
  is_bytes data -> (length data - i <= fuel)%nat -> (i <= length data)%nat ->
  let n := ((length data - i) / 64)%nat in
  update_blocks fuel st data i = Some (fips_hash_blocks n st (drop i data), (i + 64 * n)%nat).
Proof.
  intros Hd. revert st i; induction fuel as [|fuel IH]; intros st i Hf Hi; cbn [update_blocks].
  - replace (length data - i)%nat with 0%nat by lia. change (0 / 64)%nat with 0%nat.
    cbn [fips_hash_blocks]. by rewrite Nat.mul_0_r, Nat.add_0_r.
  - destruct (i + 63 <? length data)%nat eqn:E.
    + assert (64 <= length data - i)%nat as H64 by lia.
      rewrite slice_Some by lia. cbn [mbind option_bind].
      rewrite SHA1Transform_eq;
        [|rewrite length_take, length_drop; lia|by apply Forall_take, Forall_drop].
      rewrite IH by lia.
      replace ((length data - i) / 64)%nat with (S ((length data - (i + 64)) / 64))
        by (replace (length data - i)%nat with (length data - (i + 64) + 1 * 64)%nat by lia;
            rewrite Nat.div_add by lia; lia).
      cbn [fips_hash_blocks]. rewrite drop_drop. f_equal. f_equal. lia.
    + rewrite Nat.div_small by lia. cbn [fips_hash_blocks]. by rewrite Nat.mul_0_r, Nat.add_0_r.
Qed.

(** A context that has been fed the message [m]: whole blocks [B] in the state,
    the rest [r] at the start of the buffer. *)
Definition ctx_repr (ctx : SHA1_CTX) (m : bytes) : Prop :=
  exists n B r,
    m = B ++ r /\ length B = (64 * n)%nat /\ (length r < 64)%nat /\ is_bytes m /\
    ctx_state ctx = fips_hash_blocks n fips_H0 B /\
    take (length r) (ctx_buffer ctx) = r /\
    length (ctx_buffer ctx) = 64%nat /\ is_bytes (ctx_buffer ctx) /\
    ctx_count0 ctx = u32 (8 * Z.of_nat (length m)) /\
    ctx_count1 ctx = u32 (8 * Z.of_nat (length m) / 4294967296).

Lemma SHA1Init_repr buffer :
  length buffer = 64%nat -> is_bytes buffer -> ctx_repr (SHA1Init buffer) [].
Proof. intros. exists 0%nat, [], []. repeat split; simpl; try done || lia || constructor. Qed.

Lemma count_update M L c0 c1 :
  0 <= M -> 0 <= L < 4294967296 ->
  c0 = u32 (8 * M) -> c1 = u32 (8 * M / 4294967296) ->
  let c0' := u32 (c0 + u32 (Z.shiftl L 3)) in
  let c1' := if c0' <? c0 then u32 (c1 + 1) else c1 in
  c0' = u32 (8 * (M + L)) /\ u32 (c1' + Z.shiftr L 29) = u32 (8 * (M + L) / 4294967296).
Proof.
  intros HM HL -> ->. rewrite Z.shiftl_mul_pow2, Z.shiftr_div_pow2 by lia.
  change (2 ^ 3) with 8. change (2 ^ 29) with 536870912. cbv zeta.
  set (q := 8 * M / 4294967296).
  assert (8 * M = 4294967296 * q + u32 (8 * M)) as HA
    by (unfold u32, q; change (2 ^ 32) with 4294967296; apply Z.div_mod; lia).
  pose proof (u32_range (8 * M)) as Hr. unfold is_u32 in Hr.
  set (a := u32 (8 * M)) in *. clearbody a q.
  assert (u32 (a + u32 (L * 8)) = u32 (8 * (M + L))) as E by word_lia.
  rewrite E. split; [done|].
  destruct (u32 (8 * (M + L)) <? a) eqn:C; word_lia.
Qed.

Lemma buffer_index M : 0 <= M -> Z.land (Z.shiftr (u32 (8 * M)) 3) 63 = M mod 64.
Proof.
  intros HM. change 63 with (Z.ones 6). rewrite Z.land_ones, Z.shiftr_div_pow2 by lia.
  change (2 ^ 6) with 64. change (2 ^ 3) with 8. word_lia.
Qed.
Definition part_ok (p : bytes) : Prop := is_bytes p /\ Z.of_nat (length p) < 4294967232.

(** The two branches of [SHA1Update] on a context that holds [B ++ r]. *)
Section update.
Context (n : nat) (B r buf p : bytes) (c0 c1 : Z).
Context (HB : length B = (64 * n)%nat) (Hr : (length r < 64)%nat) (Hall : is_bytes ((B ++ r) ++ p)).
Context (Hbuf : take (length r) buf = r) (Hlen : length buf = 64%nat) (Hb : is_bytes buf).
Context (Hc0 : c0 = u32 (8 * Z.of_nat (length ((B ++ r) ++ p)))).
Context (Hc1 : c1 = u32 (8 * Z.of_nat (length ((B ++ r) ++ p)) / 4294967296)).
Let st := fips_hash_blocks n fips_H0 B.

Lemma update_partial :
  (length r + length p < 64)%nat ->
  exists buf', blit (length r) p buf = Some buf' /\ ctx_repr (mkCtx st c0 c1 buf') ((B ++ r) ++ p).
Proof.
  intros Hl. pose proof Hall as Hall'. rewrite !is_bytes_app in Hall'. destruct Hall' as [[HmB Hmr] Hp].
  rewrite blit_Some by lia. eexists; split; [reflexivity|].
  exists n, B, (r ++ p). cbn [ctx_state ctx_buffer ctx_count0 ctx_count1].
  split; [by rewrite app_assoc|]. split; [done|]. split; [rewrite length_app; lia|].
  split; [done|]. split; [done|]. rewrite Hbuf.
  split; [by rewrite app_assoc, take_app_length|].
  split; [rewrite !length_app, length_drop; lia|].
  split; [|done]. rewrite !is_bytes_app. split; [done|]. split; [done|by apply Forall_drop].
Qed.

Lemma update_full :
  (64 <= length r + length p)%nat ->
  let i := (64 - length r)%nat in
  exists buf' si rest buf'',
    blit (length r) (take i p) buf = Some buf' /\
    update_blocks (length p) (SHA1Transform st buf') p i = Some si /\
    slice (snd si) (length p - snd si) p = Some rest /\
    blit 0 rest buf' = Some buf'' /\
    ctx_repr (mkCtx (fst si) c0 c1 buf'') ((B ++ r) ++ p).
Proof.
  intros Hl i. pose proof Hall as Hall'. rewrite !is_bytes_app in Hall'. destruct Hall' as [[HmB Hmr] Hp].
  assert (length (take i p) = i) as Hti by (rewrite length_take; lia).
  rewrite blit_Some by lia. rewrite Hti, Hbuf, (drop_ge buf), app_nil_r by lia.
  assert (is_bytes (r ++ take i p)) as Hblk by (apply is_bytes_app; split; [done|by apply Forall_take]).
  assert (length (r ++ take i p) = 64%nat) as Hl64 by (rewrite length_app; lia).
  eexists _, _, _, _. split; [reflexivity|].
  rewrite SHA1Transform_eq by done. rewrite update_blocks_ok by (done || lia).
  set (k := ((length p - i) / 64)%nat). split; [reflexivity|]. cbn [fst snd].
  pose proof (Nat.div_mod_eq (length p - i) 64). pose proof (Nat.mod_upper_bound (length p - i) 64).
  rewrite slice_Some by lia. split; [reflexivity|].
  rewrite (take_ge (drop (i + 64 * k) p)) by (rewrite length_drop; lia).
  set (rest := drop (i + 64 * k) p).
  assert (length rest = (length p - i) mod 64)%nat as Hrest by (unfold rest; rewrite length_drop; lia).
  rewrite blit_Some by lia. split; [reflexivity|].
  exists (n + 1 + k)%nat, (B ++ (r ++ take i p) ++ take (64 * k) (drop i p)), rest.
  cbn [ctx_state ctx_buffer ctx_count0 ctx_count1].
  split; [rewrite <- !app_assoc; do 2 f_equal; unfold rest; rewrite <- drop_drop, !take_drop; done|].
  split; [rewrite !length_app, !length_take, !length_drop; lia|]. split; [lia|]. split; [done|].
  split.
  { unfold st. rewrite app_assoc, hash_blocks_app by (rewrite length_app; lia).
    rewrite hash_blocks_snoc by done. symmetry. apply hash_blocks_take. rewrite length_drop. lia. }
  split; [by rewrite take_0, app_nil_l, take_app_length|].
  split; [rewrite take_0, app_nil_l, length_app, !length_drop, Hl64; lia|].
  split; [|done]. rewrite !is_bytes_app. split; [by apply Forall_take|].
  split; by apply Forall_drop.
Qed.
End update.

Lemma SHA1Update_ok ctx m p :
  ctx_repr ctx m -> part_ok p -> exists ctx', SHA1Update ctx p = Some ctx' /\ ctx_repr ctx' (m ++ p).
Proof.
  intros (n & B & r & -> & HB & Hr & Hm & Hst & Hbuf & Hlen & Hb & Hc0 & Hc1) [Hp HL].
  destruct (count_update (Z.of_nat (length (B ++ r))) (Z.of_nat (length p)) _ _
              ltac:(lia) ltac:(lia) Hc0 Hc1) as [H0 H1].
  assert (Z.land (Z.shiftr (ctx_count0 ctx) 3) 63 = Z.of_nat (length r)) as Hj.
  { rewrite Hc0, buffer_index, length_app, HB by lia. word_lia. }
  unfold SHA1Update. rewrite Hj, H0 in *. rewrite H1.
  rewrite (u32_id (Z.of_nat (length r) + _)) by (unfold is_u32; lia).
  assert (Z.of_nat (length (B ++ r)) + Z.of_nat (length p) = Z.of_nat (length ((B ++ r) ++ p))) as ->
    by (rewrite (length_app (B ++ r)); lia).
  assert (is_bytes ((B ++ r) ++ p)) as Hall by (apply is_bytes_app; done).
  rewrite !Nat2Z.id, Hst.
  destruct (63 <? Z.of_nat (length r) + Z.of_nat (length p)) eqn:E.
  - replace (Z.to_nat (64 - Z.of_nat (length r))) with (64 - length r)%nat by lia.
    rewrite slice_Some by lia. rewrite drop_0. cbn [mbind option_bind].
    destruct (update_full n B r (ctx_buffer ctx) p _ _ HB Hr Hall Hbuf Hlen eq_refl eq_refl)
      as (b1 & si & rest & b2 & -> & E2 & E3 & E4 & Hrep); [lia|]. cbn [mbind option_bind].
    rewrite E2. cbn [mbind option_bind]. rewrite E3. cbn [mbind option_bind]. rewrite E4.
    eexists; split; [reflexivity|done].
  - destruct (update_partial n B r (ctx_buffer ctx) p _ _ HB Hr Hall Hbuf Hlen Hb eq_refl eq_refl)
      as (b1 & -> & Hrep); [lia|]. eexists; split; [reflexivity|done].
Qed.

Lemma SHA1Updates_ok parts ctx m :
  ctx_repr ctx m -> Forall part_ok parts ->
  exists ctx', SHA1Updates ctx parts = Some ctx' /\ ctx_repr ctx' (m ++ concat parts).
Proof.
  revert ctx m; induction parts as [|p parts IH]; intros ctx m Hc Hp; cbn [SHA1Updates concat].
  - exists ctx. by rewrite app_nil_r.
  - apply Forall_cons_1 in Hp as [Hp Hps].
    destruct (SHA1Update_ok ctx m p Hc Hp) as (c1 & -> & H1). cbn [mbind option_bind].
    destruct (IH c1 _ H1 Hps) as (c2 & H2 & H3). exists c2. split; [done|]. by rewrite app_assoc.
Qed.

(** ** Padding and the digest *)
Lemma pad_condition ctx m :
  ctx_repr ctx m -> (Z.land (ctx_count0 ctx) 504 =? 448) = (Z.of_nat (length m) mod 64 =? 56).
Proof.
  intros (n & B & r & _ & _ & _ & _ & _ & _ & _ & _ & -> & _).
  assert (Z.land (u32 (8 * Z.of_nat (length m))) 504 = 8 * (Z.of_nat (length m) mod 64)) as ->; [|lia].
  set (M := Z.of_nat (length m)).
  transitivity (Z.land (Z.shiftl M 3) 504).
  - rewrite Z.shiftl_mul_pow2, Z.mul_comm by lia. change (2 ^ 3) with 8. unfold u32.
    rewrite <- Z.land_ones by lia. rewrite <- Z.land_assoc. f_equal.
  - change 504 with (Z.shiftl (Z.ones 6) 3). rewrite <- Z.shiftl_land, Z.land_ones by lia.
    rewrite Z.shiftl_mul_pow2 by lia. change (2 ^ 3) with 8. change (2 ^ 6) with 64. lia.
Qed.

Lemma pad_zeros_ok fuel ctx m k :
  ctx_repr ctx m -> k = Z.to_nat ((56 - Z.of_nat (length m)) mod 64) -> (k < fuel)%nat ->
  exists ctx', pad_zeros fuel ctx = Some ctx' /\ ctx_repr ctx' (m ++ replicate k 0).
Proof.
  revert ctx m k; induction fuel as [|fuel IH]; intros ctx m k Hc Hk Hf; [lia|]. cbn [pad_zeros].
  rewrite (pad_condition _ _ Hc). destruct (_ =? 56) eqn:E.
  - assert (k = 0%nat) as -> by word_lia. exists ctx. by rewrite app_nil_r.
  - destruct (SHA1Update_ok ctx m [0] Hc) as (c1 & -> & H1).
    { split; [repeat constructor; unfold is_u8; lia|done]. }
    cbn [mbind option_bind].
    assert (k = S (k - 1)) as Ek by word_lia.
    destruct (IH c1 _ (k - 1)%nat H1) as (c2 & H2 & H3).
    { rewrite length_app. cbn [length]. word_lia. } { lia. }
    exists c2. split; [done|]. rewrite Ek. cbn [replicate]. rewrite <- app_assoc in H3. done.
Qed.

Lemma be64_eq M :
  ((fun i : nat => Z.land (Z.shiftr (if (4 <=? i)%nat then u32 M else u32 (M / 4294967296))
     ((3 - Z.land (Z.of_nat i) 3) * 8)) 255) <$> seq 0 8) = rev (le_enc 8 M).
Proof.
  cbn [fmap list_fmap seq le_enc rev app Nat.leb].
  repeat match goal with |- context [(3 - Z.land (Z.of_nat ?k) 3) * 8] =>
    eval_closed ((3 - Z.land (Z.of_nat k) 3) * 8) end.
  rewrite !land_255, !Z.shiftr_div_pow2 by lia.
  change (2 ^ 24) with 16777216; change (2 ^ 16) with 65536; change (2 ^ 8) with 256; change (2 ^ 0) with 1.
  rewrite !Z.div_div by lia. repeat apply (f_equal2 cons); try done; word_lia.
Qed.

Lemma word_digest v : is_u32 v ->
  [Z.land (Z.shiftr v 24) 255; Z.land (Z.shiftr v 16) 255; Z.land (Z.shiftr v 8) 255;
   Z.land (Z.shiftr v 0) 255] = rev (le_enc 4 v).
Proof.
  intros Hv. cbn [le_enc rev app]. rewrite !land_255, !Z.shiftr_div_pow2 by lia.
  rewrite !Z.div_div by lia. rewrite Z.div_1_r. done.
Qed.

Lemma hash_blocks_words n H m :
  length H = 5%nat -> Forall is_u32 H ->
  length (fips_hash_blocks n H m) = 5%nat /\ Forall is_u32 (fips_hash_blocks n H m).
Proof.
  revert H m; induction n as [|n IH]; intros H m Hl Hw; cbn [fips_hash_blocks]; [done|].
  apply IH; unfold fips_compress; destruct (foldl _ _ _) as [[[[a b] c] d] e]; [done|].
  repeat constructor; apply u32_range.
Qed.

Lemma fips_pad_length m : (length (fips_pad m) mod 64 = 0)%nat.
Proof.
  unfold fips_pad. rewrite !length_app, length_replicate, length_rev, le_enc_length. cbn [length].
  apply Nat2Z.inj. rewrite Nat2Z.inj_mod. word_lia.
Qed.

Lemma SHA1Final_ok ctx m :
  ctx_repr ctx m -> SHA1Final ctx = Some (fips_sha1 m).
Proof.
  intros Hc. pose proof Hc as (n0 & B0 & r0 & _ & _ & _ & _ & _ & _ & _ & _ & Hc0 & Hc1).
  unfold SHA1Final. rewrite Hc0, Hc1, be64_eq.
  destruct (SHA1Update_ok ctx m [128] Hc) as (c1 & -> & H1).
  { split; [repeat constructor; unfold is_u8; lia|done]. }
  cbn [mbind option_bind].
  destruct (pad_zeros_ok 64 c1 _ (Z.to_nat ((55 - Z.of_nat (length m)) mod 64)) H1) as (c2 & -> & H2).
  { rewrite length_app. cbn [length]. f_equal. f_equal. lia. } { word_lia. }
  cbn [mbind option_bind].
  destruct (SHA1Update_ok c2 _ (rev (le_enc 8 (8 * Z.of_nat (length m)))) H2) as (c3 & -> & H3).
  { split; [apply Forall_rev, le_enc_bytes|]. rewrite length_rev, le_enc_length. done. }
  cbn [mbind option_bind]. unfold fips_sha1.
  rewrite <- !app_assoc in H3. change (m ++ _) with (fips_pad m) in H3.
  destruct H3 as (n & B & r & HBr & HB & Hr & _ & Hst & _).
  pose proof (fips_pad_length m) as Hpl.
  assert (r = []) as ->.
  { apply nil_length_inv. rewrite HBr, length_app, HB in Hpl.
    rewrite Nat.mul_comm, Nat.add_comm, Nat.Div0.mod_add, Nat.mod_small in Hpl by lia. done. }
  rewrite app_nil_r in HBr. rewrite HBr, HB, (Nat.mul_comm 64), Nat.div_mul by lia.
  rewrite Hst. f_equal.
  destruct (hash_blocks_words n fips_H0 B) as [Hl Hw]; [done|repeat constructor; unfold is_u32; lia|].
  destruct (fips_hash_blocks n fips_H0 B) as [|w0 [|w1 [|w2 [|w3 [|w4 [|]]]]]]; try done.
  apply Forall_cons_1 in Hw as [W0 Hw]. apply Forall_cons_1 in Hw as [W1 Hw].
  apply Forall_cons_1 in Hw as [W2 Hw]. apply Forall_cons_1 in Hw as [W3 Hw].
  apply Forall_cons_1 in Hw as [W4 _].
  cbn [fmap list_fmap mjoin list_join]. rewrite <- !word_digest by done. reflexivity.
Qed.

(** C26: SHA-1 as the code computes it, streaming any sequence of parts through
    the context with its unrolled rounds and in-place schedule, is SHA-1 as FIPS
    180-4 defines it on their concatenation: it returns, without leaving a
    buffer, for every split of the message and whatever the stack held. *)
Theorem SHA1_equivalence buffer parts :
  length buffer = 64%nat -> is_bytes buffer -> Forall part_ok parts ->
  SHA1 buffer parts = Some (fips_sha1 (concat parts)).
Proof.
  intros Hl Hb Hp. unfold SHA1.
  destruct (SHA1Updates_ok parts _ [] (SHA1Init_repr _ Hl Hb) Hp) as (ctx & -> & Hc).
  cbn [mbind option_bind]. by apply SHA1Final_ok.
Qed.

Lemma SHA1_equivalence_witness :
  SHA1 (replicate 64 0) [[97]; [98; 99]] = Some (fips_sha1 [97; 98; 99]).
Proof.
  apply (SHA1_equivalence (replicate 64 0) [[97]; [98; 99]]).
  - reflexivity.
  - repeat constructor; unfold is_u8; lia.
  - repeat constructor; unfold is_u8; simpl; lia.
Defined.

(** The test vectors of the header comment of sha1.c. *)
Example fips_sha1_abc :
  fips_sha1 [97; 98; 99] =
  [0xA9; 0x99; 0x3E; 0x36; 0x47; 0x06; 0x81; 0x6A; 0xBA; 0x3E; 0x25; 0x71; 0x78; 0x50; 0xC2;
   0x6C; 0x9C; 0xD0; 0xD8; 0x9D].
Proof. vm_compute. reflexivity. Qed.
