(* ===== verification/Tunnel.v ===== *)
(** The tunnel (tunnel/slp_tunnel.cpp): datagrams of the game's sockets put
    into IPv4/UDP packets for the relay, and the packets of the relay checked,
    reassembled and handed to the LDN control plane or to the sockets.

    A function returns [None] where the code would read or write outside a
    buffer.  Ticks are arguments.  The two consumers of inbound datagrams are an
    interface, [TunnelSink]. *)
From S2P Require Import Prelude Bytes IpAddr ProxySocket SlpClient.

Definition MaxFragEntries : nat := 4.
Definition MaxTotalParts : nat := 4.
Definition FragTimeoutTicks : Z := 19200000.
Definition INT64_MAX : Z := 2 ^ 63 - 1.
Definition ControlPort : Z := 11452.
Definition FRAG_DATA_SIZE : nat := MaxTotalParts * SLP_MTU.
#[global] Arguments FRAG_DATA_SIZE : simpl never.

(** struct FragEntry (its field [total] is never used). *)
Record FragEntry : Set := mkFrag {
  fe_active : bool;
  fe_src : Z;
  fe_id : Z;
  fe_seen : Z;
  fe_lens : list Z;
  fe_pmtu : Z;
  fe_total_parts : Z;
  fe_last_tick : Z;
  fe_data : bytes;
}.

(** [memset(&e, 0, sizeof(e))] *)
Definition FragEntry_zero : FragEntry :=
  mkFrag false 0 0 0 (replicate MaxTotalParts 0) 0 0 0 (replicate FRAG_DATA_SIZE 0).
#[global] Instance FragEntry_inhabited : Inhabited FragEntry := populate FragEntry_zero.

Record TunState : Set := mkTun {
  g_local_ip : Z;
  g_ip_id : Z;
  g_frags : list FragEntry;
}.
Definition TunState_init : TunState := mkTun 0 0 (replicate MaxFragEntries FragEntry_zero).
Definition set_frags (t : TunState) (l : list FragEntry) : TunState :=
  mkTun (g_local_ip t) (g_ip_id t) l.

(** ** Checksum *)

(** The sum of the 16-bit words of the header, an odd last byte as high byte. *)
Fixpoint ip_sum (l : bytes) (sum : Z) : Z :=
  match l with
  | a :: b :: l' => ip_sum l' (u32 (sum + be16 a b))
  | [a] => u32 (sum + u16 (Z.shiftl a 8))
  | [] => sum
  end.

(** [while (sum >> 16) sum = (sum & 0xFFFF) + (sum >> 16)] *)
Fixpoint csum_fold (fuel : nat) (sum : Z) : Z :=
  match fuel with
  | O => sum
  | S fuel' =>
      if Z.shiftr sum 16 =? 0 then sum
      else csum_fold fuel' (Z.land sum 0xFFFF + Z.shiftr sum 16)
  end.
Definition IpChecksum (l : bytes) : Z := u16 (Z.lnot (csum_fold 4 (ip_sum l 0))).

(** ** Address parsing: the characters up to the terminator *)
Fixpoint ParseIp_loop (s : bytes) (v oct cur : Z) : Z :=
  let close_octet :=
    if (255 <? cur) || (3 <? oct) then None
    else Some (u32 (Z.lor (Z.shiftl v 8) (u8 cur)), oct + 1) in
  match s with
  | c :: s' =>
      if (48 <=? c) && (c <=? 57) then ParseIp_loop s' v oct (cur * 10 + (c - 48))
      else if c =? 46 then
        match close_octet with
        | None => 0
        | Some (v, oct) => ParseIp_loop s' v oct 0
        end
      else 0
  | [] =>
      match close_octet with
      | None => 0
      | Some (v, oct) => if oct =? 4 then v else 0
      end
  end.
Definition ParseIp (s : bytes) : Z := ParseIp_loop s 0 0 0.

(** ** Inbound IPv4 *)

(** The UDP datagram of a packet. *)
Record UdpIn : Set := mkUdpIn {
  ui_src : Z;
  ui_sport : Z;
  ui_dst : Z;
  ui_dport : Z;
  ui_data : bytes;
}.

(** [Some None]: the packet is dropped. *)
Definition parse_udp (pkt : bytes) : option (option UdpIn) :=
  valid ← slpIpv4Valid pkt;
  if negb valid then Some None
  else
    b0 ← byte_at pkt 0;
    let ihl := (Z.to_nat (Z.land b0 0x0F) * 4)%nat in
    if (length pkt <? ihl + 8)%nat then Some None
    else
      total ← slpIpv4TotalLen pkt;
      if (total <? ihl + 8)%nat then Some None
      else
        proto ← byte_at pkt 9;
        if negb (proto =? 17) then Some None
        else
          sport ← rd16be pkt ihl;
          dport ← rd16be pkt (ihl + 2);
          ulen ← rd16be pkt (ihl + 4);
          if (ulen <? 8) || (total <? ihl + Z.to_nat ulen)%nat then Some None
          else
            src ← rd32be pkt 12;
            dst ← rd32be pkt 16;
            data ← slice (ihl + 8) (Z.to_nat ulen - 8) pkt;
            Some (Some (mkUdpIn src sport dst dport data)).

(** What the tunnel hands inbound datagrams to: [LdnControl::OnControlFrame]
    and [ProxySocketManager::RouteIncomingData]. *)
Class TunnelSink (W : Type) := {
  OnControlFrame : Z -> bytes -> W -> W;
  RouteIncoming : ProxyArgs -> bytes -> W -> W * bool;
}.

Definition deliver_udp {W} `{!TunnelSink W} (u : UdpIn) (w : W) : W :=
  if ui_dport u =? ControlPort then OnControlFrame (ui_src u) (ui_data u) w
  else (RouteIncoming (mkArgs (ui_src u) (ui_sport u) (ui_dst u) (ui_dport u) ProtocolType_Udp)
          (ui_data u) w).1.

Definition ProcessIpv4 {W} `{!TunnelSink W} (pkt : bytes) (w : W) : option W :=
  r ← parse_udp pkt;
  Some (match r with None => w | Some u => deliver_udp u w end).

(** ** Reassembly *)
Definition expire (now : Z) (e : FragEntry) : FragEntry :=
  if fe_active e && (FragTimeoutTicks <? now - fe_last_tick e)
  then mkFrag false (fe_src e) (fe_id e) (fe_seen e) (fe_lens e) (fe_pmtu e) (fe_total_parts e)
         (fe_last_tick e) (fe_data e)
  else e.

Definition frag_match (src id : Z) (e : FragEntry) : bool :=
  fe_active e && (fe_src e =? src) && (fe_id e =? id).

(** The slot to reuse: the first free one, else the least recently updated. *)
Fixpoint reuse_loop (l : list FragEntry) (i reuse : nat) (oldest : Z) : nat :=
  match l with
  | [] => reuse
  | e :: l' =>
      if negb (fe_active e) then i
      else if fe_last_tick e <? oldest then reuse_loop l' (S i) i (fe_last_tick e)
      else reuse_loop l' (S i) reuse oldest
  end.

(** The index of the entry; [None] is the null pointer. *)
Definition FindFragEntry (frags : list FragEntry) (now src id : Z)
    : list FragEntry * option nat :=
  let frags := expire now <$> frags in
  match list_find (fun e => frag_match src id e) frags with
  | Some (i, _) => (frags, Some i)
  | None =>
      let reuse := reuse_loop frags 0 MaxFragEntries INT64_MAX in
      if (reuse =? MaxFragEntries)%nat then (frags, None)
      else
        let e := mkFrag true src id 0 (replicate MaxTotalParts 0) 0 0 now
                   (replicate FRAG_DATA_SIZE 0) in
        (<[reuse := e]> frags, Some reuse)
  end.

(** The part of [OnFrag] after the entry is found: the entry updated and, when
    the last missing part has come, the packet rebuilt.  [None]: a write
    outside the entry's buffers. *)
Definition frag_part (e : FragEntry) (part total pmtu now : Z) (chunk : bytes)
    : option (FragEntry * option bytes) :=
  let e := if fe_seen e =? 0
           then mkFrag (fe_active e) (fe_src e) (fe_id e) (fe_seen e) (fe_lens e) pmtu total
                  (fe_last_tick e) (fe_data e) else e in
  if negb ((fe_pmtu e =? pmtu) && (fe_total_parts e =? total)) then Some (e, None)
  else
    let mask := u32 (Z.shiftl 1 part) in
    if negb (Z.land (fe_seen e) mask =? 0) then Some (e, None)
    else
      data ← blit (Z.to_nat part * Z.to_nat pmtu) chunk (fe_data e);
      lens ← (if (Z.to_nat part <? length (fe_lens e))%nat
              then Some (<[Z.to_nat part := Z.of_nat (length chunk)]> (fe_lens e)) else None);
      let seen := Z.lor (fe_seen e) (u8 mask) in
      let want := Z.shiftl 1 total - 1 in
      if seen =? u8 want then
        last ← lens !! Z.to_nat (total - 1);
        let rebuilt := (Z.to_nat (total - 1) * Z.to_nat pmtu + Z.to_nat last)%nat in
        Some (mkFrag false (fe_src e) (fe_id e) seen lens (fe_pmtu e) (fe_total_parts e) now data,
              if (rebuilt <=? FRAG_DATA_SIZE)%nat then Some (take rebuilt data) else None)
      else
        Some (mkFrag (fe_active e) (fe_src e) (fe_id e) seen lens (fe_pmtu e) (fe_total_parts e)
                now data, None).

(** [now1], [now2]: the two readings of the system tick. *)
Definition OnFrag (t : TunState) (now1 now2 : Z) (payload : bytes)
    : option (TunState * option bytes) :=
  if (length payload <? 16)%nat then Some (t, None)
  else
    src ← rd32be payload 0;
    id ← rd16be payload 8;
    part ← byte_at payload 10;
    total ← byte_at payload 11;
    clen ← rd16be payload 12;
    pmtu ← rd16be payload 14;
    if (total =? 0) || (total <=? part) || (Z.of_nat MaxTotalParts <? total) then Some (t, None)
    else if (pmtu =? 0) || (Z.of_nat SLP_MTU <? pmtu) then Some (t, None)
    else if (pmtu <? clen) || (length payload <? 16 + Z.to_nat clen)%nat then Some (t, None)
    else
      let '(frags, r) := FindFragEntry (g_frags t) now1 src id in
      match r with
      | None => Some (set_frags t frags, None)
      | Some i =>
          e ← frags !! i;
          chunk ← slice 16 (Z.to_nat clen) payload;
          '(e, rebuilt) ← frag_part e part total pmtu now2 chunk;
          Some (set_frags t (<[i := e]> frags), rebuilt)
      end.

Definition OnFrame {W} `{!TunnelSink W} (t : TunState) (now1 now2 : Z) (type : Z) (payload : bytes)
    (w : W) : option (TunState * W) :=
  if type =? SLP_TYPE_IPV4 then w ← ProcessIpv4 payload w; Some (t, w)
  else if type =? SLP_TYPE_IPV4_FRAG then
    '(t, r) ← OnFrag t now1 now2 payload;
    match r with
    | None => Some (t, w)
    | Some pkt => w ← ProcessIpv4 pkt w; Some (t, w)
    end
  else Some (t, w).

Definition OnStop (t : TunState) : TunState :=
  set_frags t ((fun e => mkFrag false (fe_src e) (fe_id e) (fe_seen e) (fe_lens e) (fe_pmtu e)
                           (fe_total_parts e) (fe_last_tick e) (fe_data e)) <$> g_frags t).

(** ** Outbound *)

(** The IPv4/UDP packet of [Send], checksum zero, then filled in. *)
Definition ip_header (src_ip dst_ip ip_id : Z) (len : nat) (c0 c1 : Z) : bytes :=
  [0x45; 0x00] ++ wr16be (u16 (20 + 8 + Z.of_nat len)) ++ wr16be ip_id ++
  [0x40; 0x00; 64; 17; c0; c1] ++ wr32be src_ip ++ wr32be dst_ip.

Definition udp_packet (src_ip src_port dst_ip dst_port ip_id : Z) (data : bytes) : bytes :=
  let len := length data in
  let sum := IpChecksum (ip_header src_ip dst_ip ip_id len 0 0) in
  ip_header src_ip dst_ip ip_id len (u8 (Z.shiftr sum 8)) (u8 (Z.land sum 0xFF)) ++
  wr16be src_port ++ wr16be dst_port ++ wr16be (u16 (8 + Z.of_nat len)) ++ [0; 0] ++ data.

(** [Send]: [running] is the runtime's state, [client] its relay client.
    [data] is [None] for a null pointer. *)
Definition tun_Send {W} `{!TunnelSink W} (sendto : Z -> Z -> Z -> bytes -> W -> W * Z)
    (running : bool) (client : option SlpClient) (t : TunState) (a : ProxyArgs)
    (data : option bytes) (len : nat) (w : W) : option (TunState * W * bool) :=
  if bool_decide (data = None) && (0 <? len)%nat then Some (t, w, false)
  else if (2000 <? len)%nat then Some (t, w, false)
  else if negb running then Some (t, w, false)
  else
    match client with
    | None => Some (t, w, false)
    | Some c =>
        if c_fd c <? 0 then Some (t, w, false)
        else
          let data := default [] data in
          if Z.land (pa_dest_ip a) 0xFF000000 =? 0x7F000000 then
            let '(w, _) := RouteIncoming (mkArgs (pa_dest_ip a) (pa_source_port a) (pa_dest_ip a)
                                            (pa_dest_port a) ProtocolType_Udp) data w in
            Some (t, w, true)
          else
            let src_ip := if pa_source_ip a =? 0 then g_local_ip t else pa_source_ip a in
            let ip_id := g_ip_id t in
            let t := mkTun (g_local_ip t) (u16 (g_ip_id t + 1)) (g_frags t) in
            '(w, ok) ← slpClientSendIpv4 sendto c
                         (udp_packet src_ip (pa_source_port a) (pa_dest_ip a) (pa_dest_port a)
                            ip_id data) w;
            Some (t, w, ok)
    end.

(** [Init] and [RefreshLocalIp], on the text of [GetVirtualIp]: the state and
    the address to set in the socket manager, if any. *)
Definition tun_Init (t : TunState) (ip : bytes) : TunState * Z :=
  let v := ParseIp ip in
  let v := if v =? 0 then 0x0A0D2502 else v in
  (mkTun v (g_ip_id t) (g_frags t), v).
Definition RefreshLocalIp (t : TunState) (ip : bytes) : TunState * option Z :=
  let fresh := ParseIp ip in
  if (fresh =? 0) || (fresh =? g_local_ip t) then (t, None)
  else (mkTun fresh (g_ip_id t) (g_frags t), Some fresh).

(** ** Lemmas: parsing never leaves the packet *)

(** [Z.land b 15] of a byte is a nibble. *)
Lemma nibble_range b : 0 <= Z.land b 0x0F < 16.
Proof. change 0x0F with (Z.ones 4). rewrite Z.land_ones by lia. apply Z.mod_pos_bound. lia. Qed.

Lemma parse_udp_safe pkt :
  is_bytes pkt ->
  exists r, parse_udp pkt = Some r /\
  match r with
  | None => True
  | Some u => is_u32 (ui_src u) /\ is_u32 (ui_dst u) /\ is_u16 (ui_sport u) /\
      is_u16 (ui_dport u) /\ is_bytes (ui_data u) /\ (length (ui_data u) + 28 <= length pkt)%nat
  end.
Proof.
  intros Hb. unfold parse_udp. destruct (slpIpv4Valid_safe pkt) as [v Hv]. rewrite Hv. simpl.
  destruct v; [|by eexists].
  apply slpIpv4Valid_true in Hv as (Hl & b & Hb0 & _ & Hihl). rewrite Hb0. cbn [negb mbind option_bind].
  set (ihl := (Z.to_nat (Z.land b 0x0F) * 4)%nat) in *.
  destruct (length pkt <? ihl + 8)%nat eqn:E1; [by eexists|]. apply Nat.ltb_ge in E1.
  unfold slpIpv4TotalLen. destruct (rd16be_Some pkt 2) as (tl & -> & Htl); [lia|].
  cbn [mbind option_bind]. set (total := if (Z.to_nat tl <=? length pkt)%nat then _ else _).
  assert (total <= length pkt)%nat as Ht by (unfold total; destruct (_ <=? _)%nat eqn:E; lia).
  destruct (total <? ihl + 8)%nat eqn:E2; [by eexists|]. apply Nat.ltb_ge in E2.
  destruct (byte_at_Some pkt 9) as [pr ->]; [lia|]. cbn [mbind option_bind].
  destruct (pr =? 17); [|by eexists]. cbn [negb].
  destruct (rd16be_Some pkt ihl) as (sp & -> & Hsp); [lia|].
  destruct (rd16be_Some pkt (ihl + 2)) as (dp & -> & Hdp); [lia|].
  destruct (rd16be_Some pkt (ihl + 4)) as (ul & -> & Hul); [lia|]. cbn [mbind option_bind].
  destruct ((ul <? 8) || _) eqn:E3; [by eexists|].
  apply orb_false_iff in E3 as [E3%Z.ltb_ge E4%Nat.ltb_ge].
  destruct (rd32be_Some pkt 12 Hb) as (s & -> & Hs); [lia|].
  destruct (rd32be_Some pkt 16 Hb) as (d & -> & Hd); [lia|]. cbn [mbind option_bind].
  destruct (slice (ihl + 8) (Z.to_nat ul - 8) pkt) as [data|] eqn:Esl.
  2: { rewrite slice_Some in Esl by lia. done. }
  cbn [mbind option_bind]. eexists; split; [done|]. cbn [ui_src ui_dst ui_sport ui_dport ui_data].
  split_and!; try done; [eapply slice_bytes; eauto|].
  apply slice_length in Esl. lia.
Qed.

(** ** The invariant of the reassembly buffers *)
Definition frag_ok (e : FragEntry) : Prop :=
  length (fe_lens e) = MaxTotalParts /\ length (fe_data e) = FRAG_DATA_SIZE /\
  is_bytes (fe_data e) /\ Forall (fun n => 0 <= n <= Z.of_nat SLP_MTU) (fe_lens e).
Definition tun_inv (t : TunState) : Prop :=
  length (g_frags t) = MaxFragEntries /\ Forall frag_ok (g_frags t).

Lemma frag_ok_zero src id now :
  frag_ok (mkFrag true src id 0 (replicate MaxTotalParts 0) 0 0 now (replicate FRAG_DATA_SIZE 0)).
Proof.
  split_and!; cbn [fe_lens fe_data]; [done|apply length_replicate| |];
    apply Forall_replicate; unfold is_u8; lia.
Qed.

Lemma reuse_loop_range l : forall i r o,
  (r = reuse_loop l i r o \/ i <= reuse_loop l i r o < i + length l)%nat.
Proof.
  induction l as [|e l IH]; intros i r o; [by left|]. cbn [reuse_loop length].
  destruct (fe_active e); cbn [negb]; [|right; lia].
  destruct (fe_last_tick e <? o).
  - right. destruct (IH (S i) i (fe_last_tick e)) as [<-|]; lia.
  - destruct (IH (S i) r o) as [E|]; [by left|right; lia].
Qed.

Lemma expire_ok now l : Forall frag_ok l -> Forall frag_ok (expire now <$> l).
Proof.
  intros H. apply Forall_fmap. eapply Forall_impl; [|exact H]. intros e He.
  unfold compose, expire. by case_match.
Qed.

Lemma FindFragEntry_ok frags now src id :
  length frags = MaxFragEntries -> Forall frag_ok frags ->
  let '(frags', r) := FindFragEntry frags now src id in
  length frags' = MaxFragEntries /\ Forall frag_ok frags' /\
  match r with None => True | Some i => (i < MaxFragEntries)%nat end.
Proof.
  intros Hl Hf. unfold FindFragEntry.
  destruct (list_find _ _) as [[i e]|] eqn:E.
  - apply list_find_Some in E as (Hi & _). apply lookup_lt_Some in Hi.
    rewrite length_fmap in *. split; [done|]. split; [by apply expire_ok|lia].
  - destruct (reuse_loop_range (expire now <$> frags) 0 MaxFragEntries INT64_MAX) as [Er|Er].
    + rewrite <- Er. cbn [Nat.eqb MaxFragEntries]. rewrite length_fmap.
      split; [done|]. split; [by apply expire_ok|done].
    + rewrite length_fmap in Er. destruct (_ =? _)%nat eqn:Eq; [apply Nat.eqb_eq in Eq; lia|].
      rewrite length_insert, length_fmap. split; [done|]. split; [|lia].
      apply Forall_insert; [by apply expire_ok|apply frag_ok_zero].
Qed.

Lemma frag_part_safe e part total pmtu now chunk :
  frag_ok e -> is_bytes chunk -> 0 <= part < total -> total <= Z.of_nat MaxTotalParts ->
  0 < pmtu <= Z.of_nat SLP_MTU -> Z.of_nat (length chunk) <= pmtu ->
  exists e' r, frag_part e part total pmtu now chunk = Some (e', r) /\ frag_ok e' /\
  match r with None => True | Some pkt => is_bytes pkt /\ (length pkt <= FRAG_DATA_SIZE)%nat end.
Proof.
  intros (Hl & Hd & Hb & Hn) Hc Hp Ht Hm Hcl. unfold frag_part.
  set (e1 := if fe_seen e =? 0 then _ else e).
  assert (fe_data e1 = fe_data e) as Ed by (unfold e1; by case_match).
  assert (fe_lens e1 = fe_lens e) as El by (unfold e1; by case_match).
  assert (frag_ok e1) as He1 by (unfold frag_ok; by rewrite Ed, El).
  destruct (negb (_ && _)); [eauto|]. destruct (negb (_ =? 0)); [eauto|].
  rewrite Ed, El.
  assert (Z.to_nat part * Z.to_nat pmtu + length chunk <= FRAG_DATA_SIZE)%nat as Hfit
    by (unfold FRAG_DATA_SIZE, MaxTotalParts in *; nia).
  destruct (blit (Z.to_nat part * Z.to_nat pmtu) chunk (fe_data e)) as [data|] eqn:Eb.
  2: { unfold blit in Eb. rewrite decide_True in Eb by lia. done. }
  cbn [mbind option_bind]. rewrite (proj2 (Nat.ltb_lt _ _)) by (unfold MaxTotalParts in *; lia).
  cbn [mbind option_bind].
  pose proof (blit_length _ _ _ _ Eb) as Hdl. pose proof (blit_bytes _ _ _ _ Hc Hb Eb) as Hdb.
  assert (frag_ok (mkFrag false 0 0 0 (<[Z.to_nat part := Z.of_nat (length chunk)]> (fe_lens e))
                     0 0 0 data)) as Hok.
  { split_and!; cbn [fe_lens fe_data]; [by rewrite length_insert|congruence|done|].
    apply Forall_insert; [done|lia]. }
  case_match; [|eexists _, _; split; [done|]; split; [exact Hok|done]].
  destruct (lookup_lt_is_Some_2 (<[Z.to_nat part := Z.of_nat (length chunk)]> (fe_lens e))
              (Z.to_nat (total - 1))) as [last ->].
  { rewrite length_insert. unfold MaxTotalParts in *. lia. }
  cbn [mbind option_bind]. eexists _, _; split; [done|]. split; [exact Hok|].
  destruct (_ <=? FRAG_DATA_SIZE)%nat eqn:Er; [|done]. split; [by apply Forall_take|].
  rewrite length_take. apply Nat.leb_le in Er. lia.
Qed.

Lemma OnFrag_safe t now1 now2 payload :
  tun_inv t -> is_bytes payload ->
  exists t' r, OnFrag t now1 now2 payload = Some (t', r) /\ tun_inv t' /\
  match r with None => True | Some pkt => is_bytes pkt /\ (length pkt <= FRAG_DATA_SIZE)%nat end.
Proof.
  intros [Hl Hf] Hb. unfold OnFrag. assert (exists t' r, Some (t, @None bytes) = Some (t', r) /\ tun_inv t' /\
    match r with None => True | Some pkt => is_bytes pkt /\ (length pkt <= FRAG_DATA_SIZE)%nat end)
    as Hdrop by (by eexists _, _).
  destruct (length payload <? 16)%nat eqn:E; [exact Hdrop|].
  apply Nat.ltb_ge in E.
  destruct (rd32be_Some payload 0 Hb) as (src & -> & _); [lia|].
  destruct (rd16be_Some payload 8) as (id & -> & _); [lia|].
  destruct (byte_at_Some payload 10) as [part Hpart]; [lia|].
  destruct (byte_at_Some payload 11) as [total Htotal]; [lia|].
  destruct (rd16be_Some payload 12) as (clen & -> & Hclen); [lia|].
  destruct (rd16be_Some payload 14) as (pmtu & -> & Hpmtu); [lia|].
  rewrite Hpart, Htotal. cbn [mbind option_bind].
  pose proof (byte_at_u8 _ _ _ Hb Hpart). pose proof (byte_at_u8 _ _ _ Hb Htotal).
  destruct ((total =? 0) || _ || _) eqn:E1; [exact Hdrop|].
  destruct ((pmtu =? 0) || _) eqn:E2; [exact Hdrop|].
  destruct ((pmtu <? clen) || _) eqn:E3; [exact Hdrop|].
  apply orb_false_iff in E1 as [[E1%Z.eqb_neq E1'%Z.leb_gt]%orb_false_iff E1''%Z.ltb_ge].
  apply orb_false_iff in E2 as [E2%Z.eqb_neq E2'%Z.ltb_ge].
  apply orb_false_iff in E3 as [E3%Z.ltb_ge E3'%Nat.ltb_ge].
  unfold is_u8, is_u16 in *.
  pose proof (FindFragEntry_ok (g_frags t) now1 src id Hl Hf) as Hfind.
  destruct (FindFragEntry _ _ _ _) as [frags [i|]]; destruct Hfind as (Hl' & Hf' & Hi).
  2: { eexists _, _. split; [done|]. split; [done|done]. }
  destruct (lookup_lt_is_Some_2 frags i) as [e He]; [by rewrite Hl'|]. rewrite He.
  rewrite slice_Some by lia. cbn [mbind option_bind].
  set (chunk := take (Z.to_nat clen) (drop 16 payload)).
  destruct (frag_part_safe e part total pmtu now2 chunk) as (e' & r & -> & He' & Hr).
  - eapply Forall_lookup_1; eauto.
  - unfold chunk. by apply Forall_take, Forall_drop.
  - lia.
  - lia.
  - lia.
  - unfold chunk. rewrite length_take, length_drop. lia.
  - cbn [mbind option_bind]. eexists _, _. split; [done|]. split; [|done].
    split; cbn [set_frags g_frags]; [by rewrite length_insert|by apply Forall_insert].
Qed.

Lemma OnFrame_safe W (S : TunnelSink W) t now1 now2 type payload w :
  tun_inv t -> is_bytes payload ->
  exists t' w', OnFrame t now1 now2 type payload w = Some (t', w') /\ tun_inv t'.
Proof.
  intros Ht Hb. unfold OnFrame, ProcessIpv4. destruct (type =? SLP_TYPE_IPV4).
  { destruct (parse_udp_safe payload Hb) as (r & -> & _). simpl. eauto. }
  destruct (type =? SLP_TYPE_IPV4_FRAG); [|eauto].
  destruct (OnFrag_safe t now1 now2 payload Ht Hb) as (t' & r & -> & Ht' & Hr). simpl.
  destruct r as [pkt|]; [|eauto]. destruct Hr as [Hp _].
  destruct (parse_udp_safe pkt Hp) as (r & -> & _). simpl. eauto.
Qed.

(** What the consumers keep, a frame keeps. *)
Lemma OnFrame_keeps {W} {S : TunnelSink W} (P : W -> Prop) t now1 now2 type payload w t' w' :
  (forall src d w, is_u32 src -> is_bytes d -> P w -> P (OnControlFrame src d w)) ->
  (forall a d w, P w -> P (RouteIncoming a d w).1) ->
  tun_inv t -> is_bytes payload -> P w ->
  OnFrame t now1 now2 type payload w = Some (t', w') -> P w'.
Proof.
  intros Hc Hr Ht Hb Hw.
  assert (forall pkt w2, is_bytes pkt -> ProcessIpv4 pkt w = Some w2 -> P w2) as Hp.
  { intros pkt w2 Hpk. unfold ProcessIpv4. destruct (parse_udp_safe pkt Hpk) as (r & -> & Hu).
    cbn [mbind option_bind]. intros [= <-]. destruct r as [u|]; [|done]. destruct Hu as (? & _ & _ & _ & ? & _).
    unfold deliver_udp. destruct (_ =? _); auto. }
  unfold OnFrame. destruct (type =? SLP_TYPE_IPV4).
  { destruct (ProcessIpv4 payload w) as [w2|] eqn:E; [|done]. cbn [mbind option_bind]. intros [= _ <-]. eauto. }
  destruct (type =? SLP_TYPE_IPV4_FRAG); [|by intros [= _ <-]].
  destruct (OnFrag_safe t now1 now2 payload Ht Hb) as (t2 & r & -> & _ & Hpk). cbn [mbind option_bind].
  destruct r as [pkt|]; [|by intros [= _ <-]]. destruct Hpk as [Hpk _].
  destruct (ProcessIpv4 pkt w) as [w2|] eqn:E; [|done]. cbn [mbind option_bind]. intros [= _ <-]. eauto.
Qed.

(** Only the reassembly table changes. *)
Lemma OnFrag_fields t now1 now2 payload t' r :
  OnFrag t now1 now2 payload = Some (t', r) -> g_local_ip t' = g_local_ip t /\ g_ip_id t' = g_ip_id t.
Proof.
  unfold OnFrag. destruct (_ <? _)%nat; [by intros [= <- _]|].
  destruct (rd32be payload 0), (rd16be payload 8), (byte_at payload 10), (byte_at payload 11),
    (rd16be payload 12), (rd16be payload 14); try done. cbn [mbind option_bind].
  do 3 (match goal with |- (if ?b then _ else _) = _ -> _ => destruct b end; [by intros [= <- _]|]).
  destruct (FindFragEntry _ _ _ _) as [frags [i|]]; [|by intros [= <- _]].
  destruct (frags !! i); [|done]. cbn [mbind option_bind]. destruct (slice _ _ _); [|done]. cbn [mbind option_bind].
  destruct (frag_part _ _ _ _ _ _) as [[? ?]|]; [|done]. cbn [mbind option_bind]. by intros [= <- _].
Qed.
Lemma OnFrame_fields {W} {S : TunnelSink W} t now1 now2 type payload w t' w' :
  OnFrame t now1 now2 type payload w = Some (t', w') -> g_local_ip t' = g_local_ip t /\ g_ip_id t' = g_ip_id t.
Proof.
  unfold OnFrame. destruct (type =? SLP_TYPE_IPV4).
  { destruct (ProcessIpv4 _ _); [|done]. cbn [mbind option_bind]. by intros [= <- _]. }
  destruct (type =? SLP_TYPE_IPV4_FRAG); [|by intros [= <- _]].
  destruct (OnFrag t now1 now2 payload) as [[t2 r]|] eqn:E; [|done]. apply OnFrag_fields in E. cbn [mbind option_bind].
  destruct r; [|by intros [= <- _]]. destruct (ProcessIpv4 _ _); [|done]. cbn [mbind option_bind]. by intros [= <- _].
Qed.

(** C18: nothing a peer or the relay sends can make the tunnel leave its
    buffers.  On any frame of any type, the bounds checks of the IPv4, UDP and
    fragment parsers, of the reassembly copy and of the rebuilt length hold at
    every access, and the reassembly buffers keep their invariant, whatever
    fragments (forged, overlapping, with changing geometry) came before. *)
Theorem OnFrame_memory_safe W (S : TunnelSink W) t now1 now2 type payload w :
  tun_inv t -> is_bytes payload ->
  exists t' w', OnFrame t now1 now2 type payload w = Some (t', w') /\ tun_inv t'.
Proof. apply OnFrame_safe. Qed.

(** A consumer that records what it is given. *)
Inductive Delivered : Set := DControl (src : Z) (d : bytes) | DData (a : ProxyArgs) (d : bytes).
#[export] Instance record_sink : TunnelSink (list Delivered) | 100 := {
  OnControlFrame src d w := w ++ [DControl src d];
  RouteIncoming a d w := (w ++ [DData a d], true);
}.

Lemma tun_inv_init : tun_inv TunState_init.
Proof. split; [done|]. apply Forall_replicate. apply (frag_ok_zero 0 0 0). Qed.

Lemma OnFrame_memory_safe_witness :
  exists t' w', OnFrame TunState_init 5 6 SLP_TYPE_IPV4_FRAG (replicate 40 255) [] = Some (t', w') /\
  tun_inv t'.
Proof.
  apply (OnFrame_memory_safe (list Delivered) record_sink).
  - exact tun_inv_init.
  - apply Forall_replicate. unfold is_u8. lia.
Defined.

(** ** The header checksum *)
Lemma csum_fold_spec sum :
  0 <= sum < 2 ^ 32 ->
  let f := csum_fold 4 sum in
  0 <= f < 65536 /\ f mod 65535 = sum mod 65535 /\ (f = 0 <-> sum = 0).
Proof.
  assert (forall s, Z.land s 0xFFFF + Z.shiftr s 16 = s mod 65536 + s / 65536) as Hstep.
  { intros s. change 0xFFFF with (Z.ones 16). by rewrite Z.land_ones, Z.shiftr_div_pow2 by lia. }
  assert (forall s, 0 <= s -> (s mod 65536 + s / 65536) mod 65535 = s mod 65535 /\
                    (s mod 65536 + s / 65536 = 0 <-> s = 0)) as Hcong.
  { intros s Hs. pose proof (Z.div_mod s 65536 ltac:(lia)) as Hd.
    pose proof (Z.mod_pos_bound s 65536 ltac:(lia)).
    assert (0 <= s / 65536) by (apply Z.div_pos; lia). split; [|lia].
    replace s with ((s mod 65536 + s / 65536) + (s / 65536) * 65535) at 3 by lia.
    by rewrite Z.mod_add by lia. }
  assert (forall n s, 0 <= s -> let f := csum_fold n s in
            0 <= f /\ f mod 65535 = s mod 65535 /\ (f = 0 <-> s = 0)) as Hinv.
  { induction n as [|n IH]; intros s Hs; [done|]. cbn [csum_fold].
    destruct (Z.shiftr s 16 =? 0); [done|]. rewrite Hstep.
    destruct (Hcong s Hs) as [Hc1 Hc2].
    assert (0 <= s mod 65536 + s / 65536) as Hnn.
    { pose proof (Z.mod_pos_bound s 65536 ltac:(lia)).
      assert (0 <= s / 65536) by (apply Z.div_pos; lia). lia. }
    destruct (IH _ Hnn) as (H1 & H2 & H3). split_and!; [done|congruence|tauto]. }
  intros Hs. destruct (Hinv 4%nat sum ltac:(lia)) as (H1 & H2 & H3). split_and!; try done; try tauto.
  clear H1 H2 H3. cbn [csum_fold]. rewrite !Z.shiftr_div_pow2 by lia. change (2 ^ 16) with 65536.
  change (2 ^ 32) with 4294967296 in Hs.
  assert (forall s, Z.land s 0xFFFF = s mod 65536) as Hland
    by (intros s; change 0xFFFF with (Z.ones 16); by rewrite Z.land_ones by lia).
  rewrite !Hland.
  repeat case_match; Z.to_euclidean_division_equations; lia.
Qed.

(** Without the wrap of the accumulator, which a header cannot reach. *)
Fixpoint words (l : bytes) : Z :=
  match l with
  | a :: b :: l' => be16 a b + words l'
  | _ => 0
  end.

Lemma ip_sum_words n : forall l s,
  length l = (2 * n)%nat -> 0 <= s -> s + 65536 * Z.of_nat n < 2 ^ 32 -> ip_sum l s = s + words l.
Proof.
  change (2 ^ 32) with 4294967296.
  induction n as [|n IH]; intros l s Hl Hs Hb; [destruct l; [simpl; lia|done]|].
  destruct l as [|a [|b l]]; [cbn in Hl; lia..|]. cbn [ip_sum words].
  pose proof (be16_range a b) as Hr. unfold is_u16 in Hr.
  rewrite u32_id by word_lia. rewrite IH; [lia| |lia|lia]. cbn in Hl |- *. lia.
Qed.

(** The checksum field of the header as built: the header then sums to the
    all-ones word, so that its checksum is zero. *)
Lemma checksum_word sum :
  0 < sum < 2 ^ 31 ->
  u16 (Z.lnot (csum_fold 4 (u32 (sum + u16 (Z.lnot (csum_fold 4 sum)))))) = 0.
Proof.
  intros Hs. destruct (csum_fold_spec sum) as (H1 & H2 & H3); [word_lia|].
  set (f := csum_fold 4 sum) in *.
  assert (u16 (Z.lnot f) = 65535 - f) as ->.
  { unfold u16, Z.lnot. change (2 ^ 16) with 65536.
    replace (Z.pred (- f)) with (65535 - f + (-1) * 65536) by lia.
    rewrite Z.mod_add by lia. apply Z.mod_small. lia. }
  change (2 ^ 31) with 2147483648 in Hs.
  rewrite u32_id by word_lia.
  destruct (csum_fold_spec (sum + (65535 - f))) as (G1 & G2 & G3); [word_lia|].
  set (g := csum_fold 4 (sum + (65535 - f))) in *.
  assert (g mod 65535 = 0) as Hg.
  { rewrite G2. rewrite Z.add_mod by lia.
    rewrite <- H2. rewrite <- Z.add_mod by lia.
    replace (f + (65535 - f)) with (1 * 65535) by lia. apply Z.mod_mul. lia. }
  assert (g <> 0) by lia. assert (g = 65535) as -> by word_lia. done.
Qed.

(** every packet [Send] builds carries a correct IPv4 header checksum: the
    one's-complement sum of its twenty header bytes, checksum included, verifies
    to zero, for any addresses, identification and payload length. *)
Theorem Send_checksum_valid src_ip src_port dst_ip dst_port ip_id data :
  IpChecksum (take 20 (udp_packet src_ip src_port dst_ip dst_port ip_id data)) = 0.
Proof.
  unfold udp_packet. set (len := length data).
  assert (forall c0 c1 l, take 20 (ip_header src_ip dst_ip ip_id len c0 c1 ++ l)
                     = ip_header src_ip dst_ip ip_id len c0 c1) as -> by done.
  unfold IpChecksum.
  assert (forall c0 c1, ip_sum (ip_header src_ip dst_ip ip_id len c0 c1) 0 =
            words (ip_header src_ip dst_ip ip_id len c0 c1)) as Hw.
  { intros. rewrite (ip_sum_words 10); [lia|done|lia|]. change (2 ^ 32) with 4294967296. lia. }
  rewrite !Hw.
  assert (forall c0 c1, words (ip_header src_ip dst_ip ip_id len c0 c1) =
            words (ip_header src_ip dst_ip ip_id len 0 0) + be16 c0 c1) as Hc.
  { intros. unfold ip_header, wr16be, wr32be. cbn [app words]. change (be16 0 0) with 0. lia. }
  rewrite Hc. rewrite be16_wr by apply u16_range.
  assert (0 < words (ip_header src_ip dst_ip ip_id len 0 0) < 655360) as Hpos.
  { unfold ip_header, wr16be, wr32be. cbn [app words]. change (be16 0x45 0) with 17664.
    repeat match goal with |- context [be16 ?a ?b] =>
      let H := fresh in pose proof (be16_range a b) as H; unfold is_u16 in H;
      generalize dependent (be16 a b); intros end. lia. }
  set (w0 := words (ip_header src_ip dst_ip ip_id len 0 0)) in *.
  etransitivity; [|apply (checksum_word w0); change (2 ^ 31) with 2147483648; lia].
  do 3 f_equal. symmetry. apply u32_id. pose proof (u16_range (Z.lnot (csum_fold 4 w0))). word_lia.
Qed.

(** ** One datagram through the tunnel *)

(** The packet as a list: twenty header bytes, eight UDP bytes, the data. *)
Lemma parse_udp_packet src sport dst dport id data :
  is_u32 src -> is_u32 dst -> is_u16 sport -> is_u16 dport -> (length data <= 2000)%nat ->
  parse_udp (udp_packet src sport dst dport id data) = Some (Some (mkUdpIn src sport dst dport data)).
Proof.
  intros Hs Hd Hsp Hdp Hl. unfold udp_packet.
  generalize (IpChecksum (ip_header src dst id (length data) 0 0)). intros sum.
  set (pkt := ip_header src dst id (length data) _ _ ++ _).
  assert (length pkt = 28 + length data)%nat as Hlen.
  { unfold pkt. rewrite length_app. cbn [length ip_header wr16be wr32be app]. lia. }
  assert (slpIpv4Valid pkt = Some true) as Hv.
  { unfold slpIpv4Valid. rewrite (proj2 (Nat.ltb_ge _ _)) by lia.
    change (byte_at pkt 0) with (Some 0x45). cbn [mbind option_bind].
    change (Z.shiftr 69 4 =? 4) with true. cbn [negb].
    change (Z.to_nat (Z.land 69 15) * 4)%nat with 20%nat.
    rewrite (proj2 (Nat.ltb_ge (length pkt) 20)) by lia. done. }
  unfold parse_udp. rewrite Hv. cbn [mbind option_bind negb].
  change (byte_at pkt 0) with (Some 0x45). cbn [mbind option_bind].
  change (Z.to_nat (Z.land 69 15) * 4)%nat with 20%nat.
  rewrite (proj2 (Nat.ltb_ge _ _)) by lia.
  assert (slpIpv4TotalLen pkt = Some (28 + length data)%nat) as ->.
  { unfold slpIpv4TotalLen.
    assert (rd16be pkt 2 = Some (u16 (20 + 8 + Z.of_nat (length data)))) as ->.
    { transitivity (Some (be16 (u8 (Z.shiftr (u16 (20 + 8 + Z.of_nat (length data))) 8))
                            (u8 (Z.land (u16 (20 + 8 + Z.of_nat (length data))) 255)))); [done|].
      f_equal. apply be16_wr, u16_range. }
    cbn [mbind option_bind]. rewrite u16_id by word_lia. f_equal.
    rewrite (proj2 (Nat.leb_le _ _)) by lia. lia. }
  cbn [mbind option_bind]. rewrite (proj2 (Nat.ltb_ge _ _)) by lia.
  change (byte_at pkt 9) with (Some 17). cbn [mbind option_bind Z.eqb Pos.eqb negb Nat.add].
  assert (rd16be pkt 20 = Some sport) as -> by (rewrite <- (be16_wr sport) by done; done).
  assert (rd16be pkt 22 = Some dport) as -> by (rewrite <- (be16_wr dport) by done; done).
  assert (rd16be pkt 24 = Some (8 + Z.of_nat (length data))) as ->.
  { rewrite <- (be16_wr (8 + Z.of_nat (length data))) by word_lia.
    rewrite <- (u16_id (8 + Z.of_nat (length data))) by word_lia. done. }
  cbn [mbind option_bind].
  assert ((8 + Z.of_nat (length data) <? 8) = false) as -> by lia. cbn [orb].
  rewrite (proj2 (Nat.ltb_ge _ _)) by lia.
  assert (rd32be pkt 12 = Some src) as -> by (rewrite <- (be32_wr src) by done; done).
  assert (rd32be pkt 16 = Some dst) as -> by (rewrite <- (be32_wr dst) by done; done).
  cbn [mbind option_bind]. rewrite slice_Some by lia.
  change (drop 28 pkt) with data. cbn [mbind option_bind]. by rewrite take_ge by lia.
Qed.

(** The fields of a fragment frame, as [OnFrag] reads them. *)
Lemma OnFrag_frame t now1 now2 src dst id part total chunk :
  is_u32 src -> is_u16 id -> 0 <= part < total -> total <= 4 -> (length chunk <= SLP_MTU)%nat ->
  OnFrag t now1 now2 (drop 1 (slpFrameIpv4Frag src dst id part total chunk)) =
  let '(frags, r) := FindFragEntry (g_frags t) now1 src id in
  match r with
  | None => Some (set_frags t frags, None)
  | Some i =>
      e ← frags !! i;
      '(e, rebuilt) ← frag_part e part total (Z.of_nat SLP_MTU) now2 chunk;
      Some (set_frags t (<[i := e]> frags), rebuilt)
  end.
Proof.
  intros Hs Hid Hp Ht Hl. set (pl := drop 1 _).
  assert (length pl = 16 + length chunk)%nat as Hlen by done.
  assert (Z.of_nat SLP_MTU = 1400) as Hmtu by done.
  unfold OnFrag. rewrite (proj2 (Nat.ltb_ge _ _)) by lia.
  assert (rd32be pl 0 = Some src) as -> by (rewrite <- (be32_wr src) by done; done).
  assert (rd16be pl 8 = Some id) as -> by (rewrite <- (be16_wr id) by done; done).
  change (byte_at pl 10) with (Some part). change (byte_at pl 11) with (Some total).
  assert (rd16be pl 12 = Some (Z.of_nat (length chunk))) as ->
    by (rewrite <- (be16_wr (Z.of_nat (length chunk))) by (unfold SLP_MTU in Hl; word_lia); done).
  assert (rd16be pl 14 = Some (Z.of_nat SLP_MTU)) as ->
    by (rewrite <- (be16_wr (Z.of_nat SLP_MTU)) by (rewrite Hmtu; word_lia); done).
  cbn [mbind option_bind].
  rewrite (proj2 (Z.eqb_neq total 0)), (proj2 (Z.leb_gt total part)) by lia.
  rewrite (proj2 (Z.ltb_ge _ total)) by (unfold MaxTotalParts; lia). cbn [orb].
  rewrite (proj2 (Z.eqb_neq (Z.of_nat SLP_MTU) 0)) by lia. rewrite Z.ltb_irrefl. cbn [orb].
  rewrite (proj2 (Z.ltb_ge _ _)) by lia. rewrite (proj2 (Nat.ltb_ge _ _)) by lia. cbn [orb].
  rewrite slice_Some by lia. change (drop 16 pl) with chunk.
  rewrite Nat2Z.id, take_ge by lia. done.
Qed.

(** No live entry for the key: what is left of an older datagram has expired. *)
Definition no_live (frags : list FragEntry) (now src id : Z) : Prop :=
  Forall (fun e => frag_match src id (expire now e) = false) frags.

Definition fresh_entry (src id now : Z) : FragEntry :=
  mkFrag true src id 0 (replicate MaxTotalParts 0) 0 0 now (replicate FRAG_DATA_SIZE 0).

Lemma FindFragEntry_fresh frags now src id :
  length frags = MaxFragEntries -> Forall (fun e => fe_last_tick e < INT64_MAX) frags ->
  no_live frags now src id ->
  exists i, (i < MaxFragEntries)%nat /\
  FindFragEntry frags now src id =
    (<[i := fresh_entry src id now]> (expire now <$> frags), Some i).
Proof.
  intros Hl Ht Hn. unfold FindFragEntry.
  destruct (list_find _ _) as [[i e]|] eqn:E.
  { apply list_find_Some in E as (Hi & Hm & _). apply list_lookup_fmap_Some in Hi as (e0 & -> & Hi).
    pose proof (Forall_lookup_1 _ _ _ _ Hn Hi) as Hf. cbn in Hf. by rewrite Hf in Hm. }
  destruct frags as [|e0 frags]; [done|].
  pose proof (Forall_inv Ht) as He0. cbn in He0.
  cbn [fmap list_fmap reuse_loop].
  assert (fe_last_tick (expire now e0) = fe_last_tick e0) as Ee by (unfold expire; by case_match).
  rewrite Ee. destruct (fe_active (expire now e0)); cbn [negb].
  - rewrite (proj2 (Z.ltb_lt _ _)) by done.
    destruct (reuse_loop_range (expire now <$> frags) 1 0 (fe_last_tick e0)) as [Er|Er].
    + rewrite <- Er. exists 0%nat. split; [unfold MaxFragEntries; lia|done].
    + rewrite length_fmap in Er. cbn [length] in Hl.
      set (r := reuse_loop (expire now <$> frags) 1 0 (fe_last_tick e0)) in *.
      exists r. destruct (r =? MaxFragEntries)%nat eqn:Eq; [apply Nat.eqb_eq in Eq; lia|].
      split; [lia|done].
  - exists 0%nat. split; [unfold MaxFragEntries; lia|done].
Qed.

Lemma expire_no_match now src id e :
  frag_match src id e = false -> frag_match src id (expire now e) = false.
Proof. intros H. unfold expire. by destruct (_ && _). Qed.

(** After the first fragment, its entry is the one found for the key. *)
Lemma FindFragEntry_again frags i e now1 now2 src id :
  length frags = MaxFragEntries -> (i < MaxFragEntries)%nat ->
  no_live frags now1 src id ->
  fe_active e = true -> fe_src e = src -> fe_id e = id -> now2 - fe_last_tick e <= FragTimeoutTicks ->
  FindFragEntry (<[i := e]> (expire now1 <$> frags)) now2 src id =
    (<[i := e]> (expire now2 <$> (expire now1 <$> frags)), Some i).
Proof.
  intros Hl Hi Hn Ha Hs Hid Ht. unfold FindFragEntry. rewrite list_fmap_insert.
  assert (expire now2 e = e) as Ee.
  { unfold expire. rewrite Ha. rewrite (proj2 (Z.ltb_ge _ _)) by lia. done. }
  rewrite Ee.
  assert (list_find (fun e => frag_match src id e)
            (<[i := e]> (expire now2 <$> (expire now1 <$> frags))) = Some (i, e)) as ->; [|done].
  apply list_find_Some. split; [|split].
  - apply list_lookup_insert_eq. rewrite !length_fmap. lia.
  - unfold frag_match. rewrite Ha, Hs, Hid, !Z.eqb_refl. done.
  - intros j y Hy Hj. rewrite list_lookup_insert_ne in Hy by lia.
    apply list_lookup_fmap_Some in Hy as (y1 & -> & Hy).
    apply list_lookup_fmap_Some in Hy as (y0 & -> & Hy).
    pose proof (Forall_lookup_1 _ _ _ _ Hn Hy) as Hf. cbn in Hf.
    assert (frag_match src id (expire now2 (expire now1 y0)) = false) as ->; [|by intros []].
    by apply expire_no_match.
Qed.

(** Two fragments in an entry, in either order, rebuild the packet. *)
Section two_parts.
Variables (src id now0 now1 now2 : Z) (c0 c1 : bytes).
Hypothesis H0 : length c0 = SLP_MTU.
Hypothesis H1 : (0 < length c1 <= SLP_MTU)%nat.
Let zeros := replicate FRAG_DATA_SIZE 0.
Let after_first (p : Z) (c d : bytes) :=
  mkFrag true src id (Z.shiftl 1 p) (<[Z.to_nat p := Z.of_nat (length c)]> (replicate MaxTotalParts 0))
    (Z.of_nat SLP_MTU) 2 now1 d.

Lemma zeros_length : length zeros = (4 * SLP_MTU)%nat.
Proof using. unfold zeros. by rewrite length_replicate. Qed.

Ltac frag_fields :=
  repeat (progress cbn [fe_seen fe_pmtu fe_total_parts fe_active fe_src fe_id fe_lens fe_last_tick fe_data andb negb];
          rewrite ?Z.eqb_refl).
(** The lengths recorded, the mask of the parts seen, and the cut at the end. *)
Ltac complete_two seen :=
  match goal with |- context [if (?n <? ?m)%nat then Some ?l else None] =>
    change (if (n <? m)%nat then Some l else None)
      with (Some [Z.of_nat (length c0); Z.of_nat (length c1); 0; 0]) end;
  cbn [mbind option_bind];
  change (seen =? u8 (Z.shiftl 1 2 - 1)) with true;
  cbv iota; change (Z.to_nat (2 - 1)) with 1%nat; cbn [lookup list_lookup mbind option_bind];
  rewrite Nat.mul_1_l, Nat2Z.id; rewrite (proj2 (Nat.leb_le _ _)) by lia;
  do 3 f_equal; rewrite ?take_0, ?app_nil_l, app_assoc;
  rewrite take_app_length'; [done|rewrite length_app; lia].

Lemma first_part (p : Z) (c d : bytes) :
  blit (Z.to_nat p * SLP_MTU) c zeros = Some d -> p = 0 \/ p = 1 ->
  frag_part (fresh_entry src id now0) p 2 (Z.of_nat SLP_MTU) now1 c = Some (after_first p c d, None).
Proof using.
  intros Hd Hp. unfold frag_part, fresh_entry. frag_fields. rewrite !Nat2Z.id. fold zeros. rewrite Hd.
  by destruct Hp as [-> | ->].
Qed.

Lemma two_in_order : exists e1 e2,
  frag_part (fresh_entry src id now0) 0 2 (Z.of_nat SLP_MTU) now1 c0 = Some (e1, None) /\
  fe_active e1 = true /\ fe_src e1 = src /\ fe_id e1 = id /\ fe_last_tick e1 = now1 /\
  frag_part e1 1 2 (Z.of_nat SLP_MTU) now2 c1 = Some (e2, Some (c0 ++ c1)).
Proof using H0 H1.
  pose proof zeros_length as Hz. assert (FRAG_DATA_SIZE = (4 * SLP_MTU)%nat) as HF by done. exists (after_first 0 c0 (c0 ++ drop SLP_MTU zeros)). eexists.
  split; [apply first_part; [|by left]|].
  { change (Z.to_nat 0 * SLP_MTU)%nat with 0%nat. rewrite blit_Some by lia. cbn [take app]. by rewrite H0. }
  do 4 (split; [done|]). unfold after_first, frag_part. frag_fields.
  change (Z.shiftl 1 0 =? 0) with false. cbv iota. frag_fields. rewrite !Nat2Z.id.
  change (Z.land (Z.shiftl 1 0) (u32 (Z.shiftl 1 1)) =? 0) with true. cbn [negb].
  change (Z.to_nat 1 * SLP_MTU)%nat with (SLP_MTU + 0)%nat. rewrite Nat.add_0_r.
  rewrite blit_Some by (rewrite !length_app, length_drop; lia).
  cbn [mbind option_bind]. rewrite (take_app_length' c0) by done.
  complete_two (Z.lor (Z.shiftl 1 0) (u8 (u32 (Z.shiftl 1 1)))).
Qed.

Lemma two_swapped : exists e1 e2,
  frag_part (fresh_entry src id now0) 1 2 (Z.of_nat SLP_MTU) now1 c1 = Some (e1, None) /\
  fe_active e1 = true /\ fe_src e1 = src /\ fe_id e1 = id /\ fe_last_tick e1 = now1 /\
  frag_part e1 0 2 (Z.of_nat SLP_MTU) now2 c0 = Some (e2, Some (c0 ++ c1)).
Proof using H0 H1.
  pose proof zeros_length as Hz. assert (FRAG_DATA_SIZE = (4 * SLP_MTU)%nat) as HF by done.
  exists (after_first 1 c1 (take SLP_MTU zeros ++ c1 ++ drop (SLP_MTU + length c1) zeros)). eexists.
  split; [apply first_part; [|by right]|].
  { change (Z.to_nat 1 * SLP_MTU)%nat with (SLP_MTU + 0)%nat. rewrite Nat.add_0_r. apply blit_Some. lia. }
  do 4 (split; [done|]). unfold after_first, frag_part. frag_fields.
  change (Z.shiftl 1 1 =? 0) with false. cbv iota. frag_fields. rewrite !Nat2Z.id.
  change (Z.land (Z.shiftl 1 1) (u32 (Z.shiftl 1 0)) =? 0) with true. cbn [negb].
  change (Z.to_nat 0 * SLP_MTU)%nat with 0%nat.
  rewrite blit_Some by (cbn [Nat.add]; rewrite !length_app, length_take, length_drop; lia).
  cbn [mbind option_bind Nat.add take app].
  rewrite (drop_app_length' (take SLP_MTU zeros)) by (rewrite length_take; lia).
  complete_two (Z.lor (Z.shiftl 1 1) (u8 (u32 (Z.shiftl 1 0)))).
Qed.
End two_parts.

Lemma frag_part_two src id now0 now1 now2 c0 c1 (swap : bool) :
  length c0 = SLP_MTU -> (0 < length c1 <= SLP_MTU)%nat ->
  let p1 := if swap then 1 else 0 in
  let p2 := if swap then 0 else 1 in
  let d1 := if swap then c1 else c0 in
  let d2 := if swap then c0 else c1 in
  exists e1 e2,
    frag_part (fresh_entry src id now0) p1 2 (Z.of_nat SLP_MTU) now1 d1 = Some (e1, None) /\
    fe_active e1 = true /\ fe_src e1 = src /\ fe_id e1 = id /\ fe_last_tick e1 = now1 /\
    frag_part e1 p2 2 (Z.of_nat SLP_MTU) now2 d2 = Some (e2, Some (c0 ++ c1)).
Proof. intros H0 H1. destruct swap; [by apply two_swapped|by apply two_in_order]. Qed.

Lemma no_live_mono frags now now' src id :
  now <= now' -> no_live frags now src id -> no_live frags now' src id.
Proof.
  intros Hle Hn. eapply Forall_impl; [|exact Hn]. intros e. cbn beta.
  unfold expire, frag_match. destruct (fe_active e) eqn:Ea; cbn [andb].
  - destruct (FragTimeoutTicks <? now - _) eqn:E1.
    + rewrite (proj2 (Z.ltb_lt _ _)) by lia. done.
    + destruct (FragTimeoutTicks <? now' - _); cbn [fe_active]; [done|]. by rewrite Ea.
  - by rewrite Ea.
Qed.

(** The run loop's use of a datagram: its type byte and the rest. *)
Fixpoint receive {W} `{!TunnelSink W} (t : TunState) (frames : list (Z * Z * bytes)) (w : W)
    : option (TunState * W) :=
  match frames with
  | [] => Some (t, w)
  | (now1, now2, b) :: frames =>
      '(t, w) ← OnFrame t now1 now2 (slpFrameType b) (drop 1 b) w;
      receive t frames w
  end.

Lemma chunks_two pkt :
  (SLP_MTU < length pkt <= 2 * SLP_MTU)%nat ->
  chunks (S (length pkt)) pkt = [take SLP_MTU pkt; drop SLP_MTU pkt].
Proof.
  intros Hl. destruct pkt as [|x pkt]; [cbn in Hl; lia|].
  set (l := x :: pkt) in *. cbn [chunks]. fold l. unfold l at 1.
  destruct (length l) as [|n] eqn:En; [lia|]. cbn [chunks].
  destruct (drop SLP_MTU l) as [|y d] eqn:Ed.
  { apply (f_equal length) in Ed. rewrite length_drop, En in Ed. cbn in Ed. lia. }
  rewrite <- Ed. assert (length (drop SLP_MTU l) <= SLP_MTU)%nat by (rewrite length_drop; lia).
  rewrite (take_ge (drop SLP_MTU l)), (drop_ge (drop SLP_MTU l)) by done. f_equal. f_equal. by destruct n.
Qed.

(** A send that is not to the loopback network, in a larger world. *)
Lemma tun_Send_view {W V} `{!TunnelSink W} `{!TunnelSink V} (f : W -> V) sendto sendto' running client
    t a data len w :
  (forall fd ip port b w,
    sendto' fd ip port b (f w) = let '(w, n) := sendto fd ip port b w in (f w, n)) ->
  Z.land (pa_dest_ip a) 0xFF000000 <> 0x7F000000 ->
  tun_Send sendto' running client t a data len (f w) =
  '(t, w, ok) ← tun_Send sendto running client t a data len w; Some (t, f w, ok).
Proof.
  intros Hf Ha%Z.eqb_neq. unfold tun_Send. rewrite Ha.
  destruct (_ && _); [done|]. destruct (2000 <? len)%nat; [done|]. destruct (negb running); [done|].
  destruct client as [c|]; [|done]. destruct (c_fd c <? 0); [done|]. cbv zeta.
  rewrite (SendIpv4_view f sendto sendto' Hf). by destruct (slpClientSendIpv4 _ _ _ _) as [[w' ok]|].
Qed.

(** What the frames of one datagram do at the receiver, whatever the consumer:
    nothing, until the last one hands over the datagram. *)
Inductive delivery : TunState -> list (Z * Z * bytes) -> UdpIn -> TunState -> Prop :=
| dv_last t now1 now2 f u t' :
    (forall W (S : TunnelSink W) (w : W),
       OnFrame t now1 now2 (slpFrameType f) (drop 1 f) w = Some (t', deliver_udp u w)) ->
    delivery t [(now1, now2, f)] u t'
| dv_part t now1 now2 f t1 l u t' :
    (forall W (S : TunnelSink W) (w : W),
       OnFrame t now1 now2 (slpFrameType f) (drop 1 f) w = Some (t1, w)) ->
    delivery t1 l u t' -> delivery t ((now1, now2, f) :: l) u t'.

Lemma delivery_receive {W} `{!TunnelSink W} t l u t' (w : W) :
  delivery t l u t' -> receive t l w = Some (t', deliver_udp u w).
Proof.
  induction 1 as [t n1 n2 f u t' Hf|t n1 n2 f t1 l u t' Hf _ IH]; cbn [receive]; by rewrite Hf.
Qed.

(** Two fragments received in either order. *)
Lemma delivery_two t src dst id c0 c1 T p1 p2 k1 k2 d1 d2 (swap : bool) n1 n2 n3 n4 u :
  is_u32 src -> is_u16 id ->
  length c0 = SLP_MTU -> (0 < length c1 <= SLP_MTU)%nat ->
  length (g_frags t) = MaxFragEntries -> Forall (fun e => fe_last_tick e < INT64_MAX) (g_frags t) ->
  no_live (g_frags t) T src id -> T <= n1 -> n3 - n2 <= FragTimeoutTicks ->
  p1 = (if swap then 1 else 0) -> p2 = (if swap then 0 else 1) ->
  k1 = (if swap then c1 else c0) -> k2 = (if swap then c0 else c1) ->
  d1 = slpFrameIpv4Frag src dst id p1 2 k1 -> d2 = slpFrameIpv4Frag src dst id p2 2 k2 ->
  parse_udp (c0 ++ c1) = Some (Some u) ->
  exists t', delivery t [(n1, n2, d1); (n3, n4, d2)] u t'.
Proof.
  intros Hs Hid H0 H1 Hl Ht Hn HT Hwin Ep1 Ep2 Ek1 Ek2 -> -> Hu.
  apply (no_live_mono _ _ n1) in Hn; [|done].
  destruct (FindFragEntry_fresh (g_frags t) n1 src id Hl Ht Hn) as (i & Hi & Hfind).
  destruct (frag_part_two src id n1 n2 n4 c0 c1 swap H0 H1) as (e1 & e2 & F1 & Ha & Hsrc & Hidd & Htick & F2).
  rewrite <- Ep1, <- Ek1 in F1. rewrite <- Ep2, <- Ek2 in F2.
  assert (length k1 <= SLP_MTU /\ length k2 <= SLP_MTU)%nat as [Hk1 Hk2]
    by (subst k1 k2; destruct swap; lia).
  assert (0 <= p1 < 2 /\ 0 <= p2 < 2) as [Hp1 Hp2] by (subst p1 p2; destruct swap; lia).
  set (fr1 := slpFrameIpv4Frag src dst id p1 2 k1). set (fr2 := slpFrameIpv4Frag src dst id p2 2 k2).
  assert (OnFrag t n1 n2 (drop 1 fr1) =
          Some (set_frags t (<[i := e1]> (expire n1 <$> g_frags t)), None)) as E1.
  { unfold fr1. rewrite OnFrag_frame by (done || lia). rewrite Hfind.
    rewrite list_lookup_insert_eq by (rewrite length_fmap; lia). cbn [mbind option_bind].
    unfold fresh_entry in F1. fold (fresh_entry src id n1) in F1. rewrite F1.
    cbn [mbind option_bind]. by rewrite list_insert_insert_eq. }
  set (t1 := set_frags t (<[i := e1]> (expire n1 <$> g_frags t))) in *.
  assert (exists t2, OnFrag t1 n3 n4 (drop 1 fr2) = Some (t2, Some (c0 ++ c1))) as [t2 E2].
  { unfold fr2. rewrite OnFrag_frame by (done || lia). cbn [t1 set_frags g_frags].
    rewrite (FindFragEntry_again (g_frags t) i e1 n1 n3) by (done || lia).
    rewrite list_lookup_insert_eq by (rewrite !length_fmap; lia). cbn [mbind option_bind].
    rewrite F2. cbn [mbind option_bind]. eauto. }
  exists t2. apply (dv_part _ _ _ _ t1).
  - intros W S w. change (OnFrame t n1 n2 (slpFrameType fr1) (drop 1 fr1) w)
      with ('(t, r) ← OnFrag t n1 n2 (drop 1 fr1);
            match r with None => Some (t, w)
            | Some pkt => w ← ProcessIpv4 pkt w; Some (t, w) end). by rewrite E1.
  - apply dv_last. intros W S w. change (OnFrame t1 n3 n4 (slpFrameType fr2) (drop 1 fr2) w)
      with ('(t, r) ← OnFrag t1 n3 n4 (drop 1 fr2);
            match r with None => Some (t, w)
            | Some pkt => w ← ProcessIpv4 pkt w; Some (t, w) end).
    rewrite E2. cbn [mbind option_bind]. unfold ProcessIpv4. by rewrite Hu.
Qed.

(** The frames of a packet of at most 2028 bytes. *)
Definition udp_frames (src dst id : Z) (pkt : bytes) : list bytes :=
  if decide (length pkt <= SLP_MTU)%nat then [SLP_TYPE_IPV4 :: pkt]
  else [slpFrameIpv4Frag src dst id 0 2 (take SLP_MTU pkt);
        slpFrameIpv4Frag src dst id 1 2 (drop SLP_MTU pkt)].

(** The receive loop reads each of them whole and gives it to the tunnel. *)
Lemma udp_frames_ok src dst id pkt :
  (28 <= length pkt <= 2028)%nat ->
  Forall (fun f => (slpFrameType f = SLP_TYPE_IPV4 \/ slpFrameType f = SLP_TYPE_IPV4_FRAG) /\
                   (1 < length f <= 2048)%nat) (udp_frames src dst id pkt).
Proof.
  intros Hl. assert (forall part ch, (0 < length ch <= SLP_MTU)%nat ->
    (slpFrameType (slpFrameIpv4Frag src dst id part 2 ch) = SLP_TYPE_IPV4_FRAG) /\
    (1 < length (slpFrameIpv4Frag src dst id part 2 ch) <= 2048)%nat) as Hf.
  { intros part ch Hch. split; [done|]. unfold slpFrameIpv4Frag. cbn [app wr32be wr16be length].
    unfold SLP_MTU in Hch. lia. }
  unfold udp_frames. case_decide as Hd.
  - apply Forall_cons_2; [|done]. split; [by left|]. cbn [length]. unfold SLP_MTU in Hd. lia.
  - repeat apply Forall_cons_2; [..|done].
    + destruct (Hf 0 (take SLP_MTU pkt)); [rewrite length_take; unfold SLP_MTU in *; lia|auto].
    + destruct (Hf 1 (drop SLP_MTU pkt)); [rewrite length_drop; unfold SLP_MTU in *; lia|auto].
Qed.

Lemma Send_frames (SA : TunnelSink (list bytes)) c t a data :
  let src := if pa_source_ip a =? 0 then g_local_ip t else pa_source_ip a in
  is_u32 src -> is_u32 (pa_dest_ip a) -> is_u16 (g_ip_id t) -> 0 <= c_fd c ->
  Z.land (pa_dest_ip a) 0xFF000000 <> 0x7F000000 -> (length data <= 2000)%nat ->
  tun_Send record_sendto true (Some c) t a (Some data) (length data) [] =
  Some (mkTun (g_local_ip t) (u16 (g_ip_id t + 1)) (g_frags t),
        udp_frames src (pa_dest_ip a) (g_ip_id t)
          (udp_packet src (pa_source_port a) (pa_dest_ip a) (pa_dest_port a) (g_ip_id t) data), true).
Proof.
  intros src Hsrc Hd Hid Hfd Hlo Hlen. unfold tun_Send. cbn [bool_decide].
  rewrite bool_decide_false by done. cbn [andb negb]. change (default [] (Some data)) with data.
  rewrite (proj2 (Nat.ltb_ge _ _)) by done. rewrite (proj2 (Z.ltb_ge (c_fd c) 0)) by done.
  rewrite (proj2 (Z.eqb_neq _ _) Hlo). fold src. cbv zeta.
  set (pkt := udp_packet src (pa_source_port a) (pa_dest_ip a) (pa_dest_port a) (g_ip_id t) data).
  assert (length pkt = 28 + length data)%nat as Hplen by done. unfold udp_frames. case_decide as Hsmall.
  - by rewrite SendIpv4_small by lia.
  - rewrite (SendIpv4_large _ _ _ src (pa_dest_ip a) (g_ip_id t)).
    + by rewrite chunks_two by (unfold SLP_MTU in *; lia).
    + unfold SLP_MTU in *. lia.
    + unfold pkt. rewrite <- (be16_wr (g_ip_id t)) at 2 by done. done.
    + unfold pkt. rewrite <- (be32_wr src) at 2 by done. done.
    + unfold pkt. rewrite <- (be32_wr (pa_dest_ip a)) at 2 by done. done.
Qed.

(** What [Send] puts on the wire is delivered, in any order. *)
Lemma Send_delivery (SA : TunnelSink (list bytes)) c tA tB a data fs tA' T ticks frames :
  is_u32 (pa_source_ip a) -> is_u32 (pa_dest_ip a) -> is_u16 (pa_source_port a) ->
  is_u16 (pa_dest_port a) -> is_u32 (g_local_ip tA) -> is_u16 (g_ip_id tA) -> 0 <= c_fd c ->
  Z.land (pa_dest_ip a) 0xFF000000 <> 0x7F000000 ->
  tun_Send record_sendto true (Some c) tA a (Some data) (length data) [] = Some (tA', fs, true) ->
  let src := if pa_source_ip a =? 0 then g_local_ip tA else pa_source_ip a in
  frames ≡ₚ fs -> length ticks = length fs ->
  Forall (fun p => T <= p.1 <= T + FragTimeoutTicks /\ T <= p.2 <= T + FragTimeoutTicks) ticks ->
  tun_inv tB -> Forall (fun e => fe_last_tick e < INT64_MAX) (g_frags tB) ->
  no_live (g_frags tB) T src (g_ip_id tA) ->
  exists tB', delivery tB (zip ticks frames)
    (mkUdpIn src (pa_source_port a) (pa_dest_ip a) (pa_dest_port a) data) tB'.
Proof.
  intros Hs Hd Hsp Hdp Hlip Hid Hfd Hlo Hsend src Hperm Hlt Hticks [Hl _] HtB Hnl.
  destruct (2000 <? length data)%nat eqn:Elen.
  { unfold tun_Send in Hsend. rewrite Elen in Hsend. by destruct (_ && _). }
  apply Nat.ltb_ge in Elen.
  assert (is_u32 src) as Hsrc by (unfold src; by case_match).
  rewrite Send_frames in Hsend by done. fold src in Hsend.
  set (pkt := udp_packet src (pa_source_port a) (pa_dest_ip a) (pa_dest_port a) (g_ip_id tA) data) in *.
  injection Hsend as _ <-.
  assert (parse_udp pkt = Some (Some (mkUdpIn src (pa_source_port a) (pa_dest_ip a) (pa_dest_port a) data)))
    as Hparse by (by apply parse_udp_packet).
  assert (length pkt = 28 + length data)%nat as Hplen by done.
  unfold udp_frames in *. case_decide as Hsmall.
  - apply Permutation_singleton_r in Hperm as ->.
    destruct ticks as [|[n1 n2] [|]]; [done| |done]. cbn [zip zip_with].
    exists tB. apply dv_last. intros W S w. unfold OnFrame. change (slpFrameType (SLP_TYPE_IPV4 :: pkt)) with SLP_TYPE_IPV4.
    rewrite Z.eqb_refl. change (drop 1 (SLP_TYPE_IPV4 :: pkt)) with pkt. unfold ProcessIpv4.
    by rewrite Hparse.
  - assert (length (take SLP_MTU pkt) = SLP_MTU) as H0 by (rewrite length_take; lia).
    assert (0 < length (drop SLP_MTU pkt) <= SLP_MTU)%nat as H1
      by (rewrite length_drop; unfold SLP_MTU in *; lia).
    destruct ticks as [|[n1 n2] [|[n3 n4] [|]]]; try done.
    apply Forall_cons_1 in Hticks as [[Ht1 Ht2] Hticks]. apply Forall_cons_1 in Hticks as [[Ht3 Ht4] _].
    cbn [fst snd] in *.
    symmetry in Hperm. apply Permutation_length_2_inv in Hperm as [-> | ->]; cbn [zip zip_with].
    * eapply (delivery_two tB src (pa_dest_ip a) (g_ip_id tA) (take SLP_MTU pkt) (drop SLP_MTU pkt) T)
        with (swap := false); try done; try lia. by rewrite take_drop.
    * eapply (delivery_two tB src (pa_dest_ip a) (g_ip_id tA) (take SLP_MTU pkt) (drop SLP_MTU pkt) T)
        with (swap := true); try done; try lia. by rewrite take_drop.
Qed.

(** C6: the tunnel delivers.  What [Send] puts on the wire for a datagram of up
    to 2000 bytes (one frame, or two fragments above the MTU), received by
    another console in any order, within the reassembly timeout and with no
    live fragments left of the same key, is delivered exactly once to the
    consumer, as the same datagram: source (the tunnel's own address when the
    socket was bound to any), destination, ports and payload; and the receiver
    never reads outside a buffer on the way. *)
Theorem tunnel_delivers {WB : Type} (SA : TunnelSink (list bytes)) (SB : TunnelSink WB)
    c tA tB a data fs tA' T ticks frames (w : WB) :
  is_u32 (pa_source_ip a) -> is_u32 (pa_dest_ip a) -> is_u16 (pa_source_port a) ->
  is_u16 (pa_dest_port a) -> is_u32 (g_local_ip tA) -> is_u16 (g_ip_id tA) -> 0 <= c_fd c ->
  Z.land (pa_dest_ip a) 0xFF000000 <> 0x7F000000 ->
  tun_Send record_sendto true (Some c) tA a (Some data) (length data) [] = Some (tA', fs, true) ->
  let src := if pa_source_ip a =? 0 then g_local_ip tA else pa_source_ip a in
  frames ≡ₚ fs -> length ticks = length fs ->
  Forall (fun p => T <= p.1 <= T + FragTimeoutTicks /\ T <= p.2 <= T + FragTimeoutTicks) ticks ->
  tun_inv tB -> Forall (fun e => fe_last_tick e < INT64_MAX) (g_frags tB) ->
  no_live (g_frags tB) T src (g_ip_id tA) ->
  exists tB', receive tB (zip ticks frames) w =
    Some (tB', deliver_udp (mkUdpIn src (pa_source_port a) (pa_dest_ip a) (pa_dest_port a) data) w).
Proof.
  intros Hs Hd Hsp Hdp Hlip Hid Hfd Hlo Hsend src Hperm Hlt Hticks Ht HtB Hnl.
  destruct (Send_delivery SA c tA tB a data fs tA' T ticks frames) as [tB' H]; try done.
  exists tB'. by apply delivery_receive.
Qed.

(** A console that does not listen to its own loopback. *)
Definition deaf_sink : TunnelSink (list bytes) :=
  {| OnControlFrame _ _ w := w; RouteIncoming _ _ w := (w, true) |}.

(** 1500 bytes: two fragments, received last first. *)
Lemma tunnel_delivers_witness :
  let a := mkArgs 0 30000 0x0A0D2507 30001 17 in
  let c := mkSlpClient 5 1 11451 [] false [] [] in
  let tA := mkTun 0x0A0D2505 7 (replicate MaxFragEntries FragEntry_zero) in
  let r := @tun_Send _ deaf_sink record_sendto true (Some c) tA a (Some (replicate 1500 7)) 1500 [] in
  let fs := match r with Some (_, fs, _) => fs | None => [] end in
  length fs = 2%nat /\
  exists tB', receive TunState_init (zip [(10 ^ 9, 10 ^ 9 + 1); (10 ^ 9 + 5000, 10 ^ 9 + 5001)] (rev fs))
                (@nil Delivered)
    = Some (tB', [DData (mkArgs 0x0A0D2505 30000 0x0A0D2507 30001 17) (replicate 1500 7)]).
Proof.
  intros a c tA r fs. assert (length fs = 2%nat) as Hfs by (vm_compute; reflexivity).
  split; [exact Hfs|].
  assert (is_u32 0x0A0D2505 /\ is_u32 0x0A0D2507 /\ is_u16 30000 /\ is_u16 30001)
    as (H1 & H2 & H3 & H4) by (unfold is_u32, is_u16; lia).
  apply (tunnel_delivers deaf_sink record_sink c tA TunState_init a (replicate 1500 7) fs
           (mkTun 0x0A0D2505 8 (replicate MaxFragEntries FragEntry_zero)) (10 ^ 9)).
  - unfold is_u32; simpl; lia.
  - exact H2.
  - exact H3.
  - exact H4.
  - exact H1.
  - unfold is_u16; simpl; lia.
  - simpl; lia.
  - vm_compute; discriminate.
  - vm_compute; reflexivity.
  - symmetry; apply Permutation_rev.
  - rewrite Hfs. reflexivity.
  - repeat constructor; vm_compute; discriminate.
  - exact tun_inv_init.
  - apply Forall_replicate. vm_compute. reflexivity.
  - apply Forall_replicate. vm_compute. reflexivity.
Defined.
