(* ===== verification/Runtime.v ===== *)
(** The relay runtime (slpcfg/slp_runtime.hpp/.cpp): the selected server, the
    virtual address and its persistence, start and stop, the receive loop.

    [Sys] gathers what the runtime's calls touch: its own members, the server
    table of servers.c, the content of virtual_id.cfg, the tunnel, and a world
    [W] that holds the relay's socket and the consumers of inbound datagrams.
    The results of file, nifm, thread and socket calls are arguments.  A file
    is its content, [None] when it cannot be read. *)
From S2P Require Import Prelude Bytes CText Servers IpAddr ProxySocket SlpClient Tunnel.

Definition KeepaliveIntervalMs : Z := 10000.
Definition SLPCFG_STATE_STOPPED : Z := 0.
Definition SLPCFG_STATE_RUNNING : Z := 1.
(** "10.13.37.2" *)
Definition DefaultVirtualIp : bytes := [49; 48; 46; 49; 51; 46; 51; 55; 46; 50].
(** "10.13." *)
Definition VirtualPrefix : bytes := [49; 48; 46; 49; 51; 46].

(** ** Files and the virtual address *)

(** [ReadConfigText]: the text and its size, into a buffer of [cap] bytes. *)
Definition ReadConfigText (file : option bytes) (cap : nat) : option bytes :=
  match file with
  | None => None
  | Some c => if negb (length c =? 0)%nat && (length c <? cap - 1)%nat then Some c else None
  end.

Definition IsReservedVirtualOctet (c d : Z) : bool :=
  (c =? 0) || (c =? 255) || (c =? 37) || (d =? 0) || (d =? 255).

(** The bytes drawn by [GenerateRandomBytes], two per attempt. *)
Fixpoint draw_octets (attempts : nat) (rnd : list (Z * Z)) : Z * Z :=
  match attempts, rnd with
  | S n, (c, d) :: rnd' => if negb (IsReservedVirtualOctet c d) then (c, d) else draw_octets n rnd'
  | _, _ => (100, 100)
  end.
Definition GenerateVirtualOctets (rnd : list (Z * Z)) : Z * Z := draw_octets 64 rnd.

Definition ReadPersistedVirtualOctets (file : option bytes) : option (Z * Z) :=
  buf ← ReadConfigText file 32;
  '(c, rest) ← scan_u (cstr buf);
  match rest with
  | 46 :: rest =>
      '(d, _) ← scan_u rest;
      if (255 <? c) || (255 <? d) || IsReservedVirtualOctet c d then None else Some (c, d)
  | _ => None
  end.

(** What the surroundings answer while an address is chosen: nifm, the random
    bytes, and whether deleting, creating and writing the file succeed. *)
Record VipEnv : Set := mkVipEnv {
  ve_nifm : bool;
  ve_rnd : list (Z * Z);
  ve_delete : bool;
  ve_create : bool;
  ve_write : bool;
}.

Definition PersistVirtualOctets (e : VipEnv) (c d : Z) (file : option bytes) : option bytes :=
  let text := dec c ++ [46] ++ dec d ++ [10] in
  let file := if ve_delete e then None else file in
  if negb (ve_create e) then file
  else if ve_write e then Some text else Some (replicate (length text) 0).

(** [snprintf(out, cap, "10.13.%u.%u", c, d)] *)
Definition virtual_text (cap : nat) (c d : Z) : bytes :=
  take (cap - 1) (VirtualPrefix ++ dec c ++ [46] ++ dec d).

(** The text written to [out], and the file afterwards. *)
Definition GetVirtualIp (e : VipEnv) (file : option bytes) (cap : nat) : bytes * option bytes :=
  match ReadPersistedVirtualOctets file with
  | Some (c, d) => (virtual_text cap c d, file)
  | None =>
      if negb (ve_nifm e) then (take (cap - 1) DefaultVirtualIp, file)
      else
        let '(c, d) := GenerateVirtualOctets (ve_rnd e) in
        (virtual_text cap c d, PersistVirtualOctets e c d file)
  end.

(** ** The runtime *)
Record Runtime : Set := mkRuntime {
  m_sel_index : Z;
  m_state : Z;
  m_ip : bytes;
  m_connected_host : bytes;
  m_relay_ip : Z;
  m_client : SlpClient;
  m_thread_running : bool;
  m_stop_event : bool;
  m_rx_frames : Z;
  m_tx_frames : Z;
}.

(** The constructor, on storage that is zero. *)
Definition Runtime_init : Runtime :=
  mkRuntime (-1) SLPCFG_STATE_STOPPED [] [] 0
    (mkSlpClient (-1) 0 0 [] false [] (replicate 20 0)) false false 0 0.

Definition set_sel_index (rt : Runtime) (i : Z) : Runtime :=
  mkRuntime i (m_state rt) (m_ip rt) (m_connected_host rt) (m_relay_ip rt) (m_client rt)
    (m_thread_running rt) (m_stop_event rt) (m_rx_frames rt) (m_tx_frames rt).
Definition set_client (rt : Runtime) (c : SlpClient) : Runtime :=
  mkRuntime (m_sel_index rt) (m_state rt) (m_ip rt) (m_connected_host rt) (m_relay_ip rt) c
    (m_thread_running rt) (m_stop_event rt) (m_rx_frames rt) (m_tx_frames rt).
Definition set_frames (rt : Runtime) (rx tx : Z) : Runtime :=
  mkRuntime (m_sel_index rt) (m_state rt) (m_ip rt) (m_connected_host rt) (m_relay_ip rt)
    (m_client rt) (m_thread_running rt) (m_stop_event rt) rx tx.

Definition RelayOnLocalNetwork (rt : Runtime) : bool :=
  let ip := m_relay_ip rt in
  if ip =? 0 then false
  else
    let ip_host := bswap32 ip in
    let first := Z.land (Z.shiftr ip_host 24) 0xFF in
    let first_two := Z.land (Z.shiftr ip_host 16) 0xFFFF in
    if first =? 0x0A then true
    else if first =? 0xAC then Z.land first_two 0xFFF0 =? 0xAC10
    else if first =? 0xC0 then first_two =? 0xC0A8
    else if first =? 0xA9 then first_two =? 0xA9FE
    else false.

Record Sys (W : Type) : Type := mkSys {
  s_rt : Runtime;
  s_servers : list SlpServer;
  s_vid : option bytes;
  s_tun : TunState;
  s_world : W;
}.
Arguments mkSys {W}. Arguments s_rt {W}. Arguments s_servers {W}. Arguments s_vid {W}.
Arguments s_tun {W}. Arguments s_world {W}.

Section runtime.
Context {W : Type} `{!TunnelSink W}.
Variable sendto : Z -> Z -> Z -> bytes -> W -> W * Z.
Variable sha1 : bytes -> bytes.
(** [ProxySocketManager::SetLocalIp] and [LdnControl::Tick]. *)
Variable SetLocalIp : Z -> W -> W.
Variable Tick : W -> W.

Definition set_rt (s : Sys W) (rt : Runtime) : Sys W :=
  mkSys rt (s_servers s) (s_vid s) (s_tun s) (s_world s).
Definition set_world (s : Sys W) (w : W) : Sys W :=
  mkSys (s_rt s) (s_servers s) (s_vid s) (s_tun s) w.

Definition ReloadServers (file : option bytes) (s : Sys W) : Sys W * Z :=
  match ReadConfigText file 4096 with
  | None => (s, 0)
  | Some text =>
      let servers := slpServersParse text in
      let count := slpServersCount servers in
      let rt := s_rt s in
      let rt := if (m_sel_index rt <? 0) || (count <=? m_sel_index rt)
                then set_sel_index rt (if 0 <? count then 0 else -1) else rt in
      (mkSys rt servers (s_vid s) (s_tun s) (s_world s), count)
  end.

Definition ServerName (s : Sys W) (index : Z) : bytes :=
  match slpServersGet (s_servers s) index with Some v => srv_name v | None => [] end.
Definition ServerHost (s : Sys W) (index : Z) : bytes :=
  match slpServersGet (s_servers s) index with Some v => srv_host v | None => [] end.
Definition ServerPort (s : Sys W) (index : Z) : Z :=
  match slpServersGet (s_servers s) index with Some v => srv_port v | None => 0 end.

(** [index] is unsigned and cast to [int]. *)
Definition SelectServer (index : Z) (s : Sys W) : Sys W * bool :=
  if slpServersCount (s_servers s) <=? s32 index then (s, false)
  else (set_rt s (set_sel_index (s_rt s) (s32 index)), true).

(** What the surroundings answer during [Start]. *)
Record StartEnv : Type := mkStartEnv {
  se_resolve : bytes -> option Z;
  se_socket : Z;
  se_bound : bool;
  se_vip : VipEnv;
  se_vip_tun : VipEnv;
  se_thread : bool;
}.

(** [tun::RefreshLocalIp], which asks for the virtual address again. *)
Definition Start_refresh (e : VipEnv) (s : Sys W) : Sys W :=
  let '(ip, vid) := GetVirtualIp e (s_vid s) 16 in
  let '(t, fresh) := RefreshLocalIp (s_tun s) ip in
  mkSys (s_rt s) (s_servers s) vid t
    (match fresh with Some ip => SetLocalIp ip (s_world s) | None => s_world s end).

(** What [Start] does once the relay's socket is open. *)
Definition Start_opened (e : StartEnv) (srv : SlpServer) (s : Sys W) : Sys W * bool :=
  let rt := s_rt s in
  let client := m_client rt in
  let '(w, _) := slpClientSendPing sendto client 0xC0FFEE (s_world s) in
  let '(ip, vid) := GetVirtualIp (se_vip e) (s_vid s) 16 in
  let s := Start_refresh (se_vip_tun e) (mkSys rt (s_servers s) vid (s_tun s) w) in
  let rt running client state :=
    mkRuntime (m_sel_index rt) state ip (take 127 (srv_host srv)) (c_server_ip client) client
      running false (m_rx_frames rt) (m_tx_frames rt) in
  if negb (se_thread e)
  then (set_rt s (rt false (slpClientClose client) (m_state (s_rt s))), false)
  else (set_rt s (rt true client SLPCFG_STATE_RUNNING), true).

Definition Start (e : StartEnv) (s : Sys W) : Sys W * bool :=
  let rt := s_rt s in
  if m_state rt =? SLPCFG_STATE_RUNNING then (s, true)
  else if (m_sel_index rt <? 0) || (slpServersCount (s_servers s) <=? m_sel_index rt) then (s, false)
  else
    match slpServersGet (s_servers s) (m_sel_index rt) with
    | None => (s, false)
    | Some srv =>
        let client := slpClientSetCredentials sha1 (m_client rt) (Some (srv_username srv))
                        (Some (srv_password srv)) in
        let '(client, ok) := slpClientOpen (se_resolve e) (se_socket e) (se_bound e) client
                               (srv_host srv) (srv_port srv) in
        let s := set_rt s (set_client rt client) in
        if negb ok then (s, false) else Start_opened e srv s
    end.

(** The teardown runs unlocked after the thread has ended. *)
Definition Stop (s : Sys W) : Sys W :=
  let rt := s_rt s in
  if negb (m_state rt =? SLPCFG_STATE_RUNNING) then s
  else
    let rt := mkRuntime (m_sel_index rt) SLPCFG_STATE_STOPPED (m_ip rt) (m_connected_host rt)
                (m_relay_ip rt) (slpClientClose (m_client rt)) false true (m_rx_frames rt)
                (m_tx_frames rt) in
    mkSys rt (s_servers s) (s_vid s) (OnStop (s_tun s)) (s_world s).

(** ** The receive loop *)
Record LoopState : Type := mkLoop {
  l_sys : Sys W;
  l_last_keepalive : Z;
  l_fails : Z;
}.

(** What one round meets: [m_thread_running] at its start, the time in
    milliseconds, the socket a reconnection would get, the datagram received
    within a second, the tunnel's ticks, and whether the stop event is set at the
    end.  [Stop] runs on another thread: it clears the flag and sets the event. *)
Record Round : Type := mkRound {
  r_running : bool;
  r_now : Z;
  r_socket : Z;
  r_bound : bool;
  r_recv : option bytes;
  r_tick1 : Z;
  r_tick2 : Z;
  r_stop : bool;
}.

(** The keepalive, and the reconnection after three failures. *)
Definition keepalive (i : Round) (l : LoopState) : LoopState :=
  if KeepaliveIntervalMs <=? r_now i - l_last_keepalive l then
    let s := l_sys l in
    let rt := s_rt s in
    let '(w, ok) := slpClientSendKeepalive sendto (m_client rt) (s_world s) in
    let s := set_world s w in
    if (ok : bool) then
      mkLoop (set_rt s (set_frames rt (m_rx_frames rt) (u32 (m_tx_frames rt + 1)))) (r_now i) 0
    else
      let fails := l_fails l + 1 in
      if 3 <=? fails then
        let '(client, _) := slpClientReopen (r_socket i) (r_bound i) (m_client rt) in
        mkLoop (set_rt s (set_client rt client)) (r_now i) 0
      else mkLoop s (r_now i) fails
  else l.

Definition count_rx (s : Sys W) : Sys W :=
  let rt := s_rt s in set_rt s (set_frames rt (u32 (m_rx_frames rt + 1)) (m_tx_frames rt)).

(** The dispatch of a datagram; the flag says the round ends by [continue].
    [None]: an access outside a buffer. *)
Definition dispatch (i : Round) (s : Sys W) : option (Sys W * bool) :=
  match slpClientRecv (option_map (take 2048) (r_recv i)) with
  | None => Some (s, false)
  | Some (buf, type) =>
      if type =? SLP_TYPE_PING then Some (s, true)
      else if type =? SLP_TYPE_AUTH_ME then
        let '(w, _) := slpClientHandleAuthMe sendto sha1 (m_client (s_rt s)) (drop 1 buf) (s_world s) in
        Some (set_world s w, true)
      else
        let s := count_rx s in
        if (1 <? length buf)%nat then
          '(t, w) ← OnFrame (s_tun s) (r_tick1 i) (r_tick2 i) type (drop 1 buf) (s_world s);
          Some (mkSys (s_rt s) (s_servers s) (s_vid s) t w, false)
        else Some (s, false)
  end.

(** One round; the flag says the loop breaks. *)
Definition RunLoop_round (i : Round) (l : LoopState) : option (LoopState * bool) :=
  let l := keepalive i l in
  let s := set_world (l_sys l) (Tick (s_world (l_sys l))) in
  '(s, continued) ← dispatch i s;
  Some (mkLoop s (l_last_keepalive l) (l_fails l), negb continued && r_stop i).

(** The loop over the rounds it meets. *)
Fixpoint RunLoop (rounds : list Round) (l : LoopState) : option LoopState :=
  match rounds with
  | [] => Some l
  | i :: rounds =>
      if negb (r_running i) then Some l
      else
        '(l, stop) ← RunLoop_round i l;
        if (stop : bool) then Some l else RunLoop rounds l
  end.
End runtime.

(** ** Lemmas: the virtual address *)
Lemma ParseIp_digits ds r v oct cur :
  digits ds ->
  ParseIp_loop (ds ++ r) v oct cur = ParseIp_loop r v oct (foldl (fun a c => a * 10 + (c - 48)) cur ds).
Proof.
  intros Hd. revert cur; induction Hd as [|c ds Hc _ IH]; intros cur; [done|].
  cbn [app ParseIp_loop foldl]. unfold isdigit in Hc. by rewrite Hc.
Qed.

Lemma ParseIp_dec c r v oct :
  0 <= c < 10 ^ 20 -> ParseIp_loop (dec c ++ r) v oct 0 = ParseIp_loop r v oct c.
Proof. intros Hc. destruct (dec_spec c Hc) as (Hd & _ & Hv). rewrite ParseIp_digits by done. unfold dec_value in Hv. by rewrite Hv. Qed.

Definition octets_ok (c d : Z) : Prop := is_u8 c /\ is_u8 d /\ IsReservedVirtualOctet c d = false.
Definition virtual_ip (c d : Z) : Z := 0x0A0D0000 + 256 * c + d.

Lemma octet_dec_length c : is_u8 c -> (length (dec c) <= 3)%nat.
Proof. intros Hc. apply dec_length; [lia|unfold is_u8 in Hc; lia]. Qed.

Lemma virtual_text_full c d :
  is_u8 c -> is_u8 d -> virtual_text 16 c d = VirtualPrefix ++ dec c ++ [46] ++ dec d.
Proof.
  intros Hc Hd. pose proof (octet_dec_length c Hc). pose proof (octet_dec_length d Hd).
  unfold virtual_text. apply take_ge. rewrite !length_app. cbn [length VirtualPrefix]. lia.
Qed.

Lemma ParseIp_virtual c d : is_u8 c -> is_u8 d -> ParseIp (virtual_text 16 c d) = virtual_ip c d.
Proof.
  intros Hc Hd. rewrite virtual_text_full by done. unfold ParseIp.
  change (ParseIp_loop (VirtualPrefix ++ dec c ++ [46] ++ dec d) 0 0 0)
    with (ParseIp_loop (dec c ++ [46] ++ dec d) 0x0A0D 2 0).
  rewrite ParseIp_dec by (unfold is_u8 in Hc; lia). cbn [app ParseIp_loop].
  unfold is_u8 in Hc, Hd. replace (255 <? c) with false by lia. cbn [orb Z.leb Z.ltb Z.compare andb].
  change ((3 <? 2)) with false. cbn [orb].
  rewrite <- (app_nil_r (dec d)), ParseIp_dec by lia. cbn [ParseIp_loop].
  replace (255 <? d) with false by lia. cbn [orb]. change (3 <? 2 + 1) with false. change (2 + 1 + 1 =? 4) with true.
  cbn [orb]. rewrite !u8_id by (unfold is_u8; lia).
  rewrite (lor_shiftl_add 2573 c 8) by lia. rewrite (lor_shiftl_add _ d 8) by lia.
  change ((48 <=? 46) && (46 <=? 57)) with false. change (46 =? 46) with true.
  change (2 + 1 + 1 =? 4) with true. cbn [andb]. unfold virtual_ip. word_lia.
Qed.

Lemma draw_octets_ok n rnd :
  Forall (fun p => is_u8 p.1 /\ is_u8 p.2) rnd ->
  let '(c, d) := draw_octets n rnd in octets_ok c d.
Proof.
  intros Hr. revert n; induction Hr as [|[c d] rnd [Hc Hd] _ IH]; intros [|n]; cbn [draw_octets];
    try (split; [unfold is_u8; lia|split; [unfold is_u8; lia|done]]).
  destruct (IsReservedVirtualOctet c d) eqn:E; [apply IH|done].
Qed.

Lemma scan_u_range l v r : scan_u l = Some (v, r) -> is_u32 v.
Proof.
  unfold scan_u. destruct (scan_sign _) as [neg l']. destruct (span isdigit l') as [[|c ds] rest]; [done|].
  intros [= <- _]. apply u32_range.
Qed.

Lemma ReadPersisted_ok file c d : ReadPersistedVirtualOctets file = Some (c, d) -> octets_ok c d.
Proof.
  unfold ReadPersistedVirtualOctets. destruct (ReadConfigText file 32) as [buf|]; [|done].
  cbn [mbind option_bind]. destruct (scan_u (cstr buf)) as [[c' r]|] eqn:Ec; [|done].
  cbn [mbind option_bind]. destruct r as [|x r]; [done|].
  destruct (decide (x = 46)) as [->|Hx].
  2: { intros H. exfalso. revert H. destruct x as [|p|p]; try done. repeat (destruct p as [p|p|]; try done). }
  destruct (scan_u r) as [[d' r']|] eqn:Ed; [|done]. cbn [mbind option_bind].
  destruct (_ || _) eqn:E; [done|]. intros [= <- <-]. apply scan_u_range in Ec, Ed.
  apply orb_false_iff in E as [E1 E2]. unfold is_u32 in Ec, Ed.
  split; [unfold is_u8; lia|]. split; [unfold is_u8; lia|done].
Qed.

(** What is written is read back. *)
Lemma ReadPersisted_text c d :
  octets_ok c d -> ReadPersistedVirtualOctets (Some (dec c ++ [46] ++ dec d ++ [10])) = Some (c, d).
Proof.
  intros (Hc & Hd & Hr). pose proof (octet_dec_length c Hc). pose proof (octet_dec_length d Hd).
  unfold is_u8 in Hc, Hd.
  destruct (dec_spec c) as (Dc & _ & _); [lia|]. destruct (dec_spec d) as (Dd & _ & _); [lia|].
  unfold ReadPersistedVirtualOctets, ReadConfigText.
  replace (_ && _) with true by (rewrite !length_app; cbn [length]; lia).
  cbn [mbind option_bind]. rewrite cstr_id.
  - rewrite scan_u_dec; [|lia|by intros ? ? [= <- _]]. cbn [app mbind option_bind].
    rewrite scan_u_dec; [|lia|by intros ? ? [= <- _]]. cbn [mbind option_bind].
    replace (255 <? c) with false by lia. replace (255 <? d) with false by lia. cbn [orb].
    by rewrite Hr.
  - assert (forall l, digits l -> Forall (fun x => x <> 0) l) as Hz.
    { intros l Hl. eapply Forall_impl; [|exact Hl]. intros x Hx. cbn beta in Hx. unfold isdigit in Hx. lia. }
    apply Forall_app; split; [by apply Hz|]. apply Forall_cons_2; [done|].
    apply Forall_app; split; [by apply Hz|]. by apply Forall_cons_2.
Qed.

(** Every address the function can choose. *)
Lemma GetVirtualIp_cases e file :
  Forall (fun p => is_u8 p.1 /\ is_u8 p.2) (ve_rnd e) ->
  (GetVirtualIp e file 16 = (DefaultVirtualIp, file) /\ ve_nifm e = false /\
   ReadPersistedVirtualOctets file = None) \/
  exists c d, octets_ok c d /\ (GetVirtualIp e file 16).1 = virtual_text 16 c d /\
    (ReadPersistedVirtualOctets file = Some (c, d) /\ (GetVirtualIp e file 16).2 = file \/
     ReadPersistedVirtualOctets file = None /\ ve_nifm e = true /\
     (c, d) = GenerateVirtualOctets (ve_rnd e) /\
     (GetVirtualIp e file 16).2 = PersistVirtualOctets e c d file).
Proof.
  intros Hr. unfold GetVirtualIp. destruct (ReadPersistedVirtualOctets file) as [[c d]|] eqn:E.
  - right. exists c, d. split; [by eapply ReadPersisted_ok|]. split; [done|]. by left.
  - destruct (ve_nifm e) eqn:En; [right|by left]. cbn [negb].
    pose proof (draw_octets_ok 64 (ve_rnd e) Hr) as Hd. unfold GenerateVirtualOctets.
    destruct (draw_octets 64 (ve_rnd e)) as [c d]. exists c, d. repeat split; try done; try apply Hd. by right.
Qed.

(** ** Properties: the virtual address *)

(** C28: Once an address can be stored it is the console's for good: whatever is
    drawn or answered later, the same text is returned and the file stays; the
    address is 10.13.c.d outside the reserved bands. *)
Theorem GetVirtualIp_stable e file :
  Forall (fun p => is_u8 p.1 /\ is_u8 p.2) (ve_rnd e) ->
  ReadPersistedVirtualOctets file <> None \/
  (ve_nifm e = true /\ ve_create e = true /\ ve_write e = true) ->
  let '(ip, file') := GetVirtualIp e file 16 in
  (exists c d, octets_ok c d /\ ParseIp ip = virtual_ip c d /\ IsLanAddress (ParseIp ip) = true) /\
  forall e', GetVirtualIp e' file' 16 = (ip, file').
Proof.
  intros Hr Hp.
  assert (forall c d, octets_ok c d -> IsLanAddress (virtual_ip c d) = true) as Hlan.
  { intros c d (Hc & Hd & _). unfold IsLanAddress, LAN_NETWORK_MASK, LAN_NETWORK_BASE, virtual_ip.
    unfold is_u8 in *. change 0xFFFF0000 with (Z.shiftl (Z.ones 16) 16).
    replace (0x0A0D0000 + 256 * c + d) with (Z.lor (Z.shiftl 0x0A0D 16) (256 * c + d))
      by (rewrite lor_shiftl_add by lia; lia).
    rewrite Z.land_lor_distr_l, <- Z.shiftl_land, (Z.land_comm (256 * c + d)), land_shiftl_low by lia.
    done. }
  destruct (GetVirtualIp_cases e file Hr) as [(_ & Hn & Hf)|(c & d & Hok & E1 & Hcase)].
  { exfalso. destruct Hp as [?|(? & _)]; congruence. }
  destruct (GetVirtualIp e file 16) as [ip file']. cbn [fst snd] in *. subst ip.
  pose proof Hok as (Hc & Hd & _).
  split; [exists c, d; rewrite ParseIp_virtual by done; auto|].
  intros e'. unfold GetVirtualIp.
  destruct Hcase as [[Hf ->]|(Hf & _ & _ & ->)]; [by rewrite Hf|].
  destruct Hp as [?|(_ & Hcr & Hw)]; [done|].
  unfold PersistVirtualOctets. rewrite Hcr, Hw. cbn [negb]. by rewrite ReadPersisted_text.
Qed.

Definition demo_env (c d : Z) (ok : bool) : VipEnv := mkVipEnv true [(37, 4); (c, d)] true ok true.

Lemma GetVirtualIp_stable_witness :
  let '(ip, file') := GetVirtualIp (demo_env 7 9 true) None 16 in
  (exists c d, octets_ok c d /\ ParseIp ip = virtual_ip c d /\ IsLanAddress (ParseIp ip) = true) /\
  forall e', GetVirtualIp e' file' 16 = (ip, file').
Proof.
  apply (GetVirtualIp_stable (demo_env 7 9 true) None).
  - repeat apply Forall_cons_2; try apply Forall_nil_2; cbn; unfold is_u8; lia.
  - right. repeat split.
Defined.

(** ** Lemmas: starting *)
Section starting.
Context {W : Type} `{!TunnelSink W}.
Variable sendto : Z -> Z -> Z -> bytes -> W -> W * Z.
Variable sha1 : bytes -> bytes.
Variable SetLocalIp : Z -> W -> W.
Let Start := Start sendto sha1 SetLocalIp.

(** The server [Start] would use. *)
Definition selected (s : Sys W) : option SlpServer :=
  if (m_sel_index (s_rt s) <? 0) || (slpServersCount (s_servers s) <=? m_sel_index (s_rt s)) then None
  else slpServersGet (s_servers s) (m_sel_index (s_rt s)).

(** Whether the socket opens. *)
Definition opens (e : StartEnv) (srv : SlpServer) : option Z :=
  match se_resolve e (srv_host srv) with
  | None => None
  | Some ip => if (se_socket e <? 0) || negb (se_bound e) then None else Some ip
  end.

Lemma slpClientOpen_opens e srv c :
  slpClientOpen (se_resolve e) (se_socket e) (se_bound e) c (srv_host srv) (srv_port srv) =
  match opens e srv with
  | None => (c, false)
  | Some ip => (mkSlpClient (se_socket e) ip (srv_port srv) (take 127 (srv_host srv)) false []
                  (replicate 20 0), true)
  end.
Proof.
  unfold slpClientOpen, opens. destruct (se_resolve e _); [|done].
  destruct (se_socket e <? 0); [done|]. by destruct (se_bound e).
Qed.

(** The credentials are set, then wiped by the open. *)
Definition opened_client (e : StartEnv) (srv : SlpServer) (ip : Z) : SlpClient :=
  mkSlpClient (se_socket e) ip (srv_port srv) (take 127 (srv_host srv)) false [] (replicate 20 0).

(** [Start] branch by branch. *)
Lemma Start_eq e (s : Sys W) :
  Start e s =
  if m_state (s_rt s) =? SLPCFG_STATE_RUNNING then (s, true)
  else match selected s with
       | None => (s, false)
       | Some srv =>
           match opens e srv with
           | None => (set_rt s (set_client (s_rt s)
                       (slpClientSetCredentials sha1 (m_client (s_rt s)) (Some (srv_username srv))
                          (Some (srv_password srv)))), false)
           | Some ip => Start_opened sendto SetLocalIp e srv
                          (set_rt s (set_client (s_rt s) (opened_client e srv ip)))
           end
       end.
Proof.
  unfold Start, Runtime.Start, selected. destruct (_ =? _); [done|]. destruct (_ || _); [done|].
  destruct (slpServersGet _ _) as [srv|]; [|done]. rewrite slpClientOpen_opens.
  by destruct (opens e srv).
Qed.

Lemma slpClientClose_ip c : c_server_ip (slpClientClose c) = c_server_ip c.
Proof. unfold slpClientClose. by destruct (_ <=? _). Qed.

(** What [Start_opened] leaves. *)
Lemma Start_opened_spec e srv (s : Sys W) :
  let '(s', ok) := Start_opened sendto SetLocalIp e srv s in
  ok = se_thread e /\ s_servers s' = s_servers s /\
  m_sel_index (s_rt s') = m_sel_index (s_rt s) /\
  m_ip (s_rt s') = (GetVirtualIp (se_vip e) (s_vid s) 16).1 /\
  m_relay_ip (s_rt s') = c_server_ip (m_client (s_rt s)) /\
  m_thread_running (s_rt s') = ok /\ m_stop_event (s_rt s') = false /\
  m_state (s_rt s') = (if ok then SLPCFG_STATE_RUNNING else m_state (s_rt s)) /\
  m_client (s_rt s') = (if ok then m_client (s_rt s) else slpClientClose (m_client (s_rt s))) /\
  s_tun s' = (RefreshLocalIp (s_tun s)
    (GetVirtualIp (se_vip_tun e) (GetVirtualIp (se_vip e) (s_vid s) 16).2 16).1).1.
Proof.
  unfold Start_opened. destruct (slpClientSendPing _ _ _ _) as [w b].
  destruct (GetVirtualIp (se_vip e) (s_vid s) 16) as [ip vid]. unfold Start_refresh. cbn [s_vid s_tun fst snd].
  destruct (GetVirtualIp (se_vip_tun e) vid 16) as [ip2 vid2]. cbn [fst].
  destruct (RefreshLocalIp (s_tun s) ip2) as [t fresh].
  destruct (se_thread e); cbn; rewrite ?slpClientClose_ip; auto 12.
Qed.

Lemma RefreshLocalIp_inv t ip : tun_inv t -> tun_inv (RefreshLocalIp t ip).1.
Proof. unfold RefreshLocalIp. by destruct (_ || _). Qed.

Lemma slpClientClose_fd c : c_fd (slpClientClose c) < 0.
Proof. unfold slpClientClose. destruct (0 <=? c_fd c) eqn:E; cbn; lia. Qed.

End starting.

(** ** The invariant *)
Section invariant.
Context {W : Type}.

(** Running exactly with an open socket, a thread and no login; stopped exactly
    without a socket; the table and the fragment buffers in order. *)
Record sys_inv (s : Sys W) : Prop := {
  inv_servers : Forall server_ok (s_servers s) /\ (length (s_servers s) <= SLPCFG_MAX_SERVERS)%nat;
  inv_tun : tun_inv (s_tun s);
  inv_state :
    (m_state (s_rt s) = SLPCFG_STATE_RUNNING /\ m_thread_running (s_rt s) = true /\
     0 <= c_fd (m_client (s_rt s)) /\ c_has_credentials (m_client (s_rt s)) = false) \/
    (m_state (s_rt s) = SLPCFG_STATE_STOPPED /\ m_thread_running (s_rt s) = false /\
     c_fd (m_client (s_rt s)) < 0);
}.

Lemma Runtime_init_inv vid (w : W) : sys_inv (mkSys Runtime_init [] vid TunState_init w).
Proof. constructor; cbn; [split; [done|lia]|apply tun_inv_init|by right]. Qed.

Lemma ReloadServers_inv file (s : Sys W) : sys_inv s -> sys_inv (ReloadServers file s).1.
Proof.
  intros [Hs Ht Hst]. unfold ReloadServers. destruct (ReadConfigText file 4096) as [text|]; [|done].
  cbn [fst]. constructor; cbn [s_servers s_tun s_rt]; [|done|].
  - apply parse_lines_ok; [done|cbn; lia].
  - by destruct (_ || _).
Qed.

Lemma SelectServer_inv i (s : Sys W) : sys_inv s -> sys_inv (SelectServer i s).1.
Proof. intros [Hs Ht Hst]. unfold SelectServer. destruct (_ <=? _); by constructor. Qed.

Lemma Stop_inv (s : Sys W) : sys_inv s -> sys_inv (Stop s).
Proof.
  intros [Hs Ht Hst]. unfold Stop. destruct (_ =? _); cbn [negb]; [|by constructor].
  constructor; cbn [s_servers s_tun s_rt m_state m_thread_running m_client]; [done| |].
  - destruct Ht as [Hl Hf]. split; cbn [OnStop set_frags g_frags]; [by rewrite length_fmap|].
    apply Forall_fmap. eapply Forall_impl; [|exact Hf]. by intros fe (? & ? & ? & ?).
  - right. split; [done|]. split; [done|apply slpClientClose_fd].
Qed.

End invariant.

Lemma Start_inv {W} `{!TunnelSink W} sendto sha1 SetLocalIp e (s : Sys W) : sys_inv s -> sys_inv (Start sendto sha1 SetLocalIp e s).1.
Proof.
  intros Hinv. pose proof Hinv as [Hs Ht Hst]. rewrite Start_eq.
  destruct (m_state (s_rt s) =? SLPCFG_STATE_RUNNING) eqn:Er; [done|].
  destruct (selected s) as [srv|]; [|done].
  destruct Hst as [(Hx & _)|(Hst & Hth & Hfd)]; [rewrite Hx in Er; done|].
  destruct (opens e srv) as [ip|] eqn:Eo.
  - pose proof (Start_opened_spec sendto SetLocalIp e srv (set_rt s (set_client (s_rt s) (opened_client e srv ip)))) as H.
    destruct (Start_opened _ _ _ _ _) as [s' ok]. destruct H as (-> & H2 & _ & _ & _ & H6 & _ & H8 & H9 & H10).
    cbn [fst]. constructor; [by rewrite H2|rewrite H10; by apply RefreshLocalIp_inv|].
    rewrite H6, H8, H9. destruct (se_thread e); cbn; [left|right].
    + unfold opens in Eo. destruct (se_resolve e _); [|done]. destruct (_ || _) eqn:E; [done|].
      apply orb_false_iff in E. repeat split; [|lia..]. lia.
    + split; [done|]. split; [done|]. apply slpClientClose_fd.
  - constructor; [done|done|]. right. cbn. split; [done|]. split; [done|].
    unfold slpClientSetCredentials. by destruct (srv_username srv).
Qed.

(** ** Lemmas: one round of the loop *)
Section rounds.
Context {W : Type} `{!TunnelSink W}.
Variable sendto : Z -> Z -> Z -> bytes -> W -> W * Z.
Variable sha1 : bytes -> bytes.
Variable SetLocalIp : Z -> W -> W.
Variable Tick : W -> W.
Let round := RunLoop_round sendto sha1 Tick.
Let loop := RunLoop sendto sha1 Tick.

(** The client after a round: as it was, or on a fresh socket. *)
Definition client_next (i : Round) (c c' : SlpClient) : Prop :=
  c' = c \/ c' = (slpClientReopen (r_socket i) (r_bound i) c).1.

Lemma keepalive_frame i (l : LoopState) :
  let s := l_sys l in let s' := l_sys (keepalive sendto i l) in
  s_servers s' = s_servers s /\ s_tun s' = s_tun s /\ m_state (s_rt s') = m_state (s_rt s) /\
  m_thread_running (s_rt s') = m_thread_running (s_rt s) /\
  client_next i (m_client (s_rt s)) (m_client (s_rt s')).
Proof.
  unfold keepalive, client_next. destruct (_ <=? _); [|by auto 10].
  destruct (slpClientSendKeepalive _ _ _) as [w []]; cbn; [by auto 10|].
  destruct (3 <=? _); [|by auto 10]. destruct (slpClientReopen _ _ _); cbn; auto 10.
Qed.

Definition round_bytes (i : Round) : Prop := forall buf, r_recv i = Some buf -> is_bytes buf.

Lemma dispatch_ok i (s : Sys W) :
  tun_inv (s_tun s) -> round_bytes i ->
  exists s' c, dispatch sendto sha1 i s = Some (s', c) /\ tun_inv (s_tun s') /\
    s_servers s' = s_servers s /\ m_state (s_rt s') = m_state (s_rt s) /\
    m_thread_running (s_rt s') = m_thread_running (s_rt s) /\
    m_client (s_rt s') = m_client (s_rt s).
Proof.
  intros Ht Hb. unfold dispatch. destruct (slpClientRecv _) as [[buf type]|] eqn:Er; [|eauto 12].
  assert (is_bytes buf) as Hbuf.
  { unfold slpClientRecv in Er. destruct (r_recv i) as [d|] eqn:E; [|done]. cbn [option_map] in Er.
    destruct (take 2048 d) eqn:Ed; [done|]. injection Er as <- _. rewrite <- Ed. apply Forall_take. by apply Hb. }
  destruct (type =? SLP_TYPE_PING); [eauto 12|].
  destruct (type =? SLP_TYPE_AUTH_ME).
  { destruct (slpClientHandleAuthMe _ _ _ _ _) as [w b]. eexists _, _; split; [reflexivity|]. auto 12. }
  destruct (1 <? length buf)%nat; [|eexists _, _; split; [reflexivity|]; auto 12].
  destruct (OnFrame_safe W _ (s_tun (count_rx s)) (r_tick1 i) (r_tick2 i) type (drop 1 buf)
              (s_world (count_rx s))) as (t' & w' & -> & Ht'); [done|by apply Forall_drop|].
  cbn [mbind option_bind]. eexists _, _; split; [reflexivity|]. auto 12.
Qed.

Lemma round_ok i (l : LoopState) :
  tun_inv (s_tun (l_sys l)) -> round_bytes i ->
  exists l' stop, round i l = Some (l', stop) /\ tun_inv (s_tun (l_sys l')) /\
    s_servers (l_sys l') = s_servers (l_sys l) /\
    m_state (s_rt (l_sys l')) = m_state (s_rt (l_sys l)) /\
    m_thread_running (s_rt (l_sys l')) = m_thread_running (s_rt (l_sys l)) /\
    m_client (s_rt (l_sys l')) = m_client (s_rt (l_sys (keepalive sendto i l))) /\
    l_last_keepalive l' = l_last_keepalive (keepalive sendto i l) /\
    l_fails l' = l_fails (keepalive sendto i l).
Proof.
  intros Ht Hb. destruct (keepalive_frame i l) as (K1 & K2 & K3 & K4 & _).
  unfold round, RunLoop_round. set (k := keepalive sendto i l) in *.
  destruct (dispatch_ok i (set_world (l_sys k) (Tick (s_world (l_sys k))))) as (s' & c & -> & H1 & H2 & H3 & H4 & H5).
  { cbn. by rewrite K2. } { done. }
  cbn [mbind option_bind]. eexists _, _; split; [reflexivity|]. cbn [l_sys l_last_keepalive l_fails].
  rewrite H2, H3, H4, H5. cbn. auto 12.
Qed.

Lemma client_next_inv i c c' :
  client_next i c c' -> 0 <= c_fd c ->
  0 <= c_fd c' /\ c_has_credentials c' = c_has_credentials c.
Proof using Type.
  clear round loop.
  intros [-> | ->] Hc; [done|]. unfold slpClientReopen. destruct (_ || _); [done|].
  destruct (r_socket i <? 0) eqn:E; [done|]. destruct (negb _); [done|]. cbn. split; [lia|done].
Qed.

(** ** Histories of the runtime *)
Inductive rt_step : Sys W -> Sys W -> Prop :=
| step_reload file s : rt_step s (ReloadServers file s).1
| step_select i s : rt_step s (SelectServer i s).1
| step_start e s : rt_step s (Start sendto sha1 SetLocalIp e s).1
| step_stop s : rt_step s (Stop s)
| step_round i s last fails l' stop :
    m_thread_running (s_rt s) = true -> round_bytes i ->
    round i (mkLoop s last fails) = Some (l', stop) -> rt_step s (l_sys l').

Lemma rt_step_inv s s' : sys_inv s -> rt_step s s' -> sys_inv s'.
Proof.
  intros Hinv. destruct 1 as [file s|i s|e s|s|i s last fails l' stop Hrun Hb Hr].
  - by apply ReloadServers_inv.
  - by apply SelectServer_inv.
  - by apply Start_inv.
  - by apply Stop_inv.
  - destruct Hinv as [Hs Ht Hst].
    destruct (round_ok i (mkLoop s last fails) Ht Hb) as (l2 & st & E & H1 & H2 & H3 & H4 & H5 & _).
    rewrite Hr in E. injection E as <- <-. cbn [l_sys] in *.
    constructor; [by rewrite H2|done|]. rewrite H3, H4, H5.
    destruct Hst as [(S1 & S2 & S3 & S4)|(_ & S2 & _)]; [|congruence]. left.
    destruct (keepalive_frame i (mkLoop s last fails)) as (_ & _ & _ & _ & Hc).
    apply client_next_inv in Hc as [Hc1 Hc2]; [|done]. cbn [l_sys] in *. rewrite Hc2. done.
Qed.

Lemma rt_reach_inv s s' : sys_inv s -> rtc rt_step s s' -> sys_inv s'.
Proof. intros H Hr. induction Hr; [done|]. eauto using rt_step_inv. Qed.

(** ** Properties *)

(** Over every history of reloads, selections, starts, stops and rounds of
    the receive loop, whatever the relay sends: the runtime is running exactly
    with a thread and an open socket and stopped exactly without either, so no
    socket is opened over another; the server table and the reassembly buffers
    keep their shape, and while running every round ends without leaving a buffer. *)
Theorem runtime_invariant vid w s :
  rtc rt_step (mkSys Runtime_init [] vid TunState_init w) s ->
  sys_inv s /\
  forall i last fails, round_bytes i -> exists l' stop, round i (mkLoop s last fails) = Some (l', stop).
Proof.
  intros Hr. apply rt_reach_inv in Hr; [|apply Runtime_init_inv]. split; [done|].
  intros i last fails Hb. destruct Hr as [_ Ht _].
  destruct (round_ok i (mkLoop s last fails) Ht Hb) as (l' & st & E & _). by exists l', st.
Qed.

(** C31: A relay that asks for a login is never answered: [Start] sets the
    credentials of the server before it opens the client, which wipes them, so
    in no reachable running state does a challenge send anything. *)
Theorem login_never_answered vid w s payload w' :
  rtc rt_step (mkSys Runtime_init [] vid TunState_init w) s ->
  m_state (s_rt s) = SLPCFG_STATE_RUNNING ->
  slpClientHandleAuthMe sendto sha1 (m_client (s_rt s)) payload w' = (w', false).
Proof.
  intros Hr Hst. apply rt_reach_inv in Hr; [|apply Runtime_init_inv].
  destruct Hr as [_ _ [(_ & _ & _ & Hc)|(Hx & _)]]; [|rewrite Hx in Hst; done].
  unfold slpClientHandleAuthMe. rewrite Hc. destruct payload as [|a ch]; [done|].
  by destruct (negb (a =? 0)).
Qed.
End rounds.

Section start_properties.
Context {W : Type} `{!TunnelSink W}.
Variable sendto : Z -> Z -> Z -> bytes -> W -> W * Z.
Variable sha1 : bytes -> bytes.
Variable SetLocalIp : Z -> W -> W.
Let Start := Start sendto sha1 SetLocalIp.


(** When the chosen address cannot be stored, the console has two
    identities: [Start] draws one address for itself and the tunnel draws
    another, so the address shown is not the one the tunnel sends from. *)
Theorem Start_two_identities e (s : Sys W) s' :
  Forall (fun p => is_u8 p.1 /\ is_u8 p.2) (ve_rnd (se_vip e)) ->
  Forall (fun p => is_u8 p.1 /\ is_u8 p.2) (ve_rnd (se_vip_tun e)) ->
  m_state (s_rt s) = SLPCFG_STATE_STOPPED -> Start e s = (s', true) ->
  ReadPersistedVirtualOctets (s_vid s) = None ->
  ve_nifm (se_vip e) = true -> ve_nifm (se_vip_tun e) = true ->
  ve_create (se_vip e) = false ->
  GenerateVirtualOctets (ve_rnd (se_vip e)) <> GenerateVirtualOctets (ve_rnd (se_vip_tun e)) ->
  ParseIp (m_ip (s_rt s')) <> g_local_ip (s_tun s').
Proof.
  intros R1 R2 Hst Hs Hf N1 N2 C1 Hd. unfold Start in Hs. rewrite Start_eq, Hst in Hs.
  change (SLPCFG_STATE_STOPPED =? SLPCFG_STATE_RUNNING) with false in Hs.
  destruct (selected s) as [srv|]; [|done]. destruct (opens e srv) as [ip|]; [|done].
  pose proof (Start_opened_spec sendto SetLocalIp e srv (set_rt s (set_client (s_rt s) (opened_client e srv ip)))) as H.
  rewrite Hs in H. destruct H as (_ & _ & _ & H4 & _ & _ & _ & _ & _ & H10).
  cbn [set_rt s_vid s_tun] in H4, H10. rewrite H4, H10. clear H4 H10 Hs.
  destruct (GetVirtualIp_cases (se_vip e) (s_vid s) R1) as [(_ & X & _)|(c1 & d1 & O1 & E1 & [(X & _)|(_ & _ & G1 & F1)])];
    [congruence|congruence|].
  set (file := (GetVirtualIp (se_vip e) (s_vid s) 16).2) in *.
  assert (ReadPersistedVirtualOctets file = None) as Hf2.
  { rewrite F1. unfold PersistVirtualOctets. rewrite C1. cbn [negb]. by destruct (ve_delete _). }
  destruct (GetVirtualIp_cases (se_vip_tun e) file R2) as [(_ & X & _)|(c2 & d2 & O2 & E2 & [(X & _)|(_ & _ & G2 & _)])];
    [congruence|congruence|].
  rewrite E1, E2. rewrite <- G1, <- G2 in Hd.
  destruct O1 as (A1 & A2 & _), O2 as (B1 & B2 & _). rewrite ParseIp_virtual by done.
  assert (virtual_ip c1 d1 <> virtual_ip c2 d2) as Hne.
  { unfold virtual_ip, is_u8 in *. intros E. apply Hd. f_equal; lia. }
  unfold RefreshLocalIp. rewrite ParseIp_virtual by done.
  destruct ((virtual_ip c2 d2 =? 0) || (virtual_ip c2 d2 =? g_local_ip (s_tun s))) eqn:E; [|done]. cbn [fst].
  apply orb_true_iff in E as [E|E]; [unfold virtual_ip, is_u8 in *; lia|].
  apply Z.eqb_eq in E. by rewrite <- E.
Qed.
End start_properties.

(** ** Other properties of the runtime *)
(** The relay counts as local exactly in 10/8, 172.16/12, 192.168/16 and
    169.254/16, read from the address in network order; an unset address never. *)
Theorem RelayOnLocalNetwork_ranges rt ip :
  is_u32 ip -> m_relay_ip rt = bswap32 ip ->
  RelayOnLocalNetwork rt = true <->
  0x0A000000 <= ip <= 0x0AFFFFFF \/ 0xAC100000 <= ip <= 0xAC1FFFFF \/
  0xC0A80000 <= ip <= 0xC0A8FFFF \/ 0xA9FE0000 <= ip <= 0xA9FEFFFF.
Proof.
  intros Hip Hr. unfold RelayOnLocalNetwork. rewrite Hr, bswap32_bswap32 by done.
  assert ((bswap32 ip =? 0) = (ip =? 0)) as ->.
  { destruct (ip =? 0) eqn:E; [apply Z.eqb_eq in E as ->; done|].
    apply Z.eqb_neq. intros Hb. apply Z.eqb_neq in E. apply E.
    rewrite <- (bswap32_bswap32 ip), Hb by done. done. }
  change 0xFF with (Z.ones 8). change 0xFFFF with (Z.ones 16).
  change 0xFFF0 with (Z.shiftl (Z.ones 12) 4).
  rewrite !Z.land_ones, !Z.shiftr_div_pow2 by lia.
  assert (forall x, 0 <= x < 65536 -> Z.land x (Z.shiftl (Z.ones 12) 4) = x / 16 * 16) as Hm.
  { intros x Hx. transitivity (Z.shiftl (Z.shiftr x 4) 4).
    - apply Z.bits_inj'. intros n Hn. rewrite Z.land_spec, !Z.shiftl_spec by lia.
      destruct (decide (n < 4)); [rewrite !(Z.testbit_neg_r _ (n - 4)) by lia; apply andb_false_r|].
      rewrite Z.shiftr_spec by lia. replace (n - 4 + 4) with n by lia.
      destruct (decide (n < 16)); [rewrite Z.ones_spec_low by lia; apply andb_true_r|].
      rewrite <- (Z.mod_small x (2 ^ 16)) by lia. by rewrite Z.mod_pow2_bits_high by lia.
    - rewrite Z.shiftl_mul_pow2, Z.shiftr_div_pow2 by lia. done. }
  rewrite Hm by (apply Z.mod_pos_bound; lia). unfold is_u32 in Hip. clear Hm Hr.
  change (2 ^ 24) with 16777216; change (2 ^ 16) with 65536; change (2 ^ 8) with 256.
  repeat case_match; split; intros; try done; Z.to_euclidean_division_equations; lia.
Qed.

Lemma RelayOnLocalNetwork_ranges_witness :
  RelayOnLocalNetwork (mkRuntime 0 0 [] [] (bswap32 0xC0A80101) (m_client Runtime_init) false false 0 0) = true <->
  0x0A000000 <= 0xC0A80101 <= 0x0AFFFFFF \/ 0xAC100000 <= 0xC0A80101 <= 0xAC1FFFFF \/
  0xC0A80000 <= 0xC0A80101 <= 0xC0A8FFFF \/ 0xA9FE0000 <= 0xC0A80101 <= 0xA9FEFFFF.
Proof. apply RelayOnLocalNetwork_ranges; [unfold is_u32; lia|reflexivity]. Defined.

(** The selection accepts every index below the count, and every index whose
    cast to [int] is negative. *)
Lemma SelectServer_spec {W} (s : Sys W) i :
  is_u32 i -> (length (s_servers s) <= SLPCFG_MAX_SERVERS)%nat ->
  (SelectServer i s).2 = true <-> i < slpServersCount (s_servers s) \/ 2 ^ 31 <= i.
Proof.
  intros Hi Hl. unfold SelectServer, slpServersCount, SLPCFG_MAX_SERVERS in *. unfold s32.
  rewrite u32_id by done. unfold is_u32 in Hi. change (2 ^ 31) with 2147483648. change (2 ^ 32) with 4294967296.
  destruct (i <? 2147483648) eqn:E; destruct (_ <=? _) eqn:E2; cbn; split; intros; try done; lia.
Qed.

(** ** Recovery from a lost relay *)

(** Rounds come at most [gap] milliseconds after each other; none is a stop. *)
Fixpoint paced (gap t : Z) (rounds : list Round) : Prop :=
  match rounds with
  | [] => True
  | i :: rounds =>
      t <= r_now i <= t + gap /\ r_running i = true /\ r_stop i = false /\ round_bytes i /\
      0 <= r_socket i /\ r_bound i = true /\ paced gap (r_now i) rounds
  end.

Section recovery.
Context {W : Type} `{!TunnelSink W}.
Variable sendto : Z -> Z -> Z -> bytes -> W -> W * Z.
Variable sha1 : bytes -> bytes.
Variable Tick : W -> W.
Let round := RunLoop_round sendto sha1 Tick.
Let loop := RunLoop sendto sha1 Tick.
(** The socket whose sends fail. *)
Variable lost : Z.

Lemma keepalive_not_due i l :
  r_now i - l_last_keepalive l < KeepaliveIntervalMs -> keepalive sendto i l = l.
Proof using Type.
  clear round loop lost. intros H. unfold keepalive. by replace (_ <=? _) with false by lia. Qed.

Hypothesis sends_fail : forall ip port buf w, (sendto lost ip port buf w).2 = -1.

Lemma keepalive_fails i (l : LoopState) :
  KeepaliveIntervalMs <= r_now i - l_last_keepalive l -> c_fd (m_client (s_rt (l_sys l))) = lost ->
  let c := m_client (s_rt (l_sys l)) in
  let k := keepalive sendto i l in
  l_last_keepalive k = r_now i /\
  (if 3 <=? l_fails l + 1
   then l_fails k = 0 /\ m_client (s_rt (l_sys k)) = (slpClientReopen (r_socket i) (r_bound i) c).1
   else l_fails k = l_fails l + 1 /\ m_client (s_rt (l_sys k)) = c).
Proof.
  intros Hd Hfd. unfold keepalive. replace (_ <=? r_now i - _) with true by lia.
  unfold slpClientSendKeepalive, slpClientSendRaw. rewrite Hfd.
  pose proof (sends_fail (c_server_ip (m_client (s_rt (l_sys l)))) (c_server_port (m_client (s_rt (l_sys l))))
                slpFrameKeepalive (s_world (l_sys l))) as Hs.
  destruct (sendto _ _ _ _ _) as [w n]. cbn [snd] in Hs. subst n.
  change (-1 =? Z.of_nat (length slpFrameKeepalive)) with false. cbn [set_world s_rt].
  destruct (3 <=? l_fails l + 1); [|done]. by destruct (slpClientReopen _ _ _).
Qed.

Lemma recovery_induction gap rounds t (l : LoopState) :
  0 <= gap -> tun_inv (s_tun (l_sys l)) ->
  c_fd (m_client (s_rt (l_sys l))) = lost ->
  c_server_ip (m_client (s_rt (l_sys l))) <> 0 -> c_server_port (m_client (s_rt (l_sys l))) <> 0 ->
  0 <= l_fails l < 3 -> t - l_last_keepalive l < KeepaliveIntervalMs ->
  paced gap t rounds ->
  (exists i, i ∈ rounds /\
     l_last_keepalive l + (3 - l_fails l) * (KeepaliveIntervalMs + gap) <= r_now i) ->
  exists before i after l1 l2,
    rounds = before ++ i :: after /\ loop before l = Some l1 /\ round i l1 = Some (l2, false) /\
    c_fd (m_client (s_rt (l_sys l2))) = r_socket i /\ l_fails l2 = 0.
Proof.
  intros Hg. revert t l; induction rounds as [|i rounds IH]; intros t l Ht Hfd Hip Hport Hf Hlast Hp (z & Hz & Hdl);
    [by apply elem_of_nil in Hz|].
  destruct Hp as (Hnow & Hrun & Hstop & Hb & Hsock & Hbound & Hp).
  destruct (round_ok sendto sha1 Tick i l Ht Hb) as (l' & stop & E & H1 & H2 & H3 & H4 & H5 & H6 & H7).
  assert (stop = false) as ->.
  { unfold RunLoop_round in E. destruct (dispatch _ _ _ _) as [[s' c]|]; [|done]. cbn [mbind option_bind] in E.
    injection E as _ <-. rewrite Hstop. apply andb_false_r. }
  assert (forall l2 before i' after l1, rounds = before ++ i' :: after -> loop before l' = Some l1 ->
            round i' l1 = Some (l2, false) -> c_fd (m_client (s_rt (l_sys l2))) = r_socket i' -> l_fails l2 = 0 ->
            exists before0 i0 after0 l1' l2', i :: rounds = before0 ++ i0 :: after0 /\ loop before0 l = Some l1' /\
              round i0 l1' = Some (l2', false) /\ c_fd (m_client (s_rt (l_sys l2'))) = r_socket i0 /\
              l_fails l2' = 0) as Hcons.
  { intros l2 before i' after l1 -> Hl Hr Hc Hl2. exists (i :: before), i', after, l1, l2.
    split; [done|]. split; [|done]. unfold loop. cbn [RunLoop]. rewrite Hrun. cbn [negb].
    rewrite E. done. }
  apply elem_of_cons in Hz.
  destruct (decide (KeepaliveIntervalMs <= r_now i - l_last_keepalive l)) as [Hdue|Hdue].
  - destruct (keepalive_fails i l Hdue Hfd) as [K1 K2].
    destruct (3 <=? l_fails l + 1) eqn:E3.
    + destruct K2 as [K2 K3]. exists [], i, rounds, l, l'. split; [done|]. split; [done|]. split; [done|].
      rewrite H5, K3, H7, K2. split; [|done]. unfold slpClientReopen.
      replace (_ || _) with false by lia. replace (r_socket i <? 0) with false by lia. by rewrite Hbound.
    + destruct K2 as [K2 K3]. destruct Hz as [->|Hz].
      { unfold KeepaliveIntervalMs in *. exfalso. nia. }
      destruct (IH (r_now i) l') as (before & i' & after & l1 & l2 & ? & ? & ? & ? & ?); eauto;
        rewrite ?H5, ?H6, ?H7, ?K1, ?K2, ?K3; try done; unfold KeepaliveIntervalMs in *; [lia|lia|].
      exists z. split; [done|nia].
  - rewrite keepalive_not_due in H5, H6, H7 by lia. destruct Hz as [->|Hz].
    { unfold KeepaliveIntervalMs in *. exfalso. nia. }
    destruct (IH (r_now i) l') as (before & i' & after & l1 & l2 & ? & ? & ? & ? & ?); eauto;
      rewrite ?H5, ?H6, ?H7; try done; [lia|]. by exists z.
Qed.
End recovery.


(** ** Concrete runs *)
Definition demo_sendto (ok : bool) (fd ip port : Z) (buf : bytes) (w : list Delivered)
    : list Delivered * Z := (w, if ok then Z.of_nat (length buf) else -1).
Definition demo_config : option bytes := Some (format_servers [mkServer [97] [98] 11451 [99] [100]]).
Definition demo_sys0 : Sys (list Delivered) := mkSys Runtime_init [] None TunState_init [].
Definition demo_sys1 : Sys (list Delivered) := (ReloadServers demo_config demo_sys0).1.
Definition demo_start (create : bool) : StartEnv :=
  mkStartEnv (fun _ => Some 0x01020304) 5 true (demo_env 7 9 create) (demo_env 8 9 create) true.
Definition demo_sys2 (create : bool) : Sys (list Delivered) :=
  (Start (demo_sendto true) id (fun _ w => w) (demo_start create) demo_sys1).1.

Lemma demo_reach create : rtc (rt_step (demo_sendto true) id (fun _ w => w) (fun w => w)) demo_sys0 (demo_sys2 create).
Proof.
  eapply rtc_l; [apply (step_reload _ _ _ _ demo_config)|].
  apply rtc_once. apply step_start.
Qed.

Lemma runtime_invariant_witness :
  sys_inv (demo_sys2 true) /\
  forall i last fails, round_bytes i ->
    exists l' stop, RunLoop_round (demo_sendto true) id (fun w => w) i (mkLoop (demo_sys2 true) last fails) = Some (l', stop).
Proof.
  apply (runtime_invariant (demo_sendto true) id (fun _ w => w) (fun w => w) None []). apply demo_reach.
Defined.

Lemma login_never_answered_witness :
  slpClientHandleAuthMe (demo_sendto true) id (m_client (s_rt (demo_sys2 true))) [0; 1; 2; 3] [] = ([], false).
Proof.
  apply (login_never_answered (demo_sendto true) id (fun _ w => w) (fun w => w) None []).
  - apply demo_reach.
  - vm_compute. reflexivity.
Defined.

Lemma demo_sys1_inv : sys_inv demo_sys1.
Proof. apply ReloadServers_inv, Runtime_init_inv. Qed.


Lemma Start_two_identities_witness :
  ParseIp (m_ip (s_rt (demo_sys2 false))) <> g_local_ip (s_tun (demo_sys2 false)).
Proof.
  assert (Forall (fun p : Z * Z => is_u8 p.1 /\ is_u8 p.2) [(37, 4); (7, 9)] /\
          Forall (fun p : Z * Z => is_u8 p.1 /\ is_u8 p.2) [(37, 4); (8, 9)]) as [R1 R2]
    by (split; repeat apply Forall_cons_2; try apply Forall_nil_2; cbn; unfold is_u8; lia).
  apply (Start_two_identities (demo_sendto true) id (fun _ w => w) (demo_start false) demo_sys1 _ R1 R2);
    try reflexivity. vm_compute. congruence.
Defined.

Definition demo_round (k : Z) : Round := mkRound true k (9 + k) true None 0 0 false.

