(* ===== verification/ConfigService.v ===== *)
(** The service slp:cfg (slpcfg/slp_cfg_service.cpp) and its client in the overlay
    (overlay/source/slpcfg.c).

    A command carries its out buffers, the memory the client gave for each; an
    answer is [None] when the service writes outside one of them.  The transport
    is the framework's: a command sent is the command dispatched. *)
From S2P Require Import Prelude Bytes CText Servers ProxySocket SlpClient Tunnel Runtime.

Inductive CfgResult : Set := CfgOk | ResultInvalidRequestSize.
#[global] Instance CfgResult_eq_dec : EqDecision CfgResult.
Proof. solve_decision. Defined.

(** "0.1.0" *)
Definition CfgVersion : bytes := [48; 46; 49; 46; 48].

(** [strncpy] of at most [n - 1] characters into [n] zeros. *)
Definition zero_filled (n : nat) (s : bytes) : bytes :=
  let t := take (n - 1) (cstr s) in t ++ replicate (n - length t) 0.

(** [memcpy] of the first bytes of [buf], as many as fit in [out]. *)
Definition copy_fitting (buf out : bytes) : option bytes :=
  blit 0 (take (if (length out <? length buf)%nat then length out else length buf) buf) out.
Definition copy_ip (out ip : bytes) : option bytes := copy_fitting (zero_filled 16 ip) out.

Section service.
Context {W : Type} `{!TunnelSink W}.
Variable sendto : Z -> Z -> Z -> bytes -> W -> W * Z.
Variable sha1 : bytes -> bytes.
Variable SetLocalIp : Z -> W -> W.
Implicit Type s : Sys W.

(** ** The service *)
Definition ConfigService_GetVersion (version : bytes) : option bytes :=
  copy_fitting (zero_filled 32 CfgVersion) version.

Definition ConfigService_GetState (state sel_index ip : bytes) s : option (bytes * bytes * bytes) :=
  let st := u32 (m_state (s_rt s)) in
  let sel := u32 (m_sel_index (s_rt s)) in
  ip ← copy_ip ip (m_ip (s_rt s));
  state ← blit 0 (le_enc 4 st) state;
  sel_index ← blit 0 (le_enc 4 sel) sel_index;
  Some (state, sel_index, ip).

Definition cfg_result (b : bool) : CfgResult := if b then CfgOk else ResultInvalidRequestSize.
Definition ConfigService_SelectServer (index : Z) s : Sys W * CfgResult :=
  let '(s, b) := SelectServer index s in (s, cfg_result b).
Definition ConfigService_Start (e : StartEnv) s : Sys W * CfgResult :=
  let '(s, b) := Start sendto sha1 SetLocalIp e s in (s, cfg_result b).
Definition ConfigService_Stop s : Sys W * CfgResult := (Stop s, CfgOk).
Definition ConfigService_Reload (file : option bytes) s : Sys W * CfgResult :=
  ((ReloadServers file s).1, CfgOk).

(** The interface: what the surroundings answer comes with the command. *)
Inductive CfgCmd : Type :=
| CfgGetVersion (version : bytes)
| CfgGetState (state sel_index ip : bytes)
| CfgSelectServer (index : Z)
| CfgStart (e : StartEnv)
| CfgStop
| CfgReload (file : option bytes).

Definition cfg_run (c : CfgCmd) s : option (Sys W * CfgResult * list bytes) :=
  match c with
  | CfgGetVersion version => version ← ConfigService_GetVersion version; Some (s, CfgOk, [version])
  | CfgGetState state sel ip =>
      '(state, sel, ip) ← ConfigService_GetState state sel ip s; Some (s, CfgOk, [state; sel; ip])
  | CfgSelectServer index => let '(s, r) := ConfigService_SelectServer index s in Some (s, r, [])
  | CfgStart e => let '(s, r) := ConfigService_Start e s in Some (s, r, [])
  | CfgStop => let '(s, r) := ConfigService_Stop s in Some (s, r, [])
  | CfgReload file => let '(s, r) := ConfigService_Reload file s in Some (s, r, [])
  end.

(** ** The client *)
Definition slpCfgGetVersion (version : bytes) s : option (Sys W * CfgResult * bytes) :=
  '(s, r, bufs) ← cfg_run (CfgGetVersion version) s; version ← head bufs; Some (s, r, version).

(** The two numbers are variables of four bytes. *)
Definition slpCfgGetState (state selIndex : Z) (ip : bytes) s : option (Sys W * CfgResult * (Z * Z * bytes)) :=
  '(s, r, bufs) ← cfg_run (CfgGetState (le_enc 4 state) (le_enc 4 selIndex) ip) s;
  match bufs with
  | [state; sel; ip] => Some (s, r, (le_dec state, le_dec sel, ip))
  | _ => None
  end.
Definition cfg_call (c : CfgCmd) s : option (Sys W * CfgResult) := '(s, r, _) ← cfg_run c s; Some (s, r).
Definition slpCfgSelectServer (index : Z) s : option (Sys W * CfgResult) := cfg_call (CfgSelectServer index) s.
Definition slpCfgStart (e : StartEnv) s : option (Sys W * CfgResult) := cfg_call (CfgStart e) s.
Definition slpCfgStop s : option (Sys W * CfgResult) := cfg_call CfgStop s.
Definition slpCfgReload (file : option bytes) s : option (Sys W * CfgResult) := cfg_call (CfgReload file) s.
End service.
Arguments CfgCmd : clear implicits.

(** The numbers of the commands, in the service's interface and in the client. *)
Definition service_id (c : CfgCmd) : Z :=
  match c with
  | CfgGetVersion _ => 65000 | CfgGetState _ _ _ => 65001 | CfgSelectServer _ => 65002
  | CfgStart _ => 65003 | CfgStop => 65004 | CfgReload _ => 65005
  end.

(** ** Lemmas *)
Lemma zero_filled_length n s : length (zero_filled n s) = n.
Proof.
  unfold zero_filled. rewrite length_app, length_replicate.
  assert (length (take (n - 1) (cstr s)) <= n)%nat by (rewrite length_take; lia). lia.
Qed.

Lemma copy_fitting_spec buf out :
  copy_fitting buf out = Some (take (length out) buf ++ drop (length buf) out).
Proof.
  unfold copy_fitting, blit. destruct (length out <? length buf)%nat eqn:E.
  - apply Nat.ltb_lt in E. rewrite length_take, Nat.min_l, decide_True by lia. cbn [Nat.add]. rewrite take_0.
    by rewrite !drop_ge by lia.
  - apply Nat.ltb_ge in E. rewrite (take_ge buf (length buf)), (take_ge buf (length out)), decide_True by lia.
    cbn [Nat.add]. by rewrite take_0.
Qed.

Lemma blit_word v dst :
  blit 0 (le_enc 4 v) dst = if decide (4 <= length dst)%nat then Some (le_enc 4 v ++ drop 4 dst) else None.
Proof. unfold blit. rewrite le_enc_length. reflexivity. Qed.

(** What [GetState] writes, and when it stays inside the buffers. *)
Lemma GetState_eq {W} state sel ip (s : Sys W) :
  ConfigService_GetState state sel ip s =
  if decide (4 <= length state /\ 4 <= length sel)%nat then
    Some (le_enc 4 (u32 (m_state (s_rt s))) ++ drop 4 state,
          le_enc 4 (u32 (m_sel_index (s_rt s))) ++ drop 4 sel,
          take (length ip) (zero_filled 16 (m_ip (s_rt s))) ++ drop 16 ip)
  else None.
Proof.
  unfold ConfigService_GetState, copy_ip. rewrite copy_fitting_spec, zero_filled_length.
  cbn [mbind option_bind]. rewrite !blit_word.
  destruct (decide (4 <= length state)%nat); cbn [mbind option_bind].
  - destruct (decide (4 <= length sel)%nat); cbn [mbind option_bind].
    + by rewrite decide_True.
    + by rewrite decide_False by (intros []; done).
  - by rewrite decide_False by (intros []; done).
Qed.

Lemma slpCfgGetState_eq {W} `{!TunnelSink W} sendto sha1 SetLocalIp state selIndex ip (s : Sys W) :
  slpCfgGetState sendto sha1 SetLocalIp state selIndex ip s =
  Some (s, CfgOk, (u32 (m_state (s_rt s)), u32 (m_sel_index (s_rt s)),
                   take (length ip) (zero_filled 16 (m_ip (s_rt s))) ++ drop 16 ip)).
Proof.
  unfold slpCfgGetState. cbn [cfg_run]. rewrite GetState_eq, !le_enc_length.
  rewrite decide_True by lia. cbn [mbind option_bind].
  rewrite !drop_ge by (rewrite le_enc_length; lia). rewrite !app_nil_r.
  assert (forall x, 0 <= u32 x < 256 ^ Z.of_nat 4) as Hr by (intros x; apply u32_range).
  by rewrite !le_dec_enc by apply Hr.
Qed.

(** The state as the overlay sees it.  The client's buffers always suffice:
    it gets the runtime's state, the index of the selection as an unsigned number
    (2^32 - 1 for none) and the address as terminated text of at most 15
    characters, and the runtime is left as it was.  A caller with a buffer of less
    than four bytes for one of the numbers makes the service write outside it. *)
Theorem GetState_spec {W} `{!TunnelSink W} sendto sha1 SetLocalIp state selIndex ip (s : Sys W) :
  (slpCfgGetState sendto sha1 SetLocalIp state selIndex ip s =
     Some (s, CfgOk, (u32 (m_state (s_rt s)), u32 (m_sel_index (s_rt s)),
                      take (length ip) (zero_filled 16 (m_ip (s_rt s))) ++ drop 16 ip))) /\
  forall b1 b2 b3,
    cfg_run sendto sha1 SetLocalIp (CfgGetState b1 b2 b3) s = None <-> (length b1 < 4 \/ length b2 < 4)%nat.
Proof.
  split.
  - apply slpCfgGetState_eq.
  - intros b1 b2 b3. cbn [cfg_run]. rewrite GetState_eq. destruct (decide _) as [H|H]; cbn [mbind option_bind].
    + split; [done|]. lia.
    + split; [|done]. lia.
Qed.
