(* ===== verification/Overlay.v ===== *)
(** The overlay (overlay/source/main.cpp): what it keeps, what its buttons do and
    what a refresh reads, over its own server list (OverlayServers.v) and the
    client of slp:cfg (ConfigService.v).  OverlayPages.v has the pages. *)
From S2P Require Import Prelude Bytes CText Servers OverlayServers ProxySocket SlpClient Tunnel.
From S2P Require Import Runtime ConfigService.

(** The globals of main.cpp and the table of servers.c. *)
Record Overlay : Type := mkOverlay {
  g_servers : list OvServer;
  g_haveSvc : bool;
  g_version : bytes;
  g_state_val : Z;
  g_sel_val : Z;
  g_launch_enabled : bool;
}.
(** "?" *)
Definition Overlay_init : Overlay := mkOverlay [] false ([63; 0] ++ replicate 30 0) 0 0 false.

Definition set_state_sel (o : Overlay) (state sel : Z) : Overlay :=
  mkOverlay (g_servers o) (g_haveSvc o) (g_version o) state sel (g_launch_enabled o).
Definition set_launch (o : Overlay) (b : bool) : Overlay :=
  mkOverlay (g_servers o) (g_haveSvc o) (g_version o) (g_state_val o) (g_sel_val o) b.

(** What a refresh writes: the status line, and the current server, whose name is
    in the row and whose host is in the subtitle. *)
Inductive Status : Set := Stopped | Running (ip : bytes) | Unknown.
Inductive Display : Set :=
| Untouched
| ServiceLost
| Shown (status : Status) (server : option OvServer).

(** The overlay, the sysmodule it talks to, and whether boot2.flag exists. *)
Record Ui (W : Type) : Type := mkUi {
  u_overlay : Overlay;
  u_sys : Sys W;
  u_flag : bool;
}.
Arguments mkUi {W}. Arguments u_overlay {W}. Arguments u_sys {W}. Arguments u_flag {W}.

(** ** Connecting: whether the service is registered, and the two calls' success *)
Inductive CfgConnect : Set := SmFailed | NotInstalled | GetServiceFailed | Connected.
Definition slpCfgGetConfig (has_service : option bool) (got : bool) : CfgConnect :=
  match has_service with
  | None => SmFailed
  | Some false => NotInstalled
  | Some true => if got then Connected else GetServiceFailed
  end.

(** AtmosphereHasService, over TIPC or CMIF: the result and the answer's byte. *)
Definition slpAtmosphereHasService (at_least_12 : bool) (tipc cmif : Z * Z) : Z * bool :=
  let '(rc, tmp) := if at_least_12 then tipc else cmif in
  (rc, (rc =? 0) && negb (tmp =? 0)).

Definition ReadModuleLaunchFlag {W} (u : Ui W) : bool := u_flag u.

Section overlay.
Context {W : Type} `{!TunnelSink W}.
Variable sendto : Z -> Z -> Z -> bytes -> W -> W * Z.
Variable sha1 : bytes -> bytes.
Variable SetLocalIp : Z -> W -> W.
Implicit Types (s : Sys W) (u : Ui W) (o : Overlay).

Definition initServices (has_service : option bool) (got : bool) (file : option bytes) u : option (Ui W) :=
  let o := u_overlay u in
  let have := match slpCfgGetConfig has_service got with Connected => true | _ => false end in
  '(s, version) ←
    (if have then '(s, _, v) ← slpCfgGetVersion sendto sha1 SetLocalIp (g_version o) (u_sys u); Some (s, v)
     else Some (u_sys u, g_version o));
  Some (mkUi (mkOverlay (ov_slpServersLoad file (g_servers o)).1 have version (g_state_val o) (g_sel_val o)
                (ReadModuleLaunchFlag u)) s (u_flag u)).

(** The part of [refresh] that asks the sysmodule; [lost] when the call does not
    reach it. *)
Definition refresh (lost : bool) u : option (Ui W * Display) :=
  let o := u_overlay u in
  if negb (g_haveSvc o) then Some (u, Untouched)
  else if lost then Some (u, ServiceLost)
  else
    '(s, _, (state, sel, ip)) ← slpCfgGetState sendto sha1 SetLocalIp 0 0 (replicate 16 0) (u_sys u);
    let o := set_state_sel o state sel in
    let status :=
      if state =? 0 then Stopped
      else if state =? 1 then Running (cstr ip)
      else Unknown in
    Some (mkUi o s (u_flag u), Shown status (ov_slpServersGet (g_servers o) (s32 sel))).

(** The actions of the main page.  An action is up to three calls: the [k]-th one
    reaches the sysmodule when [k < calls], and no call's result is looked at. *)
Definition press (calls k : nat) (act : Sys W -> option (Sys W * CfgResult)) u : option (Ui W) :=
  if (k <? calls)%nat then '(s, _) ← act (u_sys u); Some (mkUi (u_overlay u) s (u_flag u))
  else Some u.
Definition button_start (calls k : nat) (e : StartEnv) : Ui W -> option (Ui W) :=
  press calls k (slpCfgStart sendto sha1 SetLocalIp e).
Definition button_stop (calls k : nat) : Ui W -> option (Ui W) :=
  press calls k (slpCfgStop sendto sha1 SetLocalIp).
Definition button_restart (calls k : nat) (e : StartEnv) u : option (Ui W) :=
  u ← button_stop calls k u; button_start calls (S k) e u.

(** A row of the server page. *)
Definition pick (calls : nat) (index : Z) (e : StartEnv) u : option (Ui W) :=
  if g_haveSvc (u_overlay u) then
    u ← press calls 0 (slpCfgSelectServer sendto sha1 SetLocalIp (u32 index)) u;
    u ← (if g_state_val (u_overlay u) =? 1 then button_restart calls 1 e u else Some u);
    Some (mkUi (set_state_sel (u_overlay u) (g_state_val (u_overlay u)) (u32 index)) (u_sys u) (u_flag u))
  else Some u.

(** [ReadModuleLaunchFlag] and [SetModuleLaunchEnabled]; [done] when the file
    could be created or removed. *)
Definition SetModuleLaunchEnabled (enable done : bool) u : Ui W :=
  let u := mkUi (u_overlay u) (u_sys u) (if (done : bool) then enable else u_flag u) in
  mkUi (set_launch (u_overlay u) (ReadModuleLaunchFlag u)) (u_sys u) (u_flag u).
Definition toggle (done : bool) u : Ui W :=
  SetModuleLaunchEnabled (negb (g_launch_enabled (u_overlay u))) done u.
End overlay.

(** ** Lemmas *)
Section lemmas.
Context {W : Type} `{!TunnelSink W}.
Variable sendto : Z -> Z -> Z -> bytes -> W -> W * Z.
Variable sha1 : bytes -> bytes.
Variable SetLocalIp : Z -> W -> W.
Implicit Types (s : Sys W) (u : Ui W).

Lemma refresh_eq u :
  g_haveSvc (u_overlay u) = true ->
  let rt := s_rt (u_sys u) in
  refresh sendto sha1 SetLocalIp false u =
  Some (mkUi (set_state_sel (u_overlay u) (u32 (m_state rt)) (u32 (m_sel_index rt))) (u_sys u) (u_flag u),
        Shown (if u32 (m_state rt) =? 0 then Stopped
               else if u32 (m_state rt) =? 1 then Running (cstr (zero_filled 16 (m_ip rt))) else Unknown)
          (ov_slpServersGet (g_servers (u_overlay u)) (s32 (u32 (m_sel_index rt))))).
Proof.
  intros Hh rt. unfold refresh. rewrite Hh. cbn [negb]. rewrite slpCfgGetState_eq. cbn [mbind option_bind].
  cbn [g_servers set_state_sel]. rewrite length_replicate, (take_ge (zero_filled _ _)) by (by rewrite zero_filled_length).
  rewrite drop_ge by (by rewrite length_replicate). by rewrite app_nil_r.
Qed.

Lemma Start_servers e s : s_servers (Start sendto sha1 SetLocalIp e s).1 = s_servers s.
Proof.
  rewrite Start_eq. destruct (_ =? _); [done|]. destruct (selected s) as [srv|]; [|done].
  destruct (opens e srv) as [ip|]; [|done].
  pose proof (Start_opened_spec sendto SetLocalIp e srv (set_rt s (set_client (s_rt s) (opened_client e srv ip)))) as H.
  destruct (Start_opened _ _ _ _ _). by destruct H as (_ & H & _).
Qed.
Lemma Stop_servers s : s_servers (Stop s) = s_servers s.
Proof. unfold Stop. by destruct (negb _). Qed.
Lemma Select_servers i s : s_servers (SelectServer i s).1 = s_servers s.
Proof. unfold SelectServer. by destruct (_ <=? _). Qed.

(** The actions are the calls of the runtime, as far as they reach it. *)
Definition reach (calls k : nat) (f : Sys W -> Sys W) s : Sys W := if (k <? calls)%nat then f s else s.
Definition started (e : StartEnv) s : Sys W := (Start sendto sha1 SetLocalIp e s).1.

Lemma button_start_eq calls k e u :
  button_start sendto sha1 SetLocalIp calls k e u =
  Some (mkUi (u_overlay u) (reach calls k (started e) (u_sys u)) (u_flag u)).
Proof.
  unfold button_start, press, reach, started, slpCfgStart, cfg_call. cbn [cfg_run]. unfold ConfigService_Start.
  destruct (_ <? _)%nat; [by destruct (Start _ _ _ _ _)|by destruct u].
Qed.
Lemma button_stop_eq calls k u :
  button_stop sendto sha1 SetLocalIp calls k u =
  Some (mkUi (u_overlay u) (reach calls k Stop (u_sys u)) (u_flag u)).
Proof. unfold button_stop, press, reach. by destruct (_ <? _)%nat, u. Qed.
Lemma button_restart_eq calls k e u :
  button_restart sendto sha1 SetLocalIp calls k e u =
  Some (mkUi (u_overlay u) (reach calls (S k) (started e) (reach calls k Stop (u_sys u))) (u_flag u)).
Proof. unfold button_restart. rewrite button_stop_eq. cbn [mbind option_bind]. apply button_start_eq. Qed.
Lemma pick_eq calls index e u :
  g_haveSvc (u_overlay u) = true ->
  let s1 := reach calls 0 (fun s => (SelectServer (u32 index) s).1) (u_sys u) in
  pick sendto sha1 SetLocalIp calls index e u =
  Some (mkUi (set_state_sel (u_overlay u) (g_state_val (u_overlay u)) (u32 index))
         (if g_state_val (u_overlay u) =? 1 then reach calls 2 (started e) (reach calls 1 Stop s1) else s1)
         (u_flag u)).
Proof.
  intros Hh s1. unfold pick. rewrite Hh.
  assert (press calls 0 (slpCfgSelectServer sendto sha1 SetLocalIp (u32 index)) u =
          Some (mkUi (u_overlay u) s1 (u_flag u))) as ->.
  { unfold press, slpCfgSelectServer, cfg_call, s1, reach. cbn [cfg_run]. unfold ConfigService_SelectServer.
    destruct (_ <? _)%nat; [by destruct (SelectServer _ _)|by destruct u]. }
  cbn [mbind option_bind u_overlay]. destruct (_ =? 1); [|done]. by rewrite button_restart_eq.
Qed.

(** What an action keeps of the system. *)
Definition sys_kept s s' : Prop := (sys_inv s -> sys_inv s') /\ s_servers s' = s_servers s.
Lemma reach_kept calls k f s : (forall s, sys_kept s (f s)) -> sys_kept s (reach calls k f s).
Proof. intros H. unfold reach. by destruct (_ <? _)%nat. Qed.
Lemma sys_kept_trans s1 s2 s3 : sys_kept s1 s2 -> sys_kept s2 s3 -> sys_kept s1 s3.
Proof. intros [A1 A2] [B1 B2]. split; [auto|congruence]. Qed.
Lemma started_kept e s : sys_kept s (started e s).
Proof. split; [apply Start_inv|apply Start_servers]. Qed.
Lemma Stop_kept s : sys_kept s (Stop s).
Proof. split; [apply Stop_inv|apply Stop_servers]. Qed.
Lemma SelectServer_kept i s : sys_kept s (SelectServer i s).1.
Proof. split; [apply SelectServer_inv|apply Select_servers]. Qed.

(** What every event keeps. *)
Definition kept u u' : Prop :=
  (sys_inv (u_sys u) -> sys_inv (u_sys u')) /\ s_servers (u_sys u') = s_servers (u_sys u) /\
  g_servers (u_overlay u') = g_servers (u_overlay u) /\ g_haveSvc (u_overlay u') = g_haveSvc (u_overlay u) /\
  (g_launch_enabled (u_overlay u) = u_flag u -> g_launch_enabled (u_overlay u') = u_flag u').
Lemma kept_refl u : kept u u.
Proof. by split_and!. Qed.
Lemma kept_trans u1 u2 u3 : kept u1 u2 -> kept u2 u3 -> kept u1 u3.
Proof. intros (A1 & A2 & A3 & A4 & A5) (B1 & B2 & B3 & B4 & B5). split_and!; auto; congruence. Qed.

Lemma kept_refresh lost u : exists u' d, refresh sendto sha1 SetLocalIp lost u = Some (u', d) /\ kept u u'.
Proof.
  destruct (g_haveSvc (u_overlay u)) eqn:Eh.
  - destruct lost.
    + exists u, ServiceLost. unfold refresh. rewrite Eh. split; [done|apply kept_refl].
    + rewrite refresh_eq by done. eexists _, _. split; [done|]. by split_and!.
  - exists u, Untouched. unfold refresh. rewrite Eh. split; [done|apply kept_refl].
Qed.
Lemma kept_sys u s : sys_kept (u_sys u) s -> kept u (mkUi (u_overlay u) s (u_flag u)).
Proof. intros []. by split_and!. Qed.

Lemma kept_start calls k e u : exists u', button_start sendto sha1 SetLocalIp calls k e u = Some u' /\ kept u u'.
Proof. rewrite button_start_eq. eexists. split; [done|]. apply kept_sys, reach_kept, started_kept. Qed.
Lemma kept_stop calls k u : exists u', button_stop sendto sha1 SetLocalIp calls k u = Some u' /\ kept u u'.
Proof. rewrite button_stop_eq. eexists. split; [done|]. apply kept_sys, reach_kept, Stop_kept. Qed.
Lemma kept_restart calls k e u :
  exists u', button_restart sendto sha1 SetLocalIp calls k e u = Some u' /\ kept u u'.
Proof.
  rewrite button_restart_eq. eexists. split; [done|]. apply kept_sys.
  eapply sys_kept_trans; [apply reach_kept, Stop_kept|apply reach_kept, started_kept].
Qed.
Lemma kept_toggle dn u : kept u (toggle dn u).
Proof. by split_and!. Qed.
Lemma kept_pick calls index e u :
  exists u', pick sendto sha1 SetLocalIp calls index e u = Some u' /\ kept u u'.
Proof.
  destruct (g_haveSvc (u_overlay u)) eqn:Eh; [|unfold pick; rewrite Eh; exists u; split; [done|apply kept_refl]].
  rewrite pick_eq by done. eexists. split; [done|]. set (s1 := reach calls 0 _ _).
  assert (sys_kept (u_sys u) s1) as K1 by apply reach_kept, SelectServer_kept.
  destruct (_ =? 1).
  - assert (sys_kept (u_sys u) (reach calls 2 (started e) (reach calls 1 Stop s1))) as [K2 K3].
    { eapply sys_kept_trans; [exact K1|].
      eapply sys_kept_trans; [apply reach_kept, Stop_kept|apply reach_kept, started_kept]. }
    by split_and!.
  - destruct K1. by split_and!.
Qed.
End lemmas.

(** ** Properties *)
Section properties.
Context {W : Type} `{!TunnelSink W}.
Variable sendto : Z -> Z -> Z -> bytes -> W -> W * Z.
Variable sha1 : bytes -> bytes.
Variable SetLocalIp : Z -> W -> W.
Implicit Types (s : Sys W) (u : Ui W).

Lemma selected_pick index s srv :
  (length (s_servers s) <= SLPCFG_MAX_SERVERS)%nat -> slpServersGet (s_servers s) index = Some srv ->
  (SelectServer (u32 index) s).1 = set_rt s (set_sel_index (s_rt s) index) /\
  selected (set_rt s (set_sel_index (s_rt s) index)) = Some srv.
Proof.
  intros Hl Hg. pose proof Hg as Hg'. unfold slpServersGet, slpServersCount, SLPCFG_MAX_SERVERS in Hg', Hl.
  destruct (_ || _) eqn:E; [done|]. apply orb_false_iff in E as [E1 E2].
  assert (s32 (u32 index) = index) as Ei.
  { unfold s32. rewrite !u32_id by (try apply u32_range; unfold is_u32; lia). replace (_ <? 2 ^ 31) with true by lia. done. }
  split.
  - unfold SelectServer. rewrite Ei. unfold slpServersCount. by rewrite E2.
  - unfold selected. cbn [s_rt set_rt set_sel_index m_sel_index s_servers]. unfold slpServersCount.
    by rewrite E1, E2.
Qed.

End properties.

(** ** A concrete pick *)
Definition demo_text : bytes := default [] Runtime.demo_config.
Definition demo_ui : Ui (list Delivered) :=
  mkUi (mkOverlay (ov_slpServersLoad (Some demo_text) []).1 true (zero_filled 32 CfgVersion) 1 0 false)
    (demo_sys2 true) false.

