(* ===== verification/OverlayPages.v ===== *)
(** The pages of the overlay (overlay/source/main.cpp): their rows, what is shown
    in them, what A does on each, the frame counter, and the stack of pages.

    Of libtesla the model has what the source relies on: a page is a list of rows
    with a label, a value that may be faint and a click handler, [changeTo] puts a
    page on the stack, [goBack] takes it off and the overlay ends with the last
    one, and only the top page gets frames and keys.  How rows are drawn and which
    one has the focus are not modelled: a press of A names its row. *)
From S2P Require Import Prelude Bytes CText Servers OverlayServers ProxySocket SlpClient Tunnel.
From S2P Require Import Runtime ConfigService Overlay.
From stdpp Require Import strings.
#[local] Open Scope Z_scope.

(** ** Rows and pages *)
Inductive Click : Set :=
| ClickStart | ClickStop | ClickRestart | ClickServers | ClickToggle | ClickPick (index : Z).

Record Item : Set := mkItem {
  it_header : bool;
  it_label : bytes;
  it_value : bytes;
  it_faint : bool;
  it_click : option Click;
}.
Definition ListItem (label : bytes) : Item := mkItem false label [] false None.
Definition CategoryHeader (label : bytes) : Item := mkItem true label [] false None.
Definition setValue (value : bytes) (faint : bool) (it : Item) : Item :=
  mkItem (it_header it) (it_label it) value faint (it_click it).
Definition setClickListener (c : Click) (it : Item) : Item :=
  mkItem (it_header it) (it_label it) (it_value it) (it_faint it) (Some c).

(** The main page; a pointer to one of its rows is the row's place. *)
Record MainGui : Set := mkMain {
  m_list : list Item;
  m_subtitle : bytes;
  m_status : option nat;
  m_launchToggle : option nat;
  m_serverRow : option nat;
  m_frameCount : Z;
}.
Definition addItem (it : Item) (g : MainGui) : MainGui :=
  mkMain (m_list g ++ [it]) (m_subtitle g) (m_status g) (m_launchToggle g) (m_serverRow g) (m_frameCount g).
Definition addItems (l : list Item) (g : MainGui) : MainGui := foldl (fun g it => addItem it g) g l.
Definition set_items (g : MainGui) (l : list Item) : MainGui :=
  mkMain l (m_subtitle g) (m_status g) (m_launchToggle g) (m_serverRow g) (m_frameCount g).
Definition set_subtitle (g : MainGui) (t : bytes) : MainGui :=
  mkMain (m_list g) t (m_status g) (m_launchToggle g) (m_serverRow g) (m_frameCount g).
(** [if (p != nullptr) p->setValue(...)] *)
Definition set_row (p : option nat) (value : bytes) (faint : bool) (g : MainGui) : MainGui :=
  match p with
  | Some k => set_items g (alter (setValue value faint) k (m_list g))
  | None => g
  end.

Definition server_addr (srv : OvServer) : bytes := ov_host srv ++ str ":" ++ dec (ov_port srv).
Definition SERVERS_CONF : bytes := str "sdmc:/config/slp-helper/servers.conf".
(** The dots of the selected row and of the subtitle, in UTF-8. *)
Definition dot : bytes := [226; 151; 143; 32].
Definition mid_dot : bytes := [32; 32; 194; 183; 32; 32].

(** ** The server page *)
Definition server_row (sel : Z) (i : nat) (srv : OvServer) : Item :=
  let selected := u32 (Z.of_nat i) =? sel in
  setClickListener (ClickPick (Z.of_nat i))
    (setValue ((if selected then dot else []) ++ server_addr srv) (negb selected) (ListItem (ov_name srv))).
Definition ServerGui_createUI (o : Overlay) : list Item :=
  let count := ov_slpServersCount (g_servers o) in
  if count =? 0 then [ListItem (str "no servers configured"); ListItem SERVERS_CONF]
  else
    CategoryHeader (str "Select a server")
      :: omap (fun i => server_row (g_sel_val o) i <$> ov_slpServersGet (g_servers o) (Z.of_nat i))
           (seq 0 (Z.to_nat (Z.min count (Z.of_nat SLPCFG_MAX_SERVERS)))).

(** ** The main page *)
Definition AddAction (label : bytes) (c : Click) : MainGui -> MainGui :=
  addItem (setClickListener c (ListItem label)).

Definition AddBootToggle (g : MainGui) : MainGui :=
  let g := addItem (CategoryHeader (str "Boot")) g in
  let p := length (m_list g) in
  let g := addItem (setClickListener ClickToggle (ListItem (str "Launch at boot"))) g in
  let g := addItem (ListItem (str "(reboot to apply)")) g in
  mkMain (m_list g) (m_subtitle g) (m_status g) (Some p) (m_serverRow g) (m_frameCount g).

(** [std::format "{:X}"] *)
Definition hex_digit (d : Z) : Z := if d <? 10 then 48 + d else 55 + d.
Fixpoint hex_digits (fuel : nat) (v : Z) (acc : bytes) : bytes :=
  match fuel with
  | O => acc
  | S fuel' =>
      let acc := hex_digit (v mod 16) :: acc in
      if v / 16 =? 0 then acc else hex_digits fuel' (v / 16) acc
  end.
Definition hex (v : Z) : bytes := hex_digits 8 v [].

Section app.
Context {W : Type} `{!TunnelSink W}.
Variable sendto : Z -> Z -> Z -> bytes -> W -> W * Z.
Variable sha1 : bytes -> bytes.
Variable SetLocalIp : Z -> W -> W.
(** [SLPCFG_RESULT_NOT_INSTALLED], built from two numbers of libnx. *)
Variable NOT_INSTALLED : Z.
Implicit Types (u : Ui W) (o : Overlay) (g : MainGui).

Definition BuildNotRunningUI (g_cfg_error : Z) (g : MainGui) : MainGui :=
  let g :=
    if g_cfg_error =? NOT_INSTALLED then
      addItems [CategoryHeader (str "Sysmodule not running"); ListItem (str "sys-slp-client isn't installed");
        ListItem (str "or hasn't started yet."); CategoryHeader (str "To fix");
        ListItem (str "1. Install exefs.nsp under"); ListItem (str "   contents/4200000000000011/");
        ListItem (str "2. Enable 'Launch at boot'"); ListItem (str "3. Reboot the console")] g
    else
      addItems [CategoryHeader (str "slp:cfg unavailable");
        ListItem (str "connect failed 0x" ++ hex g_cfg_error);
        ListItem (str "Try rebooting the console.")] g in
  AddBootToggle g.

(** What a refresh writes in the rows. *)
Definition stateStr (status : Status) : bytes :=
  match status with
  | Stopped => str "Stopped"
  | Running ip => str "Running" ++ (if bool_decide (ip = []) then [] else str "  " ++ ip)
  | Unknown => str "Unknown"
  end.
Definition running_status (status : Status) : bool := match status with Running _ => true | _ => false end.
Definition show (version : bytes) (d : Display) (g : MainGui) : MainGui :=
  match d with
  | Untouched => g
  | ServiceLost => set_row (m_status g) (str "service lost") true g
  | Shown status srv =>
      let g := set_row (m_status g) (stateStr status) (negb (running_status status)) g in
      let g := set_row (m_serverRow g) (from_option ov_name (str "none") srv) (bool_decide (srv = None)) g in
      set_subtitle g (cstr version ++ from_option (fun s => mid_dot ++ ov_host s) [] srv)
  end.

(** [MainGui::refresh] *)
Definition MainGui_refresh (lost : bool) u g : option (Ui W * MainGui) :=
  let launch := g_launch_enabled (u_overlay u) in
  let g := set_row (m_launchToggle g) (str (if launch then "Enabled" else "Disabled")) (negb launch) g in
  '(u, d) ← refresh sendto sha1 SetLocalIp lost u;
  Some (u, show (g_version (u_overlay u)) d g).

(** [createUI] up to its refresh. *)
Definition MainGui_layout (g_cfg_error : Z) o : MainGui :=
  let g := mkMain [] (cstr (g_version o)) None None None 0 in
  if negb (g_haveSvc o) then BuildNotRunningUI g_cfg_error g
  else
    let g := mkMain [ListItem (str "State")] (m_subtitle g) (Some 0%nat) None None 0 in
    let g := addItem (CategoryHeader (str "Controls")) g in
    let g := AddAction (str "Start") ClickStart g in
    let g := AddAction (str "Stop") ClickStop g in
    let g := AddAction (str "Restart") ClickRestart g in
    let g := addItem (CategoryHeader (str "Server")) g in
    let g :=
      if ov_slpServersCount (g_servers o) =? 0 then
        addItems [setValue (str "none configured") true (ListItem (str "Selected")); ListItem SERVERS_CONF] g
      else
        let p := length (m_list g) in
        let g := addItem (setClickListener ClickServers (ListItem (str "Selected"))) g in
        mkMain (m_list g) (m_subtitle g) (m_status g) (m_launchToggle g) (Some p) (m_frameCount g) in
    AddBootToggle g.
Definition MainGui_createUI (g_cfg_error : Z) (lost : bool) u : option (Ui W * MainGui) :=
  MainGui_refresh lost u (MainGui_layout g_cfg_error (u_overlay u)).

(** [MainGui::update], about 60 times a second. *)
Definition update (lost : bool) u g : option (Ui W * MainGui) :=
  let n := u32 (m_frameCount g + 1) in
  let g := mkMain (m_list g) (m_subtitle g) (m_status g) (m_launchToggle g) (m_serverRow g) n in
  if n mod 30 =? 0 then MainGui_refresh lost u g else Some (u, g).

(** ** The overlay's life *)
Inductive Gui : Set := GuiMain (g : MainGui) | GuiServer (items : list Item).
Definition gui_items (p : Gui) : list Item := match p with GuiMain g => m_list g | GuiServer l => l end.

Record App : Type := mkApp {
  app_ui : Ui W;
  app_error : Z;  (* g_cfg_error *)
  app_stack : list Gui;
}.

(** Frames, A on a row and B; [calls] of the calls made reach the sysmodule, [done]
    as for [SetModuleLaunchEnabled]. *)
Inductive AppEvent : Type :=
| EvFrame (calls : nat)
| EvA (row : nat) (calls : nat) (e : StartEnv) (done : bool)
| EvB.

(** [slpCfgGetConfig], by the results of the calls it makes. *)
Definition cfg_error (has_service : Z * bool) (rc_get : Z) : Z :=
  let '(rc, has) := has_service in
  if negb (rc =? 0) then rc else if negb has then NOT_INSTALLED else rc_get.

(** [initServices], then [loadInitialGui] and the first refresh. *)
Definition app_open (has_service : Z * bool) (rc_get : Z) (lost : bool) (file : option bytes) u
    : option App :=
  let '(rc, has) := has_service in
  u ← initServices sendto sha1 SetLocalIp (if rc =? 0 then Some has else None) (rc_get =? 0) file u;
  let err := cfg_error has_service rc_get in
  '(u, g) ← MainGui_createUI err lost u;
  Some (mkApp u err [GuiMain g]).

(** A on a row: true when the handler ends with [goBack], or with a new page. *)
Definition refreshed (k calls : nat) (u : option (Ui W)) g (err : Z) (under : list Gui) : option App :=
  u ← u; '(u, g) ← MainGui_refresh (calls <=? k)%nat u g; Some (mkApp u err (GuiMain g :: under)).
Definition click (c : Click) (calls : nat) (e : StartEnv) (done : bool) (a : App) : option App :=
  let u := app_ui a in
  match app_stack a with
  | GuiMain g :: under =>
      match c with
      | ClickStart => refreshed 1 calls (button_start sendto sha1 SetLocalIp calls 0 e u) g (app_error a) under
      | ClickStop => refreshed 1 calls (button_stop sendto sha1 SetLocalIp calls 0 u) g (app_error a) under
      | ClickRestart => refreshed 2 calls (button_restart sendto sha1 SetLocalIp calls 0 e u) g (app_error a) under
      | ClickToggle => refreshed 0 calls (Some (toggle done u)) g (app_error a) under
      | ClickServers => Some (mkApp u (app_error a) (GuiServer (ServerGui_createUI (u_overlay u)) :: app_stack a))
      | ClickPick _ => Some a
      end
  | GuiServer _ :: under =>
      match c with
      | ClickPick index =>
          u ← pick sendto sha1 SetLocalIp calls index e u; Some (mkApp u (app_error a) under)
      | _ => Some a
      end
  | [] => Some a
  end.

Definition app_step (ev : AppEvent) (a : App) : option App :=
  match app_stack a with
  | [] => Some a
  | top :: under =>
      match ev with
      | EvFrame calls =>
          match top with
          | GuiMain g => '(u, g) ← update (calls =? 0)%nat (app_ui a) g; Some (mkApp u (app_error a) (GuiMain g :: under))
          | GuiServer _ => Some a
          end
      | EvA row calls e done =>
          match gui_items top !! row with
          | Some it => match it_click it with Some c => click c calls e done a | None => Some a end
          | None => Some a
          end
      | EvB => Some (mkApp (app_ui a) (app_error a) under)
      end
  end.
Fixpoint app_run (evs : list AppEvent) (a : App) : option App :=
  match evs with [] => Some a | ev :: evs => a ← app_step ev a; app_run evs a end.
End app.

Arguments App : clear implicits.

(** ** Rows keep their place *)
Definition skeleton (g : MainGui) : list (bool * bytes * option Click) :=
  (fun it => (it_header it, it_label it, it_click it)) <$> m_list g.
Record same_rows (g0 g : MainGui) : Prop := {
  same_skeleton : skeleton g = skeleton g0;
  same_status : m_status g = m_status g0;
  same_toggle : m_launchToggle g = m_launchToggle g0;
  same_server : m_serverRow g = m_serverRow g0;
}.
Lemma same_rows_refl g : same_rows g g.
Proof. by split. Qed.
Lemma same_rows_set g0 g p v f : same_rows g0 g -> same_rows g0 (set_row p v f g).
Proof.
  intros [H1 H2 H3 H4]. destruct p as [k|]; [|by split]. split; try done. rewrite <- H1.
  unfold skeleton, set_row, set_items. cbn [m_list]. apply list_eq. intros i. rewrite !list_lookup_fmap.
  destruct (decide (i = k)) as [->|Hne]; [rewrite list_lookup_alter_eq|by rewrite list_lookup_alter_ne].
  by destruct (m_list g !! k).
Qed.
Lemma same_rows_subtitle g0 g t : same_rows g0 g -> same_rows g0 (set_subtitle g t).
Proof. by intros []. Qed.
Lemma same_rows_show g0 g v d : same_rows g0 g -> same_rows g0 (show v d g).
Proof. intros H. destruct d; cbn [show]; [done| |]; repeat apply same_rows_subtitle || apply same_rows_set; done. Qed.

(** A row that exists, in a list with the same skeleton. *)
Lemma row_at g0 g k it0 :
  same_rows g0 g -> m_list g0 !! k = Some it0 ->
  exists v f, m_list g !! k = Some (setValue v f it0).
Proof.
  intros [H _ _ _] H0. apply (f_equal (fun l => l !! k)) in H. unfold skeleton in H.
  rewrite !list_lookup_fmap, H0 in H. cbn in H. destruct (m_list g !! k) as [[h l v f c]|]; [|done].
  injection H as H1 H2 H3. exists v, f. unfold setValue. cbn in *. by subst.
Qed.

(** The value of a row. *)
Definition value_at (g : MainGui) (p : option nat) : option (bytes * bool) :=
  k ← p; it ← m_list g !! k; Some (it_value it, it_faint it).
Lemma value_set g k v f : is_Some (m_list g !! k) -> value_at (set_row (Some k) v f g) (Some k) = Some (v, f).
Proof.
  intros [it Hit]. unfold value_at. cbn [mbind option_bind set_row set_items m_list].
  by rewrite list_lookup_alter_eq, Hit.
Qed.
Lemma value_set_ne g p k v f : p <> Some k -> value_at (set_row p v f g) (Some k) = value_at g (Some k).
Proof.
  intros Hne. destruct p as [j|]; [|done]. unfold value_at. cbn [mbind option_bind set_row set_items m_list].
  rewrite list_lookup_alter_ne; [done|]. congruence.
Qed.
Lemma set_row_some g p v f k : is_Some (m_list g !! k) -> is_Some (m_list (set_row p v f g) !! k).
Proof.
  intros H. destruct p as [j|]; [|done]. cbn [set_row set_items m_list].
  destruct (decide (j = k)) as [->|Hne]; [rewrite list_lookup_alter_eq|by rewrite list_lookup_alter_ne].
  by apply fmap_is_Some.
Qed.

(** ** The layout of the main page *)
Definition State_row : Item := ListItem (str "State").
Definition Selected_row : Item := setClickListener ClickServers (ListItem (str "Selected")).
Definition Launch_row : Item := setClickListener ClickToggle (ListItem (str "Launch at boot")).

Section pages.
Context {W : Type} `{!TunnelSink W}.
Variable sendto : Z -> Z -> Z -> bytes -> W -> W * Z.
Variable sha1 : bytes -> bytes.
Variable SetLocalIp : Z -> W -> W.
Variable NOT_INSTALLED : Z.
Implicit Types (u : Ui W) (o : Overlay) (g : MainGui).
Notation layout := (MainGui_layout NOT_INSTALLED).
Notation MRefresh := (MainGui_refresh sendto sha1 SetLocalIp).

Definition shows_servers o : bool := g_haveSvc o && negb (ov_slpServersCount (g_servers o) =? 0).
Lemma layout_places err o :
  exists k, m_launchToggle (layout err o) = Some k /\ m_list (layout err o) !! k = Some Launch_row /\
    m_status (layout err o) = (if g_haveSvc o then Some 0%nat else None) /\
    (g_haveSvc o = true -> m_list (layout err o) !! 0%nat = Some State_row) /\
    m_serverRow (layout err o) = (if shows_servers o then Some 6%nat else None) /\
    (shows_servers o = true -> m_list (layout err o) !! 6%nat = Some Selected_row) /\
    m_status (layout err o) <> Some k /\ m_serverRow (layout err o) <> Some k.
Proof.
  unfold shows_servers, MainGui_layout. destruct (g_haveSvc o); cbn [negb andb].
  - destruct (_ =? 0); cbn [negb]; [exists 9%nat|exists 8%nat]; by split_and!.
  - unfold BuildNotRunningUI. destruct (_ =? _); [exists 9%nat|exists 4%nat]; by split_and!.
Qed.

(** What holds of the main page between two events. *)
Definition switch_value (on : bool) : bytes * bool := (str (if on then "Enabled" else "Disabled"), negb on).
Record main_ok (err : Z) (o : Overlay) (on : bool) (g : MainGui) : Prop := {
  main_rows : same_rows (layout err o) g;
  main_switch : value_at g (m_launchToggle g) = Some (switch_value on);
  main_count : is_u32 (m_frameCount g);
}.

Lemma frameCount_set_row p v f g : m_frameCount (set_row p v f g) = m_frameCount g.
Proof. by destruct p. Qed.
Lemma frameCount_show v d g : m_frameCount (show v d g) = m_frameCount g.
Proof. destruct d; cbn [show]; [done| |]; by rewrite ?frameCount_set_row; cbn [set_subtitle m_frameCount]; rewrite ?frameCount_set_row. Qed.

Lemma value_show v d g k :
  m_status g <> Some k -> m_serverRow g <> Some k -> value_at (show v d g) (Some k) = value_at g (Some k).
Proof.
  intros H1 H2. destruct d; cbn [show]; [done|by apply value_set_ne|].
  change (value_at (set_subtitle ?g _) ?p) with (value_at g p). rewrite value_set_ne; [by apply value_set_ne|].
  by destruct (m_status g).
Qed.

(** A refresh keeps the rows, and leaves the switch showing the cached flag. *)
Lemma MainGui_refresh_ok err o lost u g :
  same_rows (layout err o) g -> is_u32 (m_frameCount g) ->
  exists u' d g', refresh sendto sha1 SetLocalIp lost u = Some (u', d) /\ kept u u' /\
    MRefresh lost u g = Some (u', g') /\ main_ok err o (g_launch_enabled (u_overlay u)) g'.
Proof.
  intros Hs Hc. destruct (kept_refresh sendto sha1 SetLocalIp lost u) as (u' & d & Er & Hk).
  exists u', d. unfold MainGui_refresh. rewrite Er. cbn [mbind option_bind]. eexists. do 3 (split; [done|]).
  destruct (layout_places err o) as (k & Hk1 & Hk2 & _ & _ & _ & _ & Hn1 & Hn2). constructor.
  - by apply same_rows_show, same_rows_set.
  - rewrite (same_toggle _ _ (same_rows_show _ _ _ _ (same_rows_set _ _ _ _ _ Hs))), (same_toggle _ _ Hs), Hk1.
    destruct (row_at _ _ _ _ Hs Hk2) as (v & f & Hrow).
    rewrite value_show; [by apply value_set| |].
    + cbn [set_row set_items m_status]. by rewrite (same_status _ _ Hs).
    + cbn [set_row set_items m_serverRow]. by rewrite (same_server _ _ Hs).
  - by rewrite frameCount_show, frameCount_set_row.
Qed.

(** ** Histories of the overlay *)
Notation step := (app_step sendto sha1 SetLocalIp).
Notation run := (app_run sendto sha1 SetLocalIp).

Lemma refresh_flag lost u u' d : refresh sendto sha1 SetLocalIp lost u = Some (u', d) -> u_flag u' = u_flag u.
Proof.
  intros H. destruct (g_haveSvc (u_overlay u)) eqn:Eh.
  - destruct lost; [unfold refresh in H; rewrite Eh in H; by injection H as <- _|].
    rewrite refresh_eq in H by done. by injection H as <- _.
  - unfold refresh in H. rewrite Eh in H. by injection H as <- _.
Qed.

Record app_ok (err : Z) (o : Overlay) (a : App W) : Prop := {
  ok_servers : g_servers (u_overlay (app_ui a)) = g_servers o /\
               g_haveSvc (u_overlay (app_ui a)) = g_haveSvc o;
  ok_flag : g_launch_enabled (u_overlay (app_ui a)) = u_flag (app_ui a);
  ok_stack :
    match app_stack a with
    | [] => True
    | [GuiMain g] => main_ok err o (u_flag (app_ui a)) g
    | [GuiServer l; GuiMain g] => l = ServerGui_createUI (u_overlay (app_ui a)) /\ main_ok err o (u_flag (app_ui a)) g
    | _ => False
    end;
}.

(** An action of the main page with the refresh behind it. *)
Lemma refreshed_ok err o a g k calls (act : option (Ui W)) u :
  app_ok err o a -> app_stack a = [GuiMain g] -> act = Some u -> kept (app_ui a) u ->
  exists a', refreshed sendto sha1 SetLocalIp k calls act g (app_error a) [] = Some a' /\
    kept (app_ui a) (app_ui a') /\ app_ok err o a'.
Proof.
  intros [[Hs Hh] Hf Hst] Ea -> Hk. rewrite Ea in Hst. unfold refreshed. cbn [mbind option_bind].
  destruct (MainGui_refresh_ok err o (calls <=? k)%nat u g (main_rows _ _ _ _ Hst) (main_count _ _ _ _ Hst))
    as (u' & d & g' & Er & Hk' & -> & Hm).
  cbn [mbind option_bind]. eexists. split; [done|]. cbn [app_ui].
  pose proof (kept_trans _ _ _ Hk Hk') as Hkk. split; [done|].
  destruct Hkk as (_ & _ & K3 & K4 & K5). destruct Hk as (_ & _ & _ & _ & J5).
  constructor; cbn [app_ui app_stack]; [by rewrite K3, K4|by apply K5|].
  by rewrite (refresh_flag _ _ _ _ Er), <- J5.
Qed.

Lemma click_ok err o a c calls e dn :
  app_ok err o a ->
  exists a', click sendto sha1 SetLocalIp c calls e dn a = Some a' /\
    kept (app_ui a) (app_ui a') /\ app_ok err o a'.
Proof.
  intros Hok. assert (exists a', Some a = Some a' /\ kept (app_ui a) (app_ui a') /\ app_ok err o a') as Hid.
  { exists a. split; [done|]. split; [apply kept_refl|done]. }
  pose proof Hok as [[Hs Hh] Hf Hst]. unfold click.
  destruct (app_stack a) as [|[g|l] [|[g'|l'] [|]]] eqn:Ea; try done.
  - destruct c as [| | | | |i]; try done.
    + destruct (kept_start sendto sha1 SetLocalIp calls 0 e (app_ui a)) as (u & Hu & Hk). by eapply refreshed_ok.
    + destruct (kept_stop sendto sha1 SetLocalIp calls 0 (app_ui a)) as (u & Hu & Hk). by eapply refreshed_ok.
    + destruct (kept_restart sendto sha1 SetLocalIp calls 0 e (app_ui a)) as (u & Hu & Hk). by eapply refreshed_ok.
    + eexists. split; [done|]. split; [apply kept_refl|]. by constructor.
    + eapply refreshed_ok; [done|done|done|apply kept_toggle].
  - destruct Hst as [_ Hm]. destruct c as [| | | | |i]; try done.
    assert (exists u, pick sendto sha1 SetLocalIp calls i e (app_ui a) = Some u /\ kept (app_ui a) u /\
                      u_flag u = u_flag (app_ui a)) as (u & -> & Hk & Hfl).
    { destruct (kept_pick sendto sha1 SetLocalIp calls i e (app_ui a)) as (u & Hu & Hk). exists u. do 2 (split; [done|]).
      destruct (g_haveSvc (u_overlay (app_ui a))) eqn:Eh.
      - rewrite pick_eq in Hu by done. by injection Hu as <-.
      - unfold pick in Hu. rewrite Eh in Hu. by injection Hu as <-. }
    cbn [mbind option_bind]. eexists. split; [done|]. split; [done|].
    destruct Hk as (_ & _ & K3 & K4 & K5). constructor; cbn [app_ui app_stack]; [by rewrite K3, K4|by apply K5|by rewrite Hfl].
Qed.

Lemma update_ok err o lost u g :
  main_ok err o (g_launch_enabled (u_overlay u)) g ->
  exists u' g', update sendto sha1 SetLocalIp lost u g = Some (u', g') /\ kept u u' /\ u_flag u' = u_flag u /\
    main_ok err o (g_launch_enabled (u_overlay u)) g'.
Proof.
  intros [H1 H2 H3]. unfold update. set (g1 := mkMain _ _ _ _ _ _).
  assert (same_rows (layout err o) g1) as Hs by by destruct H1.
  destruct (_ =? 0).
  - destruct (MainGui_refresh_ok err o lost u g1 Hs) as (u' & d & g' & Er & Hk & -> & Hm); [apply u32_range|].
    exists u', g'. pose proof (refresh_flag _ _ _ _ Er). by split_and!.
  - exists u, g1. split; [done|]. split; [apply kept_refl|]. split; [done|]. constructor; [done|done|apply u32_range].
Qed.

Lemma app_step_ok err o ev a :
  app_ok err o a ->
  exists a', step ev a = Some a' /\ kept (app_ui a) (app_ui a') /\ app_ok err o a'.
Proof.
  intros Hok. assert (exists a', Some a = Some a' /\ kept (app_ui a) (app_ui a') /\ app_ok err o a') as Hid.
  { exists a. split; [done|]. split; [apply kept_refl|done]. }
  pose proof Hok as [[Hs Hh] Hf Hst]. unfold app_step. destruct (app_stack a) as [|top under] eqn:Ea; [done|].
  destruct ev as [calls|row calls e dn|].
  - destruct top as [g|l]; [|done]. destruct under as [|]; [|done].
    rewrite <- Hf in Hst. destruct (update_ok err o (calls =? 0)%nat (app_ui a) g Hst) as (u' & g' & -> & Hk & Hfl & Hm).
    cbn [mbind option_bind]. eexists. split; [done|]. split; [done|].
    destruct Hk as (_ & _ & K3 & K4 & K5). constructor; cbn [app_ui app_stack]; [by rewrite K3, K4|by apply K5|].
    by rewrite Hfl, <- Hf.
  - destruct (_ !! row) as [it|]; [|done]. destruct (it_click it) as [c|]; [|done]. by apply click_ok.
  - eexists. split; [done|]. split; [apply kept_refl|]. constructor; cbn [app_ui app_stack]; [done|done|].
    destruct top as [g|l], under as [|[g'|l'] [|]]; try done. by destruct Hst.
Qed.

Lemma app_run_ok err o evs : forall a, app_ok err o a ->
  exists a', run evs a = Some a' /\ kept (app_ui a) (app_ui a') /\ app_ok err o a'.
Proof.
  induction evs as [|ev evs IH]; intros a Hok; cbn [app_run].
  - exists a. split; [done|]. split; [apply kept_refl|done].
  - destruct (app_step_ok err o ev a Hok) as (a1 & -> & K1 & H1). cbn [mbind option_bind].
    destruct (IH a1 H1) as (a2 & -> & K2 & H2). exists a2. split; [done|]. split; [by eapply kept_trans|done].
Qed.

(** ** How stale the main page can be *)
Definition state_line (rt : Runtime) : bytes * bool :=
  if m_state rt =? SLPCFG_STATE_RUNNING then
    let ip := cstr (zero_filled 16 (m_ip rt)) in
    (str "Running" ++ (if bool_decide (ip = []) then [] else str "  " ++ ip), false)
  else (str "Stopped", true).
Definition server_line (o : Overlay) (rt : Runtime) : bytes * bool :=
  match ov_slpServersGet (g_servers o) (s32 (u32 (m_sel_index rt))) with
  | Some srv => (ov_name srv, false)
  | None => (str "none", true)
  end.
(** The page shows what the runtime is doing. *)
Definition fresh (o : Overlay) (rt : Runtime) (g : MainGui) : Prop :=
  value_at g (Some 0%nat) = Some (state_line rt) /\
  (shows_servers o = true -> value_at g (m_serverRow g) = Some (server_line o rt)).

Lemma server_set_row p v f g : m_serverRow (set_row p v f g) = m_serverRow g.
Proof. by destruct p. Qed.

Lemma fresh_refresh err o u g :
  same_rows (layout err o) g -> g_haveSvc o = true -> g_haveSvc (u_overlay u) = true ->
  g_servers (u_overlay u) = g_servers o -> sys_inv (u_sys u) ->
  exists u' g', MRefresh false u g = Some (u', g') /\ u_sys u' = u_sys u /\ fresh o (s_rt (u_sys u)) g' /\
    m_frameCount g' = m_frameCount g.
Proof.
  intros Hr Ho Hh Hs Hi. unfold MainGui_refresh. rewrite refresh_eq by done. cbn [mbind option_bind].
  eexists _, _. do 2 (split; [done|]). split; [|by rewrite frameCount_show, frameCount_set_row].
  set (g1 := set_row _ _ _ g). assert (same_rows (layout err o) g1) as Hr1 by by apply same_rows_set.
  destruct (layout_places err o) as (k & _ & _ & Hst & HS & Hsr & HSel & _ & _).
  rewrite Ho in Hst. specialize (HS Ho). destruct (row_at _ _ _ _ Hr1 HS) as (v & f & H0).
  pose proof (same_status _ _ Hr1) as E1. rewrite Hst in E1.
  pose proof (same_server _ _ Hr1) as E2. rewrite Hsr in E2.
  cbn [show]. set (status := if _ =? 0 then _ else _). set (g2 := set_row (m_status g1) _ _ g1).
  assert (m_serverRow g2 = m_serverRow g1) as E3 by (unfold g2; by rewrite E1).
  assert ((stateStr status, negb (running_status status)) = state_line (s_rt (u_sys u))) as Hline.
  { unfold status, state_line.
    destruct (inv_state _ Hi) as [(E & _)|(E & _)]; rewrite E; reflexivity. }
  unfold fresh, shows_servers. split.
  - change (value_at (set_subtitle ?g _) ?p) with (value_at g p). rewrite E3, E2, value_set_ne.
    + unfold g2. rewrite E1, value_set by by eexists. by rewrite Hline.
    + by destruct (shows_servers o).
  - fold (shows_servers o). intros Hss. change (value_at (set_subtitle ?g _) ?p) with (value_at g p).
    change (m_serverRow (set_subtitle ?g _)) with (m_serverRow g).
    rewrite server_set_row, E3, E2, Hss. rewrite value_set.
    + unfold server_line. rewrite Hs. by destruct (ov_slpServersGet _ _).
    + destruct (row_at _ _ _ _ Hr1 (HSel Hss)) as (v6 & f6 & H6). unfold g2. apply set_row_some. by eexists.
Qed.

Lemma frame_fresh err o a g :
  app_ok err o a -> app_stack a = [GuiMain g] -> g_haveSvc o = true -> sys_inv (u_sys (app_ui a)) ->
  exists a' g', step (EvFrame 1) a = Some a' /\ app_stack a' = [GuiMain g'] /\ u_sys (app_ui a') = u_sys (app_ui a) /\
    m_frameCount g' = u32 (m_frameCount g + 1) /\
    (if u32 (m_frameCount g + 1) mod 30 =? 0 then fresh o (s_rt (u_sys (app_ui a))) g'
     else fresh o (s_rt (u_sys (app_ui a))) g -> fresh o (s_rt (u_sys (app_ui a))) g').
Proof.
  intros [[Hs Hh] Hf Hst] Ea Ho Hi. rewrite Ea in Hst. unfold app_step. rewrite Ea. unfold update. cbn [Nat.eqb].
  set (g1 := mkMain _ _ _ _ _ _). rewrite Ho in Hh.
  assert (same_rows (layout err o) g1) as Hr by by destruct Hst as [[] _ _].
  destruct (u32 (m_frameCount g + 1) mod 30 =? 0).
  - destruct (fresh_refresh err o (app_ui a) g1 Hr Ho Hh Hs Hi) as (u' & g' & -> & Hu & Hfr & Hc).
    cbn [mbind option_bind]. by eexists _, g'.
  - cbn [mbind option_bind]. by eexists _, g1.
Qed.

Lemma frames_fresh err o n : forall a g,
  app_ok err o a -> app_stack a = [GuiMain g] -> g_haveSvc o = true -> sys_inv (u_sys (app_ui a)) ->
  exists a' g', run (replicate n (EvFrame 1)) a = Some a' /\ app_stack a' = [GuiMain g'] /\
    u_sys (app_ui a') = u_sys (app_ui a) /\
    (fresh o (s_rt (u_sys (app_ui a))) g \/
     (exists k, 1 <= k <= Z.of_nat n /\ u32 (m_frameCount g + k) mod 30 = 0) ->
     fresh o (s_rt (u_sys (app_ui a))) g').
Proof.
  induction n as [|n IH]; intros a g Hok Ea Ho Hi; cbn [replicate app_run].
  - exists a, g. do 3 (split; [done|]). intros [H|(k & ? & _)]; [done|lia].
  - destruct (frame_fresh err o a g Hok Ea Ho Hi) as (a1 & g1 & Es & Ea1 & Eu & Ec & Hf).
    destruct (app_step_ok err o (EvFrame 1) a Hok) as (a1' & Es' & _ & Hok1).
    rewrite Es in Es'. injection Es' as <-. rewrite Es. cbn [mbind option_bind].
    destruct (IH a1 g1 Hok1 Ea1 Ho) as (a2 & g2 & -> & Ea2 & Eu2 & Hf2); [by rewrite Eu|].
    exists a2, g2. split; [done|]. split; [done|]. split; [by rewrite Eu2|]. rewrite Eu in Hf2.
    intros H. apply Hf2. destruct H as [H|(k & Hk & H)].
    + left. destruct (_ =? 0); [done|]. by apply Hf.
    + destruct (decide (k = 1)) as [->|Hk1].
      * left. by rewrite H in Hf.
      * right. exists (k - 1). split; [lia|]. rewrite Ec, <- H. f_equal. unfold u32. rewrite Zplus_mod_idemp_l. f_equal. lia.
Qed.

(** One of any thirty counts in a row is a multiple of 30, at the wrap too. *)
Lemma thirty_frames c : is_u32 c -> exists k, 1 <= k <= 30 /\ u32 (c + k) mod 30 = 0.
Proof.
  intros Hc. unfold is_u32 in Hc. destruct (decide (c + 30 < 2 ^ 32)) as [Hl|Hl].
  - exists (30 - c mod 30). pose proof (Z.mod_pos_bound c 30 ltac:(lia)). split; [lia|].
    rewrite u32_id by (unfold is_u32; lia).
    pose proof (Z_div_mod_eq_full c 30). replace (c + (30 - c mod 30)) with ((c / 30 + 1) * 30) by lia.
    apply Z_mod_mult.
  - exists (2 ^ 32 - c). split; [lia|]. replace (c + (2 ^ 32 - c)) with (2 ^ 32) by lia. reflexivity.
Qed.

(** ** Opening *)
Lemma ov_parse_lines_count fuel : forall p l,
  (length l <= SLPCFG_MAX_SERVERS)%nat -> (length (ov_parse_lines fuel p l) <= SLPCFG_MAX_SERVERS)%nat.
Proof.
  induction fuel as [|fuel IH]; intros p l Hl; cbn [ov_parse_lines]; [done|].
  destruct (length l <? SLPCFG_MAX_SERVERS)%nat eqn:El; cbn [andb]; [|done].
  destruct (negb _); [|done]. destruct (span _ p) as [line nl].
  assert (length (match ov_parse_line (take line_cap line) with Some srv => l ++ [srv] | None => l end)
          <= SLPCFG_MAX_SERVERS)%nat as Hl'.
  { apply Nat.ltb_lt in El. destruct (ov_parse_line _); [rewrite length_app; cbn [length]|]; lia. }
  destruct nl; [done|]. by apply IH.
Qed.

Lemma initServices_eq has_service got file s flag :
  exists have v, initServices sendto sha1 SetLocalIp has_service got file (mkUi Overlay_init s flag) =
    Some (mkUi (mkOverlay (ov_slpServersLoad file []).1 have v 0 0 flag) s flag).
Proof.
  unfold initServices. destruct (match slpCfgGetConfig _ _ with Connected => true | _ => false end);
    by eexists _, _.
Qed.

Lemma app_open_ok has_service rc_get lost file s flag :
  exists a err o, app_open sendto sha1 SetLocalIp NOT_INSTALLED has_service rc_get lost file (mkUi Overlay_init s flag) = Some a /\
    app_ok err o a /\ (length (g_servers o) <= SLPCFG_MAX_SERVERS)%nat /\
    (sys_inv s -> sys_inv (u_sys (app_ui a))) /\ s_servers (u_sys (app_ui a)) = s_servers s.
Proof.
  unfold app_open. destruct has_service as [rc has].
  destruct (initServices_eq (if rc =? 0 then Some has else None) (rc_get =? 0) file s flag) as (have & v & ->).
  cbn [mbind option_bind]. unfold MainGui_createUI. set (err := cfg_error _ _ _). set (u := mkUi _ _ _).
  assert (is_u32 (m_frameCount (layout err (u_overlay u)))) as Hc.
  { unfold MainGui_layout. destruct (negb _); [unfold BuildNotRunningUI; destruct (_ =? _)|destruct (_ =? 0)]; by cbn. }
  destruct (MainGui_refresh_ok err (u_overlay u) lost u _ (same_rows_refl _) Hc) as (u' & d & g & Er & Hk & -> & Hm).
  cbn [mbind option_bind]. exists (mkApp u' err [GuiMain g]), err, (u_overlay u). split; [done|].
  destruct Hk as (K1 & K2 & K3 & K4 & K5). split; [|split; [|done]].
  - constructor; cbn [app_ui app_stack]; [done|by apply K5|]. by rewrite (refresh_flag _ _ _ _ Er).
  - cbn [u u_overlay g_servers]. destruct file; [|cbn; lia]. apply ov_parse_lines_count. cbn; lia.
Qed.

(** ** Properties *)

(** Row [i + 1] of the server page. *)
Definition picks_server o (i : Z) (srv : OvServer) (it : Item) : Prop :=
  it_label it = ov_name srv /\ it_click it = Some (ClickPick i) /\ it_faint it = negb (g_sel_val o =? i).

Lemma omap_seq_lookup {A} (f : nat -> option A) n : forall a k,
  (forall j, (a <= j < a + n)%nat -> is_Some (f j)) -> (k < n)%nat -> omap f (seq a n) !! k = f (a + k)%nat.
Proof.
  induction n as [|n IH]; intros a k H Hk; [lia|]. destruct (H a) as [x Hx]; [lia|].
  cbn [seq omap list_omap]. rewrite Hx. destruct k as [|k]; [cbn; by rewrite Nat.add_0_r|].
  change ((?x :: ?l) !! S ?k) with (l !! k). rewrite IH by (try lia; intros; apply H; lia). f_equal. lia.
Qed.

Lemma server_page_rows o i srv :
  (length (g_servers o) <= SLPCFG_MAX_SERVERS)%nat -> ov_slpServersGet (g_servers o) i = Some srv ->
  exists it, ServerGui_createUI o !! Z.to_nat (i + 1) = Some it /\ picks_server o i srv it.
Proof.
  intros Hl Hg. assert (0 <= i < Z.of_nat (length (g_servers o))) as Hi.
  { unfold ov_slpServersGet, ov_slpServersCount in Hg. destruct (_ || _) eqn:E; [done|]. lia. }
  unfold ServerGui_createUI. unfold ov_slpServersCount at 1 2. unfold SLPCFG_MAX_SERVERS in *.
  replace (_ =? 0) with false by lia. rewrite Z.min_l, Nat2Z.id by lia.
  replace (Z.to_nat (i + 1)) with (S (Z.to_nat i)) by lia. change ((?x :: ?l) !! S ?k) with (l !! k).
  exists (server_row (g_sel_val o) (Z.to_nat i) srv). split.
  - rewrite omap_seq_lookup; [cbn [plus]; by rewrite Z2Nat.id, Hg by lia| |lia].
    intros j Hj. apply fmap_is_Some. unfold ov_slpServersGet, ov_slpServersCount.
    replace ((_ <? 0) || _) with false by lia. apply lookup_lt_is_Some. lia.
  - unfold picks_server, server_row. cbn. rewrite Z2Nat.id, u32_id by (unfold is_u32; lia).
    by rewrite Z.eqb_sym.
Qed.

(** The launch switch, on the page and in its file. *)
Definition switch_row (on : bool) : Item := setValue (switch_value on).1 (switch_value on).2 Launch_row.
Lemma main_switch_row err o on g :
  main_ok err o on g -> exists k, m_list g !! k = Some (switch_row on).
Proof.
  intros [Hr Hs _]. destruct (layout_places err o) as (k & Hk & Hl & _).
  destruct (row_at _ _ _ _ Hr Hl) as (v & f & H). exists k. rewrite H.
  rewrite (same_toggle _ _ Hr), Hk in Hs. unfold value_at in Hs. cbn [mbind option_bind] in Hs.
  rewrite H in Hs. cbn [mbind option_bind] in Hs. injection Hs as Hv Hf. unfold switch_row, switch_value. cbn in Hv, Hf. by rewrite Hv, Hf.
Qed.
Lemma switch_pressed err o a g k calls e dn :
  app_ok err o a -> app_stack a = [GuiMain g] -> m_list g !! k = Some (switch_row (u_flag (app_ui a))) ->
  exists a', step (EvA k calls e dn) a = Some a' /\
    u_flag (app_ui a') = if dn : bool then negb (u_flag (app_ui a)) else u_flag (app_ui a).
Proof.
  intros Hok Ea Hk. pose proof Hok as [_ Hf Hst]. rewrite Ea in Hst. unfold app_step. rewrite Ea.
  cbn [gui_items]. rewrite Hk. cbn [switch_row setValue it_click Launch_row setClickListener]. unfold click. rewrite Ea.
  unfold refreshed. cbn [mbind option_bind].
  destruct (MainGui_refresh_ok err o (calls <=? 0)%nat (toggle dn (app_ui a)) g (main_rows _ _ _ _ Hst)
    (main_count _ _ _ _ Hst)) as (u' & d & g' & Er & _ & -> & _).
  cbn [mbind option_bind]. eexists. split; [done|]. cbn [app_ui]. rewrite (refresh_flag _ _ _ _ Er).
  unfold toggle, SetModuleLaunchEnabled. cbn [u_flag]. rewrite Hf. by destruct dn.
Qed.

End pages.

(** ** A visit *)
Definition demo_visit : option (App (list Delivered)) :=
  let sendto := demo_sendto true in
  a ← app_open sendto id (fun _ w => w) 4953 (slpAtmosphereHasService true (0, 1) (0, 0)) 0 false Runtime.demo_config (mkUi Overlay_init (demo_sys2 true) false);
  app_run sendto id (fun _ w => w)
    [EvA 6 9 (demo_start true) true; EvA 1 9 (demo_start true) true; EvFrame 9; EvA 8 9 (demo_start true) true] a.
(** The server page is opened, its first row picked, and the launch switch pressed. *)
Example demo_visit_shown :
  (fun a => (u_flag (app_ui a), (fun p => (fun it => (it_label it, it_value it)) <$> gui_items p) <$> app_stack a))
    <$> demo_visit =
  Some (true,
    [[(str "State", str "Running  10.13.7.9"); (str "Controls", []); (str "Start", []); (str "Stop", []);
      (str "Restart", []); (str "Server", []); (str "Selected", [97]); (str "Boot", []);
      (str "Launch at boot", str "Enabled"); (str "(reboot to apply)", [])]]).
Proof. vm_compute. reflexivity. Qed.
