(* ===== verification/LdnTypes.v ===== *)
(** The LDN structures that travel on the wire (ldn/ldn_interfaces.hpp,
    ldn/ldn_control.cpp): records with the C layout written as codecs.  A codec
    is a fixed size, an encoder, a decoder reading a prefix, and the values that
    fit the fields; the laws are proved once per combinator. *)
From S2P Require Import Prelude Bytes.

(** ** Fixed-size codecs *)
Record Codec (A : Type) : Type := mkCodec {
  csize : nat;
  cenc : A -> bytes;
  cdec : bytes -> A;
  cwf : A -> Prop;
}.
Arguments csize {A}. Arguments cenc {A}. Arguments cdec {A}. Arguments cwf {A}.

(** What a codec promises. *)
Class CodecOk {A} (c : Codec A) : Prop := {
  cenc_length a : cwf c a -> length (cenc c a) = csize c;
  cenc_bytes a : cwf c a -> is_bytes (cenc c a);
  cdec_enc a r : cwf c a -> cdec c (cenc c a ++ r) = a;
  cdec_wf l : is_bytes l -> (csize c <= length l)%nat -> cwf c (cdec c l);
}.

(** A little-endian integer of [n] bytes. *)
Definition le_codec (n : nat) : Codec Z :=
  mkCodec _ n (le_enc n) (fun l => le_dec (take n l)) (fun v => 0 <= v < 256 ^ Z.of_nat n).
(** [n] raw bytes. *)
Definition raw_codec (n : nat) : Codec bytes :=
  mkCodec _ n id (take n) (fun l => length l = n /\ is_bytes l).
(** Two consecutive fields. *)
Definition pair_codec {A B} (a : Codec A) (b : Codec B) : Codec (A * B) :=
  mkCodec _ (csize a + csize b) (fun p => cenc a p.1 ++ cenc b p.2)
    (fun l => (cdec a l, cdec b (drop (csize a) l))) (fun p => cwf a p.1 /\ cwf b p.2).
(** An array of [n] elements. *)
Fixpoint array_dec {A} (c : Codec A) (n : nat) (l : bytes) : list A :=
  match n with O => [] | S n => cdec c l :: array_dec c n (drop (csize c) l) end.
Definition array_codec {A} (n : nat) (c : Codec A) : Codec (list A) :=
  mkCodec _ (n * csize c) (fun l => concat (cenc c <$> l)) (array_dec c n)
    (fun l => length l = n /\ Forall (cwf c) l).
(** A record, as the tuple of its fields. *)
Definition iso_codec {A B} (f : A -> B) (g : B -> A) (c : Codec A) : Codec B :=
  mkCodec _ (csize c) (fun b => cenc c (g b)) (fun l => f (cdec c l)) (fun b => cwf c (g b)).

#[export] Instance le_codec_ok n : CodecOk (le_codec n).
Proof.
  split; simpl.
  - intros. apply le_enc_length.
  - intros. apply le_enc_bytes.
  - intros a r Ha. rewrite take_app_length' by (by rewrite le_enc_length). by apply le_dec_enc.
  - intros l Hl Hn. pose proof (le_dec_range (take n l) (Forall_take _ _ _ Hl)) as H.
    by rewrite length_take_le in H.
Qed.

#[export] Instance raw_codec_ok n : CodecOk (raw_codec n).
Proof.
  split; simpl; unfold id; [by intros ? []|by intros ? []| |].
  - intros a r [Ha _]. by rewrite take_app_length'.
  - intros l Hl Hn. split; [by apply length_take_le|by apply Forall_take].
Qed.

#[export] Instance pair_codec_ok {A B} (a : Codec A) (b : Codec B) :
  CodecOk a -> CodecOk b -> CodecOk (pair_codec a b).
Proof.
  intros Ha Hb. split; simpl.
  - intros [x y] [Hx Hy]; simpl in *. by rewrite length_app, !cenc_length.
  - intros [x y] [Hx Hy]; simpl in *. apply Forall_app. split; by apply cenc_bytes.
  - intros [x y] r [Hx Hy]; simpl in *. rewrite <- app_assoc, cdec_enc by done.
    by rewrite drop_app_length', cdec_enc by (done || by rewrite cenc_length).
  - intros l Hl Hn. split; apply cdec_wf; try done; [lia|by apply Forall_drop|].
    rewrite length_drop. lia.
Qed.

#[export] Instance array_codec_ok {A} n (c : Codec A) : CodecOk c -> CodecOk (array_codec n c).
Proof.
  intros Hc. split; simpl.
  - intros l [<- Hl]. induction Hl as [|x l Hx _ IH]; [done|].
    rewrite fmap_cons. cbn [concat length Nat.mul]. by rewrite length_app, cenc_length, IH.
  - intros l [_ Hl]. induction Hl as [|x l Hx _ IH]; [constructor|].
    rewrite fmap_cons. cbn [concat]. apply Forall_app. split; [by apply cenc_bytes|done].
  - intros l r [<- Hl]. revert r. induction Hl as [|x l Hx _ IH]; intros r; [done|].
    rewrite fmap_cons. cbn [concat length array_dec]. rewrite <- app_assoc, cdec_enc by done. f_equal.
    rewrite drop_app_length' by (by rewrite cenc_length). apply IH.
  - induction n as [|n IH]; intros l Hl Hn; [by split|]. simpl in *.
    destruct (IH (drop (csize c) l)) as [H1 H2]; [by apply Forall_drop|rewrite length_drop; lia|].
    split; [by rewrite H1|]. constructor; [apply cdec_wf; [done|lia]|done].
Qed.

Lemma iso_codec_ok {A B} (f : A -> B) (g : B -> A) (c : Codec A) :
  (forall b, f (g b) = b) -> (forall a, g (f a) = a) -> CodecOk c -> CodecOk (iso_codec f g c).
Proof.
  intros Hfg Hgf Hc. split; simpl.
  - intros. by apply cenc_length.
  - intros. by apply cenc_bytes.
  - intros. by rewrite cdec_enc, Hfg.
  - intros. rewrite Hgf. by apply cdec_wf.
Qed.

(** ** Constants *)
Definition SsidLengthMax : nat := 32.
Definition AdvertiseDataSizeMax : nat := 384.
Definition UserNameBytesMax : nat := 32.
Definition NodeCountMax : nat := 8.

Inductive CommState : Set :=
| CS_None | CS_Initialized | CS_AccessPoint | CS_AccessPointCreated
| CS_Station | CS_StationConnected | CS_Error.
#[global] Instance CommState_eq_dec : EqDecision CommState.
Proof. solve_decision. Defined.

(** ** The structures *)
Record NodeInfo : Set := mkNode {
  ni_ipv4Address : Z;
  ni_macAddress : bytes;
  ni_nodeId : Z;
  ni_isConnected : Z;
  ni_userName : bytes;
  ni_unk1 : Z;
  ni_localCommunicationVersion : Z;
  ni_unk2 : bytes;
}.
Definition NodeInfo_zero : NodeInfo :=
  mkNode 0 (replicate 6 0) 0 0 (replicate 33 0) 0 0 (replicate 16 0).
#[global] Instance NodeInfo_eq_dec : EqDecision NodeInfo.
Proof. solve_decision. Defined.
#[global] Instance NodeInfo_inhabited : Inhabited NodeInfo := populate NodeInfo_zero.

Record CommonNetworkInfo : Set := mkCommon {
  cn_bssid : bytes;
  cn_ssid_length : Z;
  cn_ssid_raw : bytes;
  cn_channel : Z;
  cn_linkLevel : Z;
  cn_networkType : Z;
  cn_unk : Z;
}.

Record IntentId : Set := mkIntent {
  ii_localCommunicationId : Z;
  ii_unk1 : bytes;
  ii_sceneId : Z;
  ii_unk2 : bytes;
}.

Record LdnNetworkInfo : Set := mkLdn {
  ln_unkRandom : bytes;
  ln_securityMode : Z;
  ln_stationAcceptPolicy : Z;
  ln_unk1 : bytes;
  ln_nodeCountMax : Z;
  ln_nodeCount : Z;
  ln_nodes : list NodeInfo;
  ln_unk2 : Z;
  ln_advertiseDataSize : Z;
  ln_advertiseData : bytes;
  ln_unk3 : bytes;
}.

Record NetworkInfo : Set := mkNetwork {
  nw_intentId : IntentId;
  nw_sessionId : bytes;
  nw_common : CommonNetworkInfo;
  nw_ldn : LdnNetworkInfo;
}.

(** Payload of RelayHeartbeat and RelayBye. *)
Record RelayHeartbeatPayload : Set := mkHeartbeat {
  hb_bssid : bytes;
  hb_pad : bytes;
  hb_ipv4 : Z;
}.

Record LanPacketHeader : Set := mkHeader {
  lh_magic : Z;
  lh_type : Z;
  lh_compressed : Z;
  lh_length : Z;
  lh_decompress_length : Z;
  lh_seq : Z;
}.

(** ** Their layouts *)
Notation "a ∗ b" := (pair_codec a b) (at level 60, right associativity) : slp_codec_scope.
Delimit Scope slp_codec_scope with codec.

Definition NodeInfo_codec : Codec NodeInfo :=
  iso_codec
    (fun '(ip, (mac, (nid, (con, (name, (u1, (ver, u2))))))) => mkNode ip mac nid con name u1 ver u2)
    (fun n => (ni_ipv4Address n, (ni_macAddress n, (ni_nodeId n, (ni_isConnected n,
       (ni_userName n, (ni_unk1 n, (ni_localCommunicationVersion n, ni_unk2 n))))))))
    (le_codec 4 ∗ raw_codec 6 ∗ le_codec 1 ∗ le_codec 1 ∗ raw_codec 33 ∗ le_codec 1 ∗
     le_codec 2 ∗ raw_codec 16)%codec.

Definition Common_codec : Codec CommonNetworkInfo :=
  iso_codec
    (fun '(b, (sl, (sr, (ch, (ll, (nt, u)))))) => mkCommon b sl sr ch ll nt u)
    (fun c => (cn_bssid c, (cn_ssid_length c, (cn_ssid_raw c, (cn_channel c, (cn_linkLevel c,
       (cn_networkType c, cn_unk c)))))))
    (raw_codec 6 ∗ le_codec 1 ∗ raw_codec 33 ∗ le_codec 2 ∗ le_codec 1 ∗ le_codec 1 ∗
     le_codec 4)%codec.

Definition IntentId_codec : Codec IntentId :=
  iso_codec
    (fun '(l, (u1, (s, u2))) => mkIntent l u1 s u2)
    (fun i => (ii_localCommunicationId i, (ii_unk1 i, (ii_sceneId i, ii_unk2 i))))
    (le_codec 8 ∗ raw_codec 2 ∗ le_codec 2 ∗ raw_codec 4)%codec.

Definition Ldn_codec : Codec LdnNetworkInfo :=
  iso_codec
    (fun '(r, (sm, (sp, (u1, (nm, (nc, (ns, (u2, (sz, (ad, u3)))))))))) =>
       mkLdn r sm sp u1 nm nc ns u2 sz ad u3)
    (fun l => (ln_unkRandom l, (ln_securityMode l, (ln_stationAcceptPolicy l, (ln_unk1 l,
       (ln_nodeCountMax l, (ln_nodeCount l, (ln_nodes l, (ln_unk2 l, (ln_advertiseDataSize l,
       (ln_advertiseData l, ln_unk3 l)))))))))))
    (raw_codec 16 ∗ le_codec 2 ∗ le_codec 1 ∗ raw_codec 3 ∗ le_codec 1 ∗ le_codec 1 ∗
     array_codec NodeCountMax NodeInfo_codec ∗ le_codec 2 ∗ le_codec 2 ∗
     raw_codec AdvertiseDataSizeMax ∗ raw_codec 148)%codec.

Definition NetworkInfo_codec : Codec NetworkInfo :=
  iso_codec (fun '(i, (s, (c, l))) => mkNetwork i s c l)
    (fun n => (nw_intentId n, (nw_sessionId n, (nw_common n, nw_ldn n))))
    (IntentId_codec ∗ raw_codec 16 ∗ Common_codec ∗ Ldn_codec)%codec.

Definition Heartbeat_codec : Codec RelayHeartbeatPayload :=
  iso_codec (fun '(b, (p, i)) => mkHeartbeat b p i) (fun h => (hb_bssid h, (hb_pad h, hb_ipv4 h)))
    (raw_codec 6 ∗ raw_codec 2 ∗ le_codec 4)%codec.

Definition LanPacketHeader_codec : Codec LanPacketHeader :=
  iso_codec (fun '(m, (t, (c, (l, (d, s))))) => mkHeader m t c l d s)
    (fun h => (lh_magic h, (lh_type h, (lh_compressed h, (lh_length h, (lh_decompress_length h,
       lh_seq h))))))
    (le_codec 4 ∗ le_codec 1 ∗ le_codec 1 ∗ le_codec 2 ∗ le_codec 2 ∗ le_codec 2)%codec.

Ltac iso_ok := apply iso_codec_ok; [by intros []|intros a; by repeat destruct a as [? a]|apply _].
#[export] Instance NodeInfo_codec_ok : CodecOk NodeInfo_codec.
Proof. iso_ok. Qed.
#[export] Instance Common_codec_ok : CodecOk Common_codec.
Proof. iso_ok. Qed.
#[export] Instance IntentId_codec_ok : CodecOk IntentId_codec.
Proof. iso_ok. Qed.
#[export] Instance Ldn_codec_ok : CodecOk Ldn_codec.
Proof. iso_ok. Qed.
#[export] Instance NetworkInfo_codec_ok : CodecOk NetworkInfo_codec.
Proof. iso_ok. Qed.
#[export] Instance Heartbeat_codec_ok : CodecOk Heartbeat_codec.
Proof. iso_ok. Qed.
#[export] Instance LanPacketHeader_codec_ok : CodecOk LanPacketHeader_codec.
Proof. iso_ok. Qed.

(** The sizes the wire format and the frame checks rely on. *)
Definition sizeof_NodeInfo : nat := csize NodeInfo_codec.
Definition sizeof_NetworkInfo : nat := csize NetworkInfo_codec.
Definition sizeof_Heartbeat : nat := csize Heartbeat_codec.
Definition sizeof_LanPacketHeader : nat := csize LanPacketHeader_codec.

Lemma wire_sizes :
  sizeof_NodeInfo = 64%nat /\ sizeof_NetworkInfo = 1152%nat /\ sizeof_Heartbeat = 12%nat /\
  sizeof_LanPacketHeader = 12%nat.
Proof. done. Qed.

#[global] Arguments sizeof_NodeInfo : simpl never.
#[global] Arguments sizeof_NetworkInfo : simpl never.
#[global] Arguments sizeof_Heartbeat : simpl never.
#[global] Arguments sizeof_LanPacketHeader : simpl never.

(** The all-zero structures ([memset]). *)
Definition IntentId_zero : IntentId := mkIntent 0 (replicate 2 0) 0 (replicate 4 0).
Definition NetworkInfo_zero : NetworkInfo :=
  mkNetwork IntentId_zero (replicate 16 0)
    (mkCommon (replicate 6 0) 0 (replicate 33 0) 0 0 0 0)
    (mkLdn (replicate 16 0) 0 0 (replicate 3 0) 0 0 (replicate NodeCountMax NodeInfo_zero) 0 0
       (replicate AdvertiseDataSizeMax 0) (replicate 148 0)).
#[global] Instance NetworkInfo_inhabited : Inhabited NetworkInfo := populate NetworkInfo_zero.

(** The configuration structures, of which the code uses these fields. *)
Record NetworkConfig : Set := mkConfig {
  nc_intentId : IntentId;
  nc_channel : Z;
  nc_nodeCountMax : Z;
  nc_localCommunicationVersion : Z;
}.
Definition NetworkConfig_zero : NetworkConfig := mkConfig IntentId_zero 0 0 0.

Record CreateNetworkConfig : Set := mkCreate {
  cc_securityMode : Z;
  cc_userName : bytes;
  cc_networkConfig : NetworkConfig;
}.

Record ConnectNetworkData : Set := mkConnect {
  cd_userName : bytes;
  cd_localCommunicationVersion : Z;
}.

Record ScanFilter : Set := mkFilter {
  sf_intentId : IntentId;
  sf_sessionId : bytes;
  sf_networkType : Z;
  sf_ssid_length : Z;
  sf_ssid_raw : bytes;
  sf_flag : Z;
}.
