(* ===== verification/LdnControl.v ===== *)
(** The LDN control plane (ldn/ldn_control.hpp/.cpp): the session state machine
    of host and station, its frames, timeouts and queries.

    Every method is a computation on the state of the singleton that may emit
    control frames (the argument of [tun::Send]) and calls of the nifm service;
    it fails ([None]) where the code would read outside an array.  System
    ticks, random bytes, the results of nifm calls, whether the runtime is
    running, and what other threads do while a call sleeps are arguments. *)
From S2P Require Import Prelude Bytes CText Rle LdnTypes Tunnel.

(** ** Constants *)
Definition LanMagic : Z := 0x11451400.
Definition ModuleID : Z := 0xFD.
Definition LdnModuleId : Z := 0xCB.
Definition StationCountMax : nat := NodeCountMax - 1.
Definition NodeStateChange_None : Z := 0.
Definition NodeStateChange_Connect : Z := 1.
Definition NodeStateChange_Disconnect : Z := 2.
Definition ScanFilterFlag_LocalCommunicationId : Z := Z.shiftl 1 0.
Definition ScanFilterFlag_SessionId : Z := Z.shiftl 1 1.
Definition ScanFilterFlag_NetworkType : Z := Z.shiftl 1 2.
Definition ScanFilterFlag_Ssid : Z := Z.shiftl 1 4.
Definition ScanFilterFlag_SceneId : Z := Z.shiftl 1 5.
(** "12345678123456781234567812345678", with its terminator. *)
Definition FakeSsid : bytes :=
  concat (replicate 4 [49; 50; 51; 52; 53; 54; 55; 56]) ++ [0].
Definition LanPacket_Scan : Z := 0.
Definition LanPacket_ScanResp : Z := 1.
Definition LanPacket_Connect : Z := 2.
Definition LanPacket_SyncNetwork : Z := 3.
Definition LanPacket_RelayHeartbeat : Z := 4.
Definition LanPacket_RelayBye : Z := 5.
Definition RelayBeaconIntervalTicks : Z := 19200000 * 5.
Definition RelayPeerTimeoutTicks : Z := 19200000 * 30.
Definition ScannerTimeoutTicks : Z := 19200000 * 30.
Definition MaxScanResults : nat := 8.
Definition MaxRecentScanners : nat := 16.

(** ** State *)
Record Station : Set := mkStation {
  st_active : bool;
  st_connected : bool;
  st_src_ip : Z;
  st_node : NodeInfo;
  st_last_seen : Z;
}.
Definition Station_zero : Station := mkStation false false 0 NodeInfo_zero 0.
#[global] Instance Station_inhabited : Inhabited Station := populate Station_zero.

Record ScannerEntry : Set := mkScanner { se_ip : Z; se_last_tick : Z; se_used : bool }.

Record LdnControl : Set := mkLdnControl {
  m_state : CommState;
  m_disconnect_reason : Z;
  m_ipv4_address : Z;
  m_subnet_mask : Z;
  m_network_info : NetworkInfo;
  m_network_config : NetworkConfig;
  m_advertise_data : bytes;
  m_advertise_size : Z;
  m_station_accept_policy : Z;
  m_self_name : bytes;
  m_stations : list Station;
  m_scan_filter_lcid : Z;
  m_scan_results : list NetworkInfo;
  m_scan_result_count : nat;
  m_join_active : bool;
  m_join_target_bssid : bytes;
  m_host_last_seen : Z;
  m_last_beacon : Z;
  m_tx_seq : Z;
  m_relay_sync_seq : Z;
  m_relay_sync_seq_valid : bool;
  m_recent_scanners : list ScannerEntry;
  m_prev_node_connected : list bool;
  m_node_changes : list Z;
  m_local_network_mode : bool;
  m_saved_mtu : Z;
  m_state_event : bool;
}.

Definition set_m_state (s : LdnControl) (x : CommState) : LdnControl :=
  mkLdnControl x (m_disconnect_reason s) (m_ipv4_address s) (m_subnet_mask s) (m_network_info s)
    (m_network_config s) (m_advertise_data s) (m_advertise_size s)
    (m_station_accept_policy s) (m_self_name s) (m_stations s) (m_scan_filter_lcid s)
    (m_scan_results s) (m_scan_result_count s) (m_join_active s) (m_join_target_bssid s)
    (m_host_last_seen s) (m_last_beacon s) (m_tx_seq s) (m_relay_sync_seq s)
    (m_relay_sync_seq_valid s) (m_recent_scanners s) (m_prev_node_connected s)
    (m_node_changes s) (m_local_network_mode s) (m_saved_mtu s) (m_state_event s).
Definition set_m_disconnect_reason (s : LdnControl) (x : Z) : LdnControl :=
  mkLdnControl (m_state s) x (m_ipv4_address s) (m_subnet_mask s) (m_network_info s)
    (m_network_config s) (m_advertise_data s) (m_advertise_size s)
    (m_station_accept_policy s) (m_self_name s) (m_stations s) (m_scan_filter_lcid s)
    (m_scan_results s) (m_scan_result_count s) (m_join_active s) (m_join_target_bssid s)
    (m_host_last_seen s) (m_last_beacon s) (m_tx_seq s) (m_relay_sync_seq s)
    (m_relay_sync_seq_valid s) (m_recent_scanners s) (m_prev_node_connected s)
    (m_node_changes s) (m_local_network_mode s) (m_saved_mtu s) (m_state_event s).
Definition set_m_ipv4_address (s : LdnControl) (x : Z) : LdnControl :=
  mkLdnControl (m_state s) (m_disconnect_reason s) x (m_subnet_mask s) (m_network_info s)
    (m_network_config s) (m_advertise_data s) (m_advertise_size s)
    (m_station_accept_policy s) (m_self_name s) (m_stations s) (m_scan_filter_lcid s)
    (m_scan_results s) (m_scan_result_count s) (m_join_active s) (m_join_target_bssid s)
    (m_host_last_seen s) (m_last_beacon s) (m_tx_seq s) (m_relay_sync_seq s)
    (m_relay_sync_seq_valid s) (m_recent_scanners s) (m_prev_node_connected s)
    (m_node_changes s) (m_local_network_mode s) (m_saved_mtu s) (m_state_event s).
Definition set_m_subnet_mask (s : LdnControl) (x : Z) : LdnControl :=
  mkLdnControl (m_state s) (m_disconnect_reason s) (m_ipv4_address s) x (m_network_info s)
    (m_network_config s) (m_advertise_data s) (m_advertise_size s)
    (m_station_accept_policy s) (m_self_name s) (m_stations s) (m_scan_filter_lcid s)
    (m_scan_results s) (m_scan_result_count s) (m_join_active s) (m_join_target_bssid s)
    (m_host_last_seen s) (m_last_beacon s) (m_tx_seq s) (m_relay_sync_seq s)
    (m_relay_sync_seq_valid s) (m_recent_scanners s) (m_prev_node_connected s)
    (m_node_changes s) (m_local_network_mode s) (m_saved_mtu s) (m_state_event s).
Definition set_m_network_info (s : LdnControl) (x : NetworkInfo) : LdnControl :=
  mkLdnControl (m_state s) (m_disconnect_reason s) (m_ipv4_address s) (m_subnet_mask s) x
    (m_network_config s) (m_advertise_data s) (m_advertise_size s)
    (m_station_accept_policy s) (m_self_name s) (m_stations s) (m_scan_filter_lcid s)
    (m_scan_results s) (m_scan_result_count s) (m_join_active s) (m_join_target_bssid s)
    (m_host_last_seen s) (m_last_beacon s) (m_tx_seq s) (m_relay_sync_seq s)
    (m_relay_sync_seq_valid s) (m_recent_scanners s) (m_prev_node_connected s)
    (m_node_changes s) (m_local_network_mode s) (m_saved_mtu s) (m_state_event s).
Definition set_m_network_config (s : LdnControl) (x : NetworkConfig) : LdnControl :=
  mkLdnControl (m_state s) (m_disconnect_reason s) (m_ipv4_address s) (m_subnet_mask s)
    (m_network_info s) x (m_advertise_data s) (m_advertise_size s)
    (m_station_accept_policy s) (m_self_name s) (m_stations s) (m_scan_filter_lcid s)
    (m_scan_results s) (m_scan_result_count s) (m_join_active s) (m_join_target_bssid s)
    (m_host_last_seen s) (m_last_beacon s) (m_tx_seq s) (m_relay_sync_seq s)
    (m_relay_sync_seq_valid s) (m_recent_scanners s) (m_prev_node_connected s)
    (m_node_changes s) (m_local_network_mode s) (m_saved_mtu s) (m_state_event s).
Definition set_m_advertise_data (s : LdnControl) (x : bytes) : LdnControl :=
  mkLdnControl (m_state s) (m_disconnect_reason s) (m_ipv4_address s) (m_subnet_mask s)
    (m_network_info s) (m_network_config s) x (m_advertise_size s)
    (m_station_accept_policy s) (m_self_name s) (m_stations s) (m_scan_filter_lcid s)
    (m_scan_results s) (m_scan_result_count s) (m_join_active s) (m_join_target_bssid s)
    (m_host_last_seen s) (m_last_beacon s) (m_tx_seq s) (m_relay_sync_seq s)
    (m_relay_sync_seq_valid s) (m_recent_scanners s) (m_prev_node_connected s)
    (m_node_changes s) (m_local_network_mode s) (m_saved_mtu s) (m_state_event s).
Definition set_m_advertise_size (s : LdnControl) (x : Z) : LdnControl :=
  mkLdnControl (m_state s) (m_disconnect_reason s) (m_ipv4_address s) (m_subnet_mask s)
    (m_network_info s) (m_network_config s) (m_advertise_data s) x
    (m_station_accept_policy s) (m_self_name s) (m_stations s) (m_scan_filter_lcid s)
    (m_scan_results s) (m_scan_result_count s) (m_join_active s) (m_join_target_bssid s)
    (m_host_last_seen s) (m_last_beacon s) (m_tx_seq s) (m_relay_sync_seq s)
    (m_relay_sync_seq_valid s) (m_recent_scanners s) (m_prev_node_connected s)
    (m_node_changes s) (m_local_network_mode s) (m_saved_mtu s) (m_state_event s).
Definition set_m_station_accept_policy (s : LdnControl) (x : Z) : LdnControl :=
  mkLdnControl (m_state s) (m_disconnect_reason s) (m_ipv4_address s) (m_subnet_mask s)
    (m_network_info s) (m_network_config s) (m_advertise_data s) (m_advertise_size s) x
    (m_self_name s) (m_stations s) (m_scan_filter_lcid s) (m_scan_results s)
    (m_scan_result_count s) (m_join_active s) (m_join_target_bssid s) (m_host_last_seen s)
    (m_last_beacon s) (m_tx_seq s) (m_relay_sync_seq s) (m_relay_sync_seq_valid s)
    (m_recent_scanners s) (m_prev_node_connected s) (m_node_changes s)
    (m_local_network_mode s) (m_saved_mtu s) (m_state_event s).
Definition set_m_self_name (s : LdnControl) (x : bytes) : LdnControl :=
  mkLdnControl (m_state s) (m_disconnect_reason s) (m_ipv4_address s) (m_subnet_mask s)
    (m_network_info s) (m_network_config s) (m_advertise_data s) (m_advertise_size s)
    (m_station_accept_policy s) x (m_stations s) (m_scan_filter_lcid s) (m_scan_results s)
    (m_scan_result_count s) (m_join_active s) (m_join_target_bssid s) (m_host_last_seen s)
    (m_last_beacon s) (m_tx_seq s) (m_relay_sync_seq s) (m_relay_sync_seq_valid s)
    (m_recent_scanners s) (m_prev_node_connected s) (m_node_changes s)
    (m_local_network_mode s) (m_saved_mtu s) (m_state_event s).
Definition set_m_stations (s : LdnControl) (x : list Station) : LdnControl :=
  mkLdnControl (m_state s) (m_disconnect_reason s) (m_ipv4_address s) (m_subnet_mask s)
    (m_network_info s) (m_network_config s) (m_advertise_data s) (m_advertise_size s)
    (m_station_accept_policy s) (m_self_name s) x (m_scan_filter_lcid s) (m_scan_results s)
    (m_scan_result_count s) (m_join_active s) (m_join_target_bssid s) (m_host_last_seen s)
    (m_last_beacon s) (m_tx_seq s) (m_relay_sync_seq s) (m_relay_sync_seq_valid s)
    (m_recent_scanners s) (m_prev_node_connected s) (m_node_changes s)
    (m_local_network_mode s) (m_saved_mtu s) (m_state_event s).
Definition set_m_scan_filter_lcid (s : LdnControl) (x : Z) : LdnControl :=
  mkLdnControl (m_state s) (m_disconnect_reason s) (m_ipv4_address s) (m_subnet_mask s)
    (m_network_info s) (m_network_config s) (m_advertise_data s) (m_advertise_size s)
    (m_station_accept_policy s) (m_self_name s) (m_stations s) x (m_scan_results s)
    (m_scan_result_count s) (m_join_active s) (m_join_target_bssid s) (m_host_last_seen s)
    (m_last_beacon s) (m_tx_seq s) (m_relay_sync_seq s) (m_relay_sync_seq_valid s)
    (m_recent_scanners s) (m_prev_node_connected s) (m_node_changes s)
    (m_local_network_mode s) (m_saved_mtu s) (m_state_event s).
Definition set_m_scan_results (s : LdnControl) (x : list NetworkInfo) : LdnControl :=
  mkLdnControl (m_state s) (m_disconnect_reason s) (m_ipv4_address s) (m_subnet_mask s)
    (m_network_info s) (m_network_config s) (m_advertise_data s) (m_advertise_size s)
    (m_station_accept_policy s) (m_self_name s) (m_stations s) (m_scan_filter_lcid s) x
    (m_scan_result_count s) (m_join_active s) (m_join_target_bssid s) (m_host_last_seen s)
    (m_last_beacon s) (m_tx_seq s) (m_relay_sync_seq s) (m_relay_sync_seq_valid s)
    (m_recent_scanners s) (m_prev_node_connected s) (m_node_changes s)
    (m_local_network_mode s) (m_saved_mtu s) (m_state_event s).
Definition set_m_scan_result_count (s : LdnControl) (x : nat) : LdnControl :=
  mkLdnControl (m_state s) (m_disconnect_reason s) (m_ipv4_address s) (m_subnet_mask s)
    (m_network_info s) (m_network_config s) (m_advertise_data s) (m_advertise_size s)
    (m_station_accept_policy s) (m_self_name s) (m_stations s) (m_scan_filter_lcid s)
    (m_scan_results s) x (m_join_active s) (m_join_target_bssid s) (m_host_last_seen s)
    (m_last_beacon s) (m_tx_seq s) (m_relay_sync_seq s) (m_relay_sync_seq_valid s)
    (m_recent_scanners s) (m_prev_node_connected s) (m_node_changes s)
    (m_local_network_mode s) (m_saved_mtu s) (m_state_event s).
Definition set_m_join_active (s : LdnControl) (x : bool) : LdnControl :=
  mkLdnControl (m_state s) (m_disconnect_reason s) (m_ipv4_address s) (m_subnet_mask s)
    (m_network_info s) (m_network_config s) (m_advertise_data s) (m_advertise_size s)
    (m_station_accept_policy s) (m_self_name s) (m_stations s) (m_scan_filter_lcid s)
    (m_scan_results s) (m_scan_result_count s) x (m_join_target_bssid s)
    (m_host_last_seen s) (m_last_beacon s) (m_tx_seq s) (m_relay_sync_seq s)
    (m_relay_sync_seq_valid s) (m_recent_scanners s) (m_prev_node_connected s)
    (m_node_changes s) (m_local_network_mode s) (m_saved_mtu s) (m_state_event s).
Definition set_m_join_target_bssid (s : LdnControl) (x : bytes) : LdnControl :=
  mkLdnControl (m_state s) (m_disconnect_reason s) (m_ipv4_address s) (m_subnet_mask s)
    (m_network_info s) (m_network_config s) (m_advertise_data s) (m_advertise_size s)
    (m_station_accept_policy s) (m_self_name s) (m_stations s) (m_scan_filter_lcid s)
    (m_scan_results s) (m_scan_result_count s) (m_join_active s) x (m_host_last_seen s)
    (m_last_beacon s) (m_tx_seq s) (m_relay_sync_seq s) (m_relay_sync_seq_valid s)
    (m_recent_scanners s) (m_prev_node_connected s) (m_node_changes s)
    (m_local_network_mode s) (m_saved_mtu s) (m_state_event s).
Definition set_m_host_last_seen (s : LdnControl) (x : Z) : LdnControl :=
  mkLdnControl (m_state s) (m_disconnect_reason s) (m_ipv4_address s) (m_subnet_mask s)
    (m_network_info s) (m_network_config s) (m_advertise_data s) (m_advertise_size s)
    (m_station_accept_policy s) (m_self_name s) (m_stations s) (m_scan_filter_lcid s)
    (m_scan_results s) (m_scan_result_count s) (m_join_active s) (m_join_target_bssid s) x
    (m_last_beacon s) (m_tx_seq s) (m_relay_sync_seq s) (m_relay_sync_seq_valid s)
    (m_recent_scanners s) (m_prev_node_connected s) (m_node_changes s)
    (m_local_network_mode s) (m_saved_mtu s) (m_state_event s).
Definition set_m_last_beacon (s : LdnControl) (x : Z) : LdnControl :=
  mkLdnControl (m_state s) (m_disconnect_reason s) (m_ipv4_address s) (m_subnet_mask s)
    (m_network_info s) (m_network_config s) (m_advertise_data s) (m_advertise_size s)
    (m_station_accept_policy s) (m_self_name s) (m_stations s) (m_scan_filter_lcid s)
    (m_scan_results s) (m_scan_result_count s) (m_join_active s) (m_join_target_bssid s)
    (m_host_last_seen s) x (m_tx_seq s) (m_relay_sync_seq s) (m_relay_sync_seq_valid s)
    (m_recent_scanners s) (m_prev_node_connected s) (m_node_changes s)
    (m_local_network_mode s) (m_saved_mtu s) (m_state_event s).
Definition set_m_tx_seq (s : LdnControl) (x : Z) : LdnControl :=
  mkLdnControl (m_state s) (m_disconnect_reason s) (m_ipv4_address s) (m_subnet_mask s)
    (m_network_info s) (m_network_config s) (m_advertise_data s) (m_advertise_size s)
    (m_station_accept_policy s) (m_self_name s) (m_stations s) (m_scan_filter_lcid s)
    (m_scan_results s) (m_scan_result_count s) (m_join_active s) (m_join_target_bssid s)
    (m_host_last_seen s) (m_last_beacon s) x (m_relay_sync_seq s) (m_relay_sync_seq_valid s)
    (m_recent_scanners s) (m_prev_node_connected s) (m_node_changes s)
    (m_local_network_mode s) (m_saved_mtu s) (m_state_event s).
Definition set_m_relay_sync_seq (s : LdnControl) (x : Z) : LdnControl :=
  mkLdnControl (m_state s) (m_disconnect_reason s) (m_ipv4_address s) (m_subnet_mask s)
    (m_network_info s) (m_network_config s) (m_advertise_data s) (m_advertise_size s)
    (m_station_accept_policy s) (m_self_name s) (m_stations s) (m_scan_filter_lcid s)
    (m_scan_results s) (m_scan_result_count s) (m_join_active s) (m_join_target_bssid s)
    (m_host_last_seen s) (m_last_beacon s) (m_tx_seq s) x (m_relay_sync_seq_valid s)
    (m_recent_scanners s) (m_prev_node_connected s) (m_node_changes s)
    (m_local_network_mode s) (m_saved_mtu s) (m_state_event s).
Definition set_m_relay_sync_seq_valid (s : LdnControl) (x : bool) : LdnControl :=
  mkLdnControl (m_state s) (m_disconnect_reason s) (m_ipv4_address s) (m_subnet_mask s)
    (m_network_info s) (m_network_config s) (m_advertise_data s) (m_advertise_size s)
    (m_station_accept_policy s) (m_self_name s) (m_stations s) (m_scan_filter_lcid s)
    (m_scan_results s) (m_scan_result_count s) (m_join_active s) (m_join_target_bssid s)
    (m_host_last_seen s) (m_last_beacon s) (m_tx_seq s) (m_relay_sync_seq s) x
    (m_recent_scanners s) (m_prev_node_connected s) (m_node_changes s)
    (m_local_network_mode s) (m_saved_mtu s) (m_state_event s).
Definition set_m_recent_scanners (s : LdnControl) (x : list ScannerEntry) : LdnControl :=
  mkLdnControl (m_state s) (m_disconnect_reason s) (m_ipv4_address s) (m_subnet_mask s)
    (m_network_info s) (m_network_config s) (m_advertise_data s) (m_advertise_size s)
    (m_station_accept_policy s) (m_self_name s) (m_stations s) (m_scan_filter_lcid s)
    (m_scan_results s) (m_scan_result_count s) (m_join_active s) (m_join_target_bssid s)
    (m_host_last_seen s) (m_last_beacon s) (m_tx_seq s) (m_relay_sync_seq s)
    (m_relay_sync_seq_valid s) x (m_prev_node_connected s) (m_node_changes s)
    (m_local_network_mode s) (m_saved_mtu s) (m_state_event s).
Definition set_m_prev_node_connected (s : LdnControl) (x : list bool) : LdnControl :=
  mkLdnControl (m_state s) (m_disconnect_reason s) (m_ipv4_address s) (m_subnet_mask s)
    (m_network_info s) (m_network_config s) (m_advertise_data s) (m_advertise_size s)
    (m_station_accept_policy s) (m_self_name s) (m_stations s) (m_scan_filter_lcid s)
    (m_scan_results s) (m_scan_result_count s) (m_join_active s) (m_join_target_bssid s)
    (m_host_last_seen s) (m_last_beacon s) (m_tx_seq s) (m_relay_sync_seq s)
    (m_relay_sync_seq_valid s) (m_recent_scanners s) x (m_node_changes s)
    (m_local_network_mode s) (m_saved_mtu s) (m_state_event s).
Definition set_m_node_changes (s : LdnControl) (x : list Z) : LdnControl :=
  mkLdnControl (m_state s) (m_disconnect_reason s) (m_ipv4_address s) (m_subnet_mask s)
    (m_network_info s) (m_network_config s) (m_advertise_data s) (m_advertise_size s)
    (m_station_accept_policy s) (m_self_name s) (m_stations s) (m_scan_filter_lcid s)
    (m_scan_results s) (m_scan_result_count s) (m_join_active s) (m_join_target_bssid s)
    (m_host_last_seen s) (m_last_beacon s) (m_tx_seq s) (m_relay_sync_seq s)
    (m_relay_sync_seq_valid s) (m_recent_scanners s) (m_prev_node_connected s) x
    (m_local_network_mode s) (m_saved_mtu s) (m_state_event s).
Definition set_m_local_network_mode (s : LdnControl) (x : bool) : LdnControl :=
  mkLdnControl (m_state s) (m_disconnect_reason s) (m_ipv4_address s) (m_subnet_mask s)
    (m_network_info s) (m_network_config s) (m_advertise_data s) (m_advertise_size s)
    (m_station_accept_policy s) (m_self_name s) (m_stations s) (m_scan_filter_lcid s)
    (m_scan_results s) (m_scan_result_count s) (m_join_active s) (m_join_target_bssid s)
    (m_host_last_seen s) (m_last_beacon s) (m_tx_seq s) (m_relay_sync_seq s)
    (m_relay_sync_seq_valid s) (m_recent_scanners s) (m_prev_node_connected s)
    (m_node_changes s) x (m_saved_mtu s) (m_state_event s).
Definition set_m_saved_mtu (s : LdnControl) (x : Z) : LdnControl :=
  mkLdnControl (m_state s) (m_disconnect_reason s) (m_ipv4_address s) (m_subnet_mask s)
    (m_network_info s) (m_network_config s) (m_advertise_data s) (m_advertise_size s)
    (m_station_accept_policy s) (m_self_name s) (m_stations s) (m_scan_filter_lcid s)
    (m_scan_results s) (m_scan_result_count s) (m_join_active s) (m_join_target_bssid s)
    (m_host_last_seen s) (m_last_beacon s) (m_tx_seq s) (m_relay_sync_seq s)
    (m_relay_sync_seq_valid s) (m_recent_scanners s) (m_prev_node_connected s)
    (m_node_changes s) (m_local_network_mode s) x (m_state_event s).
Definition set_m_state_event (s : LdnControl) (x : bool) : LdnControl :=
  mkLdnControl (m_state s) (m_disconnect_reason s) (m_ipv4_address s) (m_subnet_mask s)
    (m_network_info s) (m_network_config s) (m_advertise_data s) (m_advertise_size s)
    (m_station_accept_policy s) (m_self_name s) (m_stations s) (m_scan_filter_lcid s)
    (m_scan_results s) (m_scan_result_count s) (m_join_active s) (m_join_target_bssid s)
    (m_host_last_seen s) (m_last_beacon s) (m_tx_seq s) (m_relay_sync_seq s)
    (m_relay_sync_seq_valid s) (m_recent_scanners s) (m_prev_node_connected s)
    (m_node_changes s) (m_local_network_mode s) (m_saved_mtu s) x.

(** Reduces the projections of updated states, nothing else. *)
Ltac lc_cbn := cbn [m_state m_disconnect_reason m_ipv4_address m_subnet_mask m_network_info m_network_config
  m_advertise_data m_advertise_size m_station_accept_policy m_self_name m_stations
  m_scan_filter_lcid m_scan_results m_scan_result_count m_join_active m_join_target_bssid
  m_host_last_seen m_last_beacon m_tx_seq m_relay_sync_seq m_relay_sync_seq_valid
  m_recent_scanners m_prev_node_connected m_node_changes m_local_network_mode m_saved_mtu
  m_state_event set_m_state set_m_disconnect_reason set_m_ipv4_address set_m_subnet_mask
  set_m_network_info set_m_network_config set_m_advertise_data set_m_advertise_size
  set_m_station_accept_policy set_m_self_name set_m_stations set_m_scan_filter_lcid
  set_m_scan_results set_m_scan_result_count set_m_join_active set_m_join_target_bssid
  set_m_host_last_seen set_m_last_beacon set_m_tx_seq set_m_relay_sync_seq
  set_m_relay_sync_seq_valid set_m_recent_scanners set_m_prev_node_connected
  set_m_node_changes set_m_local_network_mode set_m_saved_mtu set_m_state_event] in *.

Definition LdnControl_init : LdnControl :=
  mkLdnControl CS_None 0 0x0A0D2502 0xFFFF0000 NetworkInfo_zero NetworkConfig_zero
    (replicate AdvertiseDataSizeMax 0) 0 0 (replicate 33 0)
    (replicate NodeCountMax Station_zero) 0 (replicate MaxScanResults NetworkInfo_zero) 0
    false (replicate 6 0) 0 0 0 0 false
    (replicate MaxRecentScanners (mkScanner 0 0 false))
    (replicate NodeCountMax false) (replicate NodeCountMax 0) false 0 false.

(** The results of the methods. *)
Inductive LdnResult : Set :=
| R_OK
| R_Error (module description : Z)
| R_Nifm (rc : Z).
#[global] Instance LdnResult_eq_dec : EqDecision LdnResult.
Proof. solve_decision. Defined.
Definition BadState : LdnResult := R_Error LdnModuleId 32.

(** The calls of the nifm service, in order. *)
Inductive NifmCall : Set :=
| NifmGetProfile | NifmSetMtu (mtu : Z) | NifmCreateRequest | NifmSetLocalMode | NifmSubmit
| NifmCancel | NifmClose.

Inductive LdnOut : Set :=
| OFrame (dst : Z) (buf : bytes)
| ONifm (c : NifmCall).

(** ** The monad *)
Definition M (A : Type) : Type := LdnControl -> option (A * LdnControl * list LdnOut).
#[global] Instance M_ret : MRet M := fun A a s => Some (a, s, []).
#[global] Instance M_bind : MBind M := fun A B f m s =>
  match m s with
  | Some (a, s, o) =>
      match f a s with
      | Some (b, s, o') => Some (b, s, o ++ o')
      | None => None
      end
  | None => None
  end.
Definition gets {A} (f : LdnControl -> A) : M A := fun s => Some (f s, s, []).
Definition modify (f : LdnControl -> LdnControl) : M unit := fun s => Some (tt, f s, []).
Definition emit (o : LdnOut) : M unit := fun s => Some (tt, s, [o]).
(** A read that may leave its array. *)
Definition lift {A} (r : option A) : M A := fun s =>
  match r with Some a => Some (a, s, []) | None => None end.
Definition skip : M unit := mret tt.
Fixpoint for_each {A} (f : A -> M unit) (l : list A) : M unit :=
  match l with [] => skip | x :: l => f x;; for_each f l end.

(** ** Small helpers *)
Definition FakeMac (ip : Z) : bytes := [0x02; 0x00] ++ le_enc 4 ip.

(** [strncpy(dst, src, n); dst[n] = 0] on an array of [n + 1] bytes. *)
Definition strncpy_term (n : nat) (src : bytes) : bytes :=
  let s := take n (cstr (take n src)) in s ++ replicate (n - length s) 0 ++ [0].

Definition SignalStateChange (s : LdnControl) : LdnControl := set_m_state_event s true.
Definition SetState (state : CommState) (s : LdnControl) : LdnControl :=
  if bool_decide (m_state s = state) then s else SignalStateChange (set_m_state s state).

Definition SubnetBroadcast (s : LdnControl) : Z :=
  Z.lor (m_ipv4_address s) (u32 (Z.lnot (m_subnet_mask s))).

(** Scans the first [count] nodes from [i] on; fails beyond the array. *)
Fixpoint any_node (p : NodeInfo -> bool) (nodes : list NodeInfo) (count i : nat) : option bool :=
  match count with
  | O => Some false
  | S count =>
      n ← nodes !! i;
      if p n then Some true else any_node p nodes count (S i)
  end.
Definition node_is (ip : Z) (n : NodeInfo) : bool :=
  negb (ni_isConnected n =? 0) && (ni_ipv4Address n =? ip).
Definition session_has (s : LdnControl) (ip : Z) : option bool :=
  any_node (node_is ip) (ln_nodes (nw_ldn (m_network_info s)))
    (Z.to_nat (ln_nodeCount (nw_ldn (m_network_info s)))) 0.

Definition in_session (s : LdnControl) : bool :=
  bool_decide (m_state s = CS_AccessPointCreated \/ m_state s = CS_Station \/
               m_state s = CS_StationConnected).

Definition IsKnownSessionPeer (s : LdnControl) (ip : Z) : option bool :=
  if negb (in_session s) then Some true
  else if ip =? m_ipv4_address s then Some true
  else session_has s ip.

(** ** Stations: node ids 1..7 are the slots 0..6 *)
Definition stations7 (s : LdnControl) : list Station := take StationCountMax (m_stations s).
Definition station_in (t : Station) : bool := st_active t && st_connected t.

(** [active = connected = false], and the node cleared. *)
Definition station_clear (t : Station) : Station :=
  mkStation false false (st_src_ip t) NodeInfo_zero (st_last_seen t).

Definition ResetStations (s : LdnControl) : LdnControl :=
  set_m_stations s ((station_clear <$> take StationCountMax (m_stations s)) ++
                    drop StationCountMax (m_stations s)).

Definition StationCount (s : LdnControl) : nat := length (filter station_in (stations7 s)).

(** The first slot satisfying a test, as a node id. *)
Definition find_nid (p : Station -> bool) (s : LdnControl) : option nat :=
  match list_find p (stations7 s) with Some (i, _) => Some (S i) | None => None end.
Definition FindFreeNodeId (s : LdnControl) : option nat := find_nid (fun t => negb (st_active t)) s.
Definition FindStationByIp (s : LdnControl) (src_ip : Z) : option nat :=
  find_nid (fun t => st_active t && (st_src_ip t =? src_ip)) s.

Definition set_station (s : LdnControl) (nid : nat) (f : Station -> Station) : LdnControl :=
  set_m_stations s (alter f (nid - 1)%nat (m_stations s)).

(** ** Node changes *)
Definition InitNodeStateChange (s : LdnControl) : LdnControl :=
  set_m_node_changes (set_m_prev_node_connected s (replicate NodeCountMax false))
    (replicate NodeCountMax 0).

(** One slot of the loop of [OnNetworkInfoChanged]. *)
Definition node_change (n : NodeInfo) (prev : bool) (change : Z) : bool * Z :=
  let connected := negb (ni_isConnected n =? 0) in
  if Bool.eqb connected prev then (prev, change)
  else (connected, Z.lor change (if connected then NodeStateChange_Connect
                                 else NodeStateChange_Disconnect)).

Definition OnNetworkInfoChanged (s : LdnControl) : LdnControl :=
  let nodes := take NodeCountMax (ln_nodes (nw_ldn (m_network_info s))) in
  let r := zip_with (fun n p => node_change n p.1 p.2) nodes
             (zip (m_prev_node_connected s) (m_node_changes s)) in
  let changed := negb (bool_decide (r.*1 = m_prev_node_connected s)) in
  let s := set_m_node_changes (set_m_prev_node_connected s r.*1) r.*2 in
  if changed then SignalStateChange s else s.

(** ** Network information *)
Definition host_node (s : LdnControl) : NodeInfo :=
  mkNode (m_ipv4_address s) (FakeMac (m_ipv4_address s)) 0 1
    (strncpy_term UserNameBytesMax (m_self_name s)) 0
    (nc_localCommunicationVersion (m_network_config s)) (replicate 16 0).

(** A station's node as listed: its slot's id, connected. *)
Definition listed_node (nid : nat) (t : Station) : NodeInfo :=
  let n := st_node t in
  mkNode (ni_ipv4Address n) (ni_macAddress n) (Z.of_nat nid) 1 (ni_userName n) (ni_unk1 n)
    (ni_localCommunicationVersion n) (ni_unk2 n).

Fixpoint station_nodes (nid : nat) (l : list Station) : list NodeInfo :=
  match l with
  | [] => []
  | t :: l => if station_in t then listed_node nid t :: station_nodes (S nid) l
              else station_nodes (S nid) l
  end.

Definition overwrite0 (src dst : bytes) : bytes := src ++ drop (length src) dst.

Definition BuildNetwork (s : LdnControl) : NetworkInfo :=
  let i := m_network_info s in
  let l := nw_ldn i in
  let nodes := host_node s :: station_nodes 1 (stations7 s) in
  mkNetwork (nw_intentId i) (nw_sessionId i) (nw_common i)
    (mkLdn (ln_unkRandom l) (ln_securityMode l) (ln_stationAcceptPolicy l) (ln_unk1 l)
       (ln_nodeCountMax l) (Z.of_nat (length nodes))
       (nodes ++ replicate (NodeCountMax - length nodes) NodeInfo_zero) (ln_unk2 l)
       (m_advertise_size s)
       (if 0 <? m_advertise_size s
        then overwrite0 (take (Z.to_nat (m_advertise_size s)) (m_advertise_data s))
               (ln_advertiseData l)
        else replicate AdvertiseDataSizeMax 0)
       (ln_unk3 l)).

(** ** Recent scanners *)

(** The search of [RecordScanner]: the slot to write and whether it is the
    scanner's own. *)
Fixpoint scanner_slot (l : list ScannerEntry) (src_ip now : Z) (i : nat) (free : option nat)
    : nat + option nat :=
  match l with
  | [] => inr free
  | e :: l =>
      if se_used e && (se_ip e =? src_ip) then inl i
      else
        let free := match free with
                    | Some _ => free
                    | None => if negb (se_used e) || (ScannerTimeoutTicks <? now - se_last_tick e)
                              then Some i else None
                    end in
        scanner_slot l src_ip now (S i) free
  end.

Definition RecordScanner (src_ip now : Z) (s : LdnControl) : LdnControl :=
  let l := m_recent_scanners s in
  match scanner_slot l src_ip now 0 None with
  | inl i => set_m_recent_scanners s (alter (fun e => mkScanner (se_ip e) now (se_used e)) i l)
  | inr free => set_m_recent_scanners s (<[default 0%nat free := mkScanner src_ip now true]> l)
  end.

Definition WasRecentScanner (src_ip now : Z) (s : LdnControl) : bool :=
  existsb (fun e => se_used e && (se_ip e =? src_ip) && (now - se_last_tick e <=? ScannerTimeoutTicks))
    (m_recent_scanners s).

(** ** Frames *)

(** The bytes of a control frame. *)
Definition control_frame (type seq : Z) (body : bytes) : bytes :=
  match body with
  | [] => cenc LanPacketHeader_codec (mkHeader LanMagic type 0 0 0 seq)
  | _ =>
      match Compress body sizeof_NetworkInfo with
      | Some c =>
          cenc LanPacketHeader_codec
            (mkHeader LanMagic type 1 (u16 (Z.of_nat (length c))) (u16 (Z.of_nat (length body))) seq)
          ++ c
      | None =>
          cenc LanPacketHeader_codec
            (mkHeader LanMagic type 0 (u16 (Z.of_nat (length body))) 0 seq) ++ body
      end
  end.

(** [++m_tx_seq], skipping 0. *)
Definition next_seq (seq : Z) : Z :=
  let q := u16 (seq + 1) in if q =? 0 then u16 (q + 1) else q.

(** The frame accepted by [OnControlFrame]: type, body and sequence number. *)
Definition parse_control (payload : bytes) : option (Z * bytes * Z) :=
  if (length payload <? sizeof_LanPacketHeader)%nat then None
  else
    let hdr := cdec LanPacketHeader_codec payload in
    if negb (lh_magic hdr =? LanMagic) then None
    else if (length payload <? sizeof_LanPacketHeader + Z.to_nat (lh_length hdr))%nat then None
    else
      let body := take (Z.to_nat (lh_length hdr)) (drop sizeof_LanPacketHeader payload) in
      if negb (lh_compressed hdr =? 0) then
        match Decompress body sizeof_NetworkInfo with
        | None => None
        | Some d =>
            if negb (Z.of_nat (length d) =? lh_decompress_length hdr) then None
            else Some (lh_type hdr, d, lh_seq hdr)
        end
      else Some (lh_type hdr, body, lh_seq hdr).

Section control.
(** Whether the runtime is RUNNING. *)
Variable running : bool.

Definition SendFrame (dst_ip type : Z) (body : bytes) : M unit :=
  if negb running then skip
  else
    modify (fun s => set_m_tx_seq s (next_seq (m_tx_seq s)));;
    seq ← gets m_tx_seq;
    emit (OFrame dst_ip (control_frame type seq body)).

Definition UpdateNodes : M unit :=
  modify (fun s => set_m_network_info s (BuildNetwork s));;
  stations ← gets stations7;
  info ← gets m_network_info;
  for_each (fun t => if station_in t
                     then SendFrame (st_src_ip t) LanPacket_SyncNetwork (cenc NetworkInfo_codec info)
                     else skip) stations;;
  modify OnNetworkInfoChanged.

(** *** Frame handlers *)
Definition HandleScan (now src_ip : Z) : M unit :=
  state ← gets m_state;
  if negb (bool_decide (state = CS_AccessPointCreated)) then skip
  else
    modify (RecordScanner src_ip now);;
    info ← gets BuildNetwork;
    SendFrame src_ip LanPacket_ScanResp (cenc NetworkInfo_codec info).

(** The index of a collected result with the same bssid. *)
Definition find_result (s : LdnControl) (bssid : bytes) : option nat :=
  match list_find (fun r => cn_bssid (nw_common r) = bssid)
          (take (m_scan_result_count s) (m_scan_results s)) with
  | Some (i, _) => Some i
  | None => None
  end.

Definition HandleScanResp (src_ip : Z) (body : bytes) : M unit :=
  s ← gets id;
  if negb (length body =? sizeof_NetworkInfo)%nat then skip
  else if src_ip =? m_ipv4_address s then skip
  else
    let info := cdec NetworkInfo_codec body in
    if negb (m_scan_filter_lcid s =? 0) &&
       negb (ii_localCommunicationId (nw_intentId info) =? m_scan_filter_lcid s) then skip
    else
      match find_result s (cn_bssid (nw_common info)) with
      | Some i => modify (fun s => set_m_scan_results s (<[i := info]> (m_scan_results s)))
      | None =>
          if (m_scan_result_count s <? MaxScanResults)%nat then
            modify (fun s => set_m_scan_result_count
                      (set_m_scan_results s
                         (<[m_scan_result_count s := info]> (m_scan_results s)))
                      (m_scan_result_count s + 1)%nat)
          else skip
      end.

(** The station's node as registered: the frame's, with our own identity
    fields. *)
Definition register_node (nid : nat) (src_ip : Z) (node : NodeInfo) : NodeInfo :=
  mkNode src_ip (FakeMac src_ip) (Z.of_nat nid) 1 (ni_userName node) (ni_unk1 node)
    (ni_localCommunicationVersion node) (ni_unk2 node).

(** The slot for a connecting address: its own, else a free one. *)
Definition connect_slot (s : LdnControl) (src_ip : Z) : option nat :=
  match FindStationByIp s src_ip with
  | Some nid => Some nid
  | None => if (StationCountMax <=? StationCount s)%nat then None else FindFreeNodeId s
  end.

Definition HandleConnect (now src_ip : Z) (body : bytes) : M unit :=
  s ← gets id;
  if negb (bool_decide (m_state s = CS_AccessPointCreated)) then skip
  else if negb (length body =? sizeof_NodeInfo)%nat then skip
  else if negb (WasRecentScanner src_ip now s) && bool_decide (FindStationByIp s src_ip = None)
  then skip
  else
    let node := cdec NodeInfo_codec body in
    match connect_slot s src_ip with
    | None => skip
    | Some nid =>
        modify (fun s => set_station s nid
                  (fun _ => mkStation true true src_ip (register_node nid src_ip node) now));;
        UpdateNodes
    end.

(** [confirmed] is evaluated on the state after the copy. *)
Definition HandleSyncNetwork (now : Z) (body : bytes) (relay_seq : Z) : M unit :=
  s ← gets id;
  if negb (length body =? sizeof_NetworkInfo)%nat then skip
  else if negb (bool_decide (m_state s = CS_Station \/ m_state s = CS_StationConnected)) then skip
  else if negb (relay_seq =? 0) && m_relay_sync_seq_valid s &&
          (u16 (m_relay_sync_seq s - relay_seq) <? 256) then skip
  else
    (if negb (relay_seq =? 0)
     then modify (fun s => set_m_relay_sync_seq_valid (set_m_relay_sync_seq s relay_seq) true)
     else skip);;
    let incoming := cdec NetworkInfo_codec body in
    if m_join_active s &&
       negb (bool_decide (cn_bssid (nw_common incoming) = m_join_target_bssid s)) then skip
    else
      modify (fun s => set_m_host_last_seen (set_m_network_info s incoming) now);;
      (if bool_decide (m_state s = CS_Station) then
         s ← gets id;
         confirmed ← lift (session_has s (m_ipv4_address s));
         if (confirmed : bool) then modify (SetState CS_StationConnected) else skip
       else skip);;
      modify OnNetworkInfoChanged.

Definition HandleRelayHeartbeat (now src_ip : Z) (body : bytes) : M unit :=
  s ← gets id;
  if negb (length body =? sizeof_Heartbeat)%nat then skip
  else if negb (bool_decide (m_state s = CS_AccessPointCreated)) then skip
  else
    let hb := cdec Heartbeat_codec body in
    if negb (bool_decide (hb_bssid hb = cn_bssid (nw_common (m_network_info s)))) then skip
    else
      match FindStationByIp s src_ip with
      | Some nid =>
          modify (fun s => set_station s nid (fun t =>
            mkStation (st_active t) (st_connected t) (st_src_ip t) (st_node t) now))
      | None => skip
      end.

Definition end_session (reason : Z) : M unit :=
  modify (fun s => SetState CS_Station
            (set_m_relay_sync_seq_valid
               (set_m_join_active (set_m_disconnect_reason s reason) false) false)).

Definition HandleRelayBye (src_ip : Z) (body : bytes) : M unit :=
  s ← gets id;
  if negb (length body =? sizeof_Heartbeat)%nat then skip
  else
    let bye := cdec Heartbeat_codec body in
    match m_state s with
    | CS_StationConnected =>
        n0 ← lift (head (ln_nodes (nw_ldn (m_network_info s))));
        if m_join_active s && bool_decide (hb_bssid bye = m_join_target_bssid s) &&
           (hb_ipv4 bye =? ni_ipv4Address n0)
        then end_session 3 else skip
    | CS_AccessPointCreated =>
        if negb (bool_decide (hb_bssid bye = cn_bssid (nw_common (m_network_info s)))) then skip
        else
          match FindStationByIp s src_ip with
          | Some nid => modify (fun s => set_station s nid station_clear);; UpdateNodes
          | None => skip
          end
    | _ => skip
    end.

Definition OnControlFrame (now src_ip : Z) (payload : bytes) : M unit :=
  match parse_control payload with
  | None => skip
  | Some (type, body, seq) =>
      if type =? LanPacket_Scan then HandleScan now src_ip
      else if type =? LanPacket_ScanResp then HandleScanResp src_ip body
      else if type =? LanPacket_Connect then HandleConnect now src_ip body
      else if type =? LanPacket_SyncNetwork then HandleSyncNetwork now body seq
      else if type =? LanPacket_RelayHeartbeat then HandleRelayHeartbeat now src_ip body
      else if type =? LanPacket_RelayBye then HandleRelayBye src_ip body
      else skip
  end.

(** *** The periodic tick *)
Definition reap (now : Z) (t : Station) : Station :=
  if station_in t && (RelayPeerTimeoutTicks <=? now - st_last_seen t)
  then station_clear t else t.

Definition Tick (now : Z) : M unit :=
  s ← gets id;
  if now - m_last_beacon s <? RelayBeaconIntervalTicks then skip
  else
    modify (fun s => set_m_last_beacon s now);;
    match m_state s with
    | CS_AccessPointCreated =>
        modify (fun s => set_m_stations s
          ((reap now <$> take StationCountMax (m_stations s)) ++ drop StationCountMax (m_stations s)));;
        UpdateNodes
    | CS_Station | CS_StationConnected =>
        (if m_join_active s then
           n0 ← lift (head (ln_nodes (nw_ldn (m_network_info s))));
           let host_ip :=
             if bool_decide (m_state s = CS_StationConnected) &&
                (0 <? ln_nodeCount (nw_ldn (m_network_info s)))
             then ni_ipv4Address n0 else 0 in
           if negb (host_ip =? 0) then
             SendFrame host_ip LanPacket_RelayHeartbeat
               (cenc Heartbeat_codec
                  (mkHeartbeat (m_join_target_bssid s) (replicate 2 0) (m_ipv4_address s)))
           else skip
         else skip);;
        if bool_decide (m_state s = CS_StationConnected) &&
           (RelayPeerTimeoutTicks <=? now - m_host_last_seen s)
        then end_session 6 else skip
    | _ => skip
    end.

(** *** Local network mode *)

(** What the nifm service answers: the current profile's MTU, and the result
    of each call (0 is success). *)
Record NifmEnv : Set := mkNifm {
  nf_profile : Z; nf_mtu : Z; nf_set : Z; nf_create : Z; nf_local : Z; nf_submit : Z;
}.

Definition EnterLocalNetworkMode (nf : NifmEnv) : M LdnResult :=
  s ← gets id;
  if m_local_network_mode s then mret R_OK
  else
    emit (ONifm NifmGetProfile);;
    if negb (nf_profile nf =? 0) then mret (R_Nifm (nf_profile nf))
    else
      modify (fun s => set_m_saved_mtu s (nf_mtu nf));;
      emit (ONifm (NifmSetMtu 1500));;
      if negb (nf_set nf =? 0) then mret (R_Nifm (nf_set nf))
      else
        emit (ONifm NifmCreateRequest);;
        if negb (nf_create nf =? 0) then mret (R_Nifm (nf_create nf))
        else
          emit (ONifm NifmSetLocalMode);;
          if negb (nf_local nf =? 0) then
            emit (ONifm NifmCancel);; mret (R_Nifm (nf_local nf))
          else
            emit (ONifm NifmSubmit);;
            if negb (nf_submit nf =? 0) then
              emit (ONifm NifmCancel);; mret (R_Nifm (nf_submit nf))
            else
              modify (fun s => set_m_local_network_mode s true);;
              mret R_OK.

Definition ExitLocalNetworkMode (nf : NifmEnv) : M LdnResult :=
  emit (ONifm NifmCancel);;
  emit (ONifm NifmClose);;
  emit (ONifm NifmGetProfile);;
  s ← gets id;
  (if nf_profile nf =? 0 then emit (ONifm (NifmSetMtu (m_saved_mtu s))) else skip);;
  modify (fun s => set_m_local_network_mode s false);;
  mret R_OK.

Definition exit_if_local (nf : NifmEnv) : M unit :=
  local ← gets m_local_network_mode;
  if (local : bool) then ExitLocalNetworkMode nf;; skip else skip.
Definition enter_if_not_local (nf : NifmEnv) : M unit :=
  local ← gets m_local_network_mode;
  if negb (local : bool) then EnterLocalNetworkMode nf;; skip else skip.

Definition EnterLocalNetworkModePublic (nf : NifmEnv) : M LdnResult := EnterLocalNetworkMode nf.
Definition ExitLocalNetworkModePublic (nf : NifmEnv) : M LdnResult :=
  local ← gets m_local_network_mode;
  if negb (local : bool) then mret R_OK else ExitLocalNetworkMode nf.

(** *** Lifecycle *)

(** [ip]: the text of the virtual address. *)
Definition Initialize (ip : bytes) (nf : NifmEnv) : M LdnResult :=
  modify (fun s =>
    let v := ParseIp ip in
    let s := set_m_ipv4_address s (if v =? 0 then 0x0A0D2502 else v) in
    let s := set_m_subnet_mask s 0xFFFF0000 in
    let s := set_m_disconnect_reason s 0 in
    let s := set_m_scan_result_count s 0%nat in
    let s := set_m_scan_filter_lcid s 0 in
    InitNodeStateChange (ResetStations s));;
  exit_if_local nf;;
  modify (fun s => SetState CS_Initialized (set_m_state_event s false));;
  mret R_OK.

Definition Finalize (nf : NifmEnv) : M LdnResult :=
  exit_if_local nf;;
  modify (fun s =>
    let s := set_m_scan_result_count s 0%nat in
    let s := set_m_scan_filter_lcid s 0 in
    let s := set_m_join_active s false in
    let s := set_m_relay_sync_seq_valid s false in
    SetState CS_None (ResetStations s));;
  mret R_OK.

(** *** Host side *)
Definition OpenAccessPoint (nf : NifmEnv) : M LdnResult :=
  modify (fun s => set_m_disconnect_reason s 0);;
  state ← gets m_state;
  if bool_decide (state = CS_None) then mret BadState
  else
    enter_if_not_local nf;;
    modify (fun s => SetState CS_AccessPoint (ResetStations s));;
    mret R_OK.

Definition CloseAccessPoint (nf : NifmEnv) : M LdnResult :=
  state ← gets m_state;
  if bool_decide (state = CS_None) then mret BadState
  else
    exit_if_local nf;;
    modify (fun s => SetState CS_Initialized (ResetStations s));;
    mret R_OK.

(** [session], [random]: the random bytes drawn. *)
Definition CreateNetwork (data : CreateNetworkConfig) (session random : bytes) : M LdnResult :=
  state ← gets m_state;
  if negb (bool_decide (state = CS_AccessPoint)) then mret BadState
  else
    modify (fun s =>
      let config := cc_networkConfig data in
      let s := set_m_network_config s config in
      let s := set_m_station_accept_policy s 0 in
      let z := NetworkInfo_zero in
      let common :=
        mkCommon (FakeMac (m_ipv4_address s)) 32 FakeSsid
          (if nc_channel config =? 0 then 6 else nc_channel config) 3 2 0 in
      let ldn := nw_ldn z in
      let ldn := mkLdn random (cc_securityMode data) 0 (ln_unk1 ldn) (nc_nodeCountMax config)
                   (ln_nodeCount ldn) (ln_nodes ldn) (ln_unk2 ldn) (ln_advertiseDataSize ldn)
                   (ln_advertiseData ldn) (ln_unk3 ldn) in
      let s := set_m_network_info s (mkNetwork (nc_intentId config) session common ldn) in
      let s := set_m_self_name s (strncpy_term UserNameBytesMax (cc_userName data)) in
      let s := set_m_advertise_size s 0 in
      let s := set_m_advertise_data s (replicate AdvertiseDataSizeMax 0) in
      SetState CS_AccessPointCreated (InitNodeStateChange (ResetStations s)));;
    UpdateNodes;;
    mret R_OK.

Definition send_bye (dst : Z) (bssid : bytes) : M unit :=
  ip ← gets m_ipv4_address;
  SendFrame dst LanPacket_RelayBye (cenc Heartbeat_codec (mkHeartbeat bssid (replicate 2 0) ip)).

Definition DestroyNetwork : M LdnResult :=
  s ← gets id;
  (if (0 <? StationCount s)%nat
   then send_bye (SubnetBroadcast s) (cn_bssid (nw_common (m_network_info s))) else skip);;
  modify (fun s => SetState CS_AccessPoint (ResetStations s));;
  mret R_OK.

(** [data] is [None] for a null pointer. *)
Definition set_advertiseDataSize (i : NetworkInfo) (n : Z) : NetworkInfo :=
  let l := nw_ldn i in
  mkNetwork (nw_intentId i) (nw_sessionId i) (nw_common i)
    (mkLdn (ln_unkRandom l) (ln_securityMode l) (ln_stationAcceptPolicy l) (ln_unk1 l)
       (ln_nodeCountMax l) (ln_nodeCount l) (ln_nodes l) (ln_unk2 l) n (ln_advertiseData l)
       (ln_unk3 l)).
Definition set_stationAcceptPolicy (i : NetworkInfo) (p : Z) : NetworkInfo :=
  let l := nw_ldn i in
  mkNetwork (nw_intentId i) (nw_sessionId i) (nw_common i)
    (mkLdn (ln_unkRandom l) (ln_securityMode l) p (ln_unk1 l)
       (ln_nodeCountMax l) (ln_nodeCount l) (ln_nodes l) (ln_unk2 l) (ln_advertiseDataSize l)
       (ln_advertiseData l) (ln_unk3 l)).

Definition SetAdvertiseData (data : option bytes) (size : nat) : M LdnResult :=
  if (AdvertiseDataSizeMax <? size)%nat then mret (R_Error ModuleID 10)
  else
    modify (fun s =>
      let s := match data with
               | Some d => if (0 <? size)%nat
                           then set_m_advertise_data s (overwrite0 (take size d) (m_advertise_data s))
                           else s
               | None => s
               end in
      let s := set_m_advertise_size s (u16 (Z.of_nat size)) in
      set_m_network_info s (set_advertiseDataSize (m_network_info s) (m_advertise_size s)));;
    UpdateNodes;;
    mret R_OK.

Definition SetStationAcceptPolicy (policy : Z) : M LdnResult :=
  modify (fun s =>
    set_m_network_info (set_m_station_accept_policy s policy)
      (set_stationAcceptPolicy (m_network_info s) policy));;
  mret R_OK.

Definition Reject (node_id : Z) : M LdnResult :=
  if (node_id <? 1) || (Z.of_nat NodeCountMax <=? node_id) then mret R_OK
  else
    modify (fun s => set_station s (Z.to_nat node_id) (fun t =>
      mkStation false false (st_src_ip t) (st_node t) (st_last_seen t)));;
    UpdateNodes;;
    mret R_OK.

(** *** Station side *)
Definition OpenStation (nf : NifmEnv) : M LdnResult :=
  modify (fun s => set_m_disconnect_reason s 0);;
  state ← gets m_state;
  if bool_decide (state = CS_None) then mret BadState
  else
    enter_if_not_local nf;;
    modify (fun s => SetState CS_Station (ResetStations s));;
    mret R_OK.

Definition CloseStation (nf : NifmEnv) : M LdnResult := CloseAccessPoint nf.

Definition has_flag (f : ScanFilter) (flag : Z) : bool := negb (Z.land (sf_flag f) flag =? 0).

(** The polling loop of [Scan]: [n] rounds left, [i] done; [env] is what the
    other threads do during each sleep. *)
Fixpoint scan_poll (env : nat -> M unit) (n i last_count stable : nat) : M unit :=
  match n with
  | O => skip
  | S n =>
      s0 ← gets id;
      (if negb (i =? 0)%nat && (i mod 3 =? 0)%nat
       then SendFrame (SubnetBroadcast s0) LanPacket_Scan [] else skip);;
      env i;;
      cur ← gets m_scan_result_count;
      if (0 <? cur)%nat && (cur =? last_count)%nat then
        if (2 <=? stable + 1)%nat then skip else scan_poll env n (S i) cur (stable + 1)
      else scan_poll env n (S i) cur 0
  end.

(** One result against the filter; fails when the ssid comparison would run
    past the array. *)
Definition scan_match (f : ScanFilter) (i : NetworkInfo) : option bool :=
  ssid ← (if has_flag f ScanFilterFlag_Ssid then
            if sf_ssid_length f =? cn_ssid_length (nw_common i) then
              if 33 <? sf_ssid_length f then None
              else
                let n := Z.to_nat (sf_ssid_length f) in
                Some (bool_decide (take n (sf_ssid_raw f) = take n (cn_ssid_raw (nw_common i))))
            else Some false
          else Some true);
  Some ((negb (has_flag f ScanFilterFlag_LocalCommunicationId) ||
         (ii_localCommunicationId (sf_intentId f) =? ii_localCommunicationId (nw_intentId i))) &&
        (negb (has_flag f ScanFilterFlag_SessionId) ||
         bool_decide (sf_sessionId f = nw_sessionId i)) &&
        (negb (has_flag f ScanFilterFlag_NetworkType) ||
         (sf_networkType f =? cn_networkType (nw_common i))) &&
        ssid &&
        (negb (has_flag f ScanFilterFlag_SceneId) ||
         (ii_sceneId (sf_intentId f) =? ii_sceneId (nw_intentId i)))).

Fixpoint scan_collect (f : ScanFilter) (results : list NetworkInfo) (capacity : nat)
    : option (list NetworkInfo) :=
  match results, capacity with
  | r :: results, S capacity' =>
      copy ← scan_match f r;
      if (copy : bool) then l ← scan_collect f results capacity'; Some (r :: l)
      else scan_collect f results capacity
  | _, _ => Some []
  end.

Definition Scan (env : nat -> M unit) (filter : ScanFilter) (out_capacity : nat)
    : M (LdnResult * list NetworkInfo) :=
  s ← gets id;
  if bool_decide (m_state s = CS_None \/ m_state s = CS_Error) then mret (BadState, [])
  else
    modify (fun s => set_m_scan_filter_lcid (set_m_scan_result_count s 0%nat)
      (if has_flag filter ScanFilterFlag_LocalCommunicationId
       then ii_localCommunicationId (sf_intentId filter) else 0));;
    SendFrame (SubnetBroadcast s) LanPacket_Scan [];;
    scan_poll env 10 0 0 0;;
    s ← gets id;
    out ← lift (scan_collect filter (take (m_scan_result_count s) (m_scan_results s)) out_capacity);
    mret (R_OK, out).

(** The polling loop of [Connect]: true when StationConnected was seen. *)
Fixpoint connect_poll (env : nat -> M unit) (n i : nat) (host_ip : Z) (my : bytes) : M bool :=
  match n with
  | O => mret false
  | S n =>
      state ← gets m_state;
      if bool_decide (state = CS_StationConnected) then mret true
      else
        (if (i mod 50 =? 49)%nat then SendFrame host_ip LanPacket_Connect my else skip);;
        env i;;
        connect_poll env n (S i) host_ip my
  end.

Definition Connect (env : nat -> M unit) (dat : ConnectNetworkData) (data : NetworkInfo)
    : M LdnResult :=
  s ← gets id;
  if bool_decide (m_state s = CS_None) then mret BadState
  else if ln_nodeCount (nw_ldn data) =? 0 then mret (R_Error ModuleID 30)
  else
    n0 ← lift (head (ln_nodes (nw_ldn data)));
    let host_ip := ni_ipv4Address n0 in
    modify (fun s =>
      let s := set_m_scan_filter_lcid (set_m_scan_result_count s 0%nat) 0 in
      set_m_join_target_bssid (set_m_join_active s true) (cn_bssid (nw_common data)));;
    let ip := m_ipv4_address s in
    let my := cenc NodeInfo_codec
                (mkNode ip (FakeMac ip) 0 1 (strncpy_term UserNameBytesMax (cd_userName dat)) 0
                   (u16 (cd_localCommunicationVersion dat)) (replicate 16 0)) in
    SendFrame host_ip LanPacket_Connect my;;
    ok ← connect_poll env 300 0 host_ip my;
    if (ok : bool) then mret R_OK
    else
      modify (fun s => set_m_relay_sync_seq_valid (set_m_join_active s false) false);;
      mret (R_Error LdnModuleId 64).

Definition Disconnect : M LdnResult :=
  s ← gets id;
  (if m_join_active s && (0 <? ln_nodeCount (nw_ldn (m_network_info s))) then
     n0 ← lift (head (ln_nodes (nw_ldn (m_network_info s))));
     send_bye (ni_ipv4Address n0) (m_join_target_bssid s)
   else skip);;
  modify (fun s => SetState CS_Station
            (ResetStations (set_m_relay_sync_seq_valid (set_m_join_active s false) false)));;
  mret R_OK.

(** *** Queries *)
Definition has_network (s : LdnControl) : bool :=
  bool_decide (m_state s = CS_AccessPointCreated \/ m_state s = CS_StationConnected).

Definition GetNetworkInfo : M (LdnResult * option NetworkInfo) :=
  s ← gets id;
  mret (if has_network s then (R_OK, Some (m_network_info s)) else (BadState, None)).

(** The updates reported are cleared. *)
Definition GetNetworkInfoLatestUpdate (update_capacity : nat)
    : M (LdnResult * option (NetworkInfo * list Z)) :=
  s ← gets id;
  if (NodeCountMax <? update_capacity)%nat then mret (R_Error ModuleID 50, None)
  else if negb (has_network s) then mret (BadState, None)
  else
    modify (fun s => set_m_node_changes s
      (replicate update_capacity NodeStateChange_None ++ drop update_capacity (m_node_changes s)));;
    mret (R_OK, Some (m_network_info s, take update_capacity (m_node_changes s))).

Definition GetSecurityParameter : M (LdnResult * option (bytes * bytes)) :=
  s ← gets id;
  mret (if has_network s
        then (R_OK, Some (nw_sessionId (m_network_info s), ln_unkRandom (nw_ldn (m_network_info s))))
        else (BadState, None)).

Definition GetNetworkConfig : M (LdnResult * option NetworkConfig) :=
  s ← gets id;
  if negb (has_network s) then mret (BadState, None)
  else
    n0 ← lift (head (ln_nodes (nw_ldn (m_network_info s))));
    mret (R_OK, Some (mkConfig (nw_intentId (m_network_info s))
            (cn_channel (nw_common (m_network_info s)))
            (ln_nodeCountMax (nw_ldn (m_network_info s)))
            (ni_localCommunicationVersion n0))).
End control.

(** ** Reasoning about methods *)
Definition triple {A} (P : LdnControl -> Prop) (m : M A) (Q : A -> LdnControl -> Prop) : Prop :=
  forall s a s' o, P s -> m s = Some (a, s', o) -> Q a s'.
(** A method that keeps a property of the state. *)
Definition keeps {A} (P : LdnControl -> Prop) (m : M A) : Prop := triple P m (fun _ => P).

Lemma triple_bind {A B} P (R : A -> LdnControl -> Prop) (Q : B -> LdnControl -> Prop)
    (m : M A) (f : A -> M B) :
  triple P m R -> (forall a, triple (R a) (f a) Q) -> triple P (m ≫= f) Q.
Proof.
  intros Hm Hf s b s' o Hs H. unfold mbind, M_bind in H.
  destruct (m s) as [[[a s1] o1]|] eqn:E1; [|done].
  destruct (f a s1) as [[[b1 s2] o2]|] eqn:E2; [|done]. injection H as <- <- <-.
  eapply Hf; [|exact E2]. by eapply Hm.
Qed.
Lemma triple_ret {A} P (a : A) (Q : A -> LdnControl -> Prop) :
  (forall s, P s -> Q a s) -> triple P (mret a) Q.
Proof. intros H s b s' o Hs [= <- <- _]. auto. Qed.
Lemma triple_gets {A} P (f : LdnControl -> A) (Q : A -> LdnControl -> Prop) :
  (forall s, P s -> Q (f s) s) -> triple P (gets f) Q.
Proof. intros H s b s' o Hs [= <- <- _]. auto. Qed.
Lemma triple_modify P f (Q : unit -> LdnControl -> Prop) :
  (forall s, P s -> Q tt (f s)) -> triple P (modify f) Q.
Proof. intros H s b s' o Hs [= <- <- _]. auto. Qed.
Lemma triple_emit P x (Q : unit -> LdnControl -> Prop) :
  (forall s, P s -> Q tt s) -> triple P (emit x) Q.
Proof. intros H s b s' o Hs [= <- <- _]. auto. Qed.
Lemma triple_lift {A} P (r : option A) (Q : A -> LdnControl -> Prop) :
  (forall s a, P s -> r = Some a -> Q a s) -> triple P (lift r) Q.
Proof. intros H s b s' o Hs E. unfold lift in E. destruct r; [|done]. injection E as <- <- _. auto. Qed.
Lemma triple_pre {A} (P P' : LdnControl -> Prop) (m : M A) Q :
  (forall s, P' s -> P s) -> triple P m Q -> triple P' m Q.
Proof. intros H Hm s a s' o Hs E. eapply Hm; eauto. Qed.
Lemma triple_post {A} P (m : M A) (Q Q' : A -> LdnControl -> Prop) :
  (forall a s, Q a s -> Q' a s) -> triple P m Q -> triple P m Q'.
Proof. intros H Hm s a s' o Hs E. eapply H, Hm; eauto. Qed.
(** Reading the whole state fixes what is known of it. *)
Lemma triple_get {B} P (Q : B -> LdnControl -> Prop) (f : LdnControl -> M B) :
  (forall s0, P s0 -> triple (fun s => s = s0) (f s0) Q) -> triple P (gets id ≫= f) Q.
Proof.
  intros H s b s' o Hs E. unfold mbind, M_bind, gets, id in E.
  destruct (f s s) as [[[b1 s2] o2]|] eqn:E2; [|done]. injection E as <- <- <-.
  eapply (H s Hs); [|exact E2]. done.
Qed.

Lemma keeps_skip P : keeps P skip.
Proof. by apply triple_ret. Qed.
Lemma keeps_bind {A B} P (m : M A) (f : A -> M B) :
  keeps P m -> (forall a, keeps P (f a)) -> keeps P (m ≫= f).
Proof. intros. by eapply triple_bind. Qed.
Lemma keeps_for_each {A} P (f : A -> M unit) l : (forall x, keeps P (f x)) -> keeps P (for_each f l).
Proof. intros Hf. induction l; [apply keeps_skip|]. simpl. by apply keeps_bind. Qed.
Lemma keeps_gets {A} P (f : LdnControl -> A) : keeps P (gets f).
Proof. by apply triple_gets. Qed.
Lemma keeps_ret {A} P (a : A) : keeps P (mret a).
Proof. by apply triple_ret. Qed.
Lemma keeps_emit P x : keeps P (emit x).
Proof. by apply triple_emit. Qed.
Lemma keeps_lift {A} P (r : option A) : keeps P (lift r).
Proof. by apply triple_lift. Qed.
Lemma keeps_modify P f : (forall s, P s -> P (f s)) -> keeps P (modify f).
Proof. intros. by apply triple_modify. Qed.

(** Walks through a method, leaving the obligations of its state updates. *)
Ltac keeps_step :=
  match goal with
  | |- keeps _ (mbind _ _) => apply keeps_bind; [|intros ?]
  | |- keeps _ (gets _) => apply keeps_gets
  | |- keeps _ skip => apply keeps_skip
  | |- keeps _ (mret _) => apply keeps_ret
  | |- keeps _ (emit _) => apply keeps_emit
  | |- keeps _ (lift _) => apply keeps_lift
  | |- keeps _ (for_each _ _) => apply keeps_for_each; intros ?
  | |- keeps _ (if ?b then _ else _) => destruct b eqn:?
  | |- keeps _ (match ?x with _ => _ end) => destruct x eqn:?
  | |- keeps _ (let _ := _ in _) => intros ?
  end.
Ltac keeps_walk := repeat (keeps_step || (progress cbv zeta)).

(** The same when only the property of the state matters. *)
Ltac keeps_get s0 H0 :=
  apply triple_get; intros s0 H0;
  match goal with |- triple _ ?m (fun _ => ?P) =>
    apply (triple_pre P); [by intros ? ->|change (keeps P m)] end.

(** ** The invariant *)
Definition station_ok (t : Station) : Prop :=
  st_active t = st_connected t /\ cwf NodeInfo_codec (st_node t) /\ is_u32 (st_src_ip t) /\
  (st_active t = true -> ni_ipv4Address (st_node t) = st_src_ip t).

(** No address holds two slots. *)
Definition distinct_stations (l : list Station) : Prop :=
  forall i j t u, l !! i = Some t -> l !! j = Some u -> st_active t = true -> st_active u = true ->
    st_src_ip t = st_src_ip u -> i = j.

Record ctl_wf (s : LdnControl) : Prop := mkWf {
  wf_ip : is_u32 (m_ipv4_address s);
  wf_mask : is_u32 (m_subnet_mask s);
  wf_info : cwf NetworkInfo_codec (m_network_info s);
  wf_version : is_u16 (nc_localCommunicationVersion (m_network_config s));
  wf_adv : length (m_advertise_data s) = AdvertiseDataSizeMax /\ is_bytes (m_advertise_data s);
  wf_adv_size : 0 <= m_advertise_size s <= 384;
  wf_name : is_bytes (m_self_name s);
  wf_stations : length (m_stations s) = NodeCountMax /\ Forall station_ok (m_stations s);
  wf_distinct : distinct_stations (m_stations s);
  wf_slot8 : forall t, m_stations s !! 7%nat = Some t -> st_active t = false;
  wf_results : length (m_scan_results s) = MaxScanResults /\
               Forall (cwf NetworkInfo_codec) (m_scan_results s);
  wf_count : (m_scan_result_count s <= MaxScanResults)%nat;
  wf_target : length (m_join_target_bssid s) = 6%nat /\ is_bytes (m_join_target_bssid s);
  wf_seq : is_u16 (m_tx_seq s);
  wf_scanners : length (m_recent_scanners s) = MaxRecentScanners;
  wf_prev : length (m_prev_node_connected s) = NodeCountMax;
  wf_changes : length (m_node_changes s) = NodeCountMax;
}.

(** Rebuilds the invariant after updates of a few fields. *)
Ltac wf_rebuild := intros []; constructor; lc_cbn; try done.

(** *** Well-formed structures *)
Definition buf_ok (n : nat) (l : bytes) : Prop := length l = n /\ is_bytes l.

Lemma NodeInfo_wf n :
  cwf NodeInfo_codec n <->
  is_u32 (ni_ipv4Address n) /\ buf_ok 6 (ni_macAddress n) /\ is_u8 (ni_nodeId n) /\
  is_u8 (ni_isConnected n) /\ buf_ok 33 (ni_userName n) /\ is_u8 (ni_unk1 n) /\
  is_u16 (ni_localCommunicationVersion n) /\ buf_ok 16 (ni_unk2 n).
Proof. reflexivity. Qed.

Lemma Common_wf c :
  cwf Common_codec c <->
  buf_ok 6 (cn_bssid c) /\ is_u8 (cn_ssid_length c) /\ buf_ok 33 (cn_ssid_raw c) /\
  is_u16 (cn_channel c) /\ is_u8 (cn_linkLevel c) /\ is_u8 (cn_networkType c) /\ is_u32 (cn_unk c).
Proof. reflexivity. Qed.

Lemma Ldn_wf l :
  cwf Ldn_codec l <->
  buf_ok 16 (ln_unkRandom l) /\ is_u16 (ln_securityMode l) /\ is_u8 (ln_stationAcceptPolicy l) /\
  buf_ok 3 (ln_unk1 l) /\ is_u8 (ln_nodeCountMax l) /\ is_u8 (ln_nodeCount l) /\
  (length (ln_nodes l) = NodeCountMax /\ Forall (cwf NodeInfo_codec) (ln_nodes l)) /\
  is_u16 (ln_unk2 l) /\ is_u16 (ln_advertiseDataSize l) /\
  buf_ok AdvertiseDataSizeMax (ln_advertiseData l) /\ buf_ok 148 (ln_unk3 l).
Proof. reflexivity. Qed.

Lemma NetworkInfo_wf n :
  cwf NetworkInfo_codec n <->
  cwf IntentId_codec (nw_intentId n) /\ buf_ok 16 (nw_sessionId n) /\
  cwf Common_codec (nw_common n) /\ cwf Ldn_codec (nw_ldn n).
Proof. reflexivity. Qed.

Lemma buf_ok_replicate n : buf_ok n (replicate n 0).
Proof. split; [apply length_replicate|]. apply Forall_replicate. unfold is_u8; lia. Qed.
#[local] Hint Resolve buf_ok_replicate : slp.

Lemma NodeInfo_zero_wf : cwf NodeInfo_codec NodeInfo_zero.
Proof. rewrite NodeInfo_wf. cbn -[replicate]. split_and!; try apply buf_ok_replicate; word_lia. Qed.

Lemma FakeMac_ok ip : buf_ok 6 (FakeMac ip).
Proof.
  split; [done|]. unfold FakeMac. apply Forall_app. split; [repeat constructor; word_lia|].
  apply le_enc_bytes.
Qed.

Lemma cstr_spec l : (length (cstr l) <= length l)%nat /\ (is_bytes l -> is_bytes (cstr l)).
Proof.
  induction l as [|c l [IH1 IH2]]; [done|]. cbn [cstr]. destruct (c =? 0); cbn [length].
  - split; [lia|constructor].
  - split; [lia|]. intros H. apply Forall_cons_1 in H as [? ?]. constructor; auto.
Qed.

Lemma strncpy_term_ok n src : is_bytes src -> buf_ok (n + 1) (strncpy_term n src).
Proof.
  intros Hs. unfold strncpy_term. destruct (cstr_spec (take n src)) as [Hl Hb].
  rewrite length_take in Hl. specialize (Hb (Forall_take _ _ _ Hs)).
  assert (length (take n (cstr (take n src))) <= n)%nat by (rewrite length_take; lia).
  split.
  - rewrite !length_app, length_replicate. cbn [length]. lia.
  - rewrite !Forall_app. split_and!; [by apply Forall_take| |repeat constructor; word_lia].
    apply Forall_replicate. unfold is_u8; lia.
Qed.

Lemma overwrite0_ok n src dst :
  buf_ok n dst -> is_bytes src -> (length src <= n)%nat -> buf_ok n (overwrite0 src dst).
Proof.
  intros [Hl Hb] Hs Hle. unfold overwrite0. split.
  - rewrite length_app, length_drop. lia.
  - apply Forall_app. split; [done|by apply Forall_drop].
Qed.

Lemma station_nodes_length nid l : length (station_nodes nid l) = length (filter station_in l).
Proof.
  revert nid; induction l as [|t l IH]; intros nid; [done|]. cbn [station_nodes].
  rewrite filter_cons. destruct (station_in t) eqn:E.
  - rewrite decide_True by done. cbn [length]. by rewrite IH.
  - rewrite decide_False by (by intros []). apply IH.
Qed.

Lemma listed_node_wf nid t :
  cwf NodeInfo_codec (st_node t) -> (nid < 256)%nat -> cwf NodeInfo_codec (listed_node nid t).
Proof.
  rewrite !NodeInfo_wf. intros (H1 & H2 & _ & _ & H5 & H6 & H7 & H8) Hn. cbn.
  split_and!; try done; word_lia.
Qed.

Lemma station_nodes_wf nid l :
  Forall station_ok l -> (nid + length l < 256)%nat ->
  Forall (cwf NodeInfo_codec) (station_nodes nid l).
Proof.
  revert nid; induction l as [|t l IH]; intros nid Hl Hn; [constructor|].
  apply Forall_cons_1 in Hl as [Ht Hl]. cbn [station_nodes length] in *.
  destruct (station_in t); [constructor; [apply listed_node_wf; [apply Ht|lia]|]|]; apply IH; (done || lia).
Qed.

Lemma stations7_ok s : ctl_wf s -> length (stations7 s) = 7%nat /\ Forall station_ok (stations7 s).
Proof.
  intros H. destruct (wf_stations s H) as [Hl Hf]. unfold stations7. split.
  - rewrite length_take. unfold StationCountMax, NodeCountMax in *. lia.
  - by apply Forall_take.
Qed.

Lemma StationCount_le s : ctl_wf s -> (StationCount s <= 7)%nat.
Proof.
  intros H. unfold StationCount. destruct (stations7_ok s H) as [Hl _]. rewrite <- Hl.
  apply length_filter.
Qed.

Lemma host_node_wf s : ctl_wf s -> cwf NodeInfo_codec (host_node s).
Proof.
  intros H. rewrite NodeInfo_wf. unfold host_node; cbn -[replicate strncpy_term FakeMac].
  split_and!; try word_lia; auto using buf_ok_replicate, FakeMac_ok, wf_ip, wf_version.
  apply (strncpy_term_ok 32). by apply wf_name.
Qed.

Lemma BuildNetwork_wf s : ctl_wf s -> cwf NetworkInfo_codec (BuildNetwork s).
Proof.
  intros H. pose proof (wf_info s H) as Hi. pose proof (wf_adv s H) as [Hal Hab].
  pose proof (wf_adv_size s H) as Has. pose proof (StationCount_le s H) as Hc.
  destruct (stations7_ok s H) as [Hl7 Hf7].
  rewrite NetworkInfo_wf in *. destruct Hi as (H1 & H2 & H3 & H4). rewrite Ldn_wf in *.
  unfold BuildNetwork; cbn [nw_intentId nw_sessionId nw_common nw_ldn ln_unkRandom ln_securityMode
    ln_stationAcceptPolicy ln_unk1 ln_nodeCountMax ln_nodeCount ln_nodes ln_unk2
    ln_advertiseDataSize ln_advertiseData ln_unk3].
  destruct H4 as (L1 & L2 & L3 & L4 & L5 & L6 & [L7 L7'] & L8 & L9 & L10 & L11).
  assert (length (host_node s :: station_nodes 1 (stations7 s)) <= 8)%nat as Hn.
  { cbn [length]. rewrite station_nodes_length. unfold StationCount in Hc. lia. }
  assert (buf_ok AdvertiseDataSizeMax
            (if 0 <? m_advertise_size s
             then overwrite0 (take (Z.to_nat (m_advertise_size s)) (m_advertise_data s))
                    (ln_advertiseData (nw_ldn (m_network_info s)))
             else replicate AdvertiseDataSizeMax 0)) as Hadv.
  { destruct (0 <? m_advertise_size s); [|apply buf_ok_replicate].
    apply overwrite0_ok; [done|by apply Forall_take|].
    rewrite length_take. unfold AdvertiseDataSizeMax in *. lia. }
  assert (length ((host_node s :: station_nodes 1 (stations7 s)) ++
                  replicate (NodeCountMax - length (host_node s :: station_nodes 1 (stations7 s)))
                    NodeInfo_zero) = NodeCountMax) as Hnl
    by (rewrite length_app, length_replicate; unfold NodeCountMax; lia).
  assert (Forall (cwf NodeInfo_codec) ((host_node s :: station_nodes 1 (stations7 s)) ++
                  replicate (NodeCountMax - length (host_node s :: station_nodes 1 (stations7 s)))
                    NodeInfo_zero)) as Hnf.
  { apply Forall_app. split; [constructor; [by apply host_node_wf|]|].
    - apply station_nodes_wf; [done|lia].
    - apply Forall_replicate, NodeInfo_zero_wf. }
  refine (conj H1 (conj H2 (conj H3 (conj L1 (conj L2 (conj L3 (conj L4 (conj L5 (conj _
           (conj (conj Hnl Hnf) (conj L8 (conj _ (conj Hadv L11))))))))))))); word_lia.
Qed.

(** *** The invariant is kept by the elementary updates *)
Lemma next_seq_ok q : is_u16 (next_seq q) /\ next_seq q <> 0.
Proof.
  unfold next_seq. destruct (u16 (q + 1) =? 0) eqn:E; [|split; [apply u16_range|lia]].
  apply Z.eqb_eq in E. rewrite E. done.
Qed.

Lemma wf_SignalStateChange s : ctl_wf s -> ctl_wf (SignalStateChange s).
Proof. unfold SignalStateChange. wf_rebuild. Qed.

Lemma wf_SetState st s : ctl_wf s -> ctl_wf (SetState st s).
Proof.
  intros H. unfold SetState. case_match; [done|]. apply wf_SignalStateChange. revert H. wf_rebuild.
Qed.

Lemma wf_OnNetworkInfoChanged s : ctl_wf s -> ctl_wf (OnNetworkInfoChanged s).
Proof.
  intros H. unfold OnNetworkInfoChanged.
  set (r := zip_with _ _ _).
  assert (length r = NodeCountMax) as Hr.
  { unfold r. rewrite length_zip_with, length_zip_with, length_take, (wf_prev s H), (wf_changes s H).
    pose proof (wf_info s H) as Hi. rewrite NetworkInfo_wf, Ldn_wf in Hi.
    destruct Hi as (_ & _ & _ & _ & _ & _ & _ & _ & _ & [Hn _] & _). rewrite Hn. done. }
  assert (ctl_wf (set_m_node_changes (set_m_prev_node_connected s r.*1) r.*2)) as H'.
  { revert H. wf_rebuild; by rewrite length_fmap. }
  case_match; [by apply wf_SignalStateChange|done].
Qed.

Lemma station_clear_ok t : station_ok t -> station_ok (station_clear t).
Proof. intros (_ & _ & Ht & _). split_and!; try done. apply NodeInfo_zero_wf. Qed.

(** Slots changed so that no new address appears. *)
Lemma wf_set_stations s l :
  ctl_wf s -> length l = NodeCountMax -> Forall station_ok l ->
  (forall i t, l !! i = Some t -> st_active t = true ->
     exists u, m_stations s !! i = Some u /\ st_active u = true /\ st_src_ip u = st_src_ip t) ->
  ctl_wf (set_m_stations s l).
Proof.
  intros H Hl Hf Hsub. pose proof (wf_distinct s H) as Hd. pose proof (wf_slot8 s H) as H8.
  revert H. wf_rebuild.
  - intros i j t u Hi Hj Ht Hu E.
    destruct (Hsub i t Hi Ht) as (t' & Hi' & Ht' & Et).
    destruct (Hsub j u Hj Hu) as (u' & Hj' & Hu' & Eu).
    apply (Hd i j t' u'); congruence.
  - intros t Ht. destruct (st_active t) eqn:E; [|done].
    destruct (Hsub 7%nat t Ht E) as (u & Hu & Hu' & _). by rewrite (H8 u Hu) in Hu'.
Qed.

(** An update of each slot that activates none and keeps addresses. *)
Lemma wf_map_stations s f :
  ctl_wf s -> (forall t, station_ok t -> station_ok (f t)) ->
  (forall t, st_active (f t) = true -> st_active t = true) ->
  (forall t, st_src_ip (f t) = st_src_ip t) ->
  ctl_wf (set_m_stations s ((f <$> take StationCountMax (m_stations s)) ++
                            drop StationCountMax (m_stations s))).
Proof.
  intros H Hf Ha Hip. destruct (wf_stations s H) as [Hl Hst].
  apply wf_set_stations; [done| | |].
  - rewrite length_app, length_fmap, length_take, length_drop. lia.
  - rewrite <- (take_drop StationCountMax (m_stations s)) in Hst. apply Forall_app in Hst as [H1 H2].
    apply Forall_app. split; [|done]. apply Forall_fmap. eapply Forall_impl; [|exact H1]. auto.
  - intros i t Hi Ht. apply lookup_app_Some in Hi as [Hi|[Hge Hi]].
    + apply list_lookup_fmap_Some in Hi as (u & -> & Hu). apply lookup_take_Some in Hu as [Hu _].
      exists u. split; [done|]. split; [by apply Ha|by rewrite Hip].
    + rewrite length_fmap, length_take in *. rewrite lookup_drop in Hi.
      exists t. split; [|done]. rewrite <- Hi. f_equal. unfold StationCountMax, NodeCountMax in *. lia.
Qed.

Lemma wf_ResetStations s : ctl_wf s -> ctl_wf (ResetStations s).
Proof. intros. apply (wf_map_stations s station_clear); auto using station_clear_ok. done. Qed.

(** The same for one slot. *)
Lemma wf_set_station s nid f :
  ctl_wf s -> (forall t, station_ok t -> station_ok (f t)) ->
  (forall t, st_active (f t) = true -> st_active t = true) ->
  (forall t, st_src_ip (f t) = st_src_ip t) -> ctl_wf (set_station s nid f).
Proof.
  intros H Hf Ha Hip. destruct (wf_stations s H) as [Hl Hst]. unfold set_station.
  apply wf_set_stations; [done|by rewrite length_alter| |].
  - apply Forall_alter; [done|]. auto.
  - intros i t Hi Ht. destruct (decide (i = nid - 1)%nat) as [->|Hne].
    + rewrite list_lookup_alter_eq in Hi. apply fmap_Some in Hi as (u & Hu & ->).
      exists u. split; [done|]. split; [by apply Ha|by rewrite Hip].
    + rewrite list_lookup_alter_ne in Hi by done. eauto.
Qed.

(** *** Every method keeps the invariant *)
Ltac wf_modify := apply keeps_modify; let H := fresh "Hwf" in intros ? H; revert H.

Lemma wf_SendFrame running dst type body : keeps ctl_wf (SendFrame running dst type body).
Proof.
  unfold SendFrame. keeps_walk. wf_modify. wf_rebuild. apply next_seq_ok.
Qed.

Lemma wf_UpdateNodes running : keeps ctl_wf (UpdateNodes running).
Proof.
  unfold UpdateNodes. keeps_walk; [|apply wf_SendFrame|].
  - apply keeps_modify. intros s H. pose proof (BuildNetwork_wf s H). revert H. wf_rebuild.
  - apply keeps_modify. apply wf_OnNetworkInfoChanged.
Qed.

Lemma scanner_slot_range l src now : forall i free,
  (match free with Some f => (f < i)%nat | None => True end) ->
  match scanner_slot l src now i free with
  | inl j => (i <= j < i + length l)%nat
  | inr (Some j) => (j < i + length l)%nat
  | inr None => True
  end.
Proof.
  induction l as [|e l IH]; intros i free Hf; cbn [scanner_slot length].
  - destruct free; [lia|done].
  - destruct (_ && _); [lia|].
    match goal with |- context [scanner_slot l src now (S i) ?fr] =>
      assert (match fr with Some f => (f < S i)%nat | None => True end) as Hfr
        by (destruct free; simpl in *; [lia|destruct (negb (se_used e) || _); [lia|done]]);
      specialize (IH (S i) fr Hfr); simpl in IH;
      destruct (scanner_slot l src now (S i) fr) as [j|[j|]]; [lia|lia|done] end.
Qed.

Lemma wf_RecordScanner src now s : ctl_wf s -> ctl_wf (RecordScanner src now s).
Proof.
  intros H. unfold RecordScanner. destruct (scanner_slot _ _ _ _ _); revert H; wf_rebuild.
  - by rewrite length_alter.
  - by rewrite length_insert.
Qed.

Lemma wf_HandleScan running now src : keeps ctl_wf (HandleScan running now src).
Proof.
  unfold HandleScan. keeps_walk; [|apply wf_SendFrame]. apply keeps_modify, wf_RecordScanner.
Qed.

Lemma wf_HandleScanResp src body : is_bytes body -> keeps ctl_wf (HandleScanResp src body).
Proof.
  intros Hb. unfold HandleScanResp.
  destruct (length body =? sizeof_NetworkInfo)%nat eqn:El; [|keeps_walk; done].
  apply Nat.eqb_eq in El.
  assert (cwf NetworkInfo_codec (cdec NetworkInfo_codec body)) as Hw
    by (apply cdec_wf; [done|unfold sizeof_NetworkInfo in El; lia]).
  apply triple_get. intros s0 H0. cbn [negb].
  destruct (src =? _); [by apply triple_ret; intros ? ->|].
  destruct (_ && _); [by apply triple_ret; intros ? ->|].
  destruct (find_result _ _).
  - apply triple_modify. intros ? ->. revert H0. wf_rebuild. rewrite length_insert.
    destruct wf_results0. split; [done|]. by apply Forall_insert.
  - destruct (_ <? _)%nat eqn:Hlt; [|by apply triple_ret; intros ? ->].
    apply Nat.ltb_lt in Hlt. apply triple_modify. intros ? ->. revert H0. wf_rebuild; [|lia].
    rewrite length_insert. destruct wf_results0. split; [done|]. by apply Forall_insert.
Qed.

Lemma find_nid_Some p s nid :
  find_nid p s = Some nid ->
  (1 <= nid <= 7)%nat /\ exists t, m_stations s !! (nid - 1)%nat = Some t /\ p t = true /\
  forall j u, (j < nid - 1)%nat -> m_stations s !! j = Some u -> p u = false.
Proof.
  unfold find_nid. destruct (list_find p (stations7 s)) as [[i t]|] eqn:E; [|done].
  intros [= <-]. apply list_find_Some in E as (Hi & Hp & Hmin).
  unfold stations7 in *. apply lookup_take_Some in Hi as [Hi Hlt].
  unfold StationCountMax, NodeCountMax in *. split; [lia|]. exists t.
  replace (S i - 1)%nat with i by lia. split; [done|]. split; [by apply Is_true_true|].
  intros j u Hj Hu. destruct (p u) eqn:Ep; [|done]. exfalso. apply (Hmin j u); [|done|by apply Is_true_true].
  apply lookup_take_Some. split; [done|lia].
Qed.

Lemma find_nid_None p s :
  find_nid p s = None -> forall j u, (j < 7)%nat -> m_stations s !! j = Some u -> p u = false.
Proof.
  unfold find_nid. destruct (list_find p (stations7 s)) as [[i t]|] eqn:E; [done|].
  intros _ j u Hj Hu. apply list_find_None in E.
  destruct (p u) eqn:Ep; [|done]. exfalso.
  assert (stations7 s !! j = Some u) as Hs.
  { unfold stations7. apply lookup_take_Some. unfold StationCountMax, NodeCountMax. split; [done|lia]. }
  pose proof (Forall_lookup_1 _ _ _ _ E Hs) as Hn. cbn in Hn. by rewrite Ep in Hn.
Qed.

(** Registering a station in the slot found for it. *)
Lemma wf_register s nid src t :
  ctl_wf s -> station_ok t -> st_src_ip t = src -> (1 <= nid <= 7)%nat ->
  (FindStationByIp s src = Some nid \/ FindStationByIp s src = None) ->
  ctl_wf (set_station s nid (fun _ => t)).
Proof.
  intros H Ht Hip Hnid Hfind. destruct (wf_stations s H) as [Hl Hst].
  pose proof (wf_distinct s H) as Hd. pose proof (wf_slot8 s H) as H8.
  assert (forall j u, j <> (nid - 1)%nat -> m_stations s !! j = Some u -> st_active u = true ->
            st_src_ip u <> src) as Hno.
  { intros j u Hj Hu Ha Hs. assert (j < 7)%nat as Hj7.
    { apply lookup_lt_Some in Hu as Hlt. rewrite Hl in Hlt. unfold NodeCountMax in Hlt.
      destruct (decide (j = 7)%nat) as [->|]; [|lia]. rewrite (H8 u Hu) in Ha. done. }
    destruct Hfind as [Hf|Hf].
    - apply find_nid_Some in Hf as (_ & v & Hv & Hp & _).
      apply andb_true_iff in Hp as [Hva Hvs]. apply Hj. apply (Hd j (nid - 1)%nat u v); try done. lia.
    - pose proof (find_nid_None _ _ Hf j u Hj7 Hu) as Hn. cbn in Hn. rewrite Ha, Hs, Z.eqb_refl in Hn. done. }
  revert H. unfold set_station. wf_rebuild.
  - split; [by rewrite length_alter|]. by apply Forall_alter.
  - intros i j u v Hi Hj Hu Hv E.
    destruct (decide (i = nid - 1)%nat) as [->|Hi'], (decide (j = nid - 1)%nat) as [->|Hj']; [done|..].
    + rewrite list_lookup_alter_eq in Hi. apply fmap_Some in Hi as (u0 & _ & ->).
      rewrite list_lookup_alter_ne in Hj by done. exfalso. apply (Hno j v); [done..|]. congruence.
    + rewrite list_lookup_alter_eq in Hj. apply fmap_Some in Hj as (u0 & _ & ->).
      rewrite list_lookup_alter_ne in Hi by done. exfalso. apply (Hno i u); [done..|]. congruence.
    + rewrite list_lookup_alter_ne in Hi, Hj by done. apply (Hd i j u v); done.
  - intros u Hu. rewrite list_lookup_alter_ne in Hu by lia. by apply H8.
Qed.

Lemma register_node_wf nid src node :
  cwf NodeInfo_codec node -> is_u32 src -> (nid < 256)%nat ->
  cwf NodeInfo_codec (register_node nid src node).
Proof.
  rewrite !NodeInfo_wf. intros (_ & _ & _ & _ & H5 & H6 & H7 & H8) Hs Hn.
  unfold register_node; cbn -[FakeMac].
  split_and!; try done; try apply FakeMac_ok; word_lia.
Qed.

Lemma wf_HandleConnect running now src body :
  is_u32 src -> is_bytes body -> keeps ctl_wf (HandleConnect running now src body).
Proof.
  intros Hsrc Hb. unfold HandleConnect. apply triple_get. intros s0 H0.
  destruct (negb _); [by apply triple_ret; intros ? ->|].
  destruct (length body =? sizeof_NodeInfo)%nat eqn:El; [|by apply triple_ret; intros ? ->].
  apply Nat.eqb_eq in El. cbn [negb].
  destruct (negb _ && _); [by apply triple_ret; intros ? ->|].
  destruct (connect_slot s0 src) as [nid|] eqn:En; [|by apply triple_ret; intros ? ->].
  assert ((1 <= nid <= 7)%nat /\ (FindStationByIp s0 src = Some nid \/ FindStationByIp s0 src = None))
    as [Hnid Hf].
  { unfold connect_slot in En. destruct (FindStationByIp s0 src) as [n|] eqn:Ef.
    - injection En as ->. apply find_nid_Some in Ef as [? _]. auto.
    - destruct (_ <=? _)%nat; [done|]. apply find_nid_Some in En as [? _]. auto. }
  eapply (triple_bind _ (fun _ => ctl_wf)); [|intros ?; apply wf_UpdateNodes].
  apply triple_modify. intros ? ->. apply (wf_register _ _ src); try done.
  assert (cwf NodeInfo_codec (cdec NodeInfo_codec body)) as Hw
    by (apply cdec_wf; [done|unfold sizeof_NodeInfo in El; lia]).
  split_and!; try done. apply register_node_wf; [done|done|lia].
Qed.

Lemma wf_HandleSyncNetwork now body seq :
  is_bytes body -> keeps ctl_wf (HandleSyncNetwork now body seq).
Proof.
  intros Hb. unfold HandleSyncNetwork. keeps_get s0 H0.
  destruct (length body =? sizeof_NetworkInfo)%nat eqn:El; [|apply keeps_skip].
  apply Nat.eqb_eq in El.
  assert (cwf NetworkInfo_codec (cdec NetworkInfo_codec body)) as Hw
    by (apply cdec_wf; [done|unfold sizeof_NetworkInfo in El; lia]).
  cbn [negb]. keeps_walk.
  all: first [apply keeps_modify, wf_SetState | apply keeps_modify, wf_OnNetworkInfoChanged
             | wf_modify; by wf_rebuild].
Qed.

Lemma wf_HandleRelayHeartbeat now src body : keeps ctl_wf (HandleRelayHeartbeat now src body).
Proof.
  unfold HandleRelayHeartbeat. keeps_get s0 H0. keeps_walk.
  apply keeps_modify. intros s H. by apply wf_set_station.
Qed.

Lemma wf_end_session reason : keeps ctl_wf (end_session reason).
Proof. apply keeps_modify. intros s H. apply wf_SetState. revert H. wf_rebuild. Qed.

Lemma wf_HandleRelayBye running src body : keeps ctl_wf (HandleRelayBye running src body).
Proof.
  unfold HandleRelayBye. keeps_get s0 H0. keeps_walk; try apply wf_UpdateNodes; try apply wf_end_session.
  apply keeps_modify. intros s H. apply wf_set_station; auto using station_clear_ok. done.
Qed.

Lemma Decompress_is_bytes body cap d : is_bytes body -> Decompress body cap = Some d -> is_bytes d.
Proof. apply Decompress_bytes. Qed.

Lemma parse_control_bytes payload type body seq :
  is_bytes payload -> parse_control payload = Some (type, body, seq) -> is_bytes body.
Proof.
  intros Hp. unfold parse_control. repeat (case_match; try done); intros [= <- <- <-].
  - eapply Decompress_is_bytes; [|done]. by apply Forall_take, Forall_drop.
  - by apply Forall_take, Forall_drop.
Qed.

Lemma wf_OnControlFrame running now src payload :
  is_u32 src -> is_bytes payload -> keeps ctl_wf (OnControlFrame running now src payload).
Proof.
  intros Hsrc Hp. unfold OnControlFrame.
  destruct (parse_control payload) as [[[type body] seq]|] eqn:E; [|apply keeps_skip].
  pose proof (parse_control_bytes _ _ _ _ Hp E).
  repeat (case_match; [by auto using wf_HandleScan, wf_HandleScanResp, wf_HandleConnect,
    wf_HandleSyncNetwork, wf_HandleRelayHeartbeat, wf_HandleRelayBye|]). apply keeps_skip.
Qed.

Lemma wf_Tick running now : keeps ctl_wf (Tick running now).
Proof.
  unfold Tick. keeps_get s0 H0. keeps_walk; try apply wf_UpdateNodes; try apply wf_SendFrame;
    try apply wf_end_session; try (wf_modify; by wf_rebuild).
  apply keeps_modify. intros s H. apply (wf_map_stations s (reap now)); [done| | |];
    unfold reap; intros t; case_match; auto using station_clear_ok; done.
Qed.

(** *** The methods of the service *)
Lemma wf_EnterLocalNetworkMode nf : keeps ctl_wf (EnterLocalNetworkMode nf).
Proof. unfold EnterLocalNetworkMode. keeps_walk; wf_modify; by wf_rebuild. Qed.
Lemma wf_ExitLocalNetworkMode nf : keeps ctl_wf (ExitLocalNetworkMode nf).
Proof. unfold ExitLocalNetworkMode. keeps_walk; wf_modify; by wf_rebuild. Qed.
Lemma wf_exit_if_local nf : keeps ctl_wf (exit_if_local nf).
Proof. unfold exit_if_local. keeps_walk. apply wf_ExitLocalNetworkMode. Qed.
Lemma wf_enter_if_not_local nf : keeps ctl_wf (enter_if_not_local nf).
Proof. unfold enter_if_not_local. keeps_walk. apply wf_EnterLocalNetworkMode. Qed.

(** Closes the state updates that reset stations and move the state machine. *)
Ltac wf_reset :=
  apply keeps_modify; let s := fresh "s" in let H := fresh "H" in intros s H;
  first [ apply wf_SetState, wf_ResetStations; revert H; by wf_rebuild
        | apply wf_SetState; revert H; by wf_rebuild
        | revert H; by wf_rebuild ].

Lemma ParseIp_loop_u32 l : forall v oct cur, is_u32 v -> is_u32 (ParseIp_loop l v oct cur).
Proof.
  assert (is_u32 0) as H0 by word_lia.
  induction l as [|c l IH]; intros v oct cur Hv; cbn [ParseIp_loop].
  - destruct (_ || _); [done|]. destruct (_ =? 4); [apply u32_range|done].
  - destruct (_ && _); [by apply IH|]. destruct (c =? 46); [|done].
    destruct (_ || _); [done|]. apply IH, u32_range.
Qed.
Lemma ParseIp_u32 l : is_u32 (ParseIp l).
Proof. apply ParseIp_loop_u32. word_lia. Qed.

Lemma wf_InitNodeStateChange s : ctl_wf s -> ctl_wf (InitNodeStateChange s).
Proof. unfold InitNodeStateChange. wf_rebuild. Qed.

Lemma wf_Initialize ip nf : keeps ctl_wf (Initialize ip nf).
Proof.
  unfold Initialize. keeps_walk; [|apply wf_exit_if_local|].
  - apply keeps_modify. intros s H. apply wf_InitNodeStateChange, wf_ResetStations.
    pose proof (ParseIp_u32 ip). revert H. wf_rebuild; [|lia]. case_match; [word_lia|done].
  - wf_reset.
Qed.

Lemma wf_Finalize nf : keeps ctl_wf (Finalize nf).
Proof.
  unfold Finalize. keeps_walk; [apply wf_exit_if_local|].
  apply keeps_modify. intros s H. apply wf_SetState, wf_ResetStations. revert H. wf_rebuild. lia.
Qed.

Lemma wf_OpenAccessPoint nf : keeps ctl_wf (OpenAccessPoint nf).
Proof. unfold OpenAccessPoint. keeps_walk; try apply wf_enter_if_not_local; wf_reset. Qed.
Lemma wf_CloseAccessPoint nf : keeps ctl_wf (CloseAccessPoint nf).
Proof. unfold CloseAccessPoint. keeps_walk; try apply wf_exit_if_local; wf_reset. Qed.
Lemma wf_OpenStation nf : keeps ctl_wf (OpenStation nf).
Proof. unfold OpenStation. keeps_walk; try apply wf_enter_if_not_local; wf_reset. Qed.

(** What the game and the random generator pass is of its type. *)
Definition create_ok (d : CreateNetworkConfig) (session random : bytes) : Prop :=
  is_u16 (cc_securityMode d) /\ is_bytes (cc_userName d) /\
  cwf IntentId_codec (nc_intentId (cc_networkConfig d)) /\ is_u16 (nc_channel (cc_networkConfig d)) /\
  is_u8 (nc_nodeCountMax (cc_networkConfig d)) /\
  is_u16 (nc_localCommunicationVersion (cc_networkConfig d)) /\ buf_ok 16 session /\ buf_ok 16 random.

Lemma wf_CreateNetwork running d session random :
  create_ok d session random -> keeps ctl_wf (CreateNetwork running d session random).
Proof.
  intros (H1 & H2 & H3 & H4 & H5 & H6 & H7 & H8). unfold CreateNetwork.
  keeps_walk; [|apply wf_UpdateNodes]. apply keeps_modify. intros s H.
  apply wf_SetState, wf_InitNodeStateChange, wf_ResetStations.
  assert (cwf NetworkInfo_codec
    (mkNetwork (nc_intentId (cc_networkConfig d)) session
       (mkCommon (FakeMac (m_ipv4_address s)) 32 FakeSsid
          (if nc_channel (cc_networkConfig d) =? 0 then 6 else nc_channel (cc_networkConfig d)) 3 2 0)
       (mkLdn random (cc_securityMode d) 0 (replicate 3 0) (nc_nodeCountMax (cc_networkConfig d))
          0 (replicate NodeCountMax NodeInfo_zero) 0 0 (replicate AdvertiseDataSizeMax 0)
          (replicate 148 0)))) as Hinfo.
  { rewrite NetworkInfo_wf, Common_wf, Ldn_wf. cbn -[replicate FakeMac FakeSsid].
    assert (buf_ok 33 FakeSsid) by (split; [done|repeat constructor; word_lia]).
    assert (is_u16 (if nc_channel (cc_networkConfig d) =? 0 then 6 else nc_channel (cc_networkConfig d)))
      by (case_match; [word_lia|done]).
    assert (is_u8 0 /\ is_u16 0 /\ is_u32 0 /\ is_u8 2 /\ is_u8 3 /\ is_u8 32)
      as (? & ? & ? & ? & ? & ?) by (unfold is_u8, is_u16, is_u32; lia).
    assert (length (replicate NodeCountMax NodeInfo_zero) = NodeCountMax /\
            Forall (cwf NodeInfo_codec) (replicate NodeCountMax NodeInfo_zero))
      by (split; [done|]; apply Forall_replicate, NodeInfo_zero_wf).
    destruct (FakeMac_ok (m_ipv4_address s)) as [HF1 HF2].
    refine (conj H3 (conj H7 (conj (conj (conj HF1 HF2) (conj _ (conj _ (conj _ (conj _ (conj _ _))))))
      (conj H8 (conj H1 (conj _ (conj (buf_ok_replicate 3) (conj H5 (conj _ (conj _ (conj _ (conj _
        (conj (buf_ok_replicate _) (buf_ok_replicate _)))))))))))))); done. }
  assert (is_bytes (strncpy_term UserNameBytesMax (cc_userName d))) as Hname
    by (apply (strncpy_term_ok 32); done).
  pose proof (buf_ok_replicate AdvertiseDataSizeMax) as Hadv.
  revert H. wf_rebuild.
Qed.

Lemma wf_send_bye running dst bssid : keeps ctl_wf (send_bye running dst bssid).
Proof. unfold send_bye. keeps_walk. apply wf_SendFrame. Qed.

Lemma wf_DestroyNetwork running : keeps ctl_wf (DestroyNetwork running).
Proof. unfold DestroyNetwork. keeps_walk; try apply wf_send_bye; wf_reset. Qed.

Lemma set_advertiseDataSize_wf i n :
  cwf NetworkInfo_codec i -> is_u16 n -> cwf NetworkInfo_codec (set_advertiseDataSize i n).
Proof.
  rewrite !NetworkInfo_wf, !Ldn_wf. intros (H1 & H2 & H3 & L1 & L2 & L3 & L4 & L5 & L6 & L7 & L8 & L9 & L10) Hn.
  exact (conj H1 (conj H2 (conj H3 (conj L1 (conj L2 (conj L3 (conj L4 (conj L5 (conj L6
           (conj L7 (conj L8 (conj Hn L10)))))))))))).
Qed.
Lemma set_stationAcceptPolicy_wf i p :
  cwf NetworkInfo_codec i -> is_u8 p -> cwf NetworkInfo_codec (set_stationAcceptPolicy i p).
Proof.
  rewrite !NetworkInfo_wf, !Ldn_wf. intros (H1 & H2 & H3 & L1 & L2 & L3 & L4) Hp.
  exact (conj H1 (conj H2 (conj H3 (conj L1 (conj L2 (conj Hp L4)))))).
Qed.

Lemma wf_SetAdvertiseData running data size :
  (match data with Some d => is_bytes d | None => True end) ->
  keeps ctl_wf (SetAdvertiseData running data size).
Proof.
  intros Hd. unfold SetAdvertiseData. destruct (_ <? size)%nat eqn:E; [apply keeps_ret|].
  apply Nat.ltb_ge in E. unfold AdvertiseDataSizeMax in E.
  keeps_walk; [|apply wf_UpdateNodes]. apply keeps_modify. intros s H.
  set (s1 := match data with Some d => _ | None => s end).
  assert (ctl_wf s1) as H1.
  { unfold s1. destruct data as [d|]; [|done]. destruct (0 <? size)%nat; [|done].
    assert (buf_ok AdvertiseDataSizeMax (overwrite0 (take size d) (m_advertise_data s))).
    { apply overwrite0_ok; [apply (wf_adv s H)|by apply Forall_take|].
      rewrite length_take. unfold AdvertiseDataSizeMax. lia. }
    revert H. wf_rebuild. }
  assert (0 <= u16 (Z.of_nat size) <= 384) by (rewrite u16_id; word_lia).
  assert (cwf NetworkInfo_codec (set_advertiseDataSize (m_network_info s1) (u16 (Z.of_nat size))))
    by (apply set_advertiseDataSize_wf; [by apply wf_info|unfold is_u16; lia]).
  revert H1. wf_rebuild.
Qed.

Lemma wf_SetStationAcceptPolicy p : is_u8 p -> keeps ctl_wf (SetStationAcceptPolicy p).
Proof.
  intros Hp. unfold SetStationAcceptPolicy. keeps_walk. apply keeps_modify. intros s H.
  pose proof (set_stationAcceptPolicy_wf _ p (wf_info s H) Hp). revert H. wf_rebuild.
Qed.

Lemma wf_Reject running id : keeps ctl_wf (Reject running id).
Proof.
  unfold Reject. keeps_walk; [|apply wf_UpdateNodes]. apply keeps_modify. intros s H.
  apply wf_set_station; [done| |done|done]. intros t (_ & ? & ? & _). by split_and!.
Qed.

Lemma wf_Disconnect running : keeps ctl_wf (Disconnect running).
Proof. unfold Disconnect. keeps_walk; try apply wf_send_bye; wf_reset. Qed.

Lemma wf_GetNetworkInfoLatestUpdate n : keeps ctl_wf (GetNetworkInfoLatestUpdate n).
Proof.
  unfold GetNetworkInfoLatestUpdate. keeps_walk.
  match goal with H : (NodeCountMax <? n)%nat = false |- _ => apply Nat.ltb_ge in H; rename H into Hn end.
  wf_modify. wf_rebuild. rewrite length_app, length_replicate, length_drop. lia.
Qed.

(** Scanning and connecting keep the invariant if what runs meanwhile does. *)
Lemma wf_scan_poll running env n : (forall i, keeps ctl_wf (env i)) -> forall i last stable,
  keeps ctl_wf (scan_poll running env n i last stable).
Proof.
  intros Henv. induction n as [|n IH]; intros i last stable; cbn [scan_poll]; [apply keeps_skip|].
  keeps_walk; auto; apply wf_SendFrame.
Qed.

Lemma wf_Scan running env f cap :
  (forall i, keeps ctl_wf (env i)) -> keeps ctl_wf (Scan running env f cap).
Proof.
  intros Henv. unfold Scan. keeps_walk; try apply wf_SendFrame; try by apply wf_scan_poll.
  wf_modify. wf_rebuild. lia.
Qed.

Lemma wf_connect_poll running env n host my : (forall i, keeps ctl_wf (env i)) -> forall i,
  keeps ctl_wf (connect_poll running env n i host my).
Proof.
  intros Henv. induction n as [|n IH]; intros i; cbn [connect_poll]; [apply keeps_ret|].
  keeps_walk; auto; apply wf_SendFrame.
Qed.

Lemma wf_Connect running env dat data :
  (forall i, keeps ctl_wf (env i)) -> buf_ok 6 (cn_bssid (nw_common data)) ->
  keeps ctl_wf (Connect running env dat data).
Proof.
  intros Henv Hb. unfold Connect. keeps_walk; try apply wf_SendFrame; try (by apply wf_connect_poll);
    wf_modify; wf_rebuild. lia.
Qed.
