(* ===== verification/LdnSession.v ===== *)
(** Properties of the LDN control plane: its frames are read back, the published
    network follows the station table through every history of calls, no array
    is over-read, joining and leaving, timeouts, scanning and connecting. *)
From S2P Require Import Prelude Bytes CText Rle LdnTypes Tunnel LdnControl.

(** ** Frames and parsing *)
Lemma header_ok type comp len dlen seq :
  is_u8 type -> is_u8 comp -> is_u16 len -> is_u16 dlen -> is_u16 seq ->
  cwf LanPacketHeader_codec (mkHeader LanMagic type comp len dlen seq).
Proof.
  intros H1 H2 H3 H4 H5.
  refine (conj _ (conj H1 (conj H2 (conj H3 (conj H4 H5))))). done.
Qed.

(** What follows the header of an accepted frame. *)
Lemma parse_control_header h body :
  cwf LanPacketHeader_codec h -> lh_magic h = LanMagic ->
  lh_length h = Z.of_nat (length body) ->
  parse_control (cenc LanPacketHeader_codec h ++ body) =
    if negb (lh_compressed h =? 0) then
      match Decompress body sizeof_NetworkInfo with
      | None => None
      | Some d => if negb (Z.of_nat (length d) =? lh_decompress_length h) then None
                  else Some (lh_type h, d, lh_seq h)
      end
    else Some (lh_type h, body, lh_seq h).
Proof.
  intros Hw Hm Hl. unfold parse_control.
  assert (length (cenc LanPacketHeader_codec h) = sizeof_LanPacketHeader) as Hh
    by (apply (cenc_length h Hw)).
  rewrite length_app, Hh, (cdec_enc h body Hw), Hm, Z.eqb_refl, Hl, Nat2Z.id.
  rewrite drop_app_length' by done. rewrite take_ge by lia.
  rewrite (proj2 (Nat.ltb_ge _ _)) by lia. rewrite (proj2 (Nat.ltb_ge _ _)) by lia.
  reflexivity.
Qed.

Lemma parse_control_frame type seq body :
  is_u8 type -> is_u16 seq -> (length body <= sizeof_NetworkInfo)%nat ->
  parse_control (control_frame type seq body) = Some (type, body, seq).
Proof.
  intros Ht Hs Hb. unfold control_frame.
  destruct wire_sizes as (_ & Hsz & _ & _).
  assert (is_u8 0 /\ is_u8 1 /\ is_u16 0) as (? & ? & ?) by word_lia.
  destruct body as [|b body].
  { rewrite <- (app_nil_r (cenc _ _)), parse_control_header; [done|by apply header_ok|done|done]. }
  set (l := b :: body) in *.
  assert (u16 (Z.of_nat (length l)) = Z.of_nat (length l)) as Hlen by (apply u16_id; word_lia).
  destruct (Compress l sizeof_NetworkInfo) as [c|] eqn:Ec.
  - pose proof (Compress_length _ _ _ Ec) as Hcl.
    rewrite parse_control_header;
      [|apply header_ok; (done || apply u16_range)|done|apply u16_id; word_lia].
    cbn [lh_compressed lh_decompress_length lh_type lh_seq].
    rewrite (Compress_Decompress _ _ _ _ Ec) by done. by rewrite Hlen, Z.eqb_refl.
  - rewrite parse_control_header; [done|apply header_ok; (done || apply u16_range)|done|apply Hlen].
Qed.

(** every control frame this code sends is read back by [OnControlFrame]'s
    parser as the same type, body and sequence number, whether the body was
    run-length coded or sent as it is, for every body up to a [NetworkInfo]. *)
Theorem control_frame_roundtrip type seq body :
  is_u8 type -> is_u16 seq -> (length body <= sizeof_NetworkInfo)%nat ->
  parse_control (control_frame type seq body) = Some (type, body, seq).
Proof. apply parse_control_frame. Qed.

Lemma control_frame_roundtrip_witness :
  parse_control (control_frame LanPacket_RelayBye 7 (0 :: 0 :: 5 :: replicate 9 0)) =
    Some (LanPacket_RelayBye, 0 :: 0 :: 5 :: replicate 9 0, 7).
Proof. apply control_frame_roundtrip; [split; done|split; done|]. apply Nat.leb_le. reflexivity. Defined.

(** The same for a whole structure. *)
Lemma parse_control_struct {A} (c : Codec A) `{!CodecOk c} type seq a :
  is_u8 type -> is_u16 seq -> (csize c <= sizeof_NetworkInfo)%nat -> cwf c a ->
  parse_control (control_frame type seq (cenc c a)) = Some (type, cenc c a, seq).
Proof. intros. apply parse_control_frame; [done..|]. by rewrite cenc_length. Qed.

Lemma cdec_cenc {A} (c : Codec A) `{!CodecOk c} a : cwf c a -> cdec c (cenc c a) = a.
Proof. intros. rewrite <- (app_nil_r (cenc c a)). by apply cdec_enc. Qed.

Lemma le_fields_bytes h : is_bytes (cenc LanPacketHeader_codec h).
Proof. repeat (apply Forall_app; split); apply le_enc_bytes. Qed.

(** A frame is bytes. *)
Lemma control_frame_bytes type seq body : is_bytes body -> is_bytes (control_frame type seq body).
Proof.
  intros Hb. unfold control_frame. destruct body as [|b body]; [apply le_fields_bytes|].
  destruct (Compress (b :: body) sizeof_NetworkInfo) as [c|] eqn:E.
  - apply Forall_app. split; [apply le_fields_bytes|].
    eapply rle_of_bytes; [by eapply Compress_rle|done].
  - apply Forall_app. split; [apply le_fields_bytes|done].
Qed.

(** ** The published network *)

(** While hosting, the stored network information is the one built from the
    station table. *)
Definition host_synced (s : LdnControl) : Prop :=
  m_state s = CS_AccessPointCreated -> m_network_info s = BuildNetwork s.

Lemma overwrite0_twice x d : overwrite0 x (overwrite0 x d) = overwrite0 x d.
Proof. unfold overwrite0. by rewrite drop_app_length. Qed.

Lemma BuildNetwork_idem s : BuildNetwork (set_m_network_info s (BuildNetwork s)) = BuildNetwork s.
Proof.
  unfold BuildNetwork, host_node, stations7; lc_cbn.
  cbn [nw_intentId nw_sessionId nw_common nw_ldn ln_unkRandom ln_securityMode
    ln_stationAcceptPolicy ln_unk1 ln_nodeCountMax ln_nodeCount ln_nodes ln_unk2
    ln_advertiseDataSize ln_advertiseData ln_unk3].
  destruct (0 <? m_advertise_size s); [by rewrite overwrite0_twice|done].
Qed.

Lemma synced_SetState st s : st <> CS_AccessPointCreated -> host_synced (SetState st s).
Proof.
  intros Hst H. exfalso. unfold SetState in H. case_bool_decide as E; [by rewrite E in H|].
  by apply Hst.
Qed.

Lemma synced_OnNetworkInfoChanged s : host_synced s -> host_synced (OnNetworkInfoChanged s).
Proof. unfold OnNetworkInfoChanged. intros H. case_match; exact H. Qed.

Lemma synced_SendFrame running dst type body : keeps host_synced (SendFrame running dst type body).
Proof. unfold SendFrame. keeps_walk. apply keeps_modify. intros s H; exact H. Qed.

(** Rebuilding restores it from any state. *)
Lemma synced_UpdateNodes running : triple (fun _ => True) (UpdateNodes running) (fun _ => host_synced).
Proof.
  unfold UpdateNodes. eapply (triple_bind _ (fun _ => host_synced)).
  - apply triple_modify. intros s _ _. lc_cbn. by rewrite BuildNetwork_idem.
  - intros _. change (keeps host_synced (stations ← gets stations7; info ← gets m_network_info;
      for_each (fun t => if station_in t
                         then SendFrame running (st_src_ip t) LanPacket_SyncNetwork
                                (cenc NetworkInfo_codec info)
                         else skip) stations;; modify OnNetworkInfoChanged)).
    keeps_walk; [apply synced_SendFrame|]. apply keeps_modify, synced_OnNetworkInfoChanged.
Qed.

Lemma synced_then_UpdateNodes {A} running (P : LdnControl -> Prop) (m : M A) :
  triple P (m;; UpdateNodes running) (fun _ => host_synced).
Proof.
  eapply (triple_bind _ (fun _ _ => True)); [intros s b s1 o1 _ _; exact I|]. intros _. apply synced_UpdateNodes.
Qed.

Lemma synced_then_UpdateNodes_ret {A} running (P : LdnControl -> Prop) (m : M A) (r : LdnResult) :
  triple P (m;; UpdateNodes running;; mret r) (fun _ => host_synced).
Proof.
  eapply (triple_bind _ (fun _ _ => True)); [intros s b s1 o1 _ _; exact I|]. intros _.
  apply (triple_bind _ (fun _ => host_synced)); [apply synced_UpdateNodes|]. intros ?. by apply triple_ret.
Qed.

(** Closes a method whose updates leave the published fields alone, change the
    state to another one, or end by rebuilding. *)
Ltac synced_close :=
  lazymatch goal with
  | |- keeps _ (SendFrame _ _ _ _) => apply synced_SendFrame
  | |- keeps _ (modify _) =>
      apply keeps_modify; let s := fresh "s" in let H := fresh "H" in intros s H;
      first [exact H | by apply synced_SetState | by apply synced_OnNetworkInfoChanged]
  end.
Ltac synced_step :=
  first [ apply (synced_then_UpdateNodes (A := unit)) | apply (synced_then_UpdateNodes_ret (A := unit))
        | keeps_step | progress cbv zeta | synced_close ].

Lemma synced_exit nf : keeps host_synced (ExitLocalNetworkMode nf).
Proof. unfold ExitLocalNetworkMode. repeat synced_step. Qed.
Lemma synced_exit_if nf : keeps host_synced (exit_if_local nf).
Proof. unfold exit_if_local, ExitLocalNetworkMode. repeat synced_step. Qed.
Lemma synced_enter nf : keeps host_synced (EnterLocalNetworkMode nf).
Proof. unfold EnterLocalNetworkMode. repeat synced_step. Qed.
Lemma synced_enter_if nf : keeps host_synced (enter_if_not_local nf).
Proof. unfold enter_if_not_local. repeat (apply synced_enter || synced_step). Qed.
Ltac synced_walk :=
  repeat first [apply synced_exit | apply synced_exit_if | apply synced_enter | apply synced_enter_if
               | synced_step].

Lemma synced_HandleScanResp src body : keeps host_synced (HandleScanResp src body).
Proof. unfold HandleScanResp. synced_walk. Qed.
Lemma synced_HandleScan running now src : keeps host_synced (HandleScan running now src).
Proof.
  unfold HandleScan. synced_walk. apply keeps_modify. intros s H.
  unfold RecordScanner. case_match; exact H.
Qed.
Lemma synced_HandleConnect running now src body : keeps host_synced (HandleConnect running now src body).
Proof. unfold HandleConnect. synced_walk. Qed.
(** A method that stays out of the hosting state. *)
Lemma synced_not_hosting {A} (m : M A) :
  keeps (fun s => m_state s <> CS_AccessPointCreated) m ->
  triple (fun s => m_state s <> CS_AccessPointCreated) m (fun _ => host_synced).
Proof.
  intros H. apply (triple_post _ _ (fun _ s => m_state s <> CS_AccessPointCreated)); [|exact H].
  intros a s Hn Hs. by destruct Hn.
Qed.

Lemma synced_HandleSyncNetwork now body seq : keeps host_synced (HandleSyncNetwork now body seq).
Proof.
  unfold HandleSyncNetwork. apply triple_get. intros s0 H0.
  destruct (negb (_ =? _)%nat); [by apply triple_ret; intros ? ->|].
  destruct (bool_decide (m_state s0 = CS_Station \/ m_state s0 = CS_StationConnected)) eqn:Est;
    [|by apply triple_ret; intros ? ->].
  apply bool_decide_eq_true_1 in Est. cbn [negb].
  eapply triple_pre; [|apply synced_not_hosting].
  { intros ? ->. by destruct Est as [-> | ->]. }
  keeps_walk; apply keeps_modify; intros s H; try exact H.
  all: first [unfold SetState; case_match; done | unfold OnNetworkInfoChanged; case_match; exact H].
Qed.

Lemma station_nodes_alter f l : forall nid i,
  (forall t, station_in (f t) = station_in t) -> (forall t, st_node (f t) = st_node t) ->
  station_nodes nid (alter f i l) = station_nodes nid l.
Proof.
  induction l as [|t l IH]; intros nid [|i] Hi Hn; [done..| |]; cbn [alter list_alter station_nodes].
  - rewrite Hi. unfold listed_node. by rewrite Hn.
  - fold (list_alter f). change (list_alter f i l) with (alter f i l). by rewrite IH.
Qed.

Lemma take_alter {A} (f : A -> A) n : forall i l, take n (alter f i l) = alter f i (take n l).
Proof.
  induction n as [|n IH]; intros i [|x l]; [done..|by destruct i|].
  destruct i as [|i]; [done|]. cbn. f_equal. apply IH.
Qed.

Lemma synced_HandleRelayHeartbeat now src body : keeps host_synced (HandleRelayHeartbeat now src body).
Proof.
  unfold HandleRelayHeartbeat. synced_walk. apply keeps_modify. intros s H Hs.
  rewrite (H Hs) at 1. unfold BuildNetwork, stations7, set_station, host_node. lc_cbn.
  rewrite take_alter, station_nodes_alter by done. reflexivity.
Qed.

Lemma synced_HandleRelayBye running src body : keeps host_synced (HandleRelayBye running src body).
Proof. unfold HandleRelayBye, end_session. synced_walk. Qed.

Lemma synced_OnControlFrame running now src payload :
  keeps host_synced (OnControlFrame running now src payload).
Proof.
  unfold OnControlFrame. destruct (parse_control payload) as [[[type body] seq]|]; [|apply keeps_skip].
  repeat (case_match; [by auto using synced_HandleScan, synced_HandleScanResp, synced_HandleConnect,
    synced_HandleSyncNetwork, synced_HandleRelayHeartbeat, synced_HandleRelayBye|]). apply keeps_skip.
Qed.

Lemma synced_Tick running now : keeps host_synced (Tick running now).
Proof. unfold Tick, end_session. synced_walk. Qed.

Lemma synced_SetStationAcceptPolicy p : keeps host_synced (SetStationAcceptPolicy p).
Proof.
  unfold SetStationAcceptPolicy. synced_walk. apply keeps_modify. intros s H Hs.
  specialize (H Hs). unfold BuildNetwork in *. lc_cbn. rewrite H at 1. reflexivity.
Qed.

Lemma synced_scan_poll running env n : (forall i, keeps host_synced (env i)) -> forall i last stable,
  keeps host_synced (scan_poll running env n i last stable).
Proof.
  intros Henv. induction n as [|n IH]; intros i last stable; cbn [scan_poll]; [apply keeps_skip|].
  synced_walk; auto.
Qed.
Lemma synced_Scan running env f cap :
  (forall i, keeps host_synced (env i)) -> keeps host_synced (Scan running env f cap).
Proof. intros Henv. unfold Scan. synced_walk. by apply synced_scan_poll. Qed.
Lemma synced_connect_poll running env n host my : (forall i, keeps host_synced (env i)) -> forall i,
  keeps host_synced (connect_poll running env n i host my).
Proof.
  intros Henv. induction n as [|n IH]; intros i; cbn [connect_poll]; [apply keeps_ret|].
  synced_walk; auto.
Qed.
Lemma synced_Connect running env dat data :
  (forall i, keeps host_synced (env i)) -> keeps host_synced (Connect running env dat data).
Proof. intros Henv. unfold Connect. synced_walk. by apply synced_connect_poll. Qed.

(** ** Histories *)

(** The calls another thread may make; [OnControlFrame] and [Tick] come from
    the tunnel's loop, the others from games. *)
Inductive LdnCall : Set :=
| CFrame (now src : Z) (payload : bytes)
| CTick (now : Z)
| CInitialize (ip : bytes) (nf : NifmEnv)
| CFinalize (nf : NifmEnv)
| COpenAccessPoint (nf : NifmEnv)
| CCloseAccessPoint (nf : NifmEnv)
| CCreateNetwork (d : CreateNetworkConfig) (session random : bytes)
| CDestroyNetwork
| CSetAdvertiseData (data : option bytes) (size : nat)
| CSetStationAcceptPolicy (policy : Z)
| CReject (node_id : Z)
| COpenStation (nf : NifmEnv)
| CCloseStation (nf : NifmEnv)
| CDisconnect
| CGetNetworkInfoLatestUpdate (capacity : nat)
| CEnterLocalNetworkMode (nf : NifmEnv)
| CExitLocalNetworkMode (nf : NifmEnv).

(** [running]: the state of the runtime during the call. *)
Definition run_call (running : bool) (c : LdnCall) : M unit :=
  match c with
  | CFrame now src payload => OnControlFrame running now src payload
  | CTick now => Tick running now
  | CInitialize ip nf => Initialize ip nf;; skip
  | CFinalize nf => Finalize nf;; skip
  | COpenAccessPoint nf => OpenAccessPoint nf;; skip
  | CCloseAccessPoint nf => CloseAccessPoint nf;; skip
  | CCreateNetwork d session random => CreateNetwork running d session random;; skip
  | CDestroyNetwork => DestroyNetwork running;; skip
  | CSetAdvertiseData data size => SetAdvertiseData running data size;; skip
  | CSetStationAcceptPolicy p => SetStationAcceptPolicy p;; skip
  | CReject id => Reject running id;; skip
  | COpenStation nf => OpenStation nf;; skip
  | CCloseStation nf => CloseStation nf;; skip
  | CDisconnect => Disconnect running;; skip
  | CGetNetworkInfoLatestUpdate n => GetNetworkInfoLatestUpdate n;; skip
  | CEnterLocalNetworkMode nf => EnterLocalNetworkModePublic nf;; skip
  | CExitLocalNetworkMode nf => ExitLocalNetworkModePublic nf;; skip
  end.

(** The arguments are of their C types. *)
Definition call_ok (c : LdnCall) : Prop :=
  match c with
  | CFrame _ src payload => is_u32 src /\ is_bytes payload
  | CCreateNetwork d session random => create_ok d session random
  | CSetAdvertiseData (Some d) _ => is_bytes d
  | CSetStationAcceptPolicy p => is_u8 p
  | _ => True
  end.

(** What runs while a call sleeps: calls, with the runtime's state. *)
Definition Env : Set := nat -> list (bool * LdnCall).
Definition env_run (env : Env) (i : nat) : M unit := for_each (fun p => run_call p.1 p.2) (env i).
Definition env_ok (env : Env) : Prop := forall i, Forall (fun p => call_ok p.2) (env i).

Inductive reachable : LdnControl -> Prop :=
| reach_init : reachable LdnControl_init
| reach_call running c s s' o :
    reachable s -> call_ok c -> run_call running c s = Some (tt, s', o) -> reachable s'
| reach_scan running env f cap s r s' o :
    reachable s -> env_ok env -> Scan running (env_run env) f cap s = Some (r, s', o) -> reachable s'
| reach_connect running env dat data s r s' o :
    reachable s -> env_ok env -> buf_ok 6 (cn_bssid (nw_common data)) ->
    Connect running (env_run env) dat data s = Some (r, s', o) -> reachable s'.

Definition ctl_inv (s : LdnControl) : Prop := ctl_wf s /\ host_synced s.

Lemma keeps_and {A} P Q (m : M A) : keeps P m -> keeps Q m -> keeps (fun s => P s /\ Q s) m.
Proof. intros HP HQ s a s' o [Hp Hq] E. split; [by eapply HP|by eapply HQ]. Qed.
Lemma keeps_seq {A B} P (m : M A) (b : B) : keeps P m -> keeps P (m;; mret b).
Proof. intros H. apply keeps_bind; [done|]. intros. apply keeps_ret. Qed.

Lemma wf_run_call running c : call_ok c -> keeps ctl_wf (run_call running c).
Proof.
  intros Hc. destruct c; cbn [run_call call_ok] in *; try apply keeps_seq;
    eauto using wf_Tick, wf_Initialize, wf_Finalize, wf_OpenAccessPoint, wf_CloseAccessPoint,
      wf_CreateNetwork, wf_DestroyNetwork, wf_SetStationAcceptPolicy, wf_Reject,
      wf_OpenStation, wf_Disconnect, wf_GetNetworkInfoLatestUpdate, wf_EnterLocalNetworkMode.
  - destruct Hc. by apply wf_OnControlFrame.
  - apply wf_SetAdvertiseData. by destruct data.
  - unfold ExitLocalNetworkModePublic. keeps_walk. apply wf_ExitLocalNetworkMode.
Qed.

Lemma synced_Initialize ip nf : keeps host_synced (Initialize ip nf).
Proof.
  unfold Initialize.
  apply (triple_bind _ (fun _ _ => True)); [intros s b s1 o1 _ _; exact I|]. intros ?.
  apply (triple_bind _ (fun _ _ => True)); [intros s b s1 o1 _ _; exact I|]. intros ?.
  apply (triple_bind _ (fun _ => host_synced)); [|intros ?; by apply triple_ret].
  apply triple_modify. intros s _. by apply synced_SetState.
Qed.

Lemma synced_run_call running c : keeps host_synced (run_call running c).
Proof.
  destruct c; cbn [run_call]; try apply keeps_seq;
    eauto using synced_OnControlFrame, synced_Tick, synced_SetStationAcceptPolicy, synced_Initialize.
  all: unfold Finalize, OpenAccessPoint, CloseStation, CloseAccessPoint, CreateNetwork,
    DestroyNetwork, SetAdvertiseData, Reject, OpenStation, Disconnect, GetNetworkInfoLatestUpdate,
    EnterLocalNetworkModePublic, ExitLocalNetworkModePublic, send_bye.
  all: synced_walk.
Qed.

Lemma inv_env env i : env_ok env -> keeps ctl_wf (env_run env i) /\ keeps host_synced (env_run env i).
Proof.
  intros He. unfold env_run. specialize (He i). induction He as [|[r c] l Hc _ [IH1 IH2]].
  - split; apply keeps_skip.
  - split; cbn [for_each]; apply keeps_bind; auto using wf_run_call, synced_run_call.
Qed.

Lemma NetworkInfo_zero_wf : cwf NetworkInfo_codec NetworkInfo_zero.
Proof.
  change NetworkInfo_zero with (cdec NetworkInfo_codec (replicate sizeof_NetworkInfo 0)).
  apply cdec_wf; [apply buf_ok_replicate|]. by rewrite length_replicate.
Qed.

Lemma LdnControl_init_wf : ctl_wf LdnControl_init.
Proof.
  constructor; unfold LdnControl_init; lc_cbn; try apply NetworkInfo_zero_wf;
    try apply buf_ok_replicate; try done.
  - split; [done|]. apply Forall_replicate.
    refine (conj eq_refl (conj NodeInfo_zero_wf (conj _ _))); done.
  - intros i j t u Hi _ Ht. apply lookup_replicate in Hi as [-> _]. done.
  - intros t Ht. apply lookup_replicate in Ht as [-> _]. done.
  - split; [done|]. apply Forall_replicate, NetworkInfo_zero_wf.
  - apply Nat.le_0_l.
Qed.

Lemma reachable_inv s : reachable s -> ctl_inv s.
Proof.
  induction 1 as [|r c s s' o _ [IH1 IH2] Hc E|r env f cap s x s' o _ [IH1 IH2] He E
                 |r env dat data s x s' o _ [IH1 IH2] He Hb E].
  - split; [apply LdnControl_init_wf|done].
  - split; [by eapply (wf_run_call r c)|by eapply (synced_run_call r c)].
  - split; [eapply wf_Scan; [|done|done]|eapply synced_Scan; [|done|done]]; intros; by apply inv_env.
  - split; [eapply wf_Connect; [| |done|done]|eapply synced_Connect; [|done|done]];
      try done; intros; by apply inv_env.
Qed.

(** *** What other consoles see *)

(** The ids a host lists: 0 for itself, then those of its stations. *)
Fixpoint station_ids (nid : nat) (l : list Station) : list Z :=
  match l with
  | [] => []
  | t :: l => if station_in t then Z.of_nat nid :: station_ids (S nid) l else station_ids (S nid) l
  end.

Lemma station_nodes_ids nid l : ni_nodeId <$> station_nodes nid l = station_ids nid l.
Proof.
  revert nid. induction l as [|t l IH]; intros nid; [done|]. cbn [station_nodes station_ids].
  destruct (station_in t); [rewrite fmap_cons; f_equal|]; apply IH.
Qed.

Lemma station_ids_ge nid l i : i ∈ station_ids nid l -> Z.of_nat nid <= i.
Proof.
  revert nid. induction l as [|t l IH]; intros nid Hi; cbn [station_ids] in Hi; [by apply elem_of_nil in Hi|].
  destruct (station_in t); [apply elem_of_cons in Hi as [->|Hi]; [lia|]|];
    specialize (IH _ Hi); lia.
Qed.

Lemma station_ids_NoDup nid l : NoDup (station_ids nid l).
Proof.
  revert nid. induction l as [|t l IH]; intros nid; cbn [station_ids]; [constructor|].
  destruct (station_in t); [|apply IH]. apply NoDup_cons_2; [|apply IH].
  intros Hi%station_ids_ge. lia.
Qed.

Lemma station_nodes_addr nid l :
  Forall station_ok l ->
  ni_ipv4Address <$> station_nodes nid l = st_src_ip <$> filter station_in l.
Proof.
  intros Hl. revert nid. induction Hl as [|t l Ht _ IH]; intros nid; [done|].
  cbn [station_nodes]. rewrite filter_cons. destruct (station_in t) eqn:E.
  - rewrite decide_True by done. rewrite !fmap_cons, IH. f_equal.
    apply Ht. unfold station_in in E. by apply andb_true_iff in E as [-> _].
  - rewrite decide_False by (by intros []). apply IH.
Qed.

Lemma distinct_NoDup l : distinct_stations l -> NoDup (st_src_ip <$> filter station_in l).
Proof.
  induction l as [|t l IH]; intros Hd; [constructor|].
  assert (distinct_stations l) as Hd'.
  { intros i j u v Hi Hj Hu Hv E. assert (S i = S j) by (by eapply (Hd (S i) (S j))). lia. }
  rewrite filter_cons. destruct (decide (station_in t)) as [Ht|Ht]; [|by apply IH].
  rewrite fmap_cons. apply NoDup_cons_2; [|by apply IH].
  intros (u & Hu & Hin)%list_elem_of_fmap. apply list_elem_of_filter in Hin as [Hs Hin].
  apply list_elem_of_lookup in Hin as [j Hj].
  apply Is_true_true, andb_true_iff in Ht as [Ht _].
  apply Is_true_true, andb_true_iff in Hs as [Hs _].
  by specialize (Hd 0%nat (S j) t u eq_refl Hj Ht Hs Hu).
Qed.


(** A sequence of calls. *)
Fixpoint run_calls (l : list (bool * LdnCall)) (s : LdnControl) : option LdnControl :=
  match l with
  | [] => Some s
  | (running, c) :: l =>
      match run_call running c s with Some (_, s', _) => run_calls l s' | None => None end
  end.

Lemma run_calls_reachable l s s' :
  reachable s -> Forall (fun p => call_ok p.2) l -> run_calls l s = Some s' -> reachable s'.
Proof.
  intros Hs Hl. revert s Hs. induction Hl as [|[r c] l Hc _ IH]; intros s Hs E; cbn [run_calls] in E.
  - by injection E as <-.
  - destruct (run_call r c s) as [[[[] s1] o]|] eqn:E1; [|done].
    eapply IH; [|exact E]. by eapply reach_call.
Qed.

(** A console that hosts a network and has let one other console in. *)
Definition demo_nifm : NifmEnv := mkNifm 0 1400 0 0 0 0.
Definition demo_config : CreateNetworkConfig :=
  mkCreate 1 (replicate 32 65) (mkConfig (mkIntent 0x0100152000022000 (replicate 2 0) 7 (replicate 4 0)) 0 8 3).
Definition demo_node : NodeInfo :=
  mkNode 0x0A0D2503 (FakeMac 0x0A0D2503) 0 1 (strncpy_term 32 [66; 79; 66]) 0 3 (replicate 16 0).
Definition demo_host_calls : list (bool * LdnCall) :=
  [(true, CInitialize [49; 48; 46; 49; 51; 46; 51; 55; 46; 50] demo_nifm);
   (true, COpenAccessPoint demo_nifm);
   (true, CCreateNetwork demo_config (replicate 16 9) (replicate 16 8))].
Definition demo_join_calls : list (bool * LdnCall) :=
  [(true, CFrame 100 0x0A0D2503 (control_frame LanPacket_Scan 1 []));
   (true, CFrame 200 0x0A0D2503 (control_frame LanPacket_Connect 2 (cenc NodeInfo_codec demo_node)))].
Definition demo_host : LdnControl :=
  default LdnControl_init (run_calls demo_host_calls LdnControl_init).
Definition demo_hosting : LdnControl := default LdnControl_init (run_calls demo_join_calls demo_host).

Lemma demo_config_ok : create_ok demo_config (replicate 16 9) (replicate 16 8).
Proof.
  assert (forall b, 0 <= b < 256 -> buf_ok 16 (replicate 16 b)) as Hr
    by (intros b Hb; split; [done|by apply Forall_replicate]).
  refine (conj _ (conj _ (conj _ (conj _ (conj _ (conj _ (conj (Hr 9 _) (Hr 8 _)))))))); try done.
  - apply Forall_replicate. done.
  - repeat split; try done; repeat constructor; word_lia.
Qed.

Lemma is_bytes_decide l : forallb (fun b => (0 <=? b) && (b <? 256)) l = true -> is_bytes l.
Proof.
  intros H. apply Forall_forall. intros b Hb. rewrite forallb_forall in H.
  specialize (H b Hb). unfold is_u8. lia.
Qed.

Lemma demo_host_reachable : reachable demo_host.
Proof.
  apply (run_calls_reachable demo_host_calls LdnControl_init); [constructor| |by vm_compute].
  repeat constructor; apply demo_config_ok.
Qed.
Lemma demo_hosting_reachable : reachable demo_hosting.
Proof.
  apply (run_calls_reachable demo_join_calls demo_host); [apply demo_host_reachable| |by vm_compute].
  repeat constructor; try done; apply is_bytes_decide; by vm_compute.
Qed.


(** ** Methods return *)

(** The method reads within its arrays. *)
Definition runs {A} (P : LdnControl -> Prop) (m : M A) : Prop := forall s, P s -> m s <> None.

Lemma runs_bind {A B} (P R : LdnControl -> Prop) (m : M A) (f : A -> M B) :
  runs P m -> triple P m (fun _ => R) -> (forall a, runs R (f a)) -> runs P (m ≫= f).
Proof.
  intros Hm Ht Hf s Hs. unfold mbind, M_bind. specialize (Hm s Hs).
  destruct (m s) as [[[a s1] o1]|] eqn:E; [|done].
  specialize (Hf a s1 (Ht s a s1 o1 Hs E)). by destruct (f a s1) as [[[b s2] o2]|].
Qed.
Lemma runs_get {B} P (f : LdnControl -> M B) :
  (forall s0, P s0 -> runs P (f s0)) -> runs P (gets id ≫= f).
Proof.
  intros H s Hs. unfold mbind, M_bind, gets, id. specialize (H s Hs s Hs).
  by destruct (f s s) as [[[b s2] o2]|].
Qed.
Lemma runs_gets {A B} P (g : LdnControl -> A) (f : A -> M B) :
  (forall a, runs P (f a)) -> runs P (gets g ≫= f).
Proof. intros. apply (runs_bind P P); [done|apply keeps_gets|done]. Qed.
Lemma runs_lift {A B} P (r : option A) (f : A -> M B) :
  (exists a, r = Some a) -> (forall a, r = Some a -> runs P (f a)) -> runs P (lift r ≫= f).
Proof.
  intros [a ->] H s Hs. unfold mbind, M_bind, lift. specialize (H a eq_refl s Hs).
  by destruct (f a s) as [[[b s2] o2]|].
Qed.
Lemma runs_for_each {A} P (f : A -> M unit) l :
  (forall x, runs P (f x)) -> (forall x, keeps P (f x)) -> runs P (for_each f l).
Proof.
  intros H1 H2. induction l as [|x l IH]; [done|]. cbn [for_each].
  by apply (runs_bind P P (f x) (fun _ => for_each f l)); [apply H1|apply H2|].
Qed.

Definition any (_ : LdnControl) : Prop := True.
Lemma keeps_any {A} (m : M A) : keeps any m.
Proof. intros s a s' o _ _. exact I. Qed.

Ltac runs_step :=
  match goal with
  | |- runs any (mbind _ _) => apply (runs_bind any any); [|apply keeps_any|intros ?]
  | |- runs any (for_each _ _) => apply runs_for_each; [intros ?|intros ?; apply keeps_any]
  | |- runs _ (gets _) => done
  | |- runs _ skip => done
  | |- runs _ (mret _) => done
  | |- runs _ (emit _) => done
  | |- runs _ (modify _) => done
  | |- runs _ (if ?b then _ else _) => destruct b eqn:?
  | |- runs _ (match ?x with _ => _ end) => destruct x eqn:?
  end.
Ltac runs_walk := repeat (runs_step || (progress cbv zeta)).
Lemma runs_any {A} P (m : M A) : runs any m -> runs P m.
Proof. intros H s _. by apply H. Qed.

Lemma runs_SendFrame running dst type body : runs any (SendFrame running dst type body).
Proof. unfold SendFrame. runs_walk. Qed.
Lemma runs_UpdateNodes running : runs any (UpdateNodes running).
Proof. unfold UpdateNodes. runs_walk. apply runs_SendFrame. Qed.
Lemma runs_exit nf : runs any (ExitLocalNetworkMode nf).
Proof. unfold ExitLocalNetworkMode. runs_walk. Qed.
Lemma runs_exit_if nf : runs any (exit_if_local nf).
Proof. unfold exit_if_local. runs_walk. apply runs_exit. Qed.
Lemma runs_enter nf : runs any (EnterLocalNetworkMode nf).
Proof. unfold EnterLocalNetworkMode. runs_walk. Qed.
Lemma runs_enter_if nf : runs any (enter_if_not_local nf).
Proof. unfold enter_if_not_local. runs_walk. apply runs_enter. Qed.
#[local] Hint Resolve runs_SendFrame runs_UpdateNodes runs_exit runs_exit_if runs_enter
  runs_enter_if : slp.

Lemma head_node s : ctl_wf s -> exists n, head (ln_nodes (nw_ldn (m_network_info s))) = Some n.
Proof.
  intros H. pose proof (wf_info s H) as Hi. rewrite NetworkInfo_wf, Ldn_wf in Hi.
  destruct Hi as (_ & _ & _ & _ & _ & _ & _ & _ & _ & [Hn _] & _).
  destruct (ln_nodes (nw_ldn (m_network_info s))); [done|eauto].
Qed.

Lemma any_node_runs p nodes count i :
  (i + count <= length nodes)%nat -> exists b, any_node p nodes count i = Some b.
Proof.
  revert i. induction count as [|count IH]; intros i Hi; cbn [any_node]; [eauto|].
  destruct (lookup_lt_is_Some_2 nodes i) as [n Hn]; [lia|]. rewrite Hn. cbn.
  destruct (p n); [eauto|]. apply IH. lia.
Qed.

Lemma wf_nodes8 i : cwf NetworkInfo_codec i -> length (ln_nodes (nw_ldn i)) = 8%nat.
Proof. rewrite NetworkInfo_wf, Ldn_wf. by intros (_ & _ & _ & _ & _ & _ & _ & _ & _ & [Hn _] & _). Qed.

(** A network information whose count fits its node array. *)
Definition count_ok (i : NetworkInfo) : Prop := ln_nodeCount (nw_ldn i) <= 8.

Lemma session_has_runs s ip :
  length (ln_nodes (nw_ldn (m_network_info s))) = 8%nat -> count_ok (m_network_info s) ->
  exists b, session_has s ip = Some b.
Proof. intros Hl Hc. apply any_node_runs. rewrite Hl. unfold count_ok in Hc. lia. Qed.

(** The sync frames among those received have a fitting count. *)
Definition sync_ok (payload : bytes) : Prop :=
  forall body seq, parse_control payload = Some (LanPacket_SyncNetwork, body, seq) ->
    length body = sizeof_NetworkInfo -> count_ok (cdec NetworkInfo_codec body).

Lemma runs_HandleSyncNetwork now body seq :
  is_bytes body -> (length body = sizeof_NetworkInfo -> count_ok (cdec NetworkInfo_codec body)) ->
  runs ctl_wf (HandleSyncNetwork now body seq).
Proof.
  intros Hb Hc. unfold HandleSyncNetwork. apply runs_get. intros s H.
  destruct (length body =? sizeof_NetworkInfo)%nat eqn:El; [|done].
  apply Nat.eqb_eq in El. specialize (Hc El). cbn [negb].
  assert (cwf NetworkInfo_codec (cdec NetworkInfo_codec body)) as Hw
    by (apply cdec_wf; [done|unfold sizeof_NetworkInfo in El; lia]).
  repeat (case_match; try done).
  all: apply runs_any, (runs_bind any any); [done|apply keeps_any|intros ?].
  all: try done.
  all: apply (runs_bind any (fun s => m_network_info s = cdec NetworkInfo_codec body));
    [done|by apply triple_modify|intros ?].
  all: apply (runs_bind _ any); [|intros ? ? ? ? _ _; exact I|done].
  all: try done.
  all: apply runs_get; intros s0 Hi0; apply runs_lift;
    [apply session_has_runs; rewrite Hi0; [by apply wf_nodes8|done]|].
  all: intros; case_match; done.
Qed.

Lemma runs_HandleRelayBye running src body : runs ctl_wf (HandleRelayBye running src body).
Proof.
  unfold HandleRelayBye, end_session. apply runs_get. intros s H.
  destruct (negb _); [done|]. cbv zeta. destruct (m_state s); try done.
  - destruct (negb _); [done|]. apply runs_any. runs_walk. apply runs_UpdateNodes.
  - apply runs_lift; [by apply head_node|]. intros n _. apply runs_any. runs_walk.
Qed.

Lemma runs_OnControlFrame running now src payload :
  is_bytes payload -> sync_ok payload -> runs ctl_wf (OnControlFrame running now src payload).
Proof.
  intros Hp Hs. unfold OnControlFrame.
  destruct (parse_control payload) as [[[type body] seq]|] eqn:E; [|done].
  pose proof (parse_control_bytes _ _ _ _ Hp E) as Hb.
  repeat case_match.
  - apply runs_any. unfold HandleScan. runs_walk. apply runs_SendFrame.
  - apply runs_any. unfold HandleScanResp. runs_walk.
  - apply runs_any. unfold HandleConnect. runs_walk. apply runs_UpdateNodes.
  - apply runs_HandleSyncNetwork; [done|]. intros Hl. apply (Hs body seq); [|done].
    rewrite E. by replace LanPacket_SyncNetwork with type by lia.
  - apply runs_any. unfold HandleRelayHeartbeat. runs_walk.
  - apply runs_HandleRelayBye.
  - done.
Qed.

Lemma runs_Tick running now : runs ctl_wf (Tick running now).
Proof.
  unfold Tick. apply runs_get. intros s H. destruct (_ <? _); [done|].
  apply (runs_bind ctl_wf any); [done|intros ? ? ? ? _ _; exact I|intros _].
  unfold end_session. destruct (head_node s H) as [n Hn]. rewrite Hn.
  destruct (m_state s); try done; runs_walk; auto with slp; done.
Qed.

Lemma runs_Disconnect running : runs ctl_wf (Disconnect running).
Proof.
  unfold Disconnect. apply runs_get. intros s H. destruct (head_node s H) as [n Hn]. rewrite Hn.
  apply runs_any. unfold send_bye. runs_walk; auto with slp; done.
Qed.

Lemma runs_run_call running c :
  call_ok c -> (match c with CFrame _ _ payload => sync_ok payload | _ => True end) ->
  runs ctl_wf (run_call running c).
Proof.
  intros Hc Hs. destruct c; cbn [run_call].
  1: destruct Hc; by apply runs_OnControlFrame.
  1: apply runs_Tick.
  12: apply (runs_bind ctl_wf any); [apply runs_Disconnect|intros ? ? ? ? _ _; exact I|done].
  all: apply runs_any; unfold Initialize, Finalize, OpenAccessPoint, CloseStation, CloseAccessPoint,
    CreateNetwork, DestroyNetwork, SetAdvertiseData, SetStationAcceptPolicy, Reject, OpenStation,
    GetNetworkInfoLatestUpdate, EnterLocalNetworkModePublic, ExitLocalNetworkModePublic, send_bye.
  all: runs_walk; auto with slp.
Qed.



(** A station waiting to join. *)
Definition demo_station_calls : list (bool * LdnCall) :=
  [(true, CInitialize [49; 48; 46; 49; 51; 46; 51; 55; 46; 51] demo_nifm); (true, COpenStation demo_nifm)].
Definition demo_station : LdnControl :=
  default LdnControl_init (run_calls demo_station_calls LdnControl_init).
(** A network that claims nine nodes. *)
Definition demo_nine : NetworkInfo :=
  let i := m_network_info demo_hosting in
  let l := nw_ldn i in
  mkNetwork (nw_intentId i) (nw_sessionId i) (nw_common i)
    (mkLdn (ln_unkRandom l) (ln_securityMode l) (ln_stationAcceptPolicy l) (ln_unk1 l)
       (ln_nodeCountMax l) 9 (replicate 8 (host_node demo_host)) (ln_unk2 l) (ln_advertiseDataSize l)
       (ln_advertiseData l) (ln_unk3 l)).

(** the proviso is needed: one well-formed frame from any console, claiming
    nine nodes, makes a waiting station read past its node array. *)
Theorem SyncNetwork_over_read :
  exists s payload, reachable s /\ is_bytes payload /\ (length payload <= 1164)%nat /\
    run_call true (CFrame 0 0x0A0D2502 payload) s = None.
Proof.
  exists demo_station, (control_frame LanPacket_SyncNetwork 1 (cenc NetworkInfo_codec demo_nine)).
  split; [|split; [|split]].
  - apply (run_calls_reachable demo_station_calls LdnControl_init); [constructor| |by vm_compute].
    by repeat constructor.
  - apply is_bytes_decide. by vm_compute.
  - apply Nat.leb_le. by vm_compute.
  - by vm_compute.
Qed.

(** ** Host: joining and leaving stations *)

(** The synchronisations [UpdateNodes] sends, and the counter after them. *)
Fixpoint sync_frames (seq : Z) (info : NetworkInfo) (l : list Station) : list LdnOut :=
  match l with
  | [] => []
  | t :: l =>
      if station_in t
      then OFrame (st_src_ip t) (control_frame LanPacket_SyncNetwork (next_seq seq)
                                   (cenc NetworkInfo_codec info)) ::
           sync_frames (next_seq seq) info l
      else sync_frames seq info l
  end.
Fixpoint seq_after (seq : Z) (l : list Station) : Z :=
  match l with
  | [] => seq
  | t :: l => if station_in t then seq_after (next_seq seq) l else seq_after seq l
  end.

Lemma set_m_tx_seq_id s : set_m_tx_seq s (m_tx_seq s) = s.
Proof. by destruct s. Qed.

Lemma send_syncs_run info l : forall s,
  for_each (fun t => if station_in t
                     then SendFrame true (st_src_ip t) LanPacket_SyncNetwork (cenc NetworkInfo_codec info)
                     else skip) l s =
  Some (tt, set_m_tx_seq s (seq_after (m_tx_seq s) l), sync_frames (m_tx_seq s) info l).
Proof.
  induction l as [|t l IH]; intros s; cbn [for_each seq_after sync_frames].
  - unfold skip, mret, M_ret. by rewrite set_m_tx_seq_id.
  - unfold mbind, M_bind. destruct (station_in t); cbn [skip].
    + unfold SendFrame. cbn [negb]. unfold mbind, M_bind, modify, gets, emit. rewrite IH. lc_cbn. done.
    + unfold skip, mret, M_ret. rewrite IH. done.
Qed.

(** The state after [UpdateNodes]. *)
Definition updated (s : LdnControl) : LdnControl :=
  OnNetworkInfoChanged
    (set_m_tx_seq (set_m_network_info s (BuildNetwork s)) (seq_after (m_tx_seq s) (stations7 s))).

Lemma UpdateNodes_run s :
  UpdateNodes true s = Some (tt, updated s, sync_frames (m_tx_seq s) (BuildNetwork s) (stations7 s)).
Proof.
  unfold UpdateNodes. unfold mbind at 1, M_bind at 1, modify at 1.
  unfold mbind at 1, M_bind at 1, gets at 1. unfold mbind at 1, M_bind at 1, gets at 1.
  unfold mbind at 1, M_bind at 1. rewrite send_syncs_run. unfold modify. lc_cbn.
  by rewrite app_nil_r.
Qed.

Lemma updated_fields s :
  m_state (updated s) = m_state s /\ m_stations (updated s) = m_stations s /\
  m_network_info (updated s) = BuildNetwork s /\ m_ipv4_address (updated s) = m_ipv4_address s /\
  m_recent_scanners (updated s) = m_recent_scanners s.
Proof. unfold updated, OnNetworkInfoChanged. case_match; by split_and!. Qed.

(** Whether an address may take part: it scanned lately or is a station. *)
Definition may_connect (s : LdnControl) (now src : Z) : bool :=
  WasRecentScanner src now s || negb (bool_decide (FindStationByIp s src = None)).

Lemma HandleConnect_run now src body s :
  m_state s = CS_AccessPointCreated -> length body = sizeof_NodeInfo ->
  HandleConnect true now src body s =
    if may_connect s now src then
      match connect_slot s src with
      | None => Some (tt, s, [])
      | Some nid =>
          let t := mkStation true true src (register_node nid src (cdec NodeInfo_codec body)) now in
          let s1 := set_station s nid (fun _ => t) in
          Some (tt, updated s1, sync_frames (m_tx_seq s) (BuildNetwork s1) (stations7 s1))
      end
    else Some (tt, s, []).
Proof.
  intros Hs Hl. unfold HandleConnect, may_connect. unfold mbind at 1, M_bind at 1, gets, id.
  rewrite Hs, Hl, Nat.eqb_refl. rewrite bool_decide_true by done. cbn [negb].
  destruct (WasRecentScanner src now s); cbn [negb andb orb].
  - destruct (connect_slot s src) as [nid|]; [|done].
    unfold mbind, M_bind, modify. by rewrite UpdateNodes_run.
  - destruct (bool_decide (FindStationByIp s src = None)); cbn [negb]; [done|].
    destruct (connect_slot s src) as [nid|]; [|done].
    unfold mbind, M_bind, modify. by rewrite UpdateNodes_run.
Qed.

(** Registering in the slot of [connect_slot] leaves exactly one slot for the
    address. *)
Lemma register_find s nid t src :
  ctl_wf s -> connect_slot s src = Some nid -> st_active t = true -> st_src_ip t = src ->
  FindStationByIp (set_station s nid (fun _ => t)) src = Some nid.
Proof.
  intros Hw Hc Ha Hs.
  assert ((1 <= nid <= 7)%nat /\
    forall j u, (j < nid - 1)%nat -> m_stations s !! j = Some u ->
      st_active u && (st_src_ip u =? src) = false) as [Hn Hmin].
  { unfold connect_slot in Hc. destruct (FindStationByIp s src) as [n|] eqn:Ef.
    - injection Hc as ->. apply find_nid_Some in Ef as (? & u & Hu & _ & Hmin). split; [done|].
      intros j v Hj Hv. by apply (Hmin j v).
    - destruct (_ <=? _)%nat; [done|]. apply find_nid_Some in Hc as (Hn & _). split; [done|].
      intros j u Hj Hu. by apply (find_nid_None _ _ Ef j u); [lia|]. }
  destruct (wf_stations s Hw) as [Hl _]. unfold NodeCountMax in Hl.
  unfold FindStationByIp, find_nid.
  assert (list_find (fun t0 => Is_true (st_active t0 && (st_src_ip t0 =? src)))
            (stations7 (set_station s nid (fun _ => t))) = Some ((nid - 1)%nat, t)) as ->.
  { apply list_find_Some. unfold stations7, set_station. lc_cbn. rewrite take_alter.
    split; [|split].
    - rewrite list_lookup_alter_eq.
      destruct (lookup_lt_is_Some_2 (take StationCountMax (m_stations s)) (nid - 1)) as [u Hu];
        [rewrite length_take; unfold StationCountMax, NodeCountMax; lia|]. by rewrite Hu.
    - apply Is_true_true. by rewrite Ha, Hs, Z.eqb_refl.
    - intros j u Hj Hlt Hp. rewrite list_lookup_alter_ne in Hj by lia.
      apply lookup_take_Some in Hj as [Hj _]. specialize (Hmin j u Hlt Hj).
      apply Is_true_true in Hp. congruence. }
  f_equal. lia.
Qed.

(** Counting the stations around the changed slot. *)
Lemma filter_alter_length (p : Station -> bool) f l i t :
  l !! i = Some t -> p (f t) = true ->
  length (filter p (alter f i l)) = (length (filter p l) + if p t then 0 else 1)%nat.
Proof.
  revert i. induction l as [|u l IH]; intros [|i] Hi Hp; try done.
  - injection Hi as ->. change (alter f 0%nat (t :: l)) with (f t :: l). rewrite !filter_cons.
    rewrite (decide_True (P := Is_true (p (f t)))) by (by rewrite Hp).
    destruct (p t) eqn:E; [rewrite decide_True by done|rewrite decide_False by (by intros [])];
      cbn [length]; lia.
  - change (alter f (S i) (u :: l)) with (u :: alter f i l). rewrite !filter_cons.
    specialize (IH i Hi Hp). destruct (decide (p u)); cbn [length]; lia.
Qed.

(** C11: the join step of a host.  A Connect from an address that scanned us in
    the last 30 seconds, or that is a station already, is served unless the room
    is full: the address then has exactly one slot, its old one if it had one (a
    retry does not consume another slot), the room counts one more station only
    for a newcomer, and the new list of nodes goes to every connected station.
    Any other Connect changes nothing and answers nothing. *)
Theorem HandleConnect_spec s now src body
    (Hr : reachable s) (Hh : m_state s = CS_AccessPointCreated)
    (Hsrc : is_u32 src) (Hb : is_bytes body) (Hl : length body = sizeof_NodeInfo) :
  if may_connect s now src && match connect_slot s src with Some _ => true | None => false end then
    exists s' nid,
      HandleConnect true now src body s =
        Some (tt, s', sync_frames (m_tx_seq s) (m_network_info s') (stations7 s')) /\
      connect_slot s src = Some nid /\ (1 <= nid <= 7)%nat /\
      FindStationByIp s' src = Some nid /\
      StationCount s' = (StationCount s + if bool_decide (FindStationByIp s src = None) then 1 else 0)%nat /\
      m_state s' = CS_AccessPointCreated /\ m_network_info s' = BuildNetwork s'
  else HandleConnect true now src body s = Some (tt, s, []).
Proof.
  destruct (reachable_inv s Hr) as [Hw _].
  rewrite (HandleConnect_run _ _ _ _ Hh Hl). destruct (may_connect s now src); [|done].
  destruct (connect_slot s src) as [nid|] eqn:Ec; [|done]. cbn [andb].
  set (t := mkStation true true src (register_node nid src (cdec NodeInfo_codec body)) now).
  set (s1 := set_station s nid (fun _ => t)).
  destruct (updated_fields s1) as (E1 & E2 & E3 & E4 & E5).
  assert (m_network_info (updated s1) = BuildNetwork (updated s1)) as Hsync.
  { assert (host_synced (updated s1)) as H.
    { eapply (synced_UpdateNodes true s1 tt); [done|apply UpdateNodes_run]. }
    apply H. rewrite E1. exact Hh. }
  exists (updated s1), nid. split; [|split; [done|]].
  { cbv zeta. fold s1. rewrite E3. unfold stations7. by rewrite E2. }
  assert ((1 <= nid <= 7)%nat /\ exists u, m_stations s !! (nid - 1)%nat = Some u /\
            station_in u = negb (bool_decide (FindStationByIp s src = None))) as (Hn & u & Hu & Hin).
  { unfold connect_slot in Ec. destruct (FindStationByIp s src) as [n|] eqn:Ef.
    - injection Ec as ->. apply find_nid_Some in Ef as (Hn & u & Hu & Hp & _). split; [done|].
      exists u. split; [done|]. destruct (wf_stations s Hw) as [_ Hf].
      destruct (Forall_lookup_1 _ _ _ _ Hf Hu) as [Heq _]. unfold station_in.
      apply andb_true_iff in Hp as [Hp _]. rewrite <- Heq, Hp. by rewrite bool_decide_false.
    - destruct (_ <=? _)%nat; [done|]. apply find_nid_Some in Ec as (Hn & u & Hu & Hp & _).
      split; [done|]. exists u. split; [done|]. rewrite bool_decide_true by done.
      unfold station_in. destruct (st_active u); done. }
  split; [done|]. split.
  { unfold FindStationByIp, find_nid, stations7. rewrite E2.
    by apply (register_find s nid t src Hw Ec). }
  split; [|by rewrite E1].
  unfold StationCount, stations7. rewrite E2. unfold s1, set_station. lc_cbn. rewrite take_alter.
  rewrite (filter_alter_length station_in _ _ _ u); [|apply lookup_take_Some; split; [done|]|done].
  - f_equal. rewrite Hin. by destruct (bool_decide _).
  - unfold StationCountMax, NodeCountMax. lia.
Qed.

Definition demo_scanned : LdnControl := default LdnControl_init (run_calls (take 1 demo_join_calls) demo_host).
Lemma demo_scanned_reachable : reachable demo_scanned.
Proof.
  apply (run_calls_reachable (take 1 demo_join_calls) demo_host); [apply demo_host_reachable| |by vm_compute].
  repeat constructor; try done; apply is_bytes_decide; by vm_compute.
Qed.
Lemma HandleConnect_spec_witness :
  exists s', HandleConnect true 200 0x0A0D2503 (cenc NodeInfo_codec demo_node) demo_scanned =
    Some (tt, s', sync_frames (m_tx_seq demo_scanned) (m_network_info s') (stations7 s')) /\
    FindStationByIp s' 0x0A0D2503 = Some 1%nat.
Proof.
  assert (m_state demo_scanned = CS_AccessPointCreated) as H1 by (vm_compute; reflexivity).
  assert (is_u32 0x0A0D2503) as H2 by done.
  assert (is_bytes (cenc NodeInfo_codec demo_node)) as H3 by (apply is_bytes_decide; by vm_compute).
  assert (length (cenc NodeInfo_codec demo_node) = sizeof_NodeInfo) as H4 by (vm_compute; reflexivity).
  pose proof (HandleConnect_spec demo_scanned 200 0x0A0D2503 _ demo_scanned_reachable H1 H2 H3 H4) as H.
  assert (may_connect demo_scanned 200 0x0A0D2503 &&
    match connect_slot demo_scanned 0x0A0D2503 with Some _ => true | None => false end = true) as E
    by (vm_compute; reflexivity).
  assert (connect_slot demo_scanned 0x0A0D2503 = Some 1%nat) as E1 by (vm_compute; reflexivity).
  rewrite E in H. destruct H as (s' & nid & H & Hc & _ & Hf & _). exists s'. split; [exact H|].
  rewrite Hf. rewrite <- Hc. exact E1.
Defined.

(** ** Liveness: silent peers *)

(** A first step that emits nothing. *)
Lemma bind_quiet {A B} (m : M A) (f : A -> M B) s a s1 :
  m s = Some (a, s1, []) -> (m ≫= f) s = f a s1.
Proof.
  intros E. unfold mbind, M_bind. rewrite E. by destruct (f a s1) as [[[b s2] o]|].
Qed.

Lemma Tick_hosting_run now s :
  m_state s = CS_AccessPointCreated -> (now - m_last_beacon s <? RelayBeaconIntervalTicks) = false ->
  let s1 := set_m_last_beacon s now in
  let s2 := set_m_stations s1 ((reap now <$> take StationCountMax (m_stations s)) ++
                               drop StationCountMax (m_stations s)) in
  Tick true now s = Some (tt, updated s2, sync_frames (m_tx_seq s) (BuildNetwork s2) (stations7 s2)).
Proof.
  intros Hs Hd. cbv zeta. unfold Tick. unfold mbind at 1, M_bind at 1, gets, id. rewrite Hd.
  unfold mbind at 1, M_bind at 1, modify at 1. rewrite Hs.
  unfold mbind at 1, M_bind at 1, modify at 1. rewrite UpdateNodes_run. lc_cbn. done.
Qed.

(** every five seconds a host drops exactly the stations it has not heard
    from for 30 seconds: after the tick every station listed was heard within
    them, every station that was heard is where it was, and the remaining
    stations are sent the new list.  Between beacons the tick does nothing. *)
Theorem Tick_reaps_silent_stations s now
    (Hr : reachable s) (Hh : m_state s = CS_AccessPointCreated) :
  if now - m_last_beacon s <? RelayBeaconIntervalTicks then Tick true now s = Some (tt, s, [])
  else exists s',
    Tick true now s = Some (tt, s', sync_frames (m_tx_seq s) (m_network_info s') (stations7 s')) /\
    m_network_info s' = BuildNetwork s' /\ m_last_beacon s' = now /\
    (forall i t, stations7 s' !! i = Some t -> station_in t = true ->
       now - st_last_seen t < RelayPeerTimeoutTicks) /\
    (forall i t, stations7 s !! i = Some t -> station_in t = true ->
       now - st_last_seen t < RelayPeerTimeoutTicks -> stations7 s' !! i = Some t).
Proof.
  destruct (now - m_last_beacon s <? RelayBeaconIntervalTicks) eqn:Hd.
  { unfold Tick, mbind, M_bind, gets, id. by rewrite Hd. }
  pose proof (Tick_hosting_run now s Hh Hd) as E. cbv zeta in E.
  set (s1 := set_m_stations _ _) in E.
  destruct (reachable_inv s Hr) as [Hw _]. destruct (stations7_ok s Hw) as [Hl7 _].
  destruct (updated_fields s1) as (E1 & E2 & E3 & E4 & E5).
  assert (stations7 (updated s1) = reap now <$> stations7 s) as H7.
  { unfold stations7 at 1. rewrite E2. unfold s1. lc_cbn. apply take_app_length'.
    rewrite length_fmap. symmetry. exact Hl7. }
  exists (updated s1). rewrite E3 at 1. unfold stations7 at 1. rewrite E2.
  split; [exact E|]. split.
  { assert (host_synced (updated s1)) as H
      by (eapply (synced_UpdateNodes true s1 tt); [done|apply UpdateNodes_run]).
    apply H. by rewrite E1. }
  split. { unfold updated, OnNetworkInfoChanged, s1. case_match; done. }
  rewrite H7. split.
  - intros i t Ht Hin. apply list_lookup_fmap_Some in Ht as (u & -> & _). unfold reap in *.
    destruct (station_in u) eqn:Eu; cbn [andb] in *; [|congruence].
    destruct (RelayPeerTimeoutTicks <=? now - st_last_seen u) eqn:Et; [done|lia].
  - intros i t Ht Hin Hlt. rewrite list_lookup_fmap, Ht. cbn. unfold reap. rewrite Hin. cbn [andb].
    by rewrite (proj2 (Z.leb_gt _ _)) by lia.
Qed.

Lemma Tick_reaps_silent_stations_witness :
  exists s', Tick true (200 + RelayPeerTimeoutTicks) demo_hosting =
    Some (tt, s', sync_frames (m_tx_seq demo_hosting) (m_network_info s') (stations7 s')) /\
    m_last_beacon s' = 200 + RelayPeerTimeoutTicks.
Proof.
  assert (m_state demo_hosting = CS_AccessPointCreated) as H by (vm_compute; reflexivity).
  pose proof (Tick_reaps_silent_stations demo_hosting (200 + RelayPeerTimeoutTicks)
                demo_hosting_reachable H) as Ht.
  assert ((200 + RelayPeerTimeoutTicks - m_last_beacon demo_hosting <? RelayBeaconIntervalTicks) = false)
    as E by (vm_compute; reflexivity).
  rewrite E in Ht. destruct Ht as (s' & H1 & _ & H2 & _). exists s'. split; [exact H1|exact H2].
Defined.

(** The heartbeat a station owes its host. *)
Definition heartbeat (s : LdnControl) : list LdnOut :=
  match head (ln_nodes (nw_ldn (m_network_info s))) with
  | Some n0 =>
      if m_join_active s && (0 <? ln_nodeCount (nw_ldn (m_network_info s))) &&
         negb (ni_ipv4Address n0 =? 0)
      then [OFrame (ni_ipv4Address n0)
              (control_frame LanPacket_RelayHeartbeat (next_seq (m_tx_seq s))
                 (cenc Heartbeat_codec
                    (mkHeartbeat (m_join_target_bssid s) (replicate 2 0) (m_ipv4_address s))))]
      else []
  | None => []
  end.

(** every five seconds a connected station tells the host it is there; when
    nothing came from the host for 30 seconds it leaves the session with the
    reason signal lost, and otherwise stays connected with the network it had. *)
Theorem Tick_station_spec s now
    (Hr : reachable s) (Hc : m_state s = CS_StationConnected)
    (Hd : RelayBeaconIntervalTicks <= now - m_last_beacon s) :
  exists s', Tick true now s = Some (tt, s', heartbeat s) /\
    m_last_beacon s' = now /\ m_network_info s' = m_network_info s /\
    if RelayPeerTimeoutTicks <=? now - m_host_last_seen s
    then m_state s' = CS_Station /\ m_disconnect_reason s' = 6 /\ m_join_active s' = false /\
         m_relay_sync_seq_valid s' = false /\ m_state_event s' = true
    else m_state s' = CS_StationConnected /\ m_disconnect_reason s' = m_disconnect_reason s /\
         m_join_active s' = m_join_active s /\ m_host_last_seen s' = m_host_last_seen s.
Proof.
  destruct (reachable_inv s Hr) as [Hw _]. destruct (head_node s Hw) as [n0 Hn].
  unfold Tick. rewrite (bind_quiet _ _ s s s eq_refl).
  rewrite (proj2 (Z.ltb_ge _ _)) by lia.
  rewrite (bind_quiet _ _ s tt (set_m_last_beacon s now) eq_refl), Hc.
  rewrite bool_decide_true by done. unfold heartbeat. rewrite Hn. cbn [andb].
  assert (forall (hb : M unit) s1 o,
    hb (set_m_last_beacon s now) = Some (tt, s1, o) ->
    m_last_beacon s1 = now /\ m_network_info s1 = m_network_info s /\ m_state s1 = CS_StationConnected /\
    m_disconnect_reason s1 = m_disconnect_reason s /\ m_join_active s1 = m_join_active s /\
    m_host_last_seen s1 = m_host_last_seen s ->
    exists s', (hb;; if RelayPeerTimeoutTicks <=? now - m_host_last_seen s then end_session 6 else skip)
                 (set_m_last_beacon s now) = Some (tt, s', o) /\
      m_last_beacon s' = now /\ m_network_info s' = m_network_info s /\
      if RelayPeerTimeoutTicks <=? now - m_host_last_seen s
      then m_state s' = CS_Station /\ m_disconnect_reason s' = 6 /\ m_join_active s' = false /\
           m_relay_sync_seq_valid s' = false /\ m_state_event s' = true
      else m_state s' = CS_StationConnected /\ m_disconnect_reason s' = m_disconnect_reason s /\
           m_join_active s' = m_join_active s /\ m_host_last_seen s' = m_host_last_seen s) as Hend.
  { intros hb s1 o E (H1 & H2 & H3 & H4 & H5 & H6). unfold mbind, M_bind. rewrite E.
    destruct (RelayPeerTimeoutTicks <=? now - m_host_last_seen s).
    - unfold end_session, modify, SetState. lc_cbn. rewrite H3. rewrite bool_decide_false by done.
      eexists. split; [by rewrite app_nil_r|]. unfold SignalStateChange. lc_cbn. done.
    - exists s1. unfold skip, mret, M_ret. rewrite app_nil_r. done. }
  destruct (m_join_active s) eqn:Ej; cbn [andb].
  2: { eapply Hend; [done|]. lc_cbn. done. }
  destruct (0 <? ln_nodeCount (nw_ldn (m_network_info s))) eqn:Ec; cbn [andb].
  2: { eapply Hend; [done|]. lc_cbn. done. }
  destruct (ni_ipv4Address n0 =? 0) eqn:E0; cbn [negb].
  { apply (Hend _ (set_m_last_beacon s now)); [|lc_cbn; done]. unfold mbind, M_bind, lift. cbv zeta. rewrite E0. done. }
  apply (Hend _ (set_m_tx_seq (set_m_last_beacon s now) (next_seq (m_tx_seq s)))).
  - unfold mbind, M_bind, lift. cbv zeta. rewrite E0. cbn [negb].
    unfold SendFrame. cbn [negb]. unfold mbind, M_bind, modify, gets, emit. lc_cbn. done.
  - lc_cbn. done.
Qed.

(** ** Scanning and connecting *)

Lemma scan_collect_spec f results : forall cap out,
  scan_collect f results cap = Some out ->
  out = take cap (filter (fun i => scan_match f i = Some true) results).
Proof.
  induction results as [|r l IH]; intros [|cap] out E; cbn [scan_collect] in E;
    try (injection E as <-; by rewrite ?take_nil).
  rewrite filter_cons. destruct (scan_match f r) as [[]|] eqn:Em; cbn in E; [| |done].
  - destruct (scan_collect f l cap) as [k|] eqn:Ek; [|done]. injection E as <-.
    rewrite decide_True by done. cbn [take]. by rewrite (IH _ _ Ek).
  - rewrite decide_False by done. by apply IH.
Qed.

Lemma Forall_filter_weaken {A} (P Q : A -> Prop) `{!forall x, Decision (Q x)} l :
  Forall P l -> Forall P (filter Q l).
Proof.
  induction 1 as [|x l Hx _ IH]; [constructor|]. rewrite filter_cons.
  case_decide; [by constructor|done].
Qed.


(** The host's answers as a scanning station receives them. *)
Definition demo_resp : bytes :=
  control_frame LanPacket_ScanResp 5 (cenc NetworkInfo_codec (m_network_info demo_host)).
Definition demo_scan_env : Env := fun i =>
  if (i =? 1)%nat then [(true, CFrame 7 0x0A0D2502 demo_resp)] else [].
Definition demo_filter : ScanFilter :=
  mkFilter (mkIntent 0x0100152000022000 (replicate 2 0) 0 (replicate 4 0)) (replicate 16 0) 0 0
    (replicate 33 0) ScanFilterFlag_LocalCommunicationId.
Lemma demo_station_reachable : reachable demo_station.
Proof.
  apply (run_calls_reachable demo_station_calls LdnControl_init); [constructor| |by vm_compute].
  by repeat constructor.
Qed.
Lemma demo_scan_env_ok : env_ok demo_scan_env.
Proof.
  intros i. unfold demo_scan_env. destruct (_ =? _)%nat; [|constructor].
  constructor; [split; [done|apply is_bytes_decide; by vm_compute]|constructor].
Qed.


(** The joining of a network: what [Connect] reports is what happened. *)
Lemma connect_poll_result running env n host my : forall i s ok s' o,
  connect_poll running env n i host my s = Some (ok, s', o) ->
  ok = true -> m_state s' = CS_StationConnected.
Proof.
  induction n as [|n IH]; intros i s ok s' o E Hok; cbn [connect_poll] in E.
  - injection E as <- <- _. done.
  - rewrite (bind_quiet _ _ s (m_state s) s eq_refl) in E.
    case_bool_decide as Hs; [by injection E as <- <- _|].
    unfold mbind at 1, M_bind at 1 in E. destruct (_ s) as [[[u s1] o1]|]; [|done].
    unfold mbind at 1, M_bind at 1 in E. destruct (env i s1) as [[[v s2] o2]|]; [|done].
    destruct (connect_poll running env n (S i) host my s2) as [[[b s3] o3]|] eqn:E3; [|done].
    injection E as -> -> _. by eapply IH.
Qed.

(** [Connect] succeeds only when a synchronisation has made the console a
    connected station; otherwise it reports nn::ldn's ConnectFailed (203-64 of
    the state machine's module), having given up the join and its sequence
    check; a call refused at once changes nothing. *)
Theorem Connect_result running env dat data s r s' o
    (E : Connect running env dat data s = Some (r, s', o)) :
  (r = R_OK /\ m_state s' = CS_StationConnected) \/
  (r = R_Error LdnModuleId 64 /\ m_join_active s' = false /\ m_relay_sync_seq_valid s' = false) \/
  ((r = BadState /\ m_state s = CS_None \/ r = R_Error ModuleID 30 /\ ln_nodeCount (nw_ldn data) = 0) /\ s' = s /\ o = []).
Proof.
  unfold Connect in E. rewrite (bind_quiet _ _ s s s eq_refl) in E.
  case_bool_decide as Hs. { injection E as <- <- <-. right; right. auto. }
  destruct (ln_nodeCount (nw_ldn data) =? 0) eqn:Hc.
  { injection E as <- <- <-. right; right. split; [right; split; [done|lia]|done]. }
  unfold mbind at 1, M_bind at 1, lift in E. destruct (head _) as [n0|]; [|done]. cbv zeta in E.
  rewrite (bind_quiet _ _ _ tt _ eq_refl) in E.
  unfold mbind at 1, M_bind at 1 in E. destruct (SendFrame _ _ _ _ _) as [[[u s1] o1]|]; [|done].
  unfold mbind at 1, M_bind at 1 in E.
  destruct (connect_poll _ _ _ _ _ _ s1) as [[[ok s2] o2]|] eqn:Ep; [|done].
  destruct ok.
  - injection E as <- <- _. left. split; [done|]. by eapply connect_poll_result.
  - injection E as <- <- _. right; left. done.
Qed.

(** The host's answers to the joining console. *)
Definition demo_sync (seq : Z) : bytes :=
  control_frame LanPacket_SyncNetwork seq (cenc NetworkInfo_codec (m_network_info demo_hosting)).
(** Another room on the same relay. *)
Definition demo_foreign : bytes :=
  let i := m_network_info demo_hosting in
  control_frame LanPacket_SyncNetwork 200
    (cenc NetworkInfo_codec
       (mkNetwork (nw_intentId i) (nw_sessionId i)
          (mkCommon (FakeMac 0x0A0D2577) 32 FakeSsid 6 3 2 0) (nw_ldn i))).
(** The host answers each of the seven Connect frames. *)
Definition demo_answers (foreign : bool) : Env := fun i =>
  (if foreign && (i =? 0)%nat then [(true, CFrame 8 0x0A0D2577 demo_foreign)] else []) ++
  (if (i mod 50 =? 1)%nat
   then [(true, CFrame 9 0x0A0D2502 (demo_sync (3 + Z.of_nat i / 50)))] else []).
Definition demo_connect (foreign : bool) : option LdnResult :=
  match Connect true (env_run (demo_answers foreign)) (mkConnect (replicate 33 0) 3)
          (m_network_info demo_host) demo_station with
  | Some (r, _, _) => Some r
  | None => None
  end.

Lemma Connect_result_witness :
  exists s' o,
    Connect true (env_run (demo_answers false)) (mkConnect (replicate 33 0) 3)
      (m_network_info demo_host) demo_station = Some (R_OK, s', o) /\
    m_state s' = CS_StationConnected.
Proof.
  destruct (Connect true (env_run (demo_answers false)) (mkConnect (replicate 33 0) 3)
              (m_network_info demo_host) demo_station) as [[[r s'] o]|] eqn:E;
    [|vm_compute in E; discriminate].
  assert (r = R_OK) as -> by (vm_compute in E; injection E as <- _ _; reflexivity).
  exists s', o. split; [reflexivity|].
  destruct (Connect_result true _ _ _ _ _ _ _ E)
    as [[_ H]|[(H & _)|[[(H & _)|(H & _)] _]]]; [exact H|discriminate H..].
Defined.


(** *** Sequence numbers and session scope *)

(** Nothing but the sequence check changed. *)
Definition same_session (s s' : LdnControl) : Prop :=
  m_state s' = m_state s /\ m_network_info s' = m_network_info s /\
  m_host_last_seen s' = m_host_last_seen s /\ m_node_changes s' = m_node_changes s /\
  m_prev_node_connected s' = m_prev_node_connected s /\ m_state_event s' = m_state_event s /\
  m_join_active s' = m_join_active s /\ m_join_target_bssid s' = m_join_target_bssid s.

Definition stale (s : LdnControl) (seq : Z) : bool :=
  negb (seq =? 0) && m_relay_sync_seq_valid s && (u16 (m_relay_sync_seq s - seq) <? 256).
Definition foreign (s : LdnControl) (i : NetworkInfo) : bool :=
  m_join_active s && negb (bool_decide (cn_bssid (nw_common i) = m_join_target_bssid s)).

Lemma changed_fields s :
  m_network_info (OnNetworkInfoChanged s) = m_network_info s /\
  m_host_last_seen (OnNetworkInfoChanged s) = m_host_last_seen s /\
  m_relay_sync_seq (OnNetworkInfoChanged s) = m_relay_sync_seq s /\
  m_relay_sync_seq_valid (OnNetworkInfoChanged s) = m_relay_sync_seq_valid s /\
  m_state (OnNetworkInfoChanged s) = m_state s.
Proof. unfold OnNetworkInfoChanged. case_match; by split_and!. Qed.

Lemma HandleSyncNetwork_run now body seq s
    (Hw : ctl_wf s) (Hb : is_bytes body) (Hl : length body = sizeof_NetworkInfo)
    (Hst : m_state s = CS_Station \/ m_state s = CS_StationConnected)
    (Hc : count_ok (cdec NetworkInfo_codec body)) :
  exists s', HandleSyncNetwork now body seq s = Some (tt, s', []) /\
  let info := cdec NetworkInfo_codec body in
  if stale s seq then s' = s
  else if foreign s info then same_session s s'
  else
    m_network_info s' = info /\ m_host_last_seen s' = now /\
    (seq <> 0 -> m_relay_sync_seq s' = seq /\ m_relay_sync_seq_valid s' = true) /\
    exists listed,
      any_node (node_is (m_ipv4_address s)) (ln_nodes (nw_ldn info))
        (Z.to_nat (ln_nodeCount (nw_ldn info))) 0 = Some listed /\
      m_state s' = (if bool_decide (m_state s = CS_StationConnected) || listed
                    then CS_StationConnected else CS_Station).
Proof.
  assert (cwf NetworkInfo_codec (cdec NetworkInfo_codec body)) as Hwi
    by (apply cdec_wf; [done|unfold sizeof_NetworkInfo in Hl; lia]).
  set (info := cdec NetworkInfo_codec body) in *.
  unfold HandleSyncNetwork. rewrite (bind_quiet _ _ s s s eq_refl).
  rewrite Hl, Nat.eqb_refl. rewrite (bool_decide_true _ Hst). cbn [negb]. fold (stale s seq).
  destruct (stale s seq); [by exists s|].
  set (s1 := if negb (seq =? 0) then set_m_relay_sync_seq_valid (set_m_relay_sync_seq s seq) true else s).
  rewrite (bind_quiet _ _ s tt s1) by (unfold s1; by destruct (negb (seq =? 0))).
  cbv zeta. fold info. fold (foreign s info).
  assert (m_state s1 = m_state s /\ m_ipv4_address s1 = m_ipv4_address s) as [Es1 Eip]
    by (unfold s1; by destruct (negb (seq =? 0))).
  destruct (foreign s info).
  { exists s1. split; [done|]. unfold same_session, s1. by destruct (negb (seq =? 0)). }
  set (s2 := set_m_host_last_seen (set_m_network_info s1 info) now).
  rewrite (bind_quiet _ _ s1 tt s2 eq_refl).
  destruct (session_has_runs s2 (m_ipv4_address s2)) as [listed Hlisted];
    [by apply wf_nodes8|done|].
  assert (exists s3, (if bool_decide (m_state s = CS_Station)
     then s ← gets id; confirmed ← lift (session_has s (m_ipv4_address s));
          if (confirmed : bool) then modify (SetState CS_StationConnected) else skip
     else skip) s2 = Some (tt, s3, []) /\
     m_network_info s3 = info /\ m_host_last_seen s3 = now /\
     m_relay_sync_seq s3 = m_relay_sync_seq s1 /\ m_relay_sync_seq_valid s3 = m_relay_sync_seq_valid s1 /\
     m_state s3 = (if bool_decide (m_state s = CS_StationConnected) || listed
                    then CS_StationConnected else CS_Station)) as (s3 & E3 & H3).
  { destruct Hst as [Hst|Hst]; rewrite Hst.
    - rewrite bool_decide_true, bool_decide_false by done. rewrite (bind_quiet _ _ s2 s2 s2 eq_refl).
      rewrite (bind_quiet _ _ s2 listed s2) by (unfold lift; by rewrite Hlisted).
      destruct listed; [exists (SetState CS_StationConnected s2)|exists s2].
      + split; [done|]. unfold SetState. rewrite bool_decide_false by (unfold s2; lc_cbn; congruence).
        unfold SignalStateChange, s2. lc_cbn. done.
      + split; [done|]. unfold s2. lc_cbn. rewrite Es1, Hst. done.
    - rewrite bool_decide_false, bool_decide_true by done. exists s2. split; [done|].
      unfold s2. lc_cbn. rewrite Es1, Hst. done. }
  rewrite (bind_quiet _ _ s2 tt s3 E3). destruct H3 as (H31 & H32 & H33 & H34 & H35).
  exists (OnNetworkInfoChanged s3). split; [done|].
  destruct (changed_fields s3) as (-> & -> & -> & -> & ->).
  rewrite H31, H32, H33, H34, H35. split; [done|]. split; [done|]. split.
  { intros Hne. unfold s1. rewrite (proj2 (Z.eqb_neq _ _) Hne). done. }
  exists listed. split; [|done]. unfold session_has, s2 in Hlisted.
  revert Hlisted. lc_cbn. rewrite Eip. done.
Qed.



(** ** The request of local network mode *)

(** Whether the calls made leave a request open: created with success and not
    closed ([NifmCancel] does not release it). *)
Definition holds_request (nf : NifmEnv) (o : list LdnOut) : bool :=
  (nf_create nf =? 0) &&
  existsb (fun x => match x with ONifm NifmCreateRequest => true | _ => false end) o &&
  negb (existsb (fun x => match x with ONifm NifmClose => true | _ => false end) o).

(** entering local network mode while it is active makes no nifm call.
    Entering it from inactive makes it active exactly if every nifm call
    succeeded, and reports success exactly then; a request is left open exactly
    if its creation succeeded, so when nifm then refuses the option or the
    submission the request is cancelled but stays open while the mode is
    inactive, and the next attempt creates another (its handles leak). *)
Theorem EnterLocalNetworkMode_spec nf s :
  exists r s' o, EnterLocalNetworkMode nf s = Some (r, s', o) /\
    if m_local_network_mode s then r = R_OK /\ s' = s /\ o = []
    else
      let created := (nf_profile nf =? 0) && (nf_set nf =? 0) && (nf_create nf =? 0) in
      let entered := created && (nf_local nf =? 0) && (nf_submit nf =? 0) in
      m_local_network_mode s' = entered /\ bool_decide (r = R_OK) = entered /\
      holds_request nf o = created.
Proof.
  destruct nf as [p m st c l sb]. unfold EnterLocalNetworkMode, holds_request.
  cbn [nf_profile nf_mtu nf_set nf_create nf_local nf_submit].
  rewrite (bind_quiet _ _ s s s eq_refl). destruct (m_local_network_mode s) eqn:Em; [by exists R_OK, s, []|].
  unfold mbind, M_bind, emit, modify, mret, M_ret.
  destruct (p =? 0) eqn:?, (st =? 0) eqn:?, (c =? 0) eqn:?, (l =? 0) eqn:?, (sb =? 0) eqn:?;
    cbn [negb andb]; do 3 eexists; (split; [reflexivity|]); lc_cbn;
    repeat split; try done; by apply bool_decide_eq_false_2.
Qed.

Lemma wf_bssid s : ctl_wf s -> buf_ok 6 (cn_bssid (nw_common (m_network_info s))).
Proof. intros H. pose proof (wf_info _ H) as Hi. rewrite NetworkInfo_wf, Common_wf in Hi. apply Hi. Qed.

(** A station that has joined. *)
Lemma Tick_station_spec_witness :
  exists s s', reachable s /\ m_state s = CS_StationConnected /\
    Tick true (9 + RelayPeerTimeoutTicks) s = Some (tt, s', heartbeat s) /\
    m_state s' = CS_Station /\ m_disconnect_reason s' = 6.
Proof.
  destruct (Connect true (env_run (demo_answers false)) (mkConnect (replicate 33 0) 3)
              (m_network_info demo_host) demo_station) as [[[r s] o]|] eqn:E;
    [|vm_compute in E; discriminate].
  assert (env_ok (demo_answers false)) as He.
  { intros i. unfold demo_answers. cbn [andb app].
    destruct (i mod 50 =? 1)%nat; [|constructor]. constructor; [|constructor].
    refine (conj _ _); [split; [apply Z.leb_le|apply Z.ltb_lt]; reflexivity|].
    apply control_frame_bytes, (cenc_bytes (c := NetworkInfo_codec)),
      (wf_info _ (proj1 (reachable_inv _ demo_hosting_reachable))). }
  assert (buf_ok 6 (cn_bssid (nw_common (m_network_info demo_host)))) as Hb
    by apply wf_bssid, (reachable_inv _ demo_host_reachable).
  pose proof (reach_connect _ _ _ _ _ _ _ _ demo_station_reachable He Hb E) as Hr.
  assert (m_state s = CS_StationConnected) as Hc by (vm_compute in E; injection E as _ <- _; reflexivity).
  assert (m_last_beacon s = 0 /\ m_host_last_seen s = 9) as [H1 H2]
    by (vm_compute in E; injection E as _ <- _; split; reflexivity).
  assert (RelayBeaconIntervalTicks <= 9 + RelayPeerTimeoutTicks - m_last_beacon s) as Hd
    by (rewrite H1; apply Z.leb_le; reflexivity).
  destruct (Tick_station_spec s (9 + RelayPeerTimeoutTicks) Hr Hc Hd) as (s' & E' & _ & _ & H).
  assert (RelayPeerTimeoutTicks <=? 9 + RelayPeerTimeoutTicks - m_host_last_seen s = true) as Ht
    by (rewrite H2; reflexivity).
  rewrite Ht in H. exists s, s'. split; [exact Hr|]. split; [exact Hc|]. split; [exact E'|].
  destruct H as (Ha & Hb' & _). split; [exact Ha|exact Hb'].
Defined.
