(* ===== verification/LdnJoin.v ===== *)
(** Joining a network (ldn_control.cpp): the steps of a scan, a connect and a
    synchronisation as the two consoles take them, and the frames they send. *)
From S2P Require Import Prelude Bytes CText Rle LdnTypes Tunnel LdnControl LdnSession.

(** ** The length of a frame *)
Lemma control_frame_length type seq body :
  is_u8 type -> is_u16 seq -> (length body <= sizeof_NetworkInfo)%nat ->
  (length (control_frame type seq body) <= sizeof_LanPacketHeader + sizeof_NetworkInfo)%nat.
Proof.
  intros Ht Hs Hb. assert (is_u8 0 /\ is_u8 1 /\ is_u16 0) as (? & ? & ?) by word_lia.
  assert (forall comp len dlen, is_u8 comp -> is_u16 len -> is_u16 dlen ->
    length (cenc LanPacketHeader_codec (mkHeader LanMagic type comp len dlen seq)) = sizeof_LanPacketHeader) as Hh
    by (intros; apply cenc_length, header_ok; done).
  unfold control_frame. destruct body as [|b body]; [rewrite Hh by done; lia|].
  destruct (Compress _ _) as [z|] eqn:E.
  - apply Compress_length in E. rewrite length_app, Hh by (done || apply u16_range). lia.
  - rewrite length_app, Hh by (done || apply u16_range). lia.
Qed.

Lemma network_frame_length type seq info :
  is_u8 type -> is_u16 seq -> cwf NetworkInfo_codec info ->
  (length (control_frame type seq (cenc NetworkInfo_codec info)) <= 2000)%nat.
Proof.
  intros Ht Hs Hi. etransitivity; [apply control_frame_length; [done..|]|].
  - by rewrite (cenc_length _ Hi).
  - apply Nat.leb_le. vm_compute. reflexivity.
Qed.

(** ** The address *)

Lemma Initialize_address ip nf s :
  exists s' o, Initialize ip nf s = Some (R_OK, s', o) /\
    m_ipv4_address s' = (if ParseIp ip =? 0 then 0x0A0D2502 else ParseIp ip).
Proof.
  unfold Initialize, exit_if_local, ExitLocalNetworkMode, mbind, M_bind, modify, gets, emit, mret, M_ret, skip.
  cbv zeta. set (s1 := InitNodeStateChange _).
  destruct (m_local_network_mode s1); [destruct (nf_profile nf =? 0)|];
    (eexists _, _; split; [reflexivity|unfold SetState; by case_match]).
Qed.

(** Only [Initialize] changes the address, and never to 0. *)
Definition addressed (s : LdnControl) : Prop := m_ipv4_address s <> 0.

Lemma addr_SetState st s : m_ipv4_address (SetState st s) = m_ipv4_address s.
Proof. unfold SetState. by case_match. Qed.
Lemma addr_OnNetworkInfoChanged s : m_ipv4_address (OnNetworkInfoChanged s) = m_ipv4_address s.
Proof. unfold OnNetworkInfoChanged. by case_match. Qed.
Lemma addr_RecordScanner src now s : m_ipv4_address (RecordScanner src now s) = m_ipv4_address s.
Proof. unfold RecordScanner. by case_match. Qed.

Ltac addr_update :=
  apply keeps_modify; let s := fresh "s" in let H := fresh "H" in intros s H;
  unfold addressed in *; cbv zeta; repeat case_match;
  rewrite ?addr_SetState, ?addr_OnNetworkInfoChanged, ?addr_RecordScanner; exact H.
Ltac addr_walk :=
  repeat first [keeps_step | progress cbv zeta | addr_update
    | progress unfold UpdateNodes, SendFrame, end_session, reap, send_bye, exit_if_local, enter_if_not_local,
        ExitLocalNetworkMode, EnterLocalNetworkMode, EnterLocalNetworkModePublic, ExitLocalNetworkModePublic].

Lemma addr_OnControlFrame running now src payload : keeps addressed (OnControlFrame running now src payload).
Proof.
  unfold OnControlFrame, HandleScan, HandleScanResp, HandleConnect, HandleSyncNetwork, HandleRelayHeartbeat,
    HandleRelayBye. addr_walk.
Qed.
Lemma addr_Tick running now : keeps addressed (Tick running now).
Proof. unfold Tick. addr_walk. Qed.
Lemma addr_Initialize ip nf : keeps addressed (Initialize ip nf).
Proof.
  intros s a s' o _ E. destruct (Initialize_address ip nf s) as (s1 & o1 & E1 & Ha). rewrite E1 in E.
  injection E as _ <- _. unfold addressed. rewrite Ha. destruct (ParseIp ip =? 0) eqn:E0; [done|by apply Z.eqb_neq].
Qed.
Lemma addr_run_call running c : keeps addressed (run_call running c).
Proof.
  destruct c; cbn [run_call]; try apply keeps_seq;
    try (apply addr_OnControlFrame || apply addr_Tick || apply addr_Initialize).
  all: unfold Finalize, OpenAccessPoint, CloseStation, CloseAccessPoint, CreateNetwork,
    DestroyNetwork, SetAdvertiseData, SetStationAcceptPolicy, Reject, OpenStation, Disconnect, GetNetworkInfoLatestUpdate.
  all: addr_walk.
Qed.
Lemma addr_env env i : keeps addressed (env_run env i).
Proof.
  unfold env_run. induction (env i) as [|[r c] l IH]; cbn [for_each]; [apply keeps_skip|].
  apply keeps_bind; [apply addr_run_call|]. intros []. exact IH.
Qed.
Lemma addr_Scan running env f cap : keeps addressed (Scan running (env_run env) f cap).
Proof.
  assert (forall n i last stable, keeps addressed (scan_poll running (env_run env) n i last stable)) as Hp.
  { intros n. induction n as [|n IH]; intros i last stable; cbn [scan_poll]; [apply keeps_skip|].
    repeat first [apply addr_env | apply IH | progress addr_walk]. }
  unfold Scan. repeat first [apply Hp | progress addr_walk].
Qed.
Lemma addr_Connect running env dat data : keeps addressed (Connect running (env_run env) dat data).
Proof.
  assert (forall host my n i, keeps addressed (connect_poll running (env_run env) n i host my)) as Hp.
  { intros host my n. induction n as [|n IH]; intros i; cbn [connect_poll]; [apply keeps_ret|].
    repeat first [apply addr_env | apply IH | progress addr_walk]. }
  unfold Connect. repeat first [apply Hp | progress addr_walk].
Qed.
Lemma reachable_addressed s : reachable s -> m_ipv4_address s <> 0.
Proof.
  induction 1 as [|r c s s' o _ IH _ E|r env f cap s x s' o _ IH _ E|r env dat data s x s' o _ IH _ _ E].
  - done.
  - exact (addr_run_call r c s tt s' o IH E).
  - exact (addr_Scan r env f cap s x s' o IH E).
  - exact (addr_Connect r env dat data s x s' o IH E).
Qed.

(** ** The steps *)
Lemma elem_alter_const {A} (x : A) (l : list A) (i : nat) u : u ∈ alter (fun _ => x) i l -> u = x \/ u ∈ l.
Proof.
  intros (k & Hk)%list_elem_of_lookup. destruct (decide (k = i)) as [->|Hne].
  - rewrite list_lookup_alter_eq in Hk. destruct (l !! i); [|done]. injection Hk as <-. by left.
  - rewrite list_lookup_alter_ne in Hk by done. right. by eapply list_elem_of_lookup_2.
Qed.


(** A scanner recorded is a recent scanner for 30 seconds. *)
Lemma scanner_slot_inl l src now : forall i free j,
  scanner_slot l src now i free = inl j ->
  exists e, l !! (j - i)%nat = Some e /\ (i <= j)%nat /\ se_used e = true /\ se_ip e = src.
Proof.
  induction l as [|e l IH]; intros i free j E; cbn [scanner_slot] in E; [by destruct free|].
  destruct (se_used e && (se_ip e =? src)) eqn:Ee.
  - injection E as <-. apply andb_true_iff in Ee as [Eu Ei]. exists e.
    rewrite Nat.sub_diag. split_and!; [done|lia|done|lia].
  - apply IH in E as (x & Hx & Hle & Hu & Hi). exists x.
    replace (j - i)%nat with (S (j - S i)) by lia. split_and!; [done|lia|done..].
Qed.

Lemma existsb_lookup {A} (p : A -> bool) l i x : l !! i = Some x -> p x = true -> existsb p l = true.
Proof.
  intros H Hp. apply existsb_exists. exists x. split; [|done].
  apply list_elem_of_In. by eapply list_elem_of_lookup_2.
Qed.

Lemma RecordScanner_recent s src now now' :
  ctl_wf s -> now' - now <= ScannerTimeoutTicks ->
  WasRecentScanner src now' (RecordScanner src now s) = true.
Proof.
  intros Hw Hn. pose proof (wf_scanners s Hw) as Hl. unfold WasRecentScanner, RecordScanner.
  pose proof (scanner_slot_range (m_recent_scanners s) src now 0 None I) as Hr.
  destruct (scanner_slot (m_recent_scanners s) src now 0 None) as [i|free] eqn:E; lc_cbn.
  - apply scanner_slot_inl in E as (e & He & _ & Hu & Hi). rewrite Nat.sub_0_r in He.
    apply (existsb_lookup _ _ i (mkScanner (se_ip e) now (se_used e))).
    + by rewrite list_lookup_alter_eq, He.
    + cbn. rewrite Hu, Hi, Z.eqb_refl. cbn [andb]. by apply Z.leb_le.
  - apply (existsb_lookup _ _ (default 0%nat free) (mkScanner src now true)).
    + apply list_lookup_insert_eq. destruct free; cbn in *; unfold MaxRecentScanners in *; lia.
    + cbn. rewrite Z.eqb_refl. by apply Z.leb_le.
Qed.

(** Every connected station is sent the network. *)
Lemma sync_frames_to info l t : forall seq,
  t ∈ l -> station_in t = true ->
  exists q, is_u16 q /\ q <> 0 /\
    OFrame (st_src_ip t) (control_frame LanPacket_SyncNetwork q (cenc NetworkInfo_codec info))
      ∈ sync_frames seq info l.
Proof.
  induction l as [|u l IH]; intros seq Ht Hin; [by apply elem_of_nil in Ht|].
  cbn [sync_frames]. apply elem_of_cons in Ht as [<-|Ht].
  - rewrite Hin. destruct (next_seq_ok seq) as [H1 H2]. exists (next_seq seq). split; [done|].
    split; [done|]. apply elem_of_cons. by left.
  - destruct (station_in u).
    + destruct (IH (next_seq seq) Ht Hin) as (q & H1 & H2 & H3). exists q. split; [done|].
      split; [done|]. apply elem_of_cons. by right.
    + by apply IH.
Qed.

(** Its own node is found by the station that was registered. *)
Lemma station_nodes_elem nid l t :
  t ∈ l -> station_in t = true -> exists k, listed_node k t ∈ station_nodes nid l.
Proof.
  revert nid. induction l as [|u l IH]; intros nid Ht Hin; [by apply elem_of_nil in Ht|].
  cbn [station_nodes]. apply elem_of_cons in Ht as [<-|Ht].
  - rewrite Hin. exists nid. apply elem_of_cons. by left.
  - destruct (IH (S nid) Ht Hin) as [k Hk].
    destruct (station_in u); exists k; [apply elem_of_cons; by right|done].
Qed.

Lemma any_node_true p nodes count i n k :
  nodes !! k = Some n -> p n = true -> (i <= k < i + count)%nat -> (i + count <= length nodes)%nat ->
  any_node p nodes count i = Some true.
Proof.
  intros Hk Hp. revert i. induction count as [|count IH]; intros i Hr Hl; [lia|].
  cbn [any_node]. destruct (lookup_lt_is_Some_2 nodes i) as [x Hx]; [lia|]. rewrite Hx. cbn.
  destruct (p x) eqn:E; [done|]. destruct (decide (i = k)) as [->|Hne]; [congruence|].
  apply IH; lia.
Qed.

Lemma BuildNetwork_lists s t :
  ctl_wf s -> t ∈ stations7 s -> station_in t = true ->
  any_node (node_is (st_src_ip t)) (ln_nodes (nw_ldn (BuildNetwork s)))
    (Z.to_nat (ln_nodeCount (nw_ldn (BuildNetwork s)))) 0 = Some true /\ count_ok (BuildNetwork s).
Proof.
  intros Hw Ht Hin. pose proof (StationCount_le s Hw) as Hc.
  destruct (stations7_ok s Hw) as [_ Hf].
  destruct (station_nodes_elem 1 (stations7 s) t Ht Hin) as [k Hk].
  apply list_elem_of_lookup in Hk as [j Hj].
  pose proof (wf_nodes8 _ (BuildNetwork_wf s Hw)) as H8.
  assert (length (station_nodes 1 (stations7 s)) = StationCount s) as Hn by apply station_nodes_length.
  apply lookup_lt_Some in Hj as Hlt.
  unfold count_ok, BuildNetwork in *. cbn [nw_ldn ln_nodes ln_nodeCount length] in *.
  rewrite Nat2Z.id. split; [|rewrite Hn; lia].
  apply (any_node_true _ _ _ _ (listed_node k t) (S j)).
  - apply lookup_app_l_Some. exact Hj.
  - unfold node_is, listed_node. cbn [ni_isConnected ni_ipv4Address].
    apply list_elem_of_lookup in Ht as [i Hi].
    destruct (Forall_lookup_1 _ _ _ _ Hf Hi) as (_ & _ & _ & Ha).
    apply andb_true_iff in Hin as [Hin _]. by rewrite (Ha Hin), Z.eqb_refl.
  - lia.
  - rewrite H8. lia.
Qed.

Lemma OnControlFrame_parsed running now src payload type body seq :
  parse_control payload = Some (type, body, seq) ->
  OnControlFrame running now src payload =
    if type =? LanPacket_Scan then HandleScan running now src
    else if type =? LanPacket_ScanResp then HandleScanResp src body
    else if type =? LanPacket_Connect then HandleConnect running now src body
    else if type =? LanPacket_SyncNetwork then HandleSyncNetwork now body seq
    else if type =? LanPacket_RelayHeartbeat then HandleRelayHeartbeat now src body
    else if type =? LanPacket_RelayBye then HandleRelayBye running src body
    else skip.
Proof. intros E. unfold OnControlFrame. by rewrite E. Qed.

(** A Scan frame at a host. *)
Lemma scan_step h now src q :
  is_u16 q -> m_state h = CS_AccessPointCreated ->
  let h1 := set_m_tx_seq (RecordScanner src now h) (next_seq (m_tx_seq h)) in
  OnControlFrame true now src (control_frame LanPacket_Scan q []) h =
    Some (tt, h1, [OFrame src (control_frame LanPacket_ScanResp (next_seq (m_tx_seq h))
                                 (cenc NetworkInfo_codec (BuildNetwork h)))]) /\
  m_state h1 = CS_AccessPointCreated /\ m_stations h1 = m_stations h /\
  m_ipv4_address h1 = m_ipv4_address h /\
  m_recent_scanners h1 = m_recent_scanners (RecordScanner src now h).
Proof.
  intros Hq Hs. cbv zeta.
  assert (BuildNetwork (RecordScanner src now h) = BuildNetwork h /\
          m_tx_seq (RecordScanner src now h) = m_tx_seq h /\
          m_state (RecordScanner src now h) = m_state h /\
          m_stations (RecordScanner src now h) = m_stations h /\
          m_ipv4_address (RecordScanner src now h) = m_ipv4_address h) as (E1 & E2 & E3 & E4 & E5)
    by (unfold RecordScanner; case_match; by split_and!).
  rewrite (OnControlFrame_parsed _ _ _ _ LanPacket_Scan [] q)
    by (apply parse_control_frame; [done|done|apply Nat.le_0_l]).
  cbn [Z.eqb LanPacket_Scan]. split.
  - unfold HandleScan. rewrite (bind_quiet _ _ h (m_state h) h eq_refl), Hs.
    rewrite bool_decide_true by done. cbn [negb].
    rewrite (bind_quiet _ _ h tt (RecordScanner src now h) eq_refl).
    rewrite (bind_quiet _ _ _ (BuildNetwork h) (RecordScanner src now h))
      by (unfold gets; by rewrite E1).
    unfold SendFrame. cbn [negb]. unfold mbind, M_bind, modify, gets, emit. lc_cbn. by rewrite E2.
  - lc_cbn. rewrite E3, E4, E5. done.
Qed.

Lemma filter_all_length {A} (P : A -> Prop) `{!forall x, Decision (P x)} l :
  Forall P l -> length (filter P l) = length l.
Proof.
  induction 1 as [|x l Hx _ IH]; [done|]. rewrite filter_cons, decide_True by done.
  cbn [length]. by rewrite IH.
Qed.

(** A host with room has a slot for anyone. *)
Lemma connect_slot_room s src :
  ctl_wf s -> (StationCount s < 7)%nat -> exists nid, connect_slot s src = Some nid.
Proof.
  intros Hw Hc. unfold connect_slot. destruct (FindStationByIp s src) as [nid|]; [by eexists|].
  unfold StationCountMax, NodeCountMax. rewrite (proj2 (Nat.leb_gt _ _)) by (simpl; lia).
  destruct (FindFreeNodeId s) as [nid|] eqn:Ef; [by eexists|]. exfalso.
  destruct (stations7_ok s Hw) as [Hl Hf].
  assert (Forall (fun t => station_in t) (stations7 s)) as Hall.
  { apply Forall_lookup_2. intros i t Hi. unfold stations7 in Hi.
    apply lookup_take_Some in Hi as [Hi Hlt]. unfold StationCountMax, NodeCountMax in Hlt.
    pose proof (find_nid_None _ _ Ef i t ltac:(lia) Hi) as Ha. cbn in Ha.
    destruct (wf_stations s Hw) as [_ Hst].
    destruct (Forall_lookup_1 _ _ _ _ Hst Hi) as [Heq _].
    unfold station_in. rewrite <- Heq. by destruct (st_active t). }
  unfold StationCount in Hc. rewrite (filter_all_length _ _ Hall) in Hc. lia.
Qed.

(** A Connect frame at a host that has room for its sender. *)
Lemma connect_step h now src q body :
  ctl_wf h -> m_state h = CS_AccessPointCreated -> is_u32 src -> is_u16 q -> is_bytes body ->
  length body = sizeof_NodeInfo -> (StationCount h < 7)%nat -> WasRecentScanner src now h = true ->
  exists s1 t,
    OnControlFrame true now src (control_frame LanPacket_Connect q body) h =
      Some (tt, updated s1, sync_frames (m_tx_seq h) (BuildNetwork s1) (stations7 s1)) /\
    ctl_wf s1 /\ t ∈ stations7 s1 /\ station_in t = true /\ st_src_ip t = src /\
    m_network_info s1 = m_network_info h /\ m_ipv4_address s1 = m_ipv4_address h /\
    (forall u, u ∈ stations7 s1 -> u = t \/ u ∈ stations7 h).
Proof.
  intros Hw Hs Hsrc Hq Hb Hl Hroom Hrec.
  destruct (connect_slot_room h src Hw Hroom) as [nid Hnid].
  assert (length body <= sizeof_NetworkInfo)%nat as Hle
    by (rewrite Hl; destruct wire_sizes as (-> & -> & _); lia).
  set (t := mkStation true true src (register_node nid src (cdec NodeInfo_codec body)) now).
  exists (set_station h nid (fun _ => t)), t.
  rewrite (OnControlFrame_parsed _ _ _ _ LanPacket_Connect body q)
    by (apply parse_control_frame; done).
  cbn [Z.eqb Pos.eqb LanPacket_Scan LanPacket_ScanResp LanPacket_Connect].
  rewrite (HandleConnect_run _ _ _ _ Hs Hl). unfold may_connect. rewrite Hrec, Hnid. cbn [orb].
  split; [done|].
  assert ((1 <= nid <= 7)%nat /\ (FindStationByIp h src = Some nid \/ FindStationByIp h src = None))
    as [Hn Hf].
  { unfold connect_slot in Hnid. destruct (FindStationByIp h src) as [n|] eqn:Ef.
    - injection Hnid as ->. apply find_nid_Some in Ef as [? _]. auto.
    - destruct (_ <=? _)%nat; [done|]. apply find_nid_Some in Hnid as [? _]. auto. }
  split.
  { apply (wf_register h nid src t); try done.
    assert (cwf NodeInfo_codec (cdec NodeInfo_codec body)) as Hn0
      by (apply cdec_wf; [done|unfold sizeof_NodeInfo in Hl; lia]).
    split_and!; try done. apply register_node_wf; [done|done|lia]. }
  assert (stations7 (set_station h nid (fun _ => t)) = alter (fun _ => t) (nid - 1)%nat (stations7 h)) as Hs7
    by (unfold stations7, set_station; lc_cbn; apply take_alter).
  rewrite Hs7. split_and!; try done; [|intros u; apply elem_alter_const].
  apply list_elem_of_lookup. exists (nid - 1)%nat. unfold stations7. rewrite list_lookup_alter_eq.
  destruct (wf_stations h Hw) as [Hln _].
  destruct (lookup_lt_is_Some_2 (take StationCountMax (m_stations h)) (nid - 1)) as [u Hu];
    [rewrite length_take, Hln; unfold StationCountMax, NodeCountMax; lia|]. by rewrite Hu.
Qed.

(** A joiner that is sent a list of its target with itself in it. *)
Lemma sync_step j info t4 src q :
  ctl_wf j -> m_state j = CS_Station -> m_join_active j = true -> m_relay_sync_seq_valid j = false ->
  m_join_target_bssid j = cn_bssid (nw_common info) -> cwf NetworkInfo_codec info -> is_u16 q ->
  any_node (node_is (m_ipv4_address j)) (ln_nodes (nw_ldn info)) (Z.to_nat (ln_nodeCount (nw_ldn info))) 0
    = Some true -> count_ok info ->
  exists j2,
    OnControlFrame true t4 src (control_frame LanPacket_SyncNetwork q (cenc NetworkInfo_codec info)) j =
      Some (tt, j2, []) /\
    m_state j2 = CS_StationConnected /\ m_network_info j2 = info.
Proof.
  intros Hj Hsta Hact Hfresh Htarget Hwi Hq Hlist Hcount.
  destruct (HandleSyncNetwork_run t4 (cenc NetworkInfo_codec info) q j Hj) as (j2 & E3 & H3).
  { exact (cenc_bytes (c := NetworkInfo_codec) info Hwi). }
  { exact (cenc_length (c := NetworkInfo_codec) info Hwi). }
  { by left. }
  { by rewrite (cdec_cenc NetworkInfo_codec info Hwi). }
  rewrite (cdec_cenc NetworkInfo_codec info Hwi) in H3. cbv zeta in H3.
  assert (stale j q = false) as Hstale by (unfold stale; rewrite Hfresh; by rewrite andb_false_r).
  assert (foreign j info = false) as Hfor
    by (unfold foreign; rewrite Hact, Htarget; by rewrite bool_decide_true).
  rewrite Hstale, Hfor in H3. destruct H3 as (J1 & _ & _ & listed & J2 & J3).
  rewrite Hlist in J2. injection J2 as <-. rewrite orb_true_r in J3.
  exists j2. split; [|done].
  assert (csize NetworkInfo_codec <= sizeof_NetworkInfo)%nat as Hle by reflexivity.
  rewrite (OnControlFrame_parsed _ _ _ _ LanPacket_SyncNetwork (cenc NetworkInfo_codec info) q)
    by (by apply (parse_control_struct NetworkInfo_codec)). exact E3.
Qed.

(** What a frame to one of the addresses [P] looks like. *)
Definition frame_to (P : Z -> Prop) (x : LdnOut) : Prop :=
  match x with
  | OFrame dst buf => P dst /\ (length buf <= 2000)%nat
  | ONifm _ => False
  end.

Lemma sync_frames_ok (P : Z -> Prop) info l : forall seq,
  cwf NetworkInfo_codec info -> (forall u, u ∈ l -> station_in u = true -> P (st_src_ip u)) ->
  Forall (frame_to P) (sync_frames seq info l).
Proof.
  induction l as [|u l IH]; intros seq Hi Hu; cbn [sync_frames]; [done|].
  assert (forall v, v ∈ l -> station_in v = true -> P (st_src_ip v)) as Hl
    by (intros v Hv; apply Hu; apply elem_of_cons; by right).
  destruct (station_in u) eqn:E; [|by apply IH]. constructor; [|by apply IH]. split.
  - apply Hu; [apply elem_of_cons; by left|done].
  - apply network_frame_length; [done|apply next_seq_ok|done].
Qed.

(** The join, frame by frame.  A console scans a hosting one: the answer it gets
    describes the host's network.  It connects within 30 seconds: the host, if
    it has room, registers it and sends it and its other stations the new
    network.  Receiving that frame, while its own [Connect] targets this network
    and applied no synchronisation yet, the joiner becomes a connected station
    and both consoles hold the same network, which lists the joiner. *)
Lemma join_handshake h j t1 q1 q2 body
    (Hh : reachable h) (Hhost : m_state h = CS_AccessPointCreated)
    (Hj : ctl_wf j) (Hsta : m_state j = CS_Station) (Hact : m_join_active j = true)
    (Htarget : m_join_target_bssid j = cn_bssid (nw_common (m_network_info h)))
    (Hfresh : m_relay_sync_seq_valid j = false)
    (Hroom : (StationCount h < 7)%nat)
    (Hq1 : is_u16 q1) (Hq2 : is_u16 q2)
    (Hb : is_bytes body) (Hlen : length body = sizeof_NodeInfo) :
  let to u := u = m_ipv4_address j \/
              exists t, t ∈ stations7 h /\ station_in t = true /\ st_src_ip t = u in
  exists h1 resp q,
    OnControlFrame true t1 (m_ipv4_address j) (control_frame LanPacket_Scan q1 []) h =
      Some (tt, h1, [OFrame (m_ipv4_address j) resp]) /\
    (length resp <= 2000)%nat /\
    parse_control resp = Some (LanPacket_ScanResp, cenc NetworkInfo_codec (m_network_info h), q) /\
    m_ipv4_address h1 = m_ipv4_address h /\
  forall t3, t3 - t1 <= ScannerTimeoutTicks -> exists h2 out sync,
    OnControlFrame true t3 (m_ipv4_address j) (control_frame LanPacket_Connect q2 body) h1 =
      Some (tt, h2, out) /\
    m_ipv4_address h2 = m_ipv4_address h /\ Forall (frame_to to) out /\
    OFrame (m_ipv4_address j) sync ∈ out /\
  forall t4, exists j2,
    OnControlFrame true t4 (m_ipv4_address h) sync j = Some (tt, j2, []) /\
    m_state j2 = CS_StationConnected /\ m_network_info j2 = m_network_info h2 /\
    session_has j2 (m_ipv4_address j) = Some true.
Proof.
  intros to. destruct (reachable_inv h Hh) as [Hw Hsync]. specialize (Hsync Hhost).
  pose proof (wf_ip j Hj) as Hju.
  destruct (scan_step h t1 (m_ipv4_address j) q1 Hq1 Hhost) as (E1 & S1 & S2 & S3 & S4).
  set (h1 := set_m_tx_seq _ _) in *.
  assert (ctl_wf h1) as Hw1.
  { pose proof (wf_RecordScanner (m_ipv4_address j) t1 h Hw) as H. unfold h1. revert H. wf_rebuild.
    apply next_seq_ok. }
  assert (stations7 h1 = stations7 h) as H7 by (unfold stations7; by rewrite S2).
  assert (StationCount h1 < 7)%nat as Hroom1 by (unfold StationCount; by rewrite H7).
  assert (m_network_info h1 = m_network_info h) as Hi1
    by (unfold h1, RecordScanner; case_match; done).
  exists h1, (control_frame LanPacket_ScanResp (next_seq (m_tx_seq h)) (cenc NetworkInfo_codec (BuildNetwork h))),
    (next_seq (m_tx_seq h)).
  split; [exact E1|].
  split; [apply network_frame_length; [done|apply next_seq_ok|by apply BuildNetwork_wf]|].
  split.
  { rewrite <- Hsync. apply (parse_control_struct NetworkInfo_codec); [done|apply next_seq_ok| |by apply wf_info].
    by apply Nat.leb_le. }
  split; [exact S3|]. intros t3 Ht.
  assert (WasRecentScanner (m_ipv4_address j) t3 h1 = true) as Hrec
    by (by apply (RecordScanner_recent h)).
  destruct (connect_step h1 t3 (m_ipv4_address j) q2 body Hw1 S1 Hju Hq2 Hb Hlen Hroom1 Hrec)
    as (s1 & t & E2 & Hws & Ht1 & Hin & Hst & Hi & Hip & Hsub).
  destruct (sync_frames_to (BuildNetwork s1) (stations7 s1) t (m_tx_seq h1) Ht1 Hin)
    as (q & Hq & Hq0 & Hsent). rewrite Hst in Hsent.
  destruct (BuildNetwork_lists s1 t Hws Ht1 Hin) as [Hlist Hcount]. rewrite Hst in Hlist.
  pose proof (BuildNetwork_wf s1 Hws) as Hwb.
  set (info := BuildNetwork s1) in *.
  destruct (updated_fields s1) as (_ & _ & U1 & U2 & _).
  exists (updated s1), (sync_frames (m_tx_seq h1) info (stations7 s1)),
    (control_frame LanPacket_SyncNetwork q (cenc NetworkInfo_codec info)).
  split; [exact E2|]. split; [by rewrite U2, Hip|]. split.
  { apply sync_frames_ok; [exact Hwb|]. intros u Hu Hiu.
    destruct (Hsub u Hu) as [-> |Hu']; [by left|right; exists u]. by rewrite <- H7. }
  split; [exact Hsent|]. intros t4.
  destruct (sync_step j info t4 (m_ipv4_address h) q) as (j2 & E3 & J3 & J1); try done.
  { rewrite Htarget. change (nw_common info) with (nw_common (m_network_info s1)). by rewrite Hi, Hi1. }
  exists j2. split; [exact E3|]. split; [exact J3|]. split; [rewrite J1, U1; done|].
  unfold session_has. rewrite J1. exact Hlist.
Qed.

(** A station in the middle of [Connect]. *)
Definition demo_joining : LdnControl :=
  set_m_join_target_bssid (set_m_join_active demo_station true)
    (cn_bssid (nw_common (m_network_info demo_host))).
Lemma wf_joining s b : ctl_wf s -> buf_ok 6 b -> ctl_wf (set_m_join_target_bssid (set_m_join_active s true) b).
Proof. intros H Hb. revert H. wf_rebuild. Qed.
Lemma demo_joining_wf : ctl_wf demo_joining.
Proof.
  apply wf_joining; [apply (reachable_inv _ demo_station_reachable)|].
  apply wf_bssid, (reachable_inv _ demo_host_reachable).
Qed.

Lemma join_handshake_witness :
  exists j2, m_state j2 = CS_StationConnected /\ session_has j2 (m_ipv4_address demo_joining) = Some true.
Proof.
  assert (m_state demo_host = CS_AccessPointCreated) as H1 by (vm_compute; reflexivity).
  assert (m_state demo_joining = CS_Station) as H2 by (vm_compute; reflexivity).
  assert (m_join_active demo_joining = true) as H3 by (vm_compute; reflexivity).
  assert (m_join_target_bssid demo_joining = cn_bssid (nw_common (m_network_info demo_host))) as H4
    by (vm_compute; reflexivity).
  assert (m_relay_sync_seq_valid demo_joining = false) as H5 by (vm_compute; reflexivity).
  assert (200 - 100 <= ScannerTimeoutTicks) as H6 by (apply Z.leb_le; vm_compute; reflexivity).
  assert (StationCount demo_host < 7)%nat as H7 by (apply Nat.ltb_lt; vm_compute; reflexivity).
  assert (is_bytes (cenc NodeInfo_codec demo_node)) as H8 by (apply is_bytes_decide; by vm_compute).
  assert (length (cenc NodeInfo_codec demo_node) = sizeof_NodeInfo) as H9 by (vm_compute; reflexivity).
  assert (is_u16 1 /\ is_u16 2) as [H10 H11] by done.
  destruct (join_handshake demo_host demo_joining 100 1 2 (cenc NodeInfo_codec demo_node)
    demo_host_reachable H1 demo_joining_wf H2 H3 H4 H5 H7 H10 H11 H8 H9)
    as (h1 & resp & q & _ & _ & _ & _ & Hc).
  destruct (Hc 200 H6) as (h2 & out & sync & _ & _ & _ & _ & Hd).
  destruct (Hd 300) as (j2 & _ & Ha & _ & Hb).
  exists j2. split; [exact Ha|exact Hb].
Defined.

