(* ===== verification/LdnSilence.v ===== *)
(** What silence does to a session (the beacon of ldn/ldn_control.cpp): the
    peers that are gone are dropped on both ends, over every sequence of ticks. *)
From S2P Require Import Prelude Bytes LdnTypes LdnControl LdnSession.

(** The beacon over a sequence of ticks. *)
Definition ticks (nows : list Z) : M unit := for_each (Tick true) nows.

(** Some tick comes so long after [heard], and after the last beacon, that the
    beacon must have seen the silence. *)
Definition long_silent (heard beacon : Z) (nows : list Z) : Prop :=
  exists now, now ∈ nows /\ heard + RelayPeerTimeoutTicks + RelayBeaconIntervalTicks <= now /\
    beacon + RelayBeaconIntervalTicks <= now.

Lemma ticks_cons now nows s s1 o1 s2 o2 :
  Tick true now s = Some (tt, s1, o1) -> ticks nows s1 = Some (tt, s2, o2) ->
  ticks (now :: nows) s = Some (tt, s2, o1 ++ o2).
Proof. intros E1 E2. unfold ticks. cbn [for_each]. unfold mbind, M_bind. rewrite E1. unfold ticks in E2. by rewrite E2. Qed.

Lemma Tick_reachable now s s' o : reachable s -> Tick true now s = Some (tt, s', o) -> reachable s'.
Proof. intros Hs E. exact (reach_call true (CTick now) s s' o Hs I E). Qed.

Lemma Tick_early now s :
  now - m_last_beacon s < RelayBeaconIntervalTicks -> Tick true now s = Some (tt, s, []).
Proof. intros H. unfold Tick, mbind, M_bind, gets, id. by rewrite (proj2 (Z.ltb_lt _ _)) by lia. Qed.

(** ** The station *)

(** A station that left stays away. *)
Definition left_session (s : LdnControl) : Prop :=
  m_state s = CS_Station /\ m_disconnect_reason s = 6 /\ m_join_active s = false.

Lemma Tick_left now s : left_session s -> exists s', Tick true now s = Some (tt, s', []) /\ left_session s'.
Proof.
  intros (H1 & H2 & H3). destruct (Z.lt_ge_cases (now - m_last_beacon s) RelayBeaconIntervalTicks) as [H|H].
  - exists s. split; [by apply Tick_early|done].
  - unfold Tick. rewrite (bind_quiet _ _ s s s eq_refl). rewrite (proj2 (Z.ltb_ge _ _)) by lia.
    rewrite (bind_quiet _ _ s tt (set_m_last_beacon s now) eq_refl), H1, H3. cbn [bool_decide].
    rewrite bool_decide_false by done. cbn [andb].
    exists (set_m_last_beacon s now). split; [reflexivity|done].
Qed.
Lemma ticks_left nows : forall s, left_session s -> exists s', ticks nows s = Some (tt, s', []) /\ left_session s'.
Proof.
  induction nows as [|now nows IH]; intros s Hs; [by exists s|].
  destruct (Tick_left now s Hs) as (s1 & E1 & H1). destruct (IH s1 H1) as (s2 & E2 & H2).
  exists s2. split; [exact (ticks_cons _ _ _ _ _ _ _ E1 E2)|done].
Qed.

(** While it stays, the last beacon came before the host was silent too long. *)
Lemma station_ticks nows : forall s heard beacon,
  reachable s -> m_state s = CS_StationConnected -> m_host_last_seen s = heard ->
  (m_last_beacon s = beacon \/ m_last_beacon s < heard + RelayPeerTimeoutTicks) ->
  long_silent heard beacon nows ->
  exists s' o, ticks nows s = Some (tt, s', o) /\ left_session s'.
Proof.
  induction nows as [|now nows IH]; intros s heard beacon Hr Hc Hh Hb (t & Ht & H1 & H2).
  { by apply not_elem_of_nil in Ht. }
  destruct (Z.lt_ge_cases (now - m_last_beacon s) RelayBeaconIntervalTicks) as [He|He].
  - apply elem_of_cons in Ht as [->|Ht].
    { exfalso. unfold RelayPeerTimeoutTicks, RelayBeaconIntervalTicks in *. lia. }
    destruct (IH s heard beacon Hr Hc Hh Hb) as (s' & o & E & H'); [by exists t|].
    exists s', ([] ++ o). split; [|done]. by eapply ticks_cons; [apply Tick_early|].
  - destruct (Tick_station_spec s now Hr Hc He) as (s1 & E1 & Hb1 & _ & Hs1). rewrite Hh in Hs1.
    destruct (RelayPeerTimeoutTicks <=? now - heard) eqn:Et.
    + destruct Hs1 as (K1 & K2 & K3 & _). destruct (ticks_left nows s1) as (s2 & E2 & K); [done|].
      exists s2, (heartbeat s ++ []). split; [exact (ticks_cons _ _ _ _ _ _ _ E1 E2)|done].
    + apply Z.leb_gt in Et. destruct Hs1 as (K1 & _ & _ & K2). apply elem_of_cons in Ht as [->|Ht].
      { exfalso. unfold RelayBeaconIntervalTicks in *. lia. }
      destruct (IH s1 heard beacon) as (s2 & o & E2 & K);
        [by eapply Tick_reachable|done|congruence|right; lia|by exists t|].
      exists s2, (heartbeat s ++ o). split; [exact (ticks_cons _ _ _ _ _ _ _ E1 E2)|done].
Qed.

(** ** The host *)
Definition vacant (s : LdnControl) (i : nat) : Prop :=
  exists t, stations7 s !! i = Some t /\ station_in t = false.
Lemma Tick_host now s : reachable s -> m_state s = CS_AccessPointCreated ->
  exists s' o, Tick true now s = Some (tt, s', o) /\ reachable s' /\ m_state s' = CS_AccessPointCreated /\
    if now - m_last_beacon s <? RelayBeaconIntervalTicks then s' = s
    else m_last_beacon s' = now /\ stations7 s' = reap now <$> stations7 s.
Proof.
  intros Hr Hh. destruct (now - m_last_beacon s <? RelayBeaconIntervalTicks) eqn:Hd.
  { exists s, []. apply Z.ltb_lt in Hd. by rewrite Tick_early. }
  pose proof (Tick_hosting_run now s Hh Hd) as E. cbv zeta in E. set (s1 := set_m_stations _ _) in E.
  destruct (reachable_inv s Hr) as [Hw _]. destruct (stations7_ok s Hw) as [Hl7 _].
  destruct (updated_fields s1) as (E1 & E2 & _). eexists _, _. split; [exact E|].
  split; [by eapply Tick_reachable|]. split; [by rewrite E1|].
  split; [unfold updated, OnNetworkInfoChanged, s1; case_match; done|].
  unfold stations7 at 1. rewrite E2. unfold s1. lc_cbn. apply take_app_length'. rewrite length_fmap. symmetry. exact Hl7.
Qed.

Lemma reap_out now t : station_in t = false -> reap now t = t.
Proof. intros H. unfold reap. by rewrite H. Qed.

Lemma Tick_vacant now s i : reachable s -> m_state s = CS_AccessPointCreated -> vacant s i ->
  exists s' o, Tick true now s = Some (tt, s', o) /\ reachable s' /\ m_state s' = CS_AccessPointCreated /\ vacant s' i.
Proof.
  intros Hr Hh (t & Ht & Hin). destruct (Tick_host now s Hr Hh) as (s' & o & E & Hr' & Hh' & H).
  exists s', o. split; [done|]. split; [done|]. split; [done|]. destruct (_ <? _).
  - subst s'. by exists t.
  - destruct H as [_ H]. exists t. rewrite H, list_lookup_fmap, Ht. cbn. by rewrite reap_out.
Qed.
Lemma ticks_vacant nows i : forall s, reachable s -> m_state s = CS_AccessPointCreated -> vacant s i ->
  exists s' o, ticks nows s = Some (tt, s', o) /\ reachable s' /\ m_state s' = CS_AccessPointCreated /\ vacant s' i.
Proof.
  induction nows as [|now nows IH]; intros s Hr Hh Hv; [by exists s, []|].
  destruct (Tick_vacant now s i Hr Hh Hv) as (s1 & o1 & E1 & Hr1 & Hh1 & Hv1).
  destruct (IH s1 Hr1 Hh1 Hv1) as (s2 & o2 & E2 & H). exists s2, (o1 ++ o2).
  split; [exact (ticks_cons _ _ _ _ _ _ _ E1 E2)|done].
Qed.

(** While the station stays, the last beacon came before it was silent too long. *)
Lemma host_ticks nows i : forall s t beacon,
  reachable s -> m_state s = CS_AccessPointCreated -> stations7 s !! i = Some t ->
  (m_last_beacon s = beacon \/ m_last_beacon s < st_last_seen t + RelayPeerTimeoutTicks) ->
  long_silent (st_last_seen t) beacon nows ->
  exists s' o, ticks nows s = Some (tt, s', o) /\ reachable s' /\ m_state s' = CS_AccessPointCreated /\ vacant s' i.
Proof.
  induction nows as [|now nows IH]; intros s t beacon Hr Hh Ht Hb (u & Hu & H1 & H2).
  { by apply not_elem_of_nil in Hu. }
  destruct (station_in t) eqn:Hin; [|apply ticks_vacant; [done|done|by exists t]].
  destruct (Tick_host now s Hr Hh) as (s1 & o1 & E1 & Hr1 & Hh1 & H).
  assert (vacant s1 i \/ (stations7 s1 !! i = Some t /\ u ∈ nows /\
    (m_last_beacon s1 = beacon \/ m_last_beacon s1 < st_last_seen t + RelayPeerTimeoutTicks))) as [Hv|(Ht1 & Hu1 & Hb1)].
  { unfold RelayPeerTimeoutTicks, RelayBeaconIntervalTicks in *.
    destruct (_ <? _) eqn:Hd; [apply Z.ltb_lt in Hd; subst s1|apply Z.ltb_ge in Hd; destruct H as [Hb1 Hs1]].
    - right. split; [done|]. split; [|done]. apply elem_of_cons in Hu as [->|Hu]; [exfalso; lia|done].
    - destruct (Z.le_gt_cases (19200000 * 30) (now - st_last_seen t)) as [Hold|Hnew].
      + left. exists (station_clear t). rewrite Hs1, list_lookup_fmap, Ht. cbn. unfold reap.
        rewrite Hin. unfold RelayPeerTimeoutTicks. rewrite (proj2 (Z.leb_le _ _)) by lia. done.
      + right. rewrite Hs1, list_lookup_fmap, Ht. cbn. unfold reap. unfold RelayPeerTimeoutTicks.
        rewrite (proj2 (Z.leb_gt _ _)), andb_false_r by lia. split; [done|].
        split; [|right; lia]. apply elem_of_cons in Hu as [->|Hu]; [exfalso; lia|done]. }
  - destruct (ticks_vacant nows i s1 Hr1 Hh1 Hv) as (s2 & o2 & E2 & K). exists s2, (o1 ++ o2).
    split; [exact (ticks_cons _ _ _ _ _ _ _ E1 E2)|done].
  - destruct (IH s1 t beacon Hr1 Hh1 Ht1 Hb1) as (s2 & o2 & E2 & K); [by exists u|]. exists s2, (o1 ++ o2).
    split; [exact (ticks_cons _ _ _ _ _ _ _ E1 E2)|done].
Qed.

(** C14: A peer that falls silent is dropped, on both ends, whatever the times of
    the ticks.  Once a tick comes 35 seconds after the host was last heard, and
    five after the last beacon, a connected station has left the session with the
    reason signal lost, and stays out.  Once one comes so long after a host heard
    a station, the station's place is free and the published network is that of
    the stations that remain. *)
Theorem silent_peers_are_dropped s nows (Hr : reachable s) :
  (m_state s = CS_StationConnected -> long_silent (m_host_last_seen s) (m_last_beacon s) nows ->
   exists s' o, ticks nows s = Some (tt, s', o) /\ left_session s') /\
  (forall i t, m_state s = CS_AccessPointCreated -> stations7 s !! i = Some t ->
   long_silent (st_last_seen t) (m_last_beacon s) nows ->
   exists s' o, ticks nows s = Some (tt, s', o) /\ m_state s' = CS_AccessPointCreated /\ vacant s' i /\
     m_network_info s' = BuildNetwork s').
Proof.
  split.
  - intros Hc Hl. eapply station_ticks; eauto.
  - intros i t Hh Ht Hl. destruct (host_ticks nows i s t (m_last_beacon s) Hr Hh Ht) as (s' & o & E & Hr' & Hh' & Hv);
      [by left|done|]. exists s', o. split; [done|]. split; [done|]. split; [done|]. by apply (reachable_inv s' Hr').
Qed.

(** The station of the demonstration, heard at time 200 and then no more. *)
Lemma silent_peers_are_dropped_witness :
  exists s' o, ticks [19200000; 19200000 * 20; 19200000 * 36] demo_hosting = Some (tt, s', o) /\ vacant s' 0.
Proof.
  destruct (stations7 demo_hosting !! 0%nat) as [t|] eqn:Et; [|vm_compute in Et; discriminate].
  assert (st_last_seen t <= 19200000) as Hseen
    by (vm_compute in Et; injection Et as <-; apply Z.leb_le; vm_compute; reflexivity).
  assert (m_last_beacon demo_hosting <= 19200000) as Hbeacon by (apply Z.leb_le; vm_compute; reflexivity).
  assert (m_state demo_hosting = CS_AccessPointCreated) as Hh by (vm_compute; reflexivity).
  assert (long_silent (st_last_seen t) (m_last_beacon demo_hosting) [19200000; 19200000 * 20; 19200000 * 36]) as Hl.
  { exists (19200000 * 36). split; [apply elem_of_cons; right; apply elem_of_cons; right; apply elem_of_cons; left; reflexivity|].
    unfold RelayPeerTimeoutTicks, RelayBeaconIntervalTicks. lia. }
  destruct (proj2 (silent_peers_are_dropped demo_hosting _ demo_hosting_reachable) 0%nat t Hh Et Hl)
    as (s' & o & E & _ & Hv & _).
  exists s', o. split; [exact E|exact Hv].
Defined.
