(* ===== verification/LdnServices.v ===== *)
(** The IPC objects of ldn:u (ldn/ldn_mitm_service.cpp, ldn/ldn_icommunication.cpp)
    over the one control plane all of them share.

    An object's own state is empty: it counts by being there, because its
    destructor finalizes the control plane. *)
From S2P Require Import Prelude Bytes CText Rle IpAddr SlpClient Tunnel LdnTypes LdnControl LdnSession.

(** ** The commands of a communication object, with what they meet outside *)
Inductive LdnCmd : Type :=
| LGetState
| LGetNetworkInfo
| LGetIpv4Address
| LGetDisconnectReason
| LGetSecurityParameter
| LGetNetworkConfig
| LAttachStateChangeEvent
| LGetNetworkInfoLatestUpdate (size : nat)
| LScan (env : Env) (size : nat) (channel : Z) (filter : ScanFilter)
| LOpenAccessPoint (nf : NifmEnv)
| LCloseAccessPoint (nf : NifmEnv)
| LCreateNetwork (data : CreateNetworkConfig) (session random : bytes)
| LDestroyNetwork
| LSetAdvertiseData (data : option bytes) (size : nat)
| LOpenStation (nf : NifmEnv)
| LCloseStation (nf : NifmEnv)
| LConnect (env : Env) (dat : ConnectNetworkData) (data : NetworkInfo)
| LDisconnect
| LInitialize (ip : bytes) (nf : NifmEnv)
| LFinalize (nf : NifmEnv)
| LInitializeSystem2 (unk : Z) (ip : bytes) (nf : NifmEnv).

(** What a command writes for the game. *)
Inductive LdnData : Type :=
| DNone
| DWords (ws : list Z)
| DEvent
| DInfo (i : option NetworkInfo)
| DUpdate (u : option (NetworkInfo * list Z))
| DSecurity (p : option (bytes * bytes))
| DConfig (c : option NetworkConfig)
| DScan (count : Z) (l : list NetworkInfo).

(** [static_cast<u32>] of a state. *)
Definition CommState_value (c : CommState) : Z :=
  match c with
  | CS_None => 0 | CS_Initialized => 1 | CS_AccessPoint => 2 | CS_AccessPointCreated => 3
  | CS_Station => 4 | CS_StationConnected => 5 | CS_Error => 6
  end.

Section services.
(** Whether the runtime is RUNNING. *)
Variable running : bool.

Definition with_data {A} (f : A -> LdnData) (m : M (LdnResult * A)) : M (LdnResult * LdnData) :=
  '(r, a) ← m; mret (r, f a).
Definition no_data (m : M LdnResult) : M (LdnResult * LdnData) := r ← m; mret (r, DNone).

Definition LdnICommunicationService_GetState : M (LdnResult * LdnData) :=
  state ← gets m_state; mret (R_OK, DWords [CommState_value state]).
Definition LdnICommunicationService_GetIpv4Address : M (LdnResult * LdnData) :=
  address ← gets m_ipv4_address; mask ← gets m_subnet_mask; mret (R_OK, DWords [address; mask]).
Definition LdnICommunicationService_GetDisconnectReason : M (LdnResult * LdnData) :=
  reason ← gets m_disconnect_reason; mret (R_OK, DWords [reason]).
Definition LdnICommunicationService_Initialize (ip : bytes) (nf : NifmEnv) : M (LdnResult * LdnData) :=
  no_data (Initialize ip nf).
Definition LdnICommunicationService_InitializeSystem2 (unk : Z) (ip : bytes) (nf : NifmEnv) :=
  LdnICommunicationService_Initialize ip nf.
(** The capacity is cut to 16 bits; the channel is not used. *)
Definition LdnICommunicationService_Scan (env : Env) (size : nat) (channel : Z) (filter : ScanFilter)
    : M (LdnResult * LdnData) :=
  let cap := if (size <=? Z.to_nat 65535)%nat then size else Z.to_nat 65535 in
  with_data (fun l => DScan (Z.of_nat (length l)) l) (Scan running (env_run env) filter cap).

Definition ldn_serve (c : LdnCmd) : M (LdnResult * LdnData) :=
  match c with
  | LGetState => LdnICommunicationService_GetState
  | LGetNetworkInfo => with_data DInfo GetNetworkInfo
  | LGetIpv4Address => LdnICommunicationService_GetIpv4Address
  | LGetDisconnectReason => LdnICommunicationService_GetDisconnectReason
  | LGetSecurityParameter => with_data DSecurity GetSecurityParameter
  | LGetNetworkConfig => with_data DConfig GetNetworkConfig
  | LAttachStateChangeEvent => mret (R_OK, DEvent)
  | LGetNetworkInfoLatestUpdate size => with_data DUpdate (GetNetworkInfoLatestUpdate size)
  | LScan env size channel filter => LdnICommunicationService_Scan env size channel filter
  | LOpenAccessPoint nf => no_data (OpenAccessPoint nf)
  | LCloseAccessPoint nf => no_data (CloseAccessPoint nf)
  | LCreateNetwork data session random => no_data (CreateNetwork running data session random)
  | LDestroyNetwork => no_data (DestroyNetwork running)
  | LSetAdvertiseData data size => no_data (SetAdvertiseData running data size)
  | LOpenStation nf => no_data (OpenStation nf)
  | LCloseStation nf => no_data (CloseStation nf)
  | LConnect env dat data => no_data (Connect running (env_run env) dat data)
  | LDisconnect => no_data (Disconnect running)
  | LInitialize ip nf => LdnICommunicationService_Initialize ip nf
  | LFinalize nf => no_data (Finalize nf)
  | LInitializeSystem2 unk ip nf => LdnICommunicationService_InitializeSystem2 unk ip nf
  end.
End services.

(** The destructor. *)
Definition LdnICommunicationService_delete (nf : NifmEnv) : M unit := Finalize nf;; skip.

(** ** The service, its objects and the receive loop *)
Definition LdnMitMService_ShouldMitm (running application : bool) : bool :=
  if negb running then false else application.

(** [ls_sessions]: the intercepted sessions of ldn:u, by process; [ls_objects]:
    the communication objects they created, by process. *)
Record LdnServer : Type := mkLdnServer {
  ls_ctl : LdnControl;
  ls_sessions : list Z;
  ls_objects : list Z;
}.
Inductive LdnEvent : Type :=
| LeAccept (running application : bool) (pid : Z)
| LeCreate (session : nat)
| LeCmd (running : bool) (i : nat) (c : LdnCmd)
| LeClose (i : nat) (nf : NifmEnv)
| LeFrame (running : bool) (now src : Z) (payload : bytes)
| LeTick (running : bool) (now : Z).

(** The session may outlive the relay: nothing is asked again. *)
Definition LdnMitMService_CreateUserLocalCommunicationService (pid : Z) (v : LdnServer) : LdnServer :=
  mkLdnServer (ls_ctl v) (ls_sessions v) (ls_objects v ++ [pid]).

(** The server after an event, and the frames and nifm calls it made. *)
Definition on_ctl {A} (m : M A) (v : LdnServer) : option (LdnServer * list LdnOut) :=
  '(_, s, o) ← m (ls_ctl v); Some (mkLdnServer s (ls_sessions v) (ls_objects v), o).
Definition ldn_event (e : LdnEvent) (v : LdnServer) : option (LdnServer * list LdnOut) :=
  match e with
  | LeAccept running application pid =>
      Some (if LdnMitMService_ShouldMitm running application
            then mkLdnServer (ls_ctl v) (ls_sessions v ++ [pid]) (ls_objects v) else v, [])
  | LeCreate session =>
      Some (match ls_sessions v !! session with
            | Some pid => LdnMitMService_CreateUserLocalCommunicationService pid v
            | None => v
            end, [])
  | LeCmd running i c =>
      match ls_objects v !! i with Some _ => on_ctl (ldn_serve running c) v | None => Some (v, []) end
  | LeClose i nf =>
      match ls_objects v !! i with
      | Some _ =>
          '(v, o) ← on_ctl (LdnICommunicationService_delete nf) v;
          Some (mkLdnServer (ls_ctl v) (ls_sessions v) (delete i (ls_objects v)), o)
      | None => Some (v, [])
      end
  | LeFrame running now src payload => on_ctl (OnControlFrame running now src payload) v
  | LeTick running now => on_ctl (Tick running now) v
  end.
Fixpoint ldn_events (es : list LdnEvent) (v : LdnServer) : option (LdnServer * list LdnOut) :=
  match es with
  | [] => Some (v, [])
  | e :: es => '(v, o) ← ldn_event e v; '(v, o') ← ldn_events es v; Some (v, o ++ o')
  end.

(** ** Lemmas *)

(** A control plane that nobody uses: it listens and says nothing. *)
Definition idle (s : LdnControl) : Prop :=
  m_state s = CS_None /\ StationCount s = 0%nat /\ m_local_network_mode s = false.
Definition quiet (m : M unit) : Prop :=
  forall s, idle s -> exists s', m s = Some (tt, s', []) /\ idle s'.

Lemma quiet_modify f : (forall s, idle s -> idle (f s)) -> quiet (modify f).
Proof. intros H s Hs. exists (f s). split; [done|auto]. Qed.
Lemma quiet_skip : quiet skip.
Proof. intros s Hs. by exists s. Qed.

(** A handler that first looks at the state. *)
Lemma quiet_gets {A} (f : LdnControl -> A) (k : A -> M unit) :
  (forall s, idle s -> exists s', k (f s) s = Some (tt, s', []) /\ idle s') -> quiet (mbind k (gets f)).
Proof.
  intros H s Hs. destruct (H s Hs) as (s' & E & Hs'). exists s'. split; [|done].
  unfold mbind, M_bind, gets. by rewrite E.
Qed.

Lemma quiet_ScanResp src body : quiet (HandleScanResp src body).
Proof.
  unfold HandleScanResp. apply quiet_gets. intros s Hs. cbn [id].
  destruct (negb _); [by exists s|]. destruct (_ =? _); [by exists s|]. destruct (_ && _); [by exists s|].
  destruct (find_result s _) as [k|]; [by eexists; split; [reflexivity|]|].
  destruct (_ <? _)%nat; [by eexists; split; [reflexivity|]|by exists s].
Qed.

Lemma quiet_frame running now src payload : quiet (OnControlFrame running now src payload).
Proof.
  unfold OnControlFrame. destruct (parse_control payload) as [[[type body] seq]|]; [|apply quiet_skip].
  assert (forall s, idle s -> m_state s = CS_None) as Hst by (by intros s []).
  repeat (case_match; [|]); try apply quiet_skip; try apply quiet_ScanResp;
    unfold HandleScan, HandleConnect, HandleSyncNetwork, HandleRelayHeartbeat, HandleRelayBye;
    apply quiet_gets; intros s Hs; unfold id; rewrite ?(Hst s Hs); exists s; (split; [|done]);
    try destruct (negb (length body =? _)%nat); reflexivity.
Qed.

Lemma quiet_tick running now : quiet (Tick running now).
Proof.
  unfold Tick. apply quiet_gets. intros s Hs. cbn [id]. destruct (_ <? _); [by exists s|].
  assert (m_state s = CS_None) as -> by apply Hs. eexists. split; [reflexivity|exact Hs].
Qed.

Lemma StationCount_reset s : StationCount (ResetStations s) = 0%nat.
Proof.
  unfold StationCount, stations7, ResetStations. cbn [m_stations set_m_stations].
  assert (forall n (l : list Station), take n ((station_clear <$> take n l) ++ drop n l) = station_clear <$> take n l) as ->.
  { intros n l. destruct (le_lt_dec n (length l)) as [Hn|Hn].
    - rewrite take_app_ge by (rewrite length_fmap, length_take; lia).
      rewrite length_fmap, length_take, Nat.min_l, Nat.sub_diag by lia. by rewrite take_0, app_nil_r.
    - rewrite drop_ge, app_nil_r by lia. apply take_ge. rewrite length_fmap, length_take. lia. }
  generalize (take StationCountMax (m_stations s)). intros l. induction l as [|t l IH]; [done|].
  cbn [fmap list_fmap]. rewrite filter_cons_False; [exact IH|by intros []].
Qed.

Lemma idle_reset s :
  m_local_network_mode s = false -> idle (SetState CS_None (ResetStations s)).
Proof.
  intros Hl. pose proof (StationCount_reset s) as Hc. unfold SetState. case_bool_decide as Hs; [by split_and!|].
  split; [done|]. split; [exact Hc|exact Hl].
Qed.

(** The destructor always runs to its end, and calls only nifm. *)
Lemma delete_idle nf s :
  exists s' o, LdnICommunicationService_delete nf s = Some (tt, s', o) /\ idle s' /\
    Forall (fun x => match x with ONifm _ => True | OFrame _ _ => False end) o.
Proof.
  unfold LdnICommunicationService_delete, Finalize, exit_if_local, ExitLocalNetworkMode, mbind, M_bind, gets,
    modify, emit, mret, M_ret, skip, id. cbv zeta.
  destruct (m_local_network_mode s) eqn:El; [destruct (nf_profile nf =? 0)|];
    (eexists _, _; split; [reflexivity|]; split; [by apply idle_reset|repeat constructor]).
Qed.

Lemma idle_events es : forall v,
  Forall (fun e => match e with LeFrame _ _ _ _ | LeTick _ _ => True | _ => False end) es -> idle (ls_ctl v) ->
  exists v', ldn_events es v = Some (v', []) /\ idle (ls_ctl v') /\ ls_objects v' = ls_objects v.
Proof.
  induction es as [|e es IH]; intros v He Hv; cbn [ldn_events]; [by exists v|].
  apply Forall_cons_1 in He as [He Hes].
  assert (exists s', ldn_event e v = Some (mkLdnServer s' (ls_sessions v) (ls_objects v), []) /\ idle s') as (s' & E & Hs').
  { destruct e as [| | | |r now src p|r now]; try done; cbn [ldn_event]; unfold on_ctl.
    - destruct (quiet_frame r now src p (ls_ctl v) Hv) as (s' & E & Hs'). exists s'. by rewrite E.
    - destruct (quiet_tick r now (ls_ctl v) Hv) as (s' & E & Hs'). exists s'. by rewrite E. }
  rewrite E. cbn [mbind option_bind]. destruct (IH (mkLdnServer s' (ls_sessions v) (ls_objects v)) Hes Hs') as (v' & E' & H1 & H2).
  rewrite E'. by exists v'.
Qed.

(** A game that is gone leaves nothing behind.  However its session ends, the
    destructor of its object runs to its end, sends no frame, and from then on
    the console is in no network, holds no local network mode, and answers
    nothing the relay sends and no tick of the beacon, until a command comes.
    The control plane is shared: the object that is closed need not be the one
    that hosts. *)
Theorem closed_session_is_silent v i pid nf es :
  ls_objects v !! i = Some pid ->
  Forall (fun e => match e with LeFrame _ _ _ _ | LeTick _ _ => True | _ => False end) es ->
  exists v1 o v2,
    ldn_event (LeClose i nf) v = Some (v1, o) /\
    Forall (fun x => match x with ONifm _ => True | OFrame _ _ => False end) o /\
    ls_objects v1 = delete i (ls_objects v) /\
    ldn_events es v1 = Some (v2, []) /\
    m_state (ls_ctl v2) = CS_None /\ StationCount (ls_ctl v2) = 0%nat /\
    m_local_network_mode (ls_ctl v2) = false.
Proof.
  intros Hi Hes. destruct (delete_idle nf (ls_ctl v)) as (s' & o & E & Hs' & Ho).
  destruct (idle_events es (mkLdnServer s' (ls_sessions v) (delete i (ls_objects v))) Hes Hs') as (v2 & E2 & (H1 & H2 & H3) & _).
  exists (mkLdnServer s' (ls_sessions v) (delete i (ls_objects v))), o, v2. cbn [ldn_event]. rewrite Hi. unfold on_ctl. rewrite E.
  by split_and!.
Qed.

(** ** Every history is one of the control plane *)
Definition ldn_cmd_ok (c : LdnCmd) : Prop :=
  match c with
  | LScan env _ _ _ => env_ok env
  | LConnect env _ data => env_ok env /\ buf_ok 6 (cn_bssid (nw_common data))
  | LCreateNetwork data session random => create_ok data session random
  | LSetAdvertiseData (Some d) _ => is_bytes d
  | _ => True
  end.
Definition ldn_event_ok (e : LdnEvent) : Prop :=
  match e with
  | LeCmd _ _ c => ldn_cmd_ok c
  | LeFrame _ _ src payload => is_u32 src /\ is_bytes payload
  | _ => True
  end.

Lemma no_data_inv (m : M LdnResult) s x s' o :
  no_data m s = Some (x, s', o) -> exists r o', m s = Some (r, s', o') /\ (m;; skip) s = Some (tt, s', o' ++ []).
Proof.
  unfold no_data, mbind, M_bind, mret, M_ret, skip. destruct (m s) as [[[r s1] o1]|]; [|done].
  intros [= <- <- <-]. by exists r, o1.
Qed.
Lemma with_data_inv {A} (f : A -> LdnData) (m : M (LdnResult * A)) s x s' o :
  with_data f m s = Some (x, s', o) -> exists r a o', m s = Some ((r, a), s', o') /\ x = (r, f a).
Proof.
  unfold with_data, mbind, M_bind, mret, M_ret. destruct (m s) as [[[[r a] s1] o1]|]; [|done].
  intros [= <- <- <-]. by exists r, a, o1.
Qed.

(** A query leaves the state alone. *)
Definition reads {A} (m : M A) : Prop := forall s x s' o, m s = Some (x, s', o) -> s' = s.
Lemma reads_query {A} (f : A -> LdnData) (m : M (LdnResult * A)) : reads m -> reads (with_data f m).
Proof. intros H s x s' o E. apply with_data_inv in E as (r & a & o' & E & _). by eapply H. Qed.
Lemma reads_GetNetworkConfig : reads GetNetworkConfig.
Proof.
  intros s x s' o. unfold GetNetworkConfig, mbind, M_bind, gets, mret, M_ret, lift, id.
  destruct (negb _); [by intros [= _ <- _]|]. destruct (head _); [|done]. by intros [= _ <- _].
Qed.

Lemma serve_Initialize running ip nf : ldn_serve running (LInitialize ip nf) = no_data (Initialize ip nf).
Proof. reflexivity. Qed.
Lemma serve_InitializeSystem2 running unk ip nf :
  ldn_serve running (LInitializeSystem2 unk ip nf) = no_data (Initialize ip nf).
Proof. reflexivity. Qed.
Lemma run_Initialize running ip nf : run_call running (CInitialize ip nf) = (Initialize ip nf;; skip).
Proof. reflexivity. Qed.

Lemma ldn_serve_reachable running c s x s' o :
  reachable s -> ldn_cmd_ok c -> ldn_serve running c s = Some (x, s', o) -> reachable s'.
Proof.
  intros Hs Hc E.
  assert (forall call (m : M LdnResult), call_ok call -> run_call running call = (m;; skip) ->
    no_data m s = Some (x, s', o) -> reachable s') as Hcall.
  { intros call m Hok Hrun En. apply no_data_inv in En as (r & o' & _ & En). eapply reach_call; [exact Hs|exact Hok|].
    rewrite Hrun. exact En. }
  assert (forall (m : M (LdnResult * LdnData)), reads m -> m s = Some (x, s', o) -> reachable s') as Hread
    by (intros m Hm Em; by rewrite (Hm _ _ _ _ Em)).
  destruct c; rewrite ?serve_Initialize, ?serve_InitializeSystem2 in E; cbn [ldn_serve] in E.
  1-7: eapply Hread; [|exact E]; first [apply reads_query; first [apply reads_GetNetworkConfig|by intros ? ? ? ? [= _ <- _]]|by intros ? ? ? ? [= _ <- _]].
  - apply with_data_inv in E as (r & a & o' & E & _).
    eapply (reach_call running (CGetNetworkInfoLatestUpdate size)); [exact Hs|exact I|].
    cbn [run_call]. unfold mbind, M_bind, skip, mret, M_ret. rewrite E. reflexivity.
  - apply with_data_inv in E as (r & a & o' & E & _). by eapply reach_scan.
  - exact (Hcall (COpenAccessPoint nf) (OpenAccessPoint nf) I eq_refl E).
  - exact (Hcall (CCloseAccessPoint nf) (CloseAccessPoint nf) I eq_refl E).
  - exact (Hcall (CCreateNetwork data session random) (CreateNetwork running data session random) Hc eq_refl E).
  - exact (Hcall CDestroyNetwork (DestroyNetwork running) I eq_refl E).
  - exact (Hcall (CSetAdvertiseData data size) (SetAdvertiseData running data size) Hc eq_refl E).
  - exact (Hcall (COpenStation nf) (OpenStation nf) I eq_refl E).
  - exact (Hcall (CCloseStation nf) (CloseStation nf) I eq_refl E).
  - apply no_data_inv in E as (r & o' & E & _). destruct Hc. by eapply reach_connect.
  - exact (Hcall CDisconnect (Disconnect running) I eq_refl E).
  - exact (Hcall (CInitialize ip nf) (Initialize ip nf) I (run_Initialize _ _ _) E).
  - exact (Hcall (CFinalize nf) (Finalize nf) I eq_refl E).
  - exact (Hcall (CInitialize ip nf) (Initialize ip nf) I (run_Initialize _ _ _) E).
Qed.

Lemma ldn_event_reachable e v v' o :
  reachable (ls_ctl v) -> ldn_event_ok e -> ldn_event e v = Some (v', o) -> reachable (ls_ctl v').
Proof.
  intros Hv He E. destruct e as [r app pid|k|r i c|i nf|r now src p|r now]; cbn [ldn_event] in E.
  - injection E as <- _. by destruct (LdnMitMService_ShouldMitm _ _).
  - injection E as <- _. by destruct (ls_sessions v !! k).
  - destruct (ls_objects v !! i); [|by injection E as <- _]. unfold on_ctl in E.
    apply bind_Some in E as ([[x s'] o'] & E & [= <- _]). by eapply ldn_serve_reachable.
  - destruct (ls_objects v !! i); [|by injection E as <- _]. unfold on_ctl in E.
    apply bind_Some in E as ([v1 o1] & E & [= <- _]). apply bind_Some in E as ([[[] s'] o'] & E & [= <- _]).
    exact (reach_call true (CFinalize nf) _ _ _ Hv I E).
  - unfold on_ctl in E. apply bind_Some in E as ([[[] s'] o'] & E & [= <- _]).
    exact (reach_call r (CFrame now src p) _ _ _ Hv He E).
  - unfold on_ctl in E. apply bind_Some in E as ([[[] s'] o'] & E & [= <- _]).
    exact (reach_call r (CTick now) _ _ _ Hv I E).
Qed.

(** Whatever the games' sessions and the relay do, the control plane is in a
    state its own calls reach, so its invariant holds: a host's published network
    is its station table. *)
Theorem ldn_services_invariant es v o :
  Forall ldn_event_ok es -> ldn_events es (mkLdnServer LdnControl_init [] []) = Some (v, o) ->
  reachable (ls_ctl v) /\ ctl_inv (ls_ctl v).
Proof.
  assert (forall v0, reachable (ls_ctl v0) -> Forall ldn_event_ok es -> forall v o,
    ldn_events es v0 = Some (v, o) -> reachable (ls_ctl v)) as H.
  { induction es as [|e es IH]; intros v0 Hv He v1 o1; cbn [ldn_events]; [by intros [= <- _]|].
    apply Forall_cons_1 in He as [He Hes]. intros E. apply bind_Some in E as ([v2 o2] & E & E2).
    apply bind_Some in E2 as ([v3 o3] & E3 & [= <- _]). eapply IH; [|exact Hes|exact E3].
    by eapply ldn_event_reachable. }
  intros He E. assert (reachable (ls_ctl v)) as Hr by exact (H (mkLdnServer LdnControl_init [] []) reach_init He v o E).
  split; [exact Hr|by apply reachable_inv].
Qed.

(** ** Two sessions *)
Definition demo_two : list LdnEvent :=
  [LeAccept true true 1000; LeAccept false true 1001; LeCreate 0; LeCreate 0;
   LeCmd true 0 (LInitialize [49; 48; 46; 49; 51; 46; 51; 55; 46; 50] demo_nifm);
   LeCmd true 0 (LOpenAccessPoint demo_nifm);
   LeCmd true 0 (LCreateNetwork demo_config (replicate 16 9) (replicate 16 8))].
Definition demo_server : LdnServer :=
  from_option fst (mkLdnServer LdnControl_init [] []) (ldn_events demo_two (mkLdnServer LdnControl_init [] [])).

(** The second object is closed; the first one's network is gone, and a scan
    gets no answer. *)
Lemma closed_session_is_silent_witness :
  m_state (ls_ctl demo_server) = CS_AccessPointCreated /\
  exists v1 o v2, ldn_event (LeClose 1 demo_nifm) demo_server = Some (v1, o) /\ ls_objects v1 = [1000] /\
    ldn_events [LeFrame true 100 0x0A0D2503 (control_frame LanPacket_Scan 1 [])] v1 = Some (v2, []) /\
    m_state (ls_ctl v2) = CS_None.
Proof.
  split; [vm_compute; reflexivity|].
  destruct (closed_session_is_silent demo_server 1 1000 demo_nifm
    [LeFrame true 100 0x0A0D2503 (control_frame LanPacket_Scan 1 [])] ltac:(vm_compute; reflexivity)
    ltac:(repeat constructor)) as (v1 & o & v2 & H1 & _ & H2 & H3 & H4 & _).
  exists v1, o, v2. split_and!; [exact H1| |exact H3|exact H4].
  rewrite H2. vm_compute. reflexivity.
Defined.

Lemma ldn_services_invariant_witness : ctl_inv (ls_ctl demo_server).
Proof.
  assert (Forall ldn_event_ok demo_two) as He by (repeat constructor; apply demo_config_ok).
  assert (exists o, ldn_events demo_two (mkLdnServer LdnControl_init [] []) = Some (demo_server, o)) as [o E].
  { unfold demo_server. destruct (ldn_events demo_two _) as [[v o]|] eqn:E; [by exists o|].
    exfalso. revert E. vm_compute. discriminate. }
  exact (proj2 (ldn_services_invariant demo_two demo_server o He E)).
Defined.
