(* ===== verification/LdnIpc.v ===== *)
(** What a game's ldn:u commands carry (ldn/ldn_interfaces.hpp) and what is
    written of it in the trace (ldn/ldn_icommunication.cpp): the structures of the
    requests with all their fields as codecs, the commands they make, the traced
    lines with the buffers they are composed in, and the two objects of the service
    that keep no state (ldn/ldn_mitm_service.cpp). *)
From stdpp Require Import strings.
From S2P Require Import Prelude Bytes CText Rle IpAddr SlpClient Tunnel LdnTypes LdnControl LdnSession LdnServices.
#[local] Open Scope Z_scope.

(** ** The structures of the requests *)
Definition PassphraseLengthMax : nat := 64.

Record SecurityConfig : Set := mkSecurityConfig {
  sc_securityMode : Z;
  sc_passphraseSize : Z;
  sc_passphrase : bytes;
}.
Record UserConfig : Set := mkUserConfig { uc_userName : bytes; uc_unk : bytes }.
(** [NetworkConfig] with the bytes the code does not look at. *)
Record RawNetworkConfig : Set := mkRawConfig {
  rn_intentId : IntentId;
  rn_channel : Z;
  rn_nodeCountMax : Z;
  rn_unk1 : Z;
  rn_localCommunicationVersion : Z;
  rn_unk2 : bytes;
}.
Record RawCreateNetwork : Set := mkRawCreate {
  rc_securityConfig : SecurityConfig;
  rc_userConfig : UserConfig;
  rc_unk : bytes;
  rc_networkConfig : RawNetworkConfig;
}.
Record RawConnect : Set := mkRawConnect {
  rd_securityConfig : SecurityConfig;
  rd_userConfig : UserConfig;
  rd_localCommunicationVersion : Z;
  rd_option : Z;
}.
Record RawScanFilter : Set := mkRawFilter {
  rf_intentId : IntentId;
  rf_sessionId : bytes;
  rf_networkType : Z;
  rf_bssid : bytes;
  rf_ssid_length : Z;
  rf_ssid_raw : bytes;
  rf_unk : bytes;
  rf_flag : Z;
}.
Record NodeLatestUpdate : Set := mkUpdate { lu_stateChange : Z; lu_unk : bytes }.
Record SecurityParameter : Set := mkSecurityParameter { sp_unkRandom : bytes; sp_sessionId : bytes }.

Definition SecurityConfig_codec : Codec SecurityConfig :=
  iso_codec (fun '(m, (n, p)) => mkSecurityConfig m n p)
    (fun s => (sc_securityMode s, (sc_passphraseSize s, sc_passphrase s)))
    (le_codec 2 ∗ le_codec 2 ∗ raw_codec PassphraseLengthMax)%codec.
Definition UserConfig_codec : Codec UserConfig :=
  iso_codec (fun '(n, u) => mkUserConfig n u) (fun s => (uc_userName s, uc_unk s))
    (raw_codec (UserNameBytesMax + 1) ∗ raw_codec 15)%codec.
Definition RawNetworkConfig_codec : Codec RawNetworkConfig :=
  iso_codec (fun '(i, (c, (n, (u1, (v, u2))))) => mkRawConfig i c n u1 v u2)
    (fun s => (rn_intentId s, (rn_channel s, (rn_nodeCountMax s, (rn_unk1 s,
       (rn_localCommunicationVersion s, rn_unk2 s))))))
    (IntentId_codec ∗ le_codec 2 ∗ le_codec 1 ∗ le_codec 1 ∗ le_codec 2 ∗ raw_codec 10)%codec.
Definition RawCreate_codec : Codec RawCreateNetwork :=
  iso_codec (fun '(s, (u, (p, n))) => mkRawCreate s u p n)
    (fun c => (rc_securityConfig c, (rc_userConfig c, (rc_unk c, rc_networkConfig c))))
    (SecurityConfig_codec ∗ UserConfig_codec ∗ raw_codec 4 ∗ RawNetworkConfig_codec)%codec.
Definition RawConnect_codec : Codec RawConnect :=
  iso_codec (fun '(s, (u, (v, o))) => mkRawConnect s u v o)
    (fun c => (rd_securityConfig c, (rd_userConfig c, (rd_localCommunicationVersion c, rd_option c))))
    (SecurityConfig_codec ∗ UserConfig_codec ∗ le_codec 4 ∗ le_codec 4)%codec.
Definition RawFilter_codec : Codec RawScanFilter :=
  iso_codec (fun '(i, (s, (t, (b, (l, (r, (u, f))))))) => mkRawFilter i s t b l r u f)
    (fun c => (rf_intentId c, (rf_sessionId c, (rf_networkType c, (rf_bssid c, (rf_ssid_length c,
       (rf_ssid_raw c, (rf_unk c, rf_flag c))))))))
    (IntentId_codec ∗ raw_codec 16 ∗ le_codec 4 ∗ raw_codec 6 ∗ le_codec 1 ∗ raw_codec (SsidLengthMax + 1) ∗
     raw_codec 16 ∗ le_codec 4)%codec.
Definition NodeLatestUpdate_codec : Codec NodeLatestUpdate :=
  iso_codec (fun '(s, u) => mkUpdate s u) (fun c => (lu_stateChange c, lu_unk c)) (le_codec 1 ∗ raw_codec 7)%codec.
Definition SecurityParameter_codec : Codec SecurityParameter :=
  iso_codec (fun '(r, s) => mkSecurityParameter r s) (fun c => (sp_unkRandom c, sp_sessionId c))
    (raw_codec 16 ∗ raw_codec 16)%codec.

#[export] Instance SecurityConfig_codec_ok : CodecOk SecurityConfig_codec.
Proof. iso_ok. Qed.
#[export] Instance UserConfig_codec_ok : CodecOk UserConfig_codec.
Proof. iso_ok. Qed.
#[export] Instance RawNetworkConfig_codec_ok : CodecOk RawNetworkConfig_codec.
Proof. iso_ok. Qed.
#[export] Instance RawCreate_codec_ok : CodecOk RawCreate_codec.
Proof. iso_ok. Qed.
#[export] Instance RawConnect_codec_ok : CodecOk RawConnect_codec.
Proof. iso_ok. Qed.
#[export] Instance RawFilter_codec_ok : CodecOk RawFilter_codec.
Proof. iso_ok. Qed.
#[export] Instance NodeLatestUpdate_codec_ok : CodecOk NodeLatestUpdate_codec.
Proof. iso_ok. Qed.
#[export] Instance SecurityParameter_codec_ok : CodecOk SecurityParameter_codec.
Proof. iso_ok. Qed.

(** The sizes: the one the source asserts, and those of the ABI. *)
Lemma request_sizes :
  csize RawCreate_codec = 152%nat /\ csize RawConnect_codec = 124%nat /\ csize RawFilter_codec = 96%nat /\
  csize RawNetworkConfig_codec = 32%nat /\ csize NodeLatestUpdate_codec = 8%nat /\
  csize SecurityParameter_codec = 32%nat.
Proof. done. Qed.

(** ** From the request to the command *)
Definition create_of (r : RawCreateNetwork) : CreateNetworkConfig :=
  let n := rc_networkConfig r in
  mkCreate (sc_securityMode (rc_securityConfig r)) (uc_userName (rc_userConfig r))
    (mkConfig (rn_intentId n) (rn_channel n) (rn_nodeCountMax n) (rn_localCommunicationVersion n)).
Definition connect_of (r : RawConnect) : ConnectNetworkData :=
  mkConnect (uc_userName (rd_userConfig r)) (rd_localCommunicationVersion r).
Definition filter_of (r : RawScanFilter) : ScanFilter :=
  mkFilter (rf_intentId r) (rf_sessionId r) (rf_networkType r) (rf_ssid_length r) (rf_ssid_raw r) (rf_flag r).

(** The requests that carry a structure, as bytes. *)
Inductive RawRequest : Type :=
| ReqScan (env : Env) (size : nat) (channel : Z) (filter : bytes)
| ReqCreateNetwork (data : bytes) (session random : bytes)
| ReqConnect (env : Env) (dat data : bytes).
Definition decode_request (r : RawRequest) : LdnCmd :=
  match r with
  | ReqScan env size channel filter => LScan env size channel (filter_of (cdec RawFilter_codec filter))
  | ReqCreateNetwork data session random =>
      LCreateNetwork (create_of (cdec RawCreate_codec data)) session random
  | ReqConnect env dat data =>
      LConnect env (connect_of (cdec RawConnect_codec dat)) (cdec NetworkInfo_codec data)
  end.

(** What the code stores in the answers; other bytes of the structure stay. *)
Definition GetNetworkConfig_out (c : NetworkConfig) (out : RawNetworkConfig) : RawNetworkConfig :=
  mkRawConfig (nc_intentId c) (nc_channel c) (nc_nodeCountMax c) (rn_unk1 out)
    (nc_localCommunicationVersion c) (rn_unk2 out).
Definition GetSecurityParameter_out (p : bytes * bytes) : SecurityParameter := mkSecurityParameter p.2 p.1.

(** ** What is traced of a request *)

(** [%02x], [%04x], [%016llx] of a value that fits the digits. *)
Definition lower_hex (d : Z) : Z := if d <? 10 then 48 + d else 87 + d.
Fixpoint hexn (n : nat) (v : Z) (acc : bytes) : bytes :=
  match n with O => acc | S n => hexn n (v / 16) (lower_hex (v mod 16) :: acc) end.
Definition hex2 (v : Z) : bytes := hexn 2 v [].
(** [%d] of a field of [bits] bits. *)
Definition signed (bits v : Z) : Z := if v <? 2 ^ (bits - 1) then v else v - 2 ^ bits.
Definition sdec (v : Z) : bytes := if v <? 0 then 45 :: dec (- v) else dec v.
(** [%.Ns]: no byte past the [n]-th is read. *)
Definition prec_s (n : nat) (l : bytes) : bytes := cstr (take n l).

(** The loop [snprintf(hex + i * 3, 4, "%02x ", src[i])]: the first [todo] bytes. *)
Fixpoint hex_dump (src : bytes) (i todo : nat) (buf : bytes) : option bytes :=
  match todo with
  | O => Some buf
  | S todo => v ← src !! i; buf ← blit (i * 3) (hex2 v ++ [32; 0]) buf; hex_dump src (S i) todo buf
  end.

Definition mac_text (m : bytes) : option bytes :=
  match m with
  | [a; b; c; d; e; f] =>
      let sep := [58] in
      Some (take 17 (hex2 a ++ sep ++ hex2 b ++ sep ++ hex2 c ++ sep ++ hex2 d ++ sep ++ hex2 e ++ sep ++ hex2 f))
  | _ => None
  end.

Definition info_line (tag : bytes) (info : NetworkInfo) : option bytes :=
  let c := nw_common info in
  let l := nw_ldn info in
  macbuf ← mac_text (cn_bssid c);
  high ← slice 0 8 (nw_sessionId info);
  low ← slice 8 8 (nw_sessionId info);
  Some (str "ldn: " ++ tag ++ str " lcid=0x" ++ hexn 16 (ii_localCommunicationId (nw_intentId info)) [] ++
    str " sceneId=0x" ++ hexn 4 (ii_sceneId (nw_intentId info)) [] ++
    str " ssid='" ++ prec_s 32 (cn_ssid_raw c) ++ str "' bssid=" ++ macbuf ++
    str " sessionId=" ++ hexn 16 (le_dec high) [] ++ hexn 16 (le_dec low) [] ++
    str " nodeCount=" ++ dec (ln_nodeCount l) ++ str "/" ++ dec (ln_nodeCountMax l) ++
    str " channel=" ++ sdec (signed 16 (cn_channel c)) ++ str " linkLevel=" ++ sdec (signed 8 (cn_linkLevel c)) ++
    str " securityMode=0x" ++ hexn 4 (ln_securityMode l) []).

Definition octet (ip k : Z) : bytes := dec (Z.land (Z.shiftr ip k) 255).
Definition node_line (tag : bytes) (i : nat) (n : NodeInfo) : bytes :=
  let ip := ni_ipv4Address n in
  str "ldn: " ++ tag ++ str "   node[" ++ dec (Z.of_nat i) ++ str "] ip=" ++
    octet ip 24 ++ str "." ++ octet ip 16 ++ str "." ++ octet ip 8 ++ str "." ++ octet ip 0 ++
    str " connected=" ++ sdec (signed 8 (ni_isConnected n)) ++ str " user='" ++ prec_s 33 (ni_userName n) ++ str "'".
Fixpoint node_lines (tag : bytes) (nodes : list NodeInfo) (i todo : nat) : option (list bytes) :=
  match todo with
  | O => Some []
  | S todo => n ← nodes !! i; ls ← node_lines tag nodes (S i) todo; Some (node_line tag i n :: ls)
  end.

Definition TraceNetworkInfo (tag : bytes) (info : NetworkInfo) : option (list bytes) :=
  let l := nw_ldn info in
  first ← info_line tag info;
  nodes ← node_lines tag (ln_nodes l) 0 (Nat.min (Z.to_nat (ln_nodeCount l)) NodeCountMax);
  adv ←
    (if 0 <? ln_advertiseDataSize l then
       let len := Nat.min (Z.to_nat (ln_advertiseDataSize l)) AdvertiseDataSizeMax in
       hex ← hex_dump (ln_advertiseData l) 0 len (replicate (AdvertiseDataSizeMax * 3 + 1) 0);
       Some [str "ldn: " ++ tag ++ str "   advertiseData[" ++ dec (ln_advertiseDataSize l) ++ str "]: " ++ cstr hex]
     else Some []);
  Some (first :: nodes ++ adv).

(** The lines of [CreateNetwork].  [%s] reads the name up to a zero, which need
    not be in the name's own bytes; [None] when there is none up to the end of the
    structure. *)
Definition c_string (off : nat) (l : bytes) : option bytes :=
  if bool_decide (0 ∈ drop off l) then Some (cstr (drop off l)) else None.
Definition userName_offset : nat := csize SecurityConfig_codec.
Definition CreateNetwork_lines (data : bytes) : option (list bytes) :=
  let d := create_of (cdec RawCreate_codec data) in
  let n := cc_networkConfig d in
  user ← c_string userName_offset data;
  hex ← hex_dump data 0 152 (replicate (152 * 3 + 1) 0);
  Some [str "ldn: CreateNetwork";
    str "ldn: CreateNetwork raw: lcid=0x" ++ hexn 16 (ii_localCommunicationId (nc_intentId n)) [] ++
      str " sceneId=0x" ++ hexn 4 (ii_sceneId (nc_intentId n)) [] ++ str " channel=" ++ dec (nc_channel n) ++
      str " nodeCountMax=" ++ dec (nc_nodeCountMax n) ++
      str " lcVersion=0x" ++ hexn 4 (nc_localCommunicationVersion n) [] ++
      str " securityMode=0x" ++ hexn 4 (cc_securityMode d) [] ++ str " user='" ++ user ++ str "'";
    str "ldn: CreateNetwork raw bytes: " ++ cstr hex].

(** [CreateNetwork] of the object, in a build that traces. *)
Definition LdnICommunicationService_CreateNetwork (running : bool) (data session random : bytes)
    : M (list bytes * (LdnResult * LdnData)) :=
  lines ← lift (CreateNetwork_lines data);
  r ← no_data (CreateNetwork running (create_of (cdec RawCreate_codec data)) session random);
  mret (lines, r).

(** ** The objects without a state *)
Inductive LdnObject : Set := ObjCommunication | ObjProcessMonitor | ObjConfig.
(** The commands of the service that create an object. *)
Definition LdnMitMService_command (id : Z) : option LdnObject :=
  if id =? 0 then Some ObjCommunication
  else if id =? 1 then Some ObjProcessMonitor
  else if id =? 65000 then Some ObjConfig
  else None.

Definition ClientProcessMonitor_RegisterClient (client_process_id : Z) : LdnResult := R_OK.
(** [version->raw], of 32 bytes. *)
Definition LdnConfig_GetVersion (raw : bytes) : option (LdnResult * bytes) :=
  raw ← blit 0 (replicate 32 0) raw;
  raw ← blit 0 (str "slp 0.1.0") raw;
  Some (R_OK, raw).
Definition LdnConfig_SetEnabled (enabled : Z) : LdnResult := R_OK.

(** ** Properties *)

(** Requests of the right sizes. *)
Definition raw_ok (r : RawRequest) : Prop :=
  match r with
  | ReqScan env _ _ filter => env_ok env /\ buf_ok 96 filter
  | ReqCreateNetwork data session random => buf_ok 152 data /\ buf_ok 16 session /\ buf_ok 16 random
  | ReqConnect env dat data => env_ok env /\ buf_ok 124 dat /\ buf_ok 1152 data
  end.

(** Whatever bytes a game sends, the command they make is one the invariants of
    the control plane and of the console hold for: no field needs to be checked. *)
Lemma raw_request_ok r : raw_ok r -> ldn_cmd_ok (decode_request r).
Proof.
  destruct r as [env size channel filter|data session random|env dat data]; cbn [raw_ok decode_request ldn_cmd_ok].
  - by intros [].
  - intros ([Hl Hb] & Hs & Hr).
    assert (cwf RawCreate_codec (cdec RawCreate_codec data)) as Hw by (apply cdec_wf; [done|by rewrite Hl]).
    destruct (cdec RawCreate_codec data) as [[mode psize pass] [name unk] pad [intent ch nm u1 ver u2]].
    destruct Hw as ((H1 & _) & ((_ & H2) & _) & _ & (H3 & H4 & H5 & _ & H6 & _)).
    exact (conj H1 (conj H2 (conj H3 (conj H4 (conj H5 (conj H6 (conj Hs Hr))))))).
  - intros (He & _ & [Hl Hb]). split; [done|].
    assert (cwf NetworkInfo_codec (cdec NetworkInfo_codec data)) as Hw by (apply cdec_wf; [done|by rewrite Hl]).
    apply NetworkInfo_wf in Hw as (_ & _ & Hc & _). apply Common_wf in Hc. by destruct Hc.
Qed.

Lemma cstr_app_zero l r : Forall (fun c => c <> 0) l -> cstr (l ++ 0 :: r) = l.
Proof. induction 1 as [|c l Hc _ IH]; [done|]. cbn [app cstr]. replace (c =? 0) with false by lia. by f_equal. Qed.

Lemma lower_hex_nonzero d : 0 <= d < 16 -> lower_hex d <> 0.
Proof. intros. unfold lower_hex. case_match; lia. Qed.
Lemma hex2_nonzero v : Forall (fun c => c <> 0) (hex2 v).
Proof.
  apply Forall_cons_2; [by apply lower_hex_nonzero, Z.mod_pos_bound|].
  by apply Forall_cons_2; [apply lower_hex_nonzero, Z.mod_pos_bound|].
Qed.
Definition dumped (l : bytes) : bytes := concat ((fun v => hex2 v ++ [32]) <$> l).
Lemma dumped_nonzero l : Forall (fun c => c <> 0) (dumped l).
Proof.
  unfold dumped. apply Forall_concat, Forall_fmap. apply Forall_true. intros v.
  apply Forall_app_2; [apply hex2_nonzero|by repeat constructor].
Qed.

Lemma hex_dump_from src todo : forall i buf,
  (i + todo <= length src)%nat -> (3 * (i + todo) < length buf)%nat -> (todo = 0%nat -> buf !! (i * 3)%nat = Some 0) ->
  exists buf', hex_dump src i todo buf = Some buf' /\ length buf' = length buf /\
    take (3 * (i + todo)) buf' = take (3 * i) buf ++ dumped (take todo (drop i src)) /\
    buf' !! (3 * (i + todo))%nat = Some 0.
Proof.
  induction todo as [|todo IH]; intros i buf Hs Hb H0; cbn [hex_dump].
  - exists buf. do 2 (split; [done|]). rewrite Nat.add_0_r, take_0. unfold dumped. cbn.
    rewrite app_nil_r. split; [done|]. rewrite <- (H0 eq_refl). f_equal. lia.
  - destruct (lookup_lt_is_Some_2 src i ltac:(lia)) as [v Hv]. rewrite Hv. cbn [mbind option_bind].
    rewrite blit_Some by (cbn; lia). cbn [mbind option_bind].
    set (buf1 := take (i * 3) buf ++ _).
    assert (length buf1 = length buf) as Hl1.
    { unfold buf1. rewrite !length_app, length_take, length_drop. cbn. lia. }
    assert (take (3 * S i) buf1 = take (3 * i) buf ++ hex2 v ++ [32] /\ buf1 !! (3 * S i)%nat = Some 0) as [Ht1 H1].
    { unfold buf1. rewrite <- (app_assoc (hex2 v)), (app_assoc (take _ _)). cbn [app].
      change (32 :: 0 :: ?l) with ([32] ++ 0 :: l). rewrite (app_assoc _ [32]), <- (app_assoc (take _ _)).
      replace (i * 3)%nat with (3 * i)%nat by lia.
      assert (length (take (3 * i) buf ++ hex2 v ++ [32]) = (3 * S i)%nat) as Hl.
      { rewrite length_app, length_take. cbn. lia. }
      split; [by rewrite take_app_length'|]. by rewrite lookup_app_r, Hl, Nat.sub_diag by lia. }
    destruct (IH (S i) buf1) as (buf' & -> & Hl' & Ht' & H0'); [lia|lia|intros _; by rewrite Nat.mul_comm|].
    exists buf'. split; [done|]. split; [lia|].
    replace (i + S todo)%nat with (S i + todo)%nat by lia. split; [|done].
    rewrite Ht', Ht1, <- !app_assoc. f_equal. rewrite (drop_S src v i Hv). by cbn.
Qed.
(** The dump of [n] bytes fills its buffer and no more. *)
Lemma hex_dump_spec src n cap :
  (n <= length src)%nat -> (n * 3 < cap)%nat ->
  exists buf, hex_dump src 0 n (replicate cap 0) = Some buf /\ cstr buf = dumped (take n src).
Proof.
  intros Hn Hc. destruct (hex_dump_from src n 0 (replicate cap 0)) as (buf & -> & Hl & Ht & H0);
    rewrite ?length_replicate; [lia|lia|intros ->; apply lookup_replicate_2; lia|].
  exists buf. split; [done|]. cbn [Nat.add take app] in *. rewrite take_0, drop_0 in Ht. cbn [app] in Ht.
  rewrite <- (take_drop (3 * n) buf), Ht, (drop_S buf 0 (3 * n) H0).
  apply cstr_app_zero, dumped_nonzero.
Qed.

Lemma node_lines_some tag nodes todo : forall i, (i + todo <= length nodes)%nat ->
  exists ls, node_lines tag nodes i todo = Some ls /\ length ls = todo.
Proof.
  induction todo as [|todo IH]; intros i Hi; cbn [node_lines]; [by eexists|].
  destruct (lookup_lt_is_Some_2 nodes i ltac:(lia)) as [n ->]. cbn [mbind option_bind].
  destruct (IH (S i)) as (ls & -> & Hl); [lia|]. cbn [mbind option_bind]. eexists. split; [done|]. cbn. lia.
Qed.
Lemma info_line_some tag info : cwf NetworkInfo_codec info -> exists l, info_line tag info = Some l.
Proof.
  intros Hw. destruct (proj1 (NetworkInfo_wf _) Hw) as (_ & [Hs _] & Hc & _).
  destruct (proj1 (Common_wf _) Hc) as ([Hb _] & _).
  unfold info_line. destruct (cn_bssid _) as [|a [|b [|c [|d [|e [|f [|]]]]]]]; try discriminate Hb.
  cbn [mac_text mbind option_bind]. rewrite (slice_Some 0 8), (slice_Some 8 8) by lia.
  cbn [mbind option_bind]. by eexists.
Qed.

(** No network information, from a game or from the relay, makes the trace leave
    its buffers or the arrays: it names at most eight nodes whatever count the
    structure claims, where the handlers index by the count. *)
Lemma TraceNetworkInfo_safe tag info :
  cwf NetworkInfo_codec info ->
  exists first nodes adv, TraceNetworkInfo tag info = Some (first :: nodes ++ adv) /\
    length nodes = Nat.min (Z.to_nat (ln_nodeCount (nw_ldn info))) NodeCountMax /\
    adv = (if 0 <? ln_advertiseDataSize (nw_ldn info) then
             [str "ldn: " ++ tag ++ str "   advertiseData[" ++ dec (ln_advertiseDataSize (nw_ldn info)) ++ str "]: " ++
              dumped (take (Nat.min (Z.to_nat (ln_advertiseDataSize (nw_ldn info))) AdvertiseDataSizeMax)
                        (ln_advertiseData (nw_ldn info)))]
           else []).
Proof.
  intros Hw. destruct (info_line_some tag info Hw) as [first E1].
  destruct (proj1 (NetworkInfo_wf _) Hw) as (_ & _ & _ & Hl).
  destruct (proj1 (Ldn_wf _) Hl) as (_ & _ & _ & _ & _ & _ & [Hn _] & _ & _ & [Ha _] & _).
  unfold TraceNetworkInfo. rewrite E1. cbn [mbind option_bind].
  destruct (node_lines_some tag (ln_nodes (nw_ldn info)) (Nat.min (Z.to_nat (ln_nodeCount (nw_ldn info))) NodeCountMax) 0)
    as (ls & -> & Hls); [rewrite Hn; lia|]. cbn [mbind option_bind].
  destruct (0 <? _).
  - destruct (hex_dump_spec (ln_advertiseData (nw_ldn info))
      (Nat.min (Z.to_nat (ln_advertiseDataSize (nw_ldn info))) AdvertiseDataSizeMax) (AdvertiseDataSizeMax * 3 + 1))
      as (buf & -> & E); [rewrite Ha; lia|unfold AdvertiseDataSizeMax; lia|]. cbn [mbind option_bind].
    eexists first, ls, _. split; [done|]. split; [done|]. by rewrite E.
  - cbn [mbind option_bind]. by eexists first, ls, _.
Qed.

(** The line about a new network reads past the name when it fills its 33 bytes,
    and past the whole structure exactly when no zero follows. *)
Lemma CreateNetwork_lines_over_read data :
  length data = 152%nat -> (CreateNetwork_lines data = None <-> 0 ∉ drop 68 data).
Proof.
  intros Hl. unfold CreateNetwork_lines, c_string. change userName_offset with 68%nat. case_bool_decide as H0.
  - cbn [mbind option_bind]. destruct (hex_dump_spec data 152 (152 * 3 + 1)) as (buf & -> & _); [lia|lia|].
    cbn [mbind option_bind]. by split.
  - cbn [mbind option_bind]. by split.
Qed.
(** A full name shows the bytes behind it; a structure of ones is over-read. *)
Example full_name_traced :
  c_string userName_offset (replicate 68 0 ++ replicate 33 65 ++ [66; 0] ++ replicate 49 0) =
    Some (replicate 33 65 ++ [66]) /\
  CreateNetwork_lines (replicate 152 1) = None.
Proof. split; vm_compute; reflexivity. Qed.

(** The version the configuration object reports fits its 32 bytes. *)
Lemma GetVersion_fits raw :
  length raw = 32%nat -> LdnConfig_GetVersion raw = Some (R_OK, str "slp 0.1.0" ++ replicate 23 0).
Proof.
  intros Hl. unfold LdnConfig_GetVersion. rewrite blit_Some by (rewrite length_replicate; lia).
  cbn [mbind option_bind take app Nat.add]. rewrite length_replicate, drop_ge, app_nil_r by lia.
  reflexivity.
Qed.
