(* ===== verification/Nifm.v ===== *)
(** The nifm:u answers (nifm/nifm_mitm_service.cpp), written and not registered:
    what a game would be told of its interface, from the control plane's address.

    The structures of nifm are opaque but for the three addresses written. *)
From S2P Require Import Prelude Bytes IpAddr LdnTypes LdnControl.

Definition VirtualSubnetMask : Z := 0xFFFF0000.
Definition VirtualGateway : Z := 0x0A0D2501.

Definition GetLocalIpPublic (s : LdnControl) : Z := m_ipv4_address s.

(** [NifmIpV4Address]: the octets, the first one first. *)
Definition ToIpV4 (ip : Z) : bytes :=
  [u8 (Z.land (Z.shiftr ip 24) 0xFF); u8 (Z.land (Z.shiftr ip 16) 0xFF);
   u8 (Z.land (Z.shiftr ip 8) 0xFF); u8 (Z.land (Z.shiftr ip 0) 0xFF)].

(** The program's own identifier is never intercepted. *)
Definition OurProgramId : Z := 0x4200000000000011.
Definition NifmMitmService_ShouldMitm (running : bool) (program_id : Z) (application : bool) : bool :=
  if negb running then false
  else if program_id =? OurProgramId then false
  else if negb application then false
  else true.

Section info.
(** The other fields of the address setting and the name servers. *)
Context {Rest : Type} (rest_zero : Rest).

Record IpConfigInfo : Type := mkIpConfig {
  ic_current_addr : bytes;
  ic_subnet_mask : bytes;
  ic_gateway : bytes;
  ic_rest : Rest;
}.
Definition IpConfigInfo_zero : IpConfigInfo :=
  mkIpConfig (replicate 4 0) (replicate 4 0) (replicate 4 0) rest_zero.

Definition GetCurrentIpAddress (s : LdnControl) : bytes := ToIpV4 (GetLocalIpPublic s).

(** [forward]: the real service's answer, [None] a failure. *)
Definition GetCurrentIpConfigInfo (forward : option IpConfigInfo) (s : LdnControl) : IpConfigInfo :=
  let info := match forward with Some info => info | None => IpConfigInfo_zero end in
  mkIpConfig (ToIpV4 (GetLocalIpPublic s)) (ToIpV4 VirtualSubnetMask) (ToIpV4 VirtualGateway) (ic_rest info).

(** What a game computes from an answer: its broadcast address, octet by octet. *)
Definition broadcast_of (addr mask : bytes) : bytes :=
  zip_with (fun a m => Z.lor a (255 - m)) addr mask.
Definition network_of (addr mask : bytes) : bytes := zip_with Z.land addr mask.

Lemma ToIpV4_be ip : is_u32 ip -> is_bytes (ToIpV4 ip) /\ be32 (u8 (ip / 2 ^ 24)) (u8 (ip / 2 ^ 16)) (u8 (ip / 2 ^ 8)) (u8 ip) = ip /\
  ToIpV4 ip = [u8 (ip / 2 ^ 24); u8 (ip / 2 ^ 16); u8 (ip / 2 ^ 8); u8 ip].
Proof.
  intros H. split; [|split].
  - unfold ToIpV4. repeat constructor; apply u8_range.
  - rewrite be32_eq by apply u8_range. unfold u8, is_u32 in *. word_lia.
  - unfold ToIpV4. rewrite !land_255, !Z.shiftr_div_pow2 by lia. unfold u8. rewrite !Z.mod_mod by lia.
    by rewrite Z.pow_0_r, Z.div_1_r.
Qed.

(** The interface a game would be shown is the LAN it plays on: both answers
    give the control plane's own address, the real service's other fields stay,
    a failure of it changes no address, and for an address 10.13.c.d the network
    of the gateway is the address's and the broadcast is 10.13.255.255, which the
    relay floods. *)
Theorem nifm_shows_the_lan s forward c d :
  is_u8 c -> is_u8 d -> m_ipv4_address s = 0x0A0D0000 + 256 * c + d ->
  let info := GetCurrentIpConfigInfo forward s in
  GetCurrentIpAddress s = [10; 13; c; d] /\ ic_current_addr info = [10; 13; c; d] /\
  ic_rest info = match forward with Some r => ic_rest r | None => rest_zero end /\
  network_of (ic_gateway info) (ic_subnet_mask info) = network_of (ic_current_addr info) (ic_subnet_mask info) /\
  broadcast_of (ic_current_addr info) (ic_subnet_mask info) = [10; 13; 255; 255].
Proof.
  intros Hc Hd Hs. cbv zeta.
  assert (ToIpV4 (m_ipv4_address s) = [10; 13; c; d]) as E.
  { rewrite Hs. destruct (ToIpV4_be (0x0A0D0000 + 256 * c + d)) as (_ & _ & ->);
      [unfold is_u32, is_u8 in *; lia|]. unfold u8, is_u8 in *. repeat f_equal; word_lia. }
  unfold GetCurrentIpAddress, GetCurrentIpConfigInfo, GetLocalIpPublic. cbn [ic_current_addr ic_rest ic_subnet_mask ic_gateway].
  rewrite E. split; [done|]. split; [done|]. split; [by destruct forward|].
  change (ToIpV4 VirtualSubnetMask) with [255; 255; 0; 0]. change (ToIpV4 VirtualGateway) with [10; 13; 37; 1].
  unfold network_of, broadcast_of. cbn [zip_with]. rewrite !Z.land_0_r, (Z.lor_comm c), (Z.lor_comm d).
  assert (forall x, is_u8 x -> Z.lor (255 - 0) x = 255) as L.
  { intros x Hx. apply Z.bits_inj'. intros n Hn. rewrite Z.lor_spec.
    change (255 - 0) with (Z.ones 8). change 255 with (Z.ones 8). rewrite !Z.testbit_ones_nonneg by lia.
    destruct (n <? 8) eqn:En; [done|]. apply Z.ltb_ge in En. cbn [orb].
    destruct (decide (x = 0)) as [->|]; [apply Z.bits_0|]. apply Z.bits_above_log2; [apply Hx|].
    apply Z.log2_lt_pow2; unfold is_u8 in Hx; [lia|]. pose proof (Z.pow_le_mono_r 2 8 n). lia. }
  split; [reflexivity|]. by rewrite !L.
Qed.

End info.

(** At the address of a console that could not store one. *)
Lemma nifm_shows_the_lan_witness :
  broadcast_of (ic_current_addr (GetCurrentIpConfigInfo 7 None (set_m_ipv4_address LdnControl_init 0x0A0D2502)))
    [255; 255; 0; 0] = [10; 13; 255; 255].
Proof.
  exact (proj2 (proj2 (proj2 (proj2
    (nifm_shows_the_lan 7 (set_m_ipv4_address LdnControl_init 0x0A0D2502) None 37 2
       ltac:(unfold is_u8; lia) ltac:(unfold is_u8; lia) eq_refl))))).
Defined.
