(* ===== verification/Console.v ===== *)
(** The whole console (main.cpp): the parts wired together by [Main], and a
    history of the events that reach them.

    The state is the service of BsdMitm.v over a world that holds every other
    part.  What is outside the program (the relay's socket, the real bsd:u, nifm)
    is a type [O] with its operations as parameters.  A method that calls
    [tun::Send] while the receive loop or the LDN lock is held only hands over
    bytes, so its frames and loopback datagrams are queued and served when it
    returns; the one case where that differs, a datagram that comes back for the
    lock its sender holds, is the fault [Deadlock].  A console with a fault has
    stopped. *)
From S2P Require Import Prelude Bytes CText Servers IpAddr PortPool Ring ProxySocket.
From S2P Require Import SocketManager BsdMitm BsdSessions SlpClient Sha1 Tunnel Runtime.
From S2P Require Import LdnTypes LdnControl LdnSession.

Inductive Fault : Set := MemoryFault | Deadlock.
#[global] Instance Fault_eq_dec : EqDecision Fault.
Proof. solve_decision. Defined.

(** The callbacks [Main] installs. *)
Definition tun_Send_callback : Callback := 1.
Definition connect_callback : Callback := 2.
Definition connect_reply_callback : Callback := 3.
Definition disconnect_callback : Callback := 4.

(** All but the bsd:u service: the runtime and the tables of its files, the
    tunnel, the LDN control plane, the outside, the datagrams the tunnel has
    turned back and the control frames waiting to be sent. *)
Record World (O : Type) : Type := mkWorld {
  w_rt : Runtime;
  w_servers : list SlpServer;
  w_vid : option bytes;
  w_tun : TunState;
  w_ldn : LdnControl;
  w_out : O;
  w_loop : list (ProxyArgs * bytes);
  w_frames : list LdnOut;
  w_fault : option Fault;
}.
Arguments mkWorld {O}. Arguments w_rt {O}. Arguments w_servers {O}. Arguments w_vid {O}.
Arguments w_tun {O}. Arguments w_ldn {O}. Arguments w_out {O}. Arguments w_loop {O}.
Arguments w_frames {O}. Arguments w_fault {O}.

Section setters.
Context {O : Type}.
Implicit Type w : World O.
Definition set_wtun w (t : TunState) : World O :=
  mkWorld (w_rt w) (w_servers w) (w_vid w) t (w_ldn w) (w_out w) (w_loop w) (w_frames w) (w_fault w).
Definition set_wldn w (l : LdnControl) : World O :=
  mkWorld (w_rt w) (w_servers w) (w_vid w) (w_tun w) l (w_out w) (w_loop w) (w_frames w) (w_fault w).
Definition set_wvid w (v : option bytes) : World O :=
  mkWorld (w_rt w) (w_servers w) v (w_tun w) (w_ldn w) (w_out w) (w_loop w) (w_frames w) (w_fault w).
Definition set_wout w (o : O) : World O :=
  mkWorld (w_rt w) (w_servers w) (w_vid w) (w_tun w) (w_ldn w) o (w_loop w) (w_frames w) (w_fault w).
Definition set_wloop w (l : list (ProxyArgs * bytes)) : World O :=
  mkWorld (w_rt w) (w_servers w) (w_vid w) (w_tun w) (w_ldn w) (w_out w) l (w_frames w) (w_fault w).
Definition set_wframes w (l : list LdnOut) : World O :=
  mkWorld (w_rt w) (w_servers w) (w_vid w) (w_tun w) (w_ldn w) (w_out w) (w_loop w) l (w_fault w).
Definition set_wfault w (f : Fault) : World O :=
  mkWorld (w_rt w) (w_servers w) (w_vid w) (w_tun w) (w_ldn w) (w_out w) (w_loop w) (w_frames w) (Some f).
End setters.
(** Reduces the projections of updated worlds, nothing else. *)
Ltac w_cbn := cbn [w_rt w_servers w_vid w_tun w_ldn w_out w_loop w_frames w_fault set_wtun set_wldn
  set_wvid set_wout set_wloop set_wframes set_wfault] in *.

(** The consumer [tun_Send] sees: a datagram to the loopback network comes back. *)
Definition turned_back {O} : TunnelSink (O * list (ProxyArgs * bytes)) := {|
  Tunnel.OnControlFrame _ _ w := w;
  RouteIncoming a d w := ((w.1, w.2 ++ [(a, d)]), true);
|}.

Section console.
Context {O : Type} {RO : RegistryOrder} {IO : InfoOrder}.
(** The relay's socket, the real service, nifm and the framework's test. *)
Variable sendto : Z -> Z -> Z -> bytes -> O -> O * Z.
Variable fwd : FwdReq -> O -> O * Reply.
Variable nifm_ip : O -> option (Z * Z).
Variable nifm_env : O -> NifmEnv.
Variable nifm_call : NifmCall -> O -> O.
Variable IsApplicationId : Z -> bool.

Definition running (w : World O) : bool := Runtime.m_state (w_rt w) =? SLPCFG_STATE_RUNNING.

(** ** The tunnel and the control plane *)

Definition out_sendto (fd ip port : Z) (b : bytes) (w : O * list (ProxyArgs * bytes))
    : O * list (ProxyArgs * bytes) * Z :=
  let '(o, n) := sendto fd ip port b w.1 in ((o, w.2), n).

(** [tun::Send] on the console's tunnel, client and runtime. *)
Definition tunnel_send (a : ProxyArgs) (d : bytes) (w : World O) : World O * bool :=
  match tun_Send (TunnelSink0 := turned_back) out_sendto (running w) (Some (m_client (w_rt w))) (w_tun w) a (Some d) (length d)
          (w_out w, w_loop w) with
  | None => (set_wfault w MemoryFault, false)
  | Some (t, (o, q), ok) => (set_wloop (set_wout (set_wtun w t) o) q, ok)
  end.

(** A frame of [LdnControl::SendFrame], sent with the LDN lock held: one that is
    turned back asks for the lock again in [IsKnownSessionPeerPublic]. *)
Definition ldn_out (w : World O) (x : LdnOut) : World O :=
  match x with
  | ONifm c => set_wout w (nifm_call c (w_out w))
  | OFrame dst buf =>
      let a := mkArgs (m_ipv4_address (w_ldn w)) ControlPort dst ControlPort ProtocolType_Udp in
      let '(w', _) := tunnel_send a buf (set_wloop w []) in
      match w_loop w' with
      | [] => set_wloop w' (w_loop w)
      | _ => set_wfault (set_wloop w' (w_loop w)) Deadlock
      end
  end.

(** A method of the control plane, on a world. *)
Definition run_ldn {A} (m : M A) (w : World O) : World O * option A :=
  match m (w_ldn w) with
  | None => (set_wfault w MemoryFault, None)
  | Some (a, l, outs) => (foldl ldn_out (set_wldn w l) outs, Some a)
  end.

(** What the bsd:u service asks of the rest. *)
Definition bsd_fwd (q : FwdReq) (w : World O) : World O * Reply :=
  let '(o, r) := fwd q (w_out w) in (set_wout w o, r).
Definition bsd_data (cb : Callback) (a : ProxyArgs) (d : bytes) (w : World O) : World O * bool :=
  if cb =? tun_Send_callback then tunnel_send a d w else (w, false).
(** The three lambdas of [Main]. *)
Definition bsd_ctl (cb : Callback) (a : ProxyArgs) (w : World O) : World O * bool := (w, false).
Definition bsd_nifm (w : World O) : option (Z * Z) := nifm_ip (w_out w).
(** The value of a [Result]. *)
Definition result_value (r : LdnResult) : Z :=
  match r with
  | R_OK => 0
  | R_Error m d => Z.lor m (Z.shiftl d 9)
  | R_Nifm code => code
  end.
Definition bsd_enter (w : World O) : World O * Z :=
  let '(w, r) := run_ldn (EnterLocalNetworkModePublic (nifm_env (w_out w))) w in
  (w, from_option result_value 0 r).
Definition bsd_exit (w : World O) : World O * Z :=
  let '(w, r) := run_ldn (ExitLocalNetworkModePublic (nifm_env (w_out w))) w in
  (w, from_option result_value 0 r).

(** A datagram for the game's sockets: [RouteIncomingData] on the manager. *)
Definition route (x : Shared (World O)) (p : ProxyArgs * bytes) : Shared (World O) :=
  let '(a, d) := p in
  let known := if IsLanModePort (pa_dest_port a) then Some true
               else IsKnownSessionPeer (w_ldn (g_world x)) (pa_source_ip a) in
  match known with
  | None => set_gworld x (set_wfault (g_world x) MemoryFault)
  | Some k =>
      set_manager x (RouteIncomingData (fun _ => k) (g_netmap x) (g_manager x) a (Some d) (length d)).1
  end.

(** The datagrams the tunnel turned back during a command. *)
Definition route_loop (x : Shared (World O)) : Shared (World O) :=
  let q := w_loop (g_world x) in
  foldl route (set_gworld x (set_wloop (g_world x) [])) q.

(** ** The receive loop *)

(** The consumers of the tunnel, [now] the tick read by a control frame. *)
Definition console_sink (now : Z) : TunnelSink (Shared (World O)) := {|
  Tunnel.OnControlFrame src d x :=
    let w := g_world x in
    match LdnControl.OnControlFrame (running w) now src d (w_ldn w) with
    | None => set_gworld x (set_wfault w MemoryFault)
    | Some (_, l, outs) => set_gworld x (set_wframes (set_wldn w l) (w_frames w ++ outs))
    end;
  RouteIncoming a d x := (route x (a, d), true);
|}.

Definition send_frames (x : Shared (World O)) : Shared (World O) :=
  let w := g_world x in set_gworld x (foldl ldn_out (set_wframes w []) (w_frames w)).

(** The runtime's view of the console and back. *)
Definition sys_of (x : Shared (World O)) : Sys (Shared (World O)) :=
  let w := g_world x in mkSys (w_rt w) (w_servers w) (w_vid w) (w_tun w) x.
Definition of_sys (s : Sys (Shared (World O))) : Shared (World O) :=
  let x := s_world s in
  let w := g_world x in
  set_gworld x (mkWorld (s_rt s) (s_servers s) (s_vid s) (s_tun s) (w_ldn w) (w_out w) (w_loop w)
                  (w_frames w) (w_fault w)).

Definition console_sendto (fd ip port : Z) (b : bytes) (x : Shared (World O)) : Shared (World O) * Z :=
  let '(o, n) := sendto fd ip port b (w_out (g_world x)) in (set_gworld x (set_wout (g_world x) o), n).
Definition console_sha1 (m : bytes) : bytes := default [] (SHA1 (replicate 64 0) [m]).
Definition set_local_ip (ip : Z) (x : Shared (World O)) : Shared (World O) :=
  set_manager x (Mgr_SetLocalIp (g_manager x) ip).
Definition ldn_tick (tick : Z) (x : Shared (World O)) : Shared (World O) :=
  set_gworld x (run_ldn (LdnControl.Tick (running (g_world x)) tick) (g_world x)).1.

(** The console: the services, and the locals of [RunLoop]. *)
Record Console : Type := mkConsole {
  co_server : Server (W := World O);
  co_last_keepalive : Z;
  co_fails : Z;
}.
Definition co_shared (c : Console) : Shared (World O) := sv_shared (co_server c).
Definition co_world (c : Console) : World O := g_world (co_shared c).
Definition set_shared (c : Console) (x : Shared (World O)) : Console :=
  mkConsole (mkServer x (sv_live (co_server c))) (co_last_keepalive c) (co_fails c).

(** A round of [RunLoop]; [tick] and [now] are the ticks read by [Tick] and by a
    control frame. *)
Definition loop_round (i : Round) (tick now : Z) (c : Console) : Console :=
  let l := keepalive console_sendto i
             (mkLoop (sys_of (co_shared c)) (co_last_keepalive c) (co_fails c)) in
  let c := mkConsole (mkServer (of_sys (l_sys l)) (sv_live (co_server c)) ) (l_last_keepalive l)
             (l_fails l) in
  let c := set_shared c (ldn_tick tick (co_shared c)) in
  match dispatch (TunnelSink0 := console_sink now) console_sendto console_sha1 i (sys_of (co_shared c)) with
  | None => set_shared c (set_gworld (co_shared c) (set_wfault (co_world c) MemoryFault))
  | Some (s, _) => set_shared c (send_frames (of_sys s))
  end.

(** ** Events *)
Inductive ConsoleEvent : Type :=
| CoReload (file : option bytes)
| CoSelect (index : Z)
| CoStart (e : StartEnv) (tick : Z)
| CoStop
| CoRound (i : Round) (tick now : Z)
| CoInitialize (e : VipEnv)
| CoLdn (call : LdnCall)
| CoScan (env : Env) (f : ScanFilter) (cap : nat)
| CoConnect (env : Env) (dat : ConnectNetworkData) (data : NetworkInfo)
| CoOpen (program_id pid forward_service : Z)
| CoCmd (i : nat) (cmd : Cmd)
| CoClose (i : nat)
| CoCleanup.

Definition on_sys (f : Sys (Shared (World O)) -> Sys (Shared (World O))) (c : Console) : Console :=
  set_shared c (of_sys (f (sys_of (co_shared c)))).
Definition on_ldn {A} (m : bool -> M A) (c : Console) : Console :=
  let x := co_shared c in
  set_shared c (set_gworld x (run_ldn (m (running (g_world x))) (g_world x)).1).
Definition on_bsd (e : Event (W := World O)) (c : Console) : Console :=
  let s := server_step bsd_fwd bsd_data bsd_ctl bsd_nifm bsd_enter bsd_exit IsApplicationId
             (co_server c) e in
  mkConsole (mkServer (route_loop (sv_shared s)) (sv_live s)) (co_last_keepalive c) (co_fails c).

(** [LdnControl::Initialize] asks the runtime for the virtual address. *)
Definition ldn_initialized (e : VipEnv) (x : Shared (World O)) : World O * option LdnResult :=
  let w := g_world x in
  let '(ip, vid) := GetVirtualIp e (w_vid w) 16 in
  run_ldn (Initialize ip (nifm_env (w_out w))) (set_wvid w vid).
Definition ldn_initialize (e : VipEnv) (x : Shared (World O)) : Shared (World O) :=
  set_gworld x (ldn_initialized e x).1.

(** [CoStart]: the new thread's locals are set when it begins, at [tick]. *)
Definition console_event (e : ConsoleEvent) (c : Console) : Console :=
  match e with
  | CoReload file => on_sys (fun s => (ReloadServers file s).1) c
  | CoSelect i => on_sys (fun s => (SelectServer i s).1) c
  | CoStart e tick =>
      let '(s, started) := Start console_sendto console_sha1 set_local_ip e
                             (sys_of (co_shared c)) in
      let fresh := (started : bool) && negb (running (co_world c)) in
      mkConsole (mkServer (of_sys s) (sv_live (co_server c)))
        (if fresh then tick else co_last_keepalive c) (if fresh then 0 else co_fails c)
  | CoStop => on_sys Stop c
  | CoRound i tick now =>
      if m_thread_running (w_rt (co_world c)) then loop_round i tick now c else c
  | CoInitialize e => set_shared c (ldn_initialize e (co_shared c))
  | CoLdn call => on_ldn (fun r => run_call r call) c
  | CoScan env f cap => on_ldn (fun r => Scan r (env_run env) f cap) c
  | CoConnect env dat data => on_ldn (fun r => LdnControl.Connect r (env_run env) dat data) c
  | CoOpen program_id pid h => on_bsd (EvOpen (running (co_world c)) program_id pid h) c
  | CoCmd i cmd => on_bsd (EvCmd i cmd) c
  | CoClose i => on_bsd (EvClose i) c
  | CoCleanup => on_bsd EvCleanup c
  end.
Definition console_step (c : Console) (e : ConsoleEvent) : Console :=
  if decide (w_fault (co_world c) = None) then console_event e c else c.
Definition console_run : Console -> list ConsoleEvent -> Console := foldl console_step.

(** ** Boot: [Main] up to the registration of the services *)
Definition Main_wired (servers vid : option bytes) (e1 : VipEnv) (o : O) : Shared (World O) :=
  let x := Shared_init (mkWorld Runtime_init [] vid TunState_init LdnControl_init o [] [] None) in
  let x := of_sys (ReloadServers servers (sys_of x)).1 in
  let w := g_world x in
  let '(ip, vid) := GetVirtualIp e1 (w_vid w) 16 in
  let '(t, v) := tun_Init (w_tun w) ip in
  let x := set_gworld x (set_wtun (set_wvid w vid) t) in
  let m := SetSendCallback (Mgr_SetLocalIp (g_manager x) v) (Some tun_Send_callback) in
  let m := SetSendCallback m (Some tun_Send_callback) in
  let m := SetProxyConnectCallback m (Some connect_callback) in
  let m := SetProxyConnectReplyCallback m (Some connect_reply_callback) in
  let m := SetProxyDisconnectCallback m (Some disconnect_callback) in
  set_manager x m.
Definition Main (servers vid : option bytes) (e1 e2 : VipEnv) (o : O) : Console :=
  mkConsole (mkServer (ldn_initialize e2 (Main_wired servers vid e1 o)) []) 0 0.
End console.
