(* ===== verification/ConsoleProps.v ===== *)
(** The console as a whole (Console.v): the invariant of every part over every
    history of events, and what the wiring of the parts makes of them. *)
From S2P Require Import Prelude Bytes CText Servers IpAddr PortPool Ring ProxySocket.
From S2P Require Import SocketManager BsdMitm BsdSessions BsdCommands BsdWorld SlpClient Sha1.
From S2P Require Import Tunnel Runtime LdnTypes LdnControl LdnSession Console.

(** ** What a send and a method of the control plane touch *)
Section frames.
Context {O : Type}.
Variable sendto : Z -> Z -> Z -> bytes -> O -> O * Z.
Variable nifm_call : NifmCall -> O -> O.
Implicit Types w : World O.

(** A tunnel that has sent. *)
Definition tun_next (t t' : TunState) : Prop :=
  g_local_ip t' = g_local_ip t /\ g_frags t' = g_frags t /\ (is_u16 (g_ip_id t) -> is_u16 (g_ip_id t')).
Lemma tun_next_refl t : tun_next t t.
Proof. done. Qed.
Lemma tun_next_trans t1 t2 t3 : tun_next t1 t2 -> tun_next t2 t3 -> tun_next t1 t3.
Proof. intros (A1 & A2 & A3) (B1 & B2 & B3). split; [congruence|]. split; [congruence|auto]. Qed.

Lemma tun_Send_next {W} `{!TunnelSink W} (sd : Z -> Z -> Z -> bytes -> W -> W * Z) r c t a d n y t' y' ok :
  tun_Send sd r c t a d n y = Some (t', y', ok) -> tun_next t t'.
Proof.
  unfold tun_Send. destruct (_ && _); [by intros [= <- _ _]|]. destruct (2000 <? n)%nat; [by intros [= <- _ _]|].
  destruct (negb r); [by intros [= <- _ _]|]. destruct c as [c|]; [|by intros [= <- _ _]].
  destruct (c_fd c <? 0); [by intros [= <- _ _]|]. destruct (_ =? 0x7F000000).
  - destruct (RouteIncoming _ _ _). by intros [= <- _ _].
  - cbv zeta. destruct (slpClientSendIpv4 _ _ _ _) as [[w2 ok2]|]; [|done]. cbn [mbind option_bind].
    intros [= <- _ _]. split; [done|]. split; [done|]. intros _. apply u16_range.
Qed.

(** The parts of the world that a send leaves alone. *)
Record sent w w' : Prop := {
  sent_rt : w_rt w' = w_rt w; sent_servers : w_servers w' = w_servers w;
  sent_vid : w_vid w' = w_vid w; sent_ldn : w_ldn w' = w_ldn w;
  sent_frames : w_frames w' = w_frames w; sent_tun : tun_next (w_tun w) (w_tun w');
}.
Lemma sent_refl w : sent w w.
Proof. by constructor. Qed.
Lemma sent_trans w1 w2 w3 : sent w1 w2 -> sent w2 w3 -> sent w1 w3.
Proof. intros [] []. constructor; try congruence. by eapply tun_next_trans. Qed.

Lemma tunnel_send_sent a d w : sent w (tunnel_send sendto a d w).1.
Proof.
  unfold tunnel_send. destruct (tun_Send _ _ _ _ _ _ _ _) as [[[t [o q]] ok]|] eqn:E; [|by constructor].
  apply tun_Send_next in E. by constructor.
Qed.

Lemma ldn_out_sent w x : sent w (ldn_out sendto nifm_call w x) /\ w_loop (ldn_out sendto nifm_call w x) = w_loop w.
Proof.
  destruct x as [dst buf|c]; [|by split; [constructor|]]. cbn [ldn_out].
  match goal with |- context [tunnel_send sendto ?a ?b ?w0] =>
    pose proof (tunnel_send_sent a b w0) as H; destruct (tunnel_send sendto a b w0) as [w' ok] end.
  cbn [fst] in H. destruct H as [H1 H2 H3 H4 H5 H6]. by destruct (w_loop w'); split; [constructor| |constructor|].
Qed.
Lemma ldn_outs_sent outs w :
  sent w (foldl (ldn_out sendto nifm_call) w outs) /\ w_loop (foldl (ldn_out sendto nifm_call) w outs) = w_loop w.
Proof.
  revert w; induction outs as [|x outs IH]; intros w; cbn [foldl]; [by split; [apply sent_refl|]|].
  destruct (ldn_out_sent w x) as [A1 A2], (IH (ldn_out sendto nifm_call w x)) as [B1 B2].
  split; [by eapply sent_trans|congruence].
Qed.

(** A method of the control plane changes its own state, and sends. *)
Lemma run_ldn_sent {A} (m : M A) w :
  let w' := (run_ldn sendto nifm_call m w).1 in
  sent (set_wldn w (w_ldn w')) w' /\ w_loop w' = w_loop w /\
  (w_ldn w' = w_ldn w \/ exists a o, m (w_ldn w) = Some (a, w_ldn w', o)).
Proof.
  unfold run_ldn. destruct (m (w_ldn w)) as [[[a l] outs]|]; cbn [fst].
  - destruct (ldn_outs_sent outs (set_wldn w l)) as [H1 H2].
    pose proof (sent_ldn _ _ H1) as Hl. w_cbn. rewrite Hl. split; [exact H1|]. split; [done|]. right. eauto.
  - split; [by constructor|]. split; [done|]. by left.
Qed.

Lemma run_ldn_reachable {A} (m : M A) w :
  reachable (w_ldn w) -> (forall a s' o, m (w_ldn w) = Some (a, s', o) -> reachable s') ->
  reachable (w_ldn (run_ldn sendto nifm_call m w).1).
Proof. intros H Hm. destruct (run_ldn_sent m w) as (_ & _ & [-> |(a & o & E)]); eauto. Qed.
End frames.

Lemma seq_skip {A} (m : M A) s a s' o : m s = Some (a, s', o) -> (m;; skip) s = Some (tt, s', o ++ []).
Proof.
  intros E. unfold mbind, M_bind. rewrite E. reflexivity.
Qed.
Lemma reachable_enter nf s a s' o :
  reachable s -> EnterLocalNetworkModePublic nf s = Some (a, s', o) -> reachable s'.
Proof. intros H E. apply seq_skip in E. by apply (reach_call true (CEnterLocalNetworkMode nf) s s' (o ++ []) H I). Qed.
Lemma reachable_exit nf s a s' o :
  reachable s -> ExitLocalNetworkModePublic nf s = Some (a, s', o) -> reachable s'.
Proof. intros H E. apply seq_skip in E. by apply (reach_call true (CExitLocalNetworkMode nf) s s' (o ++ []) H I). Qed.
Lemma reachable_initialize ip nf s a s' o :
  reachable s -> Initialize ip nf s = Some (a, s', o) -> reachable s'.
Proof. intros H E. apply seq_skip in E. by apply (reach_call true (CInitialize ip nf) s s' (o ++ []) H I). Qed.

(** ** The invariant *)

(** What [Main] leaves in the manager. *)
Definition main_wiring (ip : Z) :=
  (ip, Some tun_Send_callback, Some connect_callback, Some connect_reply_callback,
   Some disconnect_callback).

Section invariant.
Context {O : Type} {RO : RegistryOrder} {IO : InfoOrder}.
Variable sendto : Z -> Z -> Z -> bytes -> O -> O * Z.
Variable fwd : FwdReq -> O -> O * Reply.
Variable nifm_ip : O -> option (Z * Z).
Variable nifm_env : O -> NifmEnv.
Variable nifm_call : NifmCall -> O -> O.
Variable IsApplicationId : Z -> bool.
Implicit Types (w : World O) (x : Shared (World O)) (c : Console (O := O)).

Let event := console_event sendto fwd nifm_ip nifm_env nifm_call IsApplicationId.
Let step := console_step sendto fwd nifm_ip nifm_env nifm_call IsApplicationId.
Let Main := Main sendto nifm_env nifm_call.

(** The runtime's part. *)
Definition rt_inv w : Prop :=
  sys_inv (mkSys (w_rt w) (w_servers w) (w_vid w) (w_tun w) tt) /\ is_u16 (g_ip_id (w_tun w)).

(** The parts in order, every part of each console over [n] events: the bsd:u
    service, the runtime, the control plane; one address everywhere but in the
    control plane; nothing left to send. *)
Record console_inv (n : Z) c : Prop := {
  ci_server : srv_inv n (co_server c);
  ci_rt : rt_inv (co_world c);
  ci_ldn : reachable (w_ldn (co_world c));
  ci_wiring : wiring (g_manager (co_shared c)) = main_wiring (g_local_ip (w_tun (co_world c)));
  ci_ip : is_u32 (g_local_ip (w_tun (co_world c)));
  ci_netmap : NetMap_reachable (g_netmap (co_shared c));
  ci_loop : w_loop (co_world c) = [];
  ci_frames : w_frames (co_world c) = [];
}.

(** The events' arguments have their C types; the waits of a command and the
    sleeps of [Scan] and [Connect] are what the other threads can do. *)
Definition console_event_ok (e : ConsoleEvent) : Prop :=
  match e with
  | CoRound i _ _ => round_bytes i
  | CoLdn (CFrame _ _ _) | CoLdn (CTick _) | CoLdn (CInitialize _ _) => False
  | CoLdn call => call_ok call
  | CoScan env _ _ => env_ok env
  | CoConnect env _ data => env_ok env /\ buf_ok 6 (cn_bssid (nw_common data))
  | CoCmd _ cmd => cmd_ok cmd
  | _ => True
  end.

Lemma sys_inv_world {W V} rt sv vid vid' t (w : W) (v : V) :
  sys_inv (mkSys rt sv vid t w) -> sys_inv (mkSys rt sv vid' t v).
Proof. intros [A B C]. by constructor. Qed.

Lemma tun_next_inv t t' : tun_next t t' -> tun_inv t -> tun_inv t'.
Proof. intros (_ & E & _) H. unfold tun_inv in *. by rewrite E. Qed.

Lemma sent_rt_inv w w' : sent w w' -> rt_inv w -> rt_inv w'.
Proof.
  intros [E1 E2 E3 _ _ Ht] [[A B C] D]. split; [|by apply Ht]. rewrite E1, E2, E3.
  constructor; [exact A|by eapply tun_next_inv|exact C].
Qed.

(** *** The bsd:u service *)
Definition bsd_Q (ip : Z) w : Prop :=
  rt_inv w /\ reachable (w_ldn w) /\ g_local_ip (w_tun w) = ip /\ w_frames w = [].

Lemma bsd_Q_sent ip w w' : sent w w' -> bsd_Q ip w -> bsd_Q ip w'.
Proof.
  intros Hs (A & B & C & D). split; [by eapply sent_rt_inv|]. destruct Hs as [_ _ _ E4 E5 (E6 & _)].
  split; [by rewrite E4|]. split; congruence.
Qed.
Lemma bsd_Q_ldn {A} ip (m : M A) w :
  (forall a s' o, m (w_ldn w) = Some (a, s', o) -> reachable s') ->
  bsd_Q ip w -> bsd_Q ip (run_ldn sendto nifm_call m w).1.
Proof.
  intros Hm (H1 & H2 & H3 & H4). destruct (run_ldn_sent sendto nifm_call m w) as (Hs & _ & _).
  eapply bsd_Q_sent; [exact Hs|]. split; [exact H1|]. split; [|done].
  by apply run_ldn_reachable.
Qed.

Lemma route_frame x p :
  g_socket_info (route x p) = g_socket_info x /\ s_next_session_id (route x p) = s_next_session_id x /\
  (mgr_inv (g_manager x) -> mgr_inv (g_manager (route x p))) /\
  wiring (g_manager (route x p)) = wiring (g_manager x) /\ g_netmap (route x p) = g_netmap x /\
  sent (g_world x) (g_world (route x p)) /\ w_loop (g_world (route x p)) = w_loop (g_world x).
Proof.
  destruct p as [a d]. unfold route. cbv zeta. destruct (if IsLanModePort _ then _ else _) as [k|].
  - mitm_cbn. split_and!; try done; [by apply mgr_inv_data|apply wiring_route].
  - mitm_cbn. by split_and!.
Qed.

(** *** What a part may do to the rest of the console *)
Record shell (F : list LdnOut -> Prop) (x0 : Shared (World O)) (ip : Z) x : Prop := {
  sh_info : g_socket_info x = g_socket_info x0;
  sh_next : s_next_session_id x = s_next_session_id x0;
  sh_manager : mgr_inv (g_manager x);
  sh_wiring : wiring (g_manager x) = main_wiring ip;
  sh_ip : is_u32 ip;
  sh_netmap : g_netmap x = g_netmap x0;
  sh_ldn : reachable (w_ldn (g_world x));
  sh_loop : w_loop (g_world x) = [];
  sh_frames : F (w_frames (g_world x));
}.
Definition none_left (l : list LdnOut) : Prop := l = [].

Lemma shell_start n c :
  console_inv n c -> shell none_left (co_shared c) (g_local_ip (w_tun (co_world c))) (co_shared c).
Proof. intros [[H1 H2 H3 H4] ? ? ? ? ? ? ?]. by constructor. Qed.

Lemma console_inv_intro n (sv : Server) x ka fails :
  srv_inv n sv -> NetMap_reachable (g_netmap (sv_shared sv)) ->
  shell none_left (sv_shared sv) (g_local_ip (w_tun (g_world x))) x -> rt_inv (g_world x) ->
  console_inv n (mkConsole (mkServer x (sv_live sv)) ka fails).
Proof.
  intros [H1 H2 H3 [H4 H5]] Hn [E1 E2 E3 E4 E5 E6 E7 E8 E9] Hr.
  constructor; unfold co_shared, co_world; cbn [co_server sv_shared]; try done; [|by rewrite E6].
  constructor; cbn [sv_shared sv_live]; try done.
  - intros fd i. rewrite E1. apply H2.
  - by rewrite E2.
Qed.

Lemma shell_finish n c x ka fails :
  console_inv n c -> shell none_left (co_shared c) (g_local_ip (w_tun (g_world x))) x ->
  rt_inv (g_world x) ->
  console_inv n (mkConsole (mkServer x (sv_live (co_server c))) ka fails).
Proof. intros H. apply console_inv_intro; [apply H|]. apply (ci_netmap n c H). Qed.

Lemma shell_sent F x0 ip x w :
  sent (g_world x) w -> w_loop w = w_loop (g_world x) -> shell F x0 ip x -> shell F x0 ip (set_gworld x w).
Proof. intros [_ _ _ E4 E5 _] E6 []. constructor; mitm_cbn; try done; congruence. Qed.

Lemma shell_out F x0 ip x o : shell F x0 ip x -> shell F x0 ip (set_gworld x (set_wout (g_world x) o)).
Proof. intros []. by constructor. Qed.
Lemma shell_local_ip F x0 ip ip' x : is_u32 ip' -> shell F x0 ip x -> shell F x0 ip' (set_local_ip ip' x).
Proof.
  intros Hip [H1 H2 H3 H4 H5 H6 H7 H8 H9]. constructor; try done. unfold set_local_ip. mitm_cbn.
  unfold wiring, main_wiring in *. cbn. congruence.
Qed.
Lemma shell_fault F x0 ip x f : shell F x0 ip x -> shell F x0 ip (set_gworld x (set_wfault (g_world x) f)).
Proof. intros []. by constructor. Qed.

Lemma shell_route F x0 ip x p : shell F x0 ip x -> shell F x0 ip (route x p).
Proof.
  destruct (route_frame x p) as (R1 & R2 & R3 & R4 & R5 & [_ _ _ R6 R7 _] & R8).
  intros [H1 H2 H3 H4 H5 H6 H7 H8 H9]. constructor; try congruence; auto.
Qed.

Lemma shell_ldn {A} F x0 ip (m : M A) x w0 :
  w_ldn w0 = w_ldn (g_world x) -> w_loop w0 = w_loop (g_world x) -> w_frames w0 = w_frames (g_world x) ->
  (forall a s' o, m (w_ldn w0) = Some (a, s', o) -> reachable s') ->
  shell F x0 ip x -> shell F x0 ip (set_gworld x (run_ldn sendto nifm_call m w0).1).
Proof.
  intros E1 E2 E3 Hm [H1 H2 H3 H4 H5 H6 H7 H8 H9].
  destruct (run_ldn_sent sendto nifm_call m w0) as ([_ _ _ S4 S5 _] & S6 & _).
  constructor; mitm_cbn; try done.
  - apply run_ldn_reachable; [by rewrite E1|done].
  - congruence.
  - w_cbn. rewrite S5, E3. exact H9.
Qed.

(** *** The receive loop *)
(** A property of the console that sending to the relay, routing a datagram
    and handling a control frame keep, the receive loop keeps. *)
Section kept.
Variable P : Shared (World O) -> Prop.
Hypothesis P_out : forall x o, P x -> P (set_gworld x (set_wout (g_world x) o)).

Lemma SendRaw_kept cl b x : P x -> P (slpClientSendRaw (console_sendto sendto) cl b x).1.
Proof using P_out.
  intros H. unfold slpClientSendRaw, console_sendto. destruct (sendto _ _ _ _ _) as [o n]. by apply P_out.
Qed.

Lemma keepalive_kept i (l : LoopState (W := Shared (World O))) :
  P (s_world (l_sys l)) -> P (s_world (l_sys (keepalive (console_sendto sendto) i l))).
Proof using P_out.
  intros H. unfold keepalive. destruct (_ <=? _); [|done].
  pose proof (SendRaw_kept (m_client (s_rt (l_sys l))) slpFrameKeepalive _ H) as Hs.
  unfold slpClientSendKeepalive. destruct (slpClientSendRaw _ _ _ _) as [x []]; [exact Hs|].
  destruct (3 <=? _); [|exact Hs]. by destruct (slpClientReopen _ _ _).
Qed.

Lemma dispatch_kept now i s s' b :
  (forall x p, P x -> P (route x p)) ->
  (forall x src d, is_u32 src -> is_bytes d -> P x -> P (@Tunnel.OnControlFrame _ (console_sink (O := O) now) src d x)) ->
  tun_inv (s_tun s) -> round_bytes i -> P (s_world s) ->
  dispatch (TunnelSink0 := console_sink now) (console_sendto sendto) console_sha1 i s = Some (s', b) ->
  P (s_world s').
Proof using P_out.
  intros P_route P_frame Ht Hb H. unfold dispatch. destruct (slpClientRecv _) as [[buf type]|] eqn:Er; [|by intros [= <- _]].
  assert (is_bytes buf) as Hbuf.
  { unfold slpClientRecv in Er. destruct (r_recv i) as [d|] eqn:E; [|done]. cbn [option_map] in Er.
    destruct (take 2048 d) eqn:Ed; [done|]. injection Er as <- _. rewrite <- Ed. apply Forall_take. by apply Hb. }
  destruct (type =? SLP_TYPE_PING); [by intros [= <- _]|]. destruct (type =? SLP_TYPE_AUTH_ME).
  { unfold slpClientHandleAuthMe. destruct (drop 1 buf) as [|auth_type challenge]; [by intros [= <- _]|].
    destruct (negb (auth_type =? 0)); [by intros [= <- _]|].
    destruct (negb (c_has_credentials _)); [by intros [= <- _]|]. cbv zeta.
    match goal with |- context [slpClientSendRaw ?a ?c ?b ?w] =>
      pose proof (SendRaw_kept c b w H) as Hs; destruct (slpClientSendRaw a c b w) end.
    by intros [= <- _]. }
  destruct (1 <? length buf)%nat; [|by intros [= <- _]].
  destruct (OnFrame _ _ _ _ _ _) as [[t w]|] eqn:E; [|done]. cbn [mbind option_bind]. intros [= <- _]. cbn [s_world].
  revert E. eapply (OnFrame_keeps (S := console_sink now) P).
  - intros. by apply P_frame.
  - intros a d y. apply P_route.
  - done.
  - by apply Forall_drop.
  - exact H.
Qed.
End kept.

Lemma SendRaw_shell F x0 ip cl b x :
  shell F x0 ip x -> shell F x0 ip (slpClientSendRaw (console_sendto sendto) cl b x).1.
Proof. apply SendRaw_kept. intros. by apply shell_out. Qed.

Lemma keepalive_shell F x0 ip i (l : LoopState (W := Shared (World O))) :
  shell F x0 ip (s_world (l_sys l)) ->
  shell F x0 ip (s_world (l_sys (keepalive (console_sendto sendto) i l))).
Proof. apply keepalive_kept. intros. by apply shell_out. Qed.

Lemma sink_frame_shell x0 ip now src d x :
  is_u32 src -> is_bytes d -> shell (fun _ => True) x0 ip x ->
  shell (fun _ => True) x0 ip (@Tunnel.OnControlFrame _ (console_sink (O := O) now) src d x).
Proof.
  intros Hs Hd H. cbn [Tunnel.OnControlFrame console_sink].
  destruct (LdnControl.OnControlFrame _ _ _ _ _) as [[[[] l] o]|] eqn:E; [|by apply shell_fault].
  destruct H as [H1 H2 H3 H4 H5 H6 H7 H8 H9]. constructor; mitm_cbn; w_cbn; try done.
  by apply (reach_call (running (g_world x)) (CFrame now src d) (w_ldn (g_world x)) l o).
Qed.

Lemma dispatch_shell x0 ip now i s s' b :
  tun_inv (s_tun s) -> round_bytes i -> shell (fun _ => True) x0 ip (s_world s) ->
  dispatch (TunnelSink0 := console_sink now) (console_sendto sendto) console_sha1 i s = Some (s', b) ->
  shell (fun _ => True) x0 ip (s_world s').
Proof.
  apply dispatch_kept; [intros; by apply shell_out|intros x p; apply shell_route|].
  intros. by apply sink_frame_shell.
Qed.

Lemma dispatch_fields now i (s s' : Sys (Shared (World O))) b :
  dispatch (TunnelSink0 := console_sink now) (console_sendto sendto) console_sha1 i s = Some (s', b) ->
  g_local_ip (s_tun s') = g_local_ip (s_tun s) /\ g_ip_id (s_tun s') = g_ip_id (s_tun s).
Proof.
  unfold dispatch. destruct (slpClientRecv _) as [[buf type]|]; [|by intros [= <- _]].
  destruct (type =? SLP_TYPE_PING); [by intros [= <- _]|]. destruct (type =? SLP_TYPE_AUTH_ME).
  { destruct (slpClientHandleAuthMe _ _ _ _ _). by intros [= <- _]. }
  destruct (1 <? _)%nat; [|by intros [= <- _]].
  destruct (OnFrame _ _ _ _ _ _) as [[t w]|] eqn:E; [|done]. apply OnFrame_fields in E.
  cbn [mbind option_bind]. by intros [= <- _].
Qed.

Lemma keepalive_sys_inv i (l : LoopState (W := Shared (World O))) :
  sys_inv (l_sys l) -> m_thread_running (s_rt (l_sys l)) = true ->
  sys_inv (l_sys (keepalive (console_sendto sendto) i l)).
Proof.
  intros [A B C] Hr. destruct (keepalive_frame (console_sendto sendto) i l) as (K1 & K2 & K3 & K4 & K5).
  destruct C as [(C1 & C2 & C3 & C4)|(_ & C2 & _)]; [|congruence].
  destruct (client_next_inv i _ _ K5 C3) as [K6 K7].
  constructor; [by rewrite K1|by rewrite K2|]. left. rewrite K3, K4, K7. done.
Qed.

Lemma dispatch_sys_inv now i (s s' : Sys (Shared (World O))) b :
  sys_inv s -> round_bytes i ->
  dispatch (TunnelSink0 := console_sink now) (console_sendto sendto) console_sha1 i s = Some (s', b) ->
  sys_inv s'.
Proof.
  intros [A B C] Hb E.
  destruct (dispatch_ok (TunnelSink0 := console_sink now) (console_sendto sendto) console_sha1 i s B Hb)
    as (s2 & b2 & E2 & D1 & D2 & D3 & D4 & D5). rewrite E in E2. injection E2 as <- <-.
  constructor; [by rewrite D2|done|]. by rewrite D3, D4, D5.
Qed.

Lemma rt_inv_of_sys (s : Sys (Shared (World O))) :
  sys_inv s -> is_u16 (g_ip_id (s_tun s)) -> rt_inv (g_world (of_sys s)).
Proof. intros [A B C] H. split; [by constructor|done]. Qed.
Lemma shell_of_sys F x0 ip s : shell F x0 ip (s_world s) -> shell F x0 ip (of_sys s).
Proof. intros []. by constructor. Qed.
Lemma shell_any F x0 ip x : shell F x0 ip x -> shell (fun _ => True) x0 ip x.
Proof. intros []. by constructor. Qed.

Lemma ldn_tick_ok tick x0 ip x :
  shell none_left x0 ip x -> rt_inv (g_world x) ->
  shell none_left x0 ip (ldn_tick sendto nifm_call tick x) /\
  rt_inv (g_world (ldn_tick sendto nifm_call tick x)) /\
  tun_next (w_tun (g_world x)) (w_tun (g_world (ldn_tick sendto nifm_call tick x))).
Proof.
  intros Hs Hr. unfold ldn_tick. set (m := LdnControl.Tick _ _).
  destruct (run_ldn_sent sendto nifm_call m (g_world x)) as (Hsent & _ & _).
  split; [|split].
  - apply shell_ldn; try done. intros a s' o E.
    destruct a. apply (reach_call (running (g_world x)) (CTick tick) _ s' o (sh_ldn _ _ _ _ Hs) I E).
  - mitm_cbn. eapply sent_rt_inv; [exact Hsent|exact Hr].
  - apply (sent_tun _ _ Hsent).
Qed.

Lemma send_frames_ok x0 ip x :
  shell (fun _ => True) x0 ip x -> rt_inv (g_world x) ->
  shell none_left x0 ip (send_frames sendto nifm_call x) /\
  rt_inv (g_world (send_frames sendto nifm_call x)) /\
  tun_next (w_tun (g_world x)) (w_tun (g_world (send_frames sendto nifm_call x))).
Proof.
  intros [H1 H2 H3 H4 H5 H6 H7 H8 H9] Hr. unfold send_frames. set (w0 := set_wframes (g_world x) []).
  destruct (ldn_outs_sent sendto nifm_call (w_frames (g_world x)) w0) as [Hs Hl]. cbv zeta.
  fold w0. split; [|split].
  - destruct Hs as [_ _ _ S4 S5 _]. constructor; mitm_cbn; try done.
    + rewrite S4. exact H7.
    + rewrite Hl. exact H8.
  - eapply (sent_rt_inv w0); [exact Hs|exact Hr].
  - apply (sent_tun _ _ Hs).
Qed.

Lemma shell_ip F x0 ip ip' x : shell F x0 ip x -> ip' = ip -> shell F x0 ip' x.
Proof. by intros H ->. Qed.

Lemma console_inv_round n i tick now c :
  console_inv n c -> round_bytes i -> m_thread_running (w_rt (co_world c)) = true ->
  console_inv n (loop_round sendto nifm_call i tick now c).
Proof.
  intros H Hb Hr. pose proof (ci_rt n c H) as [Hsys Hid].
  set (l := mkLoop (sys_of (co_shared c)) (co_last_keepalive c) (co_fails c)).
  assert (sys_inv (l_sys l)) as Hl by (by eapply sys_inv_world).
  pose proof (keepalive_sys_inv i l Hl Hr) as Hk.
  pose proof (keepalive_shell none_left (co_shared c) _ i l (shell_start n c H)) as Sk.
  destruct (keepalive_frame (console_sendto sendto) i l) as (_ & K2 & _).
  unfold loop_round. fold l. set (k := keepalive _ i l) in *. cbv zeta. unfold co_shared at 2 3.
  cbn [co_server sv_shared]. set (x1 := of_sys (l_sys k)).
  destruct (ldn_tick_ok tick (co_shared c) _ x1 (shell_of_sys _ _ _ _ Sk)) as (S2 & R2 & (T2 & _ & _)).
  { apply rt_inv_of_sys; [exact Hk|]. by rewrite K2. }
  set (x2 := ldn_tick sendto nifm_call tick x1) in *. unfold set_shared, co_shared. cbn [co_server sv_shared sv_live co_last_keepalive co_fails].
  assert (g_local_ip (w_tun (g_world x2)) = g_local_ip (w_tun (co_world c))) as E2.
  { rewrite T2. cbn. by rewrite K2. }
  pose proof R2 as [Rs2 Ri2]. assert (tun_inv (s_tun (sys_of x2))) as Ti by apply (inv_tun _ Rs2).
  destruct (dispatch _ _ i (sys_of x2)) as [[s b]|] eqn:Ed.
  - pose proof (dispatch_fields _ _ _ _ _ Ed) as [D1 D2].
    pose proof (dispatch_sys_inv _ _ _ _ _ ltac:(by eapply sys_inv_world) Hb Ed) as Ds.
    pose proof (dispatch_shell (co_shared c) _ _ _ _ _ _ Ti Hb (shell_any _ _ _ _ S2) Ed) as S3.
    destruct (send_frames_ok (co_shared c) _ (of_sys s) (shell_of_sys _ _ _ _ S3)) as (S4 & R4 & (T4 & _ & _)).
    { apply rt_inv_of_sys; [exact Ds|]. by rewrite D2. }
    apply (shell_finish n c _ _ _ H); [|exact R4]. eapply shell_ip; [exact S4|].
    rewrite T4. transitivity (g_local_ip (s_tun s)); [done|]. rewrite D1. exact E2.
  - apply (shell_finish n c _ _ _ H).
    + apply shell_fault. eapply shell_ip; [exact S2|]. exact E2.
    + exact R2.
Qed.

(** *** The other events *)
Lemma console_inv_sys n f c :
  console_inv n c ->
  (forall s : Sys (Shared (World O)), sys_inv s -> sys_inv (f s)) ->
  (forall s : Sys (Shared (World O)), s_world (f s) = s_world s /\ tun_next (s_tun s) (s_tun (f s)) \/
     s_world (f s) = s_world s /\ g_local_ip (s_tun (f s)) = g_local_ip (s_tun s) /\
     g_ip_id (s_tun (f s)) = g_ip_id (s_tun s)) ->
  console_inv n (on_sys f c).
Proof.
  intros H Hf He. pose proof (ci_rt n c H) as [Hsys Hid]. unfold on_sys, set_shared.
  set (s := sys_of (co_shared c)).
  assert (sys_inv s) as Hs by (by eapply sys_inv_world). pose proof (Hf s Hs) as Hs'.
  assert (s_world (f s) = s_world s /\ g_local_ip (s_tun (f s)) = g_local_ip (s_tun s) /\
          is_u16 (g_ip_id (s_tun (f s)))) as (E1 & E2 & E3).
  { destruct (He s) as [(E1 & E2 & _ & E3)|(E1 & E2 & E3)]; split_and!; try done; [by apply E3|by rewrite E3]. }
  apply (shell_finish n c _ _ _ H); [|by apply rt_inv_of_sys].
  apply shell_of_sys. rewrite E1. cbn [of_sys g_world set_gworld w_tun]. rewrite E2. by apply (shell_start n).
Qed.

Lemma ReloadServers_frame file (s : Sys (Shared (World O))) :
  s_world (ReloadServers file s).1 = s_world s /\ s_tun (ReloadServers file s).1 = s_tun s.
Proof. unfold ReloadServers. by destruct (ReadConfigText _ _). Qed.
Lemma SelectServer_frame i (s : Sys (Shared (World O))) :
  s_world (SelectServer i s).1 = s_world s /\ s_tun (SelectServer i s).1 = s_tun s.
Proof. unfold SelectServer. by destruct (_ <=? _). Qed.
Lemma Stop_frame (s : Sys (Shared (World O))) :
  s_world (Stop s) = s_world s /\ g_local_ip (s_tun (Stop s)) = g_local_ip (s_tun s) /\
  g_ip_id (s_tun (Stop s)) = g_ip_id (s_tun s).
Proof. unfold Stop. by destruct (negb _). Qed.

Lemma Start_shell F x0 e (s : Sys (Shared (World O))) :
  shell F x0 (g_local_ip (s_tun s)) (s_world s) ->
  let s' := (Start (console_sendto sendto) console_sha1 set_local_ip e s).1 in
  shell F x0 (g_local_ip (s_tun s')) (s_world s') /\ g_ip_id (s_tun s') = g_ip_id (s_tun s).
Proof.
  intros H. cbv zeta. rewrite Start_eq.
  destruct (_ =? _); [done|]. destruct (selected s) as [srv|]; [|done].
  destruct (opens e srv) as [ip|]; [|done]. unfold Start_opened. cbn [s_world set_rt s_rt s_vid s_tun s_servers].
  pose proof (SendRaw_shell F x0 _ (opened_client e srv ip) (slpFramePing 0xC0FFEE) _ H) as Hs.
  unfold slpClientSendPing. cbn [m_client set_client]. destruct (slpClientSendRaw _ _ _ _) as [x b]. cbn [fst] in Hs.
  destruct (GetVirtualIp (se_vip e) _ _) as [txt vid]. unfold Start_refresh. cbn [s_vid s_tun s_rt s_servers s_world].
  destruct (GetVirtualIp (se_vip_tun e) _ _) as [txt2 vid2]. unfold RefreshLocalIp.
  destruct (_ || _); destruct (negb (se_thread e)); cbn [fst set_rt s_tun s_world g_local_ip g_ip_id];
    (split; [|done]); try exact Hs; exact (shell_local_ip _ _ _ _ _ (ParseIp_u32 _) Hs).
Qed.

Lemma console_inv_start n e tick c : console_inv n c -> console_inv n (event (CoStart e tick) c).
Proof.
  intros H. pose proof (ci_rt n c H) as [Hsys Hid]. unfold event, console_event.
  set (s := sys_of (co_shared c)). assert (sys_inv s) as Hs by (by eapply sys_inv_world).
  pose proof (Start_inv (TunnelSink0 := console_sink 0) (console_sendto sendto) console_sha1 set_local_ip e s Hs) as H1.
  destruct (Start_shell none_left (co_shared c) e s (shell_start n c H)) as [H2 H3].
  destruct (Start _ _ _ _ s) as [s' started]. cbn [fst] in *.
  apply (shell_finish n c _ _ _ H); [by apply shell_of_sys|]. apply rt_inv_of_sys; [done|]. by rewrite H3.
Qed.

Lemma console_inv_ldn {A} n (m : bool -> M A) c :
  console_inv n c ->
  (forall r a s' o, m r (w_ldn (co_world c)) = Some (a, s', o) -> reachable s') ->
  console_inv n (on_ldn sendto nifm_call m c).
Proof.
  intros H Hm. pose proof (ci_rt n c H) as Hr. unfold on_ldn, set_shared. fold (co_world c).
  set (mm := m (running (co_world c))).
  destruct (run_ldn_sent sendto nifm_call mm (co_world c)) as (Hs & _ & _).
  apply (shell_finish n c _ _ _ H).
  - mitm_cbn. destruct (sent_tun _ _ Hs) as (-> & _ & _).
    apply shell_ldn; try done; [by intros; eapply Hm|by apply (shell_start n)].
  - mitm_cbn. eapply sent_rt_inv; [exact Hs|exact Hr].
Qed.

Lemma ldn_initialize_ok x0 ip e x :
  shell none_left x0 ip x -> rt_inv (g_world x) ->
  shell none_left x0 ip (ldn_initialize sendto nifm_env nifm_call e x) /\
  rt_inv (g_world (ldn_initialize sendto nifm_env nifm_call e x)) /\
  g_local_ip (w_tun (g_world (ldn_initialize sendto nifm_env nifm_call e x))) = g_local_ip (w_tun (g_world x)).
Proof.
  intros Hs Hr. unfold ldn_initialize, ldn_initialized. destruct (GetVirtualIp _ _ _) as [txt vid].
  set (m := Initialize _ _). set (w0 := set_wvid (g_world x) vid).
  destruct (run_ldn_sent sendto nifm_call m w0) as (Hsent & _ & _). split; [|split].
  - apply shell_ldn; try done. intros a s' o E. eapply reachable_initialize; [|exact E].
    exact (sh_ldn _ _ _ _ Hs).
  - mitm_cbn. eapply sent_rt_inv; [exact Hsent|]. destruct Hr as [[A B C] D]. by split.
  - mitm_cbn. destruct (sent_tun _ _ Hsent) as (E & _ & _). by rewrite E.
Qed.

Lemma console_inv_initialize n e c : console_inv n c -> console_inv n (event (CoInitialize e) c).
Proof.
  intros H. destruct (ldn_initialize_ok (co_shared c) _ e (co_shared c) (shell_start n c H) (ci_rt n c H)) as (A & B & E).
  apply (shell_finish n c _ _ _ H); [|exact B]. eapply shell_ip; [exact A|exact E].
Qed.

Lemma routes_shell F x0 ip q : forall x, shell F x0 ip x -> rt_inv (g_world x) ->
  shell F x0 ip (foldl route x q) /\ rt_inv (g_world (foldl route x q)) /\
  w_tun (g_world (foldl route x q)) = w_tun (g_world x).
Proof.
  induction q as [|p q IH]; intros x Hs Hr; cbn [foldl]; [done|].
  destruct (IH (route x p)) as (A & B & E).
  - by apply shell_route.
  - destruct (route_frame x p) as (_ & _ & _ & _ & _ & Hsent & _). by eapply sent_rt_inv.
  - split; [exact A|]. split; [exact B|]. rewrite E. unfold route. destruct p as [a d]. by case_match.
Qed.

Lemma console_inv_bsd n e c :
  own_event e -> event_ok e -> n + 1 < 2 ^ 32 -> console_inv n c ->
  console_inv (n + 1) (on_bsd sendto fwd nifm_ip nifm_env nifm_call IsApplicationId e c).
Proof.
  intros Ho He Hn H. unfold on_bsd.
  set (st := server_step _ _ _ _ _ _ _ (co_server c) e).
  assert (srv_inv (n + 1) st) as Hst by (apply srv_inv_step; [done..|apply H]).
  set (ip := g_local_ip (w_tun (co_world c))).
  assert (around (bsd_Q ip) (co_shared c) (sv_shared st)) as [A1 A2 A3].
  { apply server_step_around; [..|done].
    - intros q w Hq. unfold bsd_fwd. destruct (fwd q (w_out w)). cbn [fst]. eapply bsd_Q_sent; [|exact Hq]. by constructor.
    - intros cb a d w Hq. unfold bsd_data. destruct (_ =? _); [|done]. eapply bsd_Q_sent; [apply tunnel_send_sent|done].
    - done.
    - intros w Hq. unfold bsd_enter. pose proof (bsd_Q_ldn ip (EnterLocalNetworkModePublic (nifm_env (w_out w))) w) as Hl.
      destruct (run_ldn _ _ _ w) as [w1 r1]. apply Hl; [|done]. intros a s' o. apply reachable_enter, Hq.
    - intros w Hq. unfold bsd_exit. pose proof (bsd_Q_ldn ip (ExitLocalNetworkModePublic (nifm_env (w_out w))) w) as Hl.
      destruct (run_ldn _ _ _ w) as [w1 r1]. apply Hl; [|done]. intros a s' o. apply reachable_exit, Hq. }
  destruct H as [_ I2 I3 I4 I5 I6 I7 I8].
  destruct A1 as (B1 & B2 & B3 & B4); [by split_and!|].
  unfold route_loop. cbv zeta.
  set (x1 := set_gworld (sv_shared st) (set_wloop (g_world (sv_shared st)) [])).
  assert (shell none_left (sv_shared st) ip x1) as S1.
  { constructor; unfold x1; mitm_cbn; try done; [apply Hst|]. by rewrite A2. }
  destruct (routes_shell none_left (sv_shared st) ip (w_loop (g_world (sv_shared st))) x1 S1) as (S2 & R2 & T2);
    [exact B1|].
  apply console_inv_intro; [done|by rewrite A3| |done].
  eapply shell_ip; [exact S2|]. rewrite T2. exact B3.
Qed.

Lemma console_inv_mono n m c : n <= m -> console_inv n c -> console_inv m c.
Proof.
  intros Hle [[H1 H2 H3 [H4 H5]] ? ? ? ? ? ? ?]. constructor; try done. constructor; try done. split; [lia|done].
Qed.

Lemma console_inv_event n e c :
  console_event_ok e -> n + 1 < 2 ^ 32 -> console_inv n c -> console_inv (n + 1) (event e c).
Proof.
  intros He Hn H.
  destruct e; cbn [console_event_ok] in He;
    try (apply console_inv_bsd; [done..|exact H]); apply (console_inv_mono n (n + 1)); try lia.
  - apply console_inv_sys; [done|intros; by apply ReloadServers_inv|]. intros s.
    destruct (ReloadServers_frame file s) as [-> ->]. by right.
  - apply console_inv_sys; [done|intros; by apply SelectServer_inv|]. intros s.
    destruct (SelectServer_frame index s) as [-> ->]. by right.
  - by apply console_inv_start.
  - apply console_inv_sys; [done|intros; by apply Stop_inv|]. intros s. right. apply Stop_frame.
  - unfold event, console_event. destruct (m_thread_running _) eqn:E; [|done]. by apply console_inv_round.
  - by apply console_inv_initialize.
  - apply console_inv_ldn; [done|]. intros r [] s' o E.
    assert (call_ok call) as Hc by (by destruct call). by eapply reach_call; [apply (ci_ldn n c H)|exact Hc|].
  - apply console_inv_ldn; [done|]. intros r a s' o E. by eapply reach_scan; [apply (ci_ldn n c H)|exact He|].
  - destruct He as [He1 He2]. apply console_inv_ldn; [done|]. intros r a s' o E.
    by eapply reach_connect; [apply (ci_ldn n c H)|exact He1|exact He2|].
Qed.

Lemma tun_Init_spec t ip :
  tun_inv t -> let '(t', v) := tun_Init t ip in
  tun_inv t' /\ is_u32 v /\ g_local_ip t' = v /\ g_ip_id t' = g_ip_id t.
Proof.
  intros Ht. unfold tun_Init. cbv zeta. split; [done|]. split; [|done].
  destruct (ParseIp ip =? 0); [done|apply ParseIp_u32].
Qed.

Lemma console_inv_Main servers vid e1 e2 o : console_inv 0 (Main servers vid e1 e2 o).
Proof.
  unfold Main, Console.Main, Main_wired. set (x0 := Shared_init _). cbv zeta.
  assert (sys_inv (ReloadServers servers (sys_of x0)).1) as Hs by (apply ReloadServers_inv, Runtime_init_inv).
  destruct (ReloadServers_frame servers (sys_of x0)) as [Ew Et].
  set (s1 := (ReloadServers servers (sys_of x0)).1) in *.
  destruct (GetVirtualIp e1 _ 16) as [txt v1].
  pose proof (tun_Init_spec (w_tun (g_world (of_sys s1))) txt (inv_tun _ Hs)) as Hi.
  destruct (tun_Init _ txt) as [t v]. destruct Hi as (Hi1 & Hi2 & Hi3 & Hi4).
  set (x2 := set_manager _ _).
  assert (shell none_left x0 v x2) as S2.
  { unfold x2, of_sys. cbv zeta. rewrite !Ew.
    constructor; mitm_cbn; try done; [apply mgr_inv_init|apply reach_init]. }
  assert (rt_inv (g_world x2)) as R2.
  { destruct Hs as [A B C]. split; [by constructor|]. cbn. rewrite Hi4. cbn. rewrite Et. done. }
  destruct (ldn_initialize_ok x0 v e2 x2 S2 R2) as (S3 & R3 & T3).
  apply (console_inv_intro 0 (mkServer x0 [])); [apply srv_inv_init|apply NetMap_start| |exact R3].
  eapply shell_ip; [exact S3|]. rewrite T3. exact Hi3.
Qed.

Lemma console_inv_run evs : forall n c,
  Forall console_event_ok evs -> n + Z.of_nat (length evs) < 2 ^ 32 -> console_inv n c ->
  console_inv (n + Z.of_nat (length evs)) (foldl step c evs).
Proof.
  induction evs as [|e evs IH]; intros n c He Hn H; cbn [foldl length] in *; [by rewrite Z.add_0_r|].
  apply Forall_cons_1 in He as [He Hevs]. replace (n + _) with (n + 1 + Z.of_nat (length evs)) by lia.
  apply IH; [done|lia|]. unfold step, console_step. case_decide.
  - apply console_inv_event; [done|lia|done].
  - apply (console_inv_mono n); [lia|done].
Qed.

(** The console as a whole.  From boot, over every history of fewer than
    2^32 events (games opening sessions and calling commands, ldn:u calls, the
    overlay's reload, selection, start and stop, rounds of the receive loop on
    any datagram), every part keeps its own invariant together with the others:
    the sockets of the bsd:u service and their owners, the runtime and its
    tunnel, the control plane (whose state is one its own calls can reach); the
    manager and the tunnel have one address, the manager's sends go to the
    tunnel, and no datagram or frame is left behind. *)
Theorem console_invariant servers vid e1 e2 o evs :
  Forall console_event_ok evs -> Z.of_nat (length evs) < 2 ^ 32 ->
  let c := foldl step (Main servers vid e1 e2 o) evs in
  srv_inv (Z.of_nat (length evs)) (co_server c) /\
  sys_inv (sys_of (co_shared c)) /\
  reachable (w_ldn (co_world c)) /\
  m_local_ip (g_manager (co_shared c)) = g_local_ip (w_tun (co_world c)) /\
  m_send_callback (g_manager (co_shared c)) = Some tun_Send_callback /\
  w_loop (co_world c) = [] /\ w_frames (co_world c) = [].
Proof.
  intros He Hn c. pose proof (console_inv_run evs 0 _ He Hn (console_inv_Main servers vid e1 e2 o)) as H.
  fold c in H. destruct H as [H1 [H2 _] H3 H4 _ _ H7 H8]. unfold wiring, main_wiring in H4.
  injection H4 as H4 H5 _ _ _. split_and!; try done. by eapply sys_inv_world.
Qed.
End invariant.

(** ** A console to run *)
Definition demo_out (fd ip port : Z) (b : bytes) (l : list bytes) : list bytes * Z :=
  (l ++ [b], Z.of_nat (length b)).
Definition demo_fwd (q : FwdReq) (l : list bytes) : list bytes * Reply := (l, mkReply 0 [5; 0] []).
Definition demo_step :=
  console_step demo_out demo_fwd (fun _ => None) (fun _ => LdnSession.demo_nifm) (fun _ l => l)
    (fun pid => pid =? 80).
