(* ===== verification/ConsoleTraffic.v ===== *)
(** What crosses the console (Console.v): its addresses, a datagram from the game
    of one console to the game of another through both services, both tunnels
    and the receive loop, a TCP connect, and a frame that stops the console. *)
From S2P Require Import Prelude Bytes CText Servers Rle IpAddr PortPool Ring ProxySocket.
From S2P Require Import SocketManager BsdMitm BsdSessions BsdCommands BsdWorld SlpClient Sha1.
From S2P Require Import Tunnel Runtime LdnTypes LdnControl LdnSession LdnJoin Console ConsoleProps.

(** ** Addresses *)
Section identity.
Context {O : Type} {RO : RegistryOrder} {IO : InfoOrder}.
Variable sendto : Z -> Z -> Z -> bytes -> O -> O * Z.
Variable fwd : FwdReq -> O -> O * Reply.
Variable nifm_ip : O -> option (Z * Z).
Variable nifm_env : O -> NifmEnv.
Variable nifm_call : NifmCall -> O -> O.
Variable IsApplicationId : Z -> bool.
Let event := console_event sendto fwd nifm_ip nifm_env nifm_call IsApplicationId.
Implicit Types c : Console (O := O).

(** The text [GetVirtualIp] gives is the address of the control plane. *)
Lemma initialize_address n c e :
  console_inv n c ->
  let ip := ParseIp (GetVirtualIp e (w_vid (co_world c)) 16).1 in
  let c' := event (CoInitialize e) c in
  m_ipv4_address (w_ldn (co_world c')) = (if ip =? 0 then 0x0A0D2502 else ip) /\
  g_local_ip (w_tun (co_world c')) = g_local_ip (w_tun (co_world c)) /\
  g_manager (co_shared c') = g_manager (co_shared c).
Proof.
  intros H. cbv zeta. unfold event, console_event, set_shared, ldn_initialize, ldn_initialized, co_world, co_shared. cbn [co_server sv_shared].
  fold (co_shared c). fold (co_world c). destruct (GetVirtualIp _ _ _) as [txt vid]. mitm_cbn. cbn [fst].
  set (nf := nifm_env _). set (w0 := set_wvid _ vid).
  destruct (Initialize_address txt nf (w_ldn w0)) as (l & outs & E & Ha).
  unfold run_ldn. rewrite E. cbn [fst].
  destruct (ldn_outs_sent sendto nifm_call outs (set_wldn w0 l)) as [Hs _].
  split; [by rewrite (sent_ldn _ _ Hs)|]. by destruct (sent_tun _ _ Hs) as (-> & _).
Qed.

Lemma start_stopped c e tick :
  Runtime.m_state (w_rt (co_world c)) = SLPCFG_STATE_STOPPED ->
  running (co_world (event (CoStart e tick) c)) = true ->
  let vid := w_vid (co_world c) in
  let '(txt, vid1) := GetVirtualIp (se_vip e) vid 16 in
  let '(txt2, vid2) := GetVirtualIp (se_vip_tun e) vid1 16 in
  let c' := event (CoStart e tick) c in
  w_vid (co_world c') = vid2 /\
  w_tun (co_world c') = (RefreshLocalIp (w_tun (co_world c)) txt2).1.
Proof.
  intros Hst. cbv zeta. unfold event, console_event, running. set (s := sys_of (co_shared c)).
  rewrite Start_eq. change (Runtime.m_state (s_rt s)) with (Runtime.m_state (w_rt (co_world c))). rewrite Hst.
  change (SLPCFG_STATE_STOPPED =? SLPCFG_STATE_RUNNING) with false. cbn [negb].
  assert ((Runtime.m_state (w_rt (co_world c)) =? SLPCFG_STATE_RUNNING) = true -> False) as Hno by (by rewrite Hst).
  destruct (selected s) as [srv|]; [|intros []%Hno].
  destruct (opens e srv) as [ip|]; [|intros []%Hno].
  unfold Start_opened. cbn [s_world set_rt s_rt s_vid s_tun s_servers m_client set_client].
  destruct (slpClientSendPing _ _ _ _) as [x b].
  destruct (GetVirtualIp (se_vip e) _ _) as [txt vid1]. unfold Start_refresh. cbn [s_vid s_tun s_rt s_servers s_world].
  destruct (GetVirtualIp (se_vip_tun e) _ _) as [txt2 vid2].
  change (w_tun (co_world c)) with (s_tun s). destruct (RefreshLocalIp (s_tun s) txt2) as [t fresh].
  destruct (negb (se_thread e)); [intros []%Hno|]. intros _. by split.
Qed.

(** C29: One identity.  Once an address is stored, starting the runtime and
    initialising ldn:u give it to every part: the tunnel, the sockets and the
    control plane all use 10.13.a.b. *)
Theorem one_identity n c e tick e' a b :
  console_inv n c -> Runtime.m_state (w_rt (co_world c)) = SLPCFG_STATE_STOPPED ->
  ReadPersistedVirtualOctets (w_vid (co_world c)) = Some (a, b) ->
  let c1 := event (CoStart e tick) c in
  running (co_world c1) = true ->
  let c2 := event (CoInitialize e') c1 in
  g_local_ip (w_tun (co_world c2)) = virtual_ip a b /\
  m_local_ip (g_manager (co_shared c2)) = virtual_ip a b /\
  m_ipv4_address (w_ldn (co_world c2)) = virtual_ip a b.
Proof.
  intros H Hst Hf c1 Hrun c2.
  pose proof (ReadPersisted_ok _ _ _ Hf) as (Ha & Hb & Hres).
  assert (forall ve, GetVirtualIp ve (w_vid (co_world c)) 16 = (virtual_text 16 a b, w_vid (co_world c))) as Hget
    by (intros ve; unfold GetVirtualIp; by rewrite Hf).
  pose proof (start_stopped c e tick Hst Hrun) as Hs. cbv zeta in Hs. rewrite !Hget in Hs. fold c1 in Hs.
  destruct Hs as [Hv Ht].
  assert (console_inv n c1) as H1 by (by apply console_inv_start).
  destruct (initialize_address n c1 e' H1) as (L1 & L2 & L3). fold c2 in L1, L2, L3.
  rewrite Hv, Hget in L1. cbn [fst] in L1. rewrite ParseIp_virtual in L1 by done.
  assert (virtual_ip a b <> 0) as Hnz by (unfold virtual_ip, is_u8 in *; lia).
  assert (g_local_ip (w_tun (co_world c1)) = virtual_ip a b) as E1.
  { rewrite Ht. unfold RefreshLocalIp. rewrite ParseIp_virtual by done.
    destruct (virtual_ip a b =? 0) eqn:E0; [lia|]. cbn [orb].
    destruct (virtual_ip a b =? g_local_ip (w_tun (co_world c))) eqn:E; [|done]. cbn [fst]. lia. }
  split; [by rewrite L2|]. split.
  - rewrite L3. pose proof (ci_wiring n c1 H1) as Hw. unfold wiring, main_wiring in Hw.
    injection Hw as Hw _ _ _ _. by rewrite Hw.
  - rewrite L1. destruct (virtual_ip a b =? 0) eqn:E0; [lia|done].
Qed.

(** C30: Two identities.  If no address is stored and the network is not up when
    the runtime is started, but is when a game initialises ldn:u, the control
    plane uses the address it then draws and the tunnel stays on the fallback
    10.13.37.2: [RefreshLocalIp] is called by [Start] only.  The manager has the
    tunnel's. *)
Theorem two_identities n c e tick e' :
  console_inv n c -> Runtime.m_state (w_rt (co_world c)) = SLPCFG_STATE_STOPPED ->
  ReadPersistedVirtualOctets (w_vid (co_world c)) = None ->
  g_local_ip (w_tun (co_world c)) = 0x0A0D2502 ->
  ve_nifm (se_vip e) = false -> ve_nifm (se_vip_tun e) = false -> ve_nifm e' = true ->
  Forall (fun p => is_u8 p.1 /\ is_u8 p.2) (ve_rnd e') ->
  let c1 := event (CoStart e tick) c in
  running (co_world c1) = true ->
  let c2 := event (CoInitialize e') c1 in
  g_local_ip (w_tun (co_world c2)) = 0x0A0D2502 /\
  m_local_ip (g_manager (co_shared c2)) = 0x0A0D2502 /\
  exists a b, octets_ok a b /\ m_ipv4_address (w_ldn (co_world c2)) = virtual_ip a b /\
    virtual_ip a b <> 0x0A0D2502.
Proof.
  intros H Hst Hf Hip N1 N2 N3 Hr c1 Hrun c2.
  assert (forall ve, ve_nifm ve = false ->
    GetVirtualIp ve (w_vid (co_world c)) 16 = (DefaultVirtualIp, w_vid (co_world c))) as Hget
    by (intros ve Hve; unfold GetVirtualIp; by rewrite Hf, Hve).
  pose proof (start_stopped c e tick Hst Hrun) as Hs. cbv zeta in Hs. rewrite (Hget _ N1), (Hget _ N2) in Hs.
  fold c1 in Hs. destruct Hs as [Hv Ht].
  assert (g_local_ip (w_tun (co_world c1)) = 0x0A0D2502) as E1.
  { rewrite Ht. unfold RefreshLocalIp. change (ParseIp DefaultVirtualIp) with 0x0A0D2502. rewrite Hip. exact Hip. }
  assert (console_inv n c1) as H1 by (by apply console_inv_start).
  destruct (initialize_address n c1 e' H1) as (L1 & L2 & L3). fold c2 in L1, L2, L3.
  split; [by rewrite L2|]. split.
  - rewrite L3. pose proof (ci_wiring n c1 H1) as Hw. unfold wiring, main_wiring in Hw.
    injection Hw as Hw _ _ _ _. by rewrite Hw.
  - destruct (GetVirtualIp_cases e' (w_vid (co_world c1)) Hr) as [(_ & X & _)|(a & b & Ho & E & _)]; [congruence|].
    exists a, b. pose proof Ho as (Ha & Hb & Hres). rewrite E, ParseIp_virtual in L1 by done.
    assert (a <> 37) as H37 by (intros ->; done).
    split; [done|]. split; [|unfold virtual_ip, is_u8 in *; lia].
    rewrite L1. destruct (virtual_ip a b =? 0) eqn:E0; [unfold virtual_ip, is_u8 in *; lia|done].
Qed.
End identity.

(** ** A frame from the relay *)
Section reception.
Context {O : Type} {RO : RegistryOrder} {IO : InfoOrder}.
Variable sendto : Z -> Z -> Z -> bytes -> O -> O * Z.
Variable fwd : FwdReq -> O -> O * Reply.
Variable nifm_ip : O -> option (Z * Z).
Variable nifm_env : O -> NifmEnv.
Variable nifm_call : NifmCall -> O -> O.
Variable IsApplicationId : Z -> bool.
Let event := console_event sendto fwd nifm_ip nifm_env nifm_call IsApplicationId.
Let step := console_step sendto fwd nifm_ip nifm_env nifm_call IsApplicationId.
Implicit Types (c : Console (O := O)) (x : Shared (World O)).

Lemma of_sys_of x : of_sys (sys_of x) = x.
Proof. by destruct x as [? ? ? ? ? ? ? []]. Qed.
Lemma set_gworld_id x : set_gworld x (g_world x) = x.
Proof. by destruct x. Qed.

Lemma ldn_tick_idle tick x :
  tick - m_last_beacon (w_ldn (g_world x)) < RelayBeaconIntervalTicks -> ldn_tick sendto nifm_call tick x = x.
Proof.
  intros H. unfold ldn_tick, run_ldn, LdnControl.Tick, mbind, M_bind, gets. cbn [id].
  rewrite (proj2 (Z.ltb_lt _ _) H). unfold skip, mret, M_ret. cbn [foldl fst app].
  by destruct x as [? ? ? ? ? ? ? []].
Qed.

(** A round between two keepalives and two beacons in which frame [f] comes. *)
Definition quiet_round c (i : Round) (tick : Z) (f : bytes) : Prop :=
  r_now i - co_last_keepalive c < KeepaliveIntervalMs /\
  tick - m_last_beacon (w_ldn (co_world c)) < RelayBeaconIntervalTicks /\
  r_recv i = Some f.

(** The frame types of the tunnel, in one receive buffer. *)
Definition tunnel_frame (f : bytes) : Prop :=
  (slpFrameType f = SLP_TYPE_IPV4 \/ slpFrameType f = SLP_TYPE_IPV4_FRAG) /\ (1 < length f <= 2048)%nat.

(** What [OnFrame] makes of the frame is the round. *)
Lemma round_frame i tick now c f t y :
  quiet_round c i tick f -> tunnel_frame f ->
  OnFrame (TunnelSink0 := console_sink now) (w_tun (co_world c)) (r_tick1 i) (r_tick2 i)
    (slpFrameType f) (drop 1 f) (co_shared c) = Some (t, y) ->
  exists rt, Runtime.m_state rt = Runtime.m_state (w_rt (co_world c)) /\
    m_thread_running rt = m_thread_running (w_rt (co_world c)) /\ m_client rt = m_client (w_rt (co_world c)) /\
  loop_round sendto nifm_call i tick now c =
  set_shared c (send_frames sendto nifm_call (set_gworld y
    (mkWorld rt (w_servers (co_world c)) (w_vid (co_world c)) t (w_ldn (g_world y)) (w_out (g_world y))
       (w_loop (g_world y)) (w_frames (g_world y)) (w_fault (g_world y))))).
Proof.
  intros (Hk & Hb & Hrecv) [Htype Hlen] Hf. unfold loop_round.
  rewrite keepalive_not_due by exact Hk.
  cbn [l_sys l_last_keepalive l_fails]. rewrite of_sys_of. unfold set_shared, co_shared at 1 2. cbn [co_server sv_shared sv_live].
  rewrite ldn_tick_idle by exact Hb. unfold co_shared at 1. cbn [co_server sv_shared co_last_keepalive co_fails sv_live]. 
  unfold dispatch. rewrite Hrecv. cbn [option_map].
  assert (slpClientRecv (Some (take 2048 f)) = Some (f, slpFrameType f)) as ->.
  { rewrite take_ge by lia. unfold slpClientRecv. destruct f; [cbn in Hlen; lia|done]. }
  assert ((slpFrameType f =? SLP_TYPE_PING) = false /\ (slpFrameType f =? SLP_TYPE_AUTH_ME) = false) as [-> ->]
    by (by destruct Htype as [-> | ->]).
  rewrite (proj2 (Nat.ltb_lt _ _)) by lia.
  set (s := sys_of (sv_shared (co_server c))).
  change (s_tun (count_rx s)) with (w_tun (co_world c)). change (s_world (count_rx s)) with (co_shared c).
  rewrite Hf. cbn [mbind option_bind]. exists (s_rt (count_rx s)). split_and!; reflexivity.
Qed.

(** The rounds that bring the frames of a datagram. *)
Definition round_brings c (r : Round * Z * Z) (p : Z * Z * bytes) : Prop :=
  quiet_round c r.1.1 r.1.2 p.2 /\ tunnel_frame p.2 /\ (r_tick1 r.1.1, r_tick2 r.1.1) = p.1.
Definition co_round (r : Round * Z * Z) : ConsoleEvent := CoRound r.1.1 r.1.2 r.2.

(** A console the receive loop of which runs with nothing to send. *)
Definition listening c : Prop :=
  w_fault (co_world c) = None /\ m_thread_running (w_rt (co_world c)) = true /\ w_frames (co_world c) = [].

(** The route of a game's datagram into a console that takes it. *)
Lemma route_known x a d :
  (if IsLanModePort (pa_dest_port a) then Some true
   else IsKnownSessionPeer (w_ldn (g_world x)) (pa_source_ip a)) = Some true ->
  route x (a, d) =
  set_manager x (RouteIncomingData (fun _ => true) (g_netmap x) (g_manager x) a (Some d) (length d)).1.
Proof. intros H. unfold route. by rewrite H. Qed.

Lemma step_round c r :
  listening c -> step c (co_round r) = loop_round sendto nifm_call r.1.1 r.1.2 r.2 c.
Proof. intros (H1 & H2 & _). unfold step, console_step. rewrite decide_True by done. cbn [co_round console_event]. by rewrite H2. Qed.

Lemma round_keeps c c' r p :
  co_last_keepalive c' = co_last_keepalive c -> w_ldn (co_world c') = w_ldn (co_world c) ->
  round_brings c r p -> round_brings c' r p.
Proof. unfold round_brings, quiet_round. intros -> ->. done. Qed.

Lemma delivery_rounds t l u t' :
  delivery t l u t' -> forall c rs,
  w_tun (co_world c) = t -> listening c -> Forall2 (round_brings c) rs l ->
  let a := mkArgs (ui_src u) (ui_sport u) (ui_dst u) (ui_dport u) ProtocolType_Udp in
  ui_dport u <> ControlPort ->
  (if IsLanModePort (ui_dport u) then Some true else IsKnownSessionPeer (w_ldn (co_world c)) (ui_src u)) = Some true ->
  let c' := foldl step c (co_round <$> rs) in
  sv_live (co_server c') = sv_live (co_server c) /\ w_fault (co_world c') = None /\
  exists w, co_shared c' = set_manager (set_gworld (co_shared c) w)
    (RouteIncomingData (fun _ => true) (g_netmap (co_shared c)) (g_manager (co_shared c)) a
       (Some (ui_data u)) (length (ui_data u))).1.
Proof.
  induction 1 as [t n1 n2 f u t' Hf|t n1 n2 f t1 l u t' Hf Hd IH]; intros c rs Ht Hl Hrs a Hport Hk c'.
  - apply Forall2_cons_inv_r in Hrs as (r & rs' & (Hq & Htf & Htick) & Hnil & ->). apply Forall2_nil_inv_r in Hnil as ->.
    cbn [fst snd] in Hq, Htf, Htick. injection Htick as <- <-. pose proof Hl as (Hl1 & Hl2 & Hl3).
    specialize (Hf _ (console_sink r.2) (co_shared c)). rewrite <- Ht in Hf. unfold deliver_udp in Hf.
    rewrite (proj2 (Z.eqb_neq _ _) Hport) in Hf. cbn [RouteIncoming console_sink fst] in Hf. fold a in Hf.
    rewrite route_known in Hf by exact Hk.
    destruct (round_frame _ _ _ _ _ _ _ Hq Htf Hf) as (rt & _ & _ & _ & Hx).
    unfold c'. cbn [fmap list_fmap foldl]. rewrite step_round, Hx by done. split; [done|].
    unfold co_world, set_shared, co_shared at 1 2. cbn [co_server sv_shared]. unfold send_frames. mitm_cbn. unfold co_world in Hl3, Hl1. rewrite Hl3. cbn [foldl]. w_cbn.
    split; [exact Hl1|]. eexists. unfold set_manager, set_gworld. mitm_cbn. reflexivity.
  - apply Forall2_cons_inv_r in Hrs as (r & rs' & (Hq & Htf & Htick) & Hrs & ->).
    cbn [fst snd] in Hq, Htf, Htick. injection Htick as <- <-. pose proof Hl as (Hl1 & Hl2 & Hl3).
    specialize (Hf _ (console_sink r.2) (co_shared c)). rewrite <- Ht in Hf.
    destruct (round_frame _ _ _ _ _ _ _ Hq Htf Hf) as (rt & _ & Hth & _ & Hx).
    unfold c'. cbn [fmap list_fmap foldl]. rewrite step_round, Hx by done.
    unfold send_frames. mitm_cbn. change (w_frames (g_world (co_shared c))) with (w_frames (co_world c)).
    rewrite Hl3. cbn [foldl]. w_cbn. set (c1 := set_shared c _).
    destruct (IH c1 rs') as (I1 & I2 & w & I3); [done|split_and!; [exact Hl1|by etransitivity; [exact Hth|]|done]| |exact Hport|exact Hk|].
    + eapply Forall2_impl; [|exact Hrs]. intros r' p. by apply round_keeps.
    + split; [by rewrite I1|]. split; [exact I2|]. exists w. rewrite I3. reflexivity.
Qed.

(** ** A frame that stops the console *)
(** A frame turned back while the lock is held. *)
Lemma ldn_out_deadlock n c w dst buf :
  console_inv n c -> running (co_world c) = true -> m_client (w_rt w) = m_client (w_rt (co_world c)) ->
  running w = true -> (length buf <= 2000)%nat -> Z.land dst 0xFF000000 = 0x7F000000 ->
  w_fault (ldn_out sendto nifm_call w (OFrame dst buf)) = Some Deadlock.
Proof.
  intros H Hrun Hc Hr Hlen Hd. cbn [ldn_out]. unfold tunnel_send.
  assert (0 <= c_fd (m_client (w_rt w))) as Hfd.
  { rewrite Hc. destruct (ci_rt n c H) as [[_ _ Hst] _]. unfold running in Hrun. apply Z.eqb_eq in Hrun.
    destruct Hst as [(_ & _ & Hfd & _)|(Hst & _)]; [exact Hfd|]. cbn in Hst. by rewrite Hst in Hrun. }
  change (running (set_wloop w [])) with (running w). rewrite Hr. unfold tun_Send.
  rewrite bool_decide_false by done. cbn [andb negb]. rewrite (proj2 (Nat.ltb_ge _ _)) by done.
  cbn [w_rt set_wloop]. rewrite (proj2 (Z.ltb_ge _ _)) by done. cbn [pa_dest_ip]. rewrite Hd. reflexivity.
Qed.

(** C9: A spoofed scan stops the console.  While it hosts, a Scan whose source is
    in 127.0.0.0/8 makes [HandleScan] answer to that address under the LDN lock;
    [tun::Send] turns the answer back to the sockets, and the question whether
    its source is a peer asks for the same lock again, which is not recursive. *)
Theorem spoofed_scan_deadlocks n c i tick now src dst id seq :
  console_inv n c -> listening c -> running (co_world c) = true ->
  LdnControl.m_state (w_ldn (co_world c)) = CS_AccessPointCreated ->
  is_u32 src -> Z.land src 0xFF000000 = 0x7F000000 -> is_u32 dst -> is_u16 seq ->
  quiet_round c i tick
    (SLP_TYPE_IPV4 :: udp_packet src ControlPort dst ControlPort id (control_frame LanPacket_Scan seq [])) ->
  w_fault (co_world (step c (co_round (i, tick, now)))) = Some Deadlock.
Proof.
  intros H Hl Hrun Hhost Hsrc Hlo Hdst Hseq Hq. rewrite step_round by done. cbn [fst snd].
  set (scan := control_frame LanPacket_Scan seq []) in *. set (pkt := udp_packet _ _ _ _ _ _) in *.
  assert (parse_udp pkt = Some (Some (mkUdpIn src ControlPort dst ControlPort scan))) as Hparse
    by (apply parse_udp_packet; [exact Hsrc|exact Hdst|done|done|]; change (length scan) with 12%nat; lia).
  pose proof Hl as (Hl1 & Hl2 & Hl3).
  destruct (scan_step (w_ldn (co_world c)) now src seq Hseq Hhost) as [Hscan _].
  set (l1 := set_m_tx_seq _ _) in Hscan. set (buf := control_frame LanPacket_ScanResp _ _) in Hscan.
  assert (length buf <= 2000)%nat as Hbuf
    by (apply network_frame_length; [done|apply next_seq_ok|];
        apply BuildNetwork_wf, (reachable_inv _ (ci_ldn n c H))).
  assert (OnFrame (TunnelSink0 := console_sink now) (w_tun (co_world c)) (r_tick1 i) (r_tick2 i)
    (slpFrameType (SLP_TYPE_IPV4 :: pkt)) (drop 1 (SLP_TYPE_IPV4 :: pkt)) (co_shared c) =
    Some (w_tun (co_world c), set_gworld (co_shared c) (set_wframes (set_wldn (co_world c) l1)
      (w_frames (co_world c) ++ [OFrame src buf])))) as Hf.
  { unfold OnFrame. change (slpFrameType (SLP_TYPE_IPV4 :: pkt)) with SLP_TYPE_IPV4. rewrite Z.eqb_refl.
    change (drop 1 (SLP_TYPE_IPV4 :: pkt)) with pkt. unfold ProcessIpv4. rewrite Hparse. cbn [mbind option_bind].
    unfold deliver_udp. cbn [ui_dport ui_src ui_data]. rewrite Z.eqb_refl. cbn [Tunnel.OnControlFrame console_sink].
    fold (co_world c). rewrite Hrun. unfold scan. by rewrite Hscan. }
  destruct (round_frame _ _ _ _ _ _ _ Hq ltac:(split; [by left|cbn [length]; change (length pkt) with 40%nat; lia]) Hf)
    as (rt & Hst & _ & Hcl & ->).
  unfold co_world, co_shared, set_shared, send_frames. cbn [co_server sv_shared]. mitm_cbn. w_cbn.
  unfold co_world, co_shared in Hl3. rewrite Hl3. cbn [app foldl]. eapply (ldn_out_deadlock n c); [done|done|exact Hcl| |exact Hbuf|exact Hlo].
  unfold running in *. w_cbn. by rewrite Hst.
Qed.
End reception.

(** ** From one console's game to the other's *)
Lemma lan_not_loopback addr dest :
  lan_addr addr = Some dest -> Z.land (SockAddrIn_GetAddr dest) 0xFF000000 <> 0x7F000000.
Proof.
  unfold lan_addr. intros H. apply bind_Some in H as (sa & _ & H).
  destruct (_ =? AddressFamily_Inet); [|done]. cbn [andb] in H.
  destruct (SockAddrIn_IsLanAddress sa) eqn:E; [|done]. injection H as ->.
  unfold SockAddrIn_IsLanAddress, IsLanAddress in E. apply Z.eqb_eq in E. unfold SockAddrIn_GetAddr.
  intros Hl. apply (f_equal (fun z => Z.land z 0xFF000000)) in E. revert E.
  rewrite <- Z.land_assoc. change (Z.land LAN_NETWORK_MASK 0xFF000000) with 0xFF000000. rewrite Hl. done.
Qed.

Section sending.
Context {O : Type} {RO : RegistryOrder} {IO : InfoOrder}.
Variable sendto : Z -> Z -> Z -> bytes -> O -> O * Z.
Variable fwd : FwdReq -> O -> O * Reply.
Variable nifm_ip : O -> option (Z * Z).
Variable nifm_env : O -> NifmEnv.
Variable nifm_call : NifmCall -> O -> O.
Variable IsApplicationId : Z -> bool.
(** The outside once the given datagrams have been sent to the relay. *)
Variable log : list bytes -> O.
Hypothesis sendto_log : forall fd ip port b l,
  sendto fd ip port b (log l) = (log (l ++ [b]), Z.of_nat (length b)).
Let step := console_step sendto fwd nifm_ip nifm_env nifm_call IsApplicationId.
Let run := run_cmd (bsd_fwd fwd) (bsd_data sendto) bsd_ctl (bsd_nifm nifm_ip)
             (bsd_enter sendto nifm_env nifm_call).
Implicit Types c : Console (O := O).

(** A game's proxied UDP socket and the service it is used through. *)
Record game_socket c (i : nat) (v : BsdMitmService) (fd : Z) (s : ProxySocket) : Prop := {
  gs_live : sv_live (co_server c) !! i = Some v;
  gs_marked : is_proxy_fd (co_shared c) fd = true;
  gs_found : m_sockets (g_manager (co_shared c)) !! fd = Some s;
  gs_udp : m_protocol s = ProtocolType_Udp;
}.

(** The source of what the socket sends. *)
Definition source_ip c (s : ProxySocket) : Z :=
  let ip := SockAddrIn_GetAddr (m_local_addr s) in
  if ip =? 0 then g_local_ip (w_tun (co_world c)) else ip.

(** The frames of a datagram. *)
Definition datagram_frames c (s : ProxySocket) (dest : SockAddrIn) (d : bytes) : list bytes :=
  let t := w_tun (co_world c) in
  udp_frames (source_ip c s) (SockAddrIn_GetAddr dest) (g_ip_id t)
    (udp_packet (source_ip c s) (SockAddrIn_GetPort (m_local_addr s)) (SockAddrIn_GetAddr dest)
       (SockAddrIn_GetPort dest) (g_ip_id t) d).

Lemma route_loop_idle (x : Shared (World O)) : w_loop (g_world x) = [] -> route_loop x = x.
Proof.
  intros H. unfold route_loop. rewrite H. cbn [foldl]. destruct x as [? ? ? ? ? ? ? []]. cbn in H. by rewrite <- H.
Qed.

(** What a send needs of the runtime and the tunnel. *)
Record can_send (w : World O) : Prop := {
  cs_running : running w = true;
  cs_fd : 0 <= c_fd (m_client (w_rt w));
  cs_id : is_u16 (g_ip_id (w_tun w));
  cs_ip : is_u32 (g_local_ip (w_tun w));
}.
Lemma console_can_send n c : console_inv n c -> running (co_world c) = true -> can_send (co_world c).
Proof.
  intros H Hrun. destruct (ci_rt n c H) as [[_ _ Hst] Hid]. constructor; [done| |done|apply (ci_ip n c H)].
  unfold running in Hrun. apply Z.eqb_eq in Hrun.
  destruct Hst as [(_ & _ & Hfd & _)|(Hst & _)]; [exact Hfd|]. cbn in Hst. by rewrite Hst in Hrun.
Qed.

(** The world after datagrams: the identification [id] of the next one. *)
Definition sent_world (w : World O) (id : Z) (o : O) : World O :=
  set_wout (set_wtun w (mkTun (g_local_ip (w_tun w)) id (g_frags (w_tun w)))) o.

Lemma tunnel_send_logged w a d l :
  can_send w -> w_out w = log l -> is_u32 (pa_source_ip a) -> is_u32 (pa_dest_ip a) ->
  Z.land (pa_dest_ip a) 0xFF000000 <> 0x7F000000 -> (length d <= 2000)%nat ->
  let t := w_tun w in
  let src := if pa_source_ip a =? 0 then g_local_ip t else pa_source_ip a in
  tunnel_send sendto a d w =
  (sent_world w (u16 (g_ip_id t + 1)) (log (l ++ udp_frames src (pa_dest_ip a) (g_ip_id t)
      (udp_packet src (pa_source_port a) (pa_dest_ip a) (pa_dest_port a) (g_ip_id t) d))), true).
Proof.
  intros [Hrun Hfd Hid Hip] Ho Hs Hd Hlo Hlen t src. unfold tunnel_send. rewrite Hrun.
  assert (is_u32 src) as Hsrc by (unfold src; by case_match).
  replace (w_out w, w_loop w) with ((fun k => (log (l ++ k), w_loop w)) []) by (by rewrite app_nil_r, Ho).
  rewrite (@tun_Send_view (list bytes) _ deaf_sink turned_back (fun k => (log (l ++ k), w_loop w)) record_sendto);
    [|intros; unfold out_sendto; cbn [fst snd]; rewrite sendto_log, <- app_assoc; reflexivity|done].
  rewrite (Send_frames deaf_sink) by done. cbn [mbind option_bind].
  unfold sent_world. destruct w. reflexivity.
Qed.

Lemma game_sends n c i v fd s flags d addr dest :
  console_inv n c -> w_fault (co_world c) = None -> running (co_world c) = true ->
  w_out (co_world c) = log [] -> game_socket c i v fd s -> lan_addr addr = Some dest ->
  sendable s (Some d) (length d) = true -> (length d <= 2000)%nat ->
  let cmd := CSendTo fd flags (Some d) addr in
  (run cmd v (co_shared c)).2 = ok [Z.of_nat (length d); 0] [] /\
  w_out (co_world (step c (CoCmd i cmd))) = log (datagram_frames c s dest d).
Proof.
  intros H Hf Hr Ho [G1 G2 G3 G4] Hdest Hcan Hlen cmd.
  set (a := mkArgs (SockAddrIn_GetAddr (m_local_addr s)) (SockAddrIn_GetPort (m_local_addr s))
              (SockAddrIn_GetAddr dest) (SockAddrIn_GetPort dest) ProtocolType_Udp).
  pose proof (tunnel_send_logged (co_world c) a d [] (console_can_send n c H Hr) Ho (bswap32_range _)
                (bswap32_range _) (lan_not_loopback _ _ Hdest) Hlen) as Hsend. cbv zeta in Hsend.
  pose proof (ci_wiring n c H) as Hw. unfold wiring, main_wiring in Hw. injection Hw as _ Hw _ _ _.
  assert (run cmd v (co_shared c) = (count_command v,
    set_gworld (co_shared c) (tunnel_send sendto a d (co_world c)).1, ok [Z.of_nat (length d); 0] [])) as Hcmd.
  { unfold run, cmd. cbn [run_cmd].
    pose proof (SendTo_proxied (bsd_fwd fwd) (bsd_data sendto) fd flags d addr dest v (co_shared c) s
      tun_Send_callback G2 G3 (ci_netmap n c H) Hdest Hcan Hw) as Hp. cbv zeta in Hp. rewrite G4 in Hp. fold a in Hp.
    change (bsd_data sendto tun_Send_callback a d (g_world (co_shared c)))
      with (tunnel_send sendto a d (co_world c)) in Hp. apply Hp. by rewrite Hsend. }
  split; [by rewrite Hcmd|]. unfold step, console_step. rewrite decide_True by done.
  cbn [console_event]. unfold on_bsd. cbn [server_step]. rewrite G1.
  change (sv_shared (co_server c)) with (co_shared c). fold run. rewrite Hcmd, Hsend. cbn [fst].
  unfold co_world, co_shared at 1. cbn [co_server sv_shared]. rewrite route_loop_idle; [reflexivity|].
  exact (ci_loop n c H).
Qed.
End sending.

Lemma Forall2_and_r {A B} (P : B -> Prop) (R : A -> B -> Prop) l k :
  Forall2 R l k -> Forall P k -> Forall2 (fun x y => R x y /\ P y) l k.
Proof. induction 1; intros Hk; constructor; inversion Hk; subst; auto. Qed.
Lemma Forall_zip_r {A B} (P : B -> Prop) (l : list A) (k : list B) :
  Forall P k -> Forall (fun p => P p.2) (zip l k).
Proof. intros H. revert l. induction H; intros [|a l']; cbn; auto. Qed.

Section arrival.
Context {OA OB : Type} {RO : RegistryOrder} {IO : InfoOrder}.
Variable sendtoA : Z -> Z -> Z -> bytes -> OA -> OA * Z.
Variable sendtoB : Z -> Z -> Z -> bytes -> OB -> OB * Z.
Variable fwdA : FwdReq -> OA -> OA * Reply.
Variable fwdB : FwdReq -> OB -> OB * Reply.
Variable nifm_ipA : OA -> option (Z * Z).
Variable nifm_ipB : OB -> option (Z * Z).
Variable nifm_envA : OA -> NifmEnv.
Variable nifm_envB : OB -> NifmEnv.
Variable nifm_callA : NifmCall -> OA -> OA.
Variable nifm_callB : NifmCall -> OB -> OB.
Variable IsApplicationId : Z -> bool.
Variable log : list bytes -> OA.
Hypothesis sendto_log : forall fd ip port b l,
  sendtoA fd ip port b (log l) = (log (l ++ [b]), Z.of_nat (length b)).
Let stepA := console_step sendtoA fwdA nifm_ipA nifm_envA nifm_callA IsApplicationId.
Let stepB := console_step sendtoB fwdB nifm_ipB nifm_envB nifm_callB IsApplicationId.
Let runA := run_cmd (bsd_fwd fwdA) (bsd_data sendtoA) bsd_ctl (bsd_nifm nifm_ipA)
              (bsd_enter sendtoA nifm_envA nifm_callA).
Let runB := run_cmd (bsd_fwd fwdB) (bsd_data sendtoB) bsd_ctl (bsd_nifm nifm_ipB)
              (bsd_enter sendtoB nifm_envB nifm_callB).

(** C1: Game to game, through everything.  A game on console A sends up to 2000
    bytes on its proxied UDP socket to a LAN address; the relay passes the frames
    on, in any order; console B's receive loop takes them in as many rounds,
    within the reassembly timeout.  The sender is told all bytes were sent, and
    what the game on B next receives on the socket that matches the destination
    is that datagram: its length, its bytes cut to the buffer, and the sender's
    address (the tunnel's own when its socket was bound to any). *)
Theorem console_lan_datagram nA A iA vA fdA sA flagsA d addr dest
    nB B iB vB fdB sB wait flagsB out from :
  console_inv nA A -> w_fault (co_world A) = None -> running (co_world A) = true ->
  w_out (co_world A) = log [] -> game_socket A iA vA fdA sA -> lan_addr addr = Some dest ->
  sendable sA (Some d) (length d) = true -> (length d <= 2000)%nat ->
  console_inv nB B -> listening B -> game_socket B iB vB fdB sB ->
  rx_queue sB = [] -> m_shutdown_read sB = false ->
  let src := source_ip A sA in
  let sport := SockAddrIn_GetPort (m_local_addr sA) in
  let dst := SockAddrIn_GetAddr dest in
  let dport := SockAddrIn_GetPort dest in
  dport <> ControlPort ->
  (if IsLanModePort dport then Some true else IsKnownSessionPeer (w_ldn (co_world B)) src) = Some true ->
  dest_match dst dport ProtocolType_Udp sB = true ->
  (size (matching (m_sockets (g_manager (co_shared B))) dst dport ProtocolType_Udp) <= 8)%nat ->
  let cmd := CSendTo fdA flagsA (Some d) addr in
  (runA cmd vA (co_shared A)).2 = ok [Z.of_nat (length d); 0] [] /\
  exists fs, w_out (co_world (stepA A (CoCmd iA cmd))) = log fs /\
  forall T ticks frames rs,
    frames ≡ₚ fs -> length ticks = length fs ->
    Forall (fun p => T <= p.1 <= T + FragTimeoutTicks /\ T <= p.2 <= T + FragTimeoutTicks) ticks ->
    Forall (fun e => fe_last_tick e < INT64_MAX) (g_frags (w_tun (co_world B))) ->
    no_live (g_frags (w_tun (co_world B))) T src (g_ip_id (w_tun (co_world A))) ->
    Forall2 (fun r p => quiet_round B r.1.1 r.1.2 p.2 /\ (r_tick1 r.1.1, r_tick2 r.1.1) = p.1)
      rs (zip ticks frames) ->
    let B' := foldl stepB B (co_round <$> rs) in
    (runB (CRecvFrom wait fdB flagsB (Some out) (Some from)) vB (co_shared B')).2 =
    ok [Z.of_nat (Nat.min (length out) (length d)); 0; if (16 <=? length from)%nat then 16 else 0]
       [Some (overwrite (take (length out) d) out);
        write_addr (Some from) (make_from_addr (g_netmap (co_shared B)) src sport)].
Proof.
  intros HA FA RA OA0 GA Hdest Hcan Hlen HB LB GB Hq Hsr src sport dst dport Hport Hknown Hmatch Hsz cmd.
  destruct (game_sends sendtoA fwdA nifm_ipA nifm_envA nifm_callA IsApplicationId log sendto_log
    nA A iA vA fdA sA flagsA d addr dest HA FA RA OA0 GA Hdest Hcan Hlen) as [Hreply Hout].
  split; [exact Hreply|]. exists (datagram_frames A sA dest d). split; [exact Hout|].
  intros T ticks frames rs Hperm Hlt Hticks HtB Hnl Hrs B'.
  set (aA := mkArgs (SockAddrIn_GetAddr (m_local_addr sA)) sport dst dport ProtocolType_Udp).
  pose proof (bswap32_range (sin_addr (m_local_addr sA)) : is_u32 (pa_source_ip aA)) as Hs1.
  pose proof (bswap32_range (sin_addr dest) : is_u32 (pa_dest_ip aA)) as Hd1.
  pose proof (ci_rt nA A HA) as [_ Hid]. pose proof (ci_ip nA A HA) as Hlip.
  assert (is_u32 src) as Hsrc by (unfold src, source_ip; cbv zeta; destruct (_ =? 0) in |- *; [exact Hlip|exact Hs1]).
  set (cl := mkSlpClient 0 0 0 [] false [] []).
  pose proof (Send_frames deaf_sink cl (w_tun (co_world A)) aA d Hsrc Hd1 Hid (Z.le_refl 0)
                (lan_not_loopback _ _ Hdest) Hlen) as Hsend.
  destruct (ci_rt nB B HB) as [[_ HtunB _] _].
  destruct (Send_delivery deaf_sink cl (w_tun (co_world A)) (w_tun (co_world B)) aA d _ _ T ticks frames
    Hs1 Hd1 (bswap16_range _) (bswap16_range _) Hlip Hid (Z.le_refl 0) (lan_not_loopback _ _ Hdest) Hsend
    Hperm Hlt Hticks HtunB HtB Hnl) as [tB' Hdel].
  assert (Forall2 (round_brings B) rs (zip ticks frames)) as Hrs'.
  { assert (Forall tunnel_frame frames) as Htf.
    { rewrite Hperm. apply udp_frames_ok. change (length (udp_packet _ _ _ _ _ d)) with (28 + length d)%nat. lia. }
    eapply Forall2_impl; [|exact (Forall2_and_r _ _ _ _ Hrs (Forall_zip_r tunnel_frame ticks frames Htf))]. intros r p [[H1 H2] H3]. by split_and!. }
  destruct (delivery_rounds sendtoB fwdB nifm_ipB nifm_envB nifm_callB IsApplicationId _ _ _ _ Hdel B rs
    eq_refl LB Hrs' Hport Hknown) as (_ & _ & w & Hx).
  unfold B', stepB. rewrite Hx. unfold runB. cbn [run_cmd]. destruct GB as [G1 G2 G3 G4].
  apply (RecvFrom_routed (bsd_fwd fwdB) wait (fun _ => true) fdB flagsB d out from vB (set_gworld (co_shared B) w) sB
    (mkArgs src sport dst dport ProtocolType_Udp)); try done.
  - apply (ci_netmap nB B HB).
  - eapply ps_inv_lookup; [apply (srv_manager _ _ (ci_server nB B HB))|exact G3].
Qed.
End arrival.

(** ** TCP *)
Section tcp.
Context {O : Type} {RO : RegistryOrder} {IO : InfoOrder}.
Variable sendto : Z -> Z -> Z -> bytes -> O -> O * Z.
Variable fwd : FwdReq -> O -> O * Reply.
Variable nifm_ip : O -> option (Z * Z).
Variable nifm_env : O -> NifmEnv.
Variable nifm_call : NifmCall -> O -> O.
Let run := run_cmd (bsd_fwd fwd) (bsd_data sendto) bsd_ctl (bsd_nifm nifm_ip)
             (bsd_enter sendto nifm_env nifm_call).

(** C35: TCP over the virtual network fails at once.  With the callbacks [Main]
    installs, a connect of a stream socket to a LAN address answers ENETUNREACH
    whatever the wait would see, and sends nothing.  The proxy socket it needed
    is left behind unmarked: [Close] of the descriptor keeps it and its port. *)
Theorem tcp_connect_refused wait fd addr v (x : Shared (World O)) sa i m s :
  lan_addr addr = Some sa -> g_socket_info x !! fd = Some i -> si_is_proxy i = false ->
  connect_proxy fd i (g_manager x) = (m, inr s) ->
  m_type s = SocketType_Stream -> ProxySocket.m_state s <> Closed ->
  let '(v1, x1, r1) := run (CConnect wait fd addr) v x in
  let '(v2, x2, _) := run (CClose fd) v1 x1 in
  r1 = ok [errno E_NetUnreach] [] /\ g_world x1 = g_world x /\
  g_socket_info x2 !! fd = None /\ is_Some (m_sockets (g_manager x2) !! fd) /\
  m_port_pool (g_manager x2) = m_port_pool m.
Proof.
  intros Ha Hi Hp Hc Ht Hs.
  exact (Connect_refused (bsd_fwd fwd) bsd_ctl (fun _ _ _ => eq_refl) wait fd addr v x sa i m s Ha Hi Hp Hc Ht Hs).
Qed.
End tcp.

(** ** A console to run

    Booted with a stored address 10.13.200.[d], its relay at 1.2.3.4. *)
Definition demo_vip (up : bool) : VipEnv := mkVipEnv up [(37, 4); (8, 9)] true true true.
Definition demo_boot (vid : option bytes) : Console (O := list bytes) :=
  Main demo_out (fun _ => LdnSession.demo_nifm) (fun _ l => l) Runtime.demo_config vid
    (demo_vip false) (demo_vip false) [].
Definition demo_stored (d : Z) : option bytes := Some (dec 200 ++ [46] ++ dec d ++ [10]).
Definition demo_begin : StartEnv :=
  mkStartEnv (fun _ => Some 0x01020304) 5 true (demo_vip false) (demo_vip false) true.
Definition demo_power : list ConsoleEvent := [CoSelect 0; CoStart demo_begin 0].
(** A game with a UDP socket on the browse port. *)
Definition demo_game (ip port : Z) : list ConsoleEvent :=
  [CoInitialize (demo_vip false); CoOpen 80 1000 77; CoOpen 80 1000 78; CoCmd 0 (CSocket 2 2 17);
   CoCmd 0 (CBind 5 (demo_addr ip port))].
Definition demo_hosts : list ConsoleEvent :=
  [CoInitialize (demo_vip false); CoLdn (COpenAccessPoint LdnSession.demo_nifm);
   CoLdn (CCreateNetwork LdnSession.demo_config (replicate 16 9) (replicate 16 8))].
Definition demo_playing (d : Z) : Console :=
  foldl demo_step (demo_boot (demo_stored d)) (demo_power ++ demo_game (virtual_ip 200 d) 30000).
Definition demo_host_console : Console :=
  foldl demo_step (demo_boot (demo_stored 7)) (demo_power ++ demo_hosts).

Lemma demo_playing_ok d : Forall console_event_ok (demo_power ++ demo_game (virtual_ip 200 d) 30000).
Proof. repeat constructor; cbn; try word_lia. Qed.
Lemma demo_hosts_ok : Forall console_event_ok (demo_power ++ demo_hosts).
Proof. repeat constructor; apply LdnSession.demo_config_ok. Qed.
Lemma demo_run_inv vid evs :
  Forall console_event_ok evs -> Z.of_nat (length evs) < 2 ^ 32 ->
  console_inv (Z.of_nat (length evs)) (foldl demo_step (demo_boot vid) evs).
Proof. intros H Hn. apply (console_inv_run _ _ _ _ _ _ evs 0); [done|lia|apply console_inv_Main]. Qed.
Lemma demo_playing_inv d : console_inv 7 (demo_playing d).
Proof. exact (demo_run_inv (demo_stored d) _ (demo_playing_ok d) eq_refl). Qed.
Lemma demo_host_inv : console_inv 5 demo_host_console.
Proof. exact (demo_run_inv (demo_stored 7) _ demo_hosts_ok eq_refl). Qed.

Lemma demo_playing_short :
  Z.of_nat (length (demo_power ++ demo_game (virtual_ip 200 7) 30000)) < 2 ^ 32.
Proof. done. Qed.

Lemma console_invariant_witness :
  let c := foldl demo_step (demo_boot (demo_stored 7)) (demo_power ++ demo_game (virtual_ip 200 7) 30000) in
  m_local_ip (g_manager (co_shared c)) = g_local_ip (w_tun (co_world c)) /\
  m_send_callback (g_manager (co_shared c)) = Some tun_Send_callback /\
  w_loop (co_world c) = [] /\ w_frames (co_world c) = [].
Proof.
  pose proof (console_invariant demo_out demo_fwd (fun _ => None) (fun _ => LdnSession.demo_nifm)
    (fun _ l => l) (fun pid => pid =? 80) Runtime.demo_config (demo_stored 7) (demo_vip false) (demo_vip false) []
    (demo_power ++ demo_game (virtual_ip 200 7) 30000) (demo_playing_ok 7) demo_playing_short) as H.
  cbv zeta in H. destruct H as (_ & _ & _ & H). exact H.
Defined.

Definition demo_event : ConsoleEvent -> Console -> Console :=
  console_event demo_out demo_fwd (fun _ => None) (fun _ => LdnSession.demo_nifm) (fun _ l => l)
    (fun pid => pid =? 80).
Definition demo_selected (vid : option bytes) : Console := foldl demo_step (demo_boot vid) [CoSelect 0].
Lemma demo_selected_inv vid : console_inv 1 (demo_selected vid).
Proof. exact (demo_run_inv vid [CoSelect 0] (Forall_cons_2 _ (CoSelect 0) [] I (Forall_nil_2 _)) eq_refl). Qed.

Lemma one_identity_witness :
  let c := demo_event (CoInitialize (demo_vip true)) (demo_event (CoStart demo_begin 0) (demo_selected (demo_stored 7))) in
  g_local_ip (w_tun (co_world c)) = virtual_ip 200 7 /\ m_local_ip (g_manager (co_shared c)) = virtual_ip 200 7 /\
  m_ipv4_address (w_ldn (co_world c)) = virtual_ip 200 7.
Proof.
  exact (one_identity demo_out demo_fwd (fun _ => None) (fun _ => LdnSession.demo_nifm) (fun _ l => l)
    (fun pid => pid =? 80) 1 (demo_selected (demo_stored 7)) demo_begin 0 (demo_vip true) 200 7
    (demo_selected_inv _) ltac:(vm_compute; reflexivity) ltac:(vm_compute; reflexivity)
    ltac:(vm_compute; reflexivity)).
Defined.

Lemma two_identities_witness :
  let c := demo_event (CoInitialize (demo_vip true)) (demo_event (CoStart demo_begin 0) (demo_selected None)) in
  g_local_ip (w_tun (co_world c)) = 0x0A0D2502 /\ m_local_ip (g_manager (co_shared c)) = 0x0A0D2502 /\
  exists a b, octets_ok a b /\ m_ipv4_address (w_ldn (co_world c)) = virtual_ip a b /\
    virtual_ip a b <> 0x0A0D2502.
Proof.
  assert (Forall (fun p => is_u8 p.1 /\ is_u8 p.2) (ve_rnd (demo_vip true))) as Hr by (repeat constructor; cbn; word_lia).
  exact (two_identities demo_out demo_fwd (fun _ => None) (fun _ => LdnSession.demo_nifm) (fun _ l => l)
    (fun pid => pid =? 80) 1 (demo_selected None) demo_begin 0 (demo_vip true)
    (demo_selected_inv _) ltac:(vm_compute; reflexivity) ltac:(vm_compute; reflexivity)
    ltac:(vm_compute; reflexivity) eq_refl eq_refl eq_refl Hr ltac:(vm_compute; reflexivity)).
Defined.

Definition demo_quiet (f : bytes) : Round := mkRound true 0 5 true (Some f) 0 0 false.

Lemma spoofed_scan_deadlocks_witness :
  let scan := SLP_TYPE_IPV4 :: udp_packet 0x7F000001 ControlPort 0x0A0DC807 ControlPort 1
                (control_frame LanPacket_Scan 1 []) in
  w_fault (co_world (demo_step demo_host_console (co_round (demo_quiet scan, 0, 0)))) = Some Deadlock.
Proof.
  apply (spoofed_scan_deadlocks demo_out demo_fwd (fun _ => None) (fun _ => LdnSession.demo_nifm) (fun _ l => l)
    (fun pid => pid =? 80) 5 demo_host_console (demo_quiet _) 0 0 0x7F000001 0x0A0DC807 1 1);
    [apply demo_host_inv| |vm_compute; reflexivity|vm_compute; reflexivity|word_lia|done|word_lia|word_lia|].
  - split_and!; vm_compute; reflexivity.
  - split_and!; vm_compute; reflexivity.
Defined.

Definition demo_socket (d : Z) : ProxySocket :=
  default (ProxySocket_new 0 0) (m_sockets (g_manager (co_shared (demo_playing d))) !! 5).
Definition demo_client (d : Z) : BsdMitmService :=
  default (mkService 0 0 0 0 false 0 false) (head (sv_live (co_server (demo_playing d)))).
Definition demo_run := run_cmd (bsd_fwd demo_fwd) (bsd_data demo_out) bsd_ctl (bsd_nifm (fun _ => None))
     (bsd_enter demo_out (fun _ => LdnSession.demo_nifm) (fun _ l => l)).
(** What is sent after the keepalive. *)
Definition demo_log (l : list bytes) : list bytes := [2; 0; 192; 255; 238] :: l.
Definition demo_takes (f : bytes) : Round * Z * Z := (demo_quiet f, 0, 0).

Lemma demo_takes_ok (fs : list bytes) :
  Forall2 (fun r p => quiet_round (demo_playing 9) r.1.1 r.1.2 p.2 /\ (r_tick1 r.1.1, r_tick2 r.1.1) = p.1)
    (demo_takes <$> fs) (zip (replicate (length fs) (0, 0)) fs).
Proof.
  assert (0 - co_last_keepalive (demo_playing 9) < KeepaliveIntervalMs) as H1 by (vm_compute; reflexivity).
  assert (0 - m_last_beacon (w_ldn (co_world (demo_playing 9))) < RelayBeaconIntervalTicks) as H2
    by (vm_compute; reflexivity).
  induction fs; constructor; [|done]. exact (conj (conj H1 (conj H2 eq_refl)) eq_refl).
Qed.

Lemma demo_game_socket d : d = 7 \/ d = 9 ->
  game_socket (demo_playing d) 0 (demo_client d) 5 (demo_socket d) /\
  w_fault (co_world (demo_playing d)) = None /\ running (co_world (demo_playing d)) = true.
Proof. intros [-> | ->]; (split; [split|split]; vm_compute; reflexivity). Qed.

Lemma frags_free l :
  forallb (fun e => negb (fe_active e) && (fe_last_tick e <? INT64_MAX)) l = true ->
  Forall (fun e => fe_active e = false /\ fe_last_tick e < INT64_MAX) l.
Proof.
  induction l as [|e l IH]; cbn [forallb]; [constructor|]. intros H.
  apply andb_prop in H as [H Hl]. apply andb_prop in H as [H1 H2].
  constructor; [|by apply IH]. by destruct (fe_active e); [|split; [|apply Z.ltb_lt]].
Qed.
Lemma demo_frags_free :
  Forall (fun e => fe_active e = false /\ fe_last_tick e < INT64_MAX) (g_frags (w_tun (co_world (demo_playing 9)))).
Proof. apply frags_free. vm_compute. reflexivity. Qed.

Lemma console_lan_datagram_witness :
  let cmd := CSendTo 5 0 (Some [7; 8; 9]) (demo_addr (virtual_ip 200 9) 30000) in
  (demo_run cmd (demo_client 7) (co_shared (demo_playing 7))).2 = ok [3; 0] [] /\
  exists fs, w_out (co_world (demo_step (demo_playing 7) (CoCmd 0 cmd))) = demo_log fs /\
    (demo_run (CRecvFrom no_wait 5 0 (Some [0; 0]) (Some [])) (demo_client 9)
       (co_shared (foldl demo_step (demo_playing 9) (co_round <$> (demo_takes <$> fs))))).2 =
    ok [2; 0; 0] [Some [7; 8]; Some []].
Proof.
  intros cmd. destruct (demo_game_socket 7 (or_introl eq_refl)) as (A1 & A2 & A3).
  destruct (demo_game_socket 9 (or_intror eq_refl)) as (B1 & B2 & B3).
  pose proof (console_lan_datagram demo_out demo_out demo_fwd demo_fwd (fun _ => None) (fun _ => None)
    (fun _ => LdnSession.demo_nifm) (fun _ => LdnSession.demo_nifm) (fun _ l => l) (fun _ l => l)
    (fun pid => pid =? 80) demo_log (fun _ _ _ _ _ => eq_refl)
    7 (demo_playing 7) 0 (demo_client 7) 5 (demo_socket 7) 0 [7; 8; 9] (demo_addr (virtual_ip 200 9) 30000)
    (witness_addr (virtual_ip 200 9) 30000)
    7 (demo_playing 9) 0 (demo_client 9) 5 (demo_socket 9) no_wait 0 [0; 0] []
    (demo_playing_inv 7) A2 A3 ltac:(vm_compute; reflexivity) A1 ltac:(vm_compute; reflexivity)
    ltac:(vm_compute; reflexivity) ltac:(cbn; lia) (demo_playing_inv 9)
    ltac:(split_and!; vm_compute; reflexivity) B1 ltac:(vm_compute; reflexivity) ltac:(vm_compute; reflexivity)) as H.
  cbv zeta in H.
  specialize (H ltac:(vm_compute; discriminate) ltac:(vm_compute; reflexivity) ltac:(vm_compute; reflexivity)
    ltac:(vm_compute; lia)).
  destruct H as [H1 (fs & H2 & H3)]. split; [exact H1|]. exists fs. split; [exact H2|].
  apply (H3 0 (replicate (length fs) (0, 0)) fs (demo_takes <$> fs)).
  - done.
  - apply length_replicate.
  - apply Forall_replicate. split; vm_compute; split; discriminate.
  - eapply Forall_impl; [|exact demo_frags_free]. intros e He. exact (proj2 He).
  - eapply Forall_impl; [|exact demo_frags_free]. intros e [He _]. unfold expire, frag_match. rewrite He.
    cbn [andb]. by rewrite He.
  - exact (demo_takes_ok fs).
Defined.

(** A game with a TCP socket that has not been bound. *)
Definition demo_stream : Shared (World (list bytes)) :=
  co_shared (foldl demo_step (demo_boot (demo_stored 7))
    (demo_power ++ [CoOpen 80 1000 77; CoOpen 80 1000 78; CoCmd 0 (CSocket 2 1 6)])).
Definition demo_stream_info : SocketInfo := mkInfo 1 6 false false 1.
Definition demo_promoted := connect_proxy 5 demo_stream_info (g_manager demo_stream).
Definition demo_stream_socket : ProxySocket :=
  match demo_promoted.2 with inr s => s | _ => ProxySocket_new 0 0 end.

Lemma tcp_connect_refused_witness :
  let '(v1, x1, r1) := demo_run (CConnect no_wait 5 (demo_addr (virtual_ip 200 9) 50000)) (demo_client 7) demo_stream in
  let '(v2, x2, _) := demo_run (CClose 5) v1 x1 in
  r1 = ok [errno E_NetUnreach] [] /\ g_world x1 = g_world demo_stream /\
  g_socket_info x2 !! 5 = None /\ is_Some (m_sockets (g_manager x2) !! 5) /\
  m_port_pool (g_manager x2) = m_port_pool demo_promoted.1.
Proof.
  exact (tcp_connect_refused demo_out demo_fwd (fun _ => None) (fun _ => LdnSession.demo_nifm) (fun _ l => l)
    no_wait 5 (demo_addr (virtual_ip 200 9) 50000) (demo_client 7) demo_stream (witness_addr (virtual_ip 200 9) 50000)
    demo_stream_info demo_promoted.1 demo_stream_socket
    ltac:(vm_compute; reflexivity) ltac:(vm_compute; reflexivity) eq_refl ltac:(vm_compute; reflexivity)
    ltac:(vm_compute; reflexivity) ltac:(vm_compute; discriminate)).
Defined.
