(* ===== verification/ConsoleSession.v ===== *)
(** A session over the relay: the frames of the LDN control planes of two
    consoles (Console.v) cross their tunnels, and a console joins the network
    another one hosts. *)
From S2P Require Import Prelude Bytes CText Servers Rle IpAddr PortPool Ring ProxySocket.
From S2P Require Import SocketManager BsdMitm BsdSessions BsdCommands BsdWorld SlpClient Sha1.
From S2P Require Import Tunnel Runtime LdnTypes LdnControl LdnSession LdnJoin Console ConsoleProps ConsoleTraffic.

(** ** What the frames of the control plane look like on the wire *)
Definition wire_of (src id dst : Z) (buf : bytes) : list bytes :=
  udp_frames src dst id (udp_packet src ControlPort dst ControlPort id buf).
Fixpoint wires (src id : Z) (outs : list LdnOut) : list bytes :=
  match outs with
  | [] => []
  | OFrame dst buf :: outs => wire_of src id dst buf ++ wires src (u16 (id + 1)) outs
  | ONifm _ :: outs => wires src id outs
  end.
Fixpoint id_after (id : Z) (outs : list LdnOut) : Z :=
  match outs with
  | [] => id
  | OFrame _ _ :: outs => id_after (u16 (id + 1)) outs
  | ONifm _ :: outs => id_after id outs
  end.
(** An address the tunnel sends to the relay. *)
Definition routable (dst : Z) : Prop := is_u32 dst /\ Z.land dst 0xFF000000 <> 0x7F000000.

(** A frame in the middle of others. *)
Lemma wires_split src outs : forall id dst buf,
  is_u16 id -> OFrame dst buf ∈ outs -> Forall (frame_to routable) outs ->
  exists id' before after, is_u16 id' /\ wires src id outs = before ++ wire_of src id' dst buf ++ after.
Proof.
  induction outs as [|x outs IH]; intros id dst buf Hid Hin Hf; [by apply elem_of_nil in Hin|].
  apply Forall_cons_1 in Hf as [Hx Hf]. destruct x as [d b|]; [|by destruct Hx]. cbn [wires].
  apply elem_of_cons in Hin as [[= <- <-]|Hin].
  - by exists id, [], (wires src (u16 (id + 1)) outs).
  - destruct (IH (u16 (id + 1)) dst buf (u16_range _) Hin Hf) as (id' & before & after & Hid' & ->).
    exists id', (wire_of src id d b ++ before), after. split; [done|]. by rewrite <- app_assoc.
Qed.

Lemma wire_delivery tB src id dst buf T ticks frames :
  is_u32 src -> src <> 0 -> routable dst -> is_u16 id -> (length buf <= 2000)%nat ->
  frames ≡ₚ wire_of src id dst buf -> length ticks = length (wire_of src id dst buf) ->
  Forall (fun p => T <= p.1 <= T + FragTimeoutTicks /\ T <= p.2 <= T + FragTimeoutTicks) ticks ->
  tun_inv tB -> Forall (fun e => fe_last_tick e < INT64_MAX) (g_frags tB) ->
  no_live (g_frags tB) T src id ->
  exists tB', delivery tB (zip ticks frames) (mkUdpIn src ControlPort dst ControlPort buf) tB'.
Proof.
  intros Hs Hnz [Hd Hlo] Hid Hlen Hp Hl Ht Hi Hf Hn. set (cl := mkSlpClient 0 0 0 [] false [] []).
  set (a := mkArgs src ControlPort dst ControlPort ProtocolType_Udp).
  assert (is_u16 ControlPort) as Hport by done.
  pose proof (Send_frames deaf_sink cl (mkTun src id []) a buf) as Hsend. cbv zeta in Hsend.
  cbn [a pa_source_ip pa_dest_ip pa_source_port pa_dest_port g_local_ip g_ip_id] in Hsend.
  rewrite (proj2 (Z.eqb_neq _ _) Hnz) in Hsend.
  specialize (Hsend Hs Hd Hid (Z.le_refl 0) Hlo Hlen).
  pose proof (Send_delivery deaf_sink cl (mkTun src id []) tB a buf _ _ T ticks frames
    Hs Hd Hport Hport Hs Hid (Z.le_refl 0) Hlo Hsend) as H. cbv zeta in H.
  cbn [a pa_source_ip pa_dest_ip pa_source_port pa_dest_port g_local_ip g_ip_id] in H.
  rewrite (proj2 (Z.eqb_neq _ _) Hnz) in H. by apply H.
Qed.

Lemma delivery_fields t l u t' :
  delivery t l u t' -> g_local_ip t' = g_local_ip t /\ g_ip_id t' = g_ip_id t.
Proof.
  induction 1 as [t n1 n2 f u t' Hf|t n1 n2 f t1 l u t' Hf _ [IH1 IH2]].
  - exact (OnFrame_fields (S := deaf_sink) _ _ _ _ _ _ _ _ (Hf _ _ [])).
  - destruct (OnFrame_fields (S := deaf_sink) _ _ _ _ _ _ _ _ (Hf _ _ [])). split; congruence.
Qed.

Section sending.
Context {O : Type}.
Variable sendto : Z -> Z -> Z -> bytes -> O -> O * Z.
Variable nifm_call : NifmCall -> O -> O.
Variable log : list bytes -> O.
Hypothesis sendto_log : forall fd ip port b l,
  sendto fd ip port b (log l) = (log (l ++ [b]), Z.of_nat (length b)).
Implicit Types w : World O.

Lemma ldn_out_logged w dst buf l :
  can_send w -> w_out w = log l -> is_u32 (m_ipv4_address (w_ldn w)) -> m_ipv4_address (w_ldn w) <> 0 ->
  routable dst -> (length buf <= 2000)%nat ->
  let id := g_ip_id (w_tun w) in
  ldn_out sendto nifm_call w (OFrame dst buf) =
  sent_world w (u16 (id + 1)) (log (l ++ wire_of (m_ipv4_address (w_ldn w)) id dst buf)).
Proof.
  intros Hw Ho Hip Hnz [Hd Hlo] Hlen id. cbn [ldn_out].
  assert (can_send (set_wloop w [])) as Hw' by (destruct Hw; by constructor).
  rewrite (tunnel_send_logged sendto log sendto_log (set_wloop w []) _ buf l Hw' Ho) by done.
  cbn [pa_source_ip pa_dest_ip pa_source_port pa_dest_port]. rewrite (proj2 (Z.eqb_neq _ _) Hnz).
  by destruct w.
Qed.

(** All the frames of a method, in order. *)
Lemma ldn_outs_logged outs : forall w l,
  can_send w -> w_out w = log l -> is_u32 (m_ipv4_address (w_ldn w)) -> m_ipv4_address (w_ldn w) <> 0 ->
  Forall (frame_to routable) outs ->
  let src := m_ipv4_address (w_ldn w) in
  let id := g_ip_id (w_tun w) in
  foldl (ldn_out sendto nifm_call) w outs = sent_world w (id_after id outs) (log (l ++ wires src id outs)).
Proof.
  induction outs as [|x outs IH]; intros w l Hw Ho Hip Hnz Hf; cbv zeta.
  - cbn [foldl wires id_after]. rewrite app_nil_r, <- Ho. by destruct w as [? ? ? [] ? ? ? ? ?].
  - apply Forall_cons_1 in Hf as [Hx Hf]. destruct x as [dst buf|]; [|by destruct Hx]. destruct Hx as [Hd Hlen].
    cbn [foldl wires id_after]. rewrite (ldn_out_logged w dst buf l) by done.
    rewrite (IH _ (l ++ wire_of (m_ipv4_address (w_ldn w)) (g_ip_id (w_tun w)) dst buf)); try done.
    + cbn. by rewrite <- app_assoc.
    + destruct Hw. constructor; try done. apply u16_range.
Qed.
End sending.

(** ** A frame taken from the relay *)
Section taking.
Context {O : Type} {RO : RegistryOrder} {IO : InfoOrder}.
Variable sendto : Z -> Z -> Z -> bytes -> O -> O * Z.
Variable fwd : FwdReq -> O -> O * Reply.
Variable nifm_ip : O -> option (Z * Z).
Variable nifm_env : O -> NifmEnv.
Variable nifm_call : NifmCall -> O -> O.
Variable IsApplicationId : Z -> bool.
Variable log : list bytes -> O.
Hypothesis sendto_log : forall fd ip port b l,
  sendto fd ip port b (log l) = (log (l ++ [b]), Z.of_nat (length b)).
Let step := console_step sendto fwd nifm_ip nifm_env nifm_call IsApplicationId.
Implicit Types c : Console (O := O).

(** A console whose receive loop runs and whose control plane has an address. *)
Record online c : Prop := {
  on_listening : listening c;
  on_send : can_send (co_world c);
  on_tun : tun_inv (w_tun (co_world c));
  on_ip : is_u32 (m_ipv4_address (w_ldn (co_world c)));
  on_ip_set : m_ipv4_address (w_ldn (co_world c)) <> 0;
}.
(** A console in order, running and listening. *)
Definition ready (n : Z) c : Prop := console_inv n c /\ listening c /\ running (co_world c) = true.
Lemma ready_online n c : ready n c -> online c.
Proof.
  intros (H & Hl & Hr). pose proof (ci_ldn n c H) as Hc.
  constructor; [done|by eapply console_can_send| |apply wf_ip, (reachable_inv _ Hc)|by apply reachable_addressed].
  destruct (ci_rt n c H) as [[_ Ht _] _]. exact Ht.
Qed.

(** The control plane in another state, such as the middle of a method. *)
Definition with_ldn c (l : LdnControl) : Console :=
  set_shared c (set_gworld (co_shared c) (set_wldn (co_world c) l)).
Lemma online_ldn c l : online c -> ctl_wf l -> m_ipv4_address l <> 0 -> online (with_ldn c l).
Proof.
  intros [(H1 & H2 & H3) [S1 S2 S3 S4] Ht H4 H5] Hl Hnz. constructor; try done; by apply wf_ip.
Qed.

(** The receive loop takes the frames of a packet, in any order, in as many
    quiet rounds within the reassembly timeout; the last one reads the tick
    [now] for the control plane. *)
Definition takes c (src id : Z) (p : list bytes) (rs : list (Round * Z * Z)) (now : Z) : Prop :=
  exists T ticks frames,
    frames ≡ₚ p /\ length ticks = length p /\
    Forall (fun p => T <= p.1 <= T + FragTimeoutTicks /\ T <= p.2 <= T + FragTimeoutTicks) ticks /\
    Forall (fun e => fe_last_tick e < INT64_MAX) (g_frags (w_tun (co_world c))) /\
    no_live (g_frags (w_tun (co_world c))) T src id /\
    Forall2 (fun r p => quiet_round c r.1.1 r.1.2 p.2 /\ (r_tick1 r.1.1, r_tick2 r.1.1) = p.1)
      rs (zip ticks frames) /\ list.last rs.*2 = Some now.

Lemma control_rounds t l u t' :
  delivery t l u t' -> forall c rs now lc outs,
  w_tun (co_world c) = t -> listening c -> Forall2 (round_brings c) rs l -> list.last rs.*2 = Some now ->
  ui_dport u = ControlPort ->
  LdnControl.OnControlFrame (running (co_world c)) now (ui_src u) (ui_data u) (w_ldn (co_world c)) =
    Some (tt, lc, outs) ->
  let c' := foldl step c (co_round <$> rs) in
  exists rt, Runtime.m_state rt = Runtime.m_state (w_rt (co_world c)) /\
    m_thread_running rt = m_thread_running (w_rt (co_world c)) /\ m_client rt = m_client (w_rt (co_world c)) /\
    co_shared c' = set_gworld (co_shared c) (foldl (ldn_out sendto nifm_call)
      (mkWorld rt (w_servers (co_world c)) (w_vid (co_world c)) t' lc (w_out (co_world c))
         (w_loop (co_world c)) [] None) outs).
Proof.
  induction 1 as [t n1 n2 f u t' Hf|t n1 n2 f t1 l u t' Hf Hd IH]; intros c rs now lc outs Ht Hl Hrs Hnow Hport Hk c';
    apply Forall2_cons_inv_r in Hrs as (r & rs' & (Hq & Htf & Htick) & Hrs & ->);
    cbn [fst snd] in Hq, Htf, Htick; injection Htick as <- <-; pose proof Hl as (Hl1 & Hl2 & Hl3);
    specialize (Hf _ (console_sink r.2) (co_shared c)); rewrite <- Ht in Hf.
  - apply Forall2_nil_inv_r in Hrs as ->. cbn in Hnow. injection Hnow as <-.
    unfold deliver_udp in Hf. rewrite Hport, Z.eqb_refl in Hf. cbn [Tunnel.OnControlFrame console_sink] in Hf.
    fold (co_world c) in Hf. rewrite Hk, Hl3 in Hf.
    destruct (round_frame sendto fwd nifm_ip nifm_env nifm_call IsApplicationId _ _ _ _ _ _ _ Hq Htf Hf) as (rt & E1 & E2 & E3 & Hx).
    exists rt. split_and!; [done..|]. unfold c'. cbn [fmap list_fmap foldl]. unfold step. rewrite step_round, Hx by done.
    unfold co_shared at 1, set_shared, send_frames. cbn [co_server sv_shared]. mitm_cbn. w_cbn.
    rewrite Hl1. reflexivity.
  - destruct (round_frame sendto fwd nifm_ip nifm_env nifm_call IsApplicationId _ _ _ _ _ _ _ Hq Htf Hf) as (rt & E1 & E2 & E3 & Hx).
    unfold c'. cbn [fmap list_fmap foldl]. unfold step at 2. rewrite step_round, Hx by done.
    unfold send_frames. mitm_cbn. change (w_frames (g_world (co_shared c))) with (w_frames (co_world c)).
    rewrite Hl3. cbn [foldl]. w_cbn. set (c1 := set_shared c _).
    assert (rs' <> []) as Hne by (intros ->; inversion Hrs; subst; inversion Hd).
    destruct (IH c1 rs' now lc outs) as (rt2 & I1 & I2 & I3 & I4); [done| | | |exact Hport| |].
    + split_and!; [exact Hl1|by etransitivity; [exact E2|]|done].
    + eapply Forall2_impl; [|exact Hrs]. intros r' p. by apply round_keeps.
    + destruct rs'; [done|]. exact Hnow.
    + replace (running (co_world c1)) with (running (co_world c)); [exact Hk|].
      unfold running. change (w_rt (co_world c1)) with rt. by rewrite E1.
    + exists rt2. split_and!; [by etransitivity|by etransitivity..|]. exact I4.
Qed.

Lemma rounds_inv n rs : forall c,
  console_inv n c -> Forall (fun r => round_bytes r.1.1) rs -> console_inv n (foldl step c (co_round <$> rs)).
Proof.
  induction rs as [|r rs IH]; intros c H Hf; [done|]. apply Forall_cons_1 in Hf as [Hr Hf].
  cbn [fmap list_fmap foldl]. apply IH; [|done]. unfold step, console_step, co_round.
  case_decide; [|done]. cbn [console_event]. destruct (m_thread_running _) eqn:E; [|done].
  by apply console_inv_round.
Qed.

(** The control plane is given the frame once, and what it sends follows. *)
Lemma console_takes c src id dst buf rs now lc outs :
  online c -> is_u32 src -> src <> 0 -> routable dst -> is_u16 id -> (length buf <= 2000)%nat ->
  takes c src id (wire_of src id dst buf) rs now ->
  LdnControl.OnControlFrame true now src buf (w_ldn (co_world c)) = Some (tt, lc, outs) ->
  let c' := foldl step c (co_round <$> rs) in
  exists w, can_send w /\ m_thread_running (w_rt w) = true /\ w_frames w = [] /\ w_fault w = None /\
    w_ldn w = lc /\ w_out w = w_out (co_world c) /\ g_ip_id (w_tun w) = g_ip_id (w_tun (co_world c)) /\
    co_shared c' = set_gworld (co_shared c) (foldl (ldn_out sendto nifm_call) w outs).
Proof.
  intros [Hl [S1 S2 S3 S4] Ht Hip Hnz] Hs Hsnz Hd Hid Hlen (T & ticks & frames & P1 & P2 & P3 & P4 & P5 & P6 & P8) E c'.
  destruct (wire_delivery _ src id dst buf T ticks frames Hs Hsnz Hd Hid Hlen P1 P2 P3 Ht P4 P5) as [t' Hdel].
  assert (Forall2 (round_brings c) rs (zip ticks frames)) as Hrs.
  { assert (Forall tunnel_frame frames) as Htf.
    { rewrite P1. apply udp_frames_ok. change (length (udp_packet _ _ _ _ _ buf)) with (28 + length buf)%nat. lia. }
    eapply Forall2_impl; [|exact (Forall2_and_r _ _ _ _ P6 (Forall_zip_r tunnel_frame ticks frames Htf))].
    intros r p [[H1 H2] H3]. by split_and!. }
  rewrite <- S1 in E.
  destruct (control_rounds _ _ _ _ Hdel c rs now lc outs eq_refl Hl Hrs P8 eq_refl E) as (rt & R1 & R2 & R3 & R4).
  eexists. split; [|split; [|split; [|split; [|split; [|split; [|split; [|exact R4]]]]]]]; try reflexivity.
  - destruct (delivery_fields _ _ _ _ Hdel) as [D1 D2]. constructor; cbn.
    + unfold running in *. cbn. by rewrite R1.
    + by rewrite R3.
    + by rewrite D2.
    + by rewrite D1.
  - cbn. rewrite R2. apply Hl.
  - cbn. apply (delivery_fields _ _ _ _ Hdel).
Qed.

(** A console in order that answers. *)
Lemma console_answers n c src id dst buf rs now lc outs l :
  ready n c -> w_out (co_world c) = log l ->
  is_u32 src -> src <> 0 -> routable dst -> is_u16 id -> (length buf <= 2000)%nat ->
  takes c src id (wire_of src id dst buf) rs now ->
  LdnControl.OnControlFrame true now src buf (w_ldn (co_world c)) = Some (tt, lc, outs) ->
  m_ipv4_address lc = m_ipv4_address (w_ldn (co_world c)) -> Forall (frame_to routable) outs ->
  let c' := foldl step c (co_round <$> rs) in
  w_ldn (co_world c') = lc /\
  w_out (co_world c') = log (l ++ wires (m_ipv4_address lc) (g_ip_id (w_tun (co_world c))) outs) /\
  (Forall (fun r => round_bytes r.1.1) rs -> ready n c').
Proof.
  intros Hc0 Hlog Hs Hsnz Hd Hid Hlen Ht E Hip Hf c'. pose proof (ready_online n c Hc0) as Ho.
  destruct Hc0 as (Hi & _ & _).
  destruct (console_takes _ _ _ _ _ _ _ _ _ Ho Hs Hsnz Hd Hid Hlen Ht E)
    as (w & W1 & W2 & W3 & W4 & W5 & W6 & W7 & W8). fold c' in W8.
  rewrite Hlog in W6.
  pose proof (ldn_outs_logged sendto nifm_call log sendto_log outs w l W1 W6) as Hw. cbv zeta in Hw.
  rewrite W5, Hip, W7 in Hw. specialize (Hw (on_ip c Ho) (on_ip_set c Ho) Hf). rewrite Hw in W8.
  assert (co_world c' = sent_world w (id_after (g_ip_id (w_tun (co_world c))) outs)
    (log (l ++ wires (m_ipv4_address (w_ldn (co_world c))) (g_ip_id (w_tun (co_world c))) outs))) as Hc
    by (unfold co_world at 1; by rewrite W8).
  rewrite Hc, Hip. split; [exact W5|]. split; [done|]. intros Hb.
  split; [by apply rounds_inv|]. unfold listening. rewrite Hc.
  split; [split_and!; [exact W4|exact W2|exact W3]|exact (cs_running w W1)].
Qed.
End taking.

(** ** The whole join *)
Section join.
Context {OH OJ : Type} {RO : RegistryOrder} {IO : InfoOrder}.
Variable sendtoH : Z -> Z -> Z -> bytes -> OH -> OH * Z.
Variable sendtoJ : Z -> Z -> Z -> bytes -> OJ -> OJ * Z.
Variable fwdH : FwdReq -> OH -> OH * Reply.
Variable fwdJ : FwdReq -> OJ -> OJ * Reply.
Variable nifm_ipH : OH -> option (Z * Z).
Variable nifm_ipJ : OJ -> option (Z * Z).
Variable nifm_envH : OH -> NifmEnv.
Variable nifm_envJ : OJ -> NifmEnv.
Variable nifm_callH : NifmCall -> OH -> OH.
Variable nifm_callJ : NifmCall -> OJ -> OJ.
Variable IsApplicationId : Z -> bool.
(** The outside of each console once datagrams have been sent to the relay. *)
Variable logH : list bytes -> OH.
Variable logJ : list bytes -> OJ.
Hypothesis logH_sends : forall fd ip port b l,
  sendtoH fd ip port b (logH l) = (logH (l ++ [b]), Z.of_nat (length b)).
Hypothesis logJ_sends : forall fd ip port b l,
  sendtoJ fd ip port b (logJ l) = (logJ (l ++ [b]), Z.of_nat (length b)).
Let stepH := console_step sendtoH fwdH nifm_ipH nifm_envH nifm_callH IsApplicationId.
Let stepJ := console_step sendtoJ fwdJ nifm_ipJ nifm_envJ nifm_callJ IsApplicationId.

(** C2: A console joins over the relay.  The frames the joiner's [Scan] and
    [Connect] put on the wire, the rounds in which the host's receive loop takes
    them, the frames these rounds send, and the rounds in which the joiner takes
    its own: the host answers the scan with its network; within 30 seconds it
    registers the joiner, if it has room, and sends it the new network; the
    joiner, while its [Connect] waits and has applied no synchronisation, becomes
    a connected station of the host's network, which lists it.  Each packet may
    take two frames, in any order; in between the host may do anything that
    leaves its control plane as it was. *)
Theorem join_over_the_relay n H J bcast q1 q2 body lH lJ :
  let h := w_ldn (co_world H) in
  let j := w_ldn (co_world J) in
  let hip := m_ipv4_address h in
  let jip := m_ipv4_address j in
  ready n H -> w_out (co_world H) = logH lH ->
  LdnControl.m_state h = CS_AccessPointCreated -> (StationCount h < 7)%nat ->
  Forall (fun t => station_in t = true -> routable (st_src_ip t)) (stations7 h) ->
  online J -> w_out (co_world J) = logJ lJ -> ctl_wf j -> LdnControl.m_state j = CS_Station ->
  m_join_active j = true -> m_relay_sync_seq_valid j = false ->
  m_join_target_bssid j = cn_bssid (nw_common (m_network_info h)) ->
  routable hip -> routable jip -> routable bcast -> is_u16 q1 -> is_u16 q2 ->
  is_bytes body -> length body = sizeof_NodeInfo ->
  let scan := control_frame LanPacket_Scan q1 [] in
  let connect := control_frame LanPacket_Connect q2 body in
  let id := g_ip_id (w_tun (co_world J)) in
  let id' := u16 (id + 1) in
  let J1 := foldl (ldn_out sendtoJ nifm_callJ) (co_world J) [OFrame bcast scan; OFrame hip connect] in
  w_out J1 = logJ (lJ ++ wire_of jip id bcast scan ++ wire_of jip id' hip connect) /\
  forall rs1 t1, takes H jip id (wire_of jip id bcast scan) rs1 t1 ->
  let H1 := foldl stepH H (co_round <$> rs1) in
  (Forall (fun r => round_bytes r.1.1) rs1 -> ready n H1) /\
  (exists resp q,
    w_out (co_world H1) = logH (lH ++ wire_of hip (g_ip_id (w_tun (co_world H))) jip resp) /\
    parse_control resp = Some (LanPacket_ScanResp, cenc NetworkInfo_codec (m_network_info h), q)) /\
  forall H1' lH1 rs3 t3,
    ready n H1' -> w_out (co_world H1') = logH lH1 ->
    w_ldn (co_world H1') = w_ldn (co_world H1) -> t3 - t1 <= ScannerTimeoutTicks ->
    takes H1' jip id' (wire_of jip id' hip connect) rs3 t3 ->
  let H2 := foldl stepH H1' (co_round <$> rs3) in
  let h2 := w_ldn (co_world H2) in
  exists idS sync before after,
    w_out (co_world H2) = logH (lH1 ++ before ++ wire_of hip idS jip sync ++ after) /\
    forall J' rs4 t4, online J' -> w_ldn (co_world J') = j ->
      takes J' hip idS (wire_of hip idS jip sync) rs4 t4 ->
      let j2 := w_ldn (co_world (foldl stepJ J' (co_round <$> rs4))) in
      LdnControl.m_state j2 = CS_StationConnected /\ m_network_info j2 = m_network_info h2 /\
      session_has j2 jip = Some true.
Proof.
  intros h j hip jip RdH LH Hhost Hroom Hst OJJ LJ Hj Hsta Hact Hfresh Htarget Rh Rj Rb Hq1 Hq2 Hb Hlen
    scan connect id id' J1.
  assert (length scan <= 2000 /\ length connect <= 2000)%nat as [Ls Lc].
  { assert (sizeof_LanPacketHeader + sizeof_NetworkInfo <= 2000)%nat by (apply Nat.leb_le; vm_compute; reflexivity).
    split; (etransitivity; [apply control_frame_length; [done|done|]|done]); [apply Nat.le_0_l|].
    rewrite Hlen. destruct wire_sizes as (-> & -> & _). lia. }
  pose proof (ready_online n H RdH) as OHH. pose proof RdH as (HH & _ & _).
  pose proof (cs_id _ (on_send J OJJ)) as Hid. fold id in Hid.
  pose proof (on_ip J OJJ) as Hjip. pose proof (on_ip_set J OJJ) as Hjnz. fold j jip in Hjip, Hjnz.
  pose proof (on_ip H OHH) as Hhip. pose proof (on_ip_set H OHH) as Hhnz. fold h hip in Hhip, Hhnz.
  split.
  { unfold J1. rewrite (ldn_outs_logged sendtoJ nifm_callJ logJ logJ_sends _ (co_world J) lJ (on_send J OJJ) LJ Hjip Hjnz).
    - cbn. by rewrite app_nil_r.
    - exact (Forall_cons_2 _ (OFrame _ _) _ (conj Rb Ls) (Forall_cons_2 _ (OFrame _ _) _ (conj Rh Lc) (Forall_nil_2 _))). }
  intros rs1 t1 Ht1 H1.
  destruct (join_handshake h j t1 q1 q2 body (ci_ldn n H HH) Hhost Hj Hsta Hact Htarget Hfresh Hroom Hq1 Hq2 Hb Hlen)
    as (h1 & resp & q & E1 & Lr & Hparse & Hip1 & Hjoin). fold jip hip in E1, Hip1, Hjoin.
  destruct (console_answers sendtoH fwdH nifm_ipH nifm_envH nifm_callH IsApplicationId logH logH_sends
    n H jip id bcast scan rs1 t1 h1 _ lH RdH LH Hjip Hjnz Rb Hid Ls Ht1 E1 Hip1) as (A3 & A4 & A1).
  { exact (Forall_cons_2 _ (OFrame _ _) _ (conj Rj Lr) (Forall_nil_2 _)). }
  split; [exact A1|]. split.
  { exists resp, q. split; [|exact Hparse]. rewrite Hip1 in A4. cbn [wires] in A4. by rewrite app_nil_r in A4. }
  intros H1' lH1 rs3 t3 RdH1 LH1 Heq Ht Ht3 H2 h2. pose proof (ready_online n H1' RdH1) as OH1.
  destruct (Hjoin t3 Ht) as (h2' & out & sync & E2 & Hip2 & Hto & Hin & Hlast).
  rewrite <- A3 in E2. fold stepH H1 in E2. rewrite <- Heq in E2.
  assert (Forall (frame_to routable) out) as Hr.
  { eapply Forall_impl; [|exact Hto]. intros [dst buf|]; [|intros []].
    intros [[-> |(t & Hti & Hs & <-)] Hl]; (split; [|exact Hl]); [exact Rj|].
    exact (proj1 (Forall_forall _ _) Hst t (proj1 (list_elem_of_In _ _) Hti) Hs). }
  assert (m_ipv4_address h2' = m_ipv4_address (w_ldn (co_world H1'))) as Hip2' by (rewrite Heq; fold stepH H1 in A3; rewrite A3, Hip1; exact Hip2).
  destruct (console_answers sendtoH fwdH nifm_ipH nifm_envH nifm_callH IsApplicationId logH logH_sends
    n H1' jip id' hip connect rs3 t3 h2' out lH1 RdH1 LH1 Hjip Hjnz Rh (u16_range _) Lc Ht3 E2 Hip2' Hr)
    as (B3 & B4 & _). fold stepH H2 in B3, B4. fold h2 in B3. rewrite Hip2 in B4.
  destruct (wires_split hip out _ jip sync (cs_id _ (on_send H1' OH1)) Hin Hr) as (idS & before & after & HidS & Hw).
  rewrite Hw in B4. exists idS, sync, before, after. split; [exact B4|].
  intros J' rs4 t4 OJ' EJ' Ht4. destruct (Hlast t4) as (j2 & E3 & J2 & J3 & J4).
  rewrite <- EJ' in E3.
  assert (length sync <= 2000)%nat as Lsy by exact (proj2 (proj1 (Forall_forall _ _) Hr _ (proj1 (list_elem_of_In _ _) Hin))).
  destruct (console_takes sendtoJ fwdJ nifm_ipJ nifm_envJ nifm_callJ IsApplicationId
    J' hip idS jip sync rs4 t4 j2 [] OJ' Hhip Hhnz Rj HidS Lsy Ht4 E3) as (w & _ & _ & _ & _ & W5 & _ & _ & W8).
  fold stepJ in W8. cbn [foldl] in W8.
  assert (w_ldn (co_world (foldl stepJ J' (co_round <$> rs4))) = j2) as Hj2
    by (unfold co_world at 1; rewrite W8; exact W5).
  cbv zeta. rewrite Hj2. rewrite <- B3 in J3. split; [exact J2|]. split; [exact J3|exact J4].
Qed.
End join.

(** ** Two consoles to run *)
Definition demo_station_console : Console :=
  foldl demo_step (demo_boot (demo_stored 9))
    (demo_power ++ [CoInitialize (demo_vip false); CoLdn (COpenStation LdnSession.demo_nifm)]).
(** In the middle of [Connect] to the network of [demo_host_console]. *)
Definition demo_target : bytes := cn_bssid (nw_common (m_network_info (w_ldn (co_world demo_host_console)))).
Definition demo_waiting : Console :=
  with_ldn demo_station_console
    (set_m_join_target_bssid (set_m_join_active (w_ldn (co_world demo_station_console)) true) demo_target).

Lemma demo_station_inv : console_inv 4 demo_station_console.
Proof.
  assert (Forall console_event_ok (demo_power ++ [CoInitialize (demo_vip false); CoLdn (COpenStation LdnSession.demo_nifm)]))
    as H by (repeat constructor).
  exact (demo_run_inv (demo_stored 9) _ H eq_refl).
Qed.
Lemma demo_host_ready : ready 5 demo_host_console.
Proof. split; [exact demo_host_inv|]. split; [split_and!|]; vm_compute; reflexivity. Qed.
Lemma demo_waiting_wf : ctl_wf (w_ldn (co_world demo_waiting)).
Proof.
  apply (wf_joining (w_ldn (co_world demo_station_console)) demo_target);
    [apply (reachable_inv _ (ci_ldn 4 _ demo_station_inv))|].
  apply wf_bssid, (reachable_inv _ (ci_ldn 5 _ demo_host_inv)).
Qed.
Lemma demo_waiting_online : online demo_waiting.
Proof.
  apply online_ldn; [|apply demo_waiting_wf|intros H; vm_compute in H; discriminate].
  apply (ready_online 4). split; [exact demo_station_inv|]. split; [split_and!|]; vm_compute; reflexivity.
Qed.

(** One round a frame, all at tick 0. *)
Lemma demo_takes_all (c : Console (O := list bytes)) src id dst buf :
  bool_decide (0 - co_last_keepalive c < KeepaliveIntervalMs /\
    0 - m_last_beacon (w_ldn (co_world c)) < RelayBeaconIntervalTicks) = true ->
  forallb (fun e => negb (fe_active e) && (fe_last_tick e <? INT64_MAX)) (g_frags (w_tun (co_world c))) = true ->
  let p := wire_of src id dst buf in
  takes c src id p (demo_takes <$> p) 0.
Proof.
  intros Hb%bool_decide_eq_true_1 Hf%frags_free p. destruct Hb as [H1 H2].
  exists 0, (replicate (length p) (0, 0)), p.
  split; [done|]. split; [apply length_replicate|]. split.
  { apply Forall_replicate. split; vm_compute; split; discriminate. }
  split; [eapply Forall_impl; [|exact Hf]; by intros e [_ He]|]. split.
  { eapply Forall_impl; [|exact Hf]. intros e [He _]. unfold expire, frag_match. rewrite He.
    cbn [andb]. by rewrite He. }
  split.
  - clearbody p. induction p; constructor; [|done]. exact (conj (conj H1 (conj H2 eq_refl)) eq_refl).
  - unfold p, wire_of, udp_frames. by case_decide.
Qed.

Lemma no_stations l :
  forallb (fun t => negb (station_in t)) l = true ->
  Forall (fun t => station_in t = true -> routable (st_src_ip t)) l.
Proof.
  induction l as [|t l IH]; cbn [forallb]; [constructor|]. intros [H Hl]%andb_prop.
  constructor; [|by apply IH]. intros E. by rewrite E in H.
Qed.
Lemma routable_bool d : bool_decide (0 <= d < 2 ^ 32 /\ Z.land d 0xFF000000 <> 0x7F000000) = true -> routable d.
Proof. exact (bool_decide_eq_true_1 _). Qed.

Definition demo_wire (src id dst : Z) (buf : bytes) : list (Round * Z * Z) := demo_takes <$> wire_of src id dst buf.
Definition demo_scan : bytes := control_frame LanPacket_Scan 1 [].
Definition demo_connect : bytes := control_frame LanPacket_Connect 2 (cenc NodeInfo_codec demo_node).
Definition demo_jip : Z := virtual_ip 200 9.
Definition demo_hip : Z := virtual_ip 200 7.
Definition demo_scanned : Console :=
  foldl demo_step demo_host_console (co_round <$> demo_wire demo_jip 0 0x0A0DFFFF demo_scan).

Lemma demo_scan_bytes :
  Forall (fun r => round_bytes r.1.1) (demo_wire demo_jip 0 0x0A0DFFFF demo_scan).
Proof.
  assert (Forall is_bytes (wire_of demo_jip 0 0x0A0DFFFF demo_scan)) as H
    by (repeat constructor; vm_compute; (done || (split; [discriminate|reflexivity]))).
  unfold demo_wire. induction H as [|f fs Hf _ IH]; constructor; [|exact IH]. by intros d [= <-].
Qed.

(** The hosts are 10.13.200.7 and 10.13.200.9. *)
Lemma join_over_the_relay_witness :
  let H2 := foldl demo_step demo_scanned (co_round <$> demo_wire demo_jip 1 demo_hip demo_connect) in
  exists idS sync,
  let J2 := foldl demo_step demo_waiting (co_round <$> demo_wire demo_hip idS demo_jip sync) in
  LdnControl.m_state (w_ldn (co_world J2)) = CS_StationConnected /\
  m_network_info (w_ldn (co_world J2)) = m_network_info (w_ldn (co_world H2)) /\
  session_has (w_ldn (co_world J2)) demo_jip = Some true.
Proof.
  assert (m_ipv4_address (w_ldn (co_world demo_host_console)) = demo_hip) as Eh by (vm_compute; reflexivity).
  assert (m_ipv4_address (w_ldn (co_world demo_waiting)) = demo_jip) as Ej by (vm_compute; reflexivity).
  assert (g_ip_id (w_tun (co_world demo_waiting)) = 0) as Ei by (vm_compute; reflexivity).
  assert (forallb (fun t => negb (station_in t)) (stations7 (w_ldn (co_world demo_host_console))) = true) as Es
    by (vm_compute; reflexivity).
  assert (StationCount (w_ldn (co_world demo_host_console)) < 7)%nat as Er
    by (apply Nat.ltb_lt; vm_compute; reflexivity).
  assert (routable demo_hip /\ routable demo_jip /\ routable 0x0A0DFFFF) as (R1 & R2 & R3)
    by (split_and!; apply routable_bool; vm_compute; reflexivity).
  assert (is_u16 1 /\ is_u16 2) as [Q1 Q2] by (clear; unfold is_u16; lia).
  assert (is_bytes (cenc NodeInfo_codec demo_node)) as Eb by (apply is_bytes_decide; by vm_compute).
  pose proof (join_over_the_relay demo_out demo_out demo_fwd demo_fwd (fun _ => None) (fun _ => None)
    (fun _ => LdnSession.demo_nifm) (fun _ => LdnSession.demo_nifm) (fun _ l => l) (fun _ l => l)
    (fun pid => pid =? 80) demo_log demo_log (fun _ _ _ _ _ => eq_refl) (fun _ _ _ _ _ => eq_refl)
    5 demo_host_console demo_waiting 0x0A0DFFFF 1 2 (cenc NodeInfo_codec demo_node) [] []) as H.
  cbv zeta in H. rewrite Eh, Ej, Ei in H.
  specialize (H demo_host_ready ltac:(vm_compute; reflexivity) ltac:(vm_compute; reflexivity)
    Er (no_stations _ Es) demo_waiting_online ltac:(vm_compute; reflexivity) demo_waiting_wf
    ltac:(vm_compute; reflexivity) ltac:(vm_compute; reflexivity) ltac:(vm_compute; reflexivity)
    ltac:(vm_compute; reflexivity) R1 R2 R3 Q1 Q2 Eb ltac:(vm_compute; reflexivity)).
  destruct H as [_ H].
  specialize (H _ 0 (demo_takes_all demo_host_console demo_jip 0 0x0A0DFFFF demo_scan
    ltac:(vm_compute; reflexivity) ltac:(vm_compute; reflexivity))).
  destruct H as (H1 & (resp & q & Hlog & _) & H).
  change (foldl _ demo_host_console _) with demo_scanned in H, H1, Hlog.
  pose proof (H1 demo_scan_bytes) as I1.
  specialize (H demo_scanned _ _ 0 I1 Hlog eq_refl ltac:(apply Z.leb_le; vm_compute; reflexivity)
    (demo_takes_all demo_scanned demo_jip 1 demo_hip demo_connect
       ltac:(vm_compute; reflexivity) ltac:(vm_compute; reflexivity))).
  destruct H as (idS & sync & before & after & _ & H). exists idS, sync.
  exact (H demo_waiting _ 0 demo_waiting_online eq_refl (demo_takes_all demo_waiting demo_hip idS demo_jip sync
    ltac:(vm_compute; reflexivity) ltac:(vm_compute; reflexivity))).
Defined.
