(* ===== verification/Boot.v ===== *)
(** The module from boot on (main.cpp): the calls of [InitializeSystemModule] and
    [Main] with the failures that stop it, the ports it serves, and the console
    (Console.v) behind them, with the sessions and objects of ldn:u
    (LdnServices.v) in place of bare calls of the control plane. *)
From S2P Require Import Prelude Bytes CText Servers IpAddr PortPool Ring ProxySocket.
From S2P Require Import SocketManager BsdMitm BsdSessions BsdCommands BsdWorld SlpClient Sha1.
From S2P Require Import Tunnel Runtime LdnTypes LdnControl LdnSession LdnJoin LdnServices Console ConsoleProps ConsoleTraffic.

(** ** The calls of boot *)
Inductive BootThread : Set := CfgThread | MainThread.
(** Those with a result first; [RegisterMitmServer] has its port and name. *)
Inductive BootCall : Type :=
| SmInitialize | MountSdCard | NifmInitialize | BsdInitialize | SocketInitialize
| DeleteHeartbeat | CreateHeartbeat (size : Z) | OpenHeartbeat | WriteHeartbeat (text : bytes)
| RegisterObjectForServer (name : bytes) (sessions : Z)
| CreateThread (t : BootThread) (stack priority : Z)
| RegisterMitmServer (port : Z) (name : bytes)
| FsInitializeForSystem | FsSetAllocator | FsSetEnabledAutoAbort (enabled : bool)
| CloseHeartbeat | StartThread (t : BootThread) | WaitThread (t : BootThread).

Definition NumMitmPorts : nat := 3.
Definition PortIndex_LdnMitm : Z := 0.
Definition PortIndex_BsdMitm : Z := 1.
Definition ConfigServiceName : bytes := [115; 108; 112; 58; 99; 102; 103].
Definition LdnMitmServiceName : bytes := [108; 100; 110; 58; 117].
Definition BsdMitmServiceName : bytes := [98; 115; 100; 58; 117].
(** ["slp-client booted\n"]. *)
Definition kText : bytes :=
  [115; 108; 112; 45; 99; 108; 105; 101; 110; 116; 32; 98; 111; 111; 116; 101; 100; 10].

Section boot.
(** The result of each call, 0 for success, and [LdnControl::Initialize]'s. *)
Variable result : BootCall -> Z.

(** The calls made and the value, [None] once the module has aborted. *)
Definition Boot (A : Type) : Type := list BootCall * option A.
#[export] Instance Boot_ret : MRet Boot := fun A a => ([], Some a).
#[export] Instance Boot_bind : MBind Boot := fun A B f m =>
  match m.2 with
  | None => (m.1, None)
  | Some a => (m.1 ++ (f a).1, (f a).2)
  end.
Definition bcall (c : BootCall) : Boot Z := ([c], Some (result c)).
(** [R_ABORT_UNLESS]. *)
Definition R_ABORT_UNLESS (c : BootCall) : Boot unit :=
  ([c], if result c =? 0 then Some tt else None).

Definition InitializeSystemModule : Boot unit :=
  R_ABORT_UNLESS SmInitialize;;
  bcall FsInitializeForSystem;;
  bcall FsSetAllocator;;
  bcall (FsSetEnabledAutoAbort false);;
  R_ABORT_UNLESS MountSdCard;;
  R_ABORT_UNLESS NifmInitialize;;
  R_ABORT_UNLESS BsdInitialize;;
  R_ABORT_UNLESS SocketInitialize.

(** The heartbeat of [Main]: no failure matters. *)
Definition heartbeat_file : Boot unit :=
  bcall DeleteHeartbeat;;
  bcall (CreateHeartbeat (Z.of_nat (length kText)));;
  rc ← bcall OpenHeartbeat;
  if rc =? 0 then bcall (WriteHeartbeat kText);; bcall CloseHeartbeat;; mret tt else mret tt.

(** The server manager takes [NumMitmPorts] servers. *)
Definition register_mitm (ports : list (Z * bytes)) (port : Z) (name : bytes) : Boot (list (Z * bytes)) :=
  if (NumMitmPorts <=? length ports)%nat then ([RegisterMitmServer port name], None)
  else R_ABORT_UNLESS (RegisterMitmServer port name);; mret (ports ++ [(port, name)]).

(** The rest of [Main]: the services, given whether [Initialize] succeeded. *)
Definition register_services (initialized : bool) : Boot (list (Z * bytes)) :=
  if negb initialized then ([], None)
  else
    R_ABORT_UNLESS (RegisterObjectForServer ConfigServiceName 2);;
    R_ABORT_UNLESS (CreateThread CfgThread 0x4000 10);;
    bcall (StartThread CfgThread);;
    ports ← register_mitm [] PortIndex_LdnMitm LdnMitmServiceName;
    ports ← register_mitm ports PortIndex_BsdMitm BsdMitmServiceName;
    R_ABORT_UNLESS (CreateThread MainThread 0x8000 6);;
    bcall (StartThread MainThread);;
    bcall (WaitThread MainThread);;
    mret ports.
End boot.

(** ** The sessions of the two ports *)
Inductive Accepted : Set := AcceptLdn | AcceptBsd.
(** [None]: [AMS_ABORT], the module stops. *)
Definition OnNeedsToAccept (port_index : Z) : option Accepted :=
  if port_index =? PortIndex_LdnMitm then Some AcceptLdn
  else if port_index =? PortIndex_BsdMitm then Some AcceptBsd
  else None.

Section served.
Context {O : Type} {RO : RegistryOrder} {IO : InfoOrder}.
Variable sendto : Z -> Z -> Z -> bytes -> O -> O * Z.
Variable fwd : FwdReq -> O -> O * Reply.
Variable nifm_ip : O -> option (Z * Z).
Variable nifm_env : O -> NifmEnv.
Variable nifm_call : NifmCall -> O -> O.
Variable IsApplicationId : Z -> bool.
Let step := console_step sendto fwd nifm_ip nifm_env nifm_call IsApplicationId.

(** [sd_sessions], [sd_objects]: the sessions of ldn:u and the communication
    objects they created, by process. *)
Record Served : Type := mkServed {
  sd_console : Console (O := O);
  sd_sessions : list Z;
  sd_objects : list Z;
  sd_aborted : bool;
}.
Definition sd_world (v : Served) : World O := co_world (sd_console v).

Inductive ServedEvent : Type :=
| SvReload (file : option bytes)
| SvSelect (index : Z)
| SvStart (e : StartEnv) (tick : Z)
| SvStop
| SvRound (i : Round) (tick now : Z)
| SvAccept (port program_id pid forward_service : Z)
| SvBsdCmd (i : nat) (cmd : Cmd)
| SvBsdClose (i : nat)
| SvBsdCleanup
| SvLdnCreate (session : nat)
| SvLdnCmd (i : nat) (c : LdnCmd) (e : VipEnv)
| SvLdnClose (i : nat).

Definition set_console (v : Served) (c : Console) : Served :=
  mkServed c (sd_sessions v) (sd_objects v) (sd_aborted v).
Definition on_console (v : Served) (e : ConsoleEvent) : Served := set_console v (step (sd_console v) e).

(** A command of a communication object: [Initialize] asks the runtime for the
    address and nifm for its state. *)
Definition ldn_command (c : LdnCmd) (e : VipEnv) (co : Console) : Console :=
  match c with
  | LInitialize _ _ | LInitializeSystem2 _ _ _ =>
      set_shared co (ldn_initialize sendto nifm_env nifm_call e (co_shared co))
  | _ => on_ldn sendto nifm_call (fun r => ldn_serve r c) co
  end.

Definition served_event (e : ServedEvent) (v : Served) : Served :=
  match e with
  | SvReload file => on_console v (CoReload file)
  | SvSelect i => on_console v (CoSelect i)
  | SvStart e tick => on_console v (CoStart e tick)
  | SvStop => on_console v CoStop
  | SvRound i tick now => on_console v (CoRound i tick now)
  | SvAccept port program_id pid h =>
      match OnNeedsToAccept port with
      | None => mkServed (sd_console v) (sd_sessions v) (sd_objects v) true
      | Some AcceptLdn =>
          if LdnMitMService_ShouldMitm (running (sd_world v)) (IsApplicationId program_id)
          then mkServed (sd_console v) (sd_sessions v ++ [pid]) (sd_objects v) (sd_aborted v) else v
      | Some AcceptBsd => on_console v (CoOpen program_id pid h)
      end
  | SvBsdCmd i cmd => on_console v (CoCmd i cmd)
  | SvBsdClose i => on_console v (CoClose i)
  | SvBsdCleanup => on_console v CoCleanup
  | SvLdnCreate session =>
      match sd_sessions v !! session with
      | Some pid => mkServed (sd_console v) (sd_sessions v) (sd_objects v ++ [pid]) (sd_aborted v)
      | None => v
      end
  | SvLdnCmd i c e =>
      match sd_objects v !! i with
      | Some _ => set_console v (ldn_command c e (sd_console v))
      | None => v
      end
  | SvLdnClose i =>
      match sd_objects v !! i with
      | Some _ =>
          let w := sd_world v in
          mkServed (on_ldn sendto nifm_call (fun _ => LdnICommunicationService_delete (nifm_env (w_out w)))
                      (sd_console v))
            (sd_sessions v) (delete i (sd_objects v)) (sd_aborted v)
      | None => v
      end
  end.
(** Nothing happens once the module has stopped. *)
Definition served_step (v : Served) (e : ServedEvent) : Served :=
  if decide (w_fault (sd_world v) = None /\ sd_aborted v = false) then served_event e v else v.
Definition served_run : Served -> list ServedEvent -> Served := foldl served_step.

(** [Main]: the console of Console.v between the heartbeat and the services,
    which need [LdnControl::Initialize] to succeed. *)
Definition BootMain (result : BootCall -> Z) (servers vid : option bytes) (e1 e2 : VipEnv) (o : O)
    : Boot (list (Z * bytes) * Served) :=
  InitializeSystemModule result;;
  heartbeat_file result;;
  let initialized := ldn_initialized sendto nifm_env nifm_call e2 (Main_wired servers vid e1 o) in
  ports ← register_services result (bool_decide (initialized.2 = Some R_OK));
  mret (ports, mkServed (Main sendto nifm_env nifm_call servers vid e1 e2 o) [] [] false).
End served.

(** ** What boot leaves *)
Definition required (c : BootCall) : bool :=
  match c with
  | SmInitialize | MountSdCard | NifmInitialize | BsdInitialize | SocketInitialize
  | RegisterObjectForServer _ _ | CreateThread _ _ _ | RegisterMitmServer _ _ => true
  | _ => false
  end.
(** The calls of a boot that succeeds, in order. *)
Definition boot_calls (heartbeat : bool) : list BootCall :=
  [SmInitialize; FsInitializeForSystem; FsSetAllocator; FsSetEnabledAutoAbort false; MountSdCard;
   NifmInitialize; BsdInitialize; SocketInitialize; DeleteHeartbeat; CreateHeartbeat 18; OpenHeartbeat] ++
  (if heartbeat then [WriteHeartbeat kText; CloseHeartbeat] else []) ++
  [RegisterObjectForServer ConfigServiceName 2; CreateThread CfgThread 0x4000 10; StartThread CfgThread;
   RegisterMitmServer PortIndex_LdnMitm LdnMitmServiceName; RegisterMitmServer PortIndex_BsdMitm BsdMitmServiceName;
   CreateThread MainThread 0x8000 6; StartThread MainThread; WaitThread MainThread].
(** The calls up to the first required one that fails, and whether none does. *)
Fixpoint until_failure (result : BootCall -> Z) (l : list BootCall) : list BootCall * bool :=
  match l with
  | [] => ([], true)
  | c :: l =>
      if required c && negb (result c =? 0) then ([c], false)
      else let '(k, ok) := until_failure result l in (c :: k, ok)
  end.

(** A part of boot whose calls are [l], with the value [a] if none fails. *)
Definition does (result : BootCall -> Z) {A} (m : Boot A) (l : list BootCall) (a : A) : Prop :=
  (m.1, bool_decide (is_Some m.2)) = until_failure result l /\ forall x, m.2 = Some x -> x = a.

Lemma until_failure_app result l k :
  until_failure result (l ++ k) =
  if (until_failure result l).2
  then ((until_failure result l).1 ++ (until_failure result k).1, (until_failure result k).2)
  else until_failure result l.
Proof.
  induction l as [|c l IH]; cbn [app until_failure]; [by destruct (until_failure result k)|].
  destruct (required c && _); [done|]. rewrite IH.
  destruct (until_failure result l) as [l1 []]; cbn [fst snd]; [|done]. by destruct (until_failure result k).
Qed.

Section does.
Variable result : BootCall -> Z.
Lemma does_ret {A} (a : A) : does result (mret a) [] a.
Proof. split; [by rewrite bool_decide_true by (by eexists)|]. by intros x [= <-]. Qed.
Lemma does_bind {A B} (m : Boot A) (f : A -> Boot B) l k a b :
  does result m l a -> does result (f a) k b -> does result (m ≫= f) (l ++ k) b.
Proof.
  intros [H1 H2] [H3 H4]. unfold does, mbind, Boot_bind. rewrite until_failure_app, <- H1, <- H3. cbn [fst snd].
  destruct (m.2) as [x|] eqn:E; cbn [fst snd].
  - pose proof (H2 x eq_refl) as ->. rewrite (bool_decide_true (is_Some (Some a))) by (by eexists). by split.
  - rewrite !bool_decide_false by (by intros []). by split.
Qed.
Lemma does_call c : required c = false -> does result (bcall result c) [c] (result c).
Proof.
  intros H. split; cbn [until_failure bcall fst snd]; [rewrite H; cbn [andb]; by rewrite bool_decide_true by (by eexists)|].
  by intros x [= <-].
Qed.
Lemma does_required c : required c = true -> does result (R_ABORT_UNLESS result c) [c] tt.
Proof.
  intros H. split; [|by intros []]. cbn [until_failure R_ABORT_UNLESS fst snd]. rewrite H.
  destruct (result c =? 0); cbn [andb negb]; [by rewrite bool_decide_true by (by eexists)|].
  by rewrite bool_decide_false by (by intros []).
Qed.
Lemma does_mitm ports port name :
  (length ports < NumMitmPorts)%nat ->
  does result (register_mitm result ports port name) [RegisterMitmServer port name] (ports ++ [(port, name)]).
Proof.
  intros H. unfold register_mitm. rewrite (proj2 (Nat.leb_gt _ _) H).
  change [RegisterMitmServer port name] with ([RegisterMitmServer port name] ++ []).
  eapply does_bind; [by apply does_required|apply does_ret].
Qed.
Ltac does_step :=
  lazymatch goal with
  | |- does _ (mbind _ _) _ _ => eapply does_bind
  | |- does _ (mret _) _ _ => apply does_ret
  | |- does _ (bcall _ _) _ _ => by apply does_call
  | |- does _ (R_ABORT_UNLESS _ _) _ _ => by apply does_required
  | |- does _ (register_mitm _ _ _ _) _ _ => apply does_mitm; by apply Nat.ltb_lt
  end.

Lemma does_init : does result (InitializeSystemModule result)
  [SmInitialize; FsInitializeForSystem; FsSetAllocator; FsSetEnabledAutoAbort false; MountSdCard;
   NifmInitialize; BsdInitialize; SocketInitialize] tt.
Proof.
  unfold InitializeSystemModule.
  change (does result ?m [?a; ?b; ?c; ?d; ?e; ?f; ?g; ?h] ?x) with
    (does result m ([a] ++ [b] ++ [c] ++ [d] ++ [e] ++ [f] ++ [g] ++ [h]) x).
  repeat does_step.
Qed.
Lemma does_heartbeat : does result (heartbeat_file result)
  ([DeleteHeartbeat; CreateHeartbeat 18; OpenHeartbeat] ++
   if result OpenHeartbeat =? 0 then [WriteHeartbeat kText; CloseHeartbeat] else []) tt.
Proof.
  unfold heartbeat_file. change ([?a; ?b; ?c] ++ ?l) with ([a] ++ [b] ++ [c] ++ l). repeat does_step.
  destruct (result OpenHeartbeat =? 0); [|does_step].
  change [?a; ?b] with ([a] ++ [b] ++ []). repeat does_step.
Qed.
Lemma does_services : does result (register_services result true)
  [RegisterObjectForServer ConfigServiceName 2; CreateThread CfgThread 0x4000 10; StartThread CfgThread;
   RegisterMitmServer PortIndex_LdnMitm LdnMitmServiceName; RegisterMitmServer PortIndex_BsdMitm BsdMitmServiceName;
   CreateThread MainThread 0x8000 6; StartThread MainThread; WaitThread MainThread]
  [(PortIndex_LdnMitm, LdnMitmServiceName); (PortIndex_BsdMitm, BsdMitmServiceName)].
Proof.
  unfold register_services. cbn [negb].
  change (does result ?m [?a; ?b; ?c; ?d; ?e; ?f; ?g; ?h] ?x) with
    (does result m ([a] ++ [b] ++ [c] ++ [d] ++ [e] ++ [f] ++ [g] ++ [h] ++ []) x).
  repeat does_step.
Qed.
End does.

Section boot_props.
Context {O : Type} {RO : RegistryOrder} {IO : InfoOrder}.
Variable sendto : Z -> Z -> Z -> bytes -> O -> O * Z.
Variable nifm_env : O -> NifmEnv.
Variable nifm_call : NifmCall -> O -> O.

Lemma ldn_initialized_ok e (x : Shared (World O)) :
  (ldn_initialized sendto nifm_env nifm_call e x).2 = Some R_OK.
Proof.
  unfold ldn_initialized. destruct (GetVirtualIp _ _ _) as [txt vid]. unfold run_ldn.
  set (w := set_wvid _ vid). set (nf := nifm_env _).
  destruct (Initialize_address txt nf (w_ldn w)) as (l & outs & -> & _). done.
Qed.

(** Boot makes its calls in order up to the first required one that fails, where
    it stops; the heartbeat file is not required.  Otherwise it serves ldn:u and
    bsd:u on ports that [OnNeedsToAccept] knows, with the console of [Main]
    behind them. *)
Lemma boot_outcome result servers vid e1 e2 o :
  does result (BootMain sendto nifm_env nifm_call result servers vid e1 e2 o)
    (boot_calls (result OpenHeartbeat =? 0))
    ([(PortIndex_LdnMitm, LdnMitmServiceName); (PortIndex_BsdMitm, BsdMitmServiceName)],
     mkServed (Main sendto nifm_env nifm_call servers vid e1 e2 o) [] [] false).
Proof.
  unfold BootMain. rewrite ldn_initialized_ok, bool_decide_true by done.
  set (v0 := mkServed _ [] [] false).
  assert (forall (hb : bool) l0, boot_calls hb ++ l0 =
    [SmInitialize; FsInitializeForSystem; FsSetAllocator; FsSetEnabledAutoAbort false; MountSdCard;
     NifmInitialize; BsdInitialize; SocketInitialize] ++
    ([DeleteHeartbeat; CreateHeartbeat 18; OpenHeartbeat] ++ if hb then [WriteHeartbeat kText; CloseHeartbeat] else []) ++
    [RegisterObjectForServer ConfigServiceName 2; CreateThread CfgThread 0x4000 10; StartThread CfgThread;
     RegisterMitmServer PortIndex_LdnMitm LdnMitmServiceName; RegisterMitmServer PortIndex_BsdMitm BsdMitmServiceName;
     CreateThread MainThread 0x8000 6; StartThread MainThread; WaitThread MainThread] ++ l0) as Hl
    by (intros [] l0; reflexivity).
  rewrite <- (app_nil_r (boot_calls _)), Hl.
  eapply (does_bind result); [apply does_init|]. eapply (does_bind result); [apply does_heartbeat|].
  eapply (does_bind result); [apply does_services|apply does_ret].
Qed.
End boot_props.

(** ** Over every history *)
Section served_props.
Context {O : Type} {RO : RegistryOrder} {IO : InfoOrder}.
Variable sendto : Z -> Z -> Z -> bytes -> O -> O * Z.
Variable fwd : FwdReq -> O -> O * Reply.
Variable nifm_ip : O -> option (Z * Z).
Variable nifm_env : O -> NifmEnv.
Variable nifm_call : NifmCall -> O -> O.
Variable IsApplicationId : Z -> bool.
Let sstep := served_step sendto fwd nifm_ip nifm_env nifm_call IsApplicationId.
Let srun := served_run sendto fwd nifm_ip nifm_env nifm_call IsApplicationId.
Implicit Types v : Served (O := O).

(** Sessions come on the registered ports; arguments have their C types. *)
Definition served_ok (ports : list (Z * bytes)) (e : ServedEvent) : Prop :=
  match e with
  | SvRound i _ _ => round_bytes i
  | SvAccept port _ _ _ => port ∈ ports.*1
  | SvBsdCmd _ cmd => cmd_ok cmd
  | SvLdnCmd _ c _ => ldn_cmd_ok c
  | _ => True
  end.

Lemma console_inv_later n m (c : Console (O := O)) : n <= m -> console_inv n c -> console_inv m c.
Proof. exact (console_inv_mono sendto fwd nifm_ip nifm_env nifm_call IsApplicationId n m c). Qed.

Lemma console_inv_step n e c :
  console_event_ok e -> n + 1 < 2 ^ 32 -> console_inv n c ->
  console_inv (n + 1) (console_step sendto fwd nifm_ip nifm_env nifm_call IsApplicationId c e).
Proof.
  intros He Hn H. unfold console_step. case_decide; [by apply console_inv_event|].
  apply (console_inv_later n); [lia|done].
Qed.

Lemma ldn_command_inv n c e co :
  ldn_cmd_ok c -> console_inv n co -> console_inv n (ldn_command sendto nifm_env nifm_call c e co).
Proof.
  intros Hc H. assert (console_inv n (on_ldn sendto nifm_call (fun r => ldn_serve r c) co)) as Hl.
  { apply console_inv_ldn; [done|]. intros r a s' o E. eapply ldn_serve_reachable; [apply (ci_ldn n co H)|exact Hc|exact E]. }
  destruct c; try exact Hl; by apply (console_inv_initialize sendto fwd nifm_ip nifm_env nifm_call IsApplicationId n e co).
Qed.

Lemma delete_object_inv n nf co :
  console_inv n co -> console_inv n (on_ldn sendto nifm_call (fun _ => LdnICommunicationService_delete nf) co).
Proof.
  intros H. apply console_inv_ldn; [done|]. intros r [] s' o E.
  exact (reach_call true (CFinalize nf) _ _ _ (ci_ldn n co H) I E).
Qed.

Definition boot_ports : list (Z * bytes) :=
  [(PortIndex_LdnMitm, LdnMitmServiceName); (PortIndex_BsdMitm, BsdMitmServiceName)].
Definition served_inv (n : Z) v : Prop := console_inv n (sd_console v) /\ sd_aborted v = false.

Lemma served_inv_step n e v :
  served_ok boot_ports e -> n + 1 < 2 ^ 32 -> served_inv n v -> served_inv (n + 1) (sstep v e).
Proof.
  intros He Hn [H Ha]. unfold sstep, served_step. case_decide; [|split; [|done]; by apply (console_inv_later n); [lia|]].
  assert (served_inv (n + 1) v) as Hv by (split; [|done]; apply (console_inv_later n); [lia|done]).
  assert (forall ce, console_event_ok ce -> served_inv (n + 1)
    (on_console sendto fwd nifm_ip nifm_env nifm_call IsApplicationId v ce)) as Hc
    by (intros ce Hce; split; [by apply console_inv_step|done]).
  assert (forall co, console_inv n co -> console_inv (n + 1) co) as Hm by (intros co; apply console_inv_later; lia).
  destruct e as [f|i|e t| |i t k|port prog pid h|i cmd|i| |k|i c e|i]; cbn [served_event served_ok] in *;
    try (apply Hc; done).
  - assert (port = PortIndex_LdnMitm \/ port = PortIndex_BsdMitm) as [-> | ->]
      by (cbn in He; rewrite !elem_of_cons in He; destruct He as [He|[He|He%elem_of_nil]]; [by left|by right|done]).
    + cbn. destruct (LdnMitMService_ShouldMitm _ _); [|done]. split; [|done]. apply Hm, H.
    + by apply Hc.
  - destruct (sd_sessions v !! k); [|done]. split; [|done]. apply Hm, H.
  - destruct (sd_objects v !! i); [|done]. split; [|done]. by apply Hm, ldn_command_inv.
  - destruct (sd_objects v !! i); [|done]. split; [|done]. by apply Hm, delete_object_inv.
Qed.

Lemma served_inv_run evs : forall n v,
  Forall (served_ok boot_ports) evs -> n + Z.of_nat (length evs) < 2 ^ 32 -> served_inv n v ->
  served_inv (n + Z.of_nat (length evs)) (srun v evs).
Proof.
  induction evs as [|e evs IH]; intros n v He Hn H; [by rewrite Z.add_0_r|].
  cbn [length] in Hn. apply Forall_cons_1 in He as [He Hevs].
  replace (n + Z.of_nat (length (e :: evs))) with (n + 1 + Z.of_nat (length evs)) by (cbn [length]; lia).
  change (srun v (e :: evs)) with (srun (sstep v e) evs). apply IH; [done|lia|].
  apply served_inv_step; [done|lia|done].
Qed.


(** ** When a game is gone *)

(** A console in no network, with nothing to say. *)
Definition hushed (x : Shared (World O)) : Prop :=
  idle (w_ldn (g_world x)) /\ w_frames (g_world x) = [] /\ w_fault (g_world x) = None.

Lemma hushed_out x o : hushed x -> hushed (set_gworld x (set_wout (g_world x) o)).
Proof. done. Qed.
Lemma hushed_route x p : hushed x -> hushed (route x p).
Proof.
  destruct p as [a d]. intros (H1 & H2 & H3). unfold route. cbv zeta.
  assert (IsKnownSessionPeer (w_ldn (g_world x)) (pa_source_ip a) = Some true) as ->.
  { unfold IsKnownSessionPeer, in_session. destruct H1 as (Hs & _ & _). by rewrite Hs. }
  by destruct (IsLanModePort (pa_dest_port a)).
Qed.
Lemma hushed_frame now x src d :
  hushed x -> hushed (@Tunnel.OnControlFrame _ (console_sink (O := O) now) src d x).
Proof.
  intros (H1 & H2 & H3). cbn [Tunnel.OnControlFrame console_sink].
  destruct (quiet_frame (running (g_world x)) now src d (w_ldn (g_world x)) H1) as (l & E & Hl). rewrite E.
  unfold hushed. mitm_cbn. w_cbn. by rewrite H2.
Qed.
Lemma hushed_tick tick x :
  hushed x -> hushed (ldn_tick sendto nifm_call tick x) /\
  w_tun (g_world (ldn_tick sendto nifm_call tick x)) = w_tun (g_world x).
Proof.
  intros (H1 & H2 & H3). unfold ldn_tick, run_ldn.
  destruct (quiet_tick (running (g_world x)) tick (w_ldn (g_world x)) H1) as (l & E & Hl). rewrite E. cbn [foldl fst].
  unfold hushed. mitm_cbn. w_cbn. done.
Qed.

(** A round leaves it so, and sends no packet: the identification is not used. *)
Lemma hushed_round n i tick now c :
  console_inv n c -> round_bytes i -> m_thread_running (w_rt (co_world c)) = true -> hushed (co_shared c) ->
  let c' := loop_round sendto nifm_call i tick now c in
  hushed (co_shared c') /\ g_ip_id (w_tun (co_world c')) = g_ip_id (w_tun (co_world c)).
Proof.
  intros H Hb Hr Hh. pose proof (ci_rt n c H) as [Hsys _].
  set (l := mkLoop (sys_of (co_shared c)) (co_last_keepalive c) (co_fails c)).
  assert (sys_inv (l_sys l)) as Hl by (by eapply sys_inv_world).
  pose proof (keepalive_sys_inv sendto i l Hl Hr) as Hk.
  pose proof (keepalive_kept sendto hushed hushed_out i l Hh) as Sk.
  destruct (keepalive_frame (console_sendto sendto) i l) as (_ & K2 & _).
  set (k := keepalive _ i l) in *. set (x1 := of_sys (l_sys k)).
  destruct (hushed_tick tick x1 Sk) as [S2 T2]. set (x2 := ldn_tick sendto nifm_call tick x1) in *.
  assert (tun_inv (s_tun (sys_of x2))) as Ti.
  { change (s_tun (sys_of x2)) with (w_tun (g_world x2)). rewrite T2. apply (inv_tun _ Hk). }
  destruct (dispatch_ok (TunnelSink0 := console_sink now) (console_sendto sendto) console_sha1 i (sys_of x2) Ti Hb)
    as (s & b & E & _).
  pose proof (dispatch_kept sendto hushed hushed_out now i _ _ _ hushed_route
    (fun x src d _ _ => hushed_frame now x src d) Ti Hb S2 E) as (S3 & F3 & W3).
  destruct (dispatch_fields sendto now _ _ _ _ E) as [_ D2].
  assert (co_shared (loop_round sendto nifm_call i tick now c) = send_frames sendto nifm_call (of_sys s)) as Ec.
  { unfold loop_round. fold l. fold k. cbv zeta. unfold co_shared at 2 3. cbn [co_server sv_shared]. fold x1 x2.
    unfold set_shared, co_shared. cbn [co_server sv_shared]. by rewrite E. }
  assert (send_frames sendto nifm_call (of_sys s) = set_gworld (of_sys s) (set_wframes (g_world (of_sys s)) [])) as Ef.
  { unfold send_frames. cbv zeta. change (w_frames (g_world (of_sys s))) with (w_frames (g_world (s_world s))). by rewrite F3. }
  cbv zeta. unfold co_world at 1. rewrite Ec, Ef. split; [by split_and!|]. etransitivity; [exact D2|].
  change (s_tun (sys_of x2)) with (w_tun (g_world x2)). rewrite T2.
  change (w_tun (g_world x1)) with (s_tun (l_sys k)). by rewrite K2.
Qed.

Lemma nifm_outs_run outs (w : World O) :
  Forall (fun x => match x with ONifm _ => True | OFrame _ _ => False end) outs ->
  exists o, foldl (ldn_out sendto nifm_call) w outs = set_wout w o.
Proof.
  intros H. revert w. induction H as [|[dst buf|c] outs Hx _ IH]; intros w; cbn [foldl]; [|done|].
  - exists (w_out w). by destruct w.
  - cbn [ldn_out]. destruct (IH (set_wout w (nifm_call c (w_out w)))) as [o ->]. by exists o.
Qed.

Definition sv_round (r : Round * Z * Z) : ServedEvent := SvRound r.1.1 r.1.2 r.2.

Lemma hushed_rounds n rs : forall v,
  served_inv n v -> hushed (co_shared (sd_console v)) -> Forall (fun r => round_bytes r.1.1) rs ->
  let v' := srun v (sv_round <$> rs) in
  served_inv n v' /\ hushed (co_shared (sd_console v')) /\ sd_objects v' = sd_objects v /\
  g_ip_id (w_tun (sd_world v')) = g_ip_id (w_tun (sd_world v)).
Proof.
  induction rs as [|[[i tick] now] rs IH]; intros v Hv Hh Hb; [done|]. apply Forall_cons_1 in Hb as [Hb Hbs].
  cbn [fst snd] in Hb. cbv zeta.
  change (srun v (sv_round <$> (i, tick, now) :: rs)) with (srun (sstep v (SvRound i tick now)) (sv_round <$> rs)).
  pose proof Hv as [Hi Ha]. pose proof Hh as (_ & _ & Hf).
  assert (sstep v (SvRound i tick now) = set_console v
    (if m_thread_running (w_rt (co_world (sd_console v))) then loop_round sendto nifm_call i tick now (sd_console v)
     else sd_console v)) as ->.
  { unfold sstep, served_step. rewrite decide_True by done. cbn [served_event].
    unfold on_console, console_step. by rewrite decide_True by done. }
  destruct (m_thread_running (w_rt (co_world (sd_console v)))) eqn:Er.
  - destruct (hushed_round n i tick now _ Hi Hb Er Hh) as [H1 H2].
    destruct (IH (set_console v (loop_round sendto nifm_call i tick now (sd_console v)))) as (A & B & C & D);
      [split; [by apply console_inv_round|done]|exact H1|exact Hbs|].
    split; [exact A|]. split; [exact B|]. split; [exact C|]. rewrite D. exact H2.
  - exact (IH (set_console v (sd_console v)) Hv Hh Hbs).
Qed.

(** C13: A game that is gone leaves a console that says nothing.  When the ldn:u
    object of a game is destroyed, the module leaves its network, drops its
    stations and local network mode, and from then on, whatever frames the relay
    sends in whatever rounds, nothing of it ever leaves through the tunnel (no
    packet takes an identification), no frame stops the module, and every part
    keeps its invariant.  The object need not be the one that hosts: all of them
    share the control plane. *)
Theorem gone_game_is_silent n v i pid rs :
  console_inv n (sd_console v) -> w_fault (sd_world v) = None -> sd_aborted v = false ->
  sd_objects v !! i = Some pid -> Forall (fun r => round_bytes r.1.1) rs ->
  let v' := srun (sstep v (SvLdnClose i)) (sv_round <$> rs) in
  console_inv n (sd_console v') /\ w_fault (sd_world v') = None /\ sd_aborted v' = false /\
  sd_objects v' = delete i (sd_objects v) /\
  LdnControl.m_state (w_ldn (sd_world v')) = CS_None /\ StationCount (w_ldn (sd_world v')) = 0%nat /\
  m_local_network_mode (w_ldn (sd_world v')) = false /\
  g_ip_id (w_tun (sd_world v')) = g_ip_id (w_tun (sd_world v)).
Proof.
  intros H Hf Ha Hi Hb. cbv zeta. unfold sstep, served_step. rewrite decide_True by done. cbn [served_event]. rewrite Hi.
  cbv zeta. set (nf := nifm_env (w_out (sd_world v))).
  pose proof (delete_object_inv n nf _ H) as Hinv.
  destruct (delete_idle nf (w_ldn (sd_world v))) as (l & o & E & Hl & Ho).
  destruct (nifm_outs_run o (set_wldn (sd_world v) l) Ho) as [out Eo].
  set (v1 := mkServed _ _ _ _).
  assert (sd_world v1 = set_wout (set_wldn (sd_world v) l) out) as Ew.
  { unfold v1, sd_world at 1, on_ldn, run_ldn, co_world, set_shared, co_shared at 1. cbn [sd_console co_server sv_shared]. mitm_cbn.
    fold (co_world (sd_console v)). change (co_world (sd_console v)) with (sd_world v). rewrite E. cbn [fst]. by rewrite Eo. }
  assert (hushed (co_shared (sd_console v1))) as Hh.
  { unfold hushed. change (g_world (co_shared (sd_console v1))) with (sd_world v1). rewrite Ew. w_cbn.
    split; [exact Hl|]. split; [exact (ci_frames n _ H)|exact Hf]. }
  destruct (hushed_rounds n rs v1 (conj Hinv Ha) Hh Hb) as ([A1 A2] & ((B1 & B2 & B3) & B4 & B5) & C & D).
  split_and!; try done. rewrite D, Ew. done.
Qed.
End served_props.

(** ** A boot to run: a game hosts, then closes *)
Definition demo_module : list BootCall * option (list (Z * bytes) * Served) :=
  BootMain demo_out (fun _ => LdnSession.demo_nifm) (fun _ l => l) (fun _ => 0) Runtime.demo_config (demo_stored 7)
    (demo_vip false) (demo_vip false) (@nil bytes).
Definition demo_booted : Served :=
  match demo_module.2 with
  | Some (_, v) => v
  | None => mkServed (demo_boot None) [] [] true
  end.
Definition demo_sstep := served_step demo_out demo_fwd (fun _ => None) (fun _ => LdnSession.demo_nifm) (fun _ l => l)
  (fun pid => pid =? 80).
Definition demo_srun := served_run demo_out demo_fwd (fun _ => None) (fun _ => LdnSession.demo_nifm) (fun _ l => l)
  (fun pid => pid =? 80).
Definition demo_hosting_events : list ServedEvent :=
  [SvSelect 0; SvStart demo_begin 0; SvAccept PortIndex_LdnMitm 80 1000 77; SvLdnCreate 0;
   SvLdnCmd 0 (LInitialize [] LdnSession.demo_nifm) (demo_vip false);
   SvLdnCmd 0 (LOpenAccessPoint LdnSession.demo_nifm) (demo_vip false);
   SvLdnCmd 0 (LCreateNetwork LdnSession.demo_config (replicate 16 9) (replicate 16 8)) (demo_vip false)].
Definition demo_hosting_module : Served := demo_srun demo_booted demo_hosting_events.

Lemma demo_hosting_events_ok : Forall (served_ok boot_ports) demo_hosting_events.
Proof.
  unfold demo_hosting_events, served_ok. repeat apply Forall_cons_2; try done; [|apply LdnSession.demo_config_ok].
  apply elem_of_cons. by left.
Qed.

Lemma demo_module_serves : demo_module.2 = Some (boot_ports, demo_booted).
Proof.
  unfold demo_booted. pose proof (boot_outcome demo_out (fun _ => LdnSession.demo_nifm) (fun _ l => l) (fun _ => 0)
    Runtime.demo_config (demo_stored 7) (demo_vip false) (demo_vip false) []) as [H1 H2].
  fold demo_module in H1, H2. destruct (demo_module.2) as [[p v]|].
  - pose proof (f_equal fst (H2 _ eq_refl)) as Hp. cbn [fst] in Hp. by rewrite Hp.
  - exfalso. apply (f_equal snd) in H1. vm_compute in H1. discriminate.
Qed.
Lemma demo_booted_inv : served_inv 0 demo_booted.
Proof.
  pose proof (boot_outcome demo_out (fun _ => LdnSession.demo_nifm) (fun _ l => l) (fun _ => 0)
    Runtime.demo_config (demo_stored 7) (demo_vip false) (demo_vip false) []) as [_ H].
  fold demo_module in H. specialize (H _ demo_module_serves). apply (f_equal snd) in H. cbn [snd] in H. rewrite H.
  split; [apply console_inv_Main|reflexivity].
Qed.
Lemma demo_quiet_bytes f : is_bytes f -> round_bytes (demo_quiet f).
Proof. by intros H d [= <-]. Qed.


(** The scan of another console finds no network any more. *)
Lemma gone_game_is_silent_witness :
  LdnControl.m_state (w_ldn (sd_world demo_hosting_module)) = CS_AccessPointCreated /\
  let scan := SLP_TYPE_IPV4 :: udp_packet 0x0A0D2503 ControlPort 0x0A0DC807 ControlPort 1
                (control_frame LanPacket_Scan 1 []) in
  let v := demo_srun (demo_sstep demo_hosting_module (SvLdnClose 0)) [SvRound (demo_quiet scan) 0 0] in
  LdnControl.m_state (w_ldn (sd_world v)) = CS_None /\
  g_ip_id (w_tun (sd_world v)) = g_ip_id (w_tun (sd_world demo_hosting_module)).
Proof.
  split; [vm_compute; reflexivity|]. intros scan.
  assert (is_bytes scan) as Hb by (apply is_bytes_decide; by vm_compute).
  destruct (served_inv_run demo_out demo_fwd (fun _ => None) (fun _ => LdnSession.demo_nifm) (fun _ l => l)
    (fun pid => pid =? 80) demo_hosting_events 0 demo_booted demo_hosting_events_ok eq_refl demo_booted_inv) as [H1 H2].
  pose proof (gone_game_is_silent demo_out demo_fwd (fun _ => None) (fun _ => LdnSession.demo_nifm) (fun _ l => l)
    (fun pid => pid =? 80) 7 demo_hosting_module 0 1000 [(demo_quiet scan, 0, 0)] H1
    ltac:(vm_compute; reflexivity) H2 ltac:(vm_compute; reflexivity)
    (Forall_cons_2 _ (demo_quiet scan, 0, 0) [] (demo_quiet_bytes scan Hb) (Forall_nil_2 _)))
    as (_ & _ & _ & _ & A & _ & _ & B).
  exact (conj A B).
Defined.
